(* ===== verification/_CoqProject ===== *)
-Q . S2P
Prelude.v
Bytes.v
Frames.v
Pmm.v
Kbuf.v
Ipc.v
Fd.v
Gdt.v
Task.v
Cpu.v
Paging.v
Spaces.v
Mmap.v
Str.v
Vfs.v
Ramfs.v
Elf.v
Syscall.v
Process.v
Block.v
Fat32.v
FatSpec.v
FatDir.v
Font.v
Io.v
Writer.v
Pci.v
Acpi.v
Ahci.v
AhciSpec.v
Serial.v
Irq.v
Handlers.v
Smp.v
Bringup.v
Entry.v
User.v
Shell.v
Loader.v
Bootmem.v
Boot.v
Session.v
Main.v
MainSpec.v
