(* ===== verification/Prelude.v ===== *)
(** * The ROSS kernel and its boot loader: a verification library

    ROSS is an x86_64 kernel in Rust ([src/ross-kernel]) with a UEFI loader
    ([src/rb-loader]), structures the two share ([src/ross-common]) and two
    user programs ([src/ross-user]).  This library models the kernel and the
    loader as they are written and proves what each part is there for.

    ** How the program is modelled

    A computation over a state [S] is an [M S A]: the statics and the locked
    structures a function touches are passed explicitly.  It ends in [Ret], in
    [Panic] (an overflow check of the dev profile [boot.sh] builds, an index
    out of range, an [expect]) or in [Diverge] (the fuel of a loop the source
    does not bound is used up).  [result] is Rust's [Result], [x ←? m; k] its
    question mark.  A [w]-bit integer is a [Z] with its wrap-around or its
    overflow check written out ([wrap], [cadd], [csub], [cmul]); strings and
    buffers are lists of bytes; physical and kernel memory is a total function
    from addresses to bytes ([Bytes.mem]).  What is not in the repository is a
    parameter with the documented behaviour it is relied on for: hardware
    ([Io.Hardware] and one contract class per device), the firmware
    ([Loader.Firmware]), the linker's addresses ([Spaces.Statics],
    [Smp.Layout]), the heap allocator (the address of a new kernel stack).

    ** The parts, and the file that models each

    Memory.  [Pmm]: the page bitmap, [pmm.rs].  [Frames]: what the other parts
    rely on when they call it, a class [Pmm] is an instance of.  [Paging],
    [Spaces]: the four-level tables, [paging.rs] - the walk, [map_user_page],
    [init], [create_user_address_space] - against the translation the
    processor makes ([Spaces.translate]).  [Mmap]: [mmap.rs] and the bytes a
    process sees.

    Tasks and calls.  [Gdt], [Cpu]: the descriptor tables, [gdt.rs] and
    [idt.rs], what the processor makes of them.  [Task]: contexts, the
    scheduler and the timer's stub, [task.rs].  [Elf]: [elf.rs] and the loading
    half of [spawn_process].  [Ipc], [Fd]: pipes and descriptor tables,
    [ipc.rs], [fd.rs].  [Syscall]: [syscall_dispatch] over the whole kernel's
    state, [syscall.rs]; [Process]: what a process observes.  [Entry]: the
    MSRs, the [syscall] instruction and the assembly stub; [User]: the two
    programs of [src/ross-user], by the calls they make.

    Files and disks.  [Vfs]: the trait [VfsNode] as a class and the mount
    table, [vfs.rs].  [Ramfs]: the tar archive, [ramfs.rs].  [Block]: the
    interface between file system and disk.  [Fat32], [FatSpec], [FatDir]: the
    driver [fat32.rs], the files and the directories it keeps.  [Ahci],
    [AhciSpec]: the driver [ahci.rs], shown to be an instance of [Block.BlockLaws].

    Devices.  [Kbuf]: the scan code ring, [kbuf.rs].  [Font], [Writer]: the
    framebuffer terminal.  [Io], [Serial], [Irq], [Pci], [Acpi], [Smp]: port
    accesses, [serial.rs], [pic.rs] with [pit.rs] and [lapic.rs], [pci.rs],
    [acpi.rs], [smp.rs].  [Handlers]: the handlers of [idt.rs] and
    [keyboard.rs].

    The system put together.  [Loader]: [rb-loader].  [Bootmem], [Bringup],
    [Boot]: stages of [kernel_main] - memory; the first tasks, interrupt
    controllers and processors; mounts, screens and the event loop.  [Main]:
    [kernel_main] from its first line, these stages and the set-up of the other
    files run on one machine.  [MainSpec]: what it establishes.  [Shell]:
    [shell.rs]; [Session]: two commands at the prompt and a restart.  A key
    press goes from [Handlers.handler] into the ring of [Kbuf], from there through
    [Boot.drain] to [Shell.handle_byte], whose commands call [Vfs.open] and
    [Syscall.spawn_process]; the latter builds the process with [Elf.load_elf]
    on [Paging], [Spaces] and a [Frames] allocator, and [Task] runs it; its
    calls come back through [Entry] and [Syscall].

    [Prelude], [Bytes] and [Str] hold what the parts share: the monad, its run
    lemmas and its loops, machine integers, tactics; little-endian words in
    memory; Rust's string functions.

    ** What the theorems show

    - Refinement of an abstract state: the page allocator is a set of free
      pages, [map_user_page] an insertion into the map of user pages, the ring
      and the pipes are queues, the line editor edits a list, the event loop
      serves a queue, the AHCI driver is a disk of sectors.
    - What an operation does on every branch: ELF loading byte by byte, FAT32
      writing, reading, listing and creating, [brk], [mmap], [read], [open], [create], tar parsing,
      PCI and ACPI discovery, device set-up by the data sheets' contracts.
    - Invariants over histories: the scheduler neither loses nor duplicates a
      task and starves none; under every interleaving of the atomic accesses
      the ring loses no key; drawing stays in the framebuffer; no input
      breaks the shell.
    - Round trips: contexts, tar archives, files of the disk, the MADT, a pipe
      between processes.
    - Composition: [Loader.loader_spec] ends where [Bootmem.boot_memory_spec]
      begins.  [MainSpec.kernel_main_spec] takes one machine through all of
      [kernel_main] up to the event loop, where [Boot.event_loop_spec] takes
      over; it is put together from what the parts promise, each stage shown to
      leave alone what the others set up ([Bootmem.boot_vm],
      [AhciSpec.ahci_init_ok], [Boot.mount_fat_run], [Bringup.bring_up_spec],
      and [Elf.load_elf_ok] for the programs that run afterwards).
      [Boot.mounts_spec] puts the two file systems together,
      [Entry.system_call_spec] ends in [syscall_dispatch], and [User.hello_spec]
      runs a whole program through it.  [FatDir.fat_persistence] follows a file
      of the disk through create, write, lookup and read, [Session.session_spec]
      from the prompt to the disk and across a restart.

    ** Fuel and bounds

    Loops over ranges take no fuel.  [Ramfs.TarFileSystem_new] has fuel for one
    turn per block and is total; [Boot.drain] has 256 turns more than interrupt
    batches, since at most 255 keys wait; [Bootmem.clear_bss] has one turn per
    byte; [Shell.digits] one per decimal digit of a 64-bit number.  Polling
    loops with a bound in the source are [Io.poll] with that bound; those
    without ([lapic.rs], [serial.rs], FAT chains) take fuel as a parameter, and
    the theorems ask for the number of turns the device's contract (or the
    length of the chain) makes necessary.

    ** Not modelled

    The heap ([heap.rs]), which hands a static array to an external
    allocator: an allocation succeeds.  Caches, memory ordering weaker than
    sequential consistency, write protection and the accessed and dirty bits.
    The log lines of [acpi.rs], [lapic.rs] and [smp.rs].  The bodies of the
    demo tasks of [main.rs], [common.rs] and the scratch files, which no crate
    includes. *)

From Stdlib Require Export ZArith Lia.
From stdpp Require Export base numbers list gmap fin_sets.

#[global] Open Scope Z_scope.

Declare Scope ross_scope.
Delimit Scope ross_scope with ross.

(** ** Outcomes: values, panics, exhausted fuel *)

(** A run of a piece of kernel code ends with a value, with a Rust panic
    (arithmetic overflow in the dev profile [boot.sh] builds, an index out of
    range, [expect]/[unwrap] on nothing), or has used up the fuel given to a
    loop that the source does not bound. *)
Inductive outcome (A : Type) : Type :=
  | Ret (a : A)
  | Panic
  | Diverge.
Arguments Ret {A} a.
Arguments Panic {A}.
Arguments Diverge {A}.

(** Rust's [Result<A, E>]. *)
Inductive result (A E : Type) : Type :=
  | Ok (a : A)
  | Err (e : E).
Arguments Ok {A E} a.
Arguments Err {A E} e.

#[global] Instance outcome_ret : MRet outcome := fun A a => Ret a.

#[global] Instance outcome_bind : MBind outcome :=
  fun A B f m => match m with Ret a => f a | Panic => Panic | Diverge => Diverge end.

#[global] Instance outcome_fmap : FMap outcome :=
  fun A B f m => match m with Ret a => Ret (f a) | Panic => Panic | Diverge => Diverge end.

#[global] Instance outcome_eq_dec {A} `{EqDecision A} : EqDecision (outcome A).
Proof. solve_decision. Defined.

#[global] Instance result_eq_dec {A E} `{EqDecision A, EqDecision E} :
  EqDecision (result A E).
Proof. solve_decision. Defined.

(** ** State passing

    [M S A] is a computation over the state [S]: the state of the statics and
    of the locked structures it touches is passed explicitly. *)
Definition M (S A : Type) : Type := S -> outcome (A * S).

#[global] Instance M_ret {S} : MRet (M S) := fun A a s => Ret (a, s).

#[global] Instance M_bind {S} : MBind (M S) :=
  fun A B f m s =>
    match m s with Ret (a, s') => f a s' | Panic => Panic | Diverge => Diverge end.

Definition get {S} : M S S := fun s => Ret (s, s).
Definition put {S} (s : S) : M S unit := fun _ => Ret (tt, s).
Definition panic {S A} : M S A := fun _ => Panic.
Definition lift {S A} (o : outcome A) : M S A :=
  fun s => match o with Ret a => Ret (a, s) | Panic => Panic | Diverge => Diverge end.

(** The question-mark operator of Rust inside an [M] computation: [Err e]
    leaves the function at once, with the state as it is then. *)
Definition try_bind {S A B E} (m : M S (result A E)) (f : A -> M S (result B E)) :
  M S (result B E) :=
  r ← m; match r with Ok a => f a | Err e => mret (Err e) end.

Notation "x '←?' m ; k" := (try_bind m (fun x => k))
  (at level 20, m at level 100, k at level 200, right associativity,
   format "x  '←?'  m ;  '/' k") : ross_scope.
#[global] Open Scope ross_scope.

(** Show the plumbing of a computation. *)
Ltac unfold_m :=
  unfold try_bind, mbind, M_bind, mret, M_ret, get, put, panic, lift; cbv beta.

Lemma run_bind {S A B} (m : M S A) (f : A -> M S B) s a s' :
  m s = Ret (a, s') -> (m ≫= f) s = f a s'.
Proof. intros Hm. unfold mbind, M_bind. by rewrite Hm. Qed.

Lemma run_bind_inv {S A B} (m : M S A) (f : A -> M S B) s b s' :
  (m ≫= f) s = Ret (b, s') -> exists a s1, m s = Ret (a, s1) /\ f a s1 = Ret (b, s').
Proof. unfold mbind, M_bind. destruct (m s) as [[a s1]| |]; try done. intros Hr. by exists a, s1. Qed.

Lemma run_try {S A B E} (m : M S (result A E)) (f : A -> M S (result B E)) s a s' :
  m s = Ret (Ok a, s') -> try_bind m f s = f a s'.
Proof. intros Hm. unfold_m. by rewrite Hm. Qed.

Lemma run_try_err {S A B E} (m : M S (result A E)) (f : A -> M S (result B E)) s e s' :
  m s = Ret (Err e, s') -> try_bind m f s = Ret (Err e, s').
Proof. intros Hm. unfold_m. by rewrite Hm. Qed.

(** ** Loops over ranges *)

(** [for i in lo..hi { f(i) }]. *)
Fixpoint for_range {S} (n : nat) (i : Z) (f : Z -> M S unit) : M S unit :=
  match n with
  | O => mret tt
  | S n => f i;; for_range n (i + 1) f
  end.

Definition for_in {S} (lo hi : Z) (f : Z -> M S unit) : M S unit := for_range (Z.to_nat (hi - lo)) lo f.

Lemma for_range_inv {S} (P : Z -> S -> Prop) (f : Z -> M S unit) n : forall lo s,
  (forall i s, lo <= i < lo + Z.of_nat n -> P i s -> exists s', f i s = Ret (tt, s') /\ P (i + 1) s') ->
  P lo s -> exists s', for_range n lo f s = Ret (tt, s') /\ P (lo + Z.of_nat n) s'.
Proof.
  induction n as [|n IH]; intros lo s Hf HP; cbn [for_range].
  - exists s. rewrite Z.add_0_r. done.
  - destruct (Hf lo s) as (s1 & R1 & HP1); [lia|done|].
    destruct (IH (lo + 1) s1) as (s2 & R2 & HP2); [intros i s' Hi; apply Hf; lia|done|].
    exists s2. rewrite (run_bind _ _ _ _ _ R1). split; [done|].
    by replace (lo + Z.of_nat (Datatypes.S n)) with (lo + 1 + Z.of_nat n) by lia.
Qed.

(** A loop whose body keeps an invariant. *)
Lemma for_in_inv {S} (P : Z -> S -> Prop) (f : Z -> M S unit) lo hi s :
  lo <= hi -> (forall i s, lo <= i < hi -> P i s -> exists s', f i s = Ret (tt, s') /\ P (i + 1) s') ->
  P lo s -> exists s', for_in lo hi f s = Ret (tt, s') /\ P hi s'.
Proof.
  intros Hle Hf HP. destruct (for_range_inv P f (Z.to_nat (hi - lo)) lo s) as (s' & R & HP'); [|done|].
  - intros i s' Hi. apply Hf. lia.
  - exists s'. split; [done|]. by replace hi with (lo + Z.of_nat (Z.to_nat (hi - lo))) by lia.
Qed.

Lemma for_in_empty {S} lo hi (f : Z -> M S unit) s : hi <= lo -> for_in lo hi f s = Ret (tt, s).
Proof. intros Hle. unfold for_in. by replace (Z.to_nat (hi - lo)) with 0%nat by lia. Qed.

(** ** Machine integers

    A [w]-bit unsigned integer is a [Z] in [[0, 2^w)]. *)
Definition fits (w x : Z) : Prop := 0 <= x < 2 ^ w.
#[global] Instance fits_dec w x : Decision (fits w x).
Proof. unfold fits; apply _. Defined.

Notation is_byte := (fits 8).

Definition wrap (w x : Z) : Z := x mod 2 ^ w.

(** Checked addition, subtraction and multiplication: the dev profile panics
    on overflow. *)
Definition cadd (w a b : Z) : outcome Z :=
  if a + b <? 2 ^ w then Ret (a + b) else Panic.
Definition csub (a b : Z) : outcome Z :=
  if b <=? a then Ret (a - b) else Panic.
Definition cmul (w a b : Z) : outcome Z :=
  if a * b <? 2 ^ w then Ret (a * b) else Panic.

(** [usize::saturating_sub]. *)
Definition sat_sub (a b : Z) : Z := Z.max 0 (a - b).

(** [!x] at width [w]. *)
Definition notw (w x : Z) : Z := Z.lxor x (2 ^ w - 1).

(** Rust's [slice[i]]. *)
Definition index {A} (l : list A) (i : Z) : outcome A :=
  if i <? 0 then Panic
  else match l !! Z.to_nat i with Some x => Ret x | None => Panic end.

(** ** Tactics *)

(** Split conjunctions and existentials of the context, and substitute. *)
Ltac split_hyps :=
  repeat match goal with
  | H : _ /\ _ |- _ => destruct H
  | H : exists _, _ |- _ => destruct H
  | p : (_ * _)%type |- _ => destruct p
  end; simplify_eq/=.

(** Case analysis on every boolean comparison of integers in sight. *)
Ltac bool_lia :=
  repeat match goal with
  | H : context [?a <? ?b] |- _ => destruct (Z.ltb_spec a b)
  | H : context [?a <=? ?b] |- _ => destruct (Z.leb_spec a b)
  | H : context [?a =? ?b] |- _ => destruct (Z.eqb_spec a b)
  | |- context [?a <? ?b] => destruct (Z.ltb_spec a b)
  | |- context [?a <=? ?b] => destruct (Z.leb_spec a b)
  | |- context [?a =? ?b] => destruct (Z.eqb_spec a b)
  end; simplify_eq/=; try lia.

(** Linear arithmetic with division and remainder by constants. *)
Ltac dm_lia := Z.div_mod_to_equations; lia.

Create HintDb ross.

(** ** Lists *)

Section lists.
Context {A : Type}.
Implicit Types l : list A.

Lemma lookup_total_insert_Z `{Inhabited A} l i j x :
  0 <= i -> 0 <= j -> (Z.to_nat i < length l)%nat ->
  <[Z.to_nat i := x]> l !!! Z.to_nat j = if decide (i = j) then x else l !!! Z.to_nat j.
Proof.
  intros Hi Hj Hlen. case_decide as Heq; subst.
  - rewrite list_lookup_total_insert_eq; done.
  - rewrite list_lookup_total_insert_ne; [done|lia].
Qed.

Lemma replicate_lookup_total_Z `{Inhabited A} n (x : A) i :
  (i < n)%nat -> replicate n x !!! i = x.
Proof. intros. by apply lookup_total_replicate_2. Qed.
End lists.

Lemma Forall_lookup_total_byte (l : list Z) (i : nat) :
  Forall is_byte l -> is_byte (l !!! i).
Proof.
  intros H. rewrite list_lookup_total_alt. destruct (l !! i) as [b|] eqn:E; simpl.
  - by eapply Forall_lookup_1.
  - unfold fits; simpl. lia.
Qed.

(** The index of the first free slot of a table, numbered from [i]. *)
Fixpoint first_none {A} (slots : list (option A)) (i : Z) : option Z :=
  match slots with
  | [] => None
  | None :: _ => Some i
  | Some _ :: rest => first_none rest (i + 1)
  end.

Lemma first_none_some {A} (l : list (option A)) k i :
  first_none l k = Some i ->
  k <= i < k + Z.of_nat (length l) /\ l !! Z.to_nat (i - k) = Some None /\
  forall j, k <= j < i -> exists x, l !! Z.to_nat (j - k) = Some (Some x).
Proof.
  revert k. induction l as [|[x|] l IH]; intros k; simpl; [done| |].
  - intros Hf. apply IH in Hf as (Hr & Hlk & Hmin). split; [lia|].
    replace (Z.to_nat (i - k)) with (S (Z.to_nat (i - (k + 1)))) by lia.
    split; [done|]. intros j Hj. destruct (decide (j = k)) as [->|].
    + rewrite Z.sub_diag. by exists x.
    + replace (Z.to_nat (j - k)) with (S (Z.to_nat (j - (k + 1)))) by lia. apply Hmin. lia.
  - intros [= ->]. rewrite Z.sub_diag. split_and!; [lia|lia|done|intros; lia].
Qed.

Lemma first_none_none {A} (l : list (option A)) k :
  first_none l k = None -> forall j, (j < length l)%nat -> exists x, l !! j = Some (Some x).
Proof.
  revert k. induction l as [|[x|] l IH]; intros k; simpl; [intros; lia| |done].
  intros Hf [|j] Hj; [by exists x|]. simpl. eapply IH; [done|lia].
Qed.

(** [find] in two lists, past what does not match, and in vain. *)
Lemma find_ext {A} (f g : A -> bool) l : Forall (fun x => f x = g x) l -> List.find f l = List.find g l.
Proof. induction 1 as [|x l E _ IH]; [done|]. cbn. by rewrite E, IH. Qed.

Lemma find_app {A} (f : A -> bool) l1 l2 :
  List.find f (l1 ++ l2) = match List.find f l1 with Some x => Some x | None => List.find f l2 end.
Proof. induction l1 as [|x l1 IH]; [done|]. cbn. by destruct (f x). Qed.

Lemma find_first {A} (p : A -> bool) l1 x l2 :
  Forall (fun y => p y = false) l1 -> p x = true -> List.find p (l1 ++ x :: l2) = Some x.
Proof. intros H1 Hx. rewrite find_app. induction H1 as [|y l1 Hy _ IH]; cbn [List.find]; [by rewrite Hx|]. by rewrite Hy. Qed.

Lemma find_nowhere {A} (p : A -> bool) l : Forall (fun x => p x = false) l <-> List.find p l = None.
Proof.
  induction l as [|x l IH]; cbn [List.find]; [split; [done|by constructor]|]. rewrite Forall_cons, IH. destruct (p x); naive_solver.
Qed.

(** ** Bits *)

(** Bit [j] after setting bit [i]. *)
Lemma testbit_set b i j :
  0 <= i -> 0 <= j ->
  Z.testbit (Z.lor b (Z.shiftl 1 i)) j = Z.testbit b j || (i =? j).
Proof.
  intros. rewrite Z.lor_spec, Z.shiftl_1_l, Z.pow2_bits_eqb by lia. done.
Qed.

Lemma testbit_ones w j : 0 <= w -> 0 <= j -> Z.testbit (2 ^ w - 1) j = (j <? w).
Proof.
  intros. replace (2 ^ w - 1) with (Z.ones w) by (rewrite Z.ones_equiv; lia).
  rewrite Z.testbit_ones_nonneg by lia. done.
Qed.

(** Bit [j] of a byte after clearing bit [i]. *)
Lemma testbit_clear b i j :
  0 <= i < 8 -> 0 <= j < 8 ->
  Z.testbit (Z.land b (notw 8 (Z.shiftl 1 i))) j = Z.testbit b j && negb (i =? j).
Proof.
  intros. unfold notw.
  rewrite Z.land_spec, Z.lxor_spec, Z.shiftl_1_l, Z.pow2_bits_eqb, testbit_ones by lia.
  replace (j <? 8) with true by (symmetry; apply Z.ltb_lt; lia). done.
Qed.

(** The mask test of the source, [b & (1 << i) != 0]. *)
Lemma land_bit_test b i : 0 <= i -> (Z.land b (Z.shiftl 1 i) =? 0) = negb (Z.testbit b i).
Proof.
  intros. rewrite Z.shiftl_1_l. destruct (Z.testbit b i) eqn:E; simpl.
  - apply Z.eqb_neq. intros H0.
    assert (Z.testbit (Z.land b (2 ^ i)) i = true) as H1.
    { rewrite Z.land_spec, E, Z.pow2_bits_true by lia. done. }
    rewrite H0, Z.bits_0 in H1. done.
  - apply Z.eqb_eq. apply Z.bits_inj'. intros n Hn.
    rewrite Z.land_spec, Z.bits_0, Z.pow2_bits_eqb by lia.
    destruct (Z.eqb_spec i n); subst; rewrite ?E; simpl; by rewrite ?andb_false_r.
Qed.

(** The bits of a [w]-bit integer are below [w], and conversely. *)
Lemma fits_testbit w x n : fits w x -> w <= n -> Z.testbit x n = false.
Proof.
  intros [H1 H2] Hn. destruct (Z.eq_dec x 0) as [->|Hx]; [apply Z.bits_0|].
  apply Z.bits_above_log2; [done|].
  assert (Z.log2 x < w); [|lia]. apply Z.log2_lt_pow2; lia.
Qed.

Lemma fits_of_bits w x :
  0 <= w -> (forall n, w <= n -> Z.testbit x n = false) -> fits w x.
Proof.
  intros Hw Hb.
  assert (x = Z.land x (Z.ones w)) as ->.
  { apply Z.bits_inj'. intros n Hn. rewrite Z.land_spec, Z.testbit_ones_nonneg by lia.
    destruct (Z.ltb_spec n w); [by rewrite andb_true_r|].
    rewrite Hb by done. done. }
  rewrite Z.land_ones by done. apply Z.mod_pos_bound, Z.pow_pos_nonneg; lia.
Qed.

Lemma fits_lor w a b : 0 <= w -> fits w a -> fits w b -> fits w (Z.lor a b).
Proof.
  intros Hw Ha Hb. apply fits_of_bits; [done|]. intros n Hn.
  by rewrite Z.lor_spec, (fits_testbit w a), (fits_testbit w b).
Qed.

Lemma fits_land_l w a b : 0 <= w -> fits w a -> fits w (Z.land a b).
Proof.
  intros Hw Ha. apply fits_of_bits; [done|]. intros n Hn.
  by rewrite Z.land_spec, (fits_testbit w a).
Qed.

Lemma fits_mod w x : 0 <= w -> fits w (x mod 2 ^ w).
Proof. intros. apply Z.mod_pos_bound, Z.pow_pos_nonneg; lia. Qed.

Lemma fits_mono v w x : 0 <= v <= w -> fits v x -> fits w x.
Proof.
  unfold fits. intros. assert (2 ^ v <= 2 ^ w) by (apply Z.pow_le_mono_r; lia). lia.
Qed.

Lemma byte_shiftl1 i : 0 <= i < 8 -> is_byte (Z.shiftl 1 i).
Proof.
  unfold fits. intros. rewrite Z.shiftl_1_l. split; [lia|]. apply Z.pow_lt_mono_r; lia.
Qed.

#[export] Hint Resolve fits_lor fits_land_l fits_mod byte_shiftl1 Forall_lookup_total_byte : ross.

(** ** Bit-level equality

    [bitwise] proves an equation between expressions built from [Z.lor],
    [Z.land], shifts and reductions modulo powers of two, by comparing every
    bit. *)

Lemma testbit_mod_pow2 a k n : 0 <= k -> 0 <= n -> Z.testbit (a mod 2 ^ k) n = (n <? k) && Z.testbit a n.
Proof.
  intros. destruct (Z.ltb_spec n k); simpl.
  - by apply Z.mod_pow2_bits_low.
  - apply Z.mod_pow2_bits_high. lia.
Qed.

Lemma testbit_zones k n : 0 <= k -> 0 <= n -> Z.testbit (Z.ones k) n = (n <? k).
Proof. intros. by apply Z.testbit_ones_nonneg. Qed.

Lemma land_mask_mod a k : 0 <= k -> Z.land a (Z.ones k) = a mod 2 ^ k.
Proof. intros. by apply Z.land_ones. Qed.

(** The source masks with literals [2^k - 1]. *)
Lemma land_mask a m k : 0 <= k -> m = Z.ones k -> Z.land a m = a mod 2 ^ k.
Proof. intros ? ->. by apply Z.land_ones. Qed.

Create HintDb bits.
#[export] Hint Rewrite Z.lor_spec Z.land_spec Z.lxor_spec : bits.
#[export] Hint Rewrite Z.shiftl_spec Z.shiftr_spec testbit_mod_pow2 testbit_zones using lia : bits.

(** Decide the comparisons of bit positions, dropping the bits out of range. *)
Ltac bit_cases :=
  repeat match goal with
  | |- context [?a <? ?b] => destruct (Z.ltb_spec a b); try lia; simpl
  | H : fits ?w ?x |- context [Z.testbit ?x ?n] =>
      rewrite (fits_testbit w x n H) by lia; simpl
  | |- context [Z.testbit ?x ?n] => rewrite (Z.testbit_neg_r x n) by lia; simpl
  | |- context [Z.testbit _ (?n - ?k)] =>
      lazymatch goal with
      | _ : n < k |- _ => fail
      | _ : k <= n |- _ => fail
      | _ => destruct (Z.lt_ge_cases n k)
      end
  end.

Ltac bitwise :=
  apply Z.bits_inj'; intros n Hn; repeat (autorewrite with bits; bit_cases);
  rewrite ?orb_false_r, ?andb_false_r, ?orb_true_r, ?andb_true_r;
  try done; try (do 2 f_equal; lia); try (f_equal; lia).
