(* ===== verification/Bytes.v ===== *)
(** * Bytes, little-endian words and byte-addressed memory

    What the kernel does with raw memory: [from_le_bytes]/[to_le_bytes], the
    32- and 64-bit loads and stores made through pointers, [fill(0)],
    [write_bytes] and [copy_nonoverlapping].  A memory is a total function from
    addresses to bytes, compared pointwise. *)

From S2P Require Import Prelude.

(** ** Little-endian encodings *)

(** The first [n] bytes of [x], least significant first ([to_le_bytes]). *)
Fixpoint le_bytes (n : nat) (x : Z) : list Z :=
  match n with
  | O => []
  | S n => x mod 256 :: le_bytes n (x / 256)
  end.

(** [from_le_bytes]. *)
Fixpoint le_val (l : list Z) : Z :=
  match l with
  | [] => 0
  | b :: l => b + 256 * le_val l
  end.

Lemma length_le_bytes n x : length (le_bytes n x) = n.
Proof. revert x. induction n; intros x; simpl; auto. Qed.

Lemma le_bytes_byte n x : Forall is_byte (le_bytes n x).
Proof.
  revert x. induction n; intros x; simpl; constructor; [|done].
  apply (fits_mod 8). lia.
Qed.

Lemma pow256_S n : 256 ^ Z.of_nat (S n) = 256 * 256 ^ Z.of_nat n.
Proof. rewrite Nat2Z.inj_succ, Z.pow_succ_r by lia. done. Qed.

Lemma le_val_le_bytes n x : le_val (le_bytes n x) = x mod 256 ^ Z.of_nat n.
Proof.
  revert x. induction n as [|n IH]; intros x.
  - simpl. by rewrite Z.mod_1_r.
  - cbn [le_bytes le_val]. rewrite IH, pow256_S.
    assert (0 < 256 ^ Z.of_nat n) by (apply Z.pow_pos_nonneg; lia).
    rewrite Z.rem_mul_r by lia. done.
Qed.

Lemma le_val_range l : Forall is_byte l -> 0 <= le_val l < 256 ^ Z.of_nat (length l).
Proof.
  induction 1 as [|b l [Hb1 Hb2] _ IH]; [simpl; lia|].
  cbn [le_val length]. rewrite pow256_S. change (2 ^ 8) with 256 in Hb2. nia.
Qed.

Lemma le_bytes_le_val l : Forall is_byte l -> le_bytes (length l) (le_val l) = l.
Proof.
  induction 1 as [|b l [Hb1 Hb2] _ IH]; [done|]. cbn [length le_bytes le_val].
  change (2 ^ 8) with 256 in Hb2. f_equal.
  - rewrite (Z.mul_comm 256), Z.mod_add, Z.mod_small by lia. done.
  - replace ((b + 256 * le_val l) / 256) with (le_val l) by dm_lia. done.
Qed.

Lemma pow256 n : 0 <= n -> 256 ^ n = 2 ^ (8 * n).
Proof. intros. rewrite Z.pow_mul_r by lia. done. Qed.

(** [uN::from_le_bytes(x.to_le_bytes()) = x]. *)
Lemma le_roundtrip n x : fits (8 * Z.of_nat n) x -> le_val (le_bytes n x) = x.
Proof. intros Hx. rewrite le_val_le_bytes, pow256 by lia. by apply Z.mod_small. Qed.

Lemma le_val_fits l n : Forall is_byte l -> length l = n -> fits (8 * Z.of_nat n) (le_val l).
Proof. intros Hl <-. unfold fits. rewrite <- pow256 by lia. by apply le_val_range. Qed.

#[export] Hint Resolve le_bytes_byte : ross.
#[export] Hint Rewrite length_le_bytes : ross.

(** ** Memory *)

Definition mem : Type := Z -> Z.

Definition mem_eq : relation mem := pointwise_relation Z (=).
#[global] Instance mem_equiv : Equiv mem := mem_eq.
#[global] Instance mem_equiv_equivalence : Equivalence (≡@{mem}).
Proof. unfold equiv, mem_equiv, mem_eq. apply _. Qed.

(** All cells hold bytes. *)
Definition mem_ok (m : mem) : Prop := forall a, is_byte (m a).

Fixpoint ld_bytes (m : mem) (a : Z) (n : nat) : list Z :=
  match n with
  | O => []
  | S n => m a :: ld_bytes m (a + 1) n
  end.

Definition ld (n : nat) (m : mem) (a : Z) : Z := le_val (ld_bytes m a n).
Notation ld32 := (ld 4).
Notation ld64 := (ld 8).

(** [ptr::copy_nonoverlapping] of the bytes [l] to [a]. *)
Definition st_bytes (l : list Z) (a : Z) (m : mem) : mem :=
  fun x => if (a <=? x) && (x <? a + Z.of_nat (length l)) then l !!! Z.to_nat (x - a) else m x.

Definition st (n : nat) (a v : Z) (m : mem) : mem := st_bytes (le_bytes n v) a m.
Notation st32 := (st 4).
Notation st64 := (st 8).

(** [ptr::write_bytes(a, v, n)]. *)
Definition fill (a v n : Z) (m : mem) : mem :=
  fun x => if (a <=? x) && (x <? a + n) then v else m x.

(** ** Loads and stores *)

Lemma length_ld_bytes m a n : length (ld_bytes m a n) = n.
Proof. revert a. induction n; intros a; simpl; auto. Qed.

Lemma ld_bytes_byte m a n : mem_ok m -> Forall is_byte (ld_bytes m a n).
Proof. intros Hm. revert a. induction n; intros a; simpl; constructor; auto. Qed.

Lemma ld_bytes_app m n k : forall a, ld_bytes m a (n + k) = ld_bytes m a n ++ ld_bytes m (a + Z.of_nat n) k.
Proof.
  induction n as [|n IH]; intros a; cbn [ld_bytes Nat.add app].
  - by rewrite Z.add_0_r.
  - rewrite IH. do 3 f_equal. lia.
Qed.

Lemma ld_bytes_ext m m' a n :
  (forall x, a <= x < a + Z.of_nat n -> m x = m' x) -> ld_bytes m a n = ld_bytes m' a n.
Proof.
  revert a. induction n as [|n IH]; intros a Hx; simpl; [done|]. f_equal.
  - apply Hx. lia.
  - apply IH. intros. apply Hx. lia.
Qed.

Lemma ld_ext n m m' a : (forall x, a <= x < a + Z.of_nat n -> m x = m' x) -> ld n m a = ld n m' a.
Proof. intros Hx. unfold ld. by rewrite (ld_bytes_ext m m'). Qed.

#[global] Instance ld_proper n : Proper ((≡) ==> (=) ==> (=)) (ld n).
Proof. intros m m' Hm a ? <-. apply ld_ext. intros. apply Hm. Qed.

#[global] Instance st_bytes_proper l a : Proper ((≡) ==> (≡)) (st_bytes l a).
Proof. intros m m' Hm x. unfold st_bytes. destruct (_ && _); [done|apply Hm]. Qed.

#[global] Instance fill_proper a v n : Proper ((≡) ==> (≡)) (fill a v n).
Proof. intros m m' Hm x. unfold fill. destruct (_ && _); [done|apply Hm]. Qed.

Lemma st_bytes_out l a m x : x < a \/ a + Z.of_nat (length l) <= x -> st_bytes l a m x = m x.
Proof. unfold st_bytes. intros. by bool_lia. Qed.

Lemma st_bytes_in l a m (i : nat) :
  (i < length l)%nat -> st_bytes l a m (a + Z.of_nat i) = l !!! i.
Proof.
  intros Hi. unfold st_bytes. bool_lia; simpl; try lia. f_equal. lia.
Qed.

Lemma fill_out a v n m x : x < a \/ a + n <= x -> fill a v n m x = m x.
Proof. unfold fill. intros. by bool_lia. Qed.

Lemma fill_in a v n m x : a <= x < a + n -> fill a v n m x = v.
Proof. unfold fill. intros. by bool_lia. Qed.

Lemma st_bytes_ok l a m : Forall is_byte l -> mem_ok m -> mem_ok (st_bytes l a m).
Proof.
  intros Hl Hm x. unfold st_bytes. destruct (_ && _); [|done]. by apply Forall_lookup_total_byte.
Qed.

Lemma fill_ok a v n m : is_byte v -> mem_ok m -> mem_ok (fill a v n m).
Proof. intros Hv Hm x. unfold fill. by destruct (_ && _). Qed.

Lemma ld_bytes_st_bytes_same l a m : ld_bytes (st_bytes l a m) a (length l) = l.
Proof.
  revert a m. induction l as [|b l IH]; intros a m; cbn [length ld_bytes]; [done|]. f_equal.
  - pose proof (st_bytes_in (b :: l) a m 0 ltac:(simpl; lia)) as H0.
    by rewrite Z.add_0_r in H0.
  - transitivity (ld_bytes (st_bytes l (a + 1) m) (a + 1) (length l)); [|apply IH].
    apply ld_bytes_ext. intros x Hx.
    replace x with (a + 1 + Z.of_nat (Z.to_nat (x - a - 1))) by lia.
    rewrite st_bytes_in by lia.
    replace (a + 1 + Z.of_nat (Z.to_nat (x - a - 1)))
      with (a + Z.of_nat (S (Z.to_nat (x - a - 1)))) by lia.
    by rewrite st_bytes_in by (simpl; lia).
Qed.

(** Reading back what was stored. *)
Lemma ld_st_same n a v m : fits (8 * Z.of_nat n) v -> ld n (st n a v m) a = v.
Proof.
  intros Hv. pose proof (ld_bytes_st_bytes_same (le_bytes n v) a m) as Hs.
  rewrite length_le_bytes in Hs. unfold ld, st. by rewrite Hs, le_roundtrip.
Qed.

(** A store keeps the low bytes of the value. *)
Lemma le_bytes_mod n x : le_bytes n (x mod 256 ^ Z.of_nat n) = le_bytes n x.
Proof.
  rewrite <- le_val_le_bytes. rewrite <- (length_le_bytes n x) at 1.
  apply le_bytes_le_val, le_bytes_byte.
Qed.

Lemma st_mod n a v m : st n a v m = st n a (v mod 2 ^ (8 * Z.of_nat n)) m.
Proof. unfold st. by rewrite <- pow256, le_bytes_mod by lia. Qed.

(** A store elsewhere is not seen. *)
Lemma ld_st_bytes_ne n l a b m :
  b + Z.of_nat n <= a \/ a + Z.of_nat (length l) <= b -> ld n (st_bytes l a m) b = ld n m b.
Proof. intros Hd. apply ld_ext. intros x Hx. apply st_bytes_out. lia. Qed.

Lemma ld_st_ne n k a b v m :
  b + Z.of_nat n <= a \/ a + Z.of_nat k <= b -> ld n (st k a v m) b = ld n m b.
Proof. intros Hd. apply ld_st_bytes_ne. by rewrite length_le_bytes. Qed.

Lemma ld_fill_ne n a v k b m :
  b + Z.of_nat n <= a \/ a + k <= b -> ld n (fill a v k m) b = ld n m b.
Proof. intros Hd. apply ld_ext. intros x Hx. apply fill_out. lia. Qed.

Lemma le_val_zeros n : le_val (replicate n 0) = 0.
Proof. induction n as [|n IH]; [done|]. cbn [replicate le_val]. lia. Qed.

(** A zeroed range reads as zero. *)
Lemma ld_fill_zero n a k b m : a <= b -> b + Z.of_nat n <= a + k -> ld n (fill a 0 k m) b = 0.
Proof.
  intros Ha Hb. transitivity (le_val (replicate n 0)); [|apply le_val_zeros].
  unfold ld. f_equal.
  revert b Ha Hb. induction n as [|n IH]; intros b Ha Hb; simpl; [done|]. f_equal.
  - apply fill_in. lia.
  - apply IH; lia.
Qed.

Lemma ld_fits n m a : mem_ok m -> fits (8 * Z.of_nat n) (ld n m a).
Proof. intros Hm. apply le_val_fits; [by apply ld_bytes_byte|apply length_ld_bytes]. Qed.

Lemma st_ok n a v m : mem_ok m -> mem_ok (st n a v m).
Proof. apply st_bytes_ok, le_bytes_byte. Qed.

#[export] Hint Resolve st_bytes_ok fill_ok st_ok : ross.

(** ** Slices *)

(** [&l[a..b]] and the bytes of a field. *)
Definition sub (l : list Z) (a n : Z) : list Z := take (Z.to_nat n) (drop (Z.to_nat a) l).
Definition slice (l : list Z) (a b : Z) : outcome (list Z) :=
  if (a <=? b) && (b <=? Z.of_nat (length l)) then Ret (sub l a (b - a)) else Panic.

(** [l[o..o + x.len()].copy_from_slice(x)]. *)
Definition splice (l : list Z) (o : Z) (x : list Z) : outcome (list Z) :=
  if o + Z.of_nat (length x) <=? Z.of_nat (length l) then Ret (list_inserts (Z.to_nat o) x l) else Panic.

Lemma length_sub l a n : 0 <= a -> 0 <= n -> a + n <= Z.of_nat (length l) -> length (sub l a n) = Z.to_nat n.
Proof. intros. unfold sub. rewrite length_take, length_drop. lia. Qed.

Lemma sub_app_r l1 l2 a n :
  Z.of_nat (length l1) <= a -> sub (l1 ++ l2) a n = sub l2 (a - Z.of_nat (length l1)) n.
Proof.
  intros Ha. unfold sub. rewrite drop_app_ge by lia. do 2 f_equal. lia.
Qed.

Lemma sub_app_l l1 l2 a n :
  0 <= a -> 0 <= n -> a + n <= Z.of_nat (length l1) -> sub (l1 ++ l2) a n = sub l1 a n.
Proof.
  intros. unfold sub. rewrite drop_app_le by lia. apply take_app_le. rewrite length_drop. lia.
Qed.

Lemma sub_all l n : n = Z.of_nat (length l) -> sub l 0 n = l.
Proof. intros ->. unfold sub. simpl. rewrite Nat2Z.id. apply firstn_all. Qed.
