(* ===== verification/Frames.v ===== *)
(** * The interface between the page allocator and its clients

    What [paging.rs], [mmap.rs], [task.rs] and [ahci.rs] rely on when they call
    [pmm::alloc_page]: a returned frame was free, is page aligned, lies in the
    gigabyte the kernel can address through its higher-half alias, and is no
    longer free afterwards.  [Pmm.v] discharges it; [Paging.v] and the files
    above it are proved against it. *)

From S2P Require Import Prelude.

Class FrameAllocator (St : Type) := {
  (** [pmm::alloc_page]: the physical address of a frame, or [None]. *)
  fa_alloc : St -> option Z * St;
  (** The allocator's own invariant. *)
  fa_ok : St -> Prop;
  (** The frame at this physical address is free. *)
  fa_free : St -> Z -> Prop;
  fa_alloc_some s a s' :
    fa_ok s -> fa_alloc s = (Some a, s') ->
    fa_ok s' /\ fa_free s a /\ (forall b, fa_free s' b <-> fa_free s b /\ b <> a);
  fa_alloc_none s s' :
    fa_ok s -> fa_alloc s = (None, s') -> s' = s /\ forall b, ~ fa_free s b;
  fa_free_aligned s a : fa_ok s -> fa_free s a -> a mod 4096 = 0;
  fa_free_range s a : fa_ok s -> fa_free s a -> 0 <= a < 2 ^ 30
}.

(** Consequences used by every client. *)
Section client.
Context {St : Type} `{FrameAllocator St}.

Lemma fa_alloc_fresh s a s' :
  fa_ok s -> fa_alloc s = (Some a, s') -> fa_free s a /\ ~ fa_free s' a.
Proof.
  intros Hok Ha. destruct (fa_alloc_some _ _ _ Hok Ha) as (_ & Hf & Hiff).
  split; [done|]. rewrite Hiff. naive_solver.
Qed.

Lemma fa_alloc_mono s a s' b :
  fa_ok s -> fa_alloc s = (Some a, s') -> fa_free s' b -> fa_free s b.
Proof.
  intros Hok Ha Hb. destruct (fa_alloc_some _ _ _ Hok Ha) as (_ & _ & Hiff).
  by apply Hiff.
Qed.
(** At least [n] frames are free. *)
Definition has_free (n : nat) (s : St) : Prop :=
  exists l, NoDup l /\ length l = n /\ Forall (fa_free s) l.

Lemma has_free_S n s :
  fa_ok s -> has_free (S n) s ->
  exists a s', fa_alloc s = (Some a, s') /\ has_free n s'.
Proof.
  intros Hok (l & Hnd & Hlen & Hf). destruct (fa_alloc s) as [[a|] s'] eqn:Ha.
  - exists a, s'. split; [done|]. destruct (fa_alloc_some _ _ _ Hok Ha) as (_ & _ & Hiff).
    destruct (decide (a ∈ l)) as [Hin|Hin].
    + apply list_elem_of_split in Hin as (l1 & l2 & ->).
      apply NoDup_app in Hnd as (Hnd1 & Hdis & Hnd2).
      apply NoDup_cons in Hnd2 as [Ha2 Hnd2]. exists (l1 ++ l2). split; [|split].
      * apply NoDup_app. split_and!; [done| |done]. intros x Hx Hx2. apply (Hdis x Hx). by right.
      * rewrite length_app in *. simpl in Hlen. lia.
      * rewrite Forall_forall in *. intros x Hx. apply Hiff. split.
        -- apply Hf. set_solver.
        -- intros ->. apply elem_of_app in Hx as [Hx|Hx]; [|done].
           apply (Hdis a Hx). by left.
    + destruct l as [|b l]; [done|]. exists l. simpl in Hlen.
      apply NoDup_cons in Hnd as [_ Hnd]. split_and!; [done|lia|].
      rewrite Forall_forall in *. intros x Hx. apply Hiff. split; [apply Hf; by right|].
      intros ->. apply Hin. by right.
  - exfalso. destruct (fa_alloc_none _ _ Hok Ha) as [_ Hnone].
    destruct l as [|b l]; [done|]. inversion Hf; subst. by eapply Hnone.
Qed.

(** The frames [l], the last one first, were taken on the way from [s] to [s']. *)
Definition took (l : list Z) (s s' : St) : Prop :=
  fa_ok s' /\ NoDup l /\ Forall (fa_free s) l /\ forall b, fa_free s' b <-> fa_free s b /\ b ∉ l.

Lemma took_nil s : fa_ok s -> took [] s s.
Proof.
  intros Hok. split; [done|]. split; [apply NoDup_nil_2|]. split; [done|]. intros b.
  split; [intros Hb; split; [done|apply not_elem_of_nil]|by intros []].
Qed.

Lemma took_cons l a s0 s s' : took l s0 s -> fa_alloc s = (Some a, s') -> took (a :: l) s0 s'.
Proof.
  intros (Hok & Hnd & Hl & Hiff) Ha. destruct (fa_alloc_some _ _ _ Hok Ha) as (Hok' & Hf & Hiff').
  apply Hiff in Hf as [Hf Hn]. split; [done|]. split; [by apply NoDup_cons|]. split; [by constructor|].
  intros b. rewrite Hiff', Hiff, not_elem_of_cons. naive_solver.
Qed.

Lemma has_free_le n k s : (k <= n)%nat -> has_free n s -> has_free k s.
Proof.
  intros Hle (l & Hnd & Hlen & Hf). exists (take k l). split_and!.
  - apply (NoDup_app (take k l) (drop k l)). by rewrite take_drop.
  - rewrite length_take. lia.
  - by apply Forall_take.
Qed.

End client.

#[export] Hint Resolve fa_alloc_mono : ross.
