(* ===== verification/Pmm.v ===== *)
(** * Physical memory manager ([ross-kernel/src/pmm.rs])

    A bitmap of 32 KB, one bit per 4 KB page, a set bit meaning "in use"; the
    abstraction [free_set] is the set of page numbers whose bit is clear, and
    the operations are shown to refine the obvious operations on that set. *)

From S2P Require Import Prelude Frames.

(** ** Boot memory map ([ross-common/src/lib.rs]) *)

(** @src ross-common/src/lib.rs 6-12 MemoryKind *)
Inductive MemoryKind :=
  | Usable
  | Used
  | Reserved.

#[global] Instance MemoryKind_eq_dec : EqDecision MemoryKind.
Proof. solve_decision. Defined.

(** @src ross-common/src/lib.rs 14-20 MemoryRegion *)
Record MemoryRegion := mkRegion {
  rg_base : Z;
  rg_size : Z;
  rg_kind : MemoryKind
}.

(** ** State *)

(** @src ross-kernel/src/pmm.rs 4-4 PAGE_SIZE *)
Definition PAGE_SIZE : Z := 4096.
(** @src ross-kernel/src/pmm.rs 5-5 BITMAP_BYTES *)
Definition BITMAP_BYTES : Z := 32 * 1024.
(** @src ross-kernel/src/pmm.rs 6-6 MAX_PAGES *)
Definition MAX_PAGES : Z := BITMAP_BYTES * 8.

(** @src ross-kernel/src/pmm.rs 8-12 PmmState *)
Record PmmState := mkPmm {
  bitmap : list Z;
  free_count : Z;
  total_count : Z
}.

(** @src ross-kernel/src/pmm.rs 14-22 PmmState::new *)
Definition PmmState_new : PmmState :=
  {| bitmap := replicate (Z.to_nat BITMAP_BYTES) 0xFF; free_count := 0; total_count := 0 |}.

(** ** Operations *)

(** The body of the innermost loop of [init].
    @src ross-kernel/src/pmm.rs 35-41 init *)
Definition init_page (state : PmmState) (i : Z) : PmmState :=
  let byte := i / 8 in
  let bit := i mod 8 in
  let b := bitmap state !!! Z.to_nat byte in
  if negb (Z.land b (Z.shiftl 1 bit) =? 0) then
    {| bitmap := <[Z.to_nat byte := Z.land b (notw 8 (Z.shiftl 1 bit))]> (bitmap state);
       free_count := free_count state + 1;
       total_count := total_count state + 1 |}
  else state.

(** @src ross-kernel/src/pmm.rs 31-43 init *)
Definition init_region (state : PmmState) (region : MemoryRegion) : PmmState :=
  if decide (rg_kind region = Usable) then
    let start := rg_base region / PAGE_SIZE in
    let pages := rg_size region / PAGE_SIZE in
    foldl init_page state (seqZ start ((start + pages) `min` MAX_PAGES - start))
  else state.

(** [init]; [None] is the null map.
    @src ross-kernel/src/pmm.rs 26-45 init *)
Definition init (map : option (list MemoryRegion)) (state : PmmState) : PmmState :=
  match map with
  | None => state
  | Some regions =>
      if (length regions =? 0)%nat then state else foldl init_region state regions
  end.

(** The loop over the bits of one byte.
    @src ross-kernel/src/pmm.rs 53-59 alloc_page *)
Fixpoint find_bit (byte : Z) (bits : list Z) : option Z :=
  match bits with
  | [] => None
  | bit :: rest =>
      if Z.land byte (Z.shiftl 1 bit) =? 0 then Some bit else find_bit byte rest
  end.

(** The loop over the bytes of the bitmap, from index [byte_idx] on.
    @src ross-kernel/src/pmm.rs 50-60 alloc_page *)
Fixpoint scan_from (bytes : list Z) (byte_idx : Z) : option (Z * Z) :=
  match bytes with
  | [] => None
  | byte :: rest =>
      if byte =? 0xFF then scan_from rest (byte_idx + 1)
      else match find_bit byte (seqZ 0 8) with
           | Some bit => Some (byte_idx, bit)
           | None => scan_from rest (byte_idx + 1)
           end
  end.

(** @src ross-kernel/src/pmm.rs 47-62 alloc_page *)
Definition alloc_page (state : PmmState) : option Z * PmmState :=
  match scan_from (bitmap state) 0 with
  | Some (byte_idx, bit) =>
      (Some ((byte_idx * 8 + bit) * PAGE_SIZE),
       {| bitmap := <[Z.to_nat byte_idx :=
                        Z.lor (bitmap state !!! Z.to_nat byte_idx) (Z.shiftl 1 bit)]>
                      (bitmap state);
          free_count := sat_sub (free_count state) 1;
          total_count := total_count state |})
  | None => (None, state)
  end.

(** @src ross-kernel/src/pmm.rs 64-75 free_page *)
Definition free_page (addr : Z) (state : PmmState) : PmmState :=
  let page := addr / PAGE_SIZE in
  if MAX_PAGES <=? page then state
  else
    let byte := page / 8 in
    let bit := page mod 8 in
    let b := bitmap state !!! Z.to_nat byte in
    if negb (Z.land b (Z.shiftl 1 bit) =? 0) then
      {| bitmap := <[Z.to_nat byte := Z.land b (notw 8 (Z.shiftl 1 bit))]> (bitmap state);
         free_count := free_count state + 1;
         total_count := total_count state |}
    else state.

(** @src ross-kernel/src/pmm.rs 77-77 free_pages *)
Definition free_pages (state : PmmState) : Z := free_count state.
(** @src ross-kernel/src/pmm.rs 78-78 free_mib *)
Definition free_mib (state : PmmState) : Z := free_pages state * PAGE_SIZE / (1024 * 1024).
(** @src ross-kernel/src/pmm.rs 79-79 total_mib *)
Definition total_mib (state : PmmState) : Z := total_count state * PAGE_SIZE / (1024 * 1024).

(** ** Abstraction: the set of free pages *)

Definition page_used (s : PmmState) (p : Z) : bool :=
  Z.testbit (bitmap s !!! Z.to_nat (p / 8)) (p mod 8).

Definition free_set (s : PmmState) : gset Z :=
  list_to_set (filter (fun p => page_used s p = false) (seqZ 0 MAX_PAGES)).

(** The bitmap has its size, holds bytes, and [free_count] counts the free pages. *)
Record pmm_ok (s : PmmState) : Prop := {
  ok_length : length (bitmap s) = Z.to_nat BITMAP_BYTES;
  ok_bytes : Forall is_byte (bitmap s);
  ok_count : free_count s = Z.of_nat (size (free_set s))
}.

Lemma elem_of_free_set s p : p ∈ free_set s <-> 0 <= p < MAX_PAGES /\ page_used s p = false.
Proof.
  unfold free_set. rewrite elem_of_list_to_set, list_elem_of_filter, elem_of_seqZ.
  naive_solver lia.
Qed.

#[global] Opaque free_set.

(** ** Reading and flipping one bit of the bitmap *)

Lemma page_used_update s i b' p fc tc :
  length (bitmap s) = Z.to_nat BITMAP_BYTES -> 0 <= i < BITMAP_BYTES -> 0 <= p ->
  page_used {| bitmap := <[Z.to_nat i := b']> (bitmap s);
               free_count := fc; total_count := tc |} p
  = if decide (i = p / 8) then Z.testbit b' (p mod 8) else page_used s p.
Proof.
  intros Hlen Hi Hp. unfold page_used; simpl.
  rewrite lookup_total_insert_Z by (try rewrite Hlen; try apply Z.div_pos; lia).
  by case_decide.
Qed.

Lemma div8_range p : 0 <= p < MAX_PAGES -> 0 <= p / 8 < BITMAP_BYTES.
Proof. unfold MAX_PAGES, BITMAP_BYTES. intros. dm_lia. Qed.

Lemma mod8_range p : 0 <= p mod 8 < 8.
Proof. apply Z.mod_pos_bound. lia. Qed.

#[export] Hint Resolve div8_range mod8_range : ross.

Lemma divmod8_inj p q : p / 8 = q / 8 -> p mod 8 = q mod 8 -> p = q.
Proof. intros. dm_lia. Qed.

(** Clearing the bit of page [p] frees [p] and nothing else. *)
Lemma page_used_clear s p q fc tc :
  length (bitmap s) = Z.to_nat BITMAP_BYTES -> 0 <= p < MAX_PAGES -> 0 <= q ->
  page_used {| bitmap := <[Z.to_nat (p / 8) :=
                 Z.land (bitmap s !!! Z.to_nat (p / 8)) (notw 8 (Z.shiftl 1 (p mod 8)))]>
                 (bitmap s); free_count := fc; total_count := tc |} q
  = page_used s q && negb (p =? q).
Proof.
  intros Hlen Hp Hq. rewrite page_used_update by auto with ross.
  case_decide as He.
  - rewrite He, testbit_clear by auto with ross. unfold page_used. f_equal. f_equal.
    destruct (Z.eqb_spec (p mod 8) (q mod 8)) as [Hm|Hm], (Z.eqb_spec p q); subst; try done.
    by apply divmod8_inj in Hm.
  - destruct (Z.eqb_spec p q); subst; [done|]. by rewrite andb_true_r.
Qed.

(** Setting the bit of page [p] marks [p] used and nothing else. *)
Lemma page_used_set s p q fc tc :
  length (bitmap s) = Z.to_nat BITMAP_BYTES -> 0 <= p < MAX_PAGES -> 0 <= q ->
  page_used {| bitmap := <[Z.to_nat (p / 8) :=
                 Z.lor (bitmap s !!! Z.to_nat (p / 8)) (Z.shiftl 1 (p mod 8))]>
                 (bitmap s); free_count := fc; total_count := tc |} q
  = page_used s q || (p =? q).
Proof.
  intros Hlen Hp Hq. rewrite page_used_update by auto with ross.
  case_decide as He.
  - rewrite He, testbit_set by apply mod8_range. unfold page_used. f_equal.
    destruct (Z.eqb_spec (p mod 8) (q mod 8)) as [Hm|Hm], (Z.eqb_spec p q); subst; try done.
    by apply divmod8_inj in Hm.
  - destruct (Z.eqb_spec p q); subst; [done|]. by rewrite orb_false_r.
Qed.

Lemma bytes_insert s i b :
  Forall is_byte (bitmap s) -> is_byte b -> Forall is_byte (<[i := b]> (bitmap s)).
Proof. intros. by apply Forall_insert. Qed.

#[export] Hint Resolve bytes_insert : ross.

(** ** Freeing and taking a page, on the abstraction *)

(** The state [init_page] and [free_page] build when the bit is set. *)
Lemma clear_ok s p fc tc :
  pmm_ok s -> 0 <= p < MAX_PAGES -> page_used s p = true -> fc = free_count s + 1 ->
  let s' := {| bitmap := <[Z.to_nat (p / 8) :=
                 Z.land (bitmap s !!! Z.to_nat (p / 8)) (notw 8 (Z.shiftl 1 (p mod 8)))]>
                 (bitmap s); free_count := fc; total_count := tc |} in
  pmm_ok s' /\ free_set s' = {[p]} ∪ free_set s.
Proof.
  intros [Hl Hb Hc] Hp Hu -> s'.
  assert (free_set s' = {[p]} ∪ free_set s) as Hfs.
  { apply set_eq. intros q. rewrite elem_of_union, elem_of_singleton, !elem_of_free_set.
    unfold s'. split.
    - intros [Hq Hf]. rewrite page_used_clear in Hf by (done || lia).
      destruct (Z.eqb_spec p q); subst; [by left|]. right. split; [done|].
      by rewrite andb_true_r in Hf.
    - intros [->|[Hq Hf]].
      + split; [done|]. rewrite page_used_clear by (done || lia).
        by rewrite Z.eqb_refl, andb_false_r.
      + split; [done|]. rewrite page_used_clear by (done || lia). by rewrite Hf. }
  split; [|done]. split; simpl.
  - by rewrite length_insert.
  - apply bytes_insert; auto with ross lia.
  - rewrite Hfs, size_union, size_singleton, Hc; [lia|].
    apply disjoint_singleton_l. rewrite elem_of_free_set, Hu. naive_solver.
Qed.

(** The state [alloc_page] builds. *)
Lemma set_ok s p :
  pmm_ok s -> p ∈ free_set s ->
  let s' := {| bitmap := <[Z.to_nat (p / 8) :=
                 Z.lor (bitmap s !!! Z.to_nat (p / 8)) (Z.shiftl 1 (p mod 8))]> (bitmap s);
               free_count := sat_sub (free_count s) 1; total_count := total_count s |} in
  pmm_ok s' /\ free_set s' = free_set s ∖ {[p]}.
Proof.
  intros [Hl Hb Hc] Hin s'. pose proof Hin as [Hp Hu]%elem_of_free_set.
  assert (free_set s' = free_set s ∖ {[p]}) as Hfs.
  { apply set_eq. intros q. rewrite elem_of_difference, elem_of_singleton, !elem_of_free_set.
    unfold s'. split.
    - intros [Hq Hf]. rewrite page_used_set in Hf by (done || lia).
      apply orb_false_iff in Hf as [Hf Hne]. apply Z.eqb_neq in Hne. naive_solver.
    - intros [[Hq Hf] Hne]. split; [done|]. rewrite page_used_set by (done || lia).
      rewrite Hf. apply Z.eqb_neq. naive_solver. }
  split; [|done]. split; simpl.
  - by rewrite length_insert.
  - apply bytes_insert; [done|]. apply fits_lor; [lia|auto with ross|].
    apply byte_shiftl1, mod8_range.
  - assert (size (free_set s) = S (size (free_set s ∖ {[p]}))) as Hsz.
    { rewrite (union_difference_singleton_L p (free_set s) Hin) at 1.
      rewrite size_union, size_singleton; [lia|set_solver]. }
    rewrite Hfs, Hc. unfold sat_sub. lia.
Qed.

(** ** The bitmap scan finds the first clear bit *)

Lemma find_bit_some byte bits bit :
  Forall (fun b => 0 <= b) bits -> find_bit byte bits = Some bit ->
  exists pre post, bits = pre ++ bit :: post /\ Z.testbit byte bit = false /\
    Forall (fun b => Z.testbit byte b = true) pre.
Proof.
  induction 1 as [|b bits Hb Hbs IH]; simpl; [done|].
  rewrite land_bit_test by done. destruct (Z.testbit byte b) eqn:Hbit; simpl; intros Hf.
  - destruct (IH Hf) as (pre & post & -> & ? & ?). exists (b :: pre), post. naive_solver.
  - simplify_eq. exists [], bits. naive_solver.
Qed.

Lemma find_bit_none byte bits :
  Forall (fun b => 0 <= b) bits -> find_bit byte bits = None ->
  Forall (fun b => Z.testbit byte b = true) bits.
Proof.
  induction 1 as [|b bits Hb Hbs IH]; simpl; [by constructor|].
  rewrite land_bit_test by done. destruct (Z.testbit byte b) eqn:Hbit; simpl; intros Hf; [|done].
  constructor; auto.
Qed.

Lemma seq8_nonneg : Forall (fun b => 0 <= b) (seqZ 0 8).
Proof. apply Forall_forall. intros b Hb%elem_of_seqZ. lia. Qed.

Lemma find_bit8_some byte bit :
  find_bit byte (seqZ 0 8) = Some bit ->
  0 <= bit < 8 /\ Z.testbit byte bit = false /\
  forall j, 0 <= j < bit -> Z.testbit byte j = true.
Proof.
  intros (pre & post & Hsplit & Hbit & Hpre)%find_bit_some; [|apply seq8_nonneg].
  assert (0 <= bit < 0 + 8) as Hr.
  { apply elem_of_seqZ. rewrite Hsplit. set_solver. }
  split; [lia|]. split; [done|]. intros j Hj.
  rewrite Forall_forall in Hpre. apply Hpre.
  assert (seqZ 0 8 !! length pre = Some bit) as Hlk.
  { rewrite Hsplit, lookup_app_r, Nat.sub_diag by lia. done. }
  apply lookup_seqZ in Hlk as [Hlk1 Hlk2].
  assert (seqZ 0 8 !! Z.to_nat j = Some j) as Hlj.
  { apply lookup_seqZ. lia. }
  rewrite Hsplit, lookup_app_l in Hlj by lia. by apply list_elem_of_lookup_2 in Hlj.
Qed.

Lemma find_bit8_none byte :
  find_bit byte (seqZ 0 8) = None -> forall j, 0 <= j < 8 -> Z.testbit byte j = true.
Proof.
  intros Hn j Hj. apply find_bit_none in Hn; [|apply seq8_nonneg].
  rewrite Forall_forall in Hn. apply Hn, elem_of_seqZ. lia.
Qed.

Lemma byte_ff_bits j : 0 <= j < 8 -> Z.testbit 0xFF j = true.
Proof. intros. change 255 with (Z.ones 8). apply Z.ones_spec_low. lia. Qed.

Definition bit_at (bytes : list Z) (k bi j : Z) : bool :=
  Z.testbit (bytes !!! Z.to_nat (bi - k)) j.

(** What the scan of [bytes], numbered from [k], establishes. *)
Definition scan_post (bytes : list Z) (k : Z) (r : option (Z * Z)) : Prop :=
  match r with
  | Some (bi, bit) =>
      k <= bi < k + Z.of_nat (length bytes) /\ 0 <= bit < 8 /\
      bit_at bytes k bi bit = false /\
      (forall bi' j, k <= bi' -> 0 <= j < 8 -> bi' * 8 + j < bi * 8 + bit -> bit_at bytes k bi' j = true)
  | None => forall bi' j, k <= bi' < k + Z.of_nat (length bytes) -> 0 <= j < 8 -> bit_at bytes k bi' j = true
  end.

(** Stepping over a byte with every bit set. *)
Lemma scan_post_cons b bytes k r :
  (forall i, 0 <= i < 8 -> Z.testbit b i = true) ->
  scan_post bytes (k + 1) r -> scan_post (b :: bytes) k r.
Proof.
  intros Hb Hpost.
  assert (forall bi', k + 1 <= bi' ->
            (b :: bytes) !!! Z.to_nat (bi' - k) = bytes !!! Z.to_nat (bi' - (k + 1))) as Hshift.
  { intros bi' Hk. replace (Z.to_nat (bi' - k)) with (S (Z.to_nat (bi' - (k + 1)))) by lia. done. }
  assert (forall bi' j, k <= bi' -> 0 <= j < 8 ->
            (k + 1 <= bi' -> Z.testbit (bytes !!! Z.to_nat (bi' - (k + 1))) j = true) ->
            Z.testbit ((b :: bytes) !!! Z.to_nat (bi' - k)) j = true) as Hcons.
  { intros bi' j Hk Hj Hrest. destruct (decide (bi' = k)) as [->|].
    - rewrite Z.sub_diag. simpl. auto.
    - rewrite Hshift by lia. apply Hrest. lia. }
  unfold scan_post, bit_at in *. simpl length in *. destruct r as [[bi bit]|].
  - destruct Hpost as (Hbi & Hbit & Hf & Hmin). rewrite Hshift by lia.
    split_and!; try lia; [done|]. intros. apply Hcons; auto with lia.
  - intros. apply Hcons; auto with lia.
Qed.

Lemma scan_from_spec bytes k : scan_post bytes k (scan_from bytes k).
Proof.
  revert k. induction bytes as [|b bytes IH]; intros k; cbn [scan_from].
  { unfold scan_post, bit_at; simpl. intros; lia. }
  destruct (Z.eqb_spec b 255) as [->|Hne]; [apply scan_post_cons, IH; apply byte_ff_bits|].
  destruct (find_bit b (seqZ 0 8)) as [bit|] eqn:Hfind.
  - apply find_bit8_some in Hfind as (Hbit & Hf & Hmin).
    cbv beta iota delta [scan_post bit_at]. rewrite Z.sub_diag. simpl length.
    split_and!; try lia; [done|].
    intros bi' j Hk Hj Hlt. assert (bi' = k) as -> by lia. rewrite Z.sub_diag. apply Hmin. lia.
  - apply scan_post_cons, IH. by apply find_bit8_none.
Qed.

(** ** The operations refine operations on the set of free pages *)

(** [alloc_page] never fails while a page is free, and always gives the lowest. *)
Lemma alloc_page_cases s :
  pmm_ok s ->
  (exists p, p ∈ free_set s /\ (forall q, q ∈ free_set s -> p <= q) /\
     exists s', alloc_page s = (Some (p * PAGE_SIZE), s') /\ pmm_ok s' /\
                free_set s' = free_set s ∖ {[p]} /\ total_count s' = total_count s) \/
  (free_set s = ∅ /\ alloc_page s = (None, s)).
Proof.
  intros Hok. pose proof Hok as [Hl Hb Hc].
  pose proof (scan_from_spec (bitmap s) 0) as Hscan. unfold alloc_page, scan_post, bit_at in *.
  destruct (scan_from (bitmap s) 0) as [[bi bit]|].
  - left. destruct Hscan as (Hbi & Hbit & Hf & Hmin).
    rewrite Hl, Z2Nat.id, Z.sub_0_r in * by (vm_compute; congruence).
    exists (bi * 8 + bit).
    assert ((bi * 8 + bit) / 8 = bi /\ (bi * 8 + bit) mod 8 = bit) as [Hd Hm] by (split; dm_lia).
    assert (bi * 8 + bit ∈ free_set s) as Hin.
    { apply elem_of_free_set. unfold page_used, MAX_PAGES. rewrite Hd, Hm. auto with lia. }
    split; [done|]. split.
    + intros q [Hq Hu]%elem_of_free_set. unfold page_used in Hu.
      destruct (decide (bi * 8 + bit <= q)); [done|]. exfalso.
      assert (q / 8 * 8 + q mod 8 = q) by dm_lia.
      pose proof (div8_range q Hq). pose proof (mod8_range q).
      specialize (Hmin (q / 8) (q mod 8)). rewrite Z.sub_0_r in Hmin.
      rewrite Hmin in Hu by lia. done.
    + eexists. split; [reflexivity|].
      destruct (set_ok s _ Hok Hin) as [Hok' Hfs]. by rewrite Hd, Hm in Hok', Hfs.
  - right. split; [|done]. apply set_eq. intros q. split; [|set_solver].
    intros [Hq Hu]%elem_of_free_set. exfalso. unfold page_used in Hu.
    pose proof (div8_range q Hq). pose proof (mod8_range q).
    specialize (Hscan (q / 8) (q mod 8)). rewrite Z.sub_0_r in Hscan.
    rewrite Hscan in Hu; [done| |done]. rewrite Hl. lia.
Qed.

Lemma bitmap_new : bitmap PmmState_new = replicate (Z.to_nat BITMAP_BYTES) 0xFF.
Proof. reflexivity. Qed.

(** The invariant holds before [init] runs: no page is free. *)
Lemma PmmState_new_ok : pmm_ok PmmState_new /\ free_set PmmState_new = ∅.
Proof.
  assert (free_set PmmState_new = ∅) as Hfs.
  { apply elem_of_equiv_empty_L. intros p [Hp Hu]%elem_of_free_set.
    unfold page_used in Hu. rewrite bitmap_new, lookup_total_replicate_2 in Hu.
    - rewrite byte_ff_bits in Hu; [done|apply mod8_range].
    - pose proof (div8_range p Hp). lia. }
  split; [|done]. split.
  - by rewrite bitmap_new, length_replicate.
  - rewrite bitmap_new. apply Forall_replicate. unfold fits; simpl; lia.
  - by rewrite Hfs, size_empty.
Qed.

Lemma init_page_ok s i :
  pmm_ok s -> 0 <= i < MAX_PAGES ->
  pmm_ok (init_page s i) /\ free_set (init_page s i) = {[i]} ∪ free_set s /\
  total_count (init_page s i) - free_count (init_page s i) = total_count s - free_count s.
Proof.
  intros Hok Hi. unfold init_page. rewrite land_bit_test by apply mod8_range.
  destruct (page_used s i) eqn:Hu; pose proof Hu as Hu'; unfold page_used in Hu'; rewrite Hu'; simpl.
  - destruct (clear_ok s i (free_count s + 1) (total_count s + 1) Hok Hi Hu eq_refl) as [? Hfs].
    split_and!; [done|exact Hfs|lia].
  - split_and!; [done| |lia]. symmetry. apply subseteq_union_1_L.
    apply singleton_subseteq_l. by apply elem_of_free_set.
Qed.

Lemma init_pages_ok l : forall s,
  pmm_ok s -> Forall (fun i => 0 <= i < MAX_PAGES) l ->
  let s' := foldl init_page s l in
  pmm_ok s' /\ free_set s' = list_to_set l ∪ free_set s /\
  total_count s' - free_count s' = total_count s - free_count s.
Proof.
  induction l as [|i l IH]; intros s Hok Hl; simpl.
  - split_and!; [done|set_solver|lia].
  - inversion Hl as [|? ? Hi Hl']; subst.
    destruct (init_page_ok s i Hok Hi) as (Hok1 & Hfs1 & Hc1).
    destruct (IH _ Hok1 Hl') as (Hok2 & Hfs2 & Hc2).
    split_and!; [done| |lia]. rewrite Hfs2, Hfs1. set_solver.
Qed.

(** The page numbers one entry of the memory map makes available. *)
Definition region_pages (r : MemoryRegion) : gset Z :=
  if decide (rg_kind r = Usable) then
    list_to_set (seqZ (rg_base r / PAGE_SIZE)
      ((rg_base r / PAGE_SIZE + rg_size r / PAGE_SIZE) `min` MAX_PAGES - rg_base r / PAGE_SIZE))
  else ∅.

Lemma init_region_ok s r :
  pmm_ok s -> 0 <= rg_base r ->
  pmm_ok (init_region s r) /\ free_set (init_region s r) = region_pages r ∪ free_set s /\
  total_count (init_region s r) - free_count (init_region s r) = total_count s - free_count s.
Proof.
  intros Hok Hr. unfold init_region, region_pages. case_decide; [|split_and!; [done|set_solver|lia]].
  apply init_pages_ok; [done|]. apply Forall_forall. intros i Hi%elem_of_seqZ.
  assert (0 <= rg_base r / PAGE_SIZE) by (apply Z.div_pos; [done|unfold PAGE_SIZE; lia]). lia.
Qed.

Lemma init_regions_ok rs : forall s,
  pmm_ok s -> Forall (fun r => 0 <= rg_base r) rs ->
  let s' := foldl init_region s rs in
  pmm_ok s' /\ free_set s' = ⋃ (region_pages <$> rs) ∪ free_set s /\
  total_count s' - free_count s' = total_count s - free_count s.
Proof.
  induction rs as [|r rs IH]; intros s Hok Hrs; simpl.
  - split_and!; [done|set_solver|lia].
  - inversion Hrs as [|? ? Hr Hrs']; subst.
    destruct (init_region_ok s r Hok Hr) as (Hok1 & Hfs1 & Hc1).
    destruct (IH _ Hok1 Hrs') as (Hok2 & Hfs2 & Hc2).
    split_and!; [done| |lia]. rewrite Hfs2, Hfs1. set_solver.
Qed.

Lemma free_page_cases s addr :
  pmm_ok s -> 0 <= addr ->
  pmm_ok (free_page addr s) /\
  free_set (free_page addr s) =
    (if decide (addr / PAGE_SIZE < MAX_PAGES) then {[addr / PAGE_SIZE]} else ∅) ∪ free_set s.
Proof.
  intros Hok Ha. unfold free_page.
  assert (0 <= addr / PAGE_SIZE) by (apply Z.div_pos; [done|unfold PAGE_SIZE; lia]).
  destruct (Z.leb_spec MAX_PAGES (addr / PAGE_SIZE)) as [Hle|Hlt].
  { rewrite decide_False by lia. split; [done|set_solver]. }
  rewrite decide_True by lia. rewrite land_bit_test by apply mod8_range.
  set (p := addr / PAGE_SIZE) in *.
  destruct (page_used s p) eqn:Hu; pose proof Hu as Hu'; unfold page_used in Hu'; rewrite Hu'; simpl.
  - by apply clear_ok.
  - split; [done|]. symmetry. apply subseteq_union_1_L.
    apply singleton_subseteq_l. by apply elem_of_free_set.
Qed.

(** ** The allocator discharges the interface of its clients *)

Definition frame_free (s : PmmState) (a : Z) : Prop :=
  a mod PAGE_SIZE = 0 /\ a / PAGE_SIZE ∈ free_set s.

#[export] Program Instance pmm_frames : FrameAllocator PmmState := {|
  fa_alloc := alloc_page;
  fa_ok := pmm_ok;
  fa_free := frame_free
|}.
Next Obligation.
  intros s a s' Hok Ha.
  destruct (alloc_page_cases s Hok) as [(p & Hp & _ & s1 & Heq & Hok1 & Hfs & _)|[_ Heq]];
    rewrite Heq in Ha; simplify_eq.
  split; [done|]. unfold frame_free. rewrite Hfs, Z.mod_mul, Z.div_mul by (unfold PAGE_SIZE; lia).
  split; [done|]. intros b. rewrite elem_of_difference, elem_of_singleton.
  split; [|intros [[? ?] Hne]; split_and!; try done; intros Hbp; apply Hne].
  - intros [? [? Hne]]. split; [done|]. intros ->. apply Hne.
    by rewrite Z.div_mul by (unfold PAGE_SIZE; lia).
  - rewrite <- Hbp. unfold PAGE_SIZE in *. dm_lia.
Qed.
Next Obligation.
  intros s s' Hok Ha.
  destruct (alloc_page_cases s Hok) as [(p & _ & _ & s1 & Heq & _)|[Hem Heq]];
    rewrite Heq in Ha; simplify_eq.
  split; [done|]. intros b [_ Hb]. rewrite Hem in Hb. set_solver.
Qed.
Next Obligation. by intros s a _ [Hm _]. Qed.
Next Obligation.
  intros s a _ [Hm [Hp _]%elem_of_free_set].
  unfold MAX_PAGES, BITMAP_BYTES, PAGE_SIZE in *. change (2 ^ 30) with 1073741824. dm_lia.
Qed.

(** ** Properties *)

(** C18: [alloc_page] implements "take the lowest free page": under the bitmap
    invariant it answers [None] exactly when no page is free (and then changes
    nothing); otherwise the address it returns is that of the lowest free page,
    page aligned and below 1 GB, that page and only that page stops being free,
    and the invariant (so the exactness of [free_count]) is kept. *)
Theorem alloc_page_refines (s : PmmState) (Hok : pmm_ok s) :
  match alloc_page s with
  | (Some a, s') =>
      exists p, a = p * PAGE_SIZE /\ p ∈ free_set s /\ (forall q, q ∈ free_set s -> p <= q) /\
        free_set s' = free_set s ∖ {[p]} /\ pmm_ok s' /\ 0 <= a < 2 ^ 30
  | (None, s') => free_set s = ∅ /\ s' = s
  end.
Proof.
  destruct (alloc_page_cases s Hok) as [(p & Hp & Hmin & s' & -> & Hok' & Hfs & _)|[Hem ->]]; [|done].
  exists p. split_and!; try done.
  all: apply elem_of_free_set in Hp as [Hp _]; unfold MAX_PAGES, BITMAP_BYTES, PAGE_SIZE in *;
    change (2 ^ 30) with 1073741824; lia.
Qed.

(** [free_page] makes exactly the page of the given address available
    again, ignores addresses past the bitmap, leaves the free set and the
    counters alone on a double free, and undoes an [alloc_page]. *)
Theorem free_page_spec (s : PmmState) (addr : Z) (Hok : pmm_ok s) (Ha : 0 <= addr) :
  pmm_ok (free_page addr s) /\
  free_set (free_page addr s) =
    (if decide (addr / PAGE_SIZE < MAX_PAGES) then {[addr / PAGE_SIZE]} else ∅) ∪ free_set s /\
  (addr / PAGE_SIZE ∈ free_set s -> free_page addr s = s) /\
  (forall a s', alloc_page s = (Some a, s') ->
     free_set (free_page a s') = free_set s /\ free_count (free_page a s') = free_count s).
Proof.
  destruct (free_page_cases s addr Hok Ha) as [Hok' Hfs]. split_and!; [done|done| |].
  - intros [Hp Hu]%elem_of_free_set. unfold free_page.
    destruct (MAX_PAGES <=? _); [done|]. rewrite land_bit_test by apply mod8_range.
    unfold page_used in Hu. by rewrite Hu.
  - intros a s' Halloc.
    destruct (alloc_page_cases s Hok) as [(p & Hp & _ & s1 & Heq & Hok1 & Hfs1 & _)|[_ Heq]];
      rewrite Heq in Halloc; simplify_eq.
    pose proof Hp as [Hr _]%elem_of_free_set.
    destruct (free_page_cases s' (p * PAGE_SIZE) Hok1) as [Hok2 Hfs2]; [unfold PAGE_SIZE; lia|].
    rewrite Z.div_mul, decide_True in Hfs2 by (unfold PAGE_SIZE; lia).
    assert (free_set (free_page (p * PAGE_SIZE) s') = free_set s) as Heqs.
    { rewrite Hfs2, Hfs1. symmetry. by apply union_difference_singleton_L. }
    split; [done|]. destruct Hok2 as [_ _ ->], Hok as [_ _ ->]. by rewrite Heqs.
Qed.

(** After [init] the free pages are those that were free before and the
    pages below 1 GB of the [Usable] entries of the boot memory map, whatever
    overlaps the map contains; [free_count] counts them, and [total_count]
    grows with it. *)
Theorem init_spec (s : PmmState) (regions : list MemoryRegion)
    (Hok : pmm_ok s) (Hr : Forall (fun r => 0 <= rg_base r) regions) :
  let s' := init (Some regions) s in
  pmm_ok s' /\ free_set s' = ⋃ (region_pages <$> regions) ∪ free_set s /\
  total_count s' - free_count s' = total_count s - free_count s.
Proof.
  unfold init. destruct regions as [|r rs]; [|by apply init_regions_ok].
  simpl. split_and!; [done|set_solver|lia].
Qed.

(** ** Witnesses *)

Definition demo_map : list MemoryRegion :=
  [ mkRegion 0 0x3000 Used; mkRegion 0x3000 0x5000 Usable; mkRegion 0x4000 0x2000 Usable;
    mkRegion 0x8000 0x1000 Reserved ].

Lemma demo_bases : Forall (fun r => 0 <= rg_base r) demo_map.
Proof. repeat constructor; simpl; lia. Qed.

Definition demo_pmm : PmmState := init (Some demo_map) PmmState_new.

Lemma demo_pmm_ok : pmm_ok demo_pmm.
Proof.
  unfold demo_pmm, init; simpl length; cbv iota beta.
  apply init_regions_ok; [apply PmmState_new_ok|apply demo_bases].
Qed.

Lemma init_spec_witness :
  free_count demo_pmm = 5 /\ total_count demo_pmm = 5 /\ pmm_ok (init (Some demo_map) PmmState_new).
Proof.
  split; [vm_compute; reflexivity|]. split; [vm_compute; reflexivity|].
  apply (init_spec PmmState_new demo_map (proj1 PmmState_new_ok) demo_bases).
Defined.

Lemma alloc_page_refines_witness :
  fst (alloc_page demo_pmm) = Some 0x3000 /\ 3 ∈ free_set demo_pmm.
Proof.
  assert (fst (alloc_page demo_pmm) = Some 0x3000) as Ha by (vm_compute; reflexivity).
  split; [exact Ha|].
  pose proof (alloc_page_refines demo_pmm demo_pmm_ok) as H.
  destruct (alloc_page demo_pmm) as [[a|] s']; simpl in Ha; [|discriminate].
  destruct H as (p & Hp & Hin & _). injection Ha as ->.
  assert (p = 3) as -> by (unfold PAGE_SIZE in Hp; lia). exact Hin.
Defined.

Lemma free_page_spec_witness :
  free_count (free_page 0x8000 demo_pmm) = 6 /\ pmm_ok (free_page 0x8000 demo_pmm).
Proof.
  split; [vm_compute; reflexivity|].
  apply (free_page_spec demo_pmm 0x8000 demo_pmm_ok); lia.
Defined.
