(* ===== verification/Kbuf.v ===== *)
(** * Scancode ring buffer ([ross-kernel/src/kbuf.rs])

    The lock-free ring between the IRQ1 handler (producer) and the main loop
    (consumer).  [push] and [pop] are the two functions run to completion and
    refine a bounded FIFO queue; the step relation below lets the atomic loads
    and stores of one [push] and one [pop] interleave, and its invariant shows
    that no interleaving loses, duplicates or reorders a byte. *)

From S2P Require Import Prelude.

(** @src ross-kernel/src/kbuf.rs 6-6 BUF_SIZE *)
Definition BUF_SIZE : Z := 256.

(** The three statics.
    @src ross-kernel/src/kbuf.rs 8-10 BUFFER, HEAD, TAIL *)
Record Ring := mkRing {
  BUFFER : list Z;
  HEAD : Z;
  TAIL : Z
}.

(** @src ross-kernel/src/kbuf.rs 8-10 BUFFER, HEAD, TAIL *)
Definition Ring_init : Ring :=
  {| BUFFER := replicate (Z.to_nat BUF_SIZE) 0; HEAD := 0; TAIL := 0 |}.

(** @src ross-kernel/src/kbuf.rs 12-23 push *)
Definition push (byte : Z) (r : Ring) : Ring :=
  let head := HEAD r in
  let next := (head + 1) mod BUF_SIZE in
  if negb (next =? TAIL r) then
    {| BUFFER := <[Z.to_nat head := byte]> (BUFFER r); HEAD := next; TAIL := TAIL r |}
  else r.

(** @src ross-kernel/src/kbuf.rs 25-35 pop *)
Definition pop (r : Ring) : option Z * Ring :=
  let tail := TAIL r in
  if tail =? HEAD r then (None, r)
  else
    let byte := BUFFER r !!! Z.to_nat tail in
    (Some byte, {| BUFFER := BUFFER r; HEAD := HEAD r; TAIL := (tail + 1) mod BUF_SIZE |}).

(** The [MAP] table of [scancode_to_ascii].
    @src ross-kernel/src/kbuf.rs 42-51 MAP *)
Definition MAP : list Z :=
  [ 0;    0x1B; 0x31; 0x32; 0x33; 0x34; 0x35; 0x36;
    0x37; 0x38; 0x39; 0x30; 0x2D; 0x3D; 0x08; 0x09;
    0x71; 0x77; 0x65; 0x72; 0x74; 0x79; 0x75; 0x69;
    0x6F; 0x70; 0x5B; 0x5D; 0x0A; 0;    0x61; 0x73;
    0x64; 0x66; 0x67; 0x68; 0x6A; 0x6B; 0x6C; 0x3B;
    0x27; 0x60; 0;    0x5C; 0x7A; 0x78; 0x63; 0x76;
    0x62; 0x6E; 0x6D; 0x2C; 0x2E; 0x2F; 0;    0x2A;
    0;    0x20 ].

(** @src ross-kernel/src/kbuf.rs 37-55 scancode_to_ascii *)
Definition scancode_to_ascii (sc : Z) : option Z :=
  if negb (Z.land sc 0x80 =? 0) then None
  else
    match MAP !! Z.to_nat sc with
    | Some c => if c =? 0 then None else Some c
    | None => None
    end.

(** ** Interleaved execution

    The program counters of a [push] and of a [pop] in progress, with the
    values their local variables hold. *)

(** @src ross-kernel/src/kbuf.rs 14-23 push *)
Inductive ProducerPc :=
  | PIdle
  | PHead (byte head : Z)           (** [head] loaded *)
  | PRoom (byte head next : Z)      (** [next != TAIL] seen *)
  | PWritten (byte head next : Z).  (** [BUFFER[head]] stored *)

(** @src ross-kernel/src/kbuf.rs 27-35 pop *)
Inductive ConsumerPc :=
  | CIdle
  | CTail (tail : Z)                (** [tail] loaded *)
  | CData (tail : Z)                (** [tail != HEAD] seen *)
  | CByte (tail byte : Z).          (** [BUFFER[tail]] loaded *)

(** The shared ring, the two program counters, and two histories: the bytes
    published by [push] and the bytes returned by [pop], oldest first. *)
Record Machine := mkMachine {
  ring : Ring;
  ppc : ProducerPc;
  cpc : ConsumerPc;
  accepted : list Z;
  popped : list Z
}.

Definition Machine_init : Machine := mkMachine Ring_init PIdle CIdle [] [].

(** One atomic access of either side.
    @src ross-kernel/src/kbuf.rs 14-35 push, pop *)
Inductive step : Machine -> Machine -> Prop :=
  | p_load_head r c a o byte :
      step (mkMachine r PIdle c a o) (mkMachine r (PHead byte (HEAD r)) c a o)
  | p_room r c a o byte head :
      (head + 1) mod BUF_SIZE <> TAIL r ->
      step (mkMachine r (PHead byte head) c a o)
           (mkMachine r (PRoom byte head ((head + 1) mod BUF_SIZE)) c a o)
  | p_full r c a o byte head :
      (head + 1) mod BUF_SIZE = TAIL r ->
      step (mkMachine r (PHead byte head) c a o) (mkMachine r PIdle c a o)
  | p_write r c a o byte head next :
      step (mkMachine r (PRoom byte head next) c a o)
           (mkMachine (mkRing (<[Z.to_nat head := byte]> (BUFFER r)) (HEAD r) (TAIL r))
                      (PWritten byte head next) c a o)
  | p_publish r c a o byte head next :
      step (mkMachine r (PWritten byte head next) c a o)
           (mkMachine (mkRing (BUFFER r) next (TAIL r)) PIdle c (a ++ [byte]) o)
  | c_load_tail r p a o :
      step (mkMachine r p CIdle a o) (mkMachine r p (CTail (TAIL r)) a o)
  | c_empty r p a o tail :
      tail = HEAD r ->
      step (mkMachine r p (CTail tail) a o) (mkMachine r p CIdle a o)
  | c_data r p a o tail :
      tail <> HEAD r ->
      step (mkMachine r p (CTail tail) a o) (mkMachine r p (CData tail) a o)
  | c_read r p a o tail :
      step (mkMachine r p (CData tail) a o)
           (mkMachine r p (CByte tail (BUFFER r !!! Z.to_nat tail)) a o)
  | c_release r p a o tail byte :
      step (mkMachine r p (CByte tail byte) a o)
           (mkMachine (mkRing (BUFFER r) (HEAD r) ((tail + 1) mod BUF_SIZE)) p CIdle a (o ++ [byte])).

(** ** Abstraction: the queue a ring holds *)

Record ring_ok (r : Ring) : Prop := {
  rk_len : length (BUFFER r) = Z.to_nat BUF_SIZE;
  rk_head : 0 <= HEAD r < BUF_SIZE;
  rk_tail : 0 <= TAIL r < BUF_SIZE
}.

Definition count (r : Ring) : Z := (HEAD r - TAIL r) mod BUF_SIZE.

Definition contents (r : Ring) : list Z :=
  (fun i => BUFFER r !!! Z.to_nat ((TAIL r + i) mod BUF_SIZE)) <$> seqZ 0 (count r).

Lemma count_range r : 0 <= count r < BUF_SIZE.
Proof. apply Z.mod_pos_bound. unfold BUF_SIZE; lia. Qed.

Lemma length_contents r : Z.of_nat (length (contents r)) = count r.
Proof.
  unfold contents. rewrite length_fmap, length_seqZ.
  pose proof (count_range r). lia.
Qed.

(** Storing into the slot [HEAD] points at does not touch the queue. *)
Lemma contents_write r byte :
  ring_ok r ->
  contents (mkRing (<[Z.to_nat (HEAD r) := byte]> (BUFFER r)) (HEAD r) (TAIL r)) = contents r.
Proof.
  intros [Hl Hh Ht]. unfold contents, count; simpl. apply list_fmap_ext.
  intros ? i Hi%lookup_seqZ. destruct Hi as [-> Hi].
  rewrite lookup_total_insert_Z; try (rewrite Hl); unfold BUF_SIZE in *; try lia; [|dm_lia].
  rewrite decide_False; [done|]. intros He. simpl in Hi. dm_lia.
Qed.

(** Publishing the slot appends its byte. *)
Lemma contents_publish r byte :
  ring_ok r -> (HEAD r + 1) mod BUF_SIZE <> TAIL r -> BUFFER r !!! Z.to_nat (HEAD r) = byte ->
  contents (mkRing (BUFFER r) ((HEAD r + 1) mod BUF_SIZE) (TAIL r)) = contents r ++ [byte].
Proof.
  intros [Hl Hh Ht] Hne Hb. unfold contents; simpl.
  replace (count (mkRing (BUFFER r) ((HEAD r + 1) mod BUF_SIZE) (TAIL r))) with (count r + 1).
  2: { unfold count, BUF_SIZE in *; simpl. dm_lia. }
  pose proof (count_range r) as Hc. rewrite seqZ_app by lia. rewrite fmap_app.
  f_equal. change (seqZ (0 + count r) 1) with [0 + (0 + count r)]. simpl. f_equal.
  rewrite <- Hb. do 2 f_equal. unfold count, BUF_SIZE in *. dm_lia.
Qed.

(** Advancing [TAIL] removes the oldest byte. *)
Lemma contents_release r :
  ring_ok r -> TAIL r <> HEAD r ->
  contents r = BUFFER r !!! Z.to_nat (TAIL r)
                 :: contents (mkRing (BUFFER r) (HEAD r) ((TAIL r + 1) mod BUF_SIZE)).
Proof.
  intros [Hl Hh Ht] Hne. unfold contents at 1.
  assert (0 < count r) by (unfold count, BUF_SIZE in *; dm_lia).
  rewrite seqZ_cons by lia. simpl. f_equal.
  { rewrite Z.add_0_r, Z.mod_small by done. done. }
  unfold contents; simpl.
  replace (count (mkRing (BUFFER r) (HEAD r) ((TAIL r + 1) mod BUF_SIZE))) with (Z.pred (count r)).
  2: { unfold count, BUF_SIZE in *; simpl. dm_lia. }
  change (Z.succ 0) with (1 + 0). rewrite <- fmap_add_seqZ, <- list_fmap_compose.
  apply list_fmap_ext. intros ? i Hi%lookup_seqZ. simpl. do 2 f_equal.
  unfold BUF_SIZE. rewrite Zplus_mod_idemp_l. f_equal. lia.
Qed.

Lemma contents_empty r : ring_ok r -> (TAIL r = HEAD r <-> contents r = []).
Proof.
  intros [Hl Hh Ht]. pose proof (length_contents r) as Hlen. split.
  - intros He. apply length_zero_iff_nil. unfold count in Hlen.
    rewrite He, Z.sub_diag in Hlen. rewrite Zmod_0_l in Hlen. lia.
  - intros He. rewrite He in Hlen. simpl in Hlen. unfold count, BUF_SIZE in *. dm_lia.
Qed.

(** The ring is full at [BUF_SIZE - 1] bytes. *)
Lemma full_iff r :
  ring_ok r ->
  ((HEAD r + 1) mod BUF_SIZE = TAIL r <-> Z.of_nat (length (contents r)) = BUF_SIZE - 1).
Proof.
  intros [Hl Hh Ht]. rewrite length_contents. unfold count, BUF_SIZE in *.
  split; intros; dm_lia.
Qed.

Lemma Ring_init_ok : ring_ok Ring_init /\ contents Ring_init = [].
Proof. split; [split; unfold BUF_SIZE; simpl; try lia; done|done]. Qed.

(** ** The invariant of the interleaved execution *)

Definition producer_ok (r : Ring) (p : ProducerPc) : Prop :=
  match p with
  | PIdle => True
  | PHead _ head => head = HEAD r
  | PRoom _ head next => head = HEAD r /\ next = (head + 1) mod BUF_SIZE /\ next <> TAIL r
  | PWritten byte head next =>
      head = HEAD r /\ next = (head + 1) mod BUF_SIZE /\ next <> TAIL r /\
      BUFFER r !!! Z.to_nat head = byte
  end.

Definition consumer_ok (r : Ring) (c : ConsumerPc) : Prop :=
  match c with
  | CIdle => True
  | CTail tail => tail = TAIL r
  | CData tail => tail = TAIL r /\ tail <> HEAD r
  | CByte tail byte => tail = TAIL r /\ tail <> HEAD r /\ BUFFER r !!! Z.to_nat tail = byte
  end.

Record machine_ok (m : Machine) : Prop := {
  mk_ring : ring_ok (ring m);
  mk_producer : producer_ok (ring m) (ppc m);
  mk_consumer : consumer_ok (ring m) (cpc m);
  mk_history : accepted m = popped m ++ contents (ring m)
}.

Lemma ring_ok_write r byte :
  ring_ok r -> ring_ok (mkRing (<[Z.to_nat (HEAD r) := byte]> (BUFFER r)) (HEAD r) (TAIL r)).
Proof. intros [Hl Hh Ht]. split; simpl; [by rewrite length_insert|done|done]. Qed.

Lemma ring_ok_publish r : ring_ok r -> ring_ok (mkRing (BUFFER r) ((HEAD r + 1) mod BUF_SIZE) (TAIL r)).
Proof. intros [Hl Hh Ht]. split; simpl; [done| |done]. apply Z.mod_pos_bound. unfold BUF_SIZE; lia. Qed.

Lemma ring_ok_release r : ring_ok r -> ring_ok (mkRing (BUFFER r) (HEAD r) ((TAIL r + 1) mod BUF_SIZE)).
Proof. intros [Hl Hh Ht]. split; simpl; [done|done|]. apply Z.mod_pos_bound. unfold BUF_SIZE; lia. Qed.

#[export] Hint Resolve ring_ok_write ring_ok_publish ring_ok_release : ross.

Lemma next_inj a b :
  0 <= a < BUF_SIZE -> 0 <= b < BUF_SIZE -> (a + 1) mod BUF_SIZE = (b + 1) mod BUF_SIZE -> a = b.
Proof. unfold BUF_SIZE. intros. dm_lia. Qed.

(** A consumer's slot is not the one the producer writes. *)
Lemma consumer_ok_write r byte c :
  ring_ok r -> consumer_ok r c ->
  consumer_ok (mkRing (<[Z.to_nat (HEAD r) := byte]> (BUFFER r)) (HEAD r) (TAIL r)) c.
Proof.
  intros [Hl Hh Ht]. destruct c; simpl; try done. intros (-> & Hne & <-). split_and!; try done.
  rewrite lookup_total_insert_Z; [|lia|lia|rewrite Hl; unfold BUF_SIZE in *; lia].
  by rewrite decide_False by done.
Qed.

Lemma consumer_ok_publish r c :
  (HEAD r + 1) mod BUF_SIZE <> TAIL r -> consumer_ok r c ->
  consumer_ok (mkRing (BUFFER r) ((HEAD r + 1) mod BUF_SIZE) (TAIL r)) c.
Proof. intros Hne. destruct c; simpl; naive_solver. Qed.

Lemma producer_ok_release r p :
  ring_ok r -> TAIL r <> HEAD r -> producer_ok r p ->
  producer_ok (mkRing (BUFFER r) (HEAD r) ((TAIL r + 1) mod BUF_SIZE)) p.
Proof.
  intros [Hl Hh Ht] Hne. assert ((HEAD r + 1) mod BUF_SIZE <> (TAIL r + 1) mod BUF_SIZE).
  { intros He. apply next_inj in He; [by symmetry in He|done|done]. }
  destruct p; simpl; naive_solver.
Qed.

Lemma step_ok m m' : step m m' -> machine_ok m -> machine_ok m'.
Proof.
  intros Hs [Hr Hp Hc Hh]. destruct Hs; simpl in *; split; simpl; try done; auto with ross.
  - destruct Hp as (-> & _ & _). auto with ross.
  - destruct Hp as (-> & -> & Hne). split_and!; try done.
    apply list_lookup_total_insert_eq. destruct Hr as [-> ? _]. unfold BUF_SIZE in *. lia.
  - destruct Hp as (-> & _ & _). by apply consumer_ok_write.
  - destruct Hp as (-> & _ & _). by rewrite contents_write.
  - destruct Hp as (-> & -> & _). auto with ross.
  - destruct Hp as (-> & -> & Hne & _). by apply consumer_ok_publish.
  - destruct Hp as (-> & -> & Hne & Hb). rewrite (contents_publish r byte) by done.
    by rewrite Hh, app_assoc.
  - destruct Hc as (-> & Hne). done.
  - destruct Hc as (-> & _). auto with ross.
  - destruct Hc as (-> & Hne & _). by apply producer_ok_release.
  - destruct Hc as (-> & Hne & <-). rewrite Hh, (contents_release r) by done.
    by rewrite <- app_assoc.
Qed.

Lemma Machine_init_ok : machine_ok Machine_init.
Proof. split; simpl; try done; apply Ring_init_ok. Qed.

Lemma reachable_ok m : rtc step Machine_init m -> machine_ok m.
Proof.
  intros Hs. pose proof Machine_init_ok as Hok. revert Hok.
  induction Hs as [|m1 m2 m3 H1 _ IH]; eauto using step_ok.
Qed.

(** ** Properties *)

(** run to completion, [push] and [pop] implement a FIFO queue of capacity
    255: [push] appends the byte unless 255 bytes are waiting, in which case it
    drops it and changes nothing; [pop] returns and removes the oldest byte, and
    answers [None], changing nothing, exactly when none is waiting. *)
Theorem push_pop_refine (r : Ring) (byte : Z) (Hok : ring_ok r) :
  ring_ok (push byte r) /\ ring_ok (snd (pop r)) /\
  contents (push byte r) =
    (if decide (Z.of_nat (length (contents r)) = BUF_SIZE - 1)
     then contents r else contents r ++ [byte]) /\
  match contents r with
  | [] => pop r = (None, r)
  | b :: q => fst (pop r) = Some b /\ contents (snd (pop r)) = q
  end.
Proof.
  assert (Hw := ring_ok_write r byte Hok). pose proof (full_iff r Hok) as Hfull.
  pose proof (contents_empty r Hok) as Hemp. unfold push, pop.
  split_and!.
  - destruct (Z.eqb_spec ((HEAD r + 1) mod BUF_SIZE) (TAIL r)); simpl; [done|].
    apply (ring_ok_publish _ Hw).
  - destruct (Z.eqb_spec (TAIL r) (HEAD r)); simpl; auto with ross.
  - destruct (Z.eqb_spec ((HEAD r + 1) mod BUF_SIZE) (TAIL r)) as [He|Hne]; simpl.
    { by rewrite decide_True by tauto. }
    rewrite decide_False by tauto. rewrite <- (contents_write r byte Hok).
    apply (contents_publish _ byte Hw); simpl; [done|].
    apply list_lookup_total_insert_eq. destruct Hok as [-> ? _]. unfold BUF_SIZE in *. lia.
  - destruct (Z.eqb_spec (TAIL r) (HEAD r)) as [He|Hne]; simpl.
    { by rewrite (proj1 Hemp He). }
    rewrite (contents_release r Hok Hne). done.
Qed.

(** C16: under every interleaving of the atomic accesses of the interrupt
    handler's [push] and the main loop's [pop], the bytes [pop] has returned
    followed by the bytes waiting in the ring are exactly the bytes [push] has
    published, in order; at most 255 wait, the indices stay in the array, and
    a byte already read but not yet released is still the oldest waiting one. *)
Theorem interleaving_fifo (m : Machine) (Hreach : rtc step Machine_init m) :
  accepted m = popped m ++ contents (ring m) /\ ring_ok (ring m) /\
  Z.of_nat (length (contents (ring m))) <= BUF_SIZE - 1 /\
  (forall tail byte, cpc m = CByte tail byte -> head (contents (ring m)) = Some byte).
Proof.
  destruct (reachable_ok m Hreach) as [Hr _ Hc Hh]. split_and!; [done|done| |].
  - rewrite length_contents. pose proof (count_range (ring m)). lia.
  - intros tail byte Heq. rewrite Heq in Hc. destruct Hc as (-> & Hne & <-).
    by rewrite (contents_release _ Hr Hne).
Qed.

(** ** Witnesses *)

Lemma push_pop_refine_witness :
  fst (pop (push 0x1C Ring_init)) = Some 0x1C /\ ring_ok (push 0x1C Ring_init).
Proof.
  split; [vm_compute; reflexivity|].
  apply (push_pop_refine Ring_init 0x1C (proj1 Ring_init_ok)).
Defined.

Definition demo_ring : Ring := push 0x1C Ring_init.

(** A producer that has published one byte and a consumer that has read it. *)
Definition demo_machine : Machine :=
  mkMachine demo_ring PIdle (CByte 0 0x1C) [0x1C] [].

Lemma interleaving_fifo_witness :
  rtc step Machine_init demo_machine /\ accepted demo_machine = [0x1C] ++ [].
Proof.
  assert (rtc step Machine_init demo_machine) as Hr.
  { eapply rtc_l; [apply (p_load_head Ring_init CIdle [] [] 0x1C)|].
    eapply rtc_l; [apply c_load_tail|].
    eapply rtc_l; [apply p_room; vm_compute; congruence|].
    eapply rtc_l; [apply p_write|].
    eapply rtc_l; [apply p_publish|].
    eapply rtc_l; [apply c_data; vm_compute; congruence|].
    eapply rtc_l; [apply c_read|].
    apply rtc_refl. }
  split; [exact Hr|]. destruct (interleaving_fifo demo_machine Hr) as [H _]. exact H.
Defined.
