(* ===== verification/Ipc.v ===== *)
(** * Kernel pipes ([ross-kernel/src/ipc.rs])

    A table of at most 64 byte-stream pipes of at most 4096 bytes each.  A
    pipe is abstracted to the list of bytes waiting in it ([pipe_bytes]); the
    stream theorem follows one pipe through an arbitrary sequence of
    operations on the whole table. *)

From S2P Require Import Prelude.

(** @src ross-kernel/src/ipc.rs 12-12 MAX_PIPE_BYTES *)
Definition MAX_PIPE_BYTES : Z := 4096.
(** @src ross-kernel/src/ipc.rs 13-13 MAX_PIPES *)
Definition MAX_PIPES : Z := 64.

(** @src ross-kernel/src/ipc.rs 15-18 Pipe *)
Record Pipe := mkPipe {
  buffer : list Z;
  closed : bool
}.

(** @src ross-kernel/src/ipc.rs 20-22 PipeTable *)
Record PipeTable := mkPipes {
  pipes : list (option Pipe)
}.

(** @src ross-kernel/src/ipc.rs 24-28 PipeTable::new *)
Definition PipeTable_new : PipeTable := {| pipes := [] |}.

(** The pipe both arms of [create] store.
    @src ross-kernel/src/ipc.rs 39-39 create *)
Definition fresh_pipe : Pipe := {| buffer := []; closed := false |}.

(** @src ross-kernel/src/ipc.rs 32-47 create *)
Definition create (tbl : PipeTable) : option Z * PipeTable :=
  match first_none (pipes tbl) 0 with
  | Some i => (Some i, {| pipes := <[Z.to_nat i := Some fresh_pipe]> (pipes tbl) |})
  | None =>
      if MAX_PIPES <=? Z.of_nat (length (pipes tbl)) then (None, tbl)
      else
        let tbl' := {| pipes := pipes tbl ++ [Some fresh_pipe] |} in
        (Some (Z.of_nat (length (pipes tbl')) - 1), tbl')
  end.

(** [tbl.pipes.get_mut(id).and_then(|s| s.as_mut())].
    @src ross-kernel/src/ipc.rs 53-53 write *)
Definition get_pipe (id : Z) (tbl : PipeTable) : option Pipe :=
  match pipes tbl !! Z.to_nat id with Some (Some p) => Some p | _ => None end.

Definition set_pipe (id : Z) (p : Pipe) (tbl : PipeTable) : PipeTable :=
  {| pipes := <[Z.to_nat id := Some p]> (pipes tbl) |}.

(** @src ross-kernel/src/ipc.rs 49-61 write *)
Definition write (id : Z) (data : list Z) (tbl : PipeTable) : result Z unit * PipeTable :=
  match get_pipe id tbl with
  | None => (Err tt, tbl)
  | Some pipe =>
      if closed pipe then (Err tt, tbl)
      else
        let free := sat_sub MAX_PIPE_BYTES (Z.of_nat (length (buffer pipe))) in
        let n := free `min` Z.of_nat (length data) in
        (Ok n, set_pipe id {| buffer := buffer pipe ++ take (Z.to_nat n) data;
                              closed := closed pipe |} tbl)
  end.

(** [read] overwrites the first [n] bytes of the caller's buffer; the second
    component is the buffer afterwards.
    @src ross-kernel/src/ipc.rs 63-72 read *)
Definition read (id : Z) (buf : list Z) (tbl : PipeTable) : result Z unit * list Z * PipeTable :=
  match get_pipe id tbl with
  | None => (Err tt, buf, tbl)
  | Some pipe =>
      let n := Z.of_nat (length buf) `min` Z.of_nat (length (buffer pipe)) in
      (Ok n, take (Z.to_nat n) (buffer pipe) ++ drop (Z.to_nat n) buf,
       set_pipe id {| buffer := drop (Z.to_nat n) (buffer pipe); closed := closed pipe |} tbl)
  end.

(** @src ross-kernel/src/ipc.rs 74-81 close *)
Definition close (id : Z) (tbl : PipeTable) : PipeTable :=
  {| pipes := <[Z.to_nat id := None]> (pipes tbl) |}.

(** ** Abstraction and invariant *)

(** The bytes waiting in pipe [id], if it is open. *)
Definition pipe_bytes (tbl : PipeTable) (id : Z) : option (list Z) :=
  buffer <$> get_pipe id tbl.

Record table_ok (tbl : PipeTable) : Prop := {
  tk_pipes : Z.of_nat (length (pipes tbl)) <= MAX_PIPES;
  tk_bytes : forall id p, get_pipe id tbl = Some p ->
    Z.of_nat (length (buffer p)) <= MAX_PIPE_BYTES /\ closed p = false
}.

Lemma get_pipe_set id p tbl id' :
  0 <= id -> 0 <= id' -> is_Some (get_pipe id tbl) ->
  get_pipe id' (set_pipe id p tbl) = if decide (id = id') then Some p else get_pipe id' tbl.
Proof.
  intros Hi Hi' [q Hq]. unfold get_pipe, set_pipe in *; simpl.
  destruct (pipes tbl !! Z.to_nat id) as [o|] eqn:Hlk; [|done].
  apply lookup_lt_Some in Hlk. case_decide as He; subst.
  - by rewrite list_lookup_insert_eq.
  - rewrite list_lookup_insert_ne; [done|lia].
Qed.

Lemma set_pipe_ok id p tbl :
  0 <= id -> table_ok tbl -> is_Some (get_pipe id tbl) ->
  Z.of_nat (length (buffer p)) <= MAX_PIPE_BYTES -> closed p = false ->
  table_ok (set_pipe id p tbl).
Proof.
  intros Hid [Hn Hb] Hs Hl Hc. split.
  - unfold set_pipe; simpl. by rewrite length_insert.
  - intros id' p' Hg. destruct (decide (Z.to_nat id = Z.to_nat id')) as [He|He].
    + assert (get_pipe id' (set_pipe id p tbl) = get_pipe id (set_pipe id p tbl)) as Heq.
      { unfold get_pipe. by rewrite He. }
      rewrite Heq, get_pipe_set, decide_True in Hg by done. by simplify_eq.
    + apply (Hb id'). unfold get_pipe, set_pipe in *; simpl in *.
      by rewrite list_lookup_insert_ne in Hg by done.
Qed.

(** ** Effect of each operation on the abstraction *)

Lemma pipe_bytes_set id p tbl id' :
  0 <= id -> 0 <= id' -> is_Some (get_pipe id tbl) ->
  pipe_bytes (set_pipe id p tbl) id' = if decide (id = id') then Some (buffer p) else pipe_bytes tbl id'.
Proof.
  intros. unfold pipe_bytes. rewrite get_pipe_set by done. by case_decide.
Qed.

(** [write] appends a prefix of the data, as long as the room left. *)
Lemma write_spec id data tbl :
  0 <= id -> table_ok tbl ->
  match pipe_bytes tbl id with
  | None => write id data tbl = (Err tt, tbl)
  | Some bs =>
      exists n tbl', write id data tbl = (Ok n, tbl') /\ table_ok tbl' /\
        n = (MAX_PIPE_BYTES - Z.of_nat (length bs)) `min` Z.of_nat (length data) /\ 0 <= n /\
        (forall id', 0 <= id' -> pipe_bytes tbl' id' =
           if decide (id = id') then Some (bs ++ take (Z.to_nat n) data) else pipe_bytes tbl id')
  end.
Proof.
  intros Hid Hok. unfold pipe_bytes at 1. unfold write. destruct (get_pipe id tbl) as [p|] eqn:Hp; simpl; [|done].
  destruct (tk_bytes _ Hok _ _ Hp) as [Hl Hc]. rewrite Hc. unfold sat_sub.
  rewrite Z.max_r by lia. eexists _, _. split; [done|]. split_and!; try lia.
  - apply set_pipe_ok; try done; simpl. rewrite length_app, length_take. lia.
  - intros id' Hid'. by rewrite (pipe_bytes_set id _ tbl id').
Qed.

(** [read] removes the oldest bytes, as many as fit, and stores them. *)
Lemma read_spec id buf tbl :
  0 <= id -> table_ok tbl ->
  match pipe_bytes tbl id with
  | None => read id buf tbl = (Err tt, buf, tbl)
  | Some bs =>
      exists n tbl', read id buf tbl = (Ok n, take (Z.to_nat n) bs ++ drop (Z.to_nat n) buf, tbl') /\
        table_ok tbl' /\ n = Z.of_nat (length buf) `min` Z.of_nat (length bs) /\
        (forall id', 0 <= id' -> pipe_bytes tbl' id' =
           if decide (id = id') then Some (drop (Z.to_nat n) bs) else pipe_bytes tbl id')
  end.
Proof.
  intros Hid Hok. unfold pipe_bytes at 1. unfold read. destruct (get_pipe id tbl) as [p|] eqn:Hp; simpl; [|done].
  destruct (tk_bytes _ Hok _ _ Hp) as [Hl Hc].
  eexists _, _. split; [done|]. split_and!; [|done|].
  - apply set_pipe_ok; try done; simpl. rewrite length_drop. lia.
  - intros id' Hid'. by rewrite (pipe_bytes_set id _ tbl id').
Qed.

Lemma pipe_bytes_insert tbl i o id :
  (Z.to_nat i < length (pipes tbl))%nat -> 0 <= i -> 0 <= id ->
  pipe_bytes {| pipes := <[Z.to_nat i := o]> (pipes tbl) |} id =
    if decide (i = id) then buffer <$> o else pipe_bytes tbl id.
Proof.
  intros Hlt Hi Hid. unfold pipe_bytes, get_pipe; simpl. case_decide as He; subst.
  - rewrite list_lookup_insert_eq by done. by destruct o.
  - rewrite list_lookup_insert_ne by lia. done.
Qed.

Lemma table_ok_insert tbl i o :
  table_ok tbl -> (forall p, o = Some p -> p = fresh_pipe) ->
  table_ok {| pipes := <[i := o]> (pipes tbl) |}.
Proof.
  intros [Hn Hb] Ho. split; simpl; [by rewrite length_insert|].
  intros id p Hg. destruct (decide (i = Z.to_nat id)) as [->|Hne].
  - destruct (decide (Z.to_nat id < length (pipes tbl))%nat) as [Hlt|Hge].
    + unfold get_pipe in Hg; simpl in Hg. rewrite list_lookup_insert_eq in Hg by done.
      destruct o; simplify_eq. rewrite (Ho _ eq_refl). simpl. unfold MAX_PIPE_BYTES. split; [lia|done].
    + unfold get_pipe in Hg; simpl in Hg. rewrite list_insert_ge in Hg by lia.
      rewrite lookup_ge_None_2 in Hg by lia. done.
  - apply (Hb id). unfold get_pipe in *; simpl in *. by rewrite list_lookup_insert_ne in Hg.
Qed.

(** Looking up a pipe after [tbl.pipes.push(Some(..))]. *)
Lemma get_pipe_push tbl id :
  get_pipe id {| pipes := pipes tbl ++ [Some fresh_pipe] |} =
  if decide (length (pipes tbl) = Z.to_nat id) then Some fresh_pipe else get_pipe id tbl.
Proof.
  unfold get_pipe; simpl. case_decide as He.
  - rewrite lookup_app_r by lia. by replace (_ - _)%nat with 0%nat by lia.
  - destruct (decide (Z.to_nat id < length (pipes tbl))%nat).
    + by rewrite lookup_app_l.
    + rewrite (lookup_ge_None_2 (pipes tbl)) by lia.
      rewrite lookup_ge_None_2 by (rewrite length_app; simpl; lia). done.
Qed.

Lemma push_ok tbl :
  table_ok tbl -> Z.of_nat (length (pipes tbl)) < MAX_PIPES ->
  table_ok {| pipes := pipes tbl ++ [Some fresh_pipe] |}.
Proof.
  intros [Hn Hb] Hroom. split; [simpl; rewrite length_app; simpl; lia|].
  intros id p. rewrite get_pipe_push. case_decide; [|by apply Hb].
  intros [= <-]. simpl. unfold MAX_PIPE_BYTES. split; [lia|done].
Qed.

(** [create] opens an empty pipe under an identifier that was not in use. *)
Lemma create_cases tbl :
  table_ok tbl ->
  match create tbl with
  | (Some i, tbl') =>
      0 <= i < MAX_PIPES /\ pipe_bytes tbl i = None /\ table_ok tbl' /\
      (forall id, 0 <= id -> pipe_bytes tbl' id = if decide (i = id) then Some [] else pipe_bytes tbl id)
  | (None, tbl') => tbl' = tbl /\ forall id, 0 <= id < MAX_PIPES -> is_Some (pipe_bytes tbl id)
  end.
Proof.
  intros Hok. pose proof Hok as [Hn Hb]. unfold create.
  destruct (first_none (pipes tbl) 0) as [i|] eqn:Hf.
  - apply first_none_some in Hf as (Hr & Hlk & _). rewrite Z.sub_0_r in Hlk.
    split_and!; try lia.
    + unfold pipe_bytes, get_pipe. by rewrite Hlk.
    + apply table_ok_insert; [done|]. by intros p [= <-].
    + intros id Hid. by rewrite pipe_bytes_insert by lia.
  - pose proof (first_none_none _ _ Hf) as Hall.
    destruct (Z.leb_spec MAX_PIPES (Z.of_nat (length (pipes tbl)))) as [Hfull|Hroom].
    + split; [done|]. intros id Hid. destruct (Hall (Z.to_nat id)) as [p Hp]; [lia|].
      unfold pipe_bytes, get_pipe. rewrite Hp. by eexists.
    + assert (Z.of_nat (length (pipes tbl ++ [Some fresh_pipe])) - 1 = Z.of_nat (length (pipes tbl))) as Hlen.
      { rewrite length_app; simpl. lia. }
      simpl. rewrite Hlen. split_and!; [lia|lia| |by apply push_ok|].
      * unfold pipe_bytes, get_pipe. by rewrite lookup_ge_None_2 by lia.
      * intros id Hid. unfold pipe_bytes. rewrite get_pipe_push.
        do 2 case_decide; try lia; done.
Qed.

Lemma close_spec id tbl :
  0 <= id -> table_ok tbl ->
  table_ok (close id tbl) /\
  (forall id', 0 <= id' -> pipe_bytes (close id tbl) id' =
     if decide (id = id') then None else pipe_bytes tbl id').
Proof.
  intros Hid Hok. split; [by apply table_ok_insert|]. intros id' Hid'. unfold close.
  destruct (decide (Z.to_nat id < length (pipes tbl))%nat) as [Hlt|Hge].
  - by rewrite pipe_bytes_insert.
  - rewrite list_insert_ge by lia. destruct tbl as [l]; simpl in *.
    case_decide as He; [|done]. subst. unfold pipe_bytes, get_pipe; simpl.
    by rewrite lookup_ge_None_2 by lia.
Qed.

(** ** Sequences of operations *)

Inductive op :=
  | OpCreate
  | OpWrite (id : Z) (data : list Z)
  | OpRead (id : Z) (buf : list Z)
  | OpClose (id : Z).

(** The table, the bytes accepted by writes to pipe [id] so far and the bytes
    delivered by reads from it so far. *)
Definition run_op (id : Z) (st : PipeTable * list Z * list Z) (o : op) : PipeTable * list Z * list Z :=
  let '(tbl, w, r) := st in
  match o with
  | OpCreate => (snd (create tbl), w, r)
  | OpWrite id' data =>
      match write id' data tbl with
      | (Ok n, tbl') => (tbl', if decide (id' = id) then w ++ take (Z.to_nat n) data else w, r)
      | (Err _, tbl') => (tbl', w, r)
      end
  | OpRead id' buf =>
      match read id' buf tbl with
      | (Ok n, out, tbl') => (tbl', w, if decide (id' = id) then r ++ take (Z.to_nat n) out else r)
      | (Err _, _, tbl') => (tbl', w, r)
      end
  | OpClose id' => (close id' tbl, w, r)
  end.

(** Operations a task may issue while [id] stays open. *)
Definition keeps (id : Z) (o : op) : Prop :=
  match o with
  | OpCreate => True
  | OpWrite id' _ | OpRead id' _ => 0 <= id'
  | OpClose id' => 0 <= id' /\ id' <> id
  end.

Definition stream_inv (id : Z) (bs : list Z) (st : PipeTable * list Z * list Z) : Prop :=
  let '(tbl, w, r) := st in
  table_ok tbl /\ exists rest, pipe_bytes tbl id = Some rest /\ bs ++ w = r ++ rest.

Lemma run_op_stream id bs st o :
  0 <= id -> keeps id o -> stream_inv id bs st -> stream_inv id bs (run_op id st o).
Proof.
  destruct st as [[tbl w] r]. intros Hid Hk (Hok & rest & Hrest & Heq).
  destruct o as [|id' data|id' buf|id']; simpl in *.
  - pose proof (create_cases tbl Hok) as Hc. destruct (create tbl) as [[i|] tbl']; simpl.
    + destruct Hc as (_ & Hnone & Hok' & Hiff). split; [done|]. exists rest.
      rewrite Hiff, decide_False by (done || congruence). done.
    + destruct Hc as [-> _]. eauto.
  - pose proof (write_spec id' data tbl Hk Hok) as Hw.
    destruct (pipe_bytes tbl id') as [bs'|] eqn:Hbs'; [|rewrite Hw; simpl; eauto].
    destruct Hw as (n & tbl' & -> & Hok' & _ & _ & Hiff). split; [done|]. rewrite Hiff by done.
    case_decide as He; subst; [|eauto]. simplify_eq. eexists. split; [done|].
    by rewrite !app_assoc, Heq.
  - pose proof (read_spec id' buf tbl Hk Hok) as Hr.
    destruct (pipe_bytes tbl id') as [bs'|] eqn:Hbs'; [|rewrite Hr; simpl; eauto].
    destruct Hr as (n & tbl' & -> & Hok' & Hn & Hiff). split; [done|]. rewrite Hiff by done.
    case_decide as He; [subst id'|eauto]. simplify_eq. eexists. split; [done|].
    rewrite take_app_le by (rewrite length_take; lia).
    rewrite take_take, Nat.min_id, <- app_assoc, take_drop. done.
  - destruct Hk as [Hid' Hne]. destruct (close_spec id' tbl Hid' Hok) as [Hok' Hiff].
    split; [done|]. exists rest. by rewrite Hiff, decide_False by done.
Qed.

(** ** Properties *)

(** C21: a pipe is a faithful byte stream.  Take any pipe holding [bs] and any
    sequence of creations, writes, reads and closings on the whole table that
    does not close it: the bytes delivered by its reads, followed by the bytes
    still waiting, are [bs] followed by the bytes its writes accepted, in
    order; the other pipes do not interfere, and the table keeps its bounds
    (64 pipes, 4096 bytes each). *)
Theorem pipe_stream (id : Z) (bs : list Z) (tbl : PipeTable) (ops : list op)
    (Hid : 0 <= id) (Hok : table_ok tbl) (Hbs : pipe_bytes tbl id = Some bs)
    (Hops : Forall (keeps id) ops) :
  let '(tbl', w, r) := foldl (run_op id) (tbl, [], []) ops in
  table_ok tbl' /\ exists rest, pipe_bytes tbl' id = Some rest /\ bs ++ w = r ++ rest.
Proof.
  assert (stream_inv id bs (tbl, [], [])) as Hinv.
  { split; [done|]. exists bs. by rewrite app_nil_r. }
  revert Hinv. generalize (tbl, [] : list Z, [] : list Z).
  induction Hops as [|o ops Ho _ IH]; intros st Hinv; [done|]. simpl. apply IH.
  by apply run_op_stream.
Qed.

(** the four operations, on every branch, as operations on the map from
    pipe identifiers to waiting bytes.  [create] opens an empty pipe under an
    unused identifier below 64, or fails with all 64 in use; [write] to an open
    pipe appends the longest prefix of the data that fits in 4096 bytes and
    returns its length; [read] moves the oldest bytes, as many as the buffer
    holds, to the front of the buffer and leaves the rest of it alone; [write]
    and [read] on a pipe that is not open return the error and change nothing;
    [close] drops the pipe at once, whatever still waits in it. *)
Theorem pipe_ops_spec (tbl : PipeTable) (id : Z) (data buf : list Z)
    (Hok : table_ok tbl) (Hid : 0 <= id) :
  match create tbl with
  | (Some i, tbl') =>
      0 <= i < MAX_PIPES /\ pipe_bytes tbl i = None /\ table_ok tbl' /\
      (forall j, 0 <= j -> pipe_bytes tbl' j = if decide (i = j) then Some [] else pipe_bytes tbl j)
  | (None, tbl') => tbl' = tbl /\ forall j, 0 <= j < MAX_PIPES -> is_Some (pipe_bytes tbl j)
  end /\
  match pipe_bytes tbl id with
  | None => write id data tbl = (Err tt, tbl) /\ read id buf tbl = (Err tt, buf, tbl)
  | Some bs =>
      (exists n tbl', write id data tbl = (Ok n, tbl') /\ table_ok tbl' /\
         n = (MAX_PIPE_BYTES - Z.of_nat (length bs)) `min` Z.of_nat (length data) /\ 0 <= n /\
         (forall j, 0 <= j -> pipe_bytes tbl' j =
            if decide (id = j) then Some (bs ++ take (Z.to_nat n) data) else pipe_bytes tbl j)) /\
      (exists n tbl', read id buf tbl = (Ok n, take (Z.to_nat n) bs ++ drop (Z.to_nat n) buf, tbl') /\
         table_ok tbl' /\ n = Z.of_nat (length buf) `min` Z.of_nat (length bs) /\
         (forall j, 0 <= j -> pipe_bytes tbl' j =
            if decide (id = j) then Some (drop (Z.to_nat n) bs) else pipe_bytes tbl j))
  end /\
  table_ok (close id tbl) /\
  (forall j, 0 <= j -> pipe_bytes (close id tbl) j = if decide (id = j) then None else pipe_bytes tbl j).
Proof.
  pose proof (write_spec id data tbl Hid Hok) as Hw.
  pose proof (read_spec id buf tbl Hid Hok) as Hr.
  split; [apply (create_cases tbl Hok)|]. split; [|by apply close_spec].
  destruct (pipe_bytes tbl id); done.
Qed.

(** ** Witnesses *)

Lemma PipeTable_new_ok : table_ok PipeTable_new.
Proof.
  split; [unfold MAX_PIPES; simpl; lia|]. intros id p. unfold get_pipe, PipeTable_new; cbn [pipes]. by rewrite lookup_nil.
Qed.

Definition one_pipe : PipeTable := snd (create PipeTable_new).

Lemma one_pipe_ok : table_ok one_pipe.
Proof. apply (push_ok PipeTable_new PipeTable_new_ok). done. Qed.

Lemma pipe_stream_witness :
  let '(tbl', w, r) := foldl (run_op 0) (one_pipe, [], [])
    [OpWrite 0 [1; 2; 3]; OpCreate; OpRead 0 [0; 0]; OpWrite 1 [9]; OpWrite 0 [4]] in
  w = [1; 2; 3; 4] /\ r = [1; 2] /\
  exists rest, pipe_bytes tbl' 0 = Some rest /\ [] ++ w = r ++ rest.
Proof.
  assert (Forall (keeps 0) [OpWrite 0 [1; 2; 3]; OpCreate; OpRead 0 [0; 0]; OpWrite 1 [9]; OpWrite 0 [4]]) as Hk.
  { repeat constructor; simpl; lia. }
  pose proof (pipe_stream 0 [] one_pipe _ ltac:(lia) one_pipe_ok eq_refl Hk) as H.
  split; [reflexivity|]. split; [reflexivity|]. exact (proj2 H).
Defined.

Lemma pipe_ops_spec_witness :
  fst (create one_pipe) = Some 1 /\ table_ok (close 0 one_pipe).
Proof.
  split; [reflexivity|].
  apply (pipe_ops_spec one_pipe 0 [7] [0] one_pipe_ok). lia.
Defined.
