(* ===== verification/Fd.v ===== *)
(** * File descriptor tables ([ross-kernel/src/fd.rs])

    64 slots; descriptors 0, 1 and 2 are the standard streams and new entries
    go to the lowest free slot from 3 on.  The type of file-system nodes is a
    parameter: [fd.rs] only stores them. *)

From S2P Require Import Prelude.

(** @src ross-kernel/src/fd.rs 5-5 FD_MAX *)
Definition FD_MAX : Z := 64.

Section fd.
Context {N : Type}.

(** @src ross-kernel/src/fd.rs 7-13 FdEntry *)
Inductive FdEntry :=
  | Stdin
  | Stdout
  | Stderr
  | Pipe (id : Z)
  | VfsFile (node : N) (offset : Z).

(** @src ross-kernel/src/fd.rs 15-17 FdTable *)
Record FdTable := mkFd {
  slots : list (option FdEntry)
}.

(** @src ross-kernel/src/fd.rs 20-24 FdTable::new *)
Definition FdTable_new : FdTable := {| slots := replicate (Z.to_nat FD_MAX) None |}.

(** @src ross-kernel/src/fd.rs 26-32 FdTable::with_stdio *)
Definition with_stdio : FdTable :=
  {| slots := <[2%nat := Some Stderr]> (<[1%nat := Some Stdout]>
               (<[0%nat := Some Stdin]> (slots FdTable_new))) |}.

(** @src ross-kernel/src/fd.rs 34-43 FdTable::alloc *)
Definition alloc (entry : FdEntry) (t : FdTable) : option Z * FdTable :=
  match first_none (drop 3 (slots t)) 3 with
  | Some i => (Some i, {| slots := <[Z.to_nat i := Some entry]> (slots t) |})
  | None => (None, t)
  end.

(** @src ross-kernel/src/fd.rs 45-47 FdTable::get *)
Definition get (fd : Z) (t : FdTable) : option FdEntry :=
  match slots t !! Z.to_nat fd with Some (Some e) => Some e | _ => None end.

(** [get_mut] followed by an assignment through the reference it returns.
    @src ross-kernel/src/fd.rs 49-51 FdTable::get_mut *)
Definition get_mut (fd : Z) (f : FdEntry -> FdEntry) (t : FdTable) : FdTable :=
  match get fd t with
  | Some e => {| slots := <[Z.to_nat fd := Some (f e)]> (slots t) |}
  | None => t
  end.

(** @src ross-kernel/src/fd.rs 53-60 FdTable::close *)
Definition close (fd : Z) (t : FdTable) : bool * FdTable :=
  if fd <? FD_MAX then
    match slots t !!! Z.to_nat fd with
    | Some _ => (true, {| slots := <[Z.to_nat fd := None]> (slots t) |})
    | None => (false, t)
    end
  else (false, t).

(** ** Lemmas *)

Definition fd_ok (t : FdTable) : Prop := length (slots t) = Z.to_nat FD_MAX.

Lemma with_stdio_ok : fd_ok with_stdio.
Proof. reflexivity. Qed.

(** Reading a table one slot of which was overwritten. *)
Lemma get_insert t i o fd :
  fd_ok t -> 0 <= i < FD_MAX -> 0 <= fd ->
  get fd {| slots := <[Z.to_nat i := o]> (slots t) |} = if decide (i = fd) then o else get fd t.
Proof.
  unfold fd_ok, get. intros Hl Hi Hfd; simpl. case_decide as He; subst.
  - rewrite list_lookup_insert_eq by lia. by destruct o.
  - by rewrite list_lookup_insert_ne by lia.
Qed.

Lemma get_range t fd e : fd_ok t -> get fd t = Some e -> fd < FD_MAX.
Proof.
  unfold fd_ok, get. intros Hl Hg. destruct (slots t !! Z.to_nat fd) as [o|] eqn:Hlk; [|done].
  apply lookup_lt_Some in Hlk. unfold FD_MAX in *. lia.
Qed.

Lemma alloc_cases t entry :
  fd_ok t ->
  match alloc entry t with
  | (Some fd, t') => 3 <= fd < FD_MAX /\ get fd t = None /\
      (forall j, 3 <= j < fd -> is_Some (get j t)) /\ fd_ok t' /\
      (forall j, 0 <= j -> get j t' = if decide (fd = j) then Some entry else get j t)
  | (None, t') => t' = t /\ forall j, 3 <= j < FD_MAX -> is_Some (get j t)
  end.
Proof.
  intros Hok. unfold alloc. assert (length (drop 3 (slots t)) = 61%nat) as Hd.
  { rewrite length_drop, Hok. done. }
  assert (forall j x, 3 <= j -> drop 3 (slots t) !! Z.to_nat (j - 3) = Some x ->
            slots t !! Z.to_nat j = Some x) as Hdrop.
  { intros j x Hj. rewrite lookup_drop. intros <-. f_equal. lia. }
  destruct (first_none (drop 3 (slots t)) 3) as [i|] eqn:Hf.
  - apply first_none_some in Hf as (Hr & Hlk & Hmin). rewrite Hd in Hr.
    assert (3 <= i < FD_MAX) as Hi by (unfold FD_MAX; lia). split_and!; try lia.
    + unfold get. by rewrite (Hdrop i None) by (done || lia).
    + intros j Hj. destruct (Hmin j Hj) as [x Hx]. unfold get.
      rewrite (Hdrop j (Some x)) by (done || lia). by eexists.
    + unfold fd_ok; simpl. by rewrite length_insert.
    + intros j Hj. by rewrite get_insert by (done || lia).
  - split; [done|]. intros j Hj.
    destruct (first_none_none _ _ Hf (Z.to_nat (j - 3))) as [x Hx].
    { rewrite Hd. unfold FD_MAX in *. lia. }
    unfold get. rewrite (Hdrop j (Some x)) by (done || lia). by eexists.
Qed.

Lemma close_cases t fd :
  fd_ok t -> 0 <= fd ->
  match get fd t with
  | Some _ => exists t', close fd t = (true, t') /\ fd_ok t' /\
      forall j, 0 <= j -> get j t' = if decide (fd = j) then None else get j t
  | None => close fd t = (false, t)
  end.
Proof.
  intros Hok Hfd. unfold close. destruct (get fd t) as [e|] eqn:Hg.
  - pose proof (get_range _ _ _ Hok Hg) as Hr. rewrite (proj2 (Z.ltb_lt _ _)) by done.
    pose proof Hg as Hg'. unfold get in Hg'. rewrite list_lookup_total_alt.
    destruct (slots t !! Z.to_nat fd) as [[?|]|]; simplify_eq; simpl.
    eexists. split; [done|]. split; [unfold fd_ok; simpl; by rewrite length_insert|].
    intros j Hj. by rewrite get_insert by done.
  - destruct (Z.ltb_spec fd FD_MAX) as [Hlt|]; [|done].
    unfold get in Hg. rewrite list_lookup_total_alt.
    by destruct (slots t !! Z.to_nat fd) as [[?|]|]; simplify_eq; simpl.
Qed.

Lemma get_mut_cases t fd f :
  fd_ok t -> 0 <= fd ->
  fd_ok (get_mut fd f t) /\
  forall j, 0 <= j -> get j (get_mut fd f t) = if decide (fd = j) then f <$> get fd t else get j t.
Proof.
  intros Hok Hfd. unfold get_mut. destruct (get fd t) as [e|] eqn:Hg.
  - split; [unfold fd_ok; simpl; by rewrite length_insert|]. intros j Hj.
    rewrite get_insert; [done|done| |done]. split; [done|]. by eapply get_range.
  - split; [done|]. intros j Hj. case_decide; by subst.
Qed.

End fd.
Arguments FdEntry : clear implicits.
Arguments FdTable : clear implicits.

(** ** Properties *)

(** a descriptor table is a finite map: [alloc] fails only when all of
    3..63 are taken and otherwise binds the lowest free descriptor from 3 on,
    [close] removes exactly its descriptor and reports whether it was open,
    [get_mut] updates one entry in place, a descriptor at or past 64 is never
    open, and a closed descriptor is handed out again before any higher one. *)
Theorem fd_table_spec {N : Type} (t : FdTable N) (entry : FdEntry N) (fd : Z)
    (f : FdEntry N -> FdEntry N) (Hok : fd_ok t) (Hfd : 0 <= fd) :
  match alloc entry t with
  | (Some k, t') => 3 <= k < FD_MAX /\ get k t = None /\
      (forall j, 3 <= j < k -> is_Some (get j t)) /\ fd_ok t' /\
      (forall j, 0 <= j -> get j t' = if decide (k = j) then Some entry else get j t)
  | (None, t') => t' = t /\ forall j, 3 <= j < FD_MAX -> is_Some (get j t)
  end /\
  match close fd t with
  | (b, t') => b = bool_decide (is_Some (get fd t)) /\ fd_ok t' /\
      (forall j, 0 <= j -> get j t' = if decide (fd = j) then None else get j t) /\
      (3 <= fd -> b = true -> exists k t'', alloc entry t' = (Some k, t'') /\ k <= fd)
  end /\
  (forall j, 0 <= j -> get j (get_mut fd f t) = if decide (fd = j) then f <$> get fd t else get j t) /\
  (FD_MAX <= fd -> get fd t = None).
Proof.
  split_and!; [by apply alloc_cases| |by apply get_mut_cases|].
  - pose proof (close_cases t fd Hok Hfd) as Hc. destruct (get fd t) as [e|] eqn:Hg.
    + pose proof (get_range _ _ _ Hok Hg) as Hlt.
      destruct Hc as (t' & -> & Hok' & Hget). split_and!; try done. intros H3 _.
      pose proof (alloc_cases t' entry Hok') as Ha. destruct (alloc entry t') as [[k|] t''].
      * exists k, t''. split; [done|]. destruct (Z.le_gt_cases k fd) as [|Hk]; [done|exfalso].
        destruct Ha as (_ & _ & Hmin & _). destruct (Hmin fd) as [x Hx]; [lia|].
        rewrite Hget, decide_True in Hx; done.
      * destruct Ha as [_ Hall]. destruct (Hall fd) as [x Hx]; [lia|].
        rewrite Hget, decide_True in Hx; done.
    + rewrite Hc. split_and!; try done. intros j Hj. case_decide; by subst.
  - intros Hge. destruct (get fd t) as [e|] eqn:Hg; [|done].
    pose proof (get_range _ _ _ Hok Hg). lia.
Qed.

(** Standard streams open, then two pipes; closing the first frees 3. *)
Lemma fd_table_spec_witness :
  fst (alloc (Pipe 0) (@with_stdio unit)) = Some 3 /\ get 2 (@with_stdio unit) = Some Stderr /\
  (FD_MAX <= 70 -> get 70 (@with_stdio unit) = None).
Proof.
  split; [vm_compute; reflexivity|]. split; [vm_compute; reflexivity|].
  apply (fd_table_spec (@with_stdio unit) (Pipe 0) 70 (fun e => e)); [exact with_stdio_ok|lia].
Defined.
