(* ===== verification/Gdt.v ===== *)
(** * Segment descriptors, TSS and interrupt gates
      ([ross-kernel/src/gdt.rs], [ross-kernel/src/idt.rs])

    The constants and bit packing of the descriptor tables the CPU reads.  The
    decoding functions below are the CPU's layouts of the same 8- and 16-byte
    records; the theorems say the packing is what the CPU reads back.  What the
    processor does with the tables once loaded is in [Cpu]. *)

From S2P Require Import Prelude.

Module Gdt.

(** @src ross-kernel/src/gdt.rs 9-26 Tss *)
Record Tss := mkTss {
  rsp0 : Z; rsp1 : Z; rsp2 : Z;
  ist1 : Z; ist2 : Z; ist3 : Z; ist4 : Z; ist5 : Z; ist6 : Z; ist7 : Z;
  iopb_offset : Z
}.

(** The packed layout: two reserved words and the fields above.
    @src ross-kernel/src/gdt.rs 9-26 size_of::<Tss>() *)
Definition TSS_SIZE : Z := 4 + 3 * 8 + 8 + 7 * 8 + 8 + 2 + 2.

(** @src ross-kernel/src/gdt.rs 28-42 Tss::new *)
Definition Tss_new : Tss := mkTss 0 0 0 0 0 0 0 0 0 0 TSS_SIZE.

(** @src ross-kernel/src/gdt.rs 114-118 set_tss_stack *)
Definition set_tss_stack (stack : Z) (t : Tss) : Tss :=
  {| rsp0 := stack; rsp1 := rsp1 t; rsp2 := rsp2 t; ist1 := ist1 t; ist2 := ist2 t;
     ist3 := ist3 t; ist4 := ist4 t; ist5 := ist5 t; ist6 := ist6 t; ist7 := ist7 t;
     iopb_offset := iopb_offset t |}.

(** @src ross-kernel/src/gdt.rs 52-52 KERNEL_CODE_SELECTOR *)
Definition KERNEL_CODE_SELECTOR : Z := Z.shiftl 1 3.
(** @src ross-kernel/src/gdt.rs 53-53 KERNEL_DATA_SELECTOR *)
Definition KERNEL_DATA_SELECTOR : Z := Z.shiftl 2 3.
(** @src ross-kernel/src/gdt.rs 54-54 USER_DATA_SELECTOR *)
Definition USER_DATA_SELECTOR : Z := Z.shiftl 3 3.
(** @src ross-kernel/src/gdt.rs 55-55 USER_CODE_SELECTOR *)
Definition USER_CODE_SELECTOR : Z := Z.shiftl 4 3.
(** @src ross-kernel/src/gdt.rs 56-56 TSS_SELECTOR *)
Definition TSS_SELECTOR : Z := Z.shiftl 5 3.

(** @src ross-kernel/src/gdt.rs 120-130 create_gdt_entry *)
Definition create_gdt_entry (base limit access flags : Z) : Z :=
  let entry := 0 in
  let entry := Z.lor entry (Z.land limit 0xFFFF) in
  let entry := Z.lor entry (Z.shiftl (Z.land base 0xFFFF) 16) in
  let entry := Z.lor entry (Z.shiftl (Z.land (Z.shiftr base 16) 0xFF) 32) in
  let entry := Z.lor entry (Z.shiftl access 40) in
  let entry := Z.lor entry (Z.shiftl (Z.land (Z.shiftr limit 16) 0x0F) 48) in
  let entry := Z.lor entry (Z.shiftl (Z.land flags 0x0F) 52) in
  Z.lor entry (Z.shiftl (Z.land (Z.shiftr base 24) 0xFF) 56).

(** @src ross-kernel/src/gdt.rs 59-70 Gdt::new *)
Definition Gdt_new : list Z :=
  [ 0;
    create_gdt_entry 0 0 0x9A 0x2;
    create_gdt_entry 0 0 0x92 0x0;
    create_gdt_entry 0 0 0xF2 0x0;
    create_gdt_entry 0 0 0xFA 0x2;
    0; 0; 0 ].

(** The low half of the TSS descriptor [load] stores in entry 5.
    @src ross-kernel/src/gdt.rs 82-86 Gdt::load *)
Definition tss_entry_low (tss_addr tss_limit : Z) : Z :=
  Z.lor (Z.lor (Z.lor (Z.lor
    (Z.land tss_limit 0xFFFF)
    (Z.shiftl (Z.land tss_addr 0xFFFFFF) 16))
    (Z.shiftl 0x89 40))
    (Z.shiftl (Z.land (Z.shiftr tss_limit 16) 0xF) 48))
    (Z.shiftl (Z.land (Z.shiftr tss_addr 24) 0xFF) 56).

(** [load] up to the [lgdt] instruction: the table, the TSS it edits and the
    limit of the descriptor it passes; [tss_addr] and [df_stack] are the
    addresses of the statics [TSS] and [DOUBLE_FAULT_STACK].
    @src ross-kernel/src/gdt.rs 72-92 Gdt::load *)
Definition load (tss_addr df_stack : Z) (entries : list Z) (t : Tss) : list Z * Tss * Z :=
  let tss_limit := TSS_SIZE - 1 in
  let t := {| rsp0 := rsp0 t; rsp1 := rsp1 t; rsp2 := rsp2 t; ist1 := df_stack + 0x4000;
              ist2 := ist2 t; ist3 := ist3 t; ist4 := ist4 t; ist5 := ist5 t;
              ist6 := ist6 t; ist7 := ist7 t; iopb_offset := iopb_offset t |} in
  let entries := <[5%nat := tss_entry_low tss_addr tss_limit]> entries in
  let entries := <[6%nat := Z.shiftr tss_addr 32]> entries in
  (entries, t, 8 * 8 - 1).

(** *** What the CPU reads *)

(** Base, limit and access byte of a 16-byte system descriptor. *)
Definition sys_base (lo hi : Z) : Z :=
  Z.lor (Z.lor (Z.shiftr lo 16 mod 2 ^ 24) (Z.shiftl (Z.shiftr lo 56 mod 2 ^ 8) 24))
        (Z.shiftl (hi mod 2 ^ 32) 32).
Definition sys_limit (lo : Z) : Z := Z.lor (lo mod 2 ^ 16) (Z.shiftl (Z.shiftr lo 48 mod 2 ^ 4) 16).
Definition seg_access (e : Z) : Z := Z.shiftr e 40 mod 2 ^ 8.
(** Descriptor privilege level, code bit and long-mode bit of a segment. *)
Definition seg_dpl (e : Z) : Z := Z.shiftr e 45 mod 2 ^ 2.
Definition seg_code (e : Z) : bool := Z.testbit e 43.
Definition seg_long (e : Z) : bool := Z.testbit e 53.
Definition seg_present (e : Z) : bool := Z.testbit e 47.

Lemma tss_entry_base addr limit :
  fits 64 addr -> fits 20 limit -> sys_base (tss_entry_low addr limit) (Z.shiftr addr 32) = addr.
Proof.
  intros Ha Hl. unfold sys_base, tss_entry_low.
  rewrite (land_mask _ 0xFFFF 16), (land_mask _ 0xFFFFFF 24), (land_mask _ 0xF 4),
    (land_mask _ 0xFF 8) by (done || lia).
  assert (fits 8 0x89) as H89 by (unfold fits; lia). generalize dependent 0x89. intros acc H89.
  bitwise.
Qed.

Lemma tss_entry_limit addr limit :
  fits 64 addr -> fits 20 limit -> sys_limit (tss_entry_low addr limit) = limit.
Proof.
  intros Ha Hl. unfold sys_limit, tss_entry_low.
  rewrite (land_mask _ 0xFFFF 16), (land_mask _ 0xFFFFFF 24), (land_mask _ 0xF 4),
    (land_mask _ 0xFF 8) by (done || lia).
  assert (fits 8 0x89) as H89 by (unfold fits; lia). generalize dependent 0x89. intros acc H89.
  bitwise.
Qed.

Lemma tss_entry_access addr limit :
  fits 64 addr -> fits 20 limit -> seg_access (tss_entry_low addr limit) = 0x89.
Proof.
  intros Ha Hl. unfold seg_access, tss_entry_low.
  rewrite (land_mask _ 0xFFFF 16), (land_mask _ 0xFFFFFF 24), (land_mask _ 0xF 4),
    (land_mask _ 0xFF 8) by (done || lia).
  assert (fits 8 0x89) as H89 by (unfold fits; lia). generalize dependent 0x89. intros acc H89.
  bitwise.
Qed.

(** the tables [Gdt::load] leaves behind are what the CPU must find: entry
    5/6 decodes to a present 64-bit TSS whose base is the address of the static
    [TSS] and whose limit is its last byte; the double-fault stack of the TSS is
    the top of [DOUBLE_FAULT_STACK]; and entries 1-4, selected by the kernel's
    selectors, are present segments, code for 1 and 4 only, long-mode code,
    privilege 0 for 1, 2 and 3 for 3, 4. *)
Theorem load_tables (tss_addr df_stack : Z) (t : Tss)
    (Htss : fits 64 tss_addr) :
  let '(entries, t', limit) := load tss_addr df_stack Gdt_new t in
  length entries = 8%nat /\ limit = 8 * Z.of_nat (length entries) - 1 /\
  sys_base (entries !!! 5%nat) (entries !!! 6%nat) = tss_addr /\
  sys_limit (entries !!! 5%nat) = TSS_SIZE - 1 /\
  seg_access (entries !!! 5%nat) = 0x89 /\
  ist1 t' = df_stack + 0x4000 /\ rsp0 t' = rsp0 t /\
  (forall sel, sel ∈ [KERNEL_CODE_SELECTOR; KERNEL_DATA_SELECTOR; USER_DATA_SELECTOR; USER_CODE_SELECTOR] ->
     let e := entries !!! Z.to_nat (Z.shiftr sel 3) in
     seg_present e = true /\
     seg_code e = bool_decide (sel = KERNEL_CODE_SELECTOR \/ sel = USER_CODE_SELECTOR) /\
     seg_long e = seg_code e /\
     seg_dpl e = if decide (sel = KERNEL_CODE_SELECTOR \/ sel = KERNEL_DATA_SELECTOR) then 0 else 3).
Proof.
  assert (fits 20 (TSS_SIZE - 1)) as Hl by (unfold fits, TSS_SIZE; lia).
  cbv beta iota zeta delta [load].
  split_and!; try reflexivity.
  - by apply tss_entry_base.
  - by apply tss_entry_limit.
  - by apply tss_entry_access.
  - intros sel Hsel.
    repeat (apply elem_of_cons in Hsel as [->|Hsel]; [by vm_compute|]).
    by apply not_elem_of_nil in Hsel.
Qed.

Lemma load_tables_witness :
  fits 64 0xFFFFFFFF80345678 /\
  sys_base (fst (fst (load 0xFFFFFFFF80345678 0xFFFFFFFF80400000 Gdt_new Tss_new)) !!! 5%nat)
           (fst (fst (load 0xFFFFFFFF80345678 0xFFFFFFFF80400000 Gdt_new Tss_new)) !!! 6%nat)
    = 0xFFFFFFFF80345678.
Proof.
  assert (fits 64 0xFFFFFFFF80345678) as H by (split; vm_compute; congruence).
  split; [exact H|].
  apply (load_tables 0xFFFFFFFF80345678 0xFFFFFFFF80400000 Tss_new H).
Defined.

End Gdt.

Module Idt.

(** @src ross-kernel/src/idt.rs 13-23 IdtEntry *)
Record IdtEntry := mkGate {
  offset_low : Z;
  selector : Z;
  ist : Z;
  attributes : Z;
  offset_mid : Z;
  offset_high : Z;
  reserved : Z
}.

(** @src ross-kernel/src/idt.rs 26-36 IdtEntry::empty *)
Definition empty : IdtEntry := mkGate 0 0 0 0 0 0 0.

#[global] Instance IdtEntry_inhabited : Inhabited IdtEntry := populate empty.

(** [as u16] and [as u32] truncate.
    @src ross-kernel/src/idt.rs 38-45 IdtEntry::set_handler *)
Definition set_handler (addr : Z) (e : IdtEntry) : IdtEntry :=
  {| offset_low := addr mod 2 ^ 16;
     selector := 0x08;
     ist := ist e;
     attributes := 0x8E;
     offset_mid := Z.shiftr addr 16 mod 2 ^ 16;
     offset_high := Z.shiftr addr 32 mod 2 ^ 32;
     reserved := reserved e |}.

(** [idt.entries[8].ist = 1].
    @src ross-kernel/src/idt.rs 86-86 init_idt *)
Definition set_ist (i : Z) (e : IdtEntry) : IdtEntry :=
  {| offset_low := offset_low e; selector := selector e; ist := i; attributes := attributes e;
     offset_mid := offset_mid e; offset_high := offset_high e; reserved := reserved e |}.

(** @src ross-kernel/src/idt.rs 48-57 Idt::new *)
Definition Idt_new : list IdtEntry := replicate 256 empty.

(** The link-time addresses of the handlers. *)
Record Handlers := mkHandlers {
  divide_error_handler : Z; breakpoint_handler : Z; invalid_opcode_handler : Z;
  double_fault_handler : Z; general_protection_fault_handler : Z; page_fault_handler : Z;
  irq_stub_handler : Z; timer_handler_stub : Z; keyboard_handler : Z;
  lapic_spurious_handler : Z
}.

(** @src ross-kernel/src/idt.rs 80-100 init_idt *)
Definition init_idt (h : Handlers) (entries : list IdtEntry) : list IdtEntry :=
  let set v addr l := <[v := set_handler addr (l !!! v)]> l in
  let entries := set 0%nat (divide_error_handler h) entries in
  let entries := set 3%nat (breakpoint_handler h) entries in
  let entries := set 6%nat (invalid_opcode_handler h) entries in
  let entries := set 8%nat (double_fault_handler h) entries in
  let entries := <[8%nat := set_ist 1 (entries !!! 8%nat)]> entries in
  let entries := set 13%nat (general_protection_fault_handler h) entries in
  let entries := set 14%nat (page_fault_handler h) entries in
  let entries := foldl (fun l i => set i (irq_stub_handler h) l) entries (seq 32 16) in
  let entries := set 32%nat (timer_handler_stub h) entries in
  let entries := set 33%nat (keyboard_handler h) entries in
  set 0xFF%nat (lapic_spurious_handler h) entries.

(** *** What the CPU reads *)

Definition gate_target (e : IdtEntry) : Z :=
  offset_low e + Z.shiftl (offset_mid e) 16 + Z.shiftl (offset_high e) 32.
Definition gate_present (e : IdtEntry) : bool := Z.testbit (attributes e) 7.

(** The handler each vector is meant to reach. *)
Definition vector_handler (h : Handlers) (v : nat) : option Z :=
  if decide (v = 0)%nat then Some (divide_error_handler h)
  else if decide (v = 3)%nat then Some (breakpoint_handler h)
  else if decide (v = 6)%nat then Some (invalid_opcode_handler h)
  else if decide (v = 8)%nat then Some (double_fault_handler h)
  else if decide (v = 13)%nat then Some (general_protection_fault_handler h)
  else if decide (v = 14)%nat then Some (page_fault_handler h)
  else if decide (v = 32)%nat then Some (timer_handler_stub h)
  else if decide (v = 33)%nat then Some (keyboard_handler h)
  else if decide (34 <= v <= 47)%nat then Some (irq_stub_handler h)
  else if decide (v = 255)%nat then Some (lapic_spurious_handler h)
  else None.

Lemma gate_target_set addr e : fits 64 addr -> gate_target (set_handler addr e) = addr.
Proof.
  unfold fits, gate_target, set_handler; simpl. intros Ha.
  rewrite !Z.shiftl_mul_pow2, !Z.shiftr_div_pow2 by lia.
  change (2 ^ 16) with 65536. change (2 ^ 32) with 4294967296.
  change (2 ^ 64) with 18446744073709551616 in Ha. dm_lia.
Qed.

(** The gate of every vector, as a closed function of the handlers. *)
Lemma init_idt_entry h (v : nat) :
  (v < 256)%nat ->
  init_idt h Idt_new !!! v =
    match vector_handler h v with
    | Some a => set_handler a (if decide (v = 8)%nat then set_ist 1 empty else empty)
    | None => empty
    end.
Proof. intros Hv. do 256 (destruct v as [|v]; [reflexivity|]). lia. Qed.

(** after [init_idt], the gate of every vector that has a handler is
    present, runs in the kernel code segment and makes the CPU jump to exactly
    that handler's 64-bit address - the six exceptions, the timer, the
    keyboard, the stub for the other legacy IRQs 34-47 and the spurious vector;
    the double fault alone switches to IST 1; all other gates are absent. *)
Theorem init_idt_dispatch (h : Handlers) (v : nat)
    (Hv : (v < 256)%nat) (Hh : forall a, vector_handler h v = Some a -> fits 64 a) :
  let e := init_idt h Idt_new !!! v in
  match vector_handler h v with
  | Some a => gate_present e = true /\ gate_target e = a /\ selector e = Gdt.KERNEL_CODE_SELECTOR /\
              ist e = if decide (v = 8)%nat then 1 else 0
  | None => gate_present e = false
  end.
Proof.
  cbv zeta. rewrite init_idt_entry by done.
  destruct (vector_handler h v) as [a|]; [|reflexivity].
  split; [reflexivity|]. split; [by apply gate_target_set, Hh|]. split; [reflexivity|].
  simpl. by case_decide.
Qed.

Definition demo_handlers : Handlers :=
  mkHandlers 0x80201000 0x80201010 0x80201020 0x80201030 0x80201040 0x80201050
             0x80201060 0xFFFFFFFF80201070 0x80201080 0x80201090.

Lemma init_idt_dispatch_witness :
  vector_handler demo_handlers 32 = Some 0xFFFFFFFF80201070 /\
  gate_target (init_idt demo_handlers Idt_new !!! 32%nat) = 0xFFFFFFFF80201070.
Proof.
  split; [reflexivity|].
  apply (init_idt_dispatch demo_handlers 32); [lia|].
  intros a [= <-]. split; vm_compute; congruence.
Defined.

End Idt.
