(* ===== verification/Task.v ===== *)
(** * Tasks, context switching and the scheduler
      ([ross-kernel/src/task.rs], the timer entry of [ross-kernel/src/idt.rs])

    A task's kernel stack lives in kernel memory (a [mem], by virtual address);
    [Task_new] writes the first interrupt frame there, [save_context] and
    [restore_context] are the two halves of [timer_handler_stub], and
    [pick_next] is the round-robin choice between them.  The type of
    file-system nodes held by descriptor tables is a parameter. *)

From S2P Require Import Prelude Bytes Fd Gdt.
From Stdlib Require Import Permutation.

(** ** Stacks of 64-bit words *)

(** [rsp = rsp.offset(-1); rsp.write(v)], and the [push] instruction.
    @src ross-kernel/src/task.rs 91-92 Task::new *)
Definition push_u64 (p : Z * mem) (v : Z) : Z * mem :=
  let '(rsp, m) := p in (rsp - 8, st64 (rsp - 8) v m).

Definition push_all (vs : list Z) (p : Z * mem) : Z * mem := foldl push_u64 p vs.

(** [n] words from [rsp] upwards, what [n] [pop] instructions read. *)
Fixpoint pop_all (n : nat) (rsp : Z) (m : mem) : list Z :=
  match n with
  | O => []
  | S n => ld64 m rsp :: pop_all n (rsp + 8) m
  end.

Lemma pop_all_ext n rsp m m' :
  (forall x, rsp <= x < rsp + 8 * Z.of_nat n -> m x = m' x) -> pop_all n rsp m = pop_all n rsp m'.
Proof.
  revert rsp. induction n as [|n IH]; intros rsp Hx; simpl; [done|]. f_equal.
  - apply ld_ext. intros. apply Hx. lia.
  - apply IH. intros. apply Hx. lia.
Qed.

Lemma pop_all_app n k rsp m :
  pop_all (n + k) rsp m = pop_all n rsp m ++ pop_all k (rsp + 8 * Z.of_nat n) m.
Proof.
  revert rsp. induction n as [|n IH]; intros rsp; simpl.
  - f_equal. lia.
  - f_equal. rewrite IH. do 2 f_equal. lia.
Qed.

Lemma push_all_rsp vs rsp m : fst (push_all vs (rsp, m)) = rsp - 8 * Z.of_nat (length vs).
Proof.
  unfold push_all. revert rsp m. induction vs as [|v vs IH]; intros rsp m; simpl; [lia|].
  rewrite IH. lia.
Qed.

(** Pushing touches the words pushed only. *)
Lemma push_all_out vs rsp m x :
  x < rsp - 8 * Z.of_nat (length vs) \/ rsp <= x -> snd (push_all vs (rsp, m)) x = m x.
Proof.
  unfold push_all. revert rsp m. induction vs as [|v vs IH]; intros rsp m Hx; simpl in *; [done|].
  rewrite IH by lia. apply st_bytes_out. rewrite length_le_bytes. lia.
Qed.

(** Words come back in the opposite order. *)
Lemma push_all_bytes vs rsp m : mem_ok m -> mem_ok (snd (push_all vs (rsp, m))).
Proof. unfold push_all. revert rsp m. induction vs as [|v vs IH]; intros rsp m Hm; simpl; [done|]. by apply IH, st_ok. Qed.

Lemma pop_push_all vs rsp m :
  Forall (fits 64) vs ->
  pop_all (length vs) (rsp - 8 * Z.of_nat (length vs)) (snd (push_all vs (rsp, m))) = rev vs.
Proof.
  intros Hvs. revert rsp m. induction Hvs as [|v vs Hv _ IH]; intros rsp m; [done|].
  replace (length (v :: vs)) with (length vs + 1)%nat by (simpl; lia).
  rewrite pop_all_app. simpl rev. f_equal.
  - replace (rsp - 8 * Z.of_nat (length vs + 1)) with (rsp - 8 - 8 * Z.of_nat (length vs)) by lia.
    apply IH.
  - simpl. f_equal. replace (_ + _) with (rsp - 8) by lia.
    rewrite <- (ld_st_same 8 (rsp - 8) v m Hv) at 2. apply ld_ext. intros x Hx.
    apply push_all_out. lia.
Qed.

(** ** Registers and the interrupt frame *)

(** The fifteen registers [timer_handler_stub] saves.
    @src ross-kernel/src/task.rs 22-37 FullContext *)
Record Regs := mkRegs {
  rax : Z; rcx : Z; rdx : Z; rbx : Z; rbp : Z; rsi : Z; rdi : Z;
  r8 : Z; r9 : Z; r10 : Z; r11 : Z; r12 : Z; r13 : Z; r14 : Z; r15 : Z
}.

(** What [iretq] pops.
    @src ross-kernel/src/task.rs 39-44 FullContext *)
Record IretFrame := mkFrame {
  f_rip : Z; f_cs : Z; f_rflags : Z; f_rsp : Z; f_ss : Z
}.

Definition push_order (r : Regs) : list Z :=
  [rax r; rcx r; rdx r; rbx r; rbp r; rsi r; rdi r; r8 r; r9 r; r10 r; r11 r; r12 r; r13 r; r14 r; r15 r].

(** The pushes at the head of [timer_handler_stub].
    @src ross-kernel/src/idt.rs 125-129 timer_handler_stub *)
Definition save_context (r : Regs) (p : Z * mem) : Z * mem := push_all (push_order r) p.

(** The tail of [timer_handler_stub], from the stack pointer the scheduler
    returned: the registers, the data selector loaded when the frame returns to
    ring 3, and the frame left for [iretq].
    @src ross-kernel/src/idt.rs 135-163 timer_handler_stub *)
Definition restore_context (rsp : Z) (m : mem) : Regs * option Z * IretFrame :=
  let w i := ld64 m (rsp + 8 * i) in
  let r := {| r15 := w 0; r14 := w 1; r13 := w 2; r12 := w 3; r11 := w 4; r10 := w 5;
              r9 := w 6; r8 := w 7; rdi := w 8; rsi := w 9; rbp := w 10; rbx := w 11;
              rdx := w 12; rcx := w 13; rax := w 14 |} in
  let frame := {| f_rip := w 15; f_cs := w 16; f_rflags := w 17; f_rsp := w 18; f_ss := w 19 |} in
  let ds := if Z.land (f_cs frame) 3 =? 3 then Some 0x1B else None in
  (r, ds, frame).

(** Reading the twenty words as one list. *)
Lemma restore_context_words rsp m ws :
  pop_all 20 rsp m = ws ->
  restore_context rsp m =
    (mkRegs (ws !!! 14%nat) (ws !!! 13%nat) (ws !!! 12%nat) (ws !!! 11%nat) (ws !!! 10%nat)
            (ws !!! 9%nat) (ws !!! 8%nat) (ws !!! 7%nat) (ws !!! 6%nat) (ws !!! 5%nat)
            (ws !!! 4%nat) (ws !!! 3%nat) (ws !!! 2%nat) (ws !!! 1%nat) (ws !!! 0%nat),
     if Z.land (ws !!! 16%nat) 3 =? 3 then Some 0x1B else None,
     mkFrame (ws !!! 15%nat) (ws !!! 16%nat) (ws !!! 17%nat) (ws !!! 18%nat) (ws !!! 19%nat)).
Proof.
  intros <-. unfold restore_context. cbn [pop_all].
  rewrite <- !Z.add_assoc, Z.mul_0_r, Z.add_0_r. reflexivity.
Qed.

(** ** Tasks *)

(** @src ross-kernel/src/task.rs 60-66 TaskState *)
Inductive TaskState :=
  | Ready
  | Running
  | Blocked
  | Dead.

#[global] Instance TaskState_eq_dec : EqDecision TaskState.
Proof. solve_decision. Defined.

(** A [Vec<u8>] by the address and length of its storage. *)
Record VecU8 := mkVec { vec_ptr : Z; vec_len : Z }.

Section task.
Context {N : Type}.

(** @src ross-kernel/src/task.rs 47-58 Task *)
Record Task := mkTask {
  task_id : Z;
  stack : VecU8;
  kernel_stack_top : Z;
  rsp : Z;
  cr3 : Z;
  state : TaskState;
  is_user : bool;
  fd_table : FdTable N;
  heap_end : Z
}.

(** [task.rsp = v], [task.state = s] and the like. *)
Definition set_rsp (v : Z) (t : Task) : Task :=
  mkTask (task_id t) (stack t) (kernel_stack_top t) v (cr3 t) (state t) (is_user t) (fd_table t) (heap_end t).
Definition set_state (s : TaskState) (t : Task) : Task :=
  mkTask (task_id t) (stack t) (kernel_stack_top t) (rsp t) (cr3 t) s (is_user t) (fd_table t) (heap_end t).
Definition set_fd_table (f : FdTable N) (t : Task) : Task :=
  mkTask (task_id t) (stack t) (kernel_stack_top t) (rsp t) (cr3 t) (state t) (is_user t) f (heap_end t).
Definition set_heap_end (h : Z) (t : Task) : Task :=
  mkTask (task_id t) (stack t) (kernel_stack_top t) (rsp t) (cr3 t) (state t) (is_user t) (fd_table t) h.

(** @src ross-kernel/src/task.rs 70-70 Task::new *)
Definition STACK_SIZE : Z := 0x2000.

(** The words [Task::new] writes, in the order it writes them.
    @src ross-kernel/src/task.rs 87-111 Task::new *)
Definition initial_words (entry_point user_stack_top internal_stack_top : Z) (user : bool) : list Z :=
  let cs := if user then 0x23 else 0x08 in
  let ss := if user then 0x1B else 0x10 in
  [ss; (if user_stack_top =? 0 then internal_stack_top else user_stack_top); 0x202; cs; entry_point]
    ++ replicate 15 0.

(** [Task::new]: [stack_ptr] is the heap allocator's answer for the stack,
    [next_id] the counter [NEXT_ID], [m] kernel memory.
    @src ross-kernel/src/task.rs 69-124 Task::new *)
Definition Task_new (entry_point stack_top cr3 : Z) (user : bool) (stack_ptr next_id : Z) (m : mem)
  : Task * Z * mem :=
  let m := fill stack_ptr 0 STACK_SIZE m in
  let internal_stack_top := stack_ptr + STACK_SIZE in
  let p := push_all (initial_words entry_point stack_top internal_stack_top user)
                    (internal_stack_top, m) in
  ({| task_id := next_id; stack := mkVec stack_ptr STACK_SIZE;
      kernel_stack_top := internal_stack_top; rsp := fst p; cr3 := cr3; state := Ready;
      is_user := user; fd_table := with_stdio; heap_end := 0 |},
   wrap 64 (next_id + 1), snd p).

(** @src ross-kernel/src/task.rs 126-144 Task::main_task *)
Definition main_task (cr3 next_id : Z) : Task * Z :=
  ({| task_id := next_id; stack := mkVec 0 0; kernel_stack_top := 0; rsp := 0; cr3 := cr3;
      state := Running; is_user := false; fd_table := with_stdio; heap_end := 0 |},
   wrap 64 (next_id + 1)).

(** ** The scheduler *)

(** @src ross-kernel/src/task.rs 14-18 TaskSwitchResult *)
Record TaskSwitchResult := mkSwitch {
  res_rsp : Z;
  res_cr3 : Z
}.

(** @src ross-kernel/src/task.rs 155-158 Scheduler *)
Record Scheduler := mkSched {
  tasks : list Task;
  current_task : option Task
}.

(** @src ross-kernel/src/task.rs 161-166 Scheduler::new *)
Definition Scheduler_new : Scheduler := {| tasks := []; current_task := None |}.

(** @src ross-kernel/src/task.rs 168-170 Scheduler::set_main *)
Definition set_main (t : Task) (s : Scheduler) : Scheduler :=
  {| tasks := tasks s; current_task := Some t |}.

(** @src ross-kernel/src/task.rs 172-174 Scheduler::add_task *)
Definition add_task (t : Task) (s : Scheduler) : Scheduler :=
  {| tasks := tasks s ++ [t]; current_task := current_task s |}.

(** The first half of [pick_next]: the queue after the current task was put
    back or dropped.
    @src ross-kernel/src/task.rs 177-185 Scheduler::pick_next *)
Definition requeue (current_rsp : Z) (s : Scheduler) : list Task :=
  match current_task s with
  | Some current =>
      if decide (state current = Dead) then tasks s
      else tasks s ++ [set_state Ready (set_rsp current_rsp current)]
  | None => tasks s
  end.

(** [cr3_reg] is the CR3 register, [tss] the static [gdt::TSS].
    @src ross-kernel/src/task.rs 176-211 Scheduler::pick_next *)
Definition pick_next (current_rsp cr3_reg : Z) (s : Scheduler) (tss : Gdt.Tss)
  : TaskSwitchResult * Scheduler * Gdt.Tss :=
  match requeue current_rsp s with
  | next :: rest =>
      let next := set_state Running next in
      ({| res_rsp := rsp next; res_cr3 := cr3 next |},
       {| tasks := rest; current_task := Some next |},
       if is_user next then Gdt.set_tss_stack (kernel_stack_top next) tss else tss)
  | [] =>
      ({| res_rsp := current_rsp; res_cr3 := cr3_reg |},
       {| tasks := []; current_task := None |}, tss)
  end.

(** *** Histories *)

(** What happens to the scheduler: a timer tick, [add_task], and a system call
    that changes the running task in place ([as_mut]). *)
Inductive event :=
  | Tick (current_rsp cr3_reg : Z)
  | Spawn (t : Task)
  | Mutate (f : Task -> Task).

Definition run_event (st : Scheduler * Gdt.Tss) (e : event) : Scheduler * Gdt.Tss :=
  let '(s, tss) := st in
  match e with
  | Tick r c => let '(_, s', tss') := pick_next r c s tss in (s', tss')
  | Spawn t => (add_task t s, tss)
  | Mutate f => ({| tasks := tasks s; current_task := f <$> current_task s |}, tss)
  end.

Definition run_events (st : Scheduler * Gdt.Tss) (es : list event) : Scheduler * Gdt.Tss :=
  foldl run_event st es.

Fixpoint ticks (es : list event) : nat :=
  match es with
  | [] => 0
  | Tick _ _ :: es => S (ticks es)
  | _ :: es => ticks es
  end.

(** *** Lemmas *)

Lemma requeue_app r s : exists l, requeue r s = tasks s ++ l.
Proof.
  unfold requeue. destruct (current_task s) as [c|]; [case_decide|]; eauto.
  all: exists []; by rewrite app_nil_r.
Qed.

(** One event moves a waiting task one place forward, at a tick, or not at all. *)
Lemma run_event_position s tss e k t :
  tasks s !! k = Some t ->
  match e with
  | Tick _ _ =>
      match k with
      | O => current_task (fst (run_event (s, tss) e)) = Some (set_state Running t)
      | S k' => tasks (fst (run_event (s, tss) e)) !! k' = Some t
      end
  | _ => tasks (fst (run_event (s, tss) e)) !! k = Some t
  end.
Proof.
  intros Hk. destruct e as [r c|t'|f]; simpl; [|by apply lookup_app_l_Some|done].
  unfold pick_next. destruct (requeue_app r s) as [l ->].
  destruct (tasks s) as [|t0 q] eqn:Hq; [done|]. simpl.
  destruct k as [|k]; simpl in *; [congruence|]. by apply lookup_app_l_Some.
Qed.

(** After as many ticks as there are tasks ahead of it, a waiting task is at
    the head of the queue, unchanged. *)
Lemma run_events_position es : forall s tss k t,
  tasks s !! (ticks es + k)%nat = Some t ->
  tasks (fst (run_events (s, tss) es)) !! k = Some t.
Proof.
  unfold run_events. induction es as [|e es IH]; intros s tss k t Hk; [done|].
  cbn [foldl].
  assert (tasks (fst (run_event (s, tss) e)) !! (ticks es + k)%nat = Some t) as Hp.
  { destruct e as [r c|t'|f]; cbn [ticks plus] in Hk.
    - apply (run_event_position s tss (Tick r c) _ _ Hk).
    - apply (run_event_position s tss (Spawn t') _ _ Hk).
    - apply (run_event_position s tss (Mutate f) _ _ Hk). }
  destruct (run_event (s, tss) e) as [s' tss']. by apply IH.
Qed.

(** The task put back at a tick. *)
Definition preempted (r : Z) (t : Task) : Task := set_state Ready (set_rsp r t).

Lemma pick_next_position r c s tss cur :
  current_task s = Some cur -> state cur <> Dead ->
  let '(_, s', _) := pick_next r c s tss in
  match length (tasks s) with
  | O => current_task s' = Some (set_state Running (preempted r cur))
  | S n => tasks s' !! n = Some (preempted r cur)
  end.
Proof.
  intros Hc Hs. unfold pick_next, requeue. rewrite Hc, decide_False by done.
  destruct (tasks s) as [|t q]; simpl; [done|].
  by rewrite lookup_app_r, Nat.sub_diag by lia.
Qed.

(** *** Scheduler invariant *)

Record sched_ok (s : Scheduler) : Prop := {
  sk_queue : Forall (fun t => state t = Ready) (tasks s);
  sk_current : forall t, current_task s = Some t -> state t = Running \/ state t = Dead
}.

(** Every task the scheduler holds. *)
Definition all_tasks (s : Scheduler) : list Task := option_list (current_task s) ++ tasks s.

Definition live (t : Task) : bool := bool_decide (state t <> Dead).

Definition ids (l : list Task) : list Z := task_id <$> l.

Lemma requeue_ready r s : sched_ok s -> Forall (fun t => state t = Ready) (requeue r s).
Proof.
  intros [Hq _]. unfold requeue. destruct (current_task s); [case_decide|]; try done.
  apply Forall_app. split; [done|]. by repeat constructor.
Qed.

Lemma requeue_ids r s :
  ids (requeue r s) ≡ₚ ids (filter live (option_list (current_task s))) ++ ids (tasks s).
Proof.
  unfold requeue, ids, live. destruct (current_task s) as [t|]; simpl; [|done].
  case_decide as Hd.
  - rewrite filter_cons_False; [done|]. rewrite bool_decide_eq_false_2; [tauto|tauto].
  - rewrite filter_cons_True; [|by apply bool_decide_pack]. rewrite fmap_app. simpl.
    by rewrite Permutation_app_comm.
Qed.

Lemma pick_next_ids r c s tss :
  ids (all_tasks (snd (fst (pick_next r c s tss)))) ≡ₚ
  ids (filter live (option_list (current_task s))) ++ ids (tasks s).
Proof.
  rewrite <- (requeue_ids r s). unfold pick_next.
  destruct (requeue r s) as [|t q]; simpl; done.
Qed.

Lemma pick_next_ok r c s tss : sched_ok s -> sched_ok (snd (fst (pick_next r c s tss))).
Proof.
  intros Hok. pose proof (requeue_ready r s Hok) as Hr. unfold pick_next.
  destruct (requeue r s) as [|t q]; simpl; split; simpl; try done.
  - by inversion Hr.
  - intros t' [= <-]. by left.
Qed.

(** What the head of the queue becomes at a tick. *)
Lemma pick_next_head r c s tss t :
  tasks s !! 0%nat = Some t ->
  let '(res, s', tss') := pick_next r c s tss in
  res = mkSwitch (rsp t) (cr3 t) /\ current_task s' = Some (set_state Running t) /\
  (is_user t = true -> Gdt.rsp0 tss' = kernel_stack_top t).
Proof.
  intros Ht. unfold pick_next. destruct (requeue_app r s) as [l ->].
  destruct (tasks s) as [|t0 q]; simplify_eq/=. split_and!; try done. by intros ->.
Qed.

(** Events a kernel built on this scheduler produces: new tasks are [Ready],
    and a system call leaves the running task [Running] or makes it [Dead]. *)
Definition event_ok (e : event) : Prop :=
  match e with
  | Tick _ _ => True
  | Spawn t => state t = Ready
  | Mutate f => forall t, state t = Running \/ state t = Dead -> state (f t) = Running \/ state (f t) = Dead
  end.

Lemma run_event_ok st e : event_ok e -> sched_ok (fst st) -> sched_ok (fst (run_event st e)).
Proof.
  destruct st as [s tss]. intros He Hok; simpl in *. destruct e as [r c|t|f]; simpl in *.
  - pose proof (pick_next_ok r c s tss Hok) as H. by destruct (pick_next r c s tss) as [[? ?] ?].
  - destruct Hok as [Hq Hc]. split; simpl; [|done]. apply Forall_app. split; [done|].
    by repeat constructor.
  - destruct Hok as [Hq Hc]. split; simpl; [done|].
    intros t. destruct (current_task s) as [t0|]; simpl; [|done]. intros [= <-]. eauto.
Qed.

(** ** Properties *)

(** C15: no task starves.  A task waiting at position [k] of the queue is
    untouched by anything that happens until the [k]-th tick from now - other
    ticks, new tasks, system calls of the running task - and the tick after
    that resumes it: the scheduler hands back its saved stack pointer and page
    table, it becomes the running task, and if it is a user task the TSS points
    at its kernel stack. *)
Theorem no_starvation (s : Scheduler) (tss : Gdt.Tss) (es : list event) (t : Task) (r c : Z)
    (Ht : tasks s !! ticks es = Some t) :
  let '(s1, tss1) := run_events (s, tss) es in
  let '(res, s2, tss2) := pick_next r c s1 tss1 in
  res = mkSwitch (rsp t) (cr3 t) /\ current_task s2 = Some (set_state Running t) /\
  (is_user t = true -> Gdt.rsp0 tss2 = kernel_stack_top t).
Proof.
  pose proof (run_events_position es s tss 0 t) as Hp. rewrite Nat.add_0_r in Hp.
  specialize (Hp Ht). destruct (run_events (s, tss) es) as [s1 tss1].
  exact (pick_next_head r c s1 tss1 t Hp).
Qed.

(** round robin.  A task preempted with stack pointer [r] while [n] others
    wait is resumed by the [n]-th tick after that, with exactly the stack
    pointer and page table it was preempted with and every other field as it
    was, whatever tasks are spawned and whatever the others do meanwhile. *)
Theorem round_robin (s : Scheduler) (tss : Gdt.Tss) (cur : Task) (es : list event) (r c r' c' : Z)
    (Hcur : current_task s = Some cur) (Hlive : state cur <> Dead)
    (Hn : S (ticks es) = length (tasks s)) :
  let '(s1, tss1) := run_events (s, tss) (Tick r c :: es) in
  let '(res, s2, tss2) := pick_next r' c' s1 tss1 in
  res = mkSwitch r (cr3 cur) /\ current_task s2 = Some (set_state Running (set_rsp r cur)).
Proof.
  pose proof (pick_next_position r c s tss cur Hcur Hlive) as Hp. rewrite <- Hn in Hp.
  unfold run_events. cbn [foldl run_event].
  destruct (pick_next r c s tss) as [[res0 s0] tss0].
  rewrite <- (Nat.add_0_r (ticks es)) in Hp.
  pose proof (run_events_position es s0 tss0 0 _ Hp) as Hq. unfold run_events in Hq.
  destruct (foldl run_event (s0, tss0) es) as [s1 tss1].
  pose proof (pick_next_head r' c' s1 tss1 _ Hq) as Hh.
  destruct (pick_next r' c' s1 tss1) as [[res s2] tss2]. naive_solver.
Qed.

(** C14: along any history of ticks, spawns of ready tasks and system calls, the
    waiting tasks are [Ready] and the current one [Running] or [Dead]; and one
    tick neither loses nor duplicates a task: afterwards the scheduler holds
    exactly the tasks it held before, except that a current task found [Dead]
    is dropped. *)
Theorem scheduler_invariant (s : Scheduler) (tss : Gdt.Tss) (es : list event) (r c : Z)
    (Hok : sched_ok s) (Hes : Forall event_ok es) :
  let '(s1, tss1) := run_events (s, tss) es in
  sched_ok s1 /\
  ids (all_tasks (snd (fst (pick_next r c s1 tss1)))) ≡ₚ
    ids (filter live (option_list (current_task s1))) ++ ids (tasks s1).
Proof.
  assert (sched_ok (fst (run_events (s, tss) es))) as Hok1.
  { unfold run_events. change (sched_ok (fst (s, tss))) in Hok. revert Hok.
    generalize (s, tss). induction Hes as [|e es He _ IH]; intros st Hok; simpl; [done|].
    by apply IH, run_event_ok. }
  destruct (run_events (s, tss) es) as [s1 tss1]. split; [done|]. apply pick_next_ids.
Qed.

End task.
Arguments Task : clear implicits.
Arguments Scheduler : clear implicits.

(** a context switch loses nothing.  If the timer entry saves registers [g]
    above an interrupt frame at [sp], and memory from the saved stack pointer up
    to the end of the frame is the same when the task is resumed, then
    restoring from the saved stack pointer gives back every register and the
    five words of the frame, and the user data selector is reloaded exactly
    when the frame returns to ring 3. *)
Theorem context_roundtrip (g : Regs) (sp : Z) (m m2 : mem)
    (Hg : Forall (fits 64) (push_order g))
    (Hm2 : forall x, sp - 120 <= x < sp + 40 -> m2 x = snd (save_context g (sp, m)) x) :
  fst (save_context g (sp, m)) = sp - 120 /\
  restore_context (sp - 120) m2 =
    (g, if Z.land (ld64 m (sp + 8)) 3 =? 3 then Some 0x1B else None,
     mkFrame (ld64 m sp) (ld64 m (sp + 8)) (ld64 m (sp + 16)) (ld64 m (sp + 24)) (ld64 m (sp + 32))).
Proof.
  split; [unfold save_context; rewrite push_all_rsp; simpl; lia|].
  assert (pop_all 20 (sp - 120) m2 = rev (push_order g) ++ pop_all 5 sp m) as Hw.
  { change 20%nat with (15 + 5)%nat. rewrite pop_all_app. f_equal.
    - rewrite (pop_all_ext 15 (sp - 120) m2 (snd (save_context g (sp, m)))) by (intros; apply Hm2; lia).
      exact (pop_push_all (push_order g) sp m Hg).
    - replace (sp - 120 + 8 * Z.of_nat 15) with sp by lia.
      apply pop_all_ext. intros x Hx. rewrite Hm2 by lia. apply push_all_out. lia. }
  rewrite (restore_context_words _ _ _ Hw). cbn. rewrite <- !Z.add_assoc. destruct g; reflexivity.
Qed.

(** A new task's first frame. *)
Lemma Task_new_ok {N} (entry user_top root : Z) (user : bool) (ptr next : Z) (m : mem)
    (He : fits 64 entry) (Hu : fits 64 user_top) (Hp : 0 <= ptr) (Hp2 : ptr + STACK_SIZE < 2 ^ 64) :
  let '(t, _, m') := @Task_new N entry user_top root user ptr next m in
  let top := ptr + STACK_SIZE in
  kernel_stack_top t = top /\ state t = Ready /\ ptr <= rsp t /\ rsp t = top - 160 /\
  (forall x, x < ptr \/ top <= x -> m' x = m x) /\
  restore_context (rsp t) m' =
    (mkRegs 0 0 0 0 0 0 0 0 0 0 0 0 0 0 0, if user then Some (Z.lor Gdt.USER_DATA_SELECTOR 3) else None,
     mkFrame entry
       (if user then Z.lor Gdt.USER_CODE_SELECTOR 3 else Gdt.KERNEL_CODE_SELECTOR) 0x202
       (if user_top =? 0 then top else user_top)
       (if user then Z.lor Gdt.USER_DATA_SELECTOR 3 else Gdt.KERNEL_DATA_SELECTOR)).
Proof.
  unfold Task_new. set (ws := initial_words entry user_top (ptr + STACK_SIZE) user).
  assert (length ws = 20%nat) as Hlen by (destruct user; reflexivity).
  assert (Forall (fits 64) ws) as Hws.
  { unfold ws, initial_words. apply Forall_app. split; [|apply Forall_replicate; unfold fits; lia].
    repeat constructor; try (destruct user; lia); try lia; try apply He.
    all: destruct (user_top =? 0); [unfold STACK_SIZE in *; lia|apply Hu]. }
  cbv zeta. cbn [kernel_stack_top state rsp]. rewrite push_all_rsp, Hlen.
  split_and!; [done|done|unfold STACK_SIZE; lia|lia| |].
  - intros x Hx. rewrite push_all_out by (rewrite Hlen; unfold STACK_SIZE in *; lia).
    apply fill_out. lia.
  - pose proof (pop_push_all ws (ptr + STACK_SIZE) (fill ptr 0 STACK_SIZE m) Hws) as Hpop.
    rewrite Hlen in Hpop. rewrite (restore_context_words _ _ _ Hpop).
    by destruct user.
Qed.

(** The fields of a new task that do not concern its stack. *)
Lemma Task_new_fields {N} (entry user_top root : Z) (user : bool) (ptr next : Z) (m : mem) :
  let '(t, next', _) := @Task_new N entry user_top root user ptr next m in
  task_id t = next /\ cr3 t = root /\ is_user t = user /\ fd_table t = with_stdio /\ next' = wrap 64 (next + 1).
Proof. done. Qed.

Lemma Task_new_bytes {N} (entry user_top root : Z) (user : bool) (ptr next : Z) (m : mem) (Hm : mem_ok m) :
  let '(_, _, m') := @Task_new N entry user_top root user ptr next m in mem_ok m'.
Proof.
  unfold Task_new. set (ws := initial_words entry user_top (ptr + STACK_SIZE) user). apply push_all_bytes, fill_ok; [|exact Hm].
  unfold fits. lia.
Qed.

(** Only the words on the stack matter. *)
Lemma restore_context_ext rsp m m' : (forall x, m x = m' x) -> restore_context rsp m = restore_context rsp m'.
Proof.
  intros Hm. rewrite (restore_context_words rsp m _ eq_refl), (restore_context_words rsp m' _ eq_refl).
  by rewrite (pop_all_ext 20 rsp m m').
Qed.

(** the first switch to a new task enters it as intended.  Restoring from
    the stack pointer [Task::new] computes gives all general registers zero,
    the entry point with interrupts enabled, the requested stack (or the top of
    the kernel stack), and the kernel selectors, or for a user task the user
    code and data selectors with requested privilege 3 and the data segments
    reloaded; the frame lies inside the new 8 KB stack and no other memory is
    written. *)
Theorem first_switch {N} (entry user_top root : Z) (user : bool) (ptr next : Z) (m : mem)
    (He : fits 64 entry) (Hu : fits 64 user_top) (Hp : 0 <= ptr) (Hp2 : ptr + STACK_SIZE < 2 ^ 64) :
  let '(t, _, m') := @Task_new N entry user_top root user ptr next m in
  let top := ptr + STACK_SIZE in
  kernel_stack_top t = top /\ state t = Ready /\ ptr <= rsp t /\ rsp t = top - 160 /\
  (forall x, x < ptr \/ top <= x -> m' x = m x) /\
  restore_context (rsp t) m' =
    (mkRegs 0 0 0 0 0 0 0 0 0 0 0 0 0 0 0, if user then Some (Z.lor Gdt.USER_DATA_SELECTOR 3) else None,
     mkFrame entry
       (if user then Z.lor Gdt.USER_CODE_SELECTOR 3 else Gdt.KERNEL_CODE_SELECTOR) 0x202
       (if user_top =? 0 then top else user_top)
       (if user then Z.lor Gdt.USER_DATA_SELECTOR 3 else Gdt.KERNEL_DATA_SELECTOR)).
Proof. exact (Task_new_ok entry user_top root user ptr next m He Hu Hp Hp2). Qed.

(** ** Witnesses *)

Definition demo_task (i r : Z) (st : TaskState) (user : bool) : Task unit :=
  mkTask i (mkVec 0 0) (0x9000 + i) r (0x1000 * i) st user with_stdio 0.

Definition demo_sched : Scheduler unit :=
  mkSched [demo_task 1 0x100 Ready false; demo_task 2 0x200 Ready true]
          (Some (demo_task 0 0 Running false)).

Definition demo_events : list (@event unit) :=
  [Spawn (demo_task 3 0x300 Ready true); Mutate (set_state Dead); Tick 0xAAA 0].

Lemma no_starvation_witness :
  tasks demo_sched !! ticks demo_events = Some (demo_task 2 0x200 Ready true) /\
  fst (fst (let '(s1, tss1) := run_events (demo_sched, Gdt.Tss_new) demo_events in
            pick_next 0xBBB 0 s1 tss1)) = mkSwitch 0x200 0x2000.
Proof.
  split; [reflexivity|].
  pose proof (no_starvation demo_sched Gdt.Tss_new demo_events (demo_task 2 0x200 Ready true)
                0xBBB 0 eq_refl) as H.
  simpl in H. simpl. apply H.
Defined.

Lemma round_robin_witness :
  exists s1 tss1,
    run_events (demo_sched, Gdt.Tss_new) (Tick 0xAAA 0 :: demo_events) = (s1, tss1) /\
    fst (fst (pick_next 0xCCC 0 s1 tss1)) = mkSwitch 0xAAA 0.
Proof.
  pose proof (round_robin demo_sched Gdt.Tss_new (demo_task 0 0 Running false) demo_events
                0xAAA 0 0xCCC 0 eq_refl ltac:(discriminate) eq_refl) as H.
  destruct (run_events _ _) as [s1 tss1]. exists s1, tss1. split; [reflexivity|].
  destruct (pick_next 0xCCC 0 s1 tss1) as [[res s2] tss2]. simpl. apply H.
Defined.

Lemma scheduler_invariant_witness :
  sched_ok demo_sched /\ sched_ok (fst (run_events (demo_sched, Gdt.Tss_new) demo_events)).
Proof.
  assert (sched_ok demo_sched) as Hok.
  { split; [by repeat constructor|]. intros t [= <-]. by left. }
  split; [exact Hok|].
  assert (Forall event_ok demo_events) as Hes.
  { apply Forall_cons; split; [reflexivity|]. apply Forall_cons; split; [|by repeat constructor].
    intros t _. by right. }
  pose proof (scheduler_invariant demo_sched Gdt.Tss_new demo_events 0 0 Hok Hes) as H.
  destruct (run_events _ _) as [s1 tss1]. apply H.
Defined.

Definition demo_regs : Regs := mkRegs 1 2 3 4 5 6 7 8 9 10 11 12 13 14 15.

Lemma context_roundtrip_witness :
  fst (fst (restore_context (0x2000 - 120) (snd (save_context demo_regs (0x2000, fun _ => 0))))) = demo_regs.
Proof.
  assert (Forall (fits 64) (push_order demo_regs)) as Hg
    by (apply (bool_decide_unpack _); vm_compute; exact I).
  destruct (context_roundtrip demo_regs 0x2000 (fun _ => 0)
    (snd (save_context demo_regs (0x2000, fun _ => 0))) Hg (fun x _ => eq_refl)) as [_ H].
  rewrite H. reflexivity.
Defined.

Lemma first_switch_witness :
  f_rip (snd (restore_context (0x50000 + STACK_SIZE - 160)
    (snd (@Task_new unit 0x400000 0x508000 0x1000 true 0x50000 1 (fun _ => 0))))) = 0x400000.
Proof.
  pose proof (@first_switch unit 0x400000 0x508000 0x1000 true 0x50000 1 (fun _ => 0)
    ltac:(unfold fits; lia) ltac:(unfold fits; lia) ltac:(lia) ltac:(unfold STACK_SIZE; lia)) as H.
  revert H. destruct (Task_new _ _ _ _ _ _ _) as [[t n] m'].
  intros (_ & _ & _ & Hr & _ & H). rewrite Hr in H. cbv zeta in H. cbn [snd]. rewrite H. reflexivity.
Defined.
