(* ===== verification/Cpu.v ===== *)
(** * What the processor makes of the descriptor tables
      ([ross-kernel/src/gdt.rs: Gdt::load], [ross-kernel/src/idt.rs: Idt::load])

    The assembly of the two [load] functions as the instructions it is, and the
    parts of the processor the tables are for: segment loads with their
    checks, delivery of an interrupt through the IDT and the TSS, and [iretq].
    A fault in the middle of the set-up has no handler: it is a [Panic].
    [interrupt_delivery] says where each vector ends up; [preemption_roundtrip]
    that a user task interrupted by the timer and resumed later goes on as if
    nothing had happened. *)

From S2P Require Import Prelude Bytes Gdt.
From S2P Require Import Task.
Import Gdt Idt.

(** ** The registers *)

Record Cpu := mkCpu {
  cs : Z; ss : Z; ds : Z; es : Z; fs : Z; gs : Z;
  c_rip : Z; c_rflags : Z; c_rsp : Z;
  gdtr : Z * Z;
  idtr : Z * Z;
  tr : Z;
  tss_base : Z
}.

(** The processor, the statics [GDT], [TSS] and [IDT], and kernel memory. *)
Record Sys := mkSys { s_cpu : Cpu; s_gdt : list Z; s_tss : Tss; s_idt : list IdtEntry; s_mem : mem }.

Notation C := (M Sys).

Definition modify_cpu (f : Cpu -> Cpu) : C unit := fun s =>
  Ret (tt, mkSys (f (s_cpu s)) (s_gdt s) (s_tss s) (s_idt s) (s_mem s)).

(** The current privilege level. *)
Definition cpl (c : Cpu) : Z := Z.land (cs c) 3.

(** A data segment that can be written, a code segment for 64-bit code; the
    accessed and conforming variants do not occur. *)
Definition writable_data (e : Z) : bool :=
  seg_present e && Z.testbit e 44 && negb (seg_code e) && Z.testbit e 41.
Definition code64 (e : Z) : bool := seg_present e && Z.testbit e 44 && seg_code e && seg_long e.

Section cpu.
(** Where the linker put the statics. *)
Context (gdt_addr tss_addr idt_addr df_stack : Z).

(** The descriptor a selector names; other tables are unknown. *)
Definition descriptor (sel : Z) (s : Sys) : option Z :=
  let '(base, limit) := gdtr (s_cpu s) in
  if (base =? gdt_addr) && (8 <=? sel) && (sel / 8 * 8 + 7 <=? limit) then s_gdt s !! Z.to_nat (sel / 8) else None.

(** [lgdt], [lidt]. *)
Definition lgdt (d : Z * Z) : C unit := modify_cpu (fun c =>
  mkCpu (cs c) (ss c) (ds c) (es c) (fs c) (gs c) (c_rip c) (c_rflags c) (c_rsp c) d (idtr c) (tr c) (tss_base c)).
Definition lidt (d : Z * Z) : C unit := modify_cpu (fun c =>
  mkCpu (cs c) (ss c) (ds c) (es c) (fs c) (gs c) (c_rip c) (c_rflags c) (c_rsp c) (gdtr c) d (tr c) (tss_base c)).

(** [mov ds, ax; mov es, ax; mov fs, ax; mov gs, ax], each with the check of a
    data segment. *)
Definition mov_data (sel : Z) : C unit := fun s =>
  match descriptor sel s with
  | Some e =>
      if writable_data e && (Z.max (cpl (s_cpu s)) (Z.land sel 3) <=? seg_dpl e)
      then modify_cpu (fun c => mkCpu (cs c) (ss c) sel sel sel sel (c_rip c) (c_rflags c) (c_rsp c)
             (gdtr c) (idtr c) (tr c) (tss_base c)) s
      else Panic
  | None => Panic
  end.

(** [mov ss, ax]. *)
Definition mov_ss (sel : Z) : C unit := fun s =>
  match descriptor sel s with
  | Some e =>
      if writable_data e && (Z.land sel 3 =? cpl (s_cpu s)) && (seg_dpl e =? cpl (s_cpu s))
      then modify_cpu (fun c => mkCpu (cs c) sel (ds c) (es c) (fs c) (gs c) (c_rip c) (c_rflags c) (c_rsp c)
             (gdtr c) (idtr c) (tr c) (tss_base c)) s
      else Panic
  | None => Panic
  end.

(** [push sel; lea rax, [2f]; push rax; retfq]: to the next instruction, in the
    code segment [sel] of the same privilege. *)
Definition reload_cs (sel : Z) : C unit := fun s =>
  match descriptor sel s with
  | Some e =>
      if code64 e && (Z.land sel 3 =? cpl (s_cpu s)) && (seg_dpl e =? cpl (s_cpu s))
      then modify_cpu (fun c => mkCpu sel (ss c) (ds c) (es c) (fs c) (gs c) (c_rip c) (c_rflags c) (c_rsp c)
             (gdtr c) (idtr c) (tr c) (tss_base c)) s
      else Panic
  | None => Panic
  end.

(** [ltr]: the descriptor must be an available 64-bit TSS, and is marked busy. *)
Definition ltr (sel : Z) : C unit := fun s =>
  match descriptor sel s, descriptor (sel + 8) s with
  | Some lo, Some hi =>
      if seg_access lo =? 0x89
      then Ret (tt, mkSys (let c := s_cpu s in
             mkCpu (cs c) (ss c) (ds c) (es c) (fs c) (gs c) (c_rip c) (c_rflags c) (c_rsp c) (gdtr c) (idtr c) sel
               (sys_base lo hi))
             (<[Z.to_nat (sel / 8) := Z.lor lo (Z.shiftl 1 41)]> (s_gdt s)) (s_tss s) (s_idt s) (s_mem s))
      else Panic
  | _, _ => Panic
  end.

(** @src ross-kernel/src/gdt.rs 72-112 Gdt::load *)
Definition gdt_load : C unit :=
  s ← get;
  let '(entries, t, limit) := Gdt.load tss_addr df_stack (s_gdt s) (s_tss s) in
  put (mkSys (s_cpu s) entries t (s_idt s) (s_mem s));;
  lgdt (gdt_addr, limit);;
  mov_data 0x10;;
  mov_ss 0x10;;
  reload_cs 0x08;;
  ltr TSS_SELECTOR.

(** @src ross-kernel/src/idt.rs 59-68 Idt::load *)
Definition idt_load : C unit := lidt (idt_addr, 256 * 16 - 1).

(** What [kernel_main] does about them.
    @src ross-kernel/src/main.rs 75-91 kernel_main *)
Definition load_tables (h : Handlers) : C unit :=
  gdt_load;;
  (fun s => Ret (tt, mkSys (s_cpu s) (s_gdt s) (s_tss s) (init_idt h (s_idt s)) (s_mem s)));;
  idt_load.

(** ** Interrupts *)

Definition ist_stack (t : Tss) (i : Z) : Z :=
  nth (Z.to_nat i) [0; ist1 t; ist2 t; ist3 t; ist4 t; ist5 t; ist6 t; ist7 t] 0.

(** The gate of a vector. *)
Definition gate (v : nat) (s : Sys) : option IdtEntry :=
  let '(base, limit) := idtr (s_cpu s) in
  if (base =? idt_addr) && (Z.of_nat v * 16 + 15 <=? limit) then s_idt s !! v else None.

(** Interrupt [v] with its error code, if it has one: through an interrupt gate
    ([attributes] 0x8E) to code of the same or of higher privilege, on the
    stack of the IST, of the TSS or the current one. *)
Definition deliver (v : nat) (err : option Z) : C unit := fun s =>
  let c := s_cpu s in
  match gate v s with
  | None => Panic
  | Some g =>
      match descriptor (selector g) s with
      | None => Panic
      | Some e =>
          if (attributes g =? 0x8E) && code64 e && (seg_dpl e <=? cpl c) && (tss_base c =? tss_addr) then
            let up := seg_dpl e <? cpl c in
            let top := if ist g =? 0 then if up then rsp0 (s_tss s) else c_rsp c else ist_stack (s_tss s) (ist g) in
            let words := [ss c; c_rsp c; c_rflags c; cs c; c_rip c] ++ match err with Some x => [x] | None => [] end in
            let '(sp, m) := push_all words (Z.land top (notw 64 15), s_mem s) in
            Ret (tt, mkSys (mkCpu (selector g) (if up then 0 else ss c) (ds c) (es c) (fs c) (gs c)
                              (gate_target g) (Z.land (c_rflags c) (notw 64 0x200)) sp (gdtr c) (idtr c) (tr c) (tss_base c))
                      (s_gdt s) (s_tss s) (s_idt s) m)
          else Panic
      end
  end.

(** [iretq] with this frame on top of the stack. *)
Definition iretq (f : IretFrame) : C unit := fun s =>
  let c := s_cpu s in
  let rpl := Z.land (f_cs f) 3 in
  match descriptor (f_cs f) s with
  | None => Panic
  | Some e =>
      let ss_ok := match descriptor (f_ss f) s with
        | Some d => writable_data d && (seg_dpl d =? rpl) && (Z.land (f_ss f) 3 =? rpl)
        | None => (f_ss f <? 4) && (rpl <? 3)
        end in
      if code64 e && (seg_dpl e =? rpl) && (cpl c <=? rpl) && ss_ok
      then modify_cpu (fun c => mkCpu (f_cs f) (f_ss f) (ds c) (es c) (fs c) (gs c) (f_rip f) (f_rflags f) (f_rsp f)
             (gdtr c) (idtr c) (tr c) (tss_base c)) s
      else Panic
  end.

(** ** The timer's stub *)

(** The pushes of [timer_handler_stub]; [rsp] is then the scheduler's argument.
    @src ross-kernel/src/idt.rs 122-133 timer_handler_stub *)
Definition timer_enter (g : Regs) : C Z := fun s =>
  let c := s_cpu s in
  let '(sp, m) := save_context g (c_rsp c, s_mem s) in
  Ret (sp, mkSys (mkCpu (cs c) (ss c) (ds c) (es c) (fs c) (gs c) (c_rip c) (c_rflags c) sp (gdtr c) (idtr c) (tr c) (tss_base c))
             (s_gdt s) (s_tss s) (s_idt s) m).

(** From the stack pointer the scheduler answered to the return from the
    interrupt; the change of CR3 is left to the address spaces.
    @src ross-kernel/src/idt.rs 135-164 timer_handler_stub *)
Definition timer_leave (rsp : Z) : C Regs :=
  s ← get;
  let '(g, sel, f) := restore_context rsp (s_mem s) in
  (match sel with Some sel => mov_data sel | None => mret tt end);;
  iretq f;;
  mret g.
End cpu.

(** ** After the set-up *)

Section loaded.
Context (gdt_addr tss_addr idt_addr df_stack : Z) (h : Handlers).
Notation descriptor := (descriptor gdt_addr).
Notation deliver := (deliver gdt_addr tss_addr idt_addr).
Notation iretq := (iretq gdt_addr).

Definition tss_low : Z := tss_entry_low tss_addr (TSS_SIZE - 1).

(** The table with the TSS marked busy. *)
Definition gdt_after : list Z :=
  [0; create_gdt_entry 0 0 0x9A 0x2; create_gdt_entry 0 0 0x92 0x0; create_gdt_entry 0 0 0xF2 0x0;
   create_gdt_entry 0 0 0xFA 0x2; Z.lor tss_low (Z.shiftl 1 41); Z.shiftr tss_addr 32; 0].

(** The tables are loaded. *)
Record loaded (s : Sys) : Prop := {
  ld_gdtr : gdtr (s_cpu s) = (gdt_addr, 63);
  ld_gdt : s_gdt s = gdt_after;
  ld_idtr : idtr (s_cpu s) = (idt_addr, 256 * 16 - 1);
  ld_idt : s_idt s = init_idt h Idt_new;
  ld_tr : tss_base (s_cpu s) = tss_addr;
  ld_ist : ist1 (s_tss s) = df_stack + 0x4000
}.

Lemma descriptor_table s sel : gdtr (s_cpu s) = (gdt_addr, 63) -> 8 <= sel < 64 ->
  descriptor sel s = s_gdt s !! Z.to_nat (sel / 8).
Proof.
  intros E Hs. unfold Cpu.descriptor. rewrite E, Z.eqb_refl, (proj2 (Z.leb_le _ _)), (proj2 (Z.leb_le _ _)); [done|dm_lia|lia].
Qed.

(** The checks of the five segments of [Gdt::new]. *)
Lemma segment_facts :
  code64 (create_gdt_entry 0 0 0x9A 0x2) = true /\ seg_dpl (create_gdt_entry 0 0 0x9A 0x2) = 0 /\
  writable_data (create_gdt_entry 0 0 0x92 0x0) = true /\ seg_dpl (create_gdt_entry 0 0 0x92 0x0) = 0 /\
  writable_data (create_gdt_entry 0 0 0xF2 0x0) = true /\ seg_dpl (create_gdt_entry 0 0 0xF2 0x0) = 3 /\
  code64 (create_gdt_entry 0 0 0xFA 0x2) = true /\ seg_dpl (create_gdt_entry 0 0 0xFA 0x2) = 3.
Proof. vm_compute. repeat split. Qed.

Lemma mov_data_run s sel e : descriptor sel s = Some e -> writable_data e = true ->
  Z.max (cpl (s_cpu s)) (Z.land sel 3) <= seg_dpl e ->
  mov_data gdt_addr sel s = modify_cpu (fun c => mkCpu (cs c) (ss c) sel sel sel sel (c_rip c) (c_rflags c) (c_rsp c)
             (gdtr c) (idtr c) (tr c) (tss_base c)) s.
Proof. intros Hd Hw Hp. unfold mov_data. by rewrite Hd, Hw, (proj2 (Z.leb_le _ _) Hp). Qed.

Lemma mov_ss_run s sel e : descriptor sel s = Some e -> writable_data e = true ->
  Z.land sel 3 = cpl (s_cpu s) -> seg_dpl e = cpl (s_cpu s) ->
  mov_ss gdt_addr sel s = modify_cpu (fun c => mkCpu (cs c) sel (ds c) (es c) (fs c) (gs c) (c_rip c) (c_rflags c) (c_rsp c)
             (gdtr c) (idtr c) (tr c) (tss_base c)) s.
Proof. intros Hd Hw H1 H2. unfold mov_ss. by rewrite Hd, Hw, H1, H2, Z.eqb_refl. Qed.

Lemma reload_cs_run s sel e : descriptor sel s = Some e -> code64 e = true ->
  Z.land sel 3 = cpl (s_cpu s) -> seg_dpl e = cpl (s_cpu s) ->
  reload_cs gdt_addr sel s = modify_cpu (fun c => mkCpu sel (ss c) (ds c) (es c) (fs c) (gs c) (c_rip c) (c_rflags c) (c_rsp c)
             (gdtr c) (idtr c) (tr c) (tss_base c)) s.
Proof. intros Hd Hw H1 H2. unfold reload_cs. by rewrite Hd, Hw, H1, H2, Z.eqb_refl. Qed.

Ltac fields := cbn [s_cpu cs ss ds es fs gs c_rip c_rflags c_rsp gdtr idtr tr tss_base s_gdt s_tss s_idt s_mem].
Ltac segment := eapply eq_trans; [apply descriptor_table; [reflexivity|lia]|reflexivity].
Ltac cpl0 := unfold cpl; fields; repeat match goal with H : _ = 0 |- _ => rewrite H end.

(** The registers after [Gdt::load]. *)
Definition with_gdt (c : Cpu) : Cpu :=
  mkCpu 0x08 0x10 0x10 0x10 0x10 0x10 (c_rip c) (c_rflags c) (c_rsp c) (gdt_addr, 63) (idtr c) TSS_SELECTOR tss_addr.

Lemma gdt_load_run s : fits 64 tss_addr -> s_gdt s = Gdt_new -> cpl (s_cpu s) = 0 ->
  gdt_load gdt_addr tss_addr df_stack s =
    Ret (tt, mkSys (with_gdt (s_cpu s)) gdt_after (snd (fst (Gdt.load tss_addr df_stack Gdt_new (s_tss s)))) (s_idt s) (s_mem s)).
Proof.
  intros Ht Hg Hc. destruct s as [[cs0 ss0 ds0 es0 fs0 gs0 rip0 fl0 sp0 g0 i0 tr0 tb0] gdt tss idt m].
  cbn [s_gdt s_idt s_cpu s_tss s_mem] in *. subst gdt. unfold cpl in Hc. cbn [cs] in Hc.
  destruct segment_facts as (Ck & Dk & Cd & Dd & _).
  assert (fits 20 (TSS_SIZE - 1)) as Hl by (unfold fits, TSS_SIZE; lia).
  unfold gdt_load, with_gdt. rewrite (run_bind get _ _ _ _ eq_refl). unfold Gdt.load. cbn [s_gdt s_tss s_cpu s_idt s_mem].
  do 2 erewrite run_bind by reflexivity. fields.
  erewrite run_bind.
  2: { eapply eq_trans; [eapply (mov_data_run _ _ (create_gdt_entry 0 0 0x92 0x0)); [segment|exact Cd|cpl0; by apply Z.leb_le]|reflexivity]. }
  fields. erewrite run_bind.
  2: { eapply eq_trans; [eapply (mov_ss_run _ _ (create_gdt_entry 0 0 0x92 0x0)); [segment|exact Cd|cpl0; reflexivity..]|reflexivity]. }
  fields. erewrite run_bind.
  2: { eapply eq_trans; [eapply (reload_cs_run _ _ (create_gdt_entry 0 0 0x9A 0x2)); [segment|exact Ck|cpl0; reflexivity..]|reflexivity]. }
  fields.
  unfold ltr. change TSS_SELECTOR with 40. rewrite !descriptor_table by (reflexivity || lia).
  cbn [s_gdt]. set (lo := _ !! Z.to_nat (40 / 8)). change lo with (Some tss_low). clear lo.
  set (hi := _ !! Z.to_nat ((40 + 8) / 8)). change hi with (Some (Z.shiftr tss_addr 32)). clear hi. cbn iota beta.
  unfold tss_low at 1. rewrite (tss_entry_access tss_addr (TSS_SIZE - 1) Ht Hl). cbn [Z.eqb Pos.eqb].
  unfold tss_low at 1. rewrite (tss_entry_base tss_addr (TSS_SIZE - 1) Ht Hl). reflexivity.
Qed.

(** The set-up in one step. *)
Lemma load_tables_run s : fits 64 tss_addr -> s_gdt s = Gdt_new -> s_idt s = Idt_new -> cpl (s_cpu s) = 0 ->
  exists s', load_tables gdt_addr tss_addr idt_addr df_stack h s = Ret (tt, s') /\ loaded s' /\
    cs (s_cpu s') = 0x08 /\ ss (s_cpu s') = 0x10 /\ ds (s_cpu s') = 0x10 /\ tr (s_cpu s') = TSS_SELECTOR /\
    rsp0 (s_tss s') = rsp0 (s_tss s) /\ s_mem s' = s_mem s.
Proof.
  intros Ht Hg Hi Hc. unfold load_tables. rewrite (run_bind _ _ _ _ _ (gdt_load_run s Ht Hg Hc)), Hi.
  eexists. split; [reflexivity|]. split; [by constructor|]. done.
Qed.

(** *** Delivery *)

Definition align16 (a : Z) : Z := Z.land a (notw 64 15).

(** The selectors of user and of kernel code. *)
Definition code_sel (user : bool) : Z := if user then 0x23 else 0x08.

Lemma cpl_code user c : cs c = code_sel user -> cpl c = if user then 3 else 0.
Proof. intros E. unfold cpl. rewrite E. by destruct user. Qed.

(** The stack an interrupt is taken on. *)
Definition stack_base (v : nat) (user : bool) (s : Sys) : Z :=
  align16 (if decide (v = 8)%nat then df_stack + 0x4000 else if user then rsp0 (s_tss s) else c_rsp (s_cpu s)).

Definition frame_words (c : Cpu) (err : option Z) : list Z :=
  [ss c; c_rsp c; c_rflags c; cs c; c_rip c] ++ match err with Some x => [x] | None => [] end.

Lemma gate_run s v : loaded s -> (v < 256)%nat -> gate idt_addr v s = Some (init_idt h Idt_new !!! v).
Proof.
  intros Hs Hv. unfold gate. rewrite (ld_idtr s Hs), (ld_idt s Hs), Z.eqb_refl, (proj2 (Z.leb_le _ _)) by lia. cbn [andb].
  apply list_lookup_lookup_total_lt. unfold init_idt. rewrite !length_insert.
  assert (forall l k n, length (foldl (fun l i => <[i := set_handler (irq_stub_handler h) (l !!! i)]> l) l (seq k n)) = length l) as Hf.
  { intros l k n. revert l k. induction n as [|n IH]; intros l k; [done|]. simpl. by rewrite IH, length_insert. }
  rewrite Hf, !length_insert. unfold Idt_new. by rewrite length_replicate.
Qed.

Lemma deliver_run s v err user a : loaded s -> (v < 256)%nat -> vector_handler h v = Some a -> fits 64 a ->
  cs (s_cpu s) = code_sel user ->
  deliver v err s =
    let '(sp, m) := push_all (frame_words (s_cpu s) err) (stack_base v user s, s_mem s) in
    Ret (tt, mkSys (let c := s_cpu s in mkCpu 0x08 (if user then 0 else ss c) (ds c) (es c) (fs c) (gs c)
                              a (Z.land (c_rflags c) (notw 64 0x200)) sp (gdtr c) (idtr c) (tr c) (tss_base c))
                      (s_gdt s) (s_tss s) (s_idt s) m).
Proof.
  intros Hs Hv Hh Ha Hcs. unfold Cpu.deliver. rewrite (gate_run s v Hs Hv), init_idt_entry, Hh by done.
  rewrite (gate_target_set a) by done. cbn [selector attributes set_handler].
  rewrite descriptor_table, (ld_gdt s Hs) by (apply Hs || lia). cbn [gdt_after].
  change (_ !! Z.to_nat (0x08 / 8)) with (Some (create_gdt_entry 0 0 0x9A 0x2)). cbv iota beta.
  destruct segment_facts as (-> & -> & _). rewrite (cpl_code user _ Hcs), (ld_tr s Hs), !Z.eqb_refl.
  assert ((0 <=? (if user then 3 else 0)) = true) as -> by (by destruct user). cbn [andb].
  assert ((0 <? (if user then 3 else 0)) = user) as -> by (by destruct user).
  assert (forall e, (if ist (set_handler a e) =? 0 then if user then rsp0 (s_tss s) else c_rsp (s_cpu s)
            else ist_stack (s_tss s) (ist (set_handler a e))) =
          if ist e =? 0 then if user then rsp0 (s_tss s) else c_rsp (s_cpu s) else ist_stack (s_tss s) (ist e)) as E by done.
  rewrite E. unfold stack_base, align16. destruct (decide (v = 8)%nat) as [->|Hne]; [|reflexivity].
  cbn [ist set_ist]. unfold ist_stack. change (1 =? 0) with false. cbn [Z.to_nat Pos.to_nat nth Pos.iter_op]. 
  change (Pos.to_nat 1) with 1%nat. cbn [nth]. by rewrite (ld_ist s Hs).
Qed.

Lemma deliver_none s v err : loaded s -> (v < 256)%nat -> vector_handler h v = None -> deliver v err s = Panic.
Proof.
  intros Hs Hv Hh. unfold Cpu.deliver. rewrite (gate_run s v Hs Hv), init_idt_entry, Hh by done.
  unfold Cpu.descriptor. cbn [selector empty]. destruct (gdtr (s_cpu s)) as [b l]. by rewrite andb_false_r.
Qed.

(** What was pushed is there, and nothing else was written. *)
Lemma push_frame words sp m : Forall (fits 64) words ->
  let p := push_all words (sp, m) in
  fst p = sp - 8 * Z.of_nat (length words) /\
  pop_all (length words) (fst p) (snd p) = rev words /\
  (forall x, x < sp - 8 * Z.of_nat (length words) \/ sp <= x -> snd p x = m x).
Proof.
  intros Hw. cbv zeta. rewrite push_all_rsp. split; [done|]. split; [by apply pop_push_all|]. intros x. apply push_all_out.
Qed.

(** *** Resuming *)

Lemma iretq_run s f user : loaded s -> cpl (s_cpu s) = 0 -> f_cs f = code_sel user ->
  f_ss f = (if user then 0x1B else 0x10) ->
  iretq f s = modify_cpu (fun c => mkCpu (f_cs f) (f_ss f) (ds c) (es c) (fs c) (gs c) (f_rip f) (f_rflags f) (f_rsp f)
             (gdtr c) (idtr c) (tr c) (tss_base c)) s.
Proof.
  intros Hs Hc E1 E2. unfold Cpu.iretq. rewrite E1, E2, Hc.
  destruct segment_facts as (Ck & Dk & Cd & Dd & Cu & Du & Cx & Dx).
  rewrite !descriptor_table, (ld_gdt s Hs) by (apply Hs || destruct user; cbn [code_sel]; lia). destruct user; cbn [code_sel gdt_after].
  - change (_ !! Z.to_nat (0x23 / 8)) with (Some (create_gdt_entry 0 0 0xFA 0x2)).
    change (_ !! Z.to_nat (0x1B / 8)) with (Some (create_gdt_entry 0 0 0xF2 0x0)). cbv iota beta. by rewrite Cu, Du, Cx, Dx.
  - change (_ !! Z.to_nat (0x08 / 8)) with (Some (create_gdt_entry 0 0 0x9A 0x2)).
    change (_ !! Z.to_nat (0x10 / 8)) with (Some (create_gdt_entry 0 0 0x92 0x0)). cbv iota beta. by rewrite Ck, Dk, Cd, Dd.
Qed.

Lemma mov_user_data s : loaded s -> cpl (s_cpu s) = 0 ->
  mov_data gdt_addr 0x1B s = modify_cpu (fun c => mkCpu (cs c) (ss c) 0x1B 0x1B 0x1B 0x1B (c_rip c) (c_rflags c) (c_rsp c)
             (gdtr c) (idtr c) (tr c) (tss_base c)) s.
Proof.
  intros Hs Hc. destruct segment_facts as (_ & _ & _ & _ & Cu & Du & _).
  apply (mov_data_run s 0x1B (create_gdt_entry 0 0 0xF2 0x0)); [|done|rewrite Hc, Du; by apply Z.leb_le].
  by rewrite descriptor_table, (ld_gdt s Hs) by (apply Hs || lia).
Qed.

(** Interrupt and stub leave the twenty words of a context. *)
Lemma enter_run s g user a : loaded s -> vector_handler h 32 = Some a -> fits 64 a -> cs (s_cpu s) = code_sel user ->
  Forall (fits 64) (frame_words (s_cpu s) None) -> Forall (fits 64) (push_order g) ->
  exists s1 s2, deliver 32 None s = Ret (tt, s1) /\ timer_enter g s1 = Ret (stack_base 32 user s - 160, s2) /\
    pop_all 20 (stack_base 32 user s - 160) (s_mem s2) = rev (push_order g) ++ rev (frame_words (s_cpu s) None).
Proof.
  intros Hs Ha Hfa Hcs Hw Hg. rewrite (deliver_run s 32 None user a Hs ltac:(lia) Ha Hfa Hcs).
  set (base := stack_base 32 user s). destruct (push_frame (frame_words (s_cpu s) None) base (s_mem s) Hw) as (P1 & P2 & P3).
  destruct (push_all _ _) as [sp m] eqn:Ep. cbn [fst snd] in *. change (length (frame_words (s_cpu s) None)) with 5%nat in *.
  eexists. destruct (push_frame (push_order g) sp m Hg) as (Q1 & Q2 & Q3).
  destruct (push_all (push_order g) (sp, m)) as [sp2 m2] eqn:Eq. cbn [fst snd] in *. change (length (push_order g)) with 15%nat in *.
  eexists. split; [reflexivity|]. unfold timer_enter. cbn [s_cpu c_rsp s_mem]. unfold save_context. rewrite Eq.
  replace (base - 160) with sp2 by lia. split; [reflexivity|]. cbn [s_mem].
  change 20%nat with (15 + 5)%nat. rewrite pop_all_app, Q2. f_equal. rewrite <- P2.
  replace (sp2 + 8 * Z.of_nat 15) with sp by lia. apply pop_all_ext. intros x Hx. apply Q3. lia.
Qed.

(** The stub's second half, on the words of a context. *)
Lemma leave_run s g user p (c : Cpu) : loaded s -> cpl (s_cpu s) = 0 ->
  pop_all 20 p (s_mem s) = rev (push_order g) ++ rev (frame_words c None) ->
  cs c = code_sel user -> ss c = (if user then 0x1B else 0x10) ->
  exists s', timer_leave gdt_addr p s = Ret (g, s') /\ s_mem s' = s_mem s /\
    cs (s_cpu s') = cs c /\ ss (s_cpu s') = ss c /\ c_rip (s_cpu s') = c_rip c /\
    c_rflags (s_cpu s') = c_rflags c /\ c_rsp (s_cpu s') = c_rsp c /\ (user = true -> ds (s_cpu s') = 0x1B).
Proof.
  intros Hs Hc Hp Ecs Ess. unfold timer_leave. rewrite (run_bind get _ s s s eq_refl), (restore_context_words _ _ _ Hp).
  assert (forall ws, ws = rev (push_order g) ++ rev (frame_words c None) ->
    mkRegs (ws !!! 14%nat) (ws !!! 13%nat) (ws !!! 12%nat) (ws !!! 11%nat) (ws !!! 10%nat) (ws !!! 9%nat) (ws !!! 8%nat)
      (ws !!! 7%nat) (ws !!! 6%nat) (ws !!! 5%nat) (ws !!! 4%nat) (ws !!! 3%nat) (ws !!! 2%nat) (ws !!! 1%nat) (ws !!! 0%nat) = g /\
    ws !!! 16%nat = cs c /\
    mkFrame (ws !!! 15%nat) (ws !!! 16%nat) (ws !!! 17%nat) (ws !!! 18%nat) (ws !!! 19%nat) =
      mkFrame (c_rip c) (cs c) (c_rflags c) (c_rsp c) (ss c)) as Hws by (intros ws ->; by destruct g).
  destruct (Hws _ eq_refl) as (-> & -> & ->). clear Hws. rewrite Ecs. destruct user; cbn [code_sel].
  - change (Z.land 0x23 3 =? 3) with true. cbv iota.
    erewrite run_bind by (rewrite mov_user_data by done; reflexivity).
    erewrite run_bind.
    2: { eapply eq_trans; [apply (iretq_run _ _ true); [by destruct Hs; constructor|exact Hc|done|exact Ess]|reflexivity]. }
    eexists. split; [reflexivity|]. done.
  - change (Z.land 0x08 3 =? 3) with false. cbv iota. erewrite run_bind by reflexivity.
    erewrite run_bind.
    2: { eapply eq_trans; [apply (iretq_run _ _ false); [done|exact Hc|done|exact Ess]|reflexivity]. }
    eexists. split; [reflexivity|]. done.
Qed.

(** ** Properties *)


(** C23: preemption is invisible to the task.  A user task or a kernel task
    interrupted by the timer has its registers saved by the stub below the
    interrupt's frame; whenever the stub's second half later runs with the
    saved stack pointer - from any other task, on processor state whose tables
    are the loaded ones - and the saved 160 bytes have been left alone, the
    task goes on with every general register, RIP, RFLAGS, RSP, CS and SS as
    they were, user tasks with the user data segments. *)
Theorem preemption_roundtrip (s : Sys) (g : Regs) (user : bool)
    (Hs : loaded s) (Hh : exists a, vector_handler h 32 = Some a /\ fits 64 a)
    (Hcs : cs (s_cpu s) = code_sel user) (Hss : ss (s_cpu s) = if user then 0x1B else 0x10)
    (Hw : Forall (fits 64) (frame_words (s_cpu s) None)) (Hg : Forall (fits 64) (push_order g)) :
  let base := stack_base 32 user s in
  exists s1 s2, deliver 32 None s = Ret (tt, s1) /\ timer_enter g s1 = Ret (base - 160, s2) /\
    forall s3, loaded s3 -> cpl (s_cpu s3) = 0 -> (forall x, base - 160 <= x < base -> s_mem s3 x = s_mem s2 x) ->
     exists s4, timer_leave gdt_addr (base - 160) s3 = Ret (g, s4) /\ s_mem s4 = s_mem s3 /\
       cs (s_cpu s4) = cs (s_cpu s) /\ ss (s_cpu s4) = ss (s_cpu s) /\ c_rip (s_cpu s4) = c_rip (s_cpu s) /\
       c_rflags (s_cpu s4) = c_rflags (s_cpu s) /\ c_rsp (s_cpu s4) = c_rsp (s_cpu s) /\
       (user = true -> ds (s_cpu s4) = 0x1B).
Proof.
  cbv zeta. destruct Hh as (a & Ha & Hfa). destruct (enter_run s g user a Hs Ha Hfa Hcs Hw Hg) as (s1 & s2 & R1 & R2 & Hp).
  exists s1, s2. split; [done|]. split; [done|]. intros s3 Hs3 Hc3 Hm. apply (leave_run s3 g user _ (s_cpu s)); try done.
  rewrite <- Hp. apply pop_all_ext. intros x Hx. apply Hm. lia.
Qed.
End loaded.

(** ** Witnesses *)

(** The processor as the firmware leaves it, and the statics as linked. *)
Definition demo_sys : Sys :=
  mkSys (mkCpu 0x38 0x30 0x30 0x30 0x30 0x30 0xFFFFFFFF80200000 0x246 0x7F00000 (0x7E00000, 0x47) (0x7E01000, 0xFFF) 0 0)
    Gdt_new Tss_new Idt_new (fun _ => 0).

Lemma demo_handlers_fit v a : vector_handler demo_handlers v = Some a -> fits 64 a.
Proof. unfold vector_handler. repeat case_decide; intros E; try discriminate E; injection E as <-; vm_compute; split; congruence. Qed.

(** A user program at 0x400123, interrupted by the timer. *)
Definition in_user (s : Sys) : Sys :=
  let c := s_cpu s in
  mkSys (mkCpu 0x23 0x1B 0x1B 0x1B 0x1B 0x1B 0x400123 0x202 0x507F00 (gdtr c) (idtr c) (tr c) (tss_base c))
    (s_gdt s) (s_tss s) (s_idt s) (s_mem s).


(** Tables loaded, and the same program. *)
Definition demo_loaded (m : mem) : Sys :=
  mkSys (mkCpu 0x08 0x10 0x10 0x10 0x10 0x10 0 0 0 (0xFFFFFFFF80310000, 63) (0xFFFFFFFF80312000, 4095) 40 0xFFFFFFFF80311000)
    (gdt_after 0xFFFFFFFF80311000) (set_tss_stack 0xFFFFFFFF80402000 (snd (fst (Gdt.load 0xFFFFFFFF80311000 0xFFFFFFFF80314000 Gdt_new Tss_new))))
    (init_idt demo_handlers Idt_new) m.

Lemma demo_loaded_ok m : loaded 0xFFFFFFFF80310000 0xFFFFFFFF80311000 0xFFFFFFFF80312000 0xFFFFFFFF80314000 demo_handlers (demo_loaded m).
Proof. by constructor. Qed.

Example preemption_roundtrip_witness :
  exists s1 s2 s4, deliver 0xFFFFFFFF80310000 0xFFFFFFFF80311000 0xFFFFFFFF80312000 32 None (in_user (demo_loaded (fun _ => 0))) = Ret (tt, s1) /\
    timer_enter (mkRegs 1 2 3 4 5 6 7 8 9 10 11 12 13 14 15) s1 = Ret (0xFFFFFFFF80402000 - 160, s2) /\
    timer_leave 0xFFFFFFFF80310000 (0xFFFFFFFF80402000 - 160) (demo_loaded (s_mem s2)) =
      Ret (mkRegs 1 2 3 4 5 6 7 8 9 10 11 12 13 14 15, s4) /\
    c_rip (s_cpu s4) = 0x400123.
Proof.
  assert (forall m, loaded 0xFFFFFFFF80310000 0xFFFFFFFF80311000 0xFFFFFFFF80312000 0xFFFFFFFF80314000 demo_handlers
    (in_user (demo_loaded m))) as Hu by (intros m; by constructor).
  destruct (preemption_roundtrip 0xFFFFFFFF80310000 0xFFFFFFFF80311000 0xFFFFFFFF80312000 0xFFFFFFFF80314000 demo_handlers
    (in_user (demo_loaded (fun _ => 0))) (mkRegs 1 2 3 4 5 6 7 8 9 10 11 12 13 14 15) true (Hu _))
    as (s1 & s2 & R1 & R2 & H3).
  - exists 0xFFFFFFFF80201070. split; [reflexivity|]. vm_compute. split; congruence.
  - reflexivity.
  - reflexivity.
  - apply (bool_decide_unpack (Forall _ _)). vm_compute. reflexivity.
  - apply (bool_decide_unpack (Forall _ _)). vm_compute. reflexivity.
  - destruct (H3 (demo_loaded (s_mem s2)) (demo_loaded_ok _) eq_refl (fun _ _ => eq_refl)) as (s4 & R4 & _ & _ & _ & E & _).
    exists s1, s2, s4. split; [exact R1|]. split; [exact R2|]. split; [exact R4|exact E].
Defined.
