(* ===== verification/Paging.v ===== *)
(** * Four-level page tables ([ross-kernel/src/paging.rs])

    Page tables live in physical memory and are reached through the kernel's
    higher-half alias ([phys_to_virt]).  The walk and the map operation are
    translated entry by entry; their theorems say that, on a well-formed tree,
    [map_user_page] is an insertion into the finite function [lookup_page]
    computes and touches no page that is in use for anything else. *)

From S2P Require Import Prelude Bytes Frames Pmm.

(** @src ross-kernel/src/paging.rs 8-8 PRESENT *)
Definition PRESENT : Z := Z.shiftl 1 0.
(** @src ross-kernel/src/paging.rs 9-9 WRITABLE *)
Definition WRITABLE : Z := Z.shiftl 1 1.
(** @src ross-kernel/src/paging.rs 10-10 USER *)
Definition USER : Z := Z.shiftl 1 2.
(** @src ross-kernel/src/paging.rs 11-11 HUGE_PAGE *)
Definition HUGE_PAGE : Z := Z.shiftl 1 7.

(** @src ross-kernel/src/paging.rs 40-40 KERNEL_VMA_BASE *)
Definition KERNEL_VMA_BASE : Z := 0xFFFFFFFF80000000.

(** [!0xFFF] as a [u64], and the frame address of an entry.
    @src ross-kernel/src/paging.rs 204-204 map_user_page *)
Definition frame_of (e : Z) : Z := Z.land e (notw 64 0xFFF).

(** @src ross-kernel/src/paging.rs 42-44 phys_to_virt *)
Definition phys_to_virt (phys : Z) : outcome Z := cadd 64 phys KERNEL_VMA_BASE.

(** The kernel alias maps virtual [KERNEL_VMA_BASE + p] to physical [p] (this
    is [kernel_alias] below): an entry of the table at virtual address [va].
    @src ross-kernel/src/paging.rs 13-18 PageTable *)
Definition pt_read (m : mem) (va i : Z) : Z := ld64 m (va - KERNEL_VMA_BASE + 8 * i).
(** @src ross-kernel/src/paging.rs 13-18 PageTable *)
Definition pt_write (va i v : Z) (m : mem) : mem := st64 (va - KERNEL_VMA_BASE + 8 * i) v m.
(** [entries.fill(0)].
    @src ross-kernel/src/paging.rs 92-92 create_user_address_space_old *)
Definition pt_clear (va : Z) (m : mem) : mem := fill (va - KERNEL_VMA_BASE) 0 4096 m.

(** @src ross-kernel/src/paging.rs 165-165 lookup_page *)
Definition pml4_idx (vaddr : Z) : Z := Z.land (Z.shiftr vaddr 39) 0x1FF.
(** @src ross-kernel/src/paging.rs 166-166 lookup_page *)
Definition pdpt_idx (vaddr : Z) : Z := Z.land (Z.shiftr vaddr 30) 0x1FF.
(** @src ross-kernel/src/paging.rs 167-167 lookup_page *)
Definition pd_idx (vaddr : Z) : Z := Z.land (Z.shiftr vaddr 21) 0x1FF.
(** @src ross-kernel/src/paging.rs 168-168 lookup_page *)
Definition pt_idx (vaddr : Z) : Z := Z.land (Z.shiftr vaddr 12) 0x1FF.

(** @src ross-kernel/src/paging.rs 162-185 lookup_page *)
Definition lookup_page (pml4_phys vaddr : Z) (m : mem) : outcome (option Z) :=
  pml4 ← phys_to_virt pml4_phys;
  if pt_read m pml4 (pml4_idx vaddr) =? 0 then mret None
  else
    pdpt ← phys_to_virt (frame_of (pt_read m pml4 (pml4_idx vaddr)));
    if pt_read m pdpt (pdpt_idx vaddr) =? 0 then mret None
    else
      pd ← phys_to_virt (frame_of (pt_read m pdpt (pdpt_idx vaddr)));
      let pd_entry := pt_read m pd (pd_idx vaddr) in
      if (pd_entry =? 0) || negb (Z.land pd_entry HUGE_PAGE =? 0) then mret None
      else
        pt ← phys_to_virt (frame_of pd_entry);
        let pt_entry := pt_read m pt (pt_idx vaddr) in
        if pt_entry =? 0 then mret None else mret (Some (frame_of pt_entry)).

(** ** Modifying a tree *)

(** Physical memory and the page allocator. *)
Record Vm (St : Type) := mkVm {
  vmem : mem;
  falloc : St
}.
Arguments mkVm {St}.
Arguments vmem {St}.
Arguments falloc {St}.

Section vm.
Context {St : Type} `{FrameAllocator St}.

(** [pmm::alloc_page()]. *)
Definition alloc_frame : M (Vm St) (option Z) := fun s =>
  let '(r, fa) := fa_alloc (falloc s) in Ret (r, mkVm (vmem s) fa).

(** [pmm::alloc_page().expect(..)]. *)
Definition expect_frame : M (Vm St) Z :=
  r ← alloc_frame; match r with Some phys => mret phys | None => panic end.

Definition modify_mem (f : mem -> mem) : M (Vm St) unit := fun s =>
  Ret (tt, mkVm (f (vmem s)) (falloc s)).

(** One of the three "get or create" blocks: the virtual address of the next
    table, created zeroed and linked if the entry is empty.
    @src ross-kernel/src/paging.rs 195-205 map_user_page *)
Definition get_or_create (tbl i : Z) : M (Vm St) Z :=
  s ← get;
  (if pt_read (vmem s) tbl i =? 0 then
     phys ← expect_frame;
     ptr ← lift (phys_to_virt phys);
     modify_mem (pt_clear ptr);;
     modify_mem (pt_write tbl i (Z.lor (Z.lor (Z.lor phys PRESENT) WRITABLE) USER))
   else mret tt);;
  s ← get;
  lift (phys_to_virt (frame_of (pt_read (vmem s) tbl i))).

(** @src ross-kernel/src/paging.rs 187-232 map_user_page *)
Definition map_user_page (pml4_phys vaddr paddr flags : Z) : M (Vm St) unit :=
  pml4 ← lift (phys_to_virt pml4_phys);
  pdpt ← get_or_create pml4 (pml4_idx vaddr);
  pd ← get_or_create pdpt (pdpt_idx vaddr);
  pt ← get_or_create pd (pd_idx vaddr);
  modify_mem (pt_write pt (pt_idx vaddr) (Z.lor (Z.lor (Z.lor paddr flags) PRESENT) USER)).

End vm.

(** ** Entries and indices *)

(** Entry [i] of the table in physical frame [f]. *)
Definition entry (m : mem) (f i : Z) : Z := ld64 m (f + 8 * i).

Definition huge (e : Z) : bool := Z.testbit e 7.

(** The entry is present and open to user mode. *)
Definition user_present (e : Z) : bool := Z.testbit e 0 && Z.testbit e 2.

Lemma phys_to_virt_ok f : 0 <= f < 2 ^ 31 -> phys_to_virt f = Ret (f + KERNEL_VMA_BASE).
Proof.
  intros Hf. unfold phys_to_virt, cadd. rewrite (proj2 (Z.ltb_lt _ _)); [done|].
  unfold KERNEL_VMA_BASE. change (2 ^ 31) with 2147483648 in Hf.
  change (2 ^ 64) with 18446744073709551616. lia.
Qed.

Lemma pt_read_entry m f i : pt_read m (f + KERNEL_VMA_BASE) i = entry m f i.
Proof. unfold pt_read, entry. f_equal. lia. Qed.

Lemma pt_write_phys f i v m : pt_write (f + KERNEL_VMA_BASE) i v m = st64 (f + 8 * i) v m.
Proof. unfold pt_write. f_equal. lia. Qed.

Lemma pt_clear_phys f m : pt_clear (f + KERNEL_VMA_BASE) m = fill f 0 4096 m.
Proof. unfold pt_clear. f_equal. lia. Qed.

Lemma huge_test e : negb (Z.land e HUGE_PAGE =? 0) = huge e.
Proof. unfold HUGE_PAGE. rewrite land_bit_test by lia. by rewrite negb_involutive. Qed.

Lemma frame_of_shift e : fits 64 e -> frame_of e = Z.shiftl (Z.shiftr e 12) 12.
Proof.
  intros He. unfold frame_of, notw. change 0xFFF with (Z.ones 12).
  replace (2 ^ 64 - 1) with (Z.ones 64) by reflexivity. bitwise.
Qed.

Lemma frame_of_div e : fits 64 e -> frame_of e = e / 4096 * 4096.
Proof.
  intros He. rewrite frame_of_shift, Z.shiftl_mul_pow2, Z.shiftr_div_pow2 by (done || lia). done.
Qed.

(** An aligned address is recovered from an entry whatever its flags. *)
Lemma frame_of_flags a fl :
  fits 64 a -> a mod 4096 = 0 -> fits 12 fl -> frame_of (Z.lor a fl) = a.
Proof.
  intros Ha Hm Hfl. rewrite frame_of_shift.
  2: { apply fits_lor; [lia|done|]. apply (fits_mono 12); [lia|done]. }
  assert (a = Z.shiftl (Z.shiftr a 12) 12) as Hs.
  { rewrite Z.shiftl_mul_pow2, Z.shiftr_div_pow2 by lia. change (2 ^ 12) with 4096. dm_lia. }
  rewrite Hs at 2. bitwise.
Qed.

Lemma aligned_low_bit a k : a mod 4096 = 0 -> 0 <= k < 12 -> Z.testbit a k = false.
Proof.
  intros Hm Hk. assert (a = Z.shiftl (a / 4096) 12) as ->.
  { rewrite Z.shiftl_mul_pow2 by lia. change (2 ^ 12) with 4096. dm_lia. }
  rewrite Z.shiftl_spec by lia. apply Z.testbit_neg_r. lia.
Qed.

Lemma huge_flags a fl : a mod 4096 = 0 -> huge (Z.lor a fl) = Z.testbit fl 7.
Proof. intros Hm. unfold huge. by rewrite Z.lor_spec, aligned_low_bit by (done || lia). Qed.

(** *** Indices and prefixes

    A table at level [L] (4 the root, 1 the last) serves the addresses that
    share the bits above [12 + 9 * L]: its prefix. *)

Definition lidx (L v : Z) : Z := v / 2 ^ (12 + 9 * (L - 1)) mod 512.
Definition pfx (L v : Z) : Z := v mod 2 ^ 48 / 2 ^ (12 + 9 * L).

Lemma lidx_range L v : 0 <= lidx L v < 512.
Proof. apply Z.mod_pos_bound. lia. Qed.

Lemma idx_shift v k : 0 <= k -> Z.land (Z.shiftr v k) 0x1FF = v / 2 ^ k mod 512.
Proof. intros. rewrite (land_mask _ 0x1FF 9), Z.shiftr_div_pow2 by (done || lia). done. Qed.

Lemma idx_levels v :
  pml4_idx v = lidx 4 v /\ pdpt_idx v = lidx 3 v /\ pd_idx v = lidx 2 v /\ pt_idx v = lidx 1 v.
Proof. unfold pml4_idx, pdpt_idx, pd_idx, pt_idx, lidx. by rewrite !idx_shift by lia. Qed.

Lemma pfx_root v : pfx 4 v = 0.
Proof. unfold pfx. apply Z.div_small. apply Z.mod_pos_bound. lia. Qed.

Lemma pfx_step L v : 1 <= L <= 4 -> pfx (L - 1) v = pfx L v * 512 + lidx L v.
Proof.
  intros HL. unfold pfx, lidx.
  assert (L = 1 \/ L = 2 \/ L = 3 \/ L = 4) as HLs by lia.
  destruct HLs as [-> | [-> | [-> | ->]]]; cbn -[Z.div Z.modulo]; dm_lia.
Qed.

(** Two addresses with the same level-0 prefix are in the same page (of the
    48 bits the walk looks at). *)
Definition same_page (v w : Z) : Prop := pfx 0 v = pfx 0 w.
#[global] Instance same_page_dec v w : Decision (same_page v w).
Proof. unfold same_page. apply _. Defined.

(** ** Well-formed trees

    A typing names the frames used as tables: each has a level and a prefix,
    so a frame is reached along one path only.  In a well-formed tree every
    entry above the last level is empty, a huge page (level 2 only), or leads
    to the frame typed with the matching level and prefix; and no typed frame
    is free in the allocator. *)

Definition Typing : Type := Z -> option (Z * Z).

(** The frame a physical byte lies in. *)
Definition page (x : Z) : Z := x / 4096 * 4096.

(** Level numbers, which the recursive walks count in [nat]. *)
Ltac levels :=
  change (Z.of_nat 4) with 4 in *; change (Z.of_nat 3) with 3 in *;
  change (Z.of_nat 2) with 2 in *; change (Z.of_nat 1) with 1 in *.

Section tree.
Context {St : Type} {FA : FrameAllocator St}.

Definition entry_ok (T : Typing) (L P i e : Z) : Prop :=
  e = 0 \/ (L = 2 /\ huge e = true) \/
  (T (frame_of e) = Some (L - 1, P * 512 + i) /\ (L <= 3 -> huge e = false) /\ user_present e = true).

Record tree_ok (T : Typing) (root : Z) (s : Vm St) : Prop := {
  tr_fa : fa_ok (falloc s);
  tr_mem : mem_ok (vmem s);
  tr_root : T root = Some (4, 0);
  tr_frame : forall f L P, T f = Some (L, P) ->
    f mod 4096 = 0 /\ 0 <= f < 2 ^ 31 /\ 1 <= L <= 4 /\ ~ fa_free (falloc s) f;
  tr_entry : forall f L P i, T f = Some (L, P) -> 2 <= L -> 0 <= i < 512 ->
    entry_ok T L P i (entry (vmem s) f i);
  tr_leaf : forall f P i, T f = Some (1, P) -> 0 <= i < 512 ->
    entry (vmem s) f i = 0 \/ user_present (entry (vmem s) f i) = true
}.

(** The walk as a recursion over the levels. *)
Fixpoint walk (L : nat) (m : mem) (f v : Z) : option Z :=
  match L with
  | O => None
  | S L' =>
      let e := entry m f (lidx (Z.of_nat L) v) in
      if e =? 0 then None
      else match L' with
           | O => Some (frame_of e)
           | _ => if (L =? 2)%nat && huge e then None else walk L' m (frame_of e) v
           end
  end.

(** The walk of [v] ends at a huge page. *)
Fixpoint hits_huge (L : nat) (m : mem) (f v : Z) : bool :=
  match L with
  | O => false
  | S L' =>
      let e := entry m f (lidx (Z.of_nat L) v) in
      if e =? 0 then false
      else match L' with
           | O => false
           | _ => if (L =? 2)%nat && huge e then true else hits_huge L' m (frame_of e) v
           end
  end.

Lemma aligned_disjoint a b :
  a mod 4096 = 0 -> b mod 4096 = 0 -> a <> b -> a + 4096 <= b \/ b + 4096 <= a.
Proof. intros. dm_lia. Qed.

Lemma page_of_slot f i x : f mod 4096 = 0 -> 0 <= i < 512 -> f + 8 * i <= x < f + 8 * i + 8 -> page x = f.
Proof. unfold page. intros. dm_lia. Qed.

Lemma page_in f x : f mod 4096 = 0 -> f <= x < f + 4096 -> page x = f.
Proof. unfold page. intros. dm_lia. Qed.

(** *** Storing an entry *)

Lemma entry_st_same m f i v : fits 64 v -> entry (st64 (f + 8 * i) v m) f i = v.
Proof. intros. by apply ld_st_same. Qed.

Lemma entry_st_ne m f i g j v :
  f mod 4096 = 0 -> g mod 4096 = 0 -> 0 <= i < 512 -> 0 <= j < 512 -> (g, j) <> (f, i) ->
  entry (st64 (f + 8 * i) v m) g j = entry m g j.
Proof.
  intros Hf Hg Hi Hj Hne. apply ld_st_ne. simpl Z.of_nat.
  destruct (decide (g = f)) as [->|Hgf].
  - assert (i <> j) by congruence. lia.
  - pose proof (aligned_disjoint f g Hf Hg). lia.
Qed.

(** The memory after a fresh table [c] was zeroed and linked at entry [i] of [f]. *)
Definition link (f i c : Z) (m : mem) : mem := st64 (f + 8 * i) (Z.lor c 7) (fill c 0 4096 m).

Lemma link_same f i c m : fits 64 c -> entry (link f i c m) f i = Z.lor c 7.
Proof. intros Hc. apply entry_st_same. apply fits_lor; [lia|done|]. unfold fits; lia. Qed.

Lemma link_other f i c m g j :
  f mod 4096 = 0 -> g mod 4096 = 0 -> c mod 4096 = 0 -> 0 <= i < 512 -> 0 <= j < 512 ->
  g <> c -> (g, j) <> (f, i) -> entry (link f i c m) g j = entry m g j.
Proof.
  intros Hf Hg Hc Hi Hj Hgc Hne. unfold link. rewrite entry_st_ne by done.
  apply ld_fill_ne. pose proof (aligned_disjoint g c Hg Hc Hgc). simpl Z.of_nat. lia.
Qed.

Lemma link_new f i c m j :
  f mod 4096 = 0 -> c mod 4096 = 0 -> 0 <= i < 512 -> 0 <= j < 512 -> c <> f ->
  entry (link f i c m) c j = 0.
Proof.
  intros Hf Hc Hi Hj Hcf. unfold link. rewrite entry_st_ne by (done || congruence).
  apply ld_fill_zero; simpl Z.of_nat; lia.
Qed.

Lemma link_data f i c m x :
  f mod 4096 = 0 -> c mod 4096 = 0 -> 0 <= i < 512 -> page x <> f -> page x <> c ->
  link f i c m x = m x.
Proof.
  intros Hf Hc Hi Hxf Hxc. unfold link. unfold st. rewrite st_bytes_out, fill_out; [done| |].
  - destruct (decide (c <= x < c + 4096)); [|lia]. exfalso. by apply Hxc, page_in.
  - rewrite length_le_bytes. destruct (decide (f + 8 * i <= x < f + 8 * i + 8)); [|simpl; lia].
    exfalso. by apply Hxf, (page_of_slot f i).
Qed.

Lemma lor7_nonzero c : 0 <= c -> Z.lor c 7 <> 0.
Proof. intros Hc He. apply Z.lor_eq_0_iff in He. lia. Qed.

Lemma lor7_frame c : fits 64 c -> c mod 4096 = 0 -> frame_of (Z.lor c 7) = c.
Proof. intros. apply frame_of_flags; [done|done|]. unfold fits; lia. Qed.

Lemma lor7_huge c : c mod 4096 = 0 -> huge (Z.lor c 7) = false.
Proof. intros. by rewrite huge_flags. Qed.

Lemma lor7_user_present c : user_present (Z.lor c 7) = true.
Proof. unfold user_present. by rewrite !Z.lor_spec, !orb_true_r. Qed.

Lemma frame_fits64 f : 0 <= f < 2 ^ 31 -> fits 64 f.
Proof. intros. apply (fits_mono 31); [lia|done]. Qed.

(** *** [lookup_page] is the walk *)

Lemma tree_child T root s f L P i :
  tree_ok T root s -> T f = Some (L, P) -> 2 <= L -> 0 <= i < 512 ->
  entry (vmem s) f i <> 0 -> (L = 2 -> huge (entry (vmem s) f i) = false) ->
  T (frame_of (entry (vmem s) f i)) = Some (L - 1, P * 512 + i).
Proof.
  intros Hok Hf HL Hi Hne Hh.
  destruct (tr_entry _ _ _ Hok f L P i Hf HL Hi) as [|[[HL2 Hh']|(Ht & _)]]; [done| |done].
  rewrite Hh in Hh'; done.
Qed.

Lemma typed_virt T root s f L P :
  tree_ok T root s -> T f = Some (L, P) -> phys_to_virt f = Ret (f + KERNEL_VMA_BASE).
Proof.
  intros Hok Hf. apply phys_to_virt_ok. by apply (tr_frame _ _ _ Hok f L P Hf).
Qed.

Lemma lookup_page_walk T root s v :
  tree_ok T root s -> lookup_page root v (vmem s) = Ret (walk 4 (vmem s) root v).
Proof.
  intros Hok. destruct (idx_levels v) as (I4 & I3 & I2 & I1).
  pose proof (tr_root _ _ _ Hok) as T4. unfold lookup_page.
  rewrite (typed_virt _ _ _ _ _ _ Hok T4). cbn [mbind outcome_bind].
  rewrite pt_read_entry, I4, I3, I2, I1. cbn [walk Nat.eqb andb]. levels.
  destruct (Z.eqb_spec (entry (vmem s) root (lidx 4 v)) 0) as [|N4]; [done|].
  pose proof (tree_child _ _ _ _ _ _ _ Hok T4 ltac:(lia) (lidx_range 4 v) N4 ltac:(lia)) as T3.
  rewrite (typed_virt _ _ _ _ _ _ Hok T3). cbn [mbind outcome_bind]. rewrite pt_read_entry.
  destruct (Z.eqb_spec (entry (vmem s) (frame_of (entry (vmem s) root (lidx 4 v))) (lidx 3 v)) 0)
    as [|N3]; [done|].
  pose proof (tree_child _ _ _ _ _ _ _ Hok T3 ltac:(lia) (lidx_range 3 v) N3 ltac:(lia)) as T2.
  rewrite (typed_virt _ _ _ _ _ _ Hok T2). cbn [mbind outcome_bind]. rewrite pt_read_entry, huge_test.
  set (e2 := entry _ (frame_of _) (lidx 2 v)) in *.
  destruct (Z.eqb_spec e2 0) as [|N2]; [done|]. simpl orb.
  destruct (huge e2) eqn:H2; [done|].
  pose proof (tree_child _ _ _ _ _ _ _ Hok T2 ltac:(lia) (lidx_range 2 v) N2 (fun _ => H2)) as T1.
  fold e2 in T1. rewrite (typed_virt _ _ _ _ _ _ Hok T1). cbn [mbind outcome_bind].
  rewrite pt_read_entry. by destruct (_ =? 0).
Qed.


(** *** Linking a fresh table *)

Definition retype (T : Typing) (c : Z) (LP : Z * Z) : Typing :=
  fun g => if decide (g = c) then Some LP else T g.

(** What the steps of a mapping of [v] may change of a tree. *)
Record extends (v : Z) (T : Typing) (s : Vm St) (T' : Typing) (s' : Vm St) : Prop := {
  ex_types : forall g LP, T g = Some LP -> T' g = Some LP;
  ex_new : forall g LP, T' g = Some LP -> T g = Some LP \/ fa_free (falloc s) g;
  ex_free : forall b, fa_free (falloc s') b -> fa_free (falloc s) b;
  ex_entry : forall g LP j, T g = Some LP -> 0 <= j < 512 ->
    entry (vmem s) g j <> 0 -> entry (vmem s') g j = entry (vmem s) g j;
  ex_walk : forall (L : nat) g w, T g = Some (Z.of_nat L, pfx (Z.of_nat L) w) ->
    walk L (vmem s') g w = walk L (vmem s) g w /\
    hits_huge L (vmem s') g w = hits_huge L (vmem s) g w;
  ex_data : forall x, vmem s' x = vmem s x \/ fa_free (falloc s) (page x) \/
    exists L, T (page x) = Some (L, pfx L v)
}.

Lemma extends_refl v T s : extends v T s T s.
Proof. constructor; auto. Qed.

Lemma extends_trans v T1 s1 T2 s2 T3 s3 :
  extends v T1 s1 T2 s2 -> extends v T2 s2 T3 s3 -> extends v T1 s1 T3 s3.
Proof.
  intros A B. constructor.
  - intros g LP HT. by apply (ex_types _ _ _ _ _ B), (ex_types _ _ _ _ _ A).
  - intros g LP HT. destruct (ex_new _ _ _ _ _ B g LP HT) as [HT2|Hf].
    + by apply (ex_new _ _ _ _ _ A).
    + right. by apply (ex_free _ _ _ _ _ A).
  - intros b Hb. by apply (ex_free _ _ _ _ _ A), (ex_free _ _ _ _ _ B).
  - intros g LP j HT Hj Hne. pose proof (ex_entry _ _ _ _ _ A g LP j HT Hj Hne) as He.
    rewrite (ex_entry _ _ _ _ _ B g LP j); [done| |done|congruence].
    by apply (ex_types _ _ _ _ _ A).
  - intros L g w HT. destruct (ex_walk _ _ _ _ _ A L g w HT) as [<- <-].
    apply (ex_walk _ _ _ _ _ B). by apply (ex_types _ _ _ _ _ A).
  - intros x. destruct (ex_data _ _ _ _ _ B x) as [->|[Hf|[L HT]]].
    + apply (ex_data _ _ _ _ _ A).
    + right; left. by apply (ex_free _ _ _ _ _ A).
    + destruct (ex_new _ _ _ _ _ A _ _ HT) as [HT1|Hf]; [|by auto]. right; right. by exists L.
Qed.

Section link_spec.
Context (T : Typing) (root : Z) (s : Vm St) (fa' : St) (f L P i c : Z).
Context (Hok : tree_ok T root s) (Hf : T f = Some (L, P)) (HL : 2 <= L) (Hi : 0 <= i < 512).
Context (Hempty : entry (vmem s) f i = 0) (Hal : fa_alloc (falloc s) = (Some c, fa')).
Let s' : Vm St := mkVm (link f i c (vmem s)) fa'.
Let T' : Typing := retype T c (L - 1, P * 512 + i).

Lemma fresh_facts :
  c mod 4096 = 0 /\ 0 <= c < 2 ^ 31 /\ fa_free (falloc s) c /\ ~ fa_free fa' c /\ T c = None /\ c <> f.
Proof.
  pose proof (tr_fa _ _ _ Hok) as Hfa.
  destruct (fa_alloc_fresh _ _ _ Hfa Hal) as [Hc Hc'].
  pose proof (fa_free_range _ _ Hfa Hc). assert (T c = None) as HTc.
  { destruct (T c) as [[L' P']|] eqn:E; [|done].
    by destruct (tr_frame _ _ _ Hok _ _ _ E) as (_ & _ & _ & []). }
  split_and!; try done; try lia.
  - by apply (fa_free_aligned _ _ Hfa Hc).
  - congruence.
Qed.

Lemma link_typed_entry g LP j :
  T g = Some LP -> 0 <= j < 512 -> (g, j) <> (f, i) -> entry (vmem s') g j = entry (vmem s) g j.
Proof.
  intros HT Hj Hne. destruct fresh_facts as (Hc & _ & _ & _ & HTc & _). destruct LP as [L' P'].
  apply link_other; try done; try congruence.
  - by apply (tr_frame _ _ _ Hok f L P).
  - by apply (tr_frame _ _ _ Hok g L' P').
Qed.

Lemma link_here : entry (vmem s') f i = Z.lor c 7.
Proof. apply link_same, frame_fits64. by destruct fresh_facts as (? & ? & ?). Qed.

Lemma link_zero j : 0 <= j < 512 -> entry (vmem s') c j = 0.
Proof.
  intros. destruct fresh_facts as (Hc & _ & _ & _ & _ & Hcf). apply link_new; try done.
  by apply (tr_frame _ _ _ Hok f L P).
Qed.

Lemma link_frame : frame_of (Z.lor c 7) = c.
Proof. destruct fresh_facts as (? & ? & _). by apply lor7_frame; [apply frame_fits64|]. Qed.

Lemma link_tree_ok : tree_ok T' root s'.
Proof.
  destruct fresh_facts as (Hc & Hcr & Hcf & Hcf' & HTc & Hne).
  destruct (fa_alloc_some _ _ _ (tr_fa _ _ _ Hok) Hal) as (Hfa' & _ & Hiff).
  pose proof (tr_frame _ _ _ Hok f L P Hf) as (_ & _ & HLr & _).
  constructor; simpl.
  - done.
  - apply st_ok, fill_ok; [by vm_compute|]. apply (tr_mem _ _ _ Hok).
  - unfold T', retype. rewrite decide_False; [apply (tr_root _ _ _ Hok)|].
    intros <-. by rewrite (tr_root _ _ _ Hok) in HTc.
  - intros g L' P'. unfold T', retype. case_decide as Hg; [intros; simplify_eq; split_and!; auto; lia|].
    intros HT. apply (tr_frame _ _ _ Hok) in HT as (? & ? & ? & Hnf). split_and!; try done; try lia.
    intros Hx. apply Hnf. by apply Hiff in Hx as [? _].
  - intros g L' P' j. unfold T', retype at 1. case_decide as Hg.
    + intros [= <- <-] HL' Hj. subst. left. by apply link_zero.
    + intros HT HL' Hj. destruct (decide ((g, j) = (f, i))) as [[= -> ->]|Hne2].
      * right. right. change (link f i c (vmem s)) with (vmem s'). rewrite link_here, link_frame. unfold retype.
        rewrite decide_True by done. rewrite Hf in HT. simplify_eq. split_and!; [done| |].
        -- intros _. by apply lor7_huge.
        -- apply lor7_user_present.
      * change (link f i c (vmem s)) with (vmem s'). rewrite (link_typed_entry g (L', P')) by done.
        destruct (tr_entry _ _ _ Hok g L' P' j HT HL' Hj) as [|[|(HT2 & Hh & Hu)]]; [by left|by right; left|].
        right; right. split_and!; [|done|done]. unfold retype. rewrite decide_False; [done|congruence].
  - intros g P' j. unfold T', retype. change (link f i c (vmem s)) with (vmem s'). case_decide as Hg.
    + intros _ Hj. subst. left. by apply link_zero.
    + intros HT Hj. rewrite (link_typed_entry g (1, P') j HT Hj).
      * by apply (tr_leaf _ _ _ Hok g P').
      * intros [= -> _]. rewrite Hf in HT. simplify_eq.
Qed.

Lemma link_walk (K : nat) g w :
  T g = Some (Z.of_nat K, pfx (Z.of_nat K) w) ->
  walk K (vmem s') g w = walk K (vmem s) g w /\
  hits_huge K (vmem s') g w = hits_huge K (vmem s) g w.
Proof.
  destruct fresh_facts as (Hc & Hcr & _ & _ & _ & _).
  revert g. induction K as [|K IH]; intros g HT; [done|]. cbn [walk hits_huge].
  pose proof (lidx_range (Z.of_nat (S K)) w) as Hli.
  destruct (decide ((g, lidx (Z.of_nat (S K)) w) = (f, i))) as [[= -> Hli2]|Hne].
  - rewrite Hf in HT. injection HT as HLK _. rewrite Hli2, Hempty, link_here. simpl.
    rewrite (proj2 (Z.eqb_neq _ _)) by (apply lor7_nonzero; lia).
    rewrite lor7_huge, link_frame, andb_false_r by done.
    destruct K as [|K]; [lia|]. cbn [walk hits_huge].
    rewrite link_zero by apply lidx_range. done.
  - rewrite (link_typed_entry g _ _ HT Hli Hne).
    destruct (Z.eqb_spec (entry (vmem s) g (lidx (Z.of_nat (S K)) w)) 0) as [|Hnz]; [done|].
    destruct K as [|K]; [done|].
    destruct ((S (S K) =? 2)%nat && huge _) eqn:Hh; [done|].
    apply IH. pose proof (tr_frame _ _ _ Hok _ _ _ HT) as (_ & _ & HKr & _).
    rewrite (tree_child _ _ _ _ _ _ _ Hok HT) by (done || lia ||
      (intros HK; replace K with 0%nat in * by lia; simpl in Hh; done)).
    replace (Z.of_nat (S K)) with (Z.of_nat (S (S K)) - 1) by lia. by rewrite pfx_step by lia.
Qed.

Lemma link_extends v : P = pfx L v -> extends v T s T' s'.
Proof.
  intros HP. destruct fresh_facts as (Hc & Hcr & Hcf & Hcf' & HTc & Hne).
  constructor.
  - intros g LP HT. unfold T', retype. rewrite decide_False; [done|congruence].
  - intros g LP. unfold T', retype. case_decide; [subst; auto|auto].
  - intros b. apply (fa_alloc_mono _ _ _ _ (tr_fa _ _ _ Hok) Hal).
  - intros g LP j HT Hj Hnz. apply (link_typed_entry g LP); [done|done|congruence].
  - apply link_walk.
  - intros x. destruct (decide (page x = c)) as [Hx|Hx]; [rewrite Hx; auto|].
    destruct (decide (page x = f)) as [Hxf|Hxf]; [right; right; exists L; by rewrite Hxf, <- HP|].
    left. apply link_data; try done. by apply (tr_frame _ _ _ Hok f L P).
Qed.

End link_spec.


(** *** One level of the mapping *)

Lemma expect_frame_some s c fa' :
  fa_alloc (falloc s) = (Some c, fa') -> expect_frame s = Ret (c, mkVm (vmem s) fa').
Proof. intros Hal. unfold expect_frame, alloc_frame, mbind, M_bind. by rewrite Hal. Qed.

Lemma entry_flags c : Z.lor (Z.lor (Z.lor c PRESENT) WRITABLE) USER = Z.lor c 7.
Proof. by rewrite <- !Z.lor_assoc. Qed.

Lemma get_or_create_present T root s f L P i :
  tree_ok T root s -> T f = Some (L, P) -> entry (vmem s) f i <> 0 ->
  phys_to_virt (frame_of (entry (vmem s) f i)) =
    Ret (frame_of (entry (vmem s) f i) + KERNEL_VMA_BASE) ->
  get_or_create (f + KERNEL_VMA_BASE) i s =
    Ret (frame_of (entry (vmem s) f i) + KERNEL_VMA_BASE, s).
Proof.
  intros Hok Hf Hne Hv. unfold get_or_create, mbind, M_bind, get, lift, mret, M_ret.
  rewrite pt_read_entry, (proj2 (Z.eqb_neq _ _) Hne), pt_read_entry, Hv. done.
Qed.

Lemma get_or_create_fresh T root s f L P i c fa' :
  tree_ok T root s -> T f = Some (L, P) -> 2 <= L -> 0 <= i < 512 ->
  entry (vmem s) f i = 0 -> fa_alloc (falloc s) = (Some c, fa') ->
  get_or_create (f + KERNEL_VMA_BASE) i s =
    Ret (c + KERNEL_VMA_BASE, mkVm (link f i c (vmem s)) fa').
Proof.
  intros Hok Hf HL Hi He Hal.
  destruct (fresh_facts _ _ _ _ _ _ _ _ Hok Hf Hal) as (_ & Hcr & _).
  pose proof (link_frame _ _ _ _ _ _ _ _ Hok Hf Hal) as Hlf.
  pose proof (link_here _ _ _ _ _ _ _ i _ Hok Hf Hal) as Hlh. simpl in Hlh.
  pose proof (phys_to_virt_ok c Hcr) as Hv.
  unfold get_or_create. unfold mbind at 1, M_bind at 1, get at 1. rewrite pt_read_entry, He. simpl Z.eqb. cbv iota.
  unfold mbind, M_bind, get, lift, modify_mem. rewrite (expect_frame_some _ _ _ Hal). simpl.
  rewrite Hv. simpl. rewrite pt_write_phys, pt_clear_phys, entry_flags, pt_read_entry.
  unfold link in Hlh. rewrite Hlh, Hlf, Hv. done.
Qed.

Lemma get_or_create_spec v T root s f (L : nat) n :
  tree_ok T root s -> T f = Some (Z.of_nat L, pfx (Z.of_nat L) v) -> (2 <= L)%nat ->
  hits_huge L (vmem s) f v = false -> has_free (S n) (falloc s) ->
  exists T' s' c,
    get_or_create (f + KERNEL_VMA_BASE) (lidx (Z.of_nat L) v) s = Ret (c + KERNEL_VMA_BASE, s') /\
    tree_ok T' root s' /\ extends v T s T' s' /\
    T' c = Some (Z.of_nat (pred L), pfx (Z.of_nat (pred L)) v) /\
    hits_huge (pred L) (vmem s') c v = false /\ has_free n (falloc s') /\
    entry (vmem s') f (lidx (Z.of_nat L) v) <> 0 /\
    frame_of (entry (vmem s') f (lidx (Z.of_nat L) v)) = c /\
    (L = 2%nat -> huge (entry (vmem s') f (lidx (Z.of_nat L) v)) = false).
Proof.
  intros Hok Hf HL Hhh Hfree. pose proof (lidx_range (Z.of_nat L) v) as Hi.
  pose proof (tr_frame _ _ _ Hok _ _ _ Hf) as (_ & _ & HLr & _).
  assert (pfx (Z.of_nat L) v * 512 + lidx (Z.of_nat L) v = pfx (Z.of_nat (pred L)) v) as Hpf.
  { rewrite <- pfx_step by lia. f_equal. lia. }
  replace (Z.of_nat (pred L)) with (Z.of_nat L - 1) in * by lia.
  destruct (Z.eq_dec (entry (vmem s) f (lidx (Z.of_nat L) v)) 0) as [He|He].
  - destruct (has_free_S _ _ (tr_fa _ _ _ Hok) Hfree) as (c & fa' & Hal & Hfree').
    exists (retype T c (Z.of_nat L - 1, pfx (Z.of_nat L) v * 512 + lidx (Z.of_nat L) v)).
    exists (mkVm (link f (lidx (Z.of_nat L) v) c (vmem s)) fa'), c.
    destruct (fresh_facts _ _ _ _ _ _ _ _ Hok Hf Hal) as (Hc & Hcr & _).
    pose proof (link_here _ _ _ _ _ _ _ (lidx (Z.of_nat L) v) _ Hok Hf Hal) as Hlh.
    rewrite Hlh. split_and!.
    + by eapply get_or_create_fresh; try done; lia.
    + eapply link_tree_ok; try done; lia.
    + eapply link_extends; try done; lia.
    + unfold retype. by rewrite decide_True, Hpf.
    + destruct L as [|[|L]]; [lia|lia|]. cbn [pred hits_huge].
      rewrite (link_zero _ _ _ _ _ _ _ _ _ Hok Hf) by (done || apply lidx_range). done.
    + done.
    + apply lor7_nonzero; lia.
    + by eapply link_frame.
    + intros _. by apply lor7_huge.
  - assert (Z.of_nat L = 2 -> huge (entry (vmem s) f (lidx (Z.of_nat L) v)) = false) as Hh.
    { intros HL2. assert (L = 2%nat) as -> by lia. cbn [hits_huge Nat.eqb andb] in Hhh.
      rewrite (proj2 (Z.eqb_neq _ _) He) in Hhh. by destruct (huge _). }
    pose proof (tree_child _ _ _ _ _ _ _ Hok Hf ltac:(lia) Hi He Hh) as HT.
    exists T, s, (frame_of (entry (vmem s) f (lidx (Z.of_nat L) v))). split_and!.
    + eapply get_or_create_present; try done. by eapply typed_virt.
    + done.
    + apply extends_refl.
    + by rewrite HT, Hpf.
    + destruct L as [|[|L]]; [lia|lia|]. cbn [pred]. cbn [hits_huge] in Hhh.
      rewrite (proj2 (Z.eqb_neq _ _) He) in Hhh. destruct (_ && _) eqn:E; [done|]. exact Hhh.
    + apply (has_free_le (S n)); [lia|done].
    + done.
    + done.
    + intros ->. by apply Hh.
Qed.


(** *** The last level *)

Lemma same_page_sym v w : same_page v w -> same_page w v.
Proof. unfold same_page. done. Qed.

Lemma same_page_lidx v w L : same_page v w -> 1 <= L <= 4 -> lidx L v = lidx L w.
Proof.
  unfold same_page, pfx, lidx. intros Hs HL.
  assert (L = 1 \/ L = 2 \/ L = 3 \/ L = 4) as HLs by lia.
  destruct HLs as [-> | [-> | [-> | ->]]]; cbn -[Z.div Z.modulo] in *; dm_lia.
Qed.

Lemma same_page_leaf v w : pfx 1 v = pfx 1 w -> lidx 1 v = lidx 1 w -> same_page v w.
Proof.
  intros Hp Hl. unfold same_page. change 0 with (1 - 1). rewrite !pfx_step by lia. congruence.
Qed.

Section leaf.
Context (T : Typing) (root : Z) (s : Vm St) (f v e : Z).
Context (Hok : tree_ok T root s) (Hf : T f = Some (1, pfx 1 v)) (He : fits 64 e).
Context (Hu : user_present e = true).
Let s' : Vm St := mkVm (st64 (f + 8 * lidx 1 v) e (vmem s)) (falloc s).

Lemma leaf_entry g LP j :
  T g = Some LP -> 0 <= j < 512 -> (g, j) <> (f, lidx 1 v) ->
  entry (vmem s') g j = entry (vmem s) g j.
Proof.
  intros HT Hj Hne. destruct LP as [L P].
  apply entry_st_ne; try done; try apply lidx_range.
  - by apply (tr_frame _ _ _ Hok _ _ _ Hf).
  - by apply (tr_frame _ _ _ Hok _ _ _ HT).
Qed.

Lemma leaf_here : entry (vmem s') f (lidx 1 v) = e.
Proof. by apply entry_st_same. Qed.

Lemma leaf_tree_ok : tree_ok T root s'.
Proof.
  constructor; simpl; try apply Hok.
  - by apply st_ok, (tr_mem _ _ _ Hok).
  - intros g L P i HT HL Hi. rewrite (leaf_entry g (L, P)) by (done || congruence ||
      (intros [= -> _]; rewrite Hf in HT; simplify_eq; lia)).
    by apply (tr_entry _ _ _ Hok).
  - intros g P i HT Hi. destruct (decide ((g, i) = (f, lidx 1 v))) as [[= -> ->]|Hne].
    + right. change (st64 (f + 8 * lidx 1 v) e (vmem s)) with (vmem s'). by rewrite leaf_here.
    + change (st64 (f + 8 * lidx 1 v) e (vmem s)) with (vmem s').
      rewrite (leaf_entry g (1, P)) by done. by apply (tr_leaf _ _ _ Hok g P).
Qed.

Lemma leaf_walk (K : nat) g w :
  T g = Some (Z.of_nat K, pfx (Z.of_nat K) w) ->
  (~ same_page v w -> walk K (vmem s') g w = walk K (vmem s) g w) /\
  hits_huge K (vmem s') g w = hits_huge K (vmem s) g w.
Proof.
  revert g. induction K as [|K IH]; intros g HT; [done|]. cbn [walk hits_huge].
  pose proof (lidx_range (Z.of_nat (S K)) w) as Hli.
  destruct (decide ((g, lidx (Z.of_nat (S K)) w) = (f, lidx 1 v))) as [[= -> Hli2]|Hne].
  - rewrite Hf in HT. injection HT as HLK HP. destruct K as [|K]; [|lia]. levels.
    split; [|by repeat case_match]. intros Hns. exfalso. by apply Hns, same_page_leaf.
  - rewrite (leaf_entry g _ _ HT Hli Hne).
    destruct (Z.eqb_spec (entry (vmem s) g (lidx (Z.of_nat (S K)) w)) 0) as [|Hnz]; [done|].
    destruct K as [|K]; [done|].
    destruct ((S (S K) =? 2)%nat && huge _) eqn:Hh; [done|].
    apply IH. pose proof (tr_frame _ _ _ Hok _ _ _ HT) as (_ & _ & HKr & _).
    rewrite (tree_child _ _ _ _ _ _ _ Hok HT) by (done || lia ||
      (intros HK; replace K with 0%nat in * by lia; simpl in Hh; done)).
    replace (Z.of_nat (S K)) with (Z.of_nat (S (S K)) - 1) by lia. by rewrite pfx_step by lia.
Qed.

Lemma leaf_data x : vmem s' x = vmem s x \/ T (page x) = Some (1, pfx 1 v).
Proof.
  pose proof (lidx_range 1 v). pose proof (tr_frame _ _ _ Hok _ _ _ Hf) as (Hfa & _).
  destruct (decide (page x = f)) as [->|Hx]; [by right|left].
  apply st_bytes_out. rewrite length_le_bytes.
  destruct (decide (f + 8 * lidx 1 v <= x < f + 8 * lidx 1 v + 8)); [|simpl; lia].
  exfalso. by apply Hx, (page_of_slot f (lidx 1 v)).
Qed.

End leaf.

(** What a successful mapping of the page of [v] to the frame [p] promises. *)
Record mapped (v p : Z) (root : Z) (T : Typing) (s : Vm St) (T' : Typing) (s' : Vm St) : Prop := {
  mp_tree : tree_ok T' root s';
  mp_types : forall g LP, T g = Some LP -> T' g = Some LP;
  mp_new : forall g LP, T' g = Some LP -> T g = Some LP \/ fa_free (falloc s) g;
  mp_free : forall b, fa_free (falloc s') b -> fa_free (falloc s) b;
  mp_lookup : forall w, lookup_page root w (vmem s') =
    if decide (same_page v w) then Ret (Some p) else lookup_page root w (vmem s);
  mp_huge : forall w, hits_huge 4 (vmem s') root w = hits_huge 4 (vmem s) root w;
  mp_data : forall x, vmem s' x = vmem s x \/ fa_free (falloc s) (page x) \/
    exists L, T (page x) = Some (L, pfx L v)
}.

Lemma walk_step K m f v c :
  entry m f (lidx (Z.of_nat (S (S K))) v) <> 0 ->
  frame_of (entry m f (lidx (Z.of_nat (S (S K))) v)) = c ->
  (K = 0%nat -> huge (entry m f (lidx (Z.of_nat (S (S K))) v)) = false) ->
  walk (S (S K)) m f v = walk (S K) m c v.
Proof.
  intros Hne Hc Hh. cbn [walk]. rewrite (proj2 (Z.eqb_neq _ _) Hne), Hc.
  destruct K; [rewrite (Hh eq_refl)|]; done.
Qed.


(** Following a complete path to a last-level entry that was just written. *)
Lemma path_lookup T root s v e c3 c2 c1 w :
  tree_ok T root s -> T c3 = Some (3, pfx 3 v) -> T c2 = Some (2, pfx 2 v) ->
  T c1 = Some (1, pfx 1 v) -> fits 64 e -> e <> 0 ->
  entry (vmem s) root (lidx 4 v) <> 0 -> frame_of (entry (vmem s) root (lidx 4 v)) = c3 ->
  entry (vmem s) c3 (lidx 3 v) <> 0 -> frame_of (entry (vmem s) c3 (lidx 3 v)) = c2 ->
  entry (vmem s) c2 (lidx 2 v) <> 0 -> frame_of (entry (vmem s) c2 (lidx 2 v)) = c1 ->
  huge (entry (vmem s) c2 (lidx 2 v)) = false -> same_page v w ->
  walk 4 (st64 (c1 + 8 * lidx 1 v) e (vmem s)) root w = Some (frame_of e).
Proof.
  intros Hok T3 T2 T1 He Hne Ne4 Fo4 Ne3 Fo3 Ne2 Fo2 Hg2 Hs.
  pose proof (tr_root _ _ _ Hok) as T4.
  assert (forall g LP L j, T g = Some (L, LP) -> L <> 1 -> 0 <= j < 512 ->
    entry (st64 (c1 + 8 * lidx 1 v) e (vmem s)) g j = entry (vmem s) g j) as Hle.
  { intros g LP L j HT HL Hj. apply (leaf_entry T root s c1 v e Hok T1 g (L, LP)); [done|done|].
    intros [= -> _]. rewrite T1 in HT. simplify_eq. }
  rewrite (walk_step 2 _ _ _ c3), (walk_step 1 _ _ _ c2), (walk_step 0 _ _ _ c1);
    levels; rewrite <- ?(same_page_lidx v w) by (done || lia); try (intros; lia);
    try (erewrite Hle; [done|done|lia|apply lidx_range]).
  cbn [walk]. levels. rewrite <- (same_page_lidx v w) by (done || lia).
  unfold entry. rewrite ld_st_same by done. by rewrite (proj2 (Z.eqb_neq _ _) Hne).
Qed.

(** The three intermediate levels: a last-level table for [v], reached along
    non-empty entries. *)
Lemma descend_ok n T root s v :
  tree_ok T root s -> hits_huge 4 (vmem s) root v = false -> has_free (3 + n) (falloc s) ->
  exists T' s' c3 c2 c1,
    (pdpt ← get_or_create (root + KERNEL_VMA_BASE) (lidx 4 v);
     pd ← get_or_create pdpt (lidx 3 v);
     get_or_create pd (lidx 2 v)) s = Ret (c1 + KERNEL_VMA_BASE, s') /\
    tree_ok T' root s' /\ extends v T s T' s' /\ has_free n (falloc s') /\
    T' c3 = Some (3, pfx 3 v) /\ T' c2 = Some (2, pfx 2 v) /\ T' c1 = Some (1, pfx 1 v) /\
    (entry (vmem s') root (lidx 4 v) <> 0 /\ frame_of (entry (vmem s') root (lidx 4 v)) = c3) /\
    (entry (vmem s') c3 (lidx 3 v) <> 0 /\ frame_of (entry (vmem s') c3 (lidx 3 v)) = c2) /\
    (entry (vmem s') c2 (lidx 2 v) <> 0 /\ frame_of (entry (vmem s') c2 (lidx 2 v)) = c1 /\
     huge (entry (vmem s') c2 (lidx 2 v)) = false).
Proof.
  intros Hok Hhh Hfree. pose proof (tr_root _ _ _ Hok) as T4. rewrite <- (pfx_root v) in T4.
  destruct (get_or_create_spec v T root s root 4 _ Hok T4 ltac:(lia) Hhh Hfree)
    as (Ta & sa & c3 & R4 & Oka & Exa & T3 & Hh3 & Fra & Ne4 & Fo4 & _).
  destruct (get_or_create_spec v Ta root sa c3 3 _ Oka T3 ltac:(lia) Hh3 Fra)
    as (Tb & sb & c2 & R3 & Okb & Exb & T2 & Hh2 & Frb & Ne3 & Fo3 & _).
  destruct (get_or_create_spec v Tb root sb c2 2 _ Okb T2 ltac:(lia) Hh2 Frb)
    as (Tc & sc & c1 & R2 & Okc & Exc & T1 & _ & Frc & Ne2 & Fo2 & Hg2).
  cbn [pred] in *. levels.
  exists Tc, sc, c3, c2, c1.
  assert (entry (vmem sc) root (lidx 4 v) = entry (vmem sa) root (lidx 4 v)) as E4.
  { pose proof (ex_types _ _ _ _ _ Exa _ _ T4) as T4a.
    pose proof (ex_types _ _ _ _ _ Exb _ _ T4a) as T4b.
    pose proof (ex_entry _ _ _ _ _ Exb _ _ _ T4a (lidx_range 4 v) Ne4) as Eb.
    rewrite (ex_entry _ _ _ _ _ Exc _ _ _ T4b (lidx_range 4 v)); congruence. }
  assert (entry (vmem sc) c3 (lidx 3 v) = entry (vmem sb) c3 (lidx 3 v)) as E3.
  { pose proof (ex_types _ _ _ _ _ Exb _ _ T3) as T3b.
    by rewrite (ex_entry _ _ _ _ _ Exc _ _ _ T3b (lidx_range 3 v)). }
  rewrite E4, E3. split_and!; try done.
  - unfold mbind at 1, M_bind at 1. rewrite R4. unfold mbind, M_bind. by rewrite R3.
  - by eapply extends_trans; [|eapply extends_trans].
  - by apply (ex_types _ _ _ _ _ Exc), (ex_types _ _ _ _ _ Exb).
  - by apply (ex_types _ _ _ _ _ Exc).
  - by apply Hg2.
Qed.

Lemma map_user_page_ok n T root s v p fl :
  tree_ok T root s -> hits_huge 4 (vmem s) root v = false -> has_free (3 + n) (falloc s) ->
  fits 64 p -> p mod 4096 = 0 -> fits 12 fl ->
  exists T' s', map_user_page root v p fl s = Ret (tt, s') /\
    mapped v p root T s T' s' /\ has_free n (falloc s').
Proof.
  intros Hok Hhh Hfree Hp Hpa Hfl.
  destruct (descend_ok n T root s v Hok Hhh Hfree) as (T' & s' & c3 & c2 & c1 & Hrun & Hok' & Hex &
    Hfree' & T3 & T2 & T1 & [Ne4 Fo4] & [Ne3 Fo3] & (Ne2 & Fo2 & Hg2)).
  destruct (idx_levels v) as (I4 & I3 & I2 & I1).
  set (e := Z.lor (Z.lor (Z.lor p fl) PRESENT) USER).
  assert (fits 64 e) as He.
  { repeat apply fits_lor; try done; try lia. apply (fits_mono 12); [lia|done]. }
  assert (frame_of e = p) as Hfe.
  { unfold e. rewrite <- !Z.lor_assoc. apply frame_of_flags; try done.
    apply fits_lor; [lia|done|]. by vm_compute. }
  assert (e <> 0) as Hne.
  { unfold e. intros E. apply Z.lor_eq_0_iff in E as [_ E]. by vm_compute in E. }
  exists T', (mkVm (st64 (c1 + 8 * lidx 1 v) e (vmem s')) (falloc s')).
  assert (user_present e = true) as Hue.
  { unfold user_present, e. rewrite !Z.lor_spec. by rewrite !orb_true_r. }
  pose proof (leaf_tree_ok T' root s' c1 v e Hok' T1 He Hue) as Hleaf.
  split; [|split; [constructor|done]].
  - unfold map_user_page, lift. unfold mbind at 1, M_bind at 1.
    rewrite (typed_virt _ _ _ _ _ _ Hok (tr_root _ _ _ Hok)), I4, I3, I2, I1.
    unfold mbind, M_bind in Hrun |- *.
    destruct (get_or_create _ (lidx 4 v) s) as [[? ?]| |]; [|done..].
    destruct (get_or_create _ (lidx 3 v) _) as [[? ?]| |]; [|done..].
    rewrite Hrun. unfold modify_mem. by rewrite pt_write_phys.
  - done.
  - apply Hex.
  - apply Hex.
  - apply Hex.
  - intros w. rewrite (lookup_page_walk _ _ _ w Hleaf), (lookup_page_walk _ _ _ w Hok).
    pose proof (tr_root _ _ _ Hok') as T4. rewrite <- (pfx_root w) in T4.
    case_decide as Hs.
    + f_equal. rewrite <- Hfe. eapply path_lookup; eauto.
    + f_equal. pose proof (tr_root _ _ _ Hok) as R4. rewrite <- (pfx_root w) in R4.
      rewrite <- (proj1 (ex_walk _ _ _ _ _ Hex 4 root w R4)).
      by apply (leaf_walk T' root s' c1 v e Hok' T1 4).
  - intros w. pose proof (tr_root _ _ _ Hok) as T4. rewrite <- (pfx_root w) in T4.
    rewrite <- (proj2 (ex_walk _ _ _ _ _ Hex 4 root w T4)).
    apply (leaf_walk T' root s' c1 v e Hok' T1 4). by apply (ex_types _ _ _ _ _ Hex).
  - intros x. destruct (leaf_data T' root s' c1 v e Hok' T1 x) as [Hx|Hx]; simpl in Hx |- *.
    + rewrite Hx. apply Hex.
    + destruct (ex_new _ _ _ _ _ Hex _ _ Hx) as [|]; [|by auto]. right; right. by exists 1.
Qed.


(** *** A mapping through a huge page

    [map_user_page] tests the directory entry for zero only.  An entry that
    maps a 2 MB page is followed as if it led to a page table: the new entry is
    stored into the first 4 KB of the 2 MB page's own memory. *)
Lemma map_huge_ok T root s v p fl e3 e2 :
  tree_ok T root s -> entry (vmem s) root (lidx 4 v) = e3 -> e3 <> 0 ->
  entry (vmem s) (frame_of e3) (lidx 3 v) = e2 -> e2 <> 0 ->
  let e := entry (vmem s) (frame_of e2) (lidx 2 v) in
  e <> 0 -> huge e = true -> frame_of e < 2 ^ 31 ->
  map_user_page root v p fl s =
    Ret (tt, mkVm (st64 (frame_of e + 8 * lidx 1 v) (Z.lor (Z.lor (Z.lor p fl) PRESENT) USER) (vmem s))
                  (falloc s)).
Proof.
  intros Hok E4 N4 E3 N3 e N2 Hh Hr. destruct (idx_levels v) as (I4 & I3 & I2 & I1).
  pose proof (tr_root _ _ _ Hok) as T4.
  pose proof (tree_child _ _ _ _ _ _ (lidx 4 v) Hok T4 ltac:(lia) (lidx_range 4 v)) as T3.
  rewrite E4 in T3. specialize (T3 N4 ltac:(lia)).
  pose proof (tree_child _ _ _ _ _ _ (lidx 3 v) Hok T3 ltac:(lia) (lidx_range 3 v)) as T2.
  rewrite E3 in T2. specialize (T2 N3 ltac:(lia)).
  assert (0 <= frame_of e) as H0.
  { assert (fits 64 e) as He by apply (ld_fits 8), (tr_mem _ _ _ Hok).
    rewrite frame_of_div by done. destruct He. dm_lia. }
  unfold map_user_page, lift. unfold mbind, M_bind.
  rewrite (typed_virt _ _ _ _ _ _ Hok T4), I4, I3, I2, I1.
  rewrite (get_or_create_present T root s root _ _ _ Hok T4); rewrite ?E4;
    [|done|by eapply typed_virt].
  rewrite (get_or_create_present T root s (frame_of e3) _ _ _ Hok T3); rewrite ?E3;
    [|done|by eapply typed_virt].
  rewrite (get_or_create_present T root s (frame_of e2) _ _ _ Hok T2);
    [|done|by apply phys_to_virt_ok].
  unfold modify_mem. by rewrite pt_write_phys.
Qed.


(** *** Stores to data pages do not disturb the tables *)

Section data.
Context (T : Typing) (root : Z) (s : Vm St) (m' : mem).
Context (Hok : tree_ok T root s) (Hm' : mem_ok m').
Context (Hsame : forall x, is_Some (T (page x)) -> m' x = vmem s x).

Lemma data_entry f LP i : T f = Some LP -> 0 <= i < 512 -> entry m' f i = entry (vmem s) f i.
Proof.
  intros HT Hi. destruct LP as [L P]. destruct (tr_frame _ _ _ Hok _ _ _ HT) as (Ha & _).
  apply ld_ext. intros x Hx. apply Hsame. rewrite (page_of_slot f i) by done. by rewrite HT.
Qed.

Lemma data_tree_ok : tree_ok T root (mkVm m' (falloc s)).
Proof.
  constructor; simpl; try apply Hok; [done| |].
  - intros f L P i HT HL Hi. rewrite (data_entry f (L, P)) by done. by apply (tr_entry _ _ _ Hok).
  - intros f P i HT Hi. rewrite (data_entry f (1, P)) by done. by apply (tr_leaf _ _ _ Hok f P).
Qed.

Lemma data_walk (K : nat) g w :
  T g = Some (Z.of_nat K, pfx (Z.of_nat K) w) ->
  walk K m' g w = walk K (vmem s) g w /\ hits_huge K m' g w = hits_huge K (vmem s) g w.
Proof.
  revert g. induction K as [|K IH]; intros g HT; [done|]. cbn [walk hits_huge].
  pose proof (lidx_range (Z.of_nat (S K)) w) as Hli. rewrite (data_entry g _ _ HT Hli).
  destruct (Z.eqb_spec (entry (vmem s) g (lidx (Z.of_nat (S K)) w)) 0) as [|Hnz]; [done|].
  destruct K as [|K]; [done|]. destruct ((S (S K) =? 2)%nat && huge _) eqn:Hh; [done|].
  apply IH. pose proof (tr_frame _ _ _ Hok _ _ _ HT) as (_ & _ & HKr & _).
  rewrite (tree_child _ _ _ _ _ _ _ Hok HT) by (done || lia ||
    (intros HK; replace K with 0%nat in * by lia; simpl in Hh; done)).
  replace (Z.of_nat (S K)) with (Z.of_nat (S (S K)) - 1) by lia. by rewrite pfx_step by lia.
Qed.

Lemma data_lookup w : lookup_page root w m' = lookup_page root w (vmem s).
Proof.
  change m' with (vmem (mkVm m' (falloc s))) at 1.
  rewrite (lookup_page_walk _ _ _ w data_tree_ok), (lookup_page_walk _ _ _ w Hok). f_equal.
  pose proof (tr_root _ _ _ Hok) as T4. rewrite <- (pfx_root w) in T4.
  exact (proj1 (data_walk 4 root w T4)).
Qed.

Lemma data_huge w : hits_huge 4 m' root w = hits_huge 4 (vmem s) root w.
Proof.
  pose proof (tr_root _ _ _ Hok) as T4. rewrite <- (pfx_root w) in T4.
  exact (proj2 (data_walk 4 root w T4)).
Qed.
End data.

End tree.

(** ** Properties *)

(** C1: with three free frames and no 2 MB page in the way, [map_user_page]
    returns, keeps the tree well formed, makes [lookup_page] answer the new
    frame on the page of [v] and exactly what it answered before everywhere
    else, and writes only to frames that were free and to the page tables on
    the path of [v]: data pages and all other tables keep their bytes. *)
Theorem map_user_page_spec {St : Type} `{FrameAllocator St}
    (n : nat) (T : Typing) (root : Z) (s : Vm St) (v p fl : Z)
    (Hok : tree_ok T root s) (Hhuge : hits_huge 4 (vmem s) root v = false)
    (Hfree : has_free (3 + n) (falloc s))
    (Hp : fits 64 p) (Hpa : p mod 4096 = 0) (Hfl : fits 12 fl) :
  exists T' s', map_user_page root v p fl s = Ret (tt, s') /\ has_free n (falloc s') /\
    tree_ok T' root s' /\
    (forall w, lookup_page root w (vmem s') =
       if decide (same_page v w) then Ret (Some p) else lookup_page root w (vmem s)) /\
    (forall w, hits_huge 4 (vmem s') root w = hits_huge 4 (vmem s) root w) /\
    (forall x, vmem s' x = vmem s x \/ fa_free (falloc s) (page x) \/
       exists L, T (page x) = Some (L, pfx L v)).
Proof.
  destruct (map_user_page_ok n T root s v p fl Hok Hhuge Hfree Hp Hpa Hfl) as (T' & s' & Hr & Hm & Hn).
  exists T', s'. destruct Hm. split_and!; done.
Qed.

(** when the directory entry of [v] maps a 2 MB page, [map_user_page]
    takes the page for a page table: it stores the new entry into the first
    4 KB of the memory the huge page maps, at the offset of the table index,
    and makes no mapping. *)
Theorem map_user_page_into_huge {St : Type} `{FrameAllocator St}
    (T : Typing) (root : Z) (s : Vm St) (v p fl e3 e2 e : Z)
    (Hok : tree_ok T root s)
    (H4 : entry (vmem s) root (lidx 4 v) = e3) (N4 : e3 <> 0)
    (H3 : entry (vmem s) (frame_of e3) (lidx 3 v) = e2) (N3 : e2 <> 0)
    (H2 : entry (vmem s) (frame_of e2) (lidx 2 v) = e) (N2 : e <> 0)
    (Hh : huge e = true) (Hr : frame_of e < 2 ^ 31) (HT : T (frame_of e) = None) :
  exists s', map_user_page root v p fl s = Ret (tt, s') /\
    ld64 (vmem s') (frame_of e + 8 * lidx 1 v) =
      Z.lor (Z.lor (Z.lor p fl) PRESENT) USER mod 2 ^ 64 /\
    lookup_page root v (vmem s') = Ret None.
Proof.
  subst e3 e2 e. eexists. split; [by eapply map_huge_ok|]. simpl vmem.
  set (e := entry _ _ (lidx 2 v)) in *. set (q := Z.lor (Z.lor (Z.lor p fl) PRESENT) USER).
  assert (0 <= frame_of e /\ frame_of e mod 4096 = 0) as [H0 Ha].
  { assert (fits 64 e) as He by apply (ld_fits 8), (tr_mem _ _ _ Hok).
    rewrite frame_of_div by done. destruct He. dm_lia. }
  split.
  - rewrite (st_mod 8). apply ld_st_same. by apply fits_mod.
  - rewrite (data_lookup T root s), (lookup_page_walk _ _ _ _ Hok).
    + f_equal. cbn [walk]. levels. fold e. rewrite (proj2 (Z.eqb_neq _ _) N4), (proj2 (Z.eqb_neq _ _) N3).
      simpl andb. rewrite (proj2 (Z.eqb_neq _ _) N2), Hh. done.
    + done.
    + by apply st_ok, (tr_mem _ _ _ Hok).
    + intros x [LP Hx]. apply st_bytes_out. rewrite length_le_bytes.
      pose proof (lidx_range 1 v).
      destruct (decide (frame_of e + 8 * lidx 1 v <= x < frame_of e + 8 * lidx 1 v + 8)); [|simpl; lia].
      rewrite (page_of_slot (frame_of e) (lidx 1 v)) in Hx by done. congruence.
Qed.

(** ** Witnesses *)

Lemma demo_used p : p = 1 \/ p = 9 \/ p = 10 -> ~ frame_free demo_pmm (p * PAGE_SIZE).
Proof.
  intros Hp [_ [_ Hf]%elem_of_free_set].
  destruct Hp as [->|[->| ->]]; vm_compute in Hf; discriminate.
Qed.

Lemma demo_free p : p = 3 \/ p = 4 \/ p = 5 -> frame_free demo_pmm (p * PAGE_SIZE).
Proof.
  intros Hp. split; [by rewrite Z.mod_mul|]. apply elem_of_free_set.
  destruct Hp as [->|[->| ->]]; (split; [vm_compute; split; congruence|vm_compute; reflexivity]).
Qed.

Lemma demo_has_free : has_free 3 demo_pmm.
Proof.
  exists [3 * PAGE_SIZE; 4 * PAGE_SIZE; 5 * PAGE_SIZE]. split_and!; [|done|].
  - repeat (apply NoDup_cons; split; [unfold PAGE_SIZE; set_solver|]). by apply NoDup_nil.
  - rewrite !Forall_cons. split_and!; [..|by apply Forall_nil]; apply demo_free; auto.
Qed.

Lemma root_only_ok (m : mem) :
  mem_ok m -> (forall i, 0 <= i < 512 -> entry m 0x1000 i = 0) ->
  tree_ok (fun g => if decide (g = 0x1000) then Some (4, 0) else None) 0x1000 (mkVm m demo_pmm).
Proof.
  intros Hm Hz. constructor; simpl; [apply demo_pmm_ok|done|done| | |].
  - intros f L P HT. case_decide; simplify_eq. split_and!; try done; try lia. apply (demo_used 1). auto.
  - intros f L P i HT _ Hi. case_decide; simplify_eq. left. by apply Hz.
  - intros f P i HT Hi. case_decide; simplify_eq.
Qed.

Lemma zero_entry f i : entry (fun _ => 0) f i = 0.
Proof. done. Qed.

Lemma zero_mem_ok : mem_ok (fun _ => 0).
Proof. intros a. by vm_compute. Qed.

Lemma map_user_page_spec_witness :
  exists s', map_user_page 0x1000 0x400123 0x9000 6 (mkVm (fun _ => 0) demo_pmm) = Ret (tt, s') /\
    lookup_page 0x1000 0x400fff (vmem s') = Ret (Some 0x9000).
Proof.
  destruct (map_user_page_spec 0 (fun g => if decide (g = 0x1000) then Some (4, 0) else None)
    0x1000 (mkVm (fun _ => 0) demo_pmm) 0x400123 0x9000 6) as (T' & s' & Hrun & _ & _ & Hl & _).
  - apply root_only_ok; [exact zero_mem_ok|intros; apply zero_entry].
  - reflexivity.
  - exact demo_has_free.
  - unfold fits; lia.
  - reflexivity.
  - unfold fits; lia.
  - exists s'. split; [exact Hrun|]. rewrite Hl. rewrite decide_True; reflexivity.
Defined.

(** A root, two tables and a 2 MB page at 0xE00000. *)
Definition huge_typing : Typing := fun g =>
  if decide (g = 0x1000) then Some (4, 0) else if decide (g = 0x9000) then Some (3, 0)
  else if decide (g = 0xA000) then Some (2, 0) else None.

Definition huge_mem : mem :=
  st64 0x1000 0x9007 (st64 0x9000 0xA007 (st64 (0xA000 + 8 * 7) 0xE00087 (fun _ => 0))).

Lemma huge_mem_ok fa :
  pmm_ok fa -> (forall p, p = 1 \/ p = 9 \/ p = 10 -> ~ frame_free fa (p * PAGE_SIZE)) ->
  tree_ok huge_typing 0x1000 (mkVm huge_mem fa).
Proof.
  intros Hfa Hused.
  assert (forall f i, f mod 4096 = 0 -> 0 <= i < 512 -> entry huge_mem f i =
    if decide (f = 0x1000 /\ i = 0) then 0x9007 else if decide (f = 0x9000 /\ i = 0) then 0xA007
    else if decide (f = 0xA000 /\ i = 7) then 0xE00087 else 0) as He.
  { intros f i Ha Hi. unfold huge_mem.
    destruct (decide (f = 0x1000 /\ i = 0)) as [[-> ->]|N1]; [reflexivity|].
    change (st64 0x1000) with (st64 (0x1000 + 8 * 0)). rewrite entry_st_ne; try done; [|naive_solver].
    destruct (decide (f = 0x9000 /\ i = 0)) as [[-> ->]|N2]; [reflexivity|].
    change (st64 0x9000) with (st64 (0x9000 + 8 * 0)). rewrite entry_st_ne; try done; [|naive_solver].
    destruct (decide (f = 0xA000 /\ i = 7)) as [[-> ->]|N3]; [reflexivity|].
    rewrite entry_st_ne; try done. naive_solver. }
  constructor; simpl; [done|by repeat apply st_ok; apply zero_mem_ok|done| | |].
  - intros f L P HT. unfold huge_typing in HT. repeat case_decide; simplify_eq; split_and!; try done; try lia.
    + apply (Hused 1). auto.
    + apply (Hused 9). auto.
    + apply (Hused 10). auto.
  - intros f L P i HT HL Hi. unfold huge_typing in HT.
    repeat case_decide; simplify_eq; rewrite He by done; repeat case_decide; try (by left); try lia.
    + right; right. by destruct_and?; subst.
    + right; right. by destruct_and?; subst.
    + right; left. done.
  - intros f P i HT Hi. unfold huge_typing in HT. repeat case_decide; simplify_eq.
Qed.

Lemma map_user_page_into_huge_witness :
  exists s', map_user_page 0x1000 0xE05000 0x3000 6 (mkVm huge_mem demo_pmm) = Ret (tt, s') /\
    ld64 (vmem s') (0xE00000 + 8 * 5) = 0x3007 /\ lookup_page 0x1000 0xE05000 (vmem s') = Ret None.
Proof.
  apply (map_user_page_into_huge huge_typing 0x1000 (mkVm huge_mem demo_pmm) 0xE05000 0x3000 6
    0x9007 0xA007 0xE00087 (huge_mem_ok _ demo_pmm_ok demo_used)); first [reflexivity | discriminate].
Defined.
