(* ===== verification/Spaces.v ===== *)
(** * Building address spaces ([ross-kernel/src/paging.rs])

    [paging::init] fills the static tables, [create_user_address_space] makes
    the tables of a process.  What they mean is stated against [translate], the
    translation the processor makes. *)

From S2P Require Import Prelude Bytes Frames Pmm Paging.

(** Virtual addresses of the static tables, chosen by the linker. *)
Record Statics := mkStatics {
  PML4 : Z;
  PDPT_LOW : Z;
  PDPT_HIGH : Z;
  PD : Z -> Z
}.

(** A loop that stores [f i] into the entries [i] of a table where [f i] is
    given, and [continue]s elsewhere.
    @src ross-kernel/src/paging.rs 141-151 create_user_address_space *)
Definition fill_entries (tbl : Z) (f : Z -> option Z) (m : mem) : mem :=
  foldl (fun m i => match f i with Some v => pt_write tbl i v m | None => m end) m (seqZ 0 512).

(** [x | PRESENT | WRITABLE | USER]. *)
Definition pwu (x : Z) : Z := Z.lor (Z.lor (Z.lor x PRESENT) WRITABLE) USER.

(** The index of [PDPT_HIGH] the directory [i] is stored at.
    @src ross-kernel/src/paging.rs 62-73 init *)
Definition high_slot (i : Z) : Z :=
  if i =? 0 then 510 else if i =? 1 then 511 else if i =? 2 then 508 else 509.

(** One round of the loop that links the four page directories.
    @src ross-kernel/src/paging.rs 58-74 init *)
Definition init_link (st : Statics) (i : Z) (m : mem) : outcome mem :=
  pd_phys ← csub (PD st i) KERNEL_VMA_BASE;
  mret (pt_write (PDPT_HIGH st) (high_slot i) (pwu pd_phys) (pt_write (PDPT_LOW st) i (pwu pd_phys) m)).

(** @src ross-kernel/src/paging.rs 76-82 init *)
Definition init_pd (st : Statics) (pd_idx : Z) (m : mem) : mem :=
  let base_phys := pd_idx * 0x40000000 in
  fill_entries (PD st pd_idx) (fun entry =>
    Some (Z.lor (Z.lor (Z.lor (Z.lor (base_phys + entry * 0x200000) PRESENT) WRITABLE) HUGE_PAGE) USER)) m.

(** The new contents of memory and the value loaded into CR3.
    @src ross-kernel/src/paging.rs 46-87 init *)
Definition init (st : Statics) (m : mem) : outcome (mem * Z) :=
  pdpt_low_phys ← csub (PDPT_LOW st) KERNEL_VMA_BASE;
  pdpt_high_phys ← csub (PDPT_HIGH st) KERNEL_VMA_BASE;
  let m := pt_write (PML4 st) 0 (pwu pdpt_low_phys) m in
  let m := pt_write (PML4 st) 511 (pwu pdpt_high_phys) m in
  m ← init_link st 0 m;
  m ← init_link st 1 m;
  m ← init_link st 2 m;
  m ← init_link st 3 m;
  pml4_phys ← csub (PML4 st) KERNEL_VMA_BASE;
  mret (init_pd st 3 (init_pd st 2 (init_pd st 1 (init_pd st 0 m))), pml4_phys).

Section spaces.
Context {St : Type} `{FrameAllocator St}.

(** [alloc_page().expect(..)] and [entries.fill(0)]: physical and virtual
    address of a zeroed table. *)
Definition new_table : M (Vm St) (Z * Z) :=
  phys ← expect_frame;
  ptr ← lift (phys_to_virt phys);
  modify_mem (pt_clear ptr);;
  mret (phys, ptr).

(** The entry of a 2 MB page; the 4 MB mark is left out.
    @src ross-kernel/src/paging.rs 144-150 create_user_address_space *)
Definition user_pd_entry (pdpt_idx pd_idx : Z) : option Z :=
  if (pdpt_idx =? 0) && (pd_idx =? 2) then None
  else
    let phys_addr := (pdpt_idx * 512 + pd_idx) * 0x200000 in
    Some (Z.lor (Z.lor (Z.lor phys_addr 0x80) 0x2) 0x1).

(** One round of the loop: a directory of 2 MB pages, linked into [pdpt].
    @src ross-kernel/src/paging.rs 136-155 create_user_address_space *)
Definition map_gb (pdpt pdpt_idx : Z) : M (Vm St) unit :=
  '(pd_phys, pd) ← new_table;
  modify_mem (fill_entries pd (user_pd_entry pdpt_idx));;
  modify_mem (pt_write pdpt pdpt_idx (Z.lor (Z.lor (Z.lor pd_phys 0x4) 0x2) 0x1)).

(** @src ross-kernel/src/paging.rs 136-155 create_user_address_space *)
Fixpoint map_gbs (pdpt : Z) (pdpt_idxs : list Z) : M (Vm St) unit :=
  match pdpt_idxs with
  | [] => mret tt
  | pdpt_idx :: rest => map_gb pdpt pdpt_idx;; map_gbs pdpt rest
  end.

(** @src ross-kernel/src/paging.rs 120-160 create_user_address_space *)
Definition create_user_address_space (st : Statics) : M (Vm St) Z :=
  '(pml4_phys, pml4) ← new_table;
  s ← get;
  modify_mem (pt_write pml4 511 (pt_read (vmem s) (PML4 st) 511));;
  '(pdpt_phys, pdpt) ← new_table;
  map_gbs pdpt (seqZ 0 4);;
  modify_mem (pt_write pml4 0 (Z.lor (Z.lor (Z.lor pdpt_phys 0x4) 0x2) 0x1));;
  mret pml4_phys.

(** @src ross-kernel/src/paging.rs 89-118 create_user_address_space_old *)
Definition create_user_address_space_old (st : Statics) : M (Vm St) Z :=
  '(pml4_phys, pml4) ← new_table;
  s ← get;
  modify_mem (pt_write pml4 511 (pt_read (vmem s) (PML4 st) 511));;
  '(pdpt_phys, pdpt) ← new_table;
  '(pd_phys, pd) ← new_table;
  modify_mem (pt_write pd 0 (Z.lor (Z.lor (Z.lor 0 PRESENT) WRITABLE) HUGE_PAGE));;
  modify_mem (pt_write pdpt 0 (Z.lor (Z.lor pd_phys PRESENT) WRITABLE));;
  modify_mem (pt_write pml4 0 (Z.lor (Z.lor pdpt_phys PRESENT) WRITABLE));;
  mret pml4_phys.

End spaces.

(** ** The processor's walk *)

(** The physical address of [v] and whether user mode may access it. *)
Fixpoint translate (L : nat) (m : mem) (f v : Z) : option (Z * bool) :=
  match L with
  | O => None
  | S L' =>
      let e := entry m f (lidx (Z.of_nat L) v) in
      let size := 2 ^ (12 + 9 * Z.of_nat L') in
      let user := Z.testbit e 2 in
      if negb (Z.testbit e 0) then None
      else match L' with
           | O => Some (frame_of e + v mod 4096, user)
           | _ => if (L <=? 3)%nat && huge e then Some (e / size * size + v mod size, user)
                  else '(p, u) ← translate L' m (frame_of e) v; Some (p, user && u)
           end
  end.

Lemma translate_4 m f v :
  translate 4 m f v =
    let e := entry m f (lidx 4 v) in
    if negb (Z.testbit e 0) then None
    else '(p, u) ← translate 3 m (frame_of e) v; Some (p, Z.testbit e 2 && u).
Proof. done. Qed.

Lemma fits_lor7 c : 0 <= c < 2 ^ 31 -> fits 64 (Z.lor c 7).
Proof. intros. apply fits_lor; [lia|by apply frame_fits64|by vm_compute]. Qed.

Lemma translate_3 m f v :
  translate 3 m f v =
    let e := entry m f (lidx 3 v) in
    if negb (Z.testbit e 0) then None
    else if huge e then Some (e / 2 ^ 30 * 2 ^ 30 + v mod 2 ^ 30, Z.testbit e 2)
    else '(p, u) ← translate 2 m (frame_of e) v; Some (p, Z.testbit e 2 && u).
Proof. done. Qed.

Lemma translate_2 m f v :
  translate 2 m f v =
    let e := entry m f (lidx 2 v) in
    if negb (Z.testbit e 0) then None
    else if huge e then Some (e / 2 ^ 21 * 2 ^ 21 + v mod 2 ^ 21, Z.testbit e 2)
    else '(p, u) ← translate 1 m (frame_of e) v; Some (p, Z.testbit e 2 && u).
Proof. done. Qed.

(** *** The processor agrees with [lookup_page] on mapped pages *)

Section agree.
Context {St : Type} {FA : FrameAllocator St}.

Lemma walk_translate T root (s : Vm St) (K : nat) g v p :
  tree_ok T root s -> T g = Some (Z.of_nat K, pfx (Z.of_nat K) v) ->
  walk K (vmem s) g v = Some p -> translate K (vmem s) g v = Some (p + v mod 4096, true).
Proof.
  intros Hok. revert g. induction K as [|K IH]; intros g HT; [done|]. cbn [walk translate].
  pose proof (lidx_range (Z.of_nat (S K)) v) as Hli.
  set (e := entry (vmem s) g (lidx (Z.of_nat (S K)) v)) in *.
  destruct (Z.eqb_spec e 0) as [|Hnz]; [done|]. destruct K as [|K].
  - intros [= <-]. destruct (tr_leaf _ _ _ Hok g _ _ HT Hli) as [|Hu]; [done|].
    apply andb_prop in Hu as [Hu0 Hu2]. levels. fold e in Hu0, Hu2. by rewrite Hu0, Hu2.
  - destruct ((S (S K) =? 2)%nat && huge e) eqn:Hh; [done|]. intros Hw.
    pose proof (tr_frame _ _ _ Hok _ _ _ HT) as (_ & _ & HKr & _).
    destruct (tr_entry _ _ _ Hok _ _ _ _ HT ltac:(lia) Hli) as [?|[[HL2 Hhu]|(HTe & Hh2 & Hu)]]; [done| |].
    { fold e in Hhu. assert (K = 0%nat) as -> by lia. by rewrite Hhu in Hh. }
    apply andb_prop in Hu as [Hu0 Hu2]. fold e in Hu0, Hu2, HTe, Hh2. rewrite Hu0, Hu2. cbn [negb].
    assert ((S (S K) <=? 3)%nat && huge e = false) as ->.
    { destruct (Nat.leb_spec (S (S K)) 3); [|done]. rewrite Hh2 by lia. done. }
    rewrite (IH (frame_of e)); [done| |done]. rewrite HTe.
    replace (Z.of_nat (S K)) with (Z.of_nat (S (S K)) - 1) by lia. by rewrite pfx_step by lia.
Qed.

Lemma lookup_translate T root (s : Vm St) v p :
  tree_ok T root s -> lookup_page root v (vmem s) = Ret (Some p) ->
  translate 4 (vmem s) root v = Some (p + v mod 4096, true).
Proof.
  intros Hok Hl. rewrite (lookup_page_walk _ _ _ _ Hok) in Hl. injection Hl as Hw.
  pose proof (tr_root _ _ _ Hok) as T4. rewrite <- (pfx_root v) in T4.
  by apply (walk_translate T root s 4).
Qed.
End agree.

(** ** Tables after stores *)

Lemma entry_write f i v m g j :
  f mod 4096 = 0 -> g mod 4096 = 0 -> 0 <= i < 512 -> 0 <= j < 512 -> fits 64 v ->
  entry (pt_write (f + KERNEL_VMA_BASE) i v m) g j =
    if decide (g = f) then if decide (j = i) then v else entry m g j else entry m g j.
Proof.
  intros Hf Hg Hi Hj Hv. rewrite pt_write_phys. repeat case_decide; subst.
  - by apply entry_st_same.
  - apply entry_st_ne; try done. congruence.
  - apply entry_st_ne; try done. congruence.
Qed.

Lemma entry_clear f m g j :
  f mod 4096 = 0 -> g mod 4096 = 0 -> 0 <= j < 512 ->
  entry (pt_clear (f + KERNEL_VMA_BASE) m) g j = if decide (g = f) then 0 else entry m g j.
Proof.
  intros Hf Hg Hj. rewrite pt_clear_phys. case_decide; subst.
  - apply ld_fill_zero; simpl Z.of_nat; lia.
  - apply ld_fill_ne. pose proof (aligned_disjoint g f Hg Hf). simpl Z.of_nat. lia.
Qed.

Lemma write_data f i v m x :
  f mod 4096 = 0 -> 0 <= i < 512 -> page x <> f -> pt_write (f + KERNEL_VMA_BASE) i v m x = m x.
Proof.
  intros Hf Hi Hx. rewrite pt_write_phys. apply st_bytes_out. rewrite length_le_bytes.
  destruct (decide (f + 8 * i <= x < f + 8 * i + 8)); [|simpl; lia].
  exfalso. by apply Hx, (page_of_slot f i).
Qed.

Lemma clear_data f m x :
  f mod 4096 = 0 -> page x <> f -> pt_clear (f + KERNEL_VMA_BASE) m x = m x.
Proof.
  intros Hf Hx. rewrite pt_clear_phys. apply fill_out.
  destruct (decide (f <= x < f + 4096)); [|lia]. exfalso. by apply Hx, page_in.
Qed.

Lemma foldl_entries f (g : Z -> option Z) l m :
  f mod 4096 = 0 -> Forall (fun i => 0 <= i < 512) l -> (forall i v, 0 <= i < 512 -> g i = Some v -> fits 64 v) ->
  let m' := foldl (fun m i => match g i with
                              | Some v => pt_write (f + KERNEL_VMA_BASE) i v m | None => m end) m l in
  (mem_ok m -> mem_ok m') /\ (forall x, page x <> f -> m' x = m x) /\
  forall h j, h mod 4096 = 0 -> 0 <= j < 512 ->
    entry m' h j = if decide (h = f) then if decide (j ∈ l) then default (entry m h j) (g j)
                                          else entry m h j
                   else entry m h j.
Proof.
  intros Hf Hl Hg. induction l as [|i l IH] using rev_ind.
  - split_and!; [done..|]. intros. repeat case_decide; try done. set_solver.
  - apply Forall_app in Hl as [Hl Hi]. apply Forall_cons in Hi as [Hi _]. destruct (IH Hl) as (IH1 & IH2 & IH3).
    rewrite foldl_app. cbn [foldl]. destruct (g i) as [v|] eqn:Hgi; split_and!; auto.
    + intros. by apply st_ok, IH1.
    + intros. rewrite write_data by done. by apply IH2.
    + intros h j Hh Hj. rewrite entry_write, IH3 by eauto.
      repeat case_decide; subst; rewrite ?Hgi; try done; set_solver.
    + intros h j Hh Hj. rewrite IH3 by done. repeat case_decide; subst; rewrite ?Hgi; try done.
      * set_solver.
      * assert (j = i) as -> by set_solver. by rewrite Hgi.
Qed.

Lemma fill_entries_spec f g m :
  f mod 4096 = 0 -> (forall i v, 0 <= i < 512 -> g i = Some v -> fits 64 v) ->
  (mem_ok m -> mem_ok (fill_entries (f + KERNEL_VMA_BASE) g m)) /\
  (forall x, page x <> f -> fill_entries (f + KERNEL_VMA_BASE) g m x = m x) /\
  forall h j, h mod 4096 = 0 -> 0 <= j < 512 ->
    entry (fill_entries (f + KERNEL_VMA_BASE) g m) h j =
      if decide (h = f) then default (entry m h j) (g j) else entry m h j.
Proof.
  intros Hf Hg. destruct (foldl_entries f g (seqZ 0 512) m Hf) as (A & B & C); [|done|].
  - apply Forall_forall. intros i Hi%elem_of_seqZ. lia.
  - split_and!; [done|done|]. intros h j Hh Hj. unfold fill_entries. rewrite C by done.
    case_decide; [|done]. rewrite decide_True; [done|]. apply elem_of_seqZ. lia.
Qed.

(** ** A new address space *)

Section space_lemmas.
Context {St : Type} {FA : FrameAllocator St}.

Definition vm_ok (s : Vm St) : Prop := fa_ok (falloc s) /\ mem_ok (vmem s).

(** A frame taken from the allocator while running from [s] to [s']. *)
Definition taken (s s' : Vm St) (c : Z) : Prop :=
  c mod 4096 = 0 /\ 0 <= c < 2 ^ 30 /\ fa_free (falloc s) c /\ ~ fa_free (falloc s') c.

Definition shrinks (s s' : Vm St) : Prop := forall b, fa_free (falloc s') b -> fa_free (falloc s) b.

Lemma taken_weaken s0 s1 s2 s3 c :
  shrinks s0 s1 -> shrinks s2 s3 -> taken s1 s2 c -> taken s0 s3 c.
Proof. unfold shrinks, taken. naive_solver. Qed.

(** Frames taken one after the other are different. *)
Lemma taken_ne s s1 s' c d : taken s s1 c -> taken s1 s' d -> c <> d.
Proof. unfold taken. intros (_ & _ & _ & Hc) (_ & _ & Hd & _). by intros ->. Qed.

Lemma new_table_spec n s :
  vm_ok s -> has_free (S n) (falloc s) ->
  exists c s', new_table s = Ret ((c, c + KERNEL_VMA_BASE), s') /\ vm_ok s' /\
    taken s s' c /\ shrinks s s' /\ has_free n (falloc s') /\
    (forall g j, g mod 4096 = 0 -> 0 <= j < 512 ->
       entry (vmem s') g j = if decide (g = c) then 0 else entry (vmem s) g j) /\
    (forall x, page x <> c -> vmem s' x = vmem s x).
Proof.
  intros [Hfa Hm] Hn. destruct (has_free_S _ _ Hfa Hn) as (c & fa' & Hal & Hn').
  destruct (fa_alloc_some _ _ _ Hfa Hal) as (Hfa' & Hc & Hiff).
  pose proof (fa_free_range _ _ Hfa Hc) as Hcr. pose proof (fa_free_aligned _ _ Hfa Hc) as Hca.
  exists c, (mkVm (fill c 0 4096 (vmem s)) fa'). split_and!; simpl.
  - unfold new_table, mbind, M_bind, lift, modify_mem. rewrite (expect_frame_some _ _ _ Hal).
    rewrite phys_to_virt_ok by lia. simpl. by rewrite pt_clear_phys.
  - split; [done|]. by apply fill_ok; [vm_compute|].
  - split_and!; try done; try lia. simpl. rewrite Hiff. naive_solver.
  - intros b. simpl. rewrite Hiff. naive_solver.
  - done.
  - intros. rewrite <- pt_clear_phys. by apply entry_clear.
  - intros. rewrite <- pt_clear_phys. by apply clear_data.
Qed.

Lemma user_pd_fits i : 0 <= i < 4 ->
  forall j v, 0 <= j < 512 -> user_pd_entry i j = Some v -> fits 64 v.
Proof.
  intros Hi j v Hj Hv. unfold user_pd_entry in Hv. case_match; simplify_eq.
  do 3 (apply fits_lor; [lia| |unfold fits; lia]).
  unfold fits. change (2 ^ 64) with 18446744073709551616. lia.
Qed.

Lemma map_gb_spec n i pf s :
  vm_ok s -> has_free (S n) (falloc s) -> 0 <= i < 4 -> pf mod 4096 = 0 -> ~ fa_free (falloc s) pf ->
  exists c s', map_gb (pf + KERNEL_VMA_BASE) i s = Ret (tt, s') /\ vm_ok s' /\
    taken s s' c /\ shrinks s s' /\ has_free n (falloc s') /\ c <> pf /\
    (forall h j, h mod 4096 = 0 -> 0 <= j < 512 -> entry (vmem s') h j =
       if decide (h = pf) then if decide (j = i) then Z.lor c 7 else entry (vmem s) h j
       else if decide (h = c) then default 0 (user_pd_entry i j) else entry (vmem s) h j) /\
    (forall x, page x <> pf -> page x <> c -> vmem s' x = vmem s x).
Proof.
  intros Hok Hn Hir Hpf Hpfn.
  destruct (new_table_spec _ s Hok Hn) as (c & s1 & Hrun & Hok1 & Htk & Hsh & Hn1 & He1 & Hd1).
  pose proof Htk as (Hca & Hcr & Hcf & Hcf1).
  assert (c <> pf) as Hcpf by congruence.
  destruct (fill_entries_spec c (user_pd_entry i) (vmem s1) Hca (user_pd_fits i Hir)) as (F1 & F2 & F3).
  assert (fits 64 (Z.lor c 7)) as H7.
  { apply fits_lor7. lia. }
  exists c, (mkVm (pt_write (pf + KERNEL_VMA_BASE) i (Z.lor c 7)
               (fill_entries (c + KERNEL_VMA_BASE) (user_pd_entry i) (vmem s1))) (falloc s1)).
  split_and!; try done; simpl.
  - unfold map_gb, mbind, M_bind, modify_mem. rewrite Hrun. simpl. by rewrite <- !Z.lor_assoc.
  - split; [apply Hok1|]. by apply st_ok, F1, Hok1.
  - intros h j Hh Hj. rewrite entry_write, F3, He1 by (done || lia).
    repeat case_decide; subst; done.
  - intros x Hx1 Hx2. by rewrite write_data, F2, Hd1 by (done || lia).
Qed.

(** The directories are linked into [pf] in the order of the list. *)
Lemma map_gbs_spec n idxs pf s :
  vm_ok s -> has_free (length idxs + n) (falloc s) -> NoDup idxs ->
  Forall (fun i => 0 <= i < 4) idxs -> pf mod 4096 = 0 -> ~ fa_free (falloc s) pf ->
  exists s' (pds : Z -> Z), map_gbs (pf + KERNEL_VMA_BASE) idxs s = Ret (tt, s') /\ vm_ok s' /\
    shrinks s s' /\ has_free n (falloc s') /\
    (forall i, i ∈ idxs -> taken s s' (pds i)) /\
    (forall i j, i ∈ idxs -> j ∈ idxs -> pds i = pds j -> i = j) /\
    (forall j, 0 <= j < 512 ->
       entry (vmem s') pf j = if decide (j ∈ idxs) then Z.lor (pds j) 7 else entry (vmem s) pf j) /\
    (forall i j, i ∈ idxs -> 0 <= j < 512 ->
       entry (vmem s') (pds i) j = default 0 (user_pd_entry i j)) /\
    (forall x, page x <> pf -> (forall i, i ∈ idxs -> page x <> pds i) -> vmem s' x = vmem s x).
Proof.
  revert s. induction idxs as [|i idxs IH]; intros s Hok Hn Hnd Hr Hpf Hpfn.
  { exists s, (fun _ => 0). split_and!; try done; intros; try (by intros ?); try case_decide; try done; set_solver. }
  apply NoDup_cons in Hnd as [Hi Hnd]. apply Forall_cons in Hr as [Hir Hr].
  destruct (map_gb_spec _ i pf s Hok Hn Hir Hpf Hpfn)
    as (c & s1 & Hrun & Hok1 & Htk & Hsh & Hn1 & Hcpf & He1 & Hd1).
  destruct (IH s1) as (s' & pds & Hrun' & Hok' & Hsh' & Hn' & Htk' & Hinj & Hpfe & Hpde & Hd'); try done.
  { intros Hx. by apply Hpfn, Hsh. }
  assert (forall j, j ∈ idxs -> pds j <> c) as Hnc.
  { intros j Hj E. by apply (taken_ne s s1 s' c (pds j) Htk (Htk' j Hj)). }
  pose proof Htk as (Hca & _).
  exists s', (fun j => if decide (j = i) then c else pds j). split_and!; try done.
  - cbn [map_gbs]. unfold mbind, M_bind. by rewrite Hrun.
  - intros b Hb. by apply Hsh, Hsh'.
  - intros j Hj. case_decide as Hji.
    + subst. apply (taken_weaken s s s1 s'); [by intros ?|done|done].
    + apply (taken_weaken s s1 s' s'); [done|by intros ?|]. apply Htk'. set_solver.
  - intros j k Hj Hk. repeat case_decide; subst; try done.
    + intros E. exfalso. apply (Hnc k); [set_solver|done].
    + intros E. exfalso. apply (Hnc j); [set_solver|done].
    + apply Hinj; set_solver.
  - intros j Hj. rewrite Hpfe, He1, (decide_True (P := pf = pf)) by done.
    repeat case_decide; subst; try done; set_solver.
  - intros j k Hj Hk. case_decide as Hji; [subst|apply Hpde; [set_solver|done]].
    transitivity (entry (vmem s1) c k); [|rewrite He1, decide_False, decide_True by done; done].
    apply ld_ext. intros x Hx. assert (page x = c) as Hxc by (apply (page_of_slot c k); done || lia).
    apply Hd'; [congruence|]. intros l Hl E. apply (Hnc l Hl). congruence.
  - intros x Hx Hxi. rewrite Hd', Hd1; [done|done| |done|].
    + specialize (Hxi i). rewrite decide_True in Hxi by done. apply Hxi. set_solver.
    + intros j Hj. specialize (Hxi j). rewrite decide_False in Hxi by congruence. apply Hxi. set_solver.
Qed.


(** What a new address space consists of. *)
Record space (k e511 : Z) (s s' : Vm St) (root pdpt : Z) (pds : Z -> Z) : Prop := {
  sp_ok : vm_ok s';
  sp_shrinks : shrinks s s';
  sp_root : taken s s' root;
  sp_pdpt : taken s s' pdpt;
  sp_pd i : i ∈ seqZ 0 4 -> taken s s' (pds i);
  sp_ne : root <> pdpt /\ forall i, i ∈ seqZ 0 4 -> pds i <> root /\ pds i <> pdpt;
  sp_inj i j : i ∈ seqZ 0 4 -> j ∈ seqZ 0 4 -> pds i = pds j -> i = j;
  sp_root_e j : 0 <= j < 512 -> entry (vmem s') root j =
    if decide (j = 0) then Z.lor pdpt 7 else if decide (j = 511) then e511 else 0;
  sp_pdpt_e j : 0 <= j < 512 -> entry (vmem s') pdpt j =
    if decide (j ∈ seqZ 0 4) then Z.lor (pds j) 7 else 0;
  sp_pd_e i j : i ∈ seqZ 0 4 -> 0 <= j < 512 ->
    entry (vmem s') (pds i) j = default 0 (user_pd_entry i j);
  sp_data x : page x <> root -> page x <> pdpt -> (forall i, i ∈ seqZ 0 4 -> page x <> pds i) ->
    vmem s' x = vmem s x
}.

Lemma entry_unchanged m m' f j :
  f mod 4096 = 0 -> 0 <= j < 512 -> (forall x, page x = f -> m' x = m x) -> entry m' f j = entry m f j.
Proof.
  intros Hf Hj Hx. apply ld_ext. intros x Hr. apply Hx. by apply (page_of_slot f j).
Qed.

Lemma create_contents n st k s :
  vm_ok s -> has_free (6 + n) (falloc s) -> PML4 st = k + KERNEL_VMA_BASE -> k mod 4096 = 0 ->
  ~ fa_free (falloc s) k ->
  exists s' root pdpt pds, create_user_address_space st s = Ret (root, s') /\
    has_free n (falloc s') /\ space k (entry (vmem s) k 511) s s' root pdpt pds.
Proof.
  intros Hok Hn Hk Hka Hkf. set (e511 := entry (vmem s) k 511).
  destruct (new_table_spec _ s Hok Hn) as (r & s1 & R1 & Hok1 & Tr & Sh1 & Hn1 & E1 & D1).
  pose proof Tr as (Hra & Hrr & Hrf & Hrf1).
  assert (fits 64 e511) as H511 by (apply (ld_fits 8), Hok).
  assert (entry (vmem s1) k 511 = e511) as Hk1 by (rewrite E1, decide_False by (done || lia || congruence); done).
  set (s1' := mkVm (pt_write (r + KERNEL_VMA_BASE) 511 e511 (vmem s1)) (falloc s1)).
  assert (vm_ok s1') as Hok1' by (split; [apply Hok1|apply st_ok, Hok1]).
  destruct (new_table_spec _ s1' Hok1' Hn1) as (p & s2 & R2 & Hok2 & Tp & Sh2 & Hn2 & E2 & D2).
  pose proof Tp as (Hpa & Hpr & Hpf & Hpf2). pose proof (taken_ne s s1 s2 r p Tr Tp) as Hrp.
  destruct (map_gbs_spec n (seqZ 0 4) p s2 Hok2) as
    (s3 & pds & R3 & Hok3 & Sh3 & Hn3 & Tpd & Inj & Ep & Epd & D3); try done.
  { apply NoDup_seqZ. } { apply Forall_forall. intros i Hi%elem_of_seqZ. lia. }
  assert (forall i, i ∈ seqZ 0 4 -> pds i <> r /\ pds i <> p) as Hne.
  { intros i Hi. destruct (Tpd i Hi) as (_ & _ & Hx & _). split; intros E; rewrite E in Hx; [|done].
    by apply Hrf1, Sh2. }
  assert (fits 64 (Z.lor p 7)) as H7 by (apply fits_lor7; lia).
  exists (mkVm (pt_write (r + KERNEL_VMA_BASE) 0 (Z.lor p 7) (vmem s3)) (falloc s3)), r, p, pds.
  assert (shrinks s s2) as Sh12 by (intros b Hb; by apply Sh1, Sh2).
  assert (forall x, page x = r -> vmem s3 x = vmem s2 x) as D3r.
  { intros x Hx. apply D3; [congruence|]. intros i Hi. rewrite Hx. by destruct (Hne i Hi); auto. }
  split_and!; try done.
  - unfold create_user_address_space. unfold mbind at 1, M_bind at 1. rewrite R1.
    unfold mbind, M_bind, get, modify_mem. rewrite Hk, pt_read_entry, Hk1.
    fold s1'. rewrite R2, R3, <- !Z.lor_assoc. done.
  - constructor; simpl.
    + split; [apply Hok3|apply st_ok, Hok3].
    + intros b Hb. by apply Sh12, Sh3.
    + by apply (taken_weaken s s s1 _); [intros ?|intros b Hb; apply Sh2, Sh3|].
    + by apply (taken_weaken s s1 s2 _).
    + intros i Hi. apply (taken_weaken s s2 s3 _); [done|by intros ?|by apply Tpd].
    + done.
    + done.
    + intros j Hj. rewrite entry_write, (decide_True (P := r = r)) by (done || lia).
      case_decide; [done|]. rewrite (entry_unchanged _ _ r j Hra Hj D3r), E2, decide_False by done.
      simpl. rewrite entry_write, (decide_True (P := r = r)), E1, (decide_True (P := r = r)) by (done || lia). done.
    + intros j Hj. rewrite entry_write, decide_False, Ep by (done || lia || congruence).
      case_decide; [done|]. by rewrite E2, decide_True by (done || lia).
    + intros i j Hi Hj. destruct (Tpd i Hi) as (Hia & _). destruct (Hne i Hi) as [Hir _].
      by rewrite entry_write, decide_False, Epd by (done || lia).
    + intros x Hx1 Hx2 Hx3. rewrite write_data, D3, D2 by (done || lia). simpl.
      by rewrite write_data, D1 by (done || lia).
Qed.


(** The kernel's half of every address space: the tables below entry 511 of
    the static [PML4] at physical address [k]. *)
Record kernel_half (Tk : Typing) (k : Z) (s : Vm St) : Prop := {
  kh_root : k mod 4096 = 0 /\ 0 <= k < 2 ^ 31 /\ ~ fa_free (falloc s) k;
  kh_link : Tk (frame_of (entry (vmem s) k 511)) = Some (3, 511) /\
    user_present (entry (vmem s) k 511) = true;
  kh_frame f L P : Tk f = Some (L, P) ->
    f mod 4096 = 0 /\ 0 <= f < 2 ^ 31 /\ 2 <= L <= 3 /\ ~ fa_free (falloc s) f;
  kh_entry f L P i : Tk f = Some (L, P) -> 2 <= L -> 0 <= i < 512 ->
    entry_ok Tk L P i (entry (vmem s) f i)
}.

(** The kernel's half stays what it is as long as its tables are left alone
    and none of their frames is given away. *)
Section kept.
Context (Tk : Typing) (k : Z) (s s' : Vm St) (Hkh : kernel_half Tk k s).
Context (Hkept : forall f LP j, Tk f = Some LP -> 0 <= j < 512 -> entry (vmem s') f j = entry (vmem s) f j).

Lemma half_translate (K : nat) g v :
  Tk g = Some (Z.of_nat K, pfx (Z.of_nat K) v) ->
  translate K (vmem s') g v = translate K (vmem s) g v.
Proof.
  revert g. induction K as [|K IH]; intros g HT; [done|]. cbn [translate].
  pose proof (lidx_range (Z.of_nat (S K)) v) as Hli.
  rewrite (Hkept g _ _ HT Hli). set (e := entry (vmem s) g (lidx (Z.of_nat (S K)) v)) in *.
  destruct (Z.testbit e 0) eqn:Hp; [|done]. destruct K as [|K]; [done|].
  destruct ((S (S K) <=? 3)%nat && huge e) eqn:Hh; [done|].
  rewrite IH; [done|]. destruct (kh_frame _ _ _ Hkh _ _ _ HT) as (_ & _ & HL & _).
  destruct (kh_entry _ _ _ Hkh _ _ _ _ HT ltac:(lia) Hli) as [E|[[HL2 Hg]|(HTe & _)]].
  - fold e in E. by rewrite E, Z.bits_0 in Hp.
  - fold e in Hg. assert (K = 0%nat) as -> by lia. by rewrite Hg in Hh.
  - fold e in HTe. rewrite HTe. replace (Z.of_nat (S K)) with (Z.of_nat (S (S K)) - 1) by lia.
    by rewrite pfx_step by lia.
Qed.

Lemma half_alias v : entry (vmem s') k 511 = entry (vmem s) k 511 -> lidx 4 v = 511 ->
  translate 4 (vmem s') k v = translate 4 (vmem s) k v.
Proof.
  intros E I4. rewrite !translate_4. cbv zeta. rewrite I4, E. destruct (negb _); [done|].
  rewrite half_translate; [done|]. rewrite (proj1 (kh_link _ _ _ Hkh)).
  change (pfx (Z.of_nat 3) v) with (pfx (4 - 1) v). by rewrite pfx_step, pfx_root, I4 by lia.
Qed.

Lemma half_kept : entry (vmem s') k 511 = entry (vmem s) k 511 -> shrinks s s' -> kernel_half Tk k s'.
Proof.
  intros E Hsh. destruct (kh_root _ _ _ Hkh) as (Hka & Hkr & Hkf). constructor.
  - split_and!; try done; try lia. intros Hx. by apply Hkf, Hsh.
  - rewrite E. apply Hkh.
  - intros f L P HT. destruct (kh_frame _ _ _ Hkh f L P HT) as (? & ? & ? & Hn). split_and!; try done; try lia.
    intros Hx. by apply Hn, Hsh.
  - intros f L P i HT HL Hi. rewrite (Hkept f _ i HT Hi). by apply (kh_entry _ _ _ Hkh).
Qed.
End kept.

Definition space_typing (Tk : Typing) (root pdpt : Z) (pds : Z -> Z) : Typing := fun g =>
  if decide (g = root) then Some (4, 0) else if decide (g = pdpt) then Some (3, 0)
  else if decide (g = pds 0) then Some (2, 0) else if decide (g = pds 1) then Some (2, 1)
  else if decide (g = pds 2) then Some (2, 2) else if decide (g = pds 3) then Some (2, 3)
  else Tk g.

Section contents.
Context (Tk : Typing) (k : Z) (s s' : Vm St) (root pdpt : Z) (pds : Z -> Z).
Context (Hsp : space k (entry (vmem s) k 511) s s' root pdpt pds) (Hkh : kernel_half Tk k s).
Let T' : Typing := space_typing Tk root pdpt pds.

Lemma seqZ4 i : i ∈ seqZ 0 4 <-> i = 0 \/ i = 1 \/ i = 2 \/ i = 3.
Proof. rewrite elem_of_seqZ. lia. Qed.

Lemma kernel_not_taken f LP c : Tk f = Some LP -> taken s s' c -> f <> c.
Proof.
  destruct LP as [L P]. intros HT (_ & _ & Hc & _) ->.
  by destruct (kh_frame _ _ _ Hkh c L P HT) as (_ & _ & _ & []).
Qed.

Lemma root_not_taken c : taken s s' c -> k <> c.
Proof. intros (_ & _ & Hc & _) E. destruct (kh_root _ _ _ Hkh) as (_ & _ & []). by rewrite E. Qed.

Lemma type_kernel f LP : Tk f = Some LP -> T' f = Some LP.
Proof.
  intros HT. pose proof (fun c => kernel_not_taken f LP c HT) as Hne.
  unfold T', space_typing.
  pose proof (fun i Hi => Hne _ (sp_pd _ _ _ _ _ _ _ Hsp i Hi)) as Hpd.
  rewrite !decide_False; try done; try (apply Hpd, seqZ4; auto); by apply Hne, Hsp.
Qed.

Lemma type_root : T' root = Some (4, 0).
Proof. unfold T', space_typing. by rewrite decide_True. Qed.

Lemma type_pdpt : T' pdpt = Some (3, 0).
Proof.
  destruct (sp_ne _ _ _ _ _ _ _ Hsp) as [Hne _].
  unfold T', space_typing. by rewrite decide_False, decide_True.
Qed.

Lemma type_pd i : i ∈ seqZ 0 4 -> T' (pds i) = Some (2, i).
Proof.
  intros Hi. destruct (sp_ne _ _ _ _ _ _ _ Hsp) as [_ Hne]. destruct (Hne i Hi) as [H1 H2].
  assert (forall j, j ∈ seqZ 0 4 -> i <> j -> pds i <> pds j) as Hij.
  { intros j Hj Hn E. by apply Hn, (sp_inj _ _ _ _ _ _ _ Hsp). }
  unfold T', space_typing. rewrite (decide_False (P := pds i = root)), (decide_False (P := pds i = pdpt)) by done.
  clear H1 H2 Hne. apply seqZ4 in Hi as [->|[->|[->| ->]]];
    rewrite ?decide_False, decide_True by (done || (apply Hij; [apply seqZ4; auto|lia])); done.
Qed.

(** Every typed frame is one of the new tables or one of the kernel's. *)
Lemma typing_inv f L P :
  T' f = Some (L, P) ->
  (f = root /\ L = 4 /\ P = 0) \/ (f = pdpt /\ L = 3 /\ P = 0) \/
  (exists i, i ∈ seqZ 0 4 /\ f = pds i /\ L = 2 /\ P = i) \/ Tk f = Some (L, P).
Proof.
  unfold T', space_typing. repeat case_decide; intros; simplify_eq; auto;
    right; right; left; eexists; (split; [|done]); apply seqZ4; auto.
Qed.

Lemma kernel_entry f LP j : Tk f = Some LP -> 0 <= j < 512 -> entry (vmem s') f j = entry (vmem s) f j.
Proof.
  intros HT Hj. destruct LP as [L P]. apply entry_unchanged; [by apply (kh_frame _ _ _ Hkh f L P HT)|done|].
  intros x Hx. apply (sp_data _ _ _ _ _ _ _ Hsp); rewrite Hx.
  - by eapply kernel_not_taken, Hsp.
  - by eapply kernel_not_taken, Hsp.
  - intros i Hi. by eapply kernel_not_taken, (sp_pd _ _ _ _ _ _ _ Hsp).
Qed.

Lemma taken_frame c : taken s s' c -> fits 64 c /\ c mod 4096 = 0 /\ 0 <= c.
Proof. intros (Ha & Hr & _). split_and!; [apply frame_fits64; lia|done|lia]. Qed.

Lemma taken_link c i L : taken s s' c -> T' c = Some (L - 1, i) -> entry_ok T' L 0 i (Z.lor c 7).
Proof.
  intros Hc HT. destruct (taken_frame c Hc) as (H1 & H2 & H3). right. right.
  rewrite lor7_frame, lor7_huge, lor7_user_present by done. by rewrite HT.
Qed.

Lemma space_tree_ok : tree_ok T' root s'.
Proof.
  destruct (sp_ok _ _ _ _ _ _ _ Hsp) as [Hfa Hm]. constructor; [done|done|apply type_root| | |].
  - assert (forall c, taken s s' c -> c mod 4096 = 0 /\ 0 <= c < 2 ^ 31 /\ ~ fa_free (falloc s') c) as Htk.
    { intros c (? & ? & ? & ?). split_and!; try done; lia. }
    intros f L P HT. destruct (typing_inv f L P HT) as [(-> & -> & ->)|[(-> & -> & ->)|[(i & Hi & -> & -> & ->)|Hk]]].
    + pose proof (Htk _ (sp_root _ _ _ _ _ _ _ Hsp)). split_and!; try lia; tauto.
    + pose proof (Htk _ (sp_pdpt _ _ _ _ _ _ _ Hsp)). split_and!; try lia; tauto.
    + pose proof (Htk _ (sp_pd _ _ _ _ _ _ _ Hsp i Hi)). split_and!; try lia; tauto.
    + destruct (kh_frame _ _ _ Hkh _ _ _ Hk) as (? & ? & ? & Hn). split_and!; try done; try lia.
      intros Hx. by apply Hn, (sp_shrinks _ _ _ _ _ _ _ Hsp).
  - intros f L P i HT HL Hi.
    destruct (typing_inv f L P HT) as [(-> & -> & ->)|[(-> & -> & ->)|[(i0 & Hi0 & -> & -> & ->)|Hk]]].
    + rewrite (sp_root_e _ _ _ _ _ _ _ Hsp) by done. repeat case_decide; subst; [| |by left].
      * apply taken_link; [apply Hsp|apply type_pdpt].
      * right; right. destruct (kh_link _ _ _ Hkh) as [Hl Hu]. split_and!; [|done|done].
        apply type_kernel. by rewrite Hl.
    + rewrite (sp_pdpt_e _ _ _ _ _ _ _ Hsp) by done. case_decide as Hd; [|by left].
      apply taken_link; [by apply (sp_pd _ _ _ _ _ _ _ Hsp)|by apply type_pd].
    + rewrite (sp_pd_e _ _ _ _ _ _ _ Hsp) by done. unfold user_pd_entry. case_match; [by left|].
      right; left. split; [done|]. unfold huge. simpl default.
      rewrite !Z.lor_spec. change (Z.testbit 0x80 7) with true. by rewrite orb_true_r.
    + rewrite (kernel_entry f _ i Hk Hi).
      destruct (kh_entry _ _ _ Hkh f L P i Hk HL Hi) as [|[|(HT2 & Hh & Hu)]]; [by left|by right; left|].
      right; right. split_and!; [by apply type_kernel|done|done].
  - intros f P i HT Hi. destruct (typing_inv f 1 P HT) as [(_ & ? & _)|[(_ & ? & _)|[(? & _ & _ & ? & _)|Hk]]]; try lia.
    destruct (kh_frame _ _ _ Hkh _ _ _ Hk) as (_ & _ & ? & _). lia.
Qed.

Lemma space_kernel_half : kernel_half Tk k s'.
Proof.
  apply (half_kept Tk k s s' Hkh kernel_entry); [|apply (sp_shrinks _ _ _ _ _ _ _ Hsp)].
  destruct (kh_root _ _ _ Hkh) as (Hka & _). apply entry_unchanged; [done|lia|].
  intros x Hx. apply (sp_data _ _ _ _ _ _ _ Hsp); rewrite Hx.
  - apply root_not_taken, (sp_root _ _ _ _ _ _ _ Hsp).
  - apply root_not_taken, (sp_pdpt _ _ _ _ _ _ _ Hsp).
  - intros i Hi. apply root_not_taken, (sp_pd _ _ _ _ _ _ _ Hsp i Hi).
Qed.

(** *** What the new space maps *)

Lemma low_idx v : 0 <= v < 2 ^ 39 -> lidx 4 v = 0 /\ lidx 3 v = v / 2 ^ 30.
Proof. intros Hv. unfold lidx. cbn -[Z.div Z.modulo] in *. dm_lia. Qed.

Lemma high_bits a fl : fits 21 fl -> Z.lor (a * 2 ^ 21) fl / 2 ^ 21 = a.
Proof.
  intros Hfl. rewrite <- Z.shiftl_mul_pow2, <- Z.shiftr_div_pow2 by lia.
  bitwise.
Qed.

Lemma pdpt_entry7 v :
  0 <= v < 2 ^ 39 -> let e := entry (vmem s') root (lidx 4 v) in
  e = Z.lor pdpt 7 /\ frame_of e = pdpt /\ huge e = false /\ e <> 0.
Proof.
  intros Hv e. destruct (low_idx v Hv) as [I4 _].
  destruct (taken_frame _ (sp_pdpt _ _ _ _ _ _ _ Hsp)) as (H1 & H2 & H3).
  unfold e. rewrite I4, (sp_root_e _ _ _ _ _ _ _ Hsp), decide_True by (done || lia).
  split_and!; [done|by apply lor7_frame|by apply lor7_huge|by apply lor7_nonzero].
Qed.

Lemma pd_entry7 i :
  i ∈ seqZ 0 4 -> let e := entry (vmem s') pdpt i in
  e = Z.lor (pds i) 7 /\ frame_of e = pds i /\ huge e = false /\ e <> 0.
Proof.
  intros Hi e. destruct (taken_frame _ (sp_pd _ _ _ _ _ _ _ Hsp i Hi)) as (H1 & H2 & H3).
  pose proof Hi as Hi'. apply seqZ4 in Hi'.
  unfold e. rewrite (sp_pdpt_e _ _ _ _ _ _ _ Hsp), decide_True by (done || lia).
  split_and!; [done|by apply lor7_frame|by apply lor7_huge|by apply lor7_nonzero].
Qed.

Definition big_entry (a : Z) : Z := Z.lor (Z.lor (Z.lor (a * 0x200000) 0x80) 0x2) 0x1.

Lemma big_entry_facts a : 0 <= a ->
  big_entry a <> 0 /\ huge (big_entry a) = true /\ Z.testbit (big_entry a) 0 = true /\
  Z.testbit (big_entry a) 2 = false /\ big_entry a / 2 ^ 21 = a.
Proof.
  intros Ha. unfold big_entry. change 0x200000 with (2 ^ 21).
  rewrite <- !Z.lor_assoc. change (Z.lor 0x80 (Z.lor 0x2 0x1)) with 0x83.
  split_and!.
  - intros E. apply Z.lor_eq_0_iff in E. lia.
  - unfold huge. rewrite Z.lor_spec. by apply orb_true_r.
  - rewrite Z.lor_spec. by apply orb_true_r.
  - rewrite Z.lor_spec, <- Z.shiftl_mul_pow2, Z.shiftl_spec_low by lia. done.
  - apply high_bits. unfold fits. lia.
Qed.

Lemma pd_leaf v :
  0 <= v < 2 ^ 32 -> entry (vmem s') (pds (lidx 3 v)) (lidx 2 v) =
    if v / 2 ^ 21 =? 2 then 0 else big_entry (v / 2 ^ 21).
Proof.
  intros Hv. assert (0 <= v < 2 ^ 39) as Hv' by lia. destruct (low_idx v Hv') as [_ I3].
  assert (lidx 3 v ∈ seqZ 0 4) as Hi by (apply elem_of_seqZ; rewrite I3; dm_lia).
  rewrite (sp_pd_e _ _ _ _ _ _ _ Hsp) by (done || apply lidx_range). unfold user_pd_entry, big_entry.
  assert (v / 2 ^ 21 = lidx 3 v * 512 + lidx 2 v) as Hd.
  { rewrite I3. unfold lidx. cbn -[Z.div Z.modulo] in *. dm_lia. }
  pose proof (lidx_range 2 v). rewrite Hd. pose proof (proj1 (elem_of_seqZ _ _ _) Hi).
  bool_lia; done.
Qed.

Lemma space_lookup v :
  0 <= v < 2 ^ 39 -> walk 4 (vmem s') root v = None /\
  hits_huge 4 (vmem s') root v = (v <? 2 ^ 32) && negb (v / 2 ^ 21 =? 2).
Proof.
  intros Hv. destruct (low_idx v Hv) as [_ I3]. cbn [walk hits_huge]. levels.
  destruct (pdpt_entry7 v Hv) as (_ & -> & _ & ->%Z.eqb_neq). simpl andb.
  destruct (Z.ltb_spec v (2 ^ 32)) as [Hlt|Hge].
  - assert (lidx 3 v ∈ seqZ 0 4) as Hi by (apply elem_of_seqZ; rewrite I3; dm_lia).
    destruct (pd_entry7 _ Hi) as (_ & -> & _ & ->%Z.eqb_neq). rewrite (pd_leaf v) by lia.
    destruct (v / 2 ^ 21 =? 2); [done|].
    destruct (big_entry_facts (v / 2 ^ 21)) as (->%Z.eqb_neq & -> & _); [dm_lia|done].
  - rewrite (sp_pdpt_e _ _ _ _ _ _ _ Hsp), decide_False; [done| |apply lidx_range].
    rewrite elem_of_seqZ, I3. dm_lia.
Qed.

Lemma lor7_bits c : 0 <= c -> Z.testbit (Z.lor c 7) 0 = true /\ Z.testbit (Z.lor c 7) 2 = true.
Proof. intros. rewrite !Z.lor_spec. split; apply orb_true_r. Qed.

Lemma space_identity v :
  0 <= v < 2 ^ 32 -> v / 2 ^ 21 <> 2 -> translate 4 (vmem s') root v = Some (v, false).
Proof.
  intros Hv Hh. assert (0 <= v < 2 ^ 39) as Hv' by lia. destruct (low_idx v Hv') as [_ I3].
  assert (lidx 3 v ∈ seqZ 0 4) as Hi by (apply elem_of_seqZ; rewrite I3; dm_lia).
  destruct (taken_frame _ (sp_pdpt _ _ _ _ _ _ _ Hsp)) as (_ & _ & Hp0).
  destruct (taken_frame _ (sp_pd _ _ _ _ _ _ _ Hsp _ Hi)) as (_ & _ & Hd0).
  destruct (pdpt_entry7 v Hv') as (E4 & F4 & G4 & _). destruct (pd_entry7 _ Hi) as (E3 & F3 & G3 & _).
  destruct (lor7_bits _ Hp0) as [B4 _]. destruct (lor7_bits _ Hd0) as [B3 _].
  rewrite translate_4. cbv zeta. rewrite F4, E4, B4. cbn [negb].
  rewrite translate_3. cbv zeta. rewrite F3, G3, E3, B3. cbn [negb].
  rewrite translate_2. cbv zeta. rewrite (pd_leaf v), (proj2 (Z.eqb_neq _ _) Hh) by lia.
  destruct (big_entry_facts (v / 2 ^ 21)) as (_ & -> & -> & -> & ->); [dm_lia|].
  simpl. rewrite !andb_false_r. do 2 f_equal. dm_lia.
Qed.

Lemma kernel_translate (K : nat) g v :
  Tk g = Some (Z.of_nat K, pfx (Z.of_nat K) v) ->
  translate K (vmem s') g v = translate K (vmem s) g v.
Proof. apply (half_translate Tk k s s' Hkh kernel_entry). Qed.

Lemma space_kernel v :
  lidx 4 v = 511 -> translate 4 (vmem s') root v = translate 4 (vmem s) k v.
Proof.
  intros I4. rewrite !translate_4. cbv zeta. rewrite I4.
  rewrite (sp_root_e _ _ _ _ _ _ _ Hsp), decide_False, decide_True by lia.
  destruct (negb _); [done|]. rewrite kernel_translate; [done|].
  rewrite (proj1 (kh_link _ _ _ Hkh)). change (pfx (Z.of_nat 3) v) with (pfx (4 - 1) v).
  rewrite pfx_step, pfx_root, I4 by lia. done.
Qed.

End contents.

End space_lemmas.

(** ** The kernel's own tables *)

(** The static tables are distinct page frames of the kernel image, which is
    linked at [KERNEL_VMA_BASE] above its physical address. *)
Record statics_ok (st : Statics) (kp lp hp : Z) (dp : Z -> Z) : Prop := {
  st_pml4 : PML4 st = kp + KERNEL_VMA_BASE;
  st_low : PDPT_LOW st = lp + KERNEL_VMA_BASE;
  st_high : PDPT_HIGH st = hp + KERNEL_VMA_BASE;
  st_pd i : PD st i = dp i + KERNEL_VMA_BASE;
  st_frames : Forall (fun f => f mod 4096 = 0 /\ 0 <= f < 2 ^ 31) [kp; lp; hp; dp 0; dp 1; dp 2; dp 3];
  st_nodup : NoDup [kp; lp; hp; dp 0; dp 1; dp 2; dp 3]
}.

(** A 2 MB page with every right: present, writable, user, huge. *)
Definition open_entry (a : Z) : Z :=
  Z.lor (Z.lor (Z.lor (Z.lor (a * 0x200000) PRESENT) WRITABLE) HUGE_PAGE) USER.

Lemma csub_phys p : 0 <= p -> csub (p + KERNEL_VMA_BASE) KERNEL_VMA_BASE = Ret p.
Proof. intros. unfold csub. rewrite (proj2 (Z.leb_le _ _)) by lia. f_equal. lia. Qed.

Section kernel_tables.
Context (st : Statics) (kp lp hp : Z) (dp : Z -> Z) (m : mem).
Context (Hst : statics_ok st kp lp hp dp).

Lemma static_frame f :
  f ∈ [kp; lp; hp; dp 0; dp 1; dp 2; dp 3] -> f mod 4096 = 0 /\ 0 <= f < 2 ^ 31.
Proof. intros Hf. pose proof (st_frames _ _ _ _ _ Hst) as H. rewrite Forall_forall in H. by apply H. Qed.

Lemma static_ne :
  (kp <> lp /\ kp <> hp /\ lp <> hp) /\
  (forall i, i ∈ seqZ 0 4 -> dp i <> kp /\ dp i <> lp /\ dp i <> hp) /\
  (forall i j, i ∈ seqZ 0 4 -> j ∈ seqZ 0 4 -> dp i = dp j -> i = j).
Proof.
  pose proof (st_nodup _ _ _ _ _ Hst) as H.
  repeat (apply NoDup_cons in H as [?Hn H]). rewrite !not_elem_of_cons in *. destruct_and?.
  split_and!; try congruence.
  - intros i Hi. apply seqZ4 in Hi as [->|[->|[->| ->]]]; split_and!; congruence.
  - intros i j Hi Hj. apply seqZ4 in Hi as [->|[->|[->| ->]]], Hj as [->|[->|[->| ->]]]; congruence.
Qed.

Lemma pwu_lor p : pwu p = Z.lor p 7.
Proof. unfold pwu. by rewrite <- !Z.lor_assoc. Qed.

Lemma open_entry_fits i : i ∈ seqZ 0 4 ->
  forall j v, 0 <= j < 512 -> Some (open_entry (i * 512 + j)) = Some v -> fits 64 v.
Proof.
  intros Hi j v Hj [= <-]. apply seqZ4 in Hi. unfold open_entry.
  do 4 (apply fits_lor; [lia| |by vm_compute]). unfold fits. lia.
Qed.

Definition init_mem1 : mem :=
  pt_write (kp + KERNEL_VMA_BASE) 511 (Z.lor hp 7) (pt_write (kp + KERNEL_VMA_BASE) 0 (Z.lor lp 7) m).
Definition link_gb (i : Z) (m : mem) : mem :=
  pt_write (hp + KERNEL_VMA_BASE) (high_slot i) (Z.lor (dp i) 7)
    (pt_write (lp + KERNEL_VMA_BASE) i (Z.lor (dp i) 7) m).
Definition init_mem2 : mem := link_gb 3 (link_gb 2 (link_gb 1 (link_gb 0 init_mem1))).
Definition init_mem3 : mem := init_pd st 3 (init_pd st 2 (init_pd st 1 (init_pd st 0 init_mem2))).

Lemma in_pd i : i ∈ seqZ 0 4 -> dp i ∈ [kp; lp; hp; dp 0; dp 1; dp 2; dp 3].
Proof. intros Hi. apply seqZ4 in Hi as [->|[->|[->| ->]]]; set_solver. Qed.

Lemma init_link_run i m1 : i ∈ seqZ 0 4 -> init_link st i m1 = Ret (link_gb i m1).
Proof.
  intros Hi. destruct (static_frame _ (in_pd i Hi)) as [_ ?]. unfold init_link, link_gb.
  rewrite (st_pd _ _ _ _ _ Hst), csub_phys, (st_high _ _ _ _ _ Hst), (st_low _ _ _ _ _ Hst) by lia.
  cbn [mbind outcome_bind]. by rewrite pwu_lor.
Qed.

Lemma init_run : init st m = Ret (init_mem3, kp).
Proof.
  destruct (static_frame kp ltac:(set_solver)) as [_ ?], (static_frame lp ltac:(set_solver)) as [_ ?],
    (static_frame hp ltac:(set_solver)) as [_ ?].
  unfold init, init_mem3, init_mem2, init_mem1.
  rewrite (st_high _ _ _ _ _ Hst), (st_low _ _ _ _ _ Hst), (st_pml4 _ _ _ _ _ Hst), !csub_phys by lia.
  cbn [mbind outcome_bind]. rewrite !pwu_lor.
  do 4 (rewrite init_link_run by (apply seqZ4; auto); cbn [mbind outcome_bind]). done.
Qed.

Lemma init_pd_entry i m1 h j :
  i ∈ seqZ 0 4 -> h mod 4096 = 0 -> 0 <= j < 512 ->
  entry (init_pd st i m1) h j = if decide (h = dp i) then open_entry (i * 512 + j) else entry m1 h j.
Proof.
  intros Hi Hh Hj. destruct (static_frame _ (in_pd i Hi)) as [? ?].
  unfold init_pd. rewrite (st_pd _ _ _ _ _ Hst).
  edestruct (fill_entries_spec (dp i)) as (_ & _ & ->); try done.
  - intros e v He [= <-]. apply seqZ4 in Hi. do 4 (apply fits_lor; [lia| |by vm_compute]). unfold fits. lia.
  - case_decide; [|done]. simpl default. unfold open_entry. do 4 f_equal. lia.
Qed.

Lemma init_pd_data i m1 x : i ∈ seqZ 0 4 -> page x <> dp i -> init_pd st i m1 x = m1 x.
Proof.
  intros Hi Hx. destruct (static_frame _ (in_pd i Hi)) as [? ?].
  unfold init_pd. rewrite (st_pd _ _ _ _ _ Hst).
  edestruct (fill_entries_spec (dp i)) as (_ & -> & _); try done.
  intros e v He [= <-]. apply seqZ4 in Hi. do 4 (apply fits_lor; [lia| |by vm_compute]). unfold fits. lia.
Qed.

Lemma link_gb_entry i m1 h j :
  i ∈ seqZ 0 4 -> h mod 4096 = 0 -> 0 <= j < 512 ->
  entry (link_gb i m1) h j =
    if decide (h = hp) then if decide (j = high_slot i) then Z.lor (dp i) 7 else entry m1 h j
    else if decide (h = lp) then if decide (j = i) then Z.lor (dp i) 7 else entry m1 h j
    else entry m1 h j.
Proof.
  intros Hi Hh Hj. destruct (static_frame _ (in_pd i Hi)) as [? ?].
  destruct (static_frame lp ltac:(set_solver)) as [? ?], (static_frame hp ltac:(set_solver)) as [? ?].
  assert (fits 64 (Z.lor (dp i) 7)) by (apply fits_lor7; lia).
  destruct static_ne as [(_ & _ & ?) _]. pose proof Hi as Hi'. apply seqZ4 in Hi'.
  assert (0 <= high_slot i < 512) by (unfold high_slot; bool_lia).
  unfold link_gb. rewrite !entry_write by (done || lia). repeat case_decide; congruence.
Qed.

Lemma link_gb_data i m1 x : i ∈ seqZ 0 4 -> page x <> lp -> page x <> hp -> link_gb i m1 x = m1 x.
Proof.
  intros Hi Hx Hx'. pose proof Hi as Hi'. apply seqZ4 in Hi'.
  destruct (static_frame lp ltac:(set_solver)) as [? ?], (static_frame hp ltac:(set_solver)) as [? ?].
  unfold link_gb. rewrite !write_data; try done; [lia|]. unfold high_slot; bool_lia.
Qed.

(** The tables after [init], seen through [entry]. *)
Lemma init_entries j : 0 <= j < 512 ->
  entry init_mem3 kp j = (if decide (j = 0) then Z.lor lp 7 else if decide (j = 511) then Z.lor hp 7
                          else entry m kp j) /\
  entry init_mem3 lp j = (if decide (j ∈ seqZ 0 4) then Z.lor (dp j) 7 else entry m lp j) /\
  entry init_mem3 hp j =
    (if decide (508 <= j) then Z.lor (dp ((j - 510) mod 4)) 7 else entry m hp j) /\
  forall i, i ∈ seqZ 0 4 -> entry init_mem3 (dp i) j = open_entry (i * 512 + j).
Proof.
  intros Hj. destruct static_ne as [(N1 & N2 & N3) [N4 N5]].
  destruct (static_frame kp ltac:(set_solver)) as [? ?], (static_frame lp ltac:(set_solver)) as [? ?],
    (static_frame hp ltac:(set_solver)) as [? ?].
  assert (forall i, i ∈ seqZ 0 4 -> kp <> dp i /\ lp <> dp i /\ hp <> dp i) as N6.
  { intros i Hi. destruct (N4 i Hi) as (? & ? & ?). auto. }
  assert (0 ∈ seqZ 0 4 /\ 1 ∈ seqZ 0 4 /\ 2 ∈ seqZ 0 4 /\ 3 ∈ seqZ 0 4) as (S0 & S1 & S2 & S3).
  { rewrite !seqZ4. lia. }
  assert (fits 64 (Z.lor hp 7) /\ fits 64 (Z.lor lp 7)) as [??].
  { split; apply fits_lor7; lia. }
  unfold init_mem3. split_and!.
  - rewrite !init_pd_entry, !(decide_False (P := kp = dp _)) by (done || by apply N6).
    unfold init_mem2, init_mem1. rewrite !link_gb_entry, !entry_write by (done || lia).
    repeat case_decide; congruence.
  - rewrite !init_pd_entry, !(decide_False (P := lp = dp _)) by (done || by apply N6).
    unfold init_mem2, init_mem1. rewrite !link_gb_entry, !entry_write by (done || lia).
    repeat case_decide; subst; try congruence; rewrite seqZ4 in *; tauto.
  - rewrite !init_pd_entry, !(decide_False (P := hp = dp _)) by (done || by apply N6).
    unfold init_mem2, init_mem1. rewrite !link_gb_entry, !entry_write by (done || lia).
    unfold high_slot. simpl Z.eqb. cbv iota.
    assert (508 <= j -> j = 508 \/ j = 509 \/ j = 510 \/ j = 511) as Hj4 by lia.
    repeat case_decide; subst; try congruence; try lia; done.
  - intros i Hi. destruct (static_frame _ (in_pd i Hi)) as [? ?].
    rewrite !init_pd_entry by done.
    pose proof (fun k Hk => N5 i k Hi Hk) as N5i.
    assert (forall k, k ∈ seqZ 0 4 -> k <> i -> dp i <> dp k) as Hik by (intros k Hk Hne E; by apply Hne; symmetry; apply N5i).
    clear N4 N6 N5 N5i. apply seqZ4 in Hi as [->|[->|[->| ->]]];
      rewrite ?decide_False, decide_True by (done || (apply Hik; [done|lia])); done.
Qed.

Lemma init_data x :
  page x ∉ [kp; lp; hp; dp 0; dp 1; dp 2; dp 3] -> init_mem3 x = m x.
Proof.
  intros Hx. rewrite !not_elem_of_cons in Hx. destruct_and?.
  unfold init_mem3, init_mem2, init_mem1.
  rewrite !init_pd_data, !link_gb_data by (done || apply seqZ4; auto).
  rewrite !write_data; try done; apply (static_frame kp); set_solver.
Qed.


Lemma open_entry_facts a : 0 <= a ->
  huge (open_entry a) = true /\ Z.testbit (open_entry a) 0 = true /\
  Z.testbit (open_entry a) 2 = true /\ open_entry a / 2 ^ 21 = a.
Proof.
  intros Ha. unfold open_entry. change 0x200000 with (2 ^ 21).
  rewrite <- !Z.lor_assoc. change (Z.lor PRESENT _) with 0x87. split_and!.
  - unfold huge. rewrite Z.lor_spec. by apply orb_true_r.
  - rewrite Z.lor_spec. by apply orb_true_r.
  - rewrite Z.lor_spec. by apply orb_true_r.
  - apply high_bits. unfold fits. lia.
Qed.

(** From a directory-pointer table whose entry for [v] is the directory [i]. *)
Lemma init_translate_3 i f v :
  i ∈ seqZ 0 4 -> entry init_mem3 f (lidx 3 v) = Z.lor (dp i) 7 ->
  translate 3 init_mem3 f v = Some ((i * 512 + lidx 2 v) * 2 ^ 21 + v mod 2 ^ 21, true).
Proof.
  intros Hi He. destruct (static_frame _ (in_pd i Hi)) as [Ha Hr].
  destruct (lor7_bits (dp i)) as [B0 B2]; [lia|]. pose proof (lidx_range 2 v) as H2.
  destruct (init_entries (lidx 2 v) H2) as (_ & _ & _ & Hd). pose proof Hi as Hi'. apply seqZ4 in Hi'.
  destruct (open_entry_facts (i * 512 + lidx 2 v)) as (F1 & F2 & F3 & F4); [lia|].
  rewrite translate_3. cbv zeta. rewrite He, B0, B2, lor7_huge, lor7_frame by (done || apply frame_fits64; lia).
  cbn [negb]. rewrite translate_2. cbv zeta. by rewrite (Hd i Hi), F1, F2, F3, F4.
Qed.

Lemma init_low v : 0 <= v < 2 ^ 32 -> translate 4 init_mem3 kp v = Some (v, true).
Proof.
  intros Hv. destruct (low_idx v) as [I4 I3]; [lia|].
  destruct (static_frame lp ltac:(set_solver)) as [Ha Hr]. destruct (lor7_bits lp) as [B0 B2]; [lia|].
  assert (lidx 3 v ∈ seqZ 0 4) as Hi by (apply elem_of_seqZ; rewrite I3; dm_lia).
  rewrite translate_4. cbv zeta. destruct (init_entries 0 ltac:(lia)) as (E & _).
  destruct (init_entries (lidx 3 v) (lidx_range 3 v)) as (_ & E3 & _).
  rewrite I4, E, decide_True, B0, B2, lor7_frame by (done || apply frame_fits64; lia).
  rewrite (init_translate_3 (lidx 3 v)) by (done || by rewrite E3, decide_True). simpl. do 2 f_equal.
  rewrite I3. unfold lidx. cbn -[Z.div Z.modulo] in *. dm_lia.
Qed.

Lemma init_high w :
  lidx 4 w = 511 -> 508 <= lidx 3 w -> translate 4 init_mem3 kp w =
    Some (((lidx 3 w - 510) mod 4 * 512 + lidx 2 w) * 2 ^ 21 + w mod 2 ^ 21, true).
Proof.
  intros I4 I3. destruct (static_frame hp ltac:(set_solver)) as [Ha Hr].
  destruct (lor7_bits hp) as [B0 B2]; [lia|].
  rewrite translate_4. cbv zeta. destruct (init_entries 511 ltac:(lia)) as (E & _).
  destruct (init_entries (lidx 3 w) (lidx_range 3 w)) as (_ & _ & E3 & _).
  rewrite I4, E, decide_False, decide_True, B0, B2, lor7_frame by (done || apply frame_fits64; lia).
  rewrite (init_translate_3 ((lidx 3 w - 510) mod 4)); [done| |by rewrite E3, decide_True].
  apply elem_of_seqZ. dm_lia.
Qed.

(** The kernel alias: virtual [KERNEL_VMA_BASE + p] is physical [p]. *)
Lemma kernel_alias p :
  0 <= p < 2 ^ 31 -> translate 4 init_mem3 kp (KERNEL_VMA_BASE + p) = Some (p, true).
Proof.
  intros Hp. rewrite init_high; unfold KERNEL_VMA_BASE, lidx; cbn -[Z.div Z.modulo] in *.
  - do 2 f_equal. dm_lia.
  - dm_lia.
  - dm_lia.
Qed.

Definition kernel_typing : Typing := fun g =>
  if decide (g = hp) then Some (3, 511)
  else if decide (g = dp 0) then Some (2, 511 * 512 + 510)
  else if decide (g = dp 1) then Some (2, 511 * 512 + 511)
  else if decide (g = dp 2) then Some (2, 511 * 512 + 508)
  else if decide (g = dp 3) then Some (2, 511 * 512 + 509)
  else None.

Lemma kernel_typing_inv f L P :
  kernel_typing f = Some (L, P) ->
  (f = hp /\ L = 3 /\ P = 511) \/ (exists i, i ∈ seqZ 0 4 /\ f = dp i /\ L = 2).
Proof.
  unfold kernel_typing. repeat case_decide; intros; simplify_eq; auto;
    right; eexists; (split; [|done]); apply seqZ4; auto.
Qed.

Lemma kernel_typing_pd i : i ∈ seqZ 0 4 -> kernel_typing (dp i) = Some (2, 511 * 512 + high_slot i).
Proof.
  intros Hi. destruct static_ne as [_ [N4 N5]]. destruct (N4 i Hi) as (_ & _ & N).
  assert (0 ∈ seqZ 0 4 /\ 1 ∈ seqZ 0 4 /\ 2 ∈ seqZ 0 4 /\ 3 ∈ seqZ 0 4) as (S0 & S1 & S2 & S3).
  { rewrite !seqZ4. lia. }
  assert (forall k, k ∈ seqZ 0 4 -> k <> i -> dp i <> dp k) as Hik
    by (intros k Hk Hne E; by apply Hne; symmetry; apply N5).
  unfold kernel_typing. rewrite decide_False by done. clear N4 N5 N.
  apply seqZ4 in Hi as [->|[->|[->| ->]]];
    rewrite ?decide_False, decide_True by (done || (apply Hik; [done|lia])); done.
Qed.

Lemma init_kernel_half {St : Type} {FA : FrameAllocator St} (fa : St) :
  (forall f j, f ∈ [hp] -> 0 <= j < 512 -> entry m f j = 0) ->
  (forall f, f ∈ [kp; hp; dp 0; dp 1; dp 2; dp 3] -> ~ fa_free fa f) ->
  kernel_half kernel_typing kp (mkVm init_mem3 fa).
Proof.
  intros Hz Hfree. destruct (static_frame kp ltac:(set_solver)) as [Ka Kr].
  destruct (static_frame hp ltac:(set_solver)) as [Ha Hr]. constructor.
  - split_and!; try done; try lia. apply Hfree. set_solver.
  - simpl. destruct (init_entries 511 ltac:(lia)) as (-> & _).
    rewrite decide_False, decide_True, lor7_frame by (done || apply frame_fits64; lia).
    split; [|apply lor7_user_present]. unfold kernel_typing. by rewrite decide_True.
  - intros f L P HT. simpl.
    destruct (kernel_typing_inv f L P HT) as [(-> & -> & ->)|(i & Hi & -> & ->)].
    + split_and!; try done; try lia. apply Hfree. set_solver.
    + destruct (static_frame _ (in_pd i Hi)) as [? ?]. split_and!; try done; try lia. apply Hfree.
      apply seqZ4 in Hi as [->|[->|[->| ->]]]; set_solver.
  - intros f L P i HT HL Hi. simpl.
    destruct (kernel_typing_inv f L P HT) as [(-> & -> & ->)|(k & Hk & -> & ->)].
    + destruct (init_entries i Hi) as (_ & _ & -> & _). case_decide as Hd; [|left; apply Hz; set_solver].
      right; right. split_and!; [|intros _; apply lor7_huge; apply static_frame, in_pd, elem_of_seqZ; dm_lia|apply lor7_user_present].
      assert ((i - 510) mod 4 ∈ seqZ 0 4) as Hk by (apply elem_of_seqZ; dm_lia).
      destruct (static_frame _ (in_pd _ Hk)) as [? ?].
      rewrite lor7_frame, kernel_typing_pd by (done || apply frame_fits64; lia). do 3 f_equal.
      assert (i = 508 \/ i = 509 \/ i = 510 \/ i = 511) as [->|[->|[->| ->]]] by lia; done.
    + right; left. destruct (init_entries i Hi) as (_ & _ & _ & ->); [|done].
      split; [done|]. apply open_entry_facts. apply seqZ4 in Hk. lia.
Qed.

End kernel_tables.

(** ** Properties *)

(** C24: [paging::init] loads CR3 with tables under which every address of the
    first 4 GB is mapped to itself, [KERNEL_VMA_BASE + p] to [p] for the first
    2 GB and the 2 GB below it to the upper half of the 4 GB; user mode may
    access all of it; nothing is mapped below any other root entry; no byte
    outside the seven static tables changes.  (The file's comment announces
    the alias at [0xFFFF_8000_0000_0000]: that address is not mapped.) *)
Theorem paging_init_spec (st : Statics) (kp lp hp : Z) (dp : Z -> Z) (m : mem)
    (Hst : statics_ok st kp lp hp dp)
    (Hbss : forall f j, f ∈ [kp; lp; hp] -> 0 <= j < 512 -> entry m f j = 0) :
  exists m', init st m = Ret (m', kp) /\
    (forall v, 0 <= v < 2 ^ 32 -> translate 4 m' kp v = Some (v, true)) /\
    (forall p, 0 <= p < 2 ^ 31 -> translate 4 m' kp (KERNEL_VMA_BASE + p) = Some (p, true)) /\
    (forall p, 0 <= p < 2 ^ 31 ->
       translate 4 m' kp (KERNEL_VMA_BASE - 2 ^ 31 + p) = Some (2 ^ 31 + p, true)) /\
    (forall v, lidx 4 v <> 0 -> lidx 4 v <> 511 -> translate 4 m' kp v = None) /\
    translate 4 m' kp 0xFFFF800000000000 = None /\
    (forall x, page x ∉ [kp; lp; hp; dp 0; dp 1; dp 2; dp 3] -> m' x = m x).
Proof.
  exists (init_mem3 st kp lp hp dp m).
  assert (forall v, lidx 4 v <> 0 -> lidx 4 v <> 511 ->
    translate 4 (init_mem3 st kp lp hp dp m) kp v = None) as Hnone.
  { intros v H0 H511. rewrite translate_4. cbv zeta.
    destruct (init_entries st kp lp hp dp m Hst (lidx 4 v) (lidx_range 4 v)) as (-> & _).
    rewrite !decide_False, Hbss by (done || apply lidx_range || set_solver). done. }
  split_and!.
  - by apply init_run.
  - intros v. by apply init_low.
  - intros p. by apply kernel_alias.
  - intros p Hp. rewrite init_high; try done; unfold KERNEL_VMA_BASE, lidx;
      cbn -[Z.div Z.modulo] in *; [do 2 f_equal| |]; dm_lia.
  - done.
  - by apply Hnone.
  - intros x. by apply init_data.
Qed.

(** C19: [create_user_address_space] needs six frames and returns a
    well-formed tree in which no page is mapped at the 4 KB level below 512
    GB; the first 4 GB are identity mapped for the kernel only, except the
    2 MB at [0x400000] that are left to [map_user_page]; the kernel's half
    is translated exactly as under the kernel's own root; and only frames
    that were free are written. *)
Theorem create_user_address_space_spec {St : Type} `{FrameAllocator St}
    (n : nat) (st : Statics) (k : Z) (Tk : Typing) (s : Vm St)
    (Hok : vm_ok s) (Hfree : has_free (6 + n) (falloc s))
    (Hk : PML4 st = k + KERNEL_VMA_BASE) (Hkh : kernel_half Tk k s) :
  exists root T s', create_user_address_space st s = Ret (root, s') /\
    has_free n (falloc s') /\ tree_ok T root s' /\ kernel_half Tk k s' /\
    (forall v, 0 <= v < 2 ^ 39 -> lookup_page root v (vmem s') = Ret None /\
       hits_huge 4 (vmem s') root v = (v <? 2 ^ 32) && negb (v / 2 ^ 21 =? 2)) /\
    (forall v, 0 <= v < 2 ^ 32 -> v / 2 ^ 21 <> 2 ->
       translate 4 (vmem s') root v = Some (v, false)) /\
    (forall v, lidx 4 v = 511 ->
       translate 4 (vmem s') root v = translate 4 (vmem s) k v) /\
    (forall x, vmem s' x = vmem s x \/ fa_free (falloc s) (page x)).
Proof.
  destruct (kh_root _ _ _ Hkh) as (Hka & Hkr & Hkf).
  destruct (create_contents n st k s Hok Hfree Hk Hka Hkf) as (s' & root & pdpt & pds & Hrun & Hn & Hsp).
  exists root, (space_typing Tk root pdpt pds), s'.
  pose proof (space_tree_ok Tk k s s' root pdpt pds Hsp Hkh) as Htree. split_and!; try done.
  - by eapply space_kernel_half.
  - intros v Hv. rewrite (lookup_page_walk _ _ _ _ Htree).
    destruct (space_lookup k s s' root pdpt pds Hsp v Hv) as [-> ->]. done.
  - by eapply space_identity.
  - by eapply space_kernel.
  - intros x. destruct (decide (page x = root)) as [E|H1]; [right; rewrite E; by apply (sp_root _ _ _ _ _ _ _ Hsp)|].
    destruct (decide (page x = pdpt)) as [E|H2]; [right; rewrite E; by apply (sp_pdpt _ _ _ _ _ _ _ Hsp)|].
    destruct (decide (Exists (fun i => page x = pds i) (seqZ 0 4))) as [He|Hne].
    + apply Exists_exists in He as (i & Hi & E). right. rewrite E. by apply (sp_pd _ _ _ _ _ _ _ Hsp).
    + left. apply (sp_data _ _ _ _ _ _ _ Hsp); try done. intros i Hi E. apply Hne, Exists_exists. eauto.
Qed.

(** ** Witnesses *)

Definition demo_pd (i : Z) : Z := 0x103000 + i * 0x1000.
Definition demo_statics : Statics := mkStatics (0x100000 + KERNEL_VMA_BASE)
  (0x101000 + KERNEL_VMA_BASE) (0x102000 + KERNEL_VMA_BASE) (fun i => demo_pd i + KERNEL_VMA_BASE).

Lemma demo_statics_ok : statics_ok demo_statics 0x100000 0x101000 0x102000 demo_pd.
Proof.
  constructor; try done.
  - rewrite !Forall_cons. unfold demo_pd. split_and!; try done; lia.
  - apply (bool_decide_unpack (NoDup _)). reflexivity.
Qed.

Lemma paging_init_spec_witness :
  exists m', init demo_statics (fun _ => 0) = Ret (m', 0x100000) /\
    translate 4 m' 0x100000 0xFFFFFFFF80200000 = Some (0x200000, true).
Proof.
  destruct (paging_init_spec demo_statics 0x100000 0x101000 0x102000 demo_pd (fun _ => 0)
    demo_statics_ok) as (m' & Hrun & _ & Ha & _).
  - intros. apply zero_entry.
  - exists m'. split; [exact Hrun|]. apply (Ha 0x200000). lia.
Defined.

(** Six free frames. *)
Definition demo_pmm6 : PmmState := free_page 0x8000 demo_pmm.

Lemma demo_pmm6_facts :
  pmm_ok demo_pmm6 /\ (forall p, 3 <= p < 9 -> frame_free demo_pmm6 (p * PAGE_SIZE)) /\
  forall p, 256 <= p < 263 -> ~ frame_free demo_pmm6 (p * PAGE_SIZE).
Proof.
  split_and!.
  - apply (free_page_cases demo_pmm 0x8000 demo_pmm_ok). lia.
  - intros p Hp. split; [by rewrite Z.mod_mul|]. rewrite Z.div_mul by done. apply elem_of_free_set.
    split; [unfold MAX_PAGES, BITMAP_BYTES; lia|].
    assert (p = 3 \/ p = 4 \/ p = 5 \/ p = 6 \/ p = 7 \/ p = 8) as Hc by lia.
    destruct Hc as [->|[->|[->|[->|[->| ->]]]]]; vm_compute; reflexivity.
  - intros p Hp [_ [_ Hf]%elem_of_free_set]. rewrite Z.div_mul in Hf by done.
    assert (p = 256 \/ p = 257 \/ p = 258 \/ p = 259 \/ p = 260 \/ p = 261 \/ p = 262) as Hc by lia.
    destruct Hc as [->|[->|[->|[->|[->|[->| ->]]]]]]; vm_compute in Hf; discriminate.
Qed.

Definition demo_boot : mem := init_mem3 demo_statics 0x100000 0x101000 0x102000 demo_pd (fun _ => 0).

Lemma demo_boot_ok :
  mem_ok demo_boot /\ has_free 6 demo_pmm6 /\
  kernel_half (kernel_typing 0x102000 demo_pd) 0x100000 (mkVm demo_boot demo_pmm6).
Proof.
  destruct demo_pmm6_facts as (Hok & Hfr & Hus). split_and!.
  - unfold demo_boot, init_mem3, init_pd. repeat (apply fill_entries_spec; [done| |]).
    all: try (intros e v He [= <-]; do 4 (apply fits_lor; [lia| |by vm_compute]); unfold fits; lia).
    unfold init_mem2, init_mem1, link_gb. repeat apply st_ok. exact zero_mem_ok.
  - exists ((fun p => p * PAGE_SIZE) <$> seqZ 3 6). split_and!.
    + apply NoDup_fmap_2; [|apply NoDup_seqZ]. intros a b. unfold PAGE_SIZE. lia.
    + done.
    + apply Forall_fmap, Forall_forall. intros p Hp%elem_of_seqZ. apply Hfr. lia.
  - apply init_kernel_half; [exact demo_statics_ok|intros; apply zero_entry|].
    assert (forall p, 256 <= p < 263 -> ~ fa_free demo_pmm6 (p * 4096)) as Hu by exact Hus.
    intros f Hf. repeat (apply elem_of_cons in Hf as [->|Hf]);
      [apply (Hu 256)|apply (Hu 258)|apply (Hu 259)|apply (Hu 260)|apply (Hu 261)|apply (Hu 262)|
       by apply elem_of_nil in Hf]; lia.
Qed.

Lemma create_user_address_space_spec_witness :
  exists root s', create_user_address_space demo_statics (mkVm demo_boot demo_pmm6) = Ret (root, s') /\
    translate 4 (vmem s') root 0xB8000 = Some (0xB8000, false).
Proof.
  destruct demo_boot_ok as (Hm & Hf & Hk).
  destruct (create_user_address_space_spec 0 demo_statics 0x100000 (kernel_typing 0x102000 demo_pd)
    (mkVm demo_boot demo_pmm6)) as (root & T & s' & Hrun & _ & _ & _ & _ & Hid & _).
  - split; [apply demo_pmm6_facts|exact Hm].
  - exact Hf.
  - reflexivity.
  - exact Hk.
  - exists root, s'. split; [exact Hrun|]. apply Hid; [lia|]. vm_compute. discriminate.
Defined.
