(* ===== verification/Mmap.v ===== *)
(** * User memory and anonymous mappings ([ross-kernel/src/mmap.rs])

    The bytes a process sees through its page tables, the invariant that keeps
    processes' frames apart from tables and from free frames, and
    [alloc_anon], the page allocator behind [mmap]. *)

From stdpp Require Import strings.
From S2P Require Import Prelude Bytes Frames Pmm Paging.

Section mmap.
Context {St : Type} `{FrameAllocator St}.

(** The loop of [alloc_anon] from page [i] on, [k] pages left.
    @src ross-kernel/src/mmap.rs 5-11 alloc_anon *)
Fixpoint alloc_anon_from (cr3 base i : Z) (k : nat) : M (Vm St) (result unit string) :=
  match k with
  | O => mret (Ok tt)
  | S k =>
      off ← lift (cmul 64 i 4096);
      vaddr ← lift (cadd 64 base off);
      phys ← alloc_frame;
      match phys with
      | None => mret (Err "mmap: OOM"%string)
      | Some phys =>
          kptr ← lift (phys_to_virt phys);
          modify_mem (fill (kptr - KERNEL_VMA_BASE) 0 4096);;
          map_user_page cr3 vaddr phys 0x7;;
          alloc_anon_from cr3 base (i + 1) k
      end
  end.

(** @src ross-kernel/src/mmap.rs 1-13 alloc_anon *)
Definition alloc_anon (cr3 base pages : Z) : M (Vm St) (result unit string) :=
  alloc_anon_from cr3 base 0 (Z.to_nat pages).

End mmap.

(** ** What a process sees *)

Section user.
Context {St : Type} {FA : FrameAllocator St}.

(** The physical address of [v], if its page is mapped at the 4 KB level. *)
Definition user_phys (root : Z) (m : mem) (v : Z) : option Z :=
  match lookup_page root v m with
  | Ret (Some p) => Some (p + v mod 4096)
  | _ => None
  end.

Definition user_byte (root : Z) (m : mem) (v : Z) : option Z := m <$> user_phys root m v.

(** Every frame mapped for the process is aligned, in use, not a table, and
    mapped once. *)
Record user_ok (T : Typing) (root : Z) (s : Vm St) : Prop := {
  uo_tree : tree_ok T root s;
  uo_frame v p : lookup_page root v (vmem s) = Ret (Some p) ->
    p mod 4096 = 0 /\ 0 <= p < 2 ^ 30 /\ ~ fa_free (falloc s) p /\ T p = None;
  uo_inj v w p : lookup_page root v (vmem s) = Ret (Some p) ->
    lookup_page root w (vmem s) = Ret (Some p) -> same_page v w
}.

Lemma user_lookup T root s v :
  user_ok T root s -> exists r, lookup_page root v (vmem s) = Ret r.
Proof. intros Hok. eexists. apply (lookup_page_walk _ _ _ _ (uo_tree _ _ _ Hok)). Qed.

Lemma lookup_same_page T root s v w :
  tree_ok T root s -> same_page v w -> lookup_page root v (vmem s) = lookup_page root w (vmem s).
Proof.
  intros Hok Hs. rewrite !(lookup_page_walk _ _ _ _ Hok). f_equal. cbn [walk]. levels.
  by rewrite !(same_page_lidx v w) by (done || lia).
Qed.

Lemma same_page_offset v w : same_page v w -> v mod 4096 = w mod 4096 -> v mod 2 ^ 48 = w mod 2 ^ 48.
Proof. unfold same_page, pfx. cbn -[Z.div Z.modulo]. intros. dm_lia. Qed.

Lemma page_phys p o : p mod 4096 = 0 -> 0 <= o < 4096 -> page (p + o) = p.
Proof. intros. apply page_in; [done|lia]. Qed.

(** *** A fresh page *)

(** What taking a frame [c] with contents [z] and mapping it at [v] yields. *)
Record fresh_page (v c root : Z) (z : Z -> Z) (T : Typing) (s : Vm St) (T' : Typing) (s' : Vm St)
  : Prop := {
  fp_ok : user_ok T' root s';
  fp_lookup w : lookup_page root w (vmem s') =
    if decide (same_page v w) then Ret (Some c) else lookup_page root w (vmem s);
  fp_byte w : user_byte root (vmem s') w =
    if decide (same_page v w) then Some (z (w mod 4096)) else user_byte root (vmem s) w;
  fp_huge w : hits_huge 4 (vmem s') root w = hits_huge 4 (vmem s) root w;
  fp_free b : fa_free (falloc s') b -> fa_free (falloc s) b;
  fp_data x : vmem s' x = vmem s x \/ fa_free (falloc s) (page x) \/
    exists L, T (page x) = Some (L, pfx L v)
}.

(** The state after [alloc_page] returned [c] and the frame was zeroed. *)
Definition zeroed (c : Z) (fa' : St) (s : Vm St) : Vm St := mkVm (fill c 0 4096 (vmem s)) fa'.

Section fresh.
Context (T : Typing) (root : Z) (s : Vm St) (v c : Z) (fa' : St).
Context (Hok : user_ok T root s) (Hal : fa_alloc (falloc s) = (Some c, fa')).

Lemma fresh_frame :
  c mod 4096 = 0 /\ 0 <= c < 2 ^ 30 /\ fa_free (falloc s) c /\ ~ fa_free fa' c /\ T c = None /\
  (forall b, fa_free fa' b <-> fa_free (falloc s) b /\ b <> c) /\ fa_ok fa'.
Proof.
  pose proof (tr_fa _ _ _ (uo_tree _ _ _ Hok)) as Hfa.
  destruct (fa_alloc_some _ _ _ Hfa Hal) as (Hfa' & Hc & Hiff).
  destruct (fa_alloc_fresh _ _ _ Hfa Hal) as [_ Hc']. split_and!; try done.
  - by apply (fa_free_aligned _ _ Hfa).
  - by apply (fa_free_range _ _ Hfa).
  - by apply (fa_free_range _ _ Hfa).
  - destruct (T c) as [[L P]|] eqn:E; [|done].
    by destruct (tr_frame _ _ _ (uo_tree _ _ _ Hok) _ _ _ E) as (_ & _ & _ & []).
Qed.

Lemma fill_other x : page x <> c -> fill c 0 4096 (vmem s) x = vmem s x.
Proof.
  intros Hx. destruct fresh_frame as (Ha & _). apply fill_out.
  destruct (decide (c <= x < c + 4096)); [|lia]. exfalso. by apply Hx, page_in.
Qed.

(** Memory after the kernel wrote to the frame, and nowhere else. *)
Context (m1 : mem) (Hm1 : mem_ok m1) (Hsame : forall x, page x <> c -> m1 x = vmem s x).

Lemma fresh_tables x : is_Some (T (page x)) -> m1 x = vmem s x.
Proof.
  intros [LP HT]. apply Hsame. intros E. destruct fresh_frame as (_ & _ & _ & _ & Hn & _). congruence.
Qed.

Lemma fresh_tree_ok : tree_ok T root (mkVm m1 fa').
Proof.
  destruct fresh_frame as (_ & _ & _ & _ & _ & Hiff & Hfa').
  pose proof (data_tree_ok _ _ _ _ (uo_tree _ _ _ Hok) Hm1 fresh_tables) as Hd.
  constructor; simpl; try apply Hd; [done|]. intros f L P HT.
  destruct (tr_frame _ _ _ Hd f L P HT) as (? & ? & ? & Hn). split_and!; try done; try lia.
  intros Hx. apply Hn. simpl. by apply Hiff in Hx as [? _].
Qed.

Lemma fresh_lookup w : lookup_page root w m1 = lookup_page root w (vmem s).
Proof. apply (data_lookup T root s); [apply Hok|apply Hm1|apply fresh_tables]. Qed.

Lemma fresh_huge w : hits_huge 4 m1 root w = hits_huge 4 (vmem s) root w.
Proof. apply (data_huge T root s); [apply Hok|apply fresh_tables]. Qed.

(** Frames in use for something else keep their bytes. *)
Lemma fresh_other T' s' x :
  mapped v c root T (mkVm m1 fa') T' s' ->
  page x <> c -> ~ fa_free (falloc s) (page x) -> T (page x) = None -> vmem s' x = vmem s x.
Proof.
  intros Hm Hx Hf HT. destruct fresh_frame as (_ & _ & _ & _ & _ & Hiff & _).
  destruct (mp_data _ _ _ _ _ _ _ Hm x) as [->|[Hy|[L Hy]]].
  - by apply Hsame.
  - by apply Hiff in Hy as [? _].
  - congruence.
Qed.

(** The contents written to the frame before it was mapped stay. *)
Lemma fresh_contents T' s' o :
  mapped v c root T (mkVm m1 fa') T' s' -> 0 <= o < 4096 -> vmem s' (c + o) = m1 (c + o).
Proof.
  intros Hm Ho. destruct fresh_frame as (Hca & _ & _ & Hcf' & HTc & _ & _).
  destruct (mp_data _ _ _ _ _ _ _ Hm (c + o)) as [->|[Hy|[L Hy]]]; [done| |].
  - by rewrite page_phys in Hy.
  - rewrite page_phys in Hy by done. congruence.
Qed.

Lemma fresh_user_ok T' s' : mapped v c root T (mkVm m1 fa') T' s' -> user_ok T' root s'.
Proof.
  intros Hm. destruct fresh_frame as (Hca & Hcr & Hcf & Hcf' & HTc & Hiff & _).
  assert (forall p, T p = None -> ~ fa_free fa' p -> ~ fa_free (falloc s') p /\ T' p = None) as Hkeep.
  { intros p HT Hf. split; [intros Hx; by apply Hf, (mp_free _ _ _ _ _ _ _ Hm)|].
    destruct (T' p) eqn:E; [|done]. destruct (mp_new _ _ _ _ _ _ _ Hm _ _ E); [congruence|done]. }
  pose proof (mp_lookup _ _ _ _ _ _ _ Hm) as Hl. simpl in Hl.
  constructor; [apply Hm| |].
  - intros w p Hw. rewrite Hl, fresh_lookup in Hw. case_decide; simplify_eq.
    + split_and!; try done; try lia; by apply Hkeep.
    + destruct (uo_frame _ _ _ Hok w p Hw) as (? & ? & Hn & HT). split_and!; try done; try lia;
        apply Hkeep; try done; intros Hx; apply Hiff in Hx; tauto.
  - intros w1 w2 p H1 H2. rewrite Hl, fresh_lookup in H1, H2. repeat case_decide; simplify_eq.
    + unfold same_page in *. congruence.
    + by destruct (uo_frame _ _ _ Hok _ _ H1) as (_ & _ & [] & _).
    + by destruct (uo_frame _ _ _ Hok _ _ H2) as (_ & _ & [] & _).
    + by apply (uo_inj _ _ _ Hok w1 w2 p).
Qed.

Lemma fresh_page_mapped T' s' :
  mapped v c root T (mkVm m1 fa') T' s' -> fresh_page v c root (fun o => m1 (c + o)) T s T' s'.
Proof.
  intros Hm. destruct fresh_frame as (Hca & Hcr & Hcf & Hcf' & HTc & Hiff & _).
  pose proof (mp_lookup _ _ _ _ _ _ _ Hm) as Hl. simpl in Hl.
  constructor.
  - by apply fresh_user_ok.
  - intros w. rewrite Hl. case_decide; [done|]. apply fresh_lookup.
  - intros w. pose proof (Z.mod_pos_bound w 4096 ltac:(lia)) as Ho.
    unfold user_byte, user_phys. rewrite Hl, fresh_lookup.
    case_decide; [simpl; by rewrite (fresh_contents T')|].
    destruct (lookup_page root w (vmem s)) as [[p|]| |] eqn:Hw; simpl; try done.
    destruct (uo_frame _ _ _ Hok w p Hw) as (? & ? & Hn & HT). f_equal.
    apply (fresh_other T'); rewrite ?page_phys by done; try done. congruence.
  - intros w. rewrite (mp_huge _ _ _ _ _ _ _ Hm). apply fresh_huge.
  - intros b Hb. apply (mp_free _ _ _ _ _ _ _ Hm) in Hb. by apply Hiff in Hb as [? _].
  - intros x. destruct (mp_data _ _ _ _ _ _ _ Hm x) as [->|[Hy|Hy]]; [|right; left; by apply Hiff in Hy as [? _]|auto].
    destruct (decide (page x = c)) as [E|E]; [right; left; by rewrite E|left; by apply Hsame].
Qed.

End fresh.

(** Taking a frame, writing to it and mapping it succeeds while enough frames
    are left. *)
Lemma fresh_page_gen n T root s v fl (f : Z -> mem -> mem) :
  user_ok T root s -> hits_huge 4 (vmem s) root v = false -> has_free (4 + n) (falloc s) ->
  fits 12 fl ->
  (forall c, c mod 4096 = 0 -> mem_ok (f c (vmem s)) /\
     forall x, page x <> c -> f c (vmem s) x = vmem s x) ->
  exists c fa' T' s', fa_alloc (falloc s) = (Some c, fa') /\ phys_to_virt c = Ret (c + KERNEL_VMA_BASE) /\
    map_user_page root v c fl (mkVm (f c (vmem s)) fa') = Ret (tt, s') /\
    fresh_page v c root (fun o => f c (vmem s) (c + o)) T s T' s' /\ has_free n (falloc s') /\
    T c = None /\ c mod 4096 = 0.
Proof.
  intros Hok Hh Hn Hfl Hf. destruct (has_free_S _ _ (tr_fa _ _ _ (uo_tree _ _ _ Hok)) Hn) as (c & fa' & Hal & Hn').
  destruct (fresh_frame _ _ _ _ _ Hok Hal) as (Hca & Hcr & _ & _ & HTc & _). destruct (Hf c Hca) as [Hm1 Hs1].
  destruct (map_user_page_ok n T root (mkVm (f c (vmem s)) fa') v c fl) as (T' & s' & Hrun & Hm & Hfr); try done.
  - by eapply fresh_tree_ok.
  - rewrite <- Hh. by eapply fresh_huge.
  - apply frame_fits64. lia.
  - exists c, fa', T', s'. split_and!; try done; [apply phys_to_virt_ok; lia|].
    by eapply fresh_page_mapped.
Qed.

Lemma fill_frame c m x : c mod 4096 = 0 -> page x <> c -> fill c 0 4096 m x = m x.
Proof.
  intros Ha Hx. apply fill_out.
  destruct (decide (c <= x < c + 4096)); [|lia]. exfalso. by apply Hx, page_in.
Qed.

Lemma fresh_page_ext v c root z z' T s T' s' :
  (forall o, 0 <= o < 4096 -> z o = z' o) ->
  fresh_page v c root z T s T' s' -> fresh_page v c root z' T s T' s'.
Proof.
  intros Hz [? ? Hb ? ? ?]. constructor; try done. intros w. rewrite Hb.
  by rewrite Hz by (apply Z.mod_pos_bound; lia).
Qed.

Lemma fresh_page_ok n T root s v fl :
  user_ok T root s -> hits_huge 4 (vmem s) root v = false -> has_free (4 + n) (falloc s) ->
  fits 12 fl ->
  exists c fa' T' s', fa_alloc (falloc s) = (Some c, fa') /\ phys_to_virt c = Ret (c + KERNEL_VMA_BASE) /\
    map_user_page root v c fl (zeroed c fa' s) = Ret (tt, s') /\
    fresh_page v c root (fun _ => 0) T s T' s' /\ has_free n (falloc s').
Proof.
  intros Hok Hh Hn Hfl.
  destruct (fresh_page_gen n T root s v fl (fun c => fill c 0 4096) Hok Hh Hn Hfl)
    as (c & fa' & T' & s' & Hal & Hc & Hrun & Hfp & Hn' & _).
  { intros c Ha. split; [|intros x; by apply fill_frame].
    apply fill_ok; [by vm_compute|]. apply (tr_mem _ _ _ (uo_tree _ _ _ Hok)). }
  exists c, fa', T', s'. split_and!; try done. eapply fresh_page_ext; [|exact Hfp].
  intros o Ho. apply fill_in. lia.
Qed.

(** *** Writing to a mapped page *)

(** A store into the frame behind the page of [v], through the kernel alias. *)
Lemma page_write_ok T root s v p m' :
  user_ok T root s -> lookup_page root v (vmem s) = Ret (Some p) -> mem_ok m' ->
  (forall x, page x <> p -> m' x = vmem s x) ->
  user_ok T root (mkVm m' (falloc s)) /\
  (forall w, lookup_page root w m' = lookup_page root w (vmem s)) /\
  (forall w, hits_huge 4 m' root w = hits_huge 4 (vmem s) root w) /\
  (forall w, user_byte root m' w =
     if decide (same_page v w) then Some (m' (p + w mod 4096)) else user_byte root (vmem s) w).
Proof.
  intros Hok Hv Hm' Hs. destruct (uo_frame _ _ _ Hok v p Hv) as (Hpa & Hpr & Hpf & HTp).
  assert (forall x, is_Some (T (page x)) -> m' x = vmem s x) as Ht.
  { intros x [LP HT]. apply Hs. congruence. }
  pose proof (data_lookup T root s m' (uo_tree _ _ _ Hok) Hm' Ht) as Hl. split_and!.
  - constructor; [by apply data_tree_ok; [apply Hok|..]| |]; simpl.
    + intros w q. rewrite Hl. apply (uo_frame _ _ _ Hok).
    + intros w1 w2 q. rewrite !Hl. apply (uo_inj _ _ _ Hok).
  - done.
  - by apply (data_huge T root s m' (uo_tree _ _ _ Hok)).
  - intros w. pose proof (Z.mod_pos_bound w 4096 ltac:(lia)) as Ho.
    unfold user_byte, user_phys. rewrite Hl. case_decide as Hsp.
    + assert (lookup_page root w (vmem s) = lookup_page root v (vmem s)) as ->; [|by rewrite Hv].
      symmetry. by apply (lookup_same_page T); [apply Hok|].
    + destruct (lookup_page root w (vmem s)) as [[q|]| |] eqn:Hw; simpl; try done. f_equal.
      apply Hs. destruct (uo_frame _ _ _ Hok w q Hw) as (Hqa & _). rewrite page_phys by done.
      intros ->. by apply Hsp, (uo_inj _ _ _ Hok v w p).
Qed.

(** A tree without last-level tables maps nothing. *)
Lemma walk_no_leaf T root s (K : nat) g w :
  tree_ok T root s -> (forall f P, T f <> Some (1, P)) ->
  T g = Some (Z.of_nat K, pfx (Z.of_nat K) w) -> walk K (vmem s) g w = None.
Proof.
  intros Hok Hn. revert g. induction K as [|K IH]; intros g HT; [done|]. cbn [walk].
  destruct (Z.eqb_spec (entry (vmem s) g (lidx (Z.of_nat (S K)) w)) 0) as [|Hnz]; [done|].
  destruct K as [|K]; [by apply Hn in HT|]. destruct ((S (S K) =? 2)%nat && huge _) eqn:Hh; [done|].
  apply IH. pose proof (tr_frame _ _ _ Hok _ _ _ HT) as (_ & _ & HKr & _).
  rewrite (tree_child _ _ _ _ _ _ _ Hok HT) by (done || lia || apply lidx_range ||
    (intros HK; replace K with 0%nat in * by lia; simpl in Hh; done)).
  replace (Z.of_nat (S K)) with (Z.of_nat (S (S K)) - 1) by lia. by rewrite pfx_step by lia.
Qed.

Lemma no_leaf_user_ok T root s :
  tree_ok T root s -> (forall f P, T f <> Some (1, P)) -> user_ok T root s.
Proof.
  intros Hok Hn. assert (forall v, lookup_page root v (vmem s) = Ret None) as Hl.
  { intros v. rewrite (lookup_page_walk _ _ _ _ Hok). f_equal.
    pose proof (tr_root _ _ _ Hok) as T4. rewrite <- (pfx_root v) in T4.
    by apply (walk_no_leaf T root s 4). }
  constructor; [done| |]; intros; rewrite Hl in *; done.
Qed.

(** *** The loop of [alloc_anon] *)

(** [w] lies in one of the pages [i .. i+k-1] counted from [base]. *)
Definition in_pages (base i : Z) (k : nat) (w : Z) : Prop :=
  Exists (fun j => same_page (base + j * 4096) w) (seqZ i (Z.of_nat k)).

#[local] Instance in_pages_dec base i k w : Decision (in_pages base i k w).
Proof. unfold in_pages. apply _. Defined.

Lemma seqZ_nat_S i k : seqZ i (Z.of_nat (S k)) = i :: seqZ (i + 1) (Z.of_nat k).
Proof.
  rewrite seqZ_cons by lia. do 2 f_equal; lia.
Qed.

Lemma in_pages_S base i k w :
  in_pages base i (S k) w <-> same_page (base + i * 4096) w \/ in_pages base (i + 1) k w.
Proof. unfold in_pages. by rewrite seqZ_nat_S, Exists_cons. Qed.

Lemma alloc_anon_step root s base i k c fa' s' :
  0 <= i -> 0 <= base -> base + i * 4096 < 2 ^ 64 ->
  fa_alloc (falloc s) = (Some c, fa') -> phys_to_virt c = Ret (c + KERNEL_VMA_BASE) ->
  map_user_page root (base + i * 4096) c 0x7 (zeroed c fa' s) = Ret (tt, s') ->
    alloc_anon_from root base i (S k) s = alloc_anon_from root base (i + 1) k s'.
Proof.
  intros Hi Hb Hv Hal Hc Hrun. cbn [alloc_anon_from]. unfold mbind, M_bind, lift, cmul, cadd.
  rewrite (proj2 (Z.ltb_lt (i * 4096) _)), (proj2 (Z.ltb_lt _ _) Hv) by lia.
  unfold alloc_frame. rewrite Hal, Hc. unfold modify_mem. simpl vmem. simpl falloc.
  replace (c + KERNEL_VMA_BASE - KERNEL_VMA_BASE) with c by lia.
  unfold zeroed in Hrun. by rewrite Hrun.
Qed.

Lemma alloc_anon_from_ok k : forall n i T root s base,
  user_ok T root s -> 0 <= i -> 0 <= base -> base + (i + Z.of_nat k) * 4096 <= 2 ^ 64 ->
  (forall j, i <= j < i + Z.of_nat k -> hits_huge 4 (vmem s) root (base + j * 4096) = false) ->
  has_free (4 * k + n) (falloc s) ->
  exists T' s', alloc_anon_from root base i k s = Ret (Ok tt, s') /\
    user_ok T' root s' /\ has_free n (falloc s') /\
    (forall w, user_byte root (vmem s') w =
       if decide (in_pages base i k w) then Some 0 else user_byte root (vmem s) w) /\
    (forall w, hits_huge 4 (vmem s') root w = hits_huge 4 (vmem s) root w).
Proof.
  induction k as [|k IH]; intros n i T root s base Hok Hi Hb Hr Hh Hn.
  { exists T, s. split_and!; try done. }
  destruct (fresh_page_ok (4 * k + n) T root s (base + i * 4096) 0x7 Hok) as
    (c & fa' & T1 & s1 & Hal & Hc & Hrun & Hfp & Hn1).
  { apply Hh. lia. } { by replace (4 + (4 * k + n))%nat with (4 * S k + n)%nat by lia. } { by vm_compute. }
  destruct (IH n (i + 1) T1 root s1 base) as (T' & s' & Hrun' & Hok' & Hn' & Hby & Hhu); try done; try lia.
  { apply Hfp. }
  { intros j Hj. rewrite (fp_huge _ _ _ _ _ _ _ _ Hfp). apply Hh. lia. }
  exists T', s'. split_and!; try done.
  - rewrite <- Hrun'. eapply alloc_anon_step; try done; lia.
  - intros w. rewrite Hby, (fp_byte _ _ _ _ _ _ _ _ Hfp).
    repeat case_decide; try done; rewrite in_pages_S in *; tauto.
  - intros w. by rewrite Hhu, (fp_huge _ _ _ _ _ _ _ _ Hfp).
Qed.

(** *** Out of memory *)

Lemma alloc_none T root s :
  tree_ok T root s -> (forall b, ~ fa_free (falloc s) b) -> fa_alloc (falloc s) = (None, falloc s).
Proof.
  intros Hok Hn. pose proof (tr_fa _ _ _ Hok) as Hfa.
  destruct (fa_alloc (falloc s)) as [[a|] fa'] eqn:Hal.
  - destruct (fa_alloc_some _ _ _ Hfa Hal) as (_ & Ha & _). by apply Hn in Ha.
  - destruct (fa_alloc_none _ _ Hfa Hal) as [-> _]. done.
Qed.

Lemma map_user_page_oom T root s v p fl e3 e2 :
  tree_ok T root s -> (forall b, ~ fa_free (falloc s) b) ->
  entry (vmem s) root (lidx 4 v) = e3 -> e3 <> 0 ->
  entry (vmem s) (frame_of e3) (lidx 3 v) = e2 -> e2 <> 0 ->
  entry (vmem s) (frame_of e2) (lidx 2 v) = 0 ->
  map_user_page root v p fl s = Panic.
Proof.
  intros Hok Hn E4 N4 E3 N3 E2. destruct (idx_levels v) as (I4 & I3 & I2 & _).
  pose proof (tr_root _ _ _ Hok) as T4.
  pose proof (tree_child _ _ _ _ _ _ (lidx 4 v) Hok T4 ltac:(lia) (lidx_range 4 v)) as T3.
  rewrite E4 in T3. specialize (T3 N4 ltac:(lia)).
  pose proof (tree_child _ _ _ _ _ _ (lidx 3 v) Hok T3 ltac:(lia) (lidx_range 3 v)) as T2.
  rewrite E3 in T2. specialize (T2 N3 ltac:(lia)).
  unfold map_user_page, lift. unfold mbind, M_bind.
  rewrite (typed_virt _ _ _ _ _ _ Hok T4), I4, I3, I2.
  rewrite (get_or_create_present T root s root _ _ _ Hok T4); rewrite ?E4; [|done|by eapply typed_virt].
  rewrite (get_or_create_present T root s (frame_of e3) _ _ _ Hok T3); rewrite ?E3; [|done|by eapply typed_virt].
  unfold get_or_create, mbind, M_bind, get. rewrite pt_read_entry, E2, Z.eqb_refl.
  unfold expect_frame, alloc_frame, mbind, M_bind. cbv beta.
  by rewrite (alloc_none _ _ _ Hok Hn).
Qed.

End user.

(** ** Properties *)

(** C22: while four frames per page are free and no 2 MB page is in the way,
    [alloc_anon] succeeds; the process then reads zero in every byte of the
    new pages and what it read before everywhere else; its frames stay apart
    from each other, from the tables and from the free frames. *)
Theorem alloc_anon_spec {St : Type} `{FrameAllocator St}
    (n : nat) (T : Typing) (root : Z) (s : Vm St) (base pages : Z)
    (Hok : user_ok T root s) (Hb : 0 <= base) (Hp : 0 <= pages)
    (Hr : base + pages * 4096 <= 2 ^ 64)
    (Hh : forall j, 0 <= j < pages -> hits_huge 4 (vmem s) root (base + j * 4096) = false)
    (Hn : has_free (4 * Z.to_nat pages + n) (falloc s)) :
  exists T' s', alloc_anon root base pages s = Ret (Ok tt, s') /\
    user_ok T' root s' /\ has_free n (falloc s') /\
    forall w, user_byte root (vmem s') w =
      if decide (Exists (fun j => same_page (base + j * 4096) w) (seqZ 0 pages)) then Some 0
      else user_byte root (vmem s) w.
Proof.
  destruct (alloc_anon_from_ok (Z.to_nat pages) n 0 T root s base) as (T' & s' & Hrun & Hok' & Hn' & Hby & _);
    try done; try lia.
  { intros j Hj. apply Hh. lia. }
  exists T', s'. split_and!; try done. intros w. rewrite Hby.
  assert (Z.of_nat (Z.to_nat pages) = pages) as Hz by lia.
  repeat case_decide; try done; unfold in_pages in *; rewrite Hz in *; done.
Qed.

(** running out of frames is an error only between two pages: with no
    frame left [alloc_anon] answers [Err] and changes nothing, but when the
    last frame went to the page itself and its page table is missing, the
    kernel panics in [map_user_page]. *)
Theorem alloc_anon_oom {St : Type} `{FrameAllocator St}
    (T : Typing) (root : Z) (s : Vm St) (base pages c : Z) (fa' : St) (e3 e2 : Z)
    (Hok : user_ok T root s) (Hp : 0 < pages) (Hb : fits 64 base)
    (Hal : fa_alloc (falloc s) = (Some c, fa')) (Hlast : forall b, ~ fa_free fa' b)
    (H4 : entry (vmem s) root (lidx 4 base) = e3) (N4 : e3 <> 0)
    (H3 : entry (vmem s) (frame_of e3) (lidx 3 base) = e2) (N3 : e2 <> 0)
    (H2 : entry (vmem s) (frame_of e2) (lidx 2 base) = 0) :
  alloc_anon root base pages s = Panic /\
  alloc_anon root base pages (zeroed c fa' s) = Ret (Err "mmap: OOM"%string, zeroed c fa' s).
Proof.
  destruct Hb as [Hb0 Hb1].
  assert (forall x, page x <> c -> fill c 0 4096 (vmem s) x = vmem s x) as Hfo
    by (intros x; by apply (fill_other T root s c fa')).
  assert (mem_ok (fill c 0 4096 (vmem s))) as Hmo
    by (apply fill_ok; [by vm_compute|apply (tr_mem _ _ _ (uo_tree _ _ _ Hok))]).
  pose proof (fresh_tree_ok T root s c fa' Hok Hal _ Hmo Hfo) as Hz.
  destruct (fresh_frame T root s c fa' Hok Hal) as (_ & Hcr & _).
  assert (forall f L P j, T f = Some (L, P) -> 0 <= j < 512 ->
    entry (vmem (zeroed c fa' s)) f j = entry (vmem s) f j) as He.
  { intros f L P j HT Hj. apply (data_entry T root s _ (uo_tree _ _ _ Hok)) with (LP := (L, P)); try done.
    intros x. by apply (fresh_tables T root s c fa'). }
  pose proof (uo_tree _ _ _ Hok) as Ht. pose proof (tr_root _ _ _ Ht) as T4.
  pose proof (tree_child _ _ _ _ _ _ (lidx 4 base) Ht T4 ltac:(lia) (lidx_range 4 base)) as T3.
  rewrite H4 in T3. specialize (T3 N4 ltac:(lia)).
  pose proof (tree_child _ _ _ _ _ _ (lidx 3 base) Ht T3 ltac:(lia) (lidx_range 3 base)) as T2.
  rewrite H3 in T2. specialize (T2 N3 ltac:(lia)).
  assert (exists k, Z.to_nat pages = S k) as [k Hk] by (exists (Z.to_nat (pages - 1)); lia).
  unfold alloc_anon. rewrite Hk. cbn [alloc_anon_from]. unfold mbind, M_bind, lift, cmul, cadd.
  rewrite (proj2 (Z.ltb_lt (0 * 4096) _)), Z.add_0_r, (proj2 (Z.ltb_lt _ _) Hb1) by lia.
  unfold alloc_frame. rewrite Hal. split.
  - rewrite phys_to_virt_ok by lia. unfold modify_mem. simpl vmem. simpl falloc.
    replace (c + KERNEL_VMA_BASE - KERNEL_VMA_BASE) with c by lia. fold (zeroed c fa' s).
    rewrite (map_user_page_oom T root (zeroed c fa' s) base c 0x7 e3 e2); try done.
    + by rewrite (He root _ _ _ T4 (lidx_range 4 base)).
    + by rewrite (He _ _ _ _ T3 (lidx_range 3 base)).
    + by rewrite (He _ _ _ _ T2 (lidx_range 2 base)).
  - rewrite (alloc_none T root (zeroed c fa' s) Hz Hlast). done.
Qed.

(** ** Witnesses *)

Lemma demo_user_ok :
  user_ok (fun g => if decide (g = 0x1000) then Some (4, 0) else None) 0x1000 (mkVm (fun _ => 0) demo_pmm).
Proof.
  apply no_leaf_user_ok.
  - apply root_only_ok; [exact zero_mem_ok|intros; apply zero_entry].
  - intros f P. case_decide; congruence.
Qed.

Lemma demo_has_free4 : has_free 4 demo_pmm.
Proof.
  exists ((fun p => p * PAGE_SIZE) <$> seqZ 3 4). split_and!; [|done|].
  - apply NoDup_fmap_2; [|apply NoDup_seqZ]. intros a b. unfold PAGE_SIZE. lia.
  - apply Forall_fmap, Forall_forall. intros p Hp%elem_of_seqZ. simpl.
    split; [by rewrite Z.mod_mul|]. rewrite Z.div_mul by done. apply elem_of_free_set.
    split; [unfold MAX_PAGES, BITMAP_BYTES; lia|].
    assert (p = 3 \/ p = 4 \/ p = 5 \/ p = 6) as Hc by lia.
    destruct Hc as [->|[->|[->| ->]]]; vm_compute; reflexivity.
Qed.

Lemma alloc_anon_spec_witness :
  exists s', alloc_anon 0x1000 0x400000 1 (mkVm (fun _ => 0) demo_pmm) = Ret (Ok tt, s') /\
    user_byte 0x1000 (vmem s') 0x400010 = Some 0.
Proof.
  destruct (alloc_anon_spec 0 (fun g => if decide (g = 0x1000) then Some (4, 0) else None)
    0x1000 (mkVm (fun _ => 0) demo_pmm) 0x400000 1 demo_user_ok) as (T' & s' & Hrun & _ & _ & Hb).
  - lia.
  - lia.
  - lia.
  - intros j Hj. reflexivity.
  - exact demo_has_free4.
  - exists s'. split; [exact Hrun|]. rewrite Hb, decide_True; [reflexivity|].
    apply Exists_cons. left. reflexivity.
Defined.

(** One free frame. *)
Definition last_pmm : PmmState := Pmm.init (Some [mkRegion 0x3000 0x1000 Usable]) PmmState_new.

Lemma last_pmm_facts :
  pmm_ok last_pmm /\ (forall p, p = 1 \/ p = 9 \/ p = 10 -> ~ frame_free last_pmm (p * PAGE_SIZE)).
Proof.
  split.
  - apply (init_regions_ok [mkRegion 0x3000 0x1000 Usable] PmmState_new); [apply PmmState_new_ok|].
    repeat constructor; simpl; lia.
  - intros p Hp [_ [_ Hf]%elem_of_free_set].
    destruct Hp as [->|[->| ->]]; vm_compute in Hf; discriminate.
Qed.

Lemma last_alloc : exists fa', alloc_page last_pmm = (Some 0x3000, fa') /\ forall b, ~ frame_free fa' b.
Proof.
  exists (snd (alloc_page last_pmm)).
  assert (alloc_page last_pmm = (Some 0x3000, snd (alloc_page last_pmm))) as Ha.
  { rewrite (surjective_pairing (alloc_page last_pmm)) at 1. f_equal. }
  split; [exact Ha|]. pose proof (fa_alloc_some _ _ _ (proj1 last_pmm_facts) Ha) as (Hok & _).
  assert (fst (alloc_page (snd (alloc_page last_pmm))) = None) as Hn by (vm_compute; reflexivity).
  apply (fa_alloc_none _ (snd (alloc_page (snd (alloc_page last_pmm)))) Hok).
  rewrite <- Hn. apply surjective_pairing.
Qed.

Lemma alloc_anon_oom_witness :
  exists fa', alloc_page last_pmm = (Some 0x3000, fa') /\
    alloc_anon 0x1000 0 1 (mkVm huge_mem last_pmm) = Panic.
Proof.
  destruct last_alloc as (fa' & Ha & Hn). exists fa'. split; [exact Ha|].
  destruct (alloc_anon_oom huge_typing 0x1000 (mkVm huge_mem last_pmm) 0 1 0x3000 fa' 0x9007 0xA007)
    as [Hp _]; [..|exact Hp].
  - apply no_leaf_user_ok; [apply huge_mem_ok; apply last_pmm_facts|].
    intros f P. unfold huge_typing. repeat case_decide; congruence.
  - lia.
  - unfold fits; lia.
  - exact Ha.
  - exact Hn.
  - reflexivity.
  - discriminate.
  - reflexivity.
  - discriminate.
  - reflexivity.
Defined.
