(* ===== verification/Str.v ===== *)
(** * Rust strings

    A [&str] or [String] is the list of its bytes.  The functions of the
    standard library the kernel calls on paths, tar headers and shell lines
    are written out here, with the facts about splitting and joining that the
    file systems and the shell rely on. *)

From Stdlib Require Import String Ascii.
From S2P Require Import Prelude.

Definition str : Type := list Z.

(** Literals. *)
Fixpoint lit (s : string) : str :=
  match s with
  | EmptyString => []
  | String c s => Z.of_N (N_of_ascii c) :: lit s
  end.

Definition slash : Z := 47.

(** A byte that does not occur in a literal. *)
Ltac not_in_lit :=
  let Hx := fresh "Hx" in
  intros Hx; repeat (apply elem_of_cons in Hx as [Hx|Hx]; [done|]); by apply elem_of_nil in Hx.

(** ** Trimming, prefixes, search *)

(** [trim_start_matches(c)]. *)
Fixpoint trim_start_matches (c : Z) (s : str) : str :=
  match s with
  | [] => []
  | b :: r => if b =? c then trim_start_matches c r else s
  end.

(** [trim_matches(c)]. *)
Definition trim_end_matches (c : Z) (s : str) : str := reverse (trim_start_matches c (reverse s)).
Definition trim_matches (c : Z) (s : str) : str := trim_end_matches c (trim_start_matches c s).

(** [strip_prefix]. *)
Fixpoint strip_prefix (p s : str) : option str :=
  match p, s with
  | [], _ => Some s
  | a :: p, b :: s => if a =? b then strip_prefix p s else None
  | _ :: _, [] => None
  end.

Definition starts_with (p s : str) : bool := if strip_prefix p s then true else false.

(** [split(c)]: always at least one piece. *)
Fixpoint split (c : Z) (s : str) : list str :=
  match s with
  | [] => [[]]
  | b :: r =>
      if b =? c then [] :: split c r
      else match split c r with
           | [] => [[b]]
           | p :: ps => (b :: p) :: ps
           end
  end.

(** [split(c).filter(|s| !s.is_empty())]. *)
Definition non_empty (s : str) : bool := match s with [] => false | _ => true end.
Definition components (s : str) : list str := List.filter non_empty (split slash s).

(** [rfind(c)], as the two parts around the last [c]. *)
Fixpoint rsplit (c : Z) (s : str) : option (str * str) :=
  match s with
  | [] => None
  | b :: r =>
      match rsplit c r with
      | Some (l, t) => Some (b :: l, t)
      | None => if b =? c then Some ([], r) else None
      end
  end.

(** ** UTF-8 *)

Definition in_range (lo hi b : Z) : bool := (lo <=? b) && (b <=? hi).
Definition cont (b : Z) : bool := in_range 0x80 0xBF b.

(** The length in bytes of the well-formed sequence [s] starts with (0: none),
    by the table of the Unicode standard. *)
Definition utf8_head (s : str) : nat :=
  match s with
  | a :: b :: c :: d :: _ =>
      if in_range 0 0x7F a then 1%nat
      else if in_range 0xC2 0xDF a && cont b then 2%nat
      else if (((a =? 0xE0) && in_range 0xA0 0xBF b) || ((a =? 0xED) && in_range 0x80 0x9F b) ||
               ((in_range 0xE1 0xEC a || in_range 0xEE 0xEF a) && cont b)) && cont c then 3%nat
      else if (((a =? 0xF0) && in_range 0x90 0xBF b) || ((a =? 0xF4) && in_range 0x80 0x8F b) ||
               (in_range 0xF1 0xF3 a && cont b)) && cont c && cont d then 4%nat
      else 0%nat
  | [a; b; c] =>
      if in_range 0 0x7F a then 1%nat
      else if in_range 0xC2 0xDF a && cont b then 2%nat
      else if (((a =? 0xE0) && in_range 0xA0 0xBF b) || ((a =? 0xED) && in_range 0x80 0x9F b) ||
               ((in_range 0xE1 0xEC a || in_range 0xEE 0xEF a) && cont b)) && cont c then 3%nat
      else 0%nat
  | [a; b] => if in_range 0 0x7F a then 1%nat else if in_range 0xC2 0xDF a && cont b then 2%nat else 0%nat
  | [a] => if in_range 0 0x7F a then 1%nat else 0%nat
  | [] => 0%nat
  end.

Fixpoint utf8_from (fuel : nat) (s : str) : bool :=
  match fuel, s with
  | _, [] => true
  | O, _ => false
  | S fuel, _ =>
      match utf8_head s with
      | O => false
      | n => utf8_from fuel (drop n s)
      end
  end.

(** [str::from_utf8(s).is_ok()]. *)
Definition utf8_valid (s : str) : bool := utf8_from (length s) s.

Definition ascii_byte (b : Z) : Prop := 0 <= b < 128.

Lemma utf8_head_ascii b s : ascii_byte b -> utf8_head (b :: s) = 1%nat.
Proof.
  intros [H1 H2]. assert (in_range 0 0x7F b = true) as Hr by (unfold in_range; bool_lia).
  destruct s as [|? [|? [|? ?]]]; simpl; by rewrite Hr.
Qed.

Lemma utf8_ascii s : Forall ascii_byte s -> utf8_valid s = true.
Proof.
  unfold utf8_valid. induction 1 as [|b s Hb Hs IH]; [done|].
  cbn [length utf8_from]. rewrite utf8_head_ascii by done. done.
Qed.

(** ** White space ([char::is_whitespace]) *)

(** The length in bytes of the white-space character [s] starts with. *)
Definition ws_head (s : str) : nat :=
  match s with
  | a :: r =>
      if in_range 9 13 a || (a =? 32) then 1%nat
      else match r with
           | b :: r =>
               if (a =? 0xC2) && ((b =? 0x85) || (b =? 0xA0)) then 2%nat
               else match r with
                    | c :: _ =>
                        if ((a =? 0xE1) && (b =? 0x9A) && (c =? 0x80)) ||
                           ((a =? 0xE2) && (b =? 0x80) &&
                              (in_range 0x80 0x8A c || (c =? 0xA8) || (c =? 0xA9) || (c =? 0xAF))) ||
                           ((a =? 0xE2) && (b =? 0x81) && (c =? 0x9F)) ||
                           ((a =? 0xE3) && (b =? 0x80) && (c =? 0x80)) then 3%nat else 0%nat
                    | [] => 0%nat
                    end
           | [] => 0%nat
           end
  | [] => 0%nat
  end.

(** The same, for the character a string ends with; [s] is reversed. *)
Definition ws_last (s : str) : nat :=
  match s with
  | a :: r =>
      if in_range 9 13 a || (a =? 32) then 1%nat
      else match r with
           | b :: r =>
               if Nat.eqb (ws_head [b; a]) 2 then 2%nat
               else match r with
                    | c :: _ => if Nat.eqb (ws_head [c; b; a]) 3 then 3%nat else 0%nat
                    | [] => 0%nat
                    end
           | [] => 0%nat
           end
  | [] => 0%nat
  end.

Fixpoint drop_while_ws (head : str -> nat) (fuel : nat) (s : str) : str :=
  match fuel with
  | O => s
  | S fuel => match head s with O => s | n => drop_while_ws head fuel (drop n s) end
  end.

(** [trim()]. *)
Definition trim (s : str) : str :=
  let s := drop_while_ws ws_head (length s) s in
  reverse (drop_while_ws ws_last (length s) (reverse s)).

Lemma trim_nothing s :
  ws_head s = O -> ws_last (reverse s) = O -> trim s = s.
Proof.
  intros Hh Hl. unfold trim. assert (forall h n t, h t = O -> drop_while_ws h n t = t) as Hd.
  { intros h [|n] t Ht; simpl; [done|]. by rewrite Ht. }
  rewrite (Hd _ _ s), Hd by done. apply reverse_involutive.
Qed.

(** ** Octal numbers ([usize::from_str_radix(s, 8)]) *)

Fixpoint octal_from (acc : Z) (s : str) : option Z :=
  match s with
  | [] => Some acc
  | b :: r =>
      if in_range 48 55 b then
        let acc := acc * 8 + (b - 48) in
        if acc <? 2 ^ 64 then octal_from acc r else None
      else None
  end.

Definition from_str_radix8 (s : str) : option Z :=
  match s with
  | [] => None
  | [b] => if in_range 48 55 b then Some (b - 48) else None
  | b :: r => if b =? 43 then octal_from 0 r else octal_from 0 s
  end.

(** The [n]-digit octal numeral of [x]. *)
Fixpoint octal (n : nat) (x : Z) : str :=
  match n with
  | O => []
  | S n => octal n (x / 8) ++ [48 + x mod 8]
  end.

Lemma length_octal n x : length (octal n x) = n.
Proof. revert x. induction n; intros x; simpl; [done|]. rewrite length_app, IHn. simpl. lia. Qed.

Lemma octal_digits n x : Forall (fun b => 48 <= b <= 55) (octal n x).
Proof.
  revert x. induction n as [|n IH]; intros x; simpl; [done|].
  apply Forall_app. split; [apply IH|]. repeat constructor; dm_lia.
Qed.

Lemma octal_from_app acc s t v :
  octal_from acc s = Some v -> octal_from acc (s ++ t) = octal_from v t.
Proof.
  revert acc. induction s as [|b s IH]; intros acc; simpl; [by intros [= ->]|].
  destruct (in_range 48 55 b); [|done]. destruct (_ <? _); [|done]. apply IH.
Qed.

Lemma octal_from_octal n x :
  0 <= x < 8 ^ Z.of_nat n -> x < 2 ^ 64 -> octal_from 0 (octal n x) = Some x.
Proof.
  revert x. induction n as [|n IH]; intros x Hx Hb.
  - simpl in *. f_equal. lia.
  - rewrite Nat2Z.inj_succ, Z.pow_succ_r in Hx by lia. cbn [octal].
    rewrite (octal_from_app _ _ _ (x / 8)) by (apply IH; dm_lia). cbn [octal_from].
    assert (in_range 48 55 (48 + x mod 8) = true) as -> by (unfold in_range; bool_lia; dm_lia).
    replace (x / 8 * 8 + (48 + x mod 8 - 48)) with x by dm_lia.
    by rewrite (proj2 (Z.ltb_lt _ _) Hb).
Qed.

(** ** Splitting and joining *)

(** The path with these components. *)
Fixpoint join (c : Z) (ps : list str) : str :=
  match ps with
  | [] => []
  | [p] => p
  | p :: ps => p ++ c :: join c ps
  end.

Lemma split_app c p s :
  c ∉ p -> split c (p ++ s) =
    match split c s with q :: qs => (p ++ q) :: qs | [] => [p] end.
Proof.
  induction p as [|b p IH]; intros Hc; simpl.
  - destruct s as [|x s]; simpl; [done|]. destruct (x =? c); [done|]. by destruct (split c s).
  - assert (b <> c) as Hb by set_solver. rewrite (proj2 (Z.eqb_neq _ _) Hb), IH by set_solver.
    by destruct (split c s).
Qed.

Lemma split_none c p : c ∉ p -> split c p = [p].
Proof. intros Hc. rewrite <- (app_nil_r p) at 1. rewrite split_app by done. simpl. by rewrite app_nil_r. Qed.

Lemma split_join c ps :
  ps <> [] -> Forall (fun p => c ∉ p) ps -> split c (join c ps) = ps.
Proof.
  intros Hne Hp. induction Hp as [|p ps Hc Hps IH]; [done|].
  destruct ps as [|q ps]; [by apply split_none|].
  change (join c (p :: q :: ps)) with (p ++ c :: join c (q :: ps)).
  rewrite split_app by done. cbn [split]. rewrite Z.eqb_refl, IH by done. by rewrite app_nil_r.
Qed.

(** A name as a path component. *)
Definition name_ok (p : str) : Prop := p <> [] /\ slash ∉ p.
#[global] Instance name_ok_dec p : Decision (name_ok p).
Proof. unfold name_ok. apply _. Defined.

Lemma components_join ps : Forall name_ok ps -> components (join slash ps) = ps.
Proof.
  intros Hp. destruct ps as [|p ps]; [done|]. unfold components.
  rewrite split_join; [|done|eapply Forall_impl; [exact Hp|by intros ? []]].
  induction Hp as [|q qs [Hne _] _ IH]; [done|]. simpl. destruct q; [done|]. simpl. by rewrite IH.
Qed.

Lemma trim_start_not c s : (forall r, s <> c :: r) -> trim_start_matches c s = s.
Proof. destruct s as [|b s]; [done|]. intros Hn. simpl. destruct (Z.eqb_spec b c); [|done]. subst. by destruct (Hn s). Qed.

Lemma components_slash s : components (slash :: s) = components s.
Proof. done. Qed.

Lemma components_trim s : components (trim_start_matches slash s) = components s.
Proof.
  induction s as [|b s IH]; [done|]. cbn [trim_start_matches].
  destruct (Z.eqb_spec b slash) as [->|]; [by rewrite components_slash|done].
Qed.

Lemma rsplit_none c s : c ∉ s -> rsplit c s = None.
Proof.
  induction s as [|b s IH]; intros Hc; simpl; [done|]. rewrite IH by set_solver.
  rewrite (proj2 (Z.eqb_neq _ _)); [done|set_solver].
Qed.

Lemma rsplit_last c l t : c ∉ t -> rsplit c (l ++ c :: t) = Some (l, t).
Proof.
  intros Ht. induction l as [|b l IH]; simpl; [by rewrite rsplit_none, Z.eqb_refl|by rewrite IH].
Qed.

Lemma strip_prefix_app p s : strip_prefix p (p ++ s) = Some s.
Proof. induction p as [|a p IH]; [by destruct s|]. simpl. by rewrite Z.eqb_refl. Qed.

Lemma strip_prefix_some p s r : strip_prefix p s = Some r -> s = p ++ r.
Proof.
  revert s. induction p as [|a p IH]; intros s; simpl; [by intros [= ->]|].
  destruct s as [|b s]; [done|]. destruct (Z.eqb_spec a b) as [->|]; [|done].
  intros Hs. by rewrite (IH s).
Qed.

Lemma trim_matches_pad c s (n : nat) :
  (forall r, s <> c :: r) -> (forall r, s <> r ++ [c]) -> s <> [] ->
  trim_matches c (s ++ replicate n c) = s.
Proof.
  intros Hf Hl Hne. unfold trim_matches, trim_end_matches.
  rewrite (trim_start_not c (s ++ replicate n c)).
  2: { intros r E. destruct s as [|b s]; [done|]. simpl in E. simplify_eq. by apply (Hf s). }
  rewrite reverse_app, reverse_replicate. induction n as [|n IH].
  - simpl. rewrite trim_start_not; [apply reverse_involutive|].
    intros r E. apply (Hl (reverse r)). rewrite <- (reverse_involutive s), E. by rewrite reverse_cons.
  - simpl. by rewrite Z.eqb_refl.
Qed.

(** ** Decimal numbers ([{}] of an unsigned integer) *)

Fixpoint dec_from (fuel : nat) (x : Z) (acc : str) : str :=
  match fuel with
  | O => acc
  | S fuel =>
      let acc := (48 + x mod 10) :: acc in
      if x <? 10 then acc else dec_from fuel (x / 10) acc
  end.

(** Twenty digits are enough for 64 bits. *)
Definition dec (x : Z) : str := dec_from 20 x [].

(** ** Hexadecimal numbers ([{:x}], [{:02x}], [{:08x}]) *)

Definition hex_digit (d : Z) : Z := if d <? 10 then 48 + d else 87 + d.

Fixpoint hex_from (fuel : nat) (x : Z) (acc : str) : str :=
  match fuel with
  | O => acc
  | S fuel =>
      let acc := hex_digit (x mod 16) :: acc in
      if x <? 16 then acc else hex_from fuel (x / 16) acc
  end.

Definition hex (x : Z) : str := hex_from 16 x [].
Definition hex_pad (width : nat) (x : Z) : str := replicate (width - length (hex x)) 48 ++ hex x.

(** ** White space *)

(** [char::is_whitespace], on ASCII. *)
Definition is_space (b : Z) : bool := ((9 <=? b) && (b <=? 13)) || (b =? 32).

(** The words of a string, without the empty ones ([split_whitespace]). *)
Fixpoint words (s : str) : list str :=
  match s with
  | [] => []
  | b :: r =>
      if is_space b then words r
      else match r with
           | c :: _ => if is_space c then [b] :: words r
                       else match words r with
                            | w :: ws => (b :: w) :: ws
                            | [] => [[b]]
                            end
           | [] => [[b]]
           end
  end.

Example words_example : words (lit "  write a.txt  hello world ") = [lit "write"; lit "a.txt"; lit "hello"; lit "world"].
Proof. reflexivity. Qed.
