(* ===== verification/Vfs.v ===== *)
(** * The virtual file system ([ross-kernel/src/vfs.rs])

    The trait [VfsNode] is the class of that name: what a node promises to
    [open], [create] and the system calls.  A node type lives in a world [W]
    (the memory of the disk driver, for FAT32) that its methods may change.
    [open] and [create] are proved against the class. *)

From Stdlib Require Import String.
From S2P Require Import Prelude Str.

(** @src ross-kernel/src/vfs.rs 6-10 NodeType *)
Inductive NodeType :=
  | File
  | Directory.

(** @src ross-kernel/src/vfs.rs 12-15 Stat *)
Record Stat := mkStat {
  st_size : Z;
  st_type : NodeType
}.

(** Rust's [Result<A, ()>]. *)
Notation res A := (result A unit).

(** The bytes [read] copies to the front of the caller's buffer are its
    result; their number is the [usize] the method returns.
    @src ross-kernel/src/vfs.rs 17-26 VfsNode *)
Class VfsNode (W N : Type) := {
  attribute : N -> M W Stat;
  read : N -> Z -> Z -> M W (res (list Z));
  readdir : N -> M W (res (list str));
  finddir : N -> str -> M W (res N);
  write : N -> Z -> list Z -> M W (res Z);
  create_in : N -> str -> M W (res N)
}.

(** The default methods: read-only.
    @src ross-kernel/src/vfs.rs 24-24 VfsNode::write *)
Definition default_write {W N : Type} (_ : N) (_ : Z) (_ : list Z) : M W (res Z) := mret (Err tt).
(** @src ross-kernel/src/vfs.rs 25-25 VfsNode::create *)
Definition default_create {W N : Type} (_ : N) (_ : str) : M W (res N) := mret (Err tt).

(** @src ross-kernel/src/vfs.rs 28-32 VfsRoot *)
Record VfsRoot (N : Type) := mkVfs {
  root_node : option N;
  disk_root : option N
}.
Arguments mkVfs {N}.
Arguments root_node {N}.
Arguments disk_root {N}.

(** @src ross-kernel/src/vfs.rs 34-37 VFS *)
Definition VFS {N} : VfsRoot N := mkVfs None None.

(** @src ross-kernel/src/vfs.rs 39-42 init *)
Definition init {N} (root : N) (vfs : VfsRoot N) : VfsRoot N := mkVfs (Some root) (disk_root vfs).

(** @src ross-kernel/src/vfs.rs 44-48 mount_disk *)
Definition mount_disk {N} (root : N) (vfs : VfsRoot N) : VfsRoot N := mkVfs (root_node vfs) (Some root).

Definition mnt_disk : str := lit "mnt/disk".

Section vfs.
Context {W N : Type} `{VfsNode W N}.

(** The loop over the components of a path.
    @src ross-kernel/src/vfs.rs 76-78 open *)
Fixpoint walk (current : N) (cs : list str) : M W (res N) :=
  match cs with
  | [] => mret (Ok current)
  | component :: cs =>
      current ←? finddir current component;
      walk current cs
  end.

(** [root.as_ref().ok_or(())?]. *)
Definition ok_or (o : option N) : M W (res N) :=
  mret (match o with Some n => Ok n | None => Err tt end).

(** @src ross-kernel/src/vfs.rs 61-80 open *)
Definition open (vfs : VfsRoot N) (path : str) : M W (res N) :=
  let trimmed := trim_start_matches slash path in
  match strip_prefix mnt_disk trimmed with
  | Some rest =>
      current ←? ok_or (disk_root vfs);
      let rest := trim_start_matches slash rest in
      walk current (components rest)
  | None =>
      current ←? ok_or (root_node vfs);
      walk current (components trimmed)
  end.

(** @src ross-kernel/src/vfs.rs 50-59 create *)
Definition create (vfs : VfsRoot N) (path : str) : M W (res N) :=
  let trimmed := trim_start_matches slash path in
  let '(parent_path, name) :=
    match rsplit slash trimmed with
    | Some (l, r) => (l, r)
    | None => ([], trimmed)
    end in
  parent ←? (if non_empty parent_path then open vfs parent_path else open vfs (lit "/"));
  create_in parent name.

(** ** What [open] resolves *)

(** The mount a list of components is looked up in, and what is left of it:
    the prefix test does not look at the separator after [mnt/disk]. *)
Definition route (vfs : VfsRoot N) (cs : list str) : option N * list str :=
  match cs with
  | m :: d :: rest =>
      if decide (m = lit "mnt") then
        match strip_prefix (lit "disk") d with
        | Some [] => (disk_root vfs, rest)
        | Some r => (disk_root vfs, r :: rest)
        | None => (root_node vfs, cs)
        end
      else (root_node vfs, cs)
  | _ => (root_node vfs, cs)
  end.

Definition resolve (vfs : VfsRoot N) (cs : list str) : M W (res N) :=
  let '(mount, cs) := route vfs cs in
  current ←? ok_or mount; walk current cs.

Lemma join_cons p q ps : join slash (p :: q :: ps) = p ++ slash :: join slash (q :: ps).
Proof. done. Qed.

Lemma name_head p s : name_ok p -> trim_start_matches slash (p ++ s) = p ++ s.
Proof.
  intros [Hne Hs]. apply trim_start_not. intros r E. destruct p as [|b p]; [done|].
  simpl in E. simplify_eq. apply Hs. by left.
Qed.

Lemma name_join ps : Forall name_ok ps -> trim_start_matches slash (join slash ps) = join slash ps.
Proof.
  intros Hp. destruct Hp as [|p ps Hp Hps]; [done|]. destruct ps as [|q ps].
  - simpl. rewrite <- (app_nil_r p). by apply name_head.
  - rewrite join_cons. by apply name_head.
Qed.

(** A component list starts with [mnt] and a name with prefix [disk], or the
    joined path does not start with [mnt/disk]. *)
Lemma mnt_disk_split : mnt_disk = lit "mnt" ++ slash :: lit "disk".
Proof. done. Qed.

Lemma strip_prefix_split p q s :
  strip_prefix (p ++ q) s = match strip_prefix p s with Some r => strip_prefix q r | None => None end.
Proof.
  revert s. induction p as [|a p IH]; intros s; simpl; [by destruct s|].
  destruct s as [|b s]; [done|]. destruct (a =? b); [apply IH|done].
Qed.

Lemma strip_prefix_name p q c s :
  c ∉ p -> strip_prefix p (q ++ c :: s) =
    match strip_prefix p q with Some r => Some (r ++ c :: s) | None => None end.
Proof.
  revert q. induction p as [|a p IH]; intros q Hc; simpl; [by destruct q|].
  destruct q as [|b q]; simpl.
  - rewrite (proj2 (Z.eqb_neq _ _)); [done|]. intros ->. apply Hc. by left.
  - destruct (a =? b); [|done]. apply IH. set_solver.
Qed.

Lemma strip_prefix_exact p q r : strip_prefix p q = Some r -> q = p ++ r.
Proof. apply strip_prefix_some. Qed.

Lemma route_prefix m d rest :
  name_ok m -> strip_prefix mnt_disk (join slash (m :: d :: rest)) =
    if decide (m = lit "mnt") then strip_prefix (lit "disk") (join slash (d :: rest)) else None.
Proof.
  intros [Hne Hs]. rewrite join_cons, mnt_disk_split, strip_prefix_split.
  rewrite strip_prefix_name by not_in_lit.
  destruct (strip_prefix (lit "mnt") m) as [r|] eqn:E.
  - apply strip_prefix_some in E as ->. destruct r as [|b r].
    + rewrite decide_True by done. done.
    + rewrite decide_False by (intros E; apply (f_equal length) in E; by rewrite length_app in E; simpl in E; lia).
      cbn [app strip_prefix]. destruct (Z.eqb_spec slash b) as [<-|]; [|done].
      exfalso. apply Hs, elem_of_app. right. by left.
  - rewrite decide_False; [done|]. intros ->. by rewrite <- (app_nil_r (lit "mnt")), strip_prefix_app in E.
Qed.


Lemma no_slash_disk m : slash ∉ m -> strip_prefix mnt_disk m = None.
Proof.
  intros Hs. destruct (strip_prefix mnt_disk m) as [r|] eqn:E; [|done].
  apply strip_prefix_some in E as ->. exfalso. apply Hs. rewrite mnt_disk_split.
  rewrite !elem_of_app. left. right. by left.
Qed.

Lemma components_join_head r rest :
  slash ∉ r -> Forall name_ok rest ->
  components (join slash (r :: rest)) = if decide (r = []) then rest else r :: rest.
Proof.
  intros Hr Hrest. case_decide as E; [subst|apply components_join; by constructor].
  destruct rest as [|q qs]; [done|]. rewrite join_cons.
  change ([] ++ slash :: join slash (q :: qs)) with (slash :: join slash (q :: qs)).
  rewrite components_slash. by apply components_join.
Qed.

Lemma strip_disk_join d rest :
  strip_prefix (lit "disk") (join slash (d :: rest)) =
    (fun r => join slash (r :: rest)) <$> strip_prefix (lit "disk") d.
Proof.
  destruct rest as [|q qs].
  - simpl join. by destruct (strip_prefix _ d).
  - rewrite join_cons, strip_prefix_name.
    + by destruct (strip_prefix (lit "disk") d).
    + not_in_lit.
Qed.

(** The part of [open] after trimming, on a joined path. *)
Lemma open_trimmed vfs path cs :
  trim_start_matches slash path = join slash cs -> Forall name_ok cs ->
  open vfs path = resolve vfs cs.
Proof.
  intros Ht Hcs. unfold open, resolve. rewrite Ht.
  pose proof (components_join cs Hcs) as Hc. destruct cs as [|m [|d rest]]; cbn [route].
  - done.
  - apply Forall_cons in Hcs as [[_ Hs] _]. simpl join in *. by rewrite no_slash_disk, Hc.
  - apply Forall_cons in Hcs as [Hm Hcs]. rewrite (route_prefix m d rest Hm). case_decide; [|by rewrite Hc].
    apply Forall_cons in Hcs as [[_ Hd] Hrest].
    rewrite strip_disk_join. destruct (strip_prefix (lit "disk") d) as [r|] eqn:E;
      cbn [fmap option_fmap option_map]; [|by rewrite Hc].
    rewrite components_trim, components_join_head; [|intros Hr; apply Hd|done].
    + by destruct r.
    + apply strip_prefix_some in E as ->. apply elem_of_app. by right.
Qed.

Lemma join_snoc ps name : ps <> [] -> join slash (ps ++ [name]) = join slash ps ++ slash :: name.
Proof.
  intros Hne. induction ps as [|p ps IH]; [done|]. destruct ps as [|q ps]; [done|].
  change (join slash ((p :: q :: ps) ++ [name])) with (p ++ slash :: join slash ((q :: ps) ++ [name])).
  rewrite IH, join_cons by done. by rewrite <- app_assoc.
Qed.

Lemma join_non_empty ps : ps <> [] -> Forall name_ok ps -> non_empty (join slash ps) = true.
Proof.
  intros Hne Hp. destruct Hp as [|p ps [Hp _] _]; [done|].
  destruct p; [done|]. by destruct ps.
Qed.

Lemma create_ok vfs ps name :
  Forall name_ok (ps ++ [name]) ->
  create vfs (slash :: join slash (ps ++ [name])) =
    (parent ←? resolve vfs ps; create_in parent name).
Proof.
  intros Hall. pose proof Hall as [Hps Hn]%Forall_app. apply Forall_cons in Hn as [[_ Hn] _].
  unfold create. change (trim_start_matches slash (slash :: join slash (ps ++ [name])))
    with (trim_start_matches slash (join slash (ps ++ [name]))).
  rewrite name_join by done. destruct (decide (ps = [])) as [->|Hne].
  - simpl join. rewrite rsplit_none by done. done.
  - rewrite join_snoc, rsplit_last, join_non_empty by done.
    f_equal. apply open_trimmed; [by apply name_join|done].
Qed.

End vfs.

(** ** Properties *)

(** C25: [open] of an absolute path with the given components looks them up one
    after the other from the root node; a path whose first component is [mnt]
    and whose second starts with [disk] is looked up on the disk instead, from
    what follows the prefix on.  (So [/mnt/diskfoo] is the file [foo] of the
    disk: the separator after [mnt/disk] is not tested.)  [create] asks the
    node [open] finds for the leading components to create the last one. *)
Theorem open_create_spec {W N : Type} `{VfsNode W N} (vfs : VfsRoot N) (cs : list str) (name : str)
    (Hcs : Forall name_ok cs) (Hn : name_ok name) (w : W) :
  open vfs (slash :: join slash cs) w = resolve vfs cs w /\
  open vfs (slash :: join slash (lit "mnt" :: (lit "disk" ++ name) :: cs)) w =
    (root ←? ok_or (disk_root vfs); walk root (name :: cs)) w /\
  create vfs (slash :: join slash (cs ++ [name])) w =
    (parent ←? open vfs (slash :: join slash cs); create_in parent name) w.
Proof.
  assert (forall ps, Forall name_ok ps -> open vfs (slash :: join slash ps) = resolve vfs ps) as Ho.
  { intros ps Hps. apply open_trimmed; [|done].
    change (trim_start_matches slash (slash :: join slash ps)) with (trim_start_matches slash (join slash ps)).
    by apply name_join. }
  split_and!.
  - by rewrite Ho.
  - rewrite Ho.
    + unfold resolve, route. rewrite decide_True, strip_prefix_app by done. by destruct name, Hn.
    + repeat constructor; try done.
      * not_in_lit.
      * rewrite elem_of_app. intros [Hx|Hx]; [revert Hx; not_in_lit|by apply Hn].
  - rewrite create_ok, Ho; [done|done|]. apply Forall_app. by repeat constructor; try apply Hn.
Qed.

(** ** Witness *)

(** Every name exists in every directory. *)
#[local] Instance echo_node : VfsNode nat (list str) := {
  attribute n := mret (mkStat (Z.of_nat (length n)) Directory);
  read _ _ _ := mret (Err tt);
  readdir _ := mret (Err tt);
  finddir n s := fun w => Ret (Ok (n ++ [s]), S w);
  write := default_write;
  create_in := default_create
}.

Lemma open_create_spec_witness :
  open (mkVfs (Some []) (Some [lit "DISK"])) (lit "/mnt/diskfoo/x") 0%nat =
    Ret (Ok [lit "DISK"; lit "foo"; lit "x"], 2%nat).
Proof.
  destruct (open_create_spec (mkVfs (Some []) (Some [lit "DISK"])) [lit "x"] (lit "foo"))
    with (w := 0%nat) as (_ & Ho & _).
  - repeat constructor; [done|not_in_lit].
  - split; [done|not_in_lit].
  - exact Ho.
Defined.
