(* ===== verification/Ramfs.v ===== *)
(** * The initial ramdisk ([ross-kernel/src/ramfs.rs])

    [TarFileSystem::new] parses a ustar archive held in memory; the file
    system it yields is a flat directory of read-only files. *)

From Stdlib Require Import String.
From S2P Require Import Prelude Bytes Str Vfs.

(** The fields of the 512-byte header the parser looks at.
    @src ross-kernel/src/ramfs.rs 7-25 TarHeader *)
Record TarHeader := mkHeader {
  h_name : list Z;
  h_size : list Z;
  h_magic : list Z
}.

(** The header at [offset], by the [repr(C)] layout.
    @src ross-kernel/src/ramfs.rs 68-68 TarFileSystem::new *)
Definition header_at (data : list Z) (offset : Z) : TarHeader :=
  {| h_name := sub data offset 100;
     h_size := sub data (offset + 124) 12;
     h_magic := sub data (offset + 257) 6 |}.

(** @src ross-kernel/src/ramfs.rs 27-30 TarFile *)
Record TarFile := mkTar {
  tf_name : str;
  tf_data : list Z
}.

(** The name of an entry.
    @src ross-kernel/src/ramfs.rs 75-78 TarFileSystem::new *)
Definition entry_name (header : TarHeader) : str :=
  let name := trim_matches 0 (if utf8_valid (h_name header) then h_name header else []) in
  if starts_with (lit "./") name then drop 2 name else name.

(** The size of an entry.
    @src ross-kernel/src/ramfs.rs 80-82 TarFileSystem::new *)
Definition entry_size (header : TarHeader) : Z :=
  let size_str := if utf8_valid (h_size header) then h_size header else lit "0" in
  match from_str_radix8 (trim (trim_matches 0 size_str)) with Some n => n | None => 0 end.

(** [offset + 512 + ((size + 511) & !511)], with the overflow checks.
    @src ross-kernel/src/ramfs.rs 98-98 TarFileSystem::new *)
Definition next_offset (offset size : Z) : outcome Z :=
  padded ← cadd 64 size 511;
  step ← cadd 64 512 (Z.land padded (notw 64 511));
  cadd 64 offset step.

(** One turn of the loop: the file it adds, if any, and the next offset, or
    [None] when the loop ends.
    @src ross-kernel/src/ramfs.rs 67-99 TarFileSystem::new *)
Definition parse_entry (data : list Z) (offset : Z) : outcome (option (option TarFile * Z)) :=
  if negb (offset + 512 <=? Z.of_nat (length data)) then mret None
  else
    let header := header_at data offset in
    if negb (bool_decide (take 5 (h_magic header) = lit "ustar")) then mret None
    else
      let name := entry_name header in
      let size := entry_size header in
      if negb (non_empty name) || bool_decide (name = lit ".") then
        next ← next_offset offset size; mret (Some (None, next))
      else
        stop ← cadd 64 (offset + 512) size;
        file_data ← slice data (offset + 512) stop;
        next ← next_offset offset size;
        mret (Some (Some (mkTar name file_data), next)).

(** @src ross-kernel/src/ramfs.rs 67-99 TarFileSystem::new *)
Fixpoint parse_from (fuel : nat) (data : list Z) (offset : Z) : outcome (list TarFile) :=
  match fuel with
  | O => Diverge
  | S fuel =>
      r ← parse_entry data offset;
      match r with
      | None => mret []
      | Some (file, next) =>
          files ← parse_from fuel data next;
          mret (match file with Some f => f :: files | None => files end)
      end
  end.

(** Every turn moves at least one block ahead.
    @src ross-kernel/src/ramfs.rs 62-102 TarFileSystem::new *)
Definition TarFileSystem_new (data : list Z) : outcome (list TarFile) :=
  parse_from (S (length data / 512)) data 0.

(** ** The nodes *)

(** @src ross-kernel/src/ramfs.rs 57-59 TarFileSystem *)
Inductive ram_node :=
  | RFile (f : TarFile)
  | RDir (files : list TarFile).

Section nodes.
Context {W : Type}.

(** @src ross-kernel/src/ramfs.rs 33-38 TarFile::attribute *)
Definition ram_attribute (n : ram_node) : M W Stat :=
  match n with
  | RFile f => mret (mkStat (Z.of_nat (length (tf_data f))) File)
  | RDir _ => mret (mkStat 0 Directory)
  end.

(** @src ross-kernel/src/ramfs.rs 40-48 TarFile::read *)
Definition ram_read (n : ram_node) (offset len : Z) : M W (res (list Z)) :=
  match n with
  | RFile f =>
      if Z.of_nat (length (tf_data f)) <=? offset then mret (Ok [])
      else
        let available := Z.of_nat (length (tf_data f)) - offset in
        let to_copy := Z.min available len in
        mret (Ok (sub (tf_data f) offset to_copy))
  | RDir _ => mret (Err tt)
  end.

(** @src ross-kernel/src/ramfs.rs 112-114 TarFileSystem::readdir *)
Definition ram_readdir (n : ram_node) : M W (res (list str)) :=
  match n with
  | RFile _ => mret (Err tt)
  | RDir files => mret (Ok (tf_name <$> files))
  end.

(** @src ross-kernel/src/ramfs.rs 117-122 TarFileSystem::finddir *)
Fixpoint find_file (files : list TarFile) (name : str) : res ram_node :=
  match files with
  | [] => Err tt
  | file :: files => if bool_decide (tf_name file = name) then Ok (RFile file) else find_file files name
  end.

(** @src ross-kernel/src/ramfs.rs 116-124 TarFileSystem::finddir *)
Definition ram_finddir (n : ram_node) (name : str) : M W (res ram_node) :=
  match n with
  | RFile _ => mret (Err tt)
  | RDir files => mret (find_file files name)
  end.

#[global] Instance ram_nodes : VfsNode W ram_node := {
  attribute := ram_attribute;
  read := ram_read;
  readdir := ram_readdir;
  finddir := ram_finddir;
  write := default_write;
  create_in := default_create
}.

End nodes.

(** ** Rounding *)

Lemma land_511 x : fits 64 x -> Z.land x (notw 64 511) = x / 512 * 512.
Proof.
  intros Hx. change 512 with (2 ^ 9).
  rewrite <- (Z.shiftr_div_pow2 x 9), <- (Z.shiftl_mul_pow2 _ 9) by lia. unfold notw.
  change 511 with (Z.ones 9). replace (2 ^ 64 - 1) with (Z.ones 64) by reflexivity. bitwise.
Qed.

(** The size rounded up to whole blocks. *)
Definition blocks (size : Z) : Z := (size + 511) / 512 * 512.

Lemma next_offset_ok offset size :
  0 <= offset -> 0 <= size -> offset + 512 + blocks size < 2 ^ 63 ->
  next_offset offset size = Ret (offset + 512 + blocks size).
Proof.
  intros Ho Hs Hb. unfold blocks in *. assert (size <= (size + 511) / 512 * 512) by dm_lia.
  unfold next_offset, cadd. rewrite (proj2 (Z.ltb_lt (size + 511) _)) by lia.
  cbn [mbind outcome_bind]. rewrite land_511 by (unfold fits; lia).
  rewrite (proj2 (Z.ltb_lt _ _)) by lia. cbn [mbind outcome_bind].
  rewrite (proj2 (Z.ltb_lt _ _)) by lia. f_equal. lia.
Qed.

Lemma next_offset_progress offset size next :
  0 <= size < 2 ^ 64 -> next_offset offset size = Ret next -> offset + 512 <= next.
Proof.
  intros Hs. unfold next_offset, cadd. destruct (Z.ltb_spec (size + 511) (2 ^ 64)); [|done].
  cbn [mbind outcome_bind]. rewrite land_511 by (unfold fits; lia).
  destruct (_ <? _); [|done]. cbn [mbind outcome_bind]. destruct (_ <? _); [|done].
  intros [= <-]. assert (0 <= (size + 511) / 512) by (apply Z.div_pos; lia). lia.
Qed.

(** ** The parser always ends *)

Lemma octal_from_range acc s v : 0 <= acc < 2 ^ 64 -> octal_from acc s = Some v -> 0 <= v < 2 ^ 64.
Proof.
  revert acc. induction s as [|b s IH]; intros acc Ha; simpl; [by intros [= <-]|].
  unfold in_range. destruct (Z.leb_spec 48 b); [|done]. destruct (_ <=? 55); [|done]. simpl andb. cbv iota.
  destruct (Z.ltb_spec (acc * 8 + (b - 48)) (2 ^ 64)); [|done]. apply IH. lia.
Qed.

Lemma entry_size_range h : 0 <= entry_size h < 2 ^ 64.
Proof.
  unfold entry_size. destruct (from_str_radix8 _) as [v|] eqn:E; [|lia].
  unfold from_str_radix8 in E. destruct (trim _) as [|b [|c s]]; [done| |].
  - unfold in_range in E. bool_lia.
  - destruct (b =? 43); by eapply octal_from_range in E.
Qed.

Lemma parse_entry_progress data offset f next :
  0 <= offset -> parse_entry data offset = Ret (Some (f, next)) ->
  offset + 512 <= next /\ offset + 512 <= Z.of_nat (length data).
Proof.
  intros Ho. unfold parse_entry. destruct (Z.leb_spec (offset + 512) (Z.of_nat (length data))); [|done].
  cbn [negb]. destruct (negb (bool_decide _)); [done|].
  pose proof (entry_size_range (header_at data offset)) as Hs.
  set (size := entry_size _) in *. destruct (_ || _).
  - destruct (next_offset offset size) as [x| |] eqn:E; [|done..]. cbn. intros [= <- <-].
    apply next_offset_progress in E; [|done]. done.
  - destruct (cadd 64 (offset + 512) size) as [stop| |]; [|done..]. cbn [mbind outcome_bind].
    destruct (slice data (offset + 512) stop); [|done..]. cbn [mbind outcome_bind].
    destruct (next_offset offset size) as [x| |] eqn:E; [|done..]. cbn. intros [= <- <-].
    apply next_offset_progress in E; [|done]. done.
Qed.

Lemma parse_entry_no_diverge data offset : parse_entry data offset <> Diverge.
Proof.
  unfold parse_entry, slice, next_offset, cadd. repeat (case_match; cbn [mbind outcome_bind] in *; try done).
Qed.

Lemma parse_from_total fuel : forall data offset,
  0 <= offset -> (0 < fuel)%nat -> Z.of_nat (length data) < offset + 512 * Z.of_nat fuel ->
  parse_from fuel data offset <> Diverge.
Proof.
  induction fuel as [|fuel IH]; intros data offset Ho Hf Hl; [lia|]. cbn [parse_from].
  destruct (parse_entry data offset) as [[[f next]|]| |] eqn:E; cbn [mbind outcome_bind]; try done.
  - apply parse_entry_progress in E as [Hn Hlen]; [|done].
    assert (parse_from fuel data next <> Diverge) as Hd by (apply IH; lia).
    destruct (parse_from fuel data next); cbn; [by destruct f|done|done].
  - by apply parse_entry_no_diverge in E.
Qed.

(** ** Archives *)

(** A header of 512 bytes for the raw name and the size of a file, whatever
    its other fields hold. *)
Record header_ok (h : list Z) (raw : str) (size : Z) : Prop := {
  hd_len : length h = 512%nat;
  hd_name : sub h 0 100 = raw ++ replicate (100 - length raw) 0;
  hd_raw : Forall (fun b => 1 <= b < 128) raw /\ raw <> [];
  hd_size : sub h 124 12 = octal 11 size ++ [0];
  hd_magic : take 5 (sub h 257 6) = lit "ustar"
}.

(** An entry of an archive: header, contents, padding to whole blocks. *)
Record tar_entry := mkEntry {
  e_header : list Z;
  e_raw : str;
  e_data : list Z;
  e_pad : list Z
}.

Definition entry_ok (e : tar_entry) : Prop :=
  let size := Z.of_nat (length (e_data e)) in
  header_ok (e_header e) (e_raw e) size /\ size < 8 ^ 11 /\
  Z.of_nat (length (e_pad e)) = blocks size - size.

Definition entry_bytes (e : tar_entry) : list Z := e_header e ++ e_data e ++ e_pad e.

(** The file an entry stands for; the directory itself is not listed. *)
Definition entry_file (e : tar_entry) : option TarFile :=
  let name := if starts_with (lit "./") (e_raw e) then drop 2 (e_raw e) else e_raw e in
  if negb (non_empty name) || bool_decide (name = lit ".") then None else Some (mkTar name (e_data e)).

(** What follows the entries: too short for a header, or not a header. *)
Definition end_ok (rest : list Z) : Prop :=
  Z.of_nat (length rest) < 512 \/ take 5 (sub rest 257 6) <> lit "ustar".

Lemma ascii_pad raw n : Forall (fun b => 1 <= b < 128) raw -> Forall ascii_byte (raw ++ replicate n 0).
Proof.
  intros Hr. apply Forall_app. split.
  - eapply Forall_impl; [exact Hr|]. unfold ascii_byte. simpl. lia.
  - apply Forall_replicate. by vm_compute.
Qed.

Lemma raw_ends raw :
  Forall (fun b => 1 <= b < 128) raw ->
  (forall r, raw <> 0 :: r) /\ (forall r, raw <> r ++ [0]).
Proof.
  intros Hr. split; intros r ->.
  - apply Forall_cons in Hr as [? _]. lia.
  - apply Forall_app in Hr as [_ Hr]. apply Forall_cons in Hr as [? _]. lia.
Qed.

Lemma header_name h raw size :
  header_ok h raw size ->
  entry_name {| h_name := sub h 0 100; h_size := sub h 124 12; h_magic := sub h 257 6 |} =
    if starts_with (lit "./") raw then drop 2 raw else raw.
Proof.
  intros Hh. destruct (hd_raw _ _ _ Hh) as [Hr Hne]. destruct (raw_ends raw Hr) as [H1 H2].
  unfold entry_name. simpl h_name. rewrite (hd_name _ _ _ Hh), utf8_ascii by by apply ascii_pad.
  by rewrite trim_matches_pad.
Qed.

Lemma octal_nonempty n x : octal (S n) x <> [].
Proof. intros E. apply (f_equal length) in E. by rewrite length_octal in E. Qed.

Lemma octal_trim n x : trim (octal (S n) x) = octal (S n) x.
Proof.
  assert (forall b, 48 <= b <= 55 -> in_range 9 13 b || (b =? 32) = false) as Hr
    by (intros b Hb; unfold in_range; bool_lia).
  assert (forall b k, 48 <= b <= 55 -> 56 <= k -> (b =? k) = false) as Hk by (intros; apply Z.eqb_neq; lia).
  assert (forall s, Forall (fun b => 48 <= b <= 55) s -> ws_head s = O /\ ws_last s = O) as Hws.
  { intros s Hs. destruct Hs as [|b s Hb Hs]; [done|].
    unfold ws_last, ws_head. rewrite Hr by done. split.
    - destruct Hs as [|c s Hc Hs]; [done|]. rewrite !Hk by (done || lia). simpl. by destruct Hs.
    - destruct Hs as [|c s Hc Hs]; [done|]. rewrite Hr, !(Hk c) by (done || lia). simpl.
      destruct Hs as [|d s Hd Hs]; [done|]. rewrite Hr, !(Hk d), ?(Hk c) by (done || lia). done. }
  apply trim_nothing.
  - apply Hws, octal_digits.
  - apply Hws. apply Forall_reverse, octal_digits.
Qed.

Lemma header_size h raw size :
  header_ok h raw size -> 0 <= size < 8 ^ 11 ->
  entry_size {| h_name := sub h 0 100; h_size := sub h 124 12; h_magic := sub h 257 6 |} = size.
Proof.
  intros Hh Hs. unfold entry_size. simpl h_size. rewrite (hd_size _ _ _ Hh).
  pose proof (octal_digits 11 size) as Hd.
  assert (Forall (fun b => 1 <= b < 128) (octal 11 size)) as Hr.
  { eapply Forall_impl; [exact Hd|]. simpl. lia. }
  destruct (raw_ends _ Hr) as [H1 H2].
  rewrite utf8_ascii by by apply (ascii_pad _ 1).
  change [0] with (replicate 1 0). rewrite trim_matches_pad by (done || apply octal_nonempty).
  rewrite octal_trim. assert (octal_from 0 (octal 11 size) = Some size) as Ho.
  { apply octal_from_octal; [done|]. lia. }
  pose proof (length_octal 11 size) as Hl. unfold from_str_radix8.
  destruct (octal 11 size) as [|b [|c s]]; [done|done|].
  apply Forall_cons in Hd as [Hb _]. rewrite (proj2 (Z.eqb_neq b 43)) by lia. by rewrite Ho.
Qed.

Lemma header_at_app pre h rest :
  length h = 512%nat ->
  header_at (pre ++ h ++ rest) (Z.of_nat (length pre)) =
    {| h_name := sub h 0 100; h_size := sub h 124 12; h_magic := sub h 257 6 |}.
Proof.
  intros Hl. unfold header_at. f_equal.
  - rewrite sub_app_r, Z.sub_diag, sub_app_l by lia. done.
  - rewrite sub_app_r, sub_app_l by lia. f_equal. lia.
  - rewrite sub_app_r, sub_app_l by lia. f_equal. lia.
Qed.

Lemma slice_app pre l rest :
  slice (pre ++ l ++ rest) (Z.of_nat (length pre)) (Z.of_nat (length pre) + Z.of_nat (length l)) = Ret l.
Proof.
  unfold slice. rewrite (proj2 (Z.leb_le _ _)), (proj2 (Z.leb_le _ _)).
  - simpl. f_equal. rewrite sub_app_r, sub_app_l by lia. rewrite Z.sub_diag. apply sub_all. lia.
  - rewrite !length_app. lia.
  - lia.
Qed.

Lemma entry_len e :
  entry_ok e -> Z.of_nat (length (entry_bytes e)) = 512 + blocks (Z.of_nat (length (e_data e))) /\
    0 <= Z.of_nat (length (e_data e)) <= blocks (Z.of_nat (length (e_data e))).
Proof.
  intros (Hh & Hs & Hp). unfold entry_bytes. rewrite !length_app, (hd_len _ _ _ Hh).
  unfold blocks in *. split; [lia|]. dm_lia.
Qed.

Lemma parse_entry_app pre e rest :
  entry_ok e -> Z.of_nat (length (pre ++ entry_bytes e)) < 2 ^ 62 ->
  parse_entry (pre ++ entry_bytes e ++ rest) (Z.of_nat (length pre)) =
    Ret (Some (entry_file e, Z.of_nat (length (pre ++ entry_bytes e)))).
Proof.
  intros He Hlen. destruct (entry_len e He) as [Hel Hd]. destruct He as (Hh & Hs & Hp).
  rewrite length_app in Hlen. unfold parse_entry.
  rewrite (proj2 (Z.leb_le _ _)) by (rewrite !length_app; lia). cbn [negb].
  assert (header_at (pre ++ entry_bytes e ++ rest) (Z.of_nat (length pre)) =
    {| h_name := sub (e_header e) 0 100; h_size := sub (e_header e) 124 12;
       h_magic := sub (e_header e) 257 6 |}) as ->.
  { unfold entry_bytes. rewrite <- !app_assoc. apply header_at_app, Hh. }
  rewrite (header_name _ _ _ Hh), (header_size _ _ _ Hh) by (split; [lia|exact Hs]). simpl h_magic.
  rewrite bool_decide_eq_true_2 by apply Hh. cbn [negb]. rewrite next_offset_ok by lia.
  cbn [mbind outcome_bind]. unfold cadd. rewrite (proj2 (Z.ltb_lt _ _)) by lia. cbn [mbind outcome_bind].
  assert (slice (pre ++ entry_bytes e ++ rest) (Z.of_nat (length pre) + 512)
    (Z.of_nat (length pre) + 512 + Z.of_nat (length (e_data e))) = Ret (e_data e)) as ->.
  { pose proof (slice_app (pre ++ e_header e) (e_data e) (e_pad e ++ rest)) as Hsl.
    rewrite length_app, (hd_len _ _ _ Hh) in Hsl. unfold entry_bytes.
    rewrite <- !app_assoc in Hsl. rewrite <- Hsl. f_equal; [by rewrite <- !app_assoc|lia|lia]. }
  cbn [mbind outcome_bind]. unfold entry_file. rewrite length_app.
  replace (Z.of_nat (length pre) + 512 + blocks (Z.of_nat (length (e_data e))))
    with (Z.of_nat (length pre + length (entry_bytes e))) by lia.
  by destruct (_ || _).
Qed.

Lemma parse_entry_end pre rest : end_ok rest -> parse_entry (pre ++ rest) (Z.of_nat (length pre)) = Ret None.
Proof.
  intros He. unfold parse_entry.
  destruct (Z.leb_spec (Z.of_nat (length pre) + 512) (Z.of_nat (length (pre ++ rest)))) as [Hle|]; [|done].
  rewrite length_app in Hle. destruct He as [|He]; [lia|]. cbn [negb].
  unfold header_at. simpl h_magic. rewrite sub_app_r by lia.
  replace (Z.of_nat (length pre) + 257 - Z.of_nat (length pre)) with 257 by lia.
  by rewrite bool_decide_eq_false_2.
Qed.

Definition archive (es : list tar_entry) : list Z := mjoin (entry_bytes <$> es).

Lemma parse_archive es : forall pre rest fuel,
  Forall entry_ok es -> end_ok rest -> Z.of_nat (length (pre ++ archive es)) < 2 ^ 62 ->
  (length es < fuel)%nat ->
  parse_from fuel (pre ++ archive es ++ rest) (Z.of_nat (length pre)) = Ret (omap entry_file es).
Proof.
  induction es as [|e es IH]; intros pre rest fuel Hes Hr Hl Hf; (destruct fuel as [|fuel]; [simpl in Hf; lia|]).
  - cbn [parse_from]. simpl app. by rewrite parse_entry_end.
  - apply Forall_cons in Hes as [He Hes]. cbn [parse_from].
    change (archive (e :: es)) with (entry_bytes e ++ archive es) in *.
    rewrite <- (app_assoc (entry_bytes e)). rewrite parse_entry_app; [|done|rewrite !length_app in *; lia].
    cbn [mbind outcome_bind]. rewrite app_assoc, IH; [|done|done| |simpl in Hf; lia].
    + cbn. by destruct (entry_file e).
    + by rewrite <- app_assoc.
Qed.

Lemma archive_blocks es : Forall entry_ok es -> (length es * 512 <= length (archive es))%nat.
Proof.
  induction 1 as [|e es He Hes IH]; [done|]. destruct (entry_len e He) as [Hl Hd].
  change (archive (e :: es)) with (entry_bytes e ++ archive es). rewrite length_app. simpl. lia.
Qed.

(** ** Lookups *)

Lemma find_file_first files name :
  match find_file files name with
  | Ok n => exists f l1 l2, n = RFile f /\ files = l1 ++ f :: l2 /\ tf_name f = name /\
      Forall (fun g => tf_name g <> name) l1
  | Err _ => Forall (fun g => tf_name g <> name) files
  end.
Proof.
  induction files as [|g files IH]; simpl; [done|]. case_bool_decide as Hg.
  - exists g, [], files. done.
  - destruct (find_file files name) as [n|]; [|by constructor].
    destruct IH as (f & l1 & l2 & -> & -> & Hn & Hl). exists f, (g :: l1), l2. split_and!; try done.
    by constructor.
Qed.

(** ** Properties *)

(** C20: parsing a ustar archive gives back exactly its files, in order and
    with their contents, for any number of entries of any sizes, whatever the
    headers hold in the other fields and whatever follows the last entry; a
    leading [./] is dropped from names and the directory itself is left out. *)
Theorem tar_roundtrip (es : list tar_entry) (rest : list Z)
    (Hes : Forall entry_ok es) (Hr : end_ok rest)
    (Hl : Z.of_nat (length (archive es)) < 2 ^ 62) :
  TarFileSystem_new (archive es ++ rest) = Ret (omap entry_file es).
Proof.
  unfold TarFileSystem_new. apply (parse_archive es [] rest); try done.
  pose proof (archive_blocks es Hes) as Hb. rewrite length_app.
  apply Nat.lt_succ_r, Nat.div_le_lower_bound; lia.
Qed.

(** C27: [TarFileSystem::new] terminates on every input (it may panic: a file
    that the archive promises but does not hold is an index out of range). *)
Theorem tar_total (data : list Z) :
  TarFileSystem_new data <> Diverge /\
  (forall e, entry_ok e -> e_data e <> [] -> is_Some (entry_file e) ->
     TarFileSystem_new (e_header e) = Panic).
Proof.
  split.
  - apply parse_from_total; [lia|lia|]. pose proof (Nat.mul_succ_div_gt (length data) 512). lia.
  - intros e (Hh & Hs & _) Hne [f Hf]. unfold TarFileSystem_new. cbn [parse_from].
    pose proof (header_at_app [] (e_header e) [] (hd_len _ _ _ Hh)) as Ha.
    rewrite app_nil_r in Ha. simpl app in Ha. simpl length in Ha.
    unfold parse_entry. change (Z.of_nat 0) with 0 in Ha.
    rewrite (hd_len _ _ _ Hh), Ha, (proj2 (Z.leb_le (0 + 512) (Z.of_nat 512))) by lia. cbn [negb].
    rewrite (header_name _ _ _ Hh), (header_size _ _ _ Hh) by (split; [lia|exact Hs]). simpl h_magic.
    rewrite bool_decide_eq_true_2 by apply Hh. cbn [negb].
    unfold entry_file in Hf. destruct (_ || _); [done|].
    assert (0 < Z.of_nat (length (e_data e)) < 2 ^ 62) as Hd.
    { split; [destruct (e_data e); [done|simpl; lia]|]. change (2 ^ 62) with (8 ^ 20 * 4). simpl in *. lia. }
    unfold cadd. rewrite (proj2 (Z.ltb_lt _ _)) by lia. cbn [mbind outcome_bind].
    unfold slice. rewrite (hd_len _ _ _ Hh), (proj2 (Z.leb_gt _ (Z.of_nat 512))), andb_false_r by lia. done.
Qed.

(** on the ramdisk [open] finds the first file of the archive whose whole
    name is the single component of the path, and no path reaches a file whose
    name contains a slash, although [readdir] lists it.  Reading answers
    exactly the bytes of the file in the requested range. *)
Theorem ramfs_lookup {W : Type} (files : list TarFile) (cs : list str) (w : W)
    (Hcs : Forall name_ok cs) (Hmnt : forall c cs', cs = c :: cs' -> c <> lit "mnt") :
  open (mkVfs (Some (RDir files)) None) (slash :: join slash cs) w =
    Ret (match cs with
         | [] => Ok (RDir files)
         | [c] => find_file files c
         | c :: _ => Err tt
         end, w) /\
  (forall n f w', open (mkVfs (Some (RDir files)) None) (slash :: join slash cs) w = Ret (Ok n, w') ->
     n = RFile f -> slash ∉ tf_name f) /\
  (forall f offset len, 0 <= offset -> 0 <= len ->
     read (RFile f) offset len w = Ret (Ok (take (Z.to_nat len) (drop (Z.to_nat offset) (tf_data f))), w)).
Proof.
  assert (open (mkVfs (Some (RDir files)) None) (slash :: join slash cs) w =
    Ret (match cs with
         | [] => Ok (RDir files)
         | [c] => find_file files c
         | c :: _ => Err tt
         end, w)) as Ho.
  { rewrite (open_trimmed _ _ cs); [|by apply name_join|done].
    unfold resolve, route. destruct cs as [|c [|d cs]].
    - done.
    - cbn. unfold try_bind, mbind, M_bind. cbn. unfold ram_finddir. by destruct (find_file files c).
    - rewrite decide_False by by eapply Hmnt. cbn. unfold try_bind, mbind, M_bind. cbn.
      unfold ram_finddir, mret, M_ret. pose proof (find_file_first files c) as Hf.
      destruct (find_file files c) as [n|[]]; [|done]. by destruct Hf as (f & ? & ? & -> & _). }
  split_and!; [done| |].
  - intros n f w' Hop ->. rewrite Ho in Hop. destruct cs as [|c [|d cs]]; [done| |done].
    pose proof (find_file_first files c) as Hf. destruct (find_file files c) as [n|]; [|done].
    destruct Hf as (g & ? & ? & -> & _ & Hn & _). simplify_eq. by apply Forall_cons in Hcs as [[_ ?] _].
  - intros f offset len Ho' Hl. cbn. unfold ram_read. destruct (Z.leb_spec (Z.of_nat (length (tf_data f))) offset).
    + rewrite drop_ge by lia. by rewrite take_nil.
    + unfold mret, M_ret, sub. do 3 f_equal. destruct (Z.le_ge_cases len (Z.of_nat (length (tf_data f)) - offset)).
      * f_equal. lia.
      * rewrite !take_ge; [done| |]; rewrite length_drop; lia.
Qed.

(** ** Witnesses *)

Definition demo_header (raw : str) (size : Z) : list Z :=
  raw ++ replicate (100 - length raw) 0 ++ replicate 24 48 ++ octal 11 size ++ [0] ++
  replicate 121 0 ++ lit "ustar" ++ replicate 250 0.

Definition demo_entry (raw : str) (d : list Z) : tar_entry :=
  mkEntry (demo_header raw (Z.of_nat (length d))) raw d (replicate (512 - length d) 0).

Lemma demo_entry_ok raw d :
  header_ok (demo_header raw (Z.of_nat (length d))) raw (Z.of_nat (length d)) ->
  (0 < length d <= 512)%nat -> entry_ok (demo_entry raw d).
Proof.
  intros Hh Hd. unfold entry_ok. simpl. split_and!; [done|lia|]. rewrite length_replicate.
  unfold blocks. dm_lia.
Qed.

Ltac demo_header :=
  constructor; [vm_compute; reflexivity..| |vm_compute; reflexivity|vm_compute; reflexivity];
  split; [apply (bool_decide_unpack (Forall _ _)); reflexivity|discriminate].

Definition demo_entries : list tar_entry :=
  [ demo_entry (lit "./init") [1; 2; 3]; demo_entry (lit "etc/motd") (lit "hi") ].

Lemma demo_entries_ok : Forall entry_ok demo_entries.
Proof.
  repeat apply Forall_cons_2; [| |by apply Forall_nil_2]; (apply demo_entry_ok; [demo_header|simpl; lia]).
Qed.

Lemma tar_roundtrip_witness :
  TarFileSystem_new (archive demo_entries ++ replicate 1024 0) =
    Ret [mkTar (lit "init") [1; 2; 3]; mkTar (lit "etc/motd") (lit "hi")].
Proof.
  apply (tar_roundtrip demo_entries (replicate 1024 0) demo_entries_ok).
  - right. vm_compute. discriminate.
  - vm_compute. reflexivity.
Defined.

Lemma tar_total_witness : TarFileSystem_new (demo_header (lit "init") 3) = Panic.
Proof.
  apply (proj2 (tar_total (demo_header (lit "init") 3)) (demo_entry (lit "init") [1; 2; 3])).
  - apply demo_entry_ok; [demo_header|simpl; lia].
  - discriminate.
  - eexists. vm_compute. reflexivity.
Defined.

Lemma ramfs_lookup_witness :
  open (mkVfs (Some (RDir [mkTar (lit "init") [7]])) None) (lit "/init") tt =
    Ret (Ok (RFile (mkTar (lit "init") [7])), tt).
Proof.
  apply (proj1 (ramfs_lookup [mkTar (lit "init") [7]] [lit "init"] tt
    ltac:(repeat constructor; [discriminate|not_in_lit]) ltac:(by intros c cs' [= <- _]))).
Defined.
