(* ===== verification/Elf.v ===== *)
(** * ELF images and the program loader ([elf.rs], [task.rs: spawn_process])

    The headers are read from the bytes of the file by their [repr(C)] layout;
    the loader maps the [PT_LOAD] segments and the user stack into a new
    address space.  Its theorem gives every byte the process finds there. *)

From Stdlib Require Import String.
From S2P Require Import Prelude Bytes Frames Pmm Paging Spaces Mmap Str Vfs Ramfs.

(** ** Headers *)

(** An [n]-byte field at offset [o]. *)
Definition field (data : list Z) (o n : Z) : Z := le_val (sub data o n).

(** @src ross-kernel/src/elf.rs 1-23 ElfHeader *)
Record ElfHeader := mkElf {
  magic : list Z;
  class : Z;
  e_entry : Z;
  e_phoff : Z;
  e_phentsize : Z;
  e_phnum : Z
}.

(** @src ross-kernel/src/elf.rs 25-36 ProgramHeader *)
Record ProgramHeader := mkPh {
  p_type : Z;
  p_flags : Z;
  p_offset : Z;
  p_vaddr : Z;
  p_paddr : Z;
  p_filesz : Z;
  p_memsz : Z;
  p_align : Z
}.

(** @src ross-kernel/src/elf.rs 38-38 PT_LOAD *)
Definition PT_LOAD : Z := 1.

(** The header at the start of the file.
    @src ross-kernel/src/task.rs 224-225 spawn_process *)
Definition elf_header (data : list Z) : ElfHeader :=
  {| magic := sub data 0 4; class := field data 4 1; e_entry := field data 24 8;
     e_phoff := field data 32 8; e_phentsize := field data 54 2; e_phnum := field data 56 2 |}.

(** @src ross-kernel/src/elf.rs 41-43 ElfHeader::is_valid *)
Definition is_valid (h : ElfHeader) : bool :=
  bool_decide (magic h = [0x7f; 69; 76; 70]) && (class h =? 2).

(** Size of a [ProgramHeader]; [e_phentsize] is read and ignored. *)
Definition PH_SIZE : Z := 56.

Definition program_header (data : list Z) (o : Z) : ProgramHeader :=
  {| p_type := field data o 4; p_flags := field data (o + 4) 4; p_offset := field data (o + 8) 8;
     p_vaddr := field data (o + 16) 8; p_paddr := field data (o + 24) 8;
     p_filesz := field data (o + 32) 8; p_memsz := field data (o + 40) 8; p_align := field data (o + 48) 8 |}.

(** The slice is made without a bounds check; a table that is not inside the
    file is undefined behaviour, here a panic.
    @src ross-kernel/src/elf.rs 45-56 ElfHeader::program_headers *)
Definition program_headers (h : ElfHeader) (data : list Z) : outcome (list ProgramHeader) :=
  let start := e_phoff h in
  let count := e_phnum h in
  if start + PH_SIZE * count <=? Z.of_nat (length data) then
    Ret ((fun i => program_header data (start + PH_SIZE * i)) <$> seqZ 0 count)
  else Panic.

(** ** Loading *)

Section loader.
Context {St : Type} `{FrameAllocator St}.

(** [!0xFFF] applied to an address. *)
Definition page_down (a : Z) : Z := Z.land a (notw 64 0xFFF).

(** The part of a page that comes from the file: offset in the page, offset
    in the segment's file image, and number of bytes.
    @src ross-kernel/src/task.rs 271-287 spawn_process *)
Definition copy_range (start_vaddr file_size current_page : Z) : option (Z * Z * Z) :=
  let page_offset := if current_page <? start_vaddr then start_vaddr - current_page else 0 in
  let vaddr_in_page := if current_page <? start_vaddr then start_vaddr else current_page in
  let file_offset_for_page := vaddr_in_page - start_vaddr in
  if file_offset_for_page <? file_size then
    Some (page_offset, file_offset_for_page, Z.min (file_size - file_offset_for_page) (4096 - page_offset))
  else None.

(** The frame behind [current_page]: the one an earlier segment mapped, or a
    new zeroed one.
    @src ross-kernel/src/task.rs 252-268 spawn_process *)
Definition segment_frame (cr3 : Z) (ph : ProgramHeader) (current_page : Z) : M (Vm St) (res Z) :=
  s ← get;
  found ← lift (lookup_page cr3 current_page (vmem s));
  match found with
  | Some p => mret (Ok p)
  | None =>
      phys ← alloc_frame;
      match phys with
      | None => mret (Err tt)
      | Some phys =>
          page_ptr ← lift (phys_to_virt phys);
          let page_flags := Z.lor (Z.lor 0x1 0x4) (if Z.land (p_flags ph) 0x2 =? 0 then 0 else 0x2) in
          map_user_page cr3 current_page phys page_flags;;
          modify_mem (fill (page_ptr - KERNEL_VMA_BASE) 0 4096);;
          mret (Ok phys)
      end
  end.

(** One turn of the loop over the pages of a segment.  Reading past the end
    of the file image is undefined behaviour, here a panic.
    @src ross-kernel/src/task.rs 247-297 spawn_process *)
Definition load_page (cr3 : Z) (data : list Z) (ph : ProgramHeader) (current_page : Z) : M (Vm St) (res unit) :=
  phys ←? segment_frame cr3 ph current_page;
  page_ptr ← lift (phys_to_virt phys);
  match copy_range (p_vaddr ph) (p_filesz ph) current_page with
  | None => mret (Ok tt)
  | Some (page_offset, file_off, bytes_to_copy) =>
      src ← lift (slice data (p_offset ph + file_off) (p_offset ph + file_off + bytes_to_copy));
      modify_mem (st_bytes src (page_ptr - KERNEL_VMA_BASE + page_offset));;
      mret (Ok tt)
  end.

(** [while current_page < page_end]. *)
Fixpoint load_pages (fuel : nat) (cr3 : Z) (data : list Z) (ph : ProgramHeader) (current_page page_end : Z)
  : M (Vm St) (res unit) :=
  match fuel with
  | O => fun _ => Diverge
  | S fuel =>
      if current_page <? page_end then
        _ ←? load_page cr3 data ph current_page;
        next ← lift (cadd 64 current_page 4096);
        load_pages fuel cr3 data ph next page_end
      else mret (Ok tt)
  end.

(** Page-aligned bounds of a segment.
    @src ross-kernel/src/task.rs 243-245 spawn_process *)
Definition segment_bounds (ph : ProgramHeader) : outcome (Z * Z) :=
  let page_start := page_down (p_vaddr ph) in
  e ← cadd 64 (p_vaddr ph) (p_memsz ph);
  e ← cadd 64 e 4095;
  mret (page_start, page_down e).

(** One segment; returns the new [heap_end].
    @src ross-kernel/src/task.rs 238-314 spawn_process *)
Definition load_segment (cr3 : Z) (data : list Z) (heap_end : Z) (ph : ProgramHeader) : M (Vm St) (res Z) :=
  if p_type ph =? PT_LOAD then
    '(page_start, page_end) ← lift (segment_bounds ph);
    _ ←? load_pages (S (Z.to_nat ((page_end - page_start) / 4096))) cr3 data ph page_start page_end;
    mret (Ok (if heap_end <? page_end then page_end else heap_end))
  else mret (Ok heap_end).

(** @src ross-kernel/src/task.rs 237-314 spawn_process *)
Fixpoint load_segments (cr3 : Z) (data : list Z) (heap_end : Z) (phs : list ProgramHeader) : M (Vm St) (res Z) :=
  match phs with
  | [] => mret (Ok heap_end)
  | ph :: phs =>
      heap_end ←? load_segment cr3 data heap_end ph;
      load_segments cr3 data heap_end phs
  end.

(** @src ross-kernel/src/task.rs 317-317 spawn_process *)
Definition stack_vaddr : Z := 0x500000.
(** @src ross-kernel/src/task.rs 318-318 spawn_process *)
Definition stack_pages : Z := 8.

(** @src ross-kernel/src/task.rs 319-322 spawn_process *)
Fixpoint map_stack (cr3 : Z) (idxs : list Z) : M (Vm St) (res unit) :=
  match idxs with
  | [] => mret (Ok tt)
  | i :: idxs =>
      phys ← alloc_frame;
      match phys with
      | None => mret (Err tt)
      | Some phys =>
          map_user_page cr3 (stack_vaddr + i * 4096) phys (Z.lor 0x2 0x4);;
          map_stack cr3 idxs
      end
  end.

(** What the loader hands to [Task::new]: entry point, stack top, CR3 and the
    initial break. *)
Record Image := mkImage {
  im_entry : Z;
  im_stack_top : Z;
  im_cr3 : Z;
  im_heap_end : Z
}.

(** [spawn_process] from the header check on to [Task::new].
    @src ross-kernel/src/task.rs 221-325 spawn_process *)
Definition load_elf (st : Statics) (data : list Z) : M (Vm St) (res Image) :=
  if negb (64 <=? Z.of_nat (length data)) then panic
  else
    let header := elf_header data in
    if negb (is_valid header) then mret (Err tt)
    else
      cr3 ← create_user_address_space st;
      phs ← lift (program_headers header data);
      heap_end ←? load_segments cr3 data 0 phs;
      _ ←? map_stack cr3 (seqZ 0 stack_pages);
      mret (Ok (mkImage (e_entry header) (Z.land (stack_vaddr + stack_pages * 4096) (notw 64 0xF)) cr3 heap_end)).

End loader.

(** ** The image of a segment *)

(** What a process finds at [v] after the segment, given what it found before. *)
Definition seg_byte (data : list Z) (ph : ProgramHeader) (old : option Z) (v : Z) : option Z :=
  if decide (p_vaddr ph <= v < p_vaddr ph + p_filesz ph)
  then Some (data !!! Z.to_nat (p_offset ph + (v - p_vaddr ph)))
  else match old with
       | Some b => Some b
       | None => if decide (p_vaddr ph / 4096 * 4096 <= v < (p_vaddr ph + p_memsz ph + 4095) / 4096 * 4096)
                 then Some 0 else None
       end.

(** Segments are loaded in order; other headers are skipped. *)
Fixpoint image_byte (data : list Z) (phs : list ProgramHeader) (old : option Z) (v : Z) : option Z :=
  match phs with
  | [] => old
  | ph :: phs =>
      image_byte data phs (if p_type ph =? PT_LOAD then seg_byte data ph old v else old) v
  end.

(** The end of the highest segment. *)
Definition seg_end (ph : ProgramHeader) : Z := (p_vaddr ph + p_memsz ph + 4095) / 4096 * 4096.
Fixpoint image_end (heap_end : Z) (phs : list ProgramHeader) : Z :=
  match phs with
  | [] => heap_end
  | ph :: phs => image_end (if p_type ph =? PT_LOAD then Z.max heap_end (seg_end ph) else heap_end) phs
  end.

(** A loadable segment whose file part is inside the file and the segment, and
    which stays in the window the new address space leaves open. *)
Record segment_ok (data : list Z) (ph : ProgramHeader) : Prop := {
  sg_file : 0 <= p_offset ph /\ p_offset ph + p_filesz ph <= Z.of_nat (length data);
  sg_sizes : 0 <= p_filesz ph <= p_memsz ph;
  sg_window : 0x400000 <= p_vaddr ph /\ p_vaddr ph + p_memsz ph <= stack_vaddr
}.

(** Number of pages a segment spans. *)
Definition seg_pages (ph : ProgramHeader) : Z := (seg_end ph - p_vaddr ph / 4096 * 4096) / 4096.

Lemma page_down_div a : fits 64 a -> page_down a = a / 4096 * 4096.
Proof. apply frame_of_div. Qed.

Lemma copy_range_spec start fs c :
  c mod 4096 = 0 -> 0 <= fs -> start < c + 4096 ->
  forall w, c <= w < c + 4096 ->
  match copy_range start fs c with
  | Some (po, fo, n) =>
      0 <= po /\ 0 <= fo /\ 0 < n /\ po + n <= 4096 /\ fo + n <= fs /\ c + po = start + fo /\
      (start <= w < start + fs <-> po <= w - c < po + n)
  | None => ~ (start <= w < start + fs)
  end.
Proof.
  intros Ha Hfs Hs w Hw. unfold copy_range.
  destruct (Z.ltb_spec c start) as [Hc|Hc].
  - destruct (Z.ltb_spec (start - start) fs); [|lia]. split_and!; lia.
  - destruct (Z.ltb_spec (c - start) fs); [|lia]. split_and!; lia.
Qed.

Section proofs.
Context {St : Type} {FA : FrameAllocator St}.

(** Addresses of the window are in the same page of 48 bits iff they are in
    the same page. *)
Lemma same_page_low v w :
  v mod 4096 = 0 -> 0 <= v < 2 ^ 47 -> 0 <= w < 2 ^ 47 -> same_page v w <-> v <= w < v + 4096.
Proof.
  intros Ha Hv Hw. unfold same_page, pfx. cbn -[Z.div Z.modulo] in *. split; intros; dm_lia.
Qed.

(** The invariant of the loader: the process sees [img]. *)
Definition sees (root : Z) (s : Vm St) (img : Z -> option Z) : Prop :=
  forall v, 0 <= v < 2 ^ 47 -> user_byte root (vmem s) v = img v.

(** A 2 MB window without huge pages. *)
Definition window_open (root : Z) (s : Vm St) : Prop :=
  forall v, 0x400000 <= v < 0x600000 -> hits_huge 4 (vmem s) root v = false.

Lemma user_byte_lookup T root s v :
  user_ok T root s -> user_byte root (vmem s) v = None -> lookup_page root v (vmem s) = Ret None.
Proof.
  intros Hok. destruct (user_lookup T root s v Hok) as [r Hr]. unfold user_byte, user_phys. rewrite Hr.
  by destruct r.
Qed.

Lemma user_byte_mapped root (m : mem) v b :
  user_byte root m v = Some b -> exists p, lookup_page root v m = Ret (Some p).
Proof. unfold user_byte, user_phys. destruct (lookup_page root v m) as [[p|]| |]; naive_solver. Qed.

(** The frame of a page, mapped before or new; what the process sees does not
    change on mapped pages and is zero on new ones. *)
Lemma segment_frame_ok n T root s ph c :
  user_ok T root s -> window_open root s -> has_free (4 + n) (falloc s) ->
  0x400000 <= c < 0x600000 -> c mod 4096 = 0 ->
  exists T' s' p, segment_frame root ph c s = Ret (Ok p, s') /\
    user_ok T' root s' /\ window_open root s' /\ has_free n (falloc s') /\
    lookup_page root c (vmem s') = Ret (Some p) /\ 0 <= p < 2 ^ 30 /\
    (forall w, 0 <= w < 2 ^ 47 -> user_byte root (vmem s') w =
       match user_byte root (vmem s) w with
       | Some b => Some b
       | None => if decide (c <= w < c + 4096) then Some 0 else None
       end).
Proof.
  intros Hok Hwin Hn Hc Ha. destruct (user_lookup T root s c Hok) as [[p|] Hl].
  - exists T, s, p. destruct (uo_frame _ _ _ Hok c p Hl) as (_ & ? & _). split_and!; try done; try lia.
    + unfold segment_frame, mbind, M_bind, get, lift. by rewrite Hl.
    + by apply (has_free_le (4 + n)); [lia|].
    + intros w Hw. destruct (user_byte root (vmem s) w) eqn:Hb; [done|]. case_decide as Hcw; [|done].
      apply (user_byte_lookup T root s w Hok) in Hb. exfalso.
      assert (same_page c w) as Hs by (apply same_page_low; lia).
      rewrite (lookup_same_page T root s c w) in Hl by (done || apply Hok). congruence.
  - set (fl := Z.lor (Z.lor 0x1 0x4) (if Z.land (p_flags ph) 0x2 =? 0 then 0 else 0x2)).
    destruct (fresh_page_gen n T root s c fl (fun _ m => m) Hok (Hwin c Hc) Hn)
      as (p & fa' & T' & s1 & Hal & Hp & Hrun & Hfp & Hn' & _ & Hpa).
    { unfold fl. destruct (_ =? 0); by vm_compute. }
    { intros q _. split; [apply (tr_mem _ _ _ (uo_tree _ _ _ Hok))|done]. }
    assert (lookup_page root c (vmem s1) = Ret (Some p)) as Hl1.
    { by rewrite (fp_lookup _ _ _ _ _ _ _ _ Hfp), decide_True by done. }
    destruct (uo_frame _ _ _ (fp_ok _ _ _ _ _ _ _ _ Hfp) c p Hl1) as (_ & Hpr & _).
    destruct (page_write_ok T' root s1 c p (fill p 0 4096 (vmem s1))) as (Hok2 & Hl2 & Hh2 & Hb2).
    { apply Hfp. } { done. }
    { apply fill_ok; [by vm_compute|]. apply (tr_mem _ _ _ (uo_tree _ _ _ (fp_ok _ _ _ _ _ _ _ _ Hfp))). }
    { intros x. by apply fill_frame. }
    exists T', (mkVm (fill p 0 4096 (vmem s1)) (falloc s1)), p. split_and!; try done; try lia.
    + unfold segment_frame, mbind, M_bind, get, lift, alloc_frame, modify_mem. rewrite Hl, Hal, Hp.
      fold fl. rewrite Hrun. replace (p + KERNEL_VMA_BASE - KERNEL_VMA_BASE) with p by lia. done.
    + intros w Hw. cbn [vmem]. rewrite Hh2, (fp_huge _ _ _ _ _ _ _ _ Hfp). by apply Hwin.
    + cbn [vmem]. by rewrite Hl2.
    + intros w Hw. cbn [vmem]. rewrite Hb2, (fp_byte _ _ _ _ _ _ _ _ Hfp).
      pose proof (same_page_low c w Ha ltac:(lia) Hw) as Hiff.
      destruct (decide (same_page c w)) as [Hs|Hs].
      * rewrite decide_True by by apply Hiff. rewrite fill_in by (pose proof (Z.mod_pos_bound w 4096); lia).
        destruct (user_byte root (vmem s) w) as [b|] eqn:Hb; [|done].
        apply user_byte_mapped in Hb as [q Hq]. exfalso.
        rewrite (lookup_same_page T root s c w) in Hl by (done || apply Hok). congruence.
      * rewrite decide_False by (intros Hcw; by apply Hs, Hiff). by destruct (user_byte root (vmem s) w).
Qed.

Lemma slice_ok data a n :
  0 <= a -> 0 <= n -> a + n <= Z.of_nat (length data) -> slice data a (a + n) = Ret (sub data a n).
Proof.
  intros Ha Hn Hl. unfold slice. rewrite (proj2 (Z.leb_le _ _)), (proj2 (Z.leb_le _ _)) by lia.
  simpl. do 2 f_equal. lia.
Qed.

Lemma sub_lookup data a n i :
  0 <= a -> 0 <= i < n -> a + n <= Z.of_nat (length data) ->
  sub data a n !!! Z.to_nat i = data !!! Z.to_nat (a + i).
Proof.
  intros Ha Hi Hl. unfold sub. rewrite !list_lookup_total_alt. f_equal.
  rewrite lookup_take_lt by lia. rewrite lookup_drop. f_equal. lia.
Qed.

Section seg.
Context (data : list Z) (ph : ProgramHeader).
Context (Hdata : Forall is_byte data) (Hseg : segment_ok data ph).

Lemma load_page_ok n T root s c :
  user_ok T root s -> window_open root s -> has_free (4 + n) (falloc s) ->
  c mod 4096 = 0 -> p_vaddr ph / 4096 * 4096 <= c < seg_end ph ->
  exists T' s', load_page root data ph c s = Ret (Ok tt, s') /\
    user_ok T' root s' /\ window_open root s' /\ has_free n (falloc s') /\
    (forall w, 0 <= w < 2 ^ 47 -> user_byte root (vmem s') w =
       if decide (c <= w < c + 4096) then seg_byte data ph (user_byte root (vmem s) w) w
       else user_byte root (vmem s) w).
Proof.
  intros Hok Hwin Hn Ha Hc.
  destruct (sg_file _ _ Hseg) as [Hf1 Hf2]. destruct (sg_sizes _ _ Hseg) as [Hz1 Hz2].
  destruct (sg_window _ _ Hseg) as [Hw1 Hw2]. unfold stack_vaddr in Hw2.
  assert (0x400000 <= c < 0x600000) as Hcw by (unfold seg_end in Hc; dm_lia).
  assert (p_vaddr ph < c + 4096) as Hsc by dm_lia.
  assert (c + 4096 <= seg_end ph) as Hce by (unfold seg_end in *; dm_lia).
  destruct (segment_frame_ok n T root s ph c Hok Hwin Hn Hcw Ha)
    as (T' & s1 & p & Hrun & Hok1 & Hwin1 & Hn1 & Hl & Hp & Hb).
  pose proof (copy_range_spec (p_vaddr ph) (p_filesz ph) c Ha Hz1 Hsc) as Hcr.
  unfold load_page, try_bind, mbind, M_bind, lift. rewrite Hrun, phys_to_virt_ok by lia.
  assert (forall w, 0 <= w < 2 ^ 47 -> c <= w < c + 4096 ->
    match user_byte root (vmem s1) w with Some b => seg_byte data ph (user_byte root (vmem s) w) w =
      if decide (p_vaddr ph <= w < p_vaddr ph + p_filesz ph)
      then Some (data !!! Z.to_nat (p_offset ph + (w - p_vaddr ph))) else Some b
    | None => False end) as Hsb.
  { intros w Hw Hwc. rewrite (Hb w Hw). unfold seg_byte.
    destruct (user_byte root (vmem s) w); [done|]. rewrite decide_True by done.
    fold (seg_end ph). by rewrite (decide_True (P := _ <= w < seg_end ph)) by lia. }
  destruct (copy_range _ _ c) as [[[po fo] k]|] eqn:Ecr.
  - destruct (Hcr c ltac:(lia)) as (G1 & G2 & G3 & G4 & G5 & G6 & _).
    rewrite slice_ok by lia. unfold modify_mem.
    replace (p + KERNEL_VMA_BASE - KERNEL_VMA_BASE + po) with (p + po) by lia.
    set (src := sub data (p_offset ph + fo) k).
    assert (length src = Z.to_nat k) as Hlen by (apply length_sub; lia).
    destruct (uo_frame _ _ _ Hok1 c p Hl) as (Hpa & _).
    destruct (page_write_ok T' root s1 c p (st_bytes src (p + po) (vmem s1)) Hok1 Hl) as (Hok2 & Hl2 & Hh2 & Hb2).
    { apply st_bytes_ok; [|apply (tr_mem _ _ _ (uo_tree _ _ _ Hok1))]. by apply Forall_take, Forall_drop. }
    { intros x Hx. apply st_bytes_out. rewrite Hlen.
      destruct (decide (p + po <= x < p + po + k)); [|lia]. exfalso. apply Hx. apply page_in; [done|lia]. }
    exists T', (mkVm (st_bytes src (p + po) (vmem s1)) (falloc s1)). split_and!; try done.
    + intros w Hw. cbn [vmem]. rewrite Hh2. by apply Hwin1.
    + intros w Hw. cbn [vmem]. rewrite Hb2. pose proof (same_page_low c w Ha ltac:(lia) Hw) as Hiff.
      destruct (decide (same_page c w)) as [Hs|Hs].
      2: { rewrite decide_False by (intros Hx; by apply Hs, Hiff). rewrite Hb by done.
           rewrite decide_False by (intros Hx; by apply Hs, Hiff). by destruct (user_byte root (vmem s) w). }
      pose proof (proj1 Hiff Hs) as Hwc. rewrite decide_True by done.
      assert (w mod 4096 = w - c) as Hwm by dm_lia. rewrite Hwm.
      pose proof (Hcr w Hwc) as (_ & _ & _ & _ & _ & _ & Hin). specialize (Hsb w Hw Hwc).
      destruct (user_byte root (vmem s1) w) as [b|] eqn:Hb1; [|done]. rewrite Hsb. case_decide as Hd.
      * f_equal. replace (p + (w - c)) with (p + po + Z.of_nat (Z.to_nat (w - c - po))) by lia.
        rewrite st_bytes_in by lia. unfold src. rewrite sub_lookup by lia. f_equal. lia.
      * f_equal. rewrite st_bytes_out by lia. unfold user_byte, user_phys in Hb1.
        rewrite <- (lookup_same_page T' root s1 c w), Hl in Hb1 by (done || apply Hok1).
        simpl in Hb1. rewrite Hwm in Hb1. congruence.
  - exists T', s1. split_and!; try done. intros w Hw. case_decide as Hwc.
    + specialize (Hsb w Hw Hwc). destruct (user_byte root (vmem s1) w) as [b|] eqn:Hb1; [|done].
      rewrite Hsb, decide_False; [done|]. by apply Hcr.
    + rewrite Hb, decide_False by done. by destruct (user_byte root (vmem s) w).
Qed.

Lemma load_pages_ok k : forall n T root s c,
  user_ok T root s -> window_open root s -> has_free (4 * k + n) (falloc s) ->
  c mod 4096 = 0 -> p_vaddr ph / 4096 * 4096 <= c -> c + 4096 * Z.of_nat k = seg_end ph ->
  exists T' s', load_pages (S k) root data ph c (seg_end ph) s = Ret (Ok tt, s') /\
    user_ok T' root s' /\ window_open root s' /\ has_free n (falloc s') /\
    (forall w, 0 <= w < 2 ^ 47 -> user_byte root (vmem s') w =
       if decide (c <= w < seg_end ph) then seg_byte data ph (user_byte root (vmem s) w) w
       else user_byte root (vmem s) w).
Proof.
  destruct (sg_window _ _ Hseg) as [Hw1 Hw2]. unfold stack_vaddr in Hw2.
  induction k as [|k IH]; intros n T root s c Hok Hwin Hn Ha Hc He.
  - exists T, s. cbn [load_pages]. rewrite (proj2 (Z.ltb_ge _ _)) by lia. split_and!; try done.
    intros w Hw. by rewrite decide_False by lia.
  - destruct (load_page_ok (4 * k + n) T root s c) as (T1 & s1 & Hrun & Hok1 & Hwin1 & Hn1 & Hb1); try done; try lia.
    { by replace (4 + (4 * k + n))%nat with (4 * S k + n)%nat by lia. }
    destruct (IH n T1 root s1 (c + 4096)) as (T' & s' & Hrun' & Hok' & Hwin' & Hn' & Hb'); try done; try lia.
    { dm_lia. }
    exists T', s'. split_and!; try done.
    + cbn [load_pages]. rewrite (proj2 (Z.ltb_lt c _)) by lia. unfold try_bind at 1, mbind, M_bind. rewrite Hrun.
      unfold lift, cadd. rewrite (proj2 (Z.ltb_lt _ _)) by (unfold seg_end in *; dm_lia). exact Hrun'.
    + intros w Hw. rewrite Hb', Hb1 by done. repeat case_decide; try done; lia.
Qed.

End seg.

Lemma seg_pages_nonneg ph : 0 <= p_memsz ph -> 0 <= seg_pages ph /\
  p_vaddr ph / 4096 * 4096 + 4096 * seg_pages ph = seg_end ph.
Proof. intros. unfold seg_pages, seg_end. split; dm_lia. Qed.

Lemma load_segment_ok data ph n T root s h :
  Forall is_byte data -> (p_type ph = PT_LOAD -> segment_ok data ph) ->
  user_ok T root s -> window_open root s ->
  has_free (4 * (if p_type ph =? PT_LOAD then Z.to_nat (seg_pages ph) else O) + n) (falloc s) ->
  exists T' s', load_segment root data h ph s =
      Ret (Ok (if p_type ph =? PT_LOAD then Z.max h (seg_end ph) else h), s') /\
    user_ok T' root s' /\ window_open root s' /\ has_free n (falloc s') /\
    (forall w, 0 <= w < 2 ^ 47 -> user_byte root (vmem s') w =
       if p_type ph =? PT_LOAD then seg_byte data ph (user_byte root (vmem s) w) w
       else user_byte root (vmem s) w).
Proof.
  intros Hd Hseg Hok Hwin Hn. unfold load_segment. destruct (Z.eqb_spec (p_type ph) PT_LOAD) as [Ht|Ht].
  2: { exists T, s. split_and!; done. }
  specialize (Hseg Ht). destruct (sg_sizes _ _ Hseg) as [Hz1 Hz2]. destruct (sg_window _ _ Hseg) as [Hw1 Hw2].
  unfold stack_vaddr in Hw2. destruct (seg_pages_nonneg ph) as [Hk1 Hk2]; [lia|].
  assert (segment_bounds ph = Ret (p_vaddr ph / 4096 * 4096, seg_end ph)) as Hb.
  { unfold segment_bounds, cadd. rewrite (proj2 (Z.ltb_lt _ _)) by lia. cbn [mbind outcome_bind].
    rewrite (proj2 (Z.ltb_lt _ _)) by lia. cbn [mbind outcome_bind].
    rewrite !page_down_div by (unfold fits; lia). done. }
  destruct (load_pages_ok data ph Hd Hseg (Z.to_nat (seg_pages ph)) n T root s (p_vaddr ph / 4096 * 4096))
    as (T' & s' & Hrun & Hok' & Hwin' & Hn' & Hby); try done; try lia; [dm_lia|].
  exists T', s'. split_and!; try done.
  - unfold try_bind, mbind, M_bind, lift. rewrite Hb.
    replace ((seg_end ph - p_vaddr ph / 4096 * 4096) / 4096) with (seg_pages ph) by done. rewrite Hrun.
    unfold mret, M_ret. repeat f_equal. destruct (Z.ltb_spec h (seg_end ph)); lia.
  - intros w Hw. rewrite Hby by done. case_decide as Hin; [done|]. unfold seg_byte.
    rewrite decide_False by (unfold seg_end in *; dm_lia). fold (seg_end ph).
    rewrite (decide_False (P := _ <= w < seg_end ph)) by lia. by destruct (user_byte root (vmem s) w).
Qed.

(** Frames the segments need at most. *)
Definition seg_frames (phs : list ProgramHeader) : nat :=
  sum_list_with (fun ph => Nat.mul 4 (if p_type ph =? PT_LOAD then Z.to_nat (seg_pages ph) else O)) phs.

Lemma load_segments_ok data phs : forall n T root s h,
  Forall is_byte data -> Forall (fun ph => p_type ph = PT_LOAD -> segment_ok data ph) phs ->
  user_ok T root s -> window_open root s -> has_free (seg_frames phs + n) (falloc s) ->
  exists T' s', load_segments root data h phs s = Ret (Ok (image_end h phs), s') /\
    user_ok T' root s' /\ window_open root s' /\ has_free n (falloc s') /\
    (forall w, 0 <= w < 2 ^ 47 ->
       user_byte root (vmem s') w = image_byte data phs (user_byte root (vmem s) w) w).
Proof.
  induction phs as [|ph phs IH]; intros n T root s h Hd Hs Hok Hwin Hn; [by exists T, s|].
  apply Forall_cons in Hs as [Hph Hs].
  destruct (load_segment_ok data ph (seg_frames phs + n) T root s h Hd Hph Hok Hwin)
    as (T1 & s1 & Hrun & Hok1 & Hwin1 & Hn1 & Hb1).
  { cbn [seg_frames sum_list_with] in Hn. by rewrite <- Nat.add_assoc in Hn. }
  destruct (IH n T1 root s1 (if p_type ph =? PT_LOAD then Z.max h (seg_end ph) else h) Hd Hs Hok1 Hwin1 Hn1)
    as (T' & s' & Hrun' & Hok' & Hwin' & Hn' & Hb').
  exists T', s'. split_and!; try done.
  - cbn [load_segments]. unfold try_bind, mbind, M_bind. rewrite Hrun. exact Hrun'.
  - intros w Hw. rewrite Hb', Hb1 by done. cbn [image_byte]. by destruct (p_type ph =? PT_LOAD).
Qed.

Lemma map_stack_ok idxs : forall n T root s,
  Forall (fun i => 0 <= i < stack_pages) idxs -> user_ok T root s -> window_open root s ->
  has_free (4 * length idxs + n) (falloc s) ->
  exists T' s', map_stack root idxs s = Ret (Ok tt, s') /\
    user_ok T' root s' /\ window_open root s' /\ has_free n (falloc s') /\
    (forall w, 0 <= w < 2 ^ 47 ->
       if decide (Exists (fun i => stack_vaddr + i * 4096 <= w < stack_vaddr + i * 4096 + 4096) idxs)
       then is_Some (user_byte root (vmem s') w)
       else user_byte root (vmem s') w = user_byte root (vmem s) w).
Proof.
  induction idxs as [|i idxs IH]; intros n T root s Hr Hok Hwin Hn.
  { exists T, s. split_and!; try done. }
  apply Forall_cons in Hr as [Hi Hr]. set (c := stack_vaddr + i * 4096).
  assert (0x400000 <= c < 0x600000) as Hc by (unfold c, stack_vaddr, stack_pages in *; lia).
  assert (c mod 4096 = 0) as Ha by (unfold c, stack_vaddr in *; dm_lia).
  destruct (fresh_page_gen (4 * length idxs + n) T root s c (Z.lor 0x2 0x4) (fun _ m => m) Hok (Hwin c Hc))
    as (p & fa' & T1 & s1 & Hal & Hp & Hrun & Hfp & Hn1 & _ & _).
  { simpl length in Hn. by replace (4 + (4 * length idxs + n))%nat with (4 * S (length idxs) + n)%nat by lia. }
  { by vm_compute. }
  { intros q _. split; [apply (tr_mem _ _ _ (uo_tree _ _ _ Hok))|done]. }
  destruct (IH n T1 root s1 Hr) as (T' & s' & Hrun' & Hok' & Hwin' & Hn' & Hb'); try done.
  { apply Hfp. } { intros v Hv. rewrite (fp_huge _ _ _ _ _ _ _ _ Hfp). by apply Hwin. }
  exists T', s'. split_and!; try done.
  - cbn [map_stack]. fold c. unfold mbind, M_bind, alloc_frame. rewrite Hal.
    cbn beta in Hrun. rewrite Hrun. exact Hrun'.
  - intros w Hw. specialize (Hb' w Hw). pose proof (fp_byte _ _ _ _ _ _ _ _ Hfp w) as Hf.
    pose proof (same_page_low c w Ha ltac:(lia) Hw) as Hiff.
    match goal with |- context [decide ?P] => destruct (decide P) as [He|He] end.
    + match type of Hb' with context [decide ?P] => destruct (decide P) as [He2|He2] end; [done|].
      rewrite Hb', Hf.
      apply Exists_cons in He as [He|He]; [|done]. rewrite decide_True by by apply Hiff. by eexists.
    + rewrite Exists_cons in He. rewrite decide_False in Hb' by tauto. rewrite Hb', Hf.
      rewrite decide_False; [done|]. intros Hs. apply He. left. by apply Hiff.
Qed.

(** A new address space maps nothing yet. *)
Lemma fresh_space_ok n st k Tk s :
  vm_ok s -> has_free (6 + n) (falloc s) -> PML4 st = k + KERNEL_VMA_BASE -> kernel_half Tk k s ->
  exists root T s', create_user_address_space st s = Ret (root, s') /\ has_free n (falloc s') /\
    user_ok T root s' /\ window_open root s' /\
    (forall v, 0 <= v < 2 ^ 47 -> user_byte root (vmem s') v = None).
Proof.
  intros Hok Hfree Hk Hkh. destruct (kh_root _ _ _ Hkh) as (Hka & Hkr & Hkf).
  destruct (create_contents n st k s Hok Hfree Hk Hka Hkf) as (s' & root & pdpt & pds & Hrun & Hn & Hsp).
  pose proof (space_tree_ok Tk k s s' root pdpt pds Hsp Hkh) as Htree.
  assert (forall f P, space_typing Tk root pdpt pds f <> Some (1, P)) as Hno'.
  { intros f P HT. apply typing_inv in HT as [(? & ? & _)|[(? & ? & _)|[(? & _ & _ & ? & _)|HT]]]; try lia.
    apply (kh_frame _ _ _ Hkh) in HT. lia. }
  exists root, (space_typing Tk root pdpt pds), s'. split_and!; try done.
  - by apply no_leaf_user_ok.
  - intros v Hv. destruct (space_lookup k s s' root pdpt pds Hsp v) as [_ ->]; [lia|].
    rewrite (proj2 (Z.eqb_eq (v / 2 ^ 21) 2)) by dm_lia. apply andb_false_r.
  - intros v Hv. unfold user_byte, user_phys.
    rewrite (lookup_page_walk _ _ _ _ Htree). pose proof (tr_root _ _ _ Htree) as T4.
    rewrite <- (pfx_root v) in T4. by rewrite (walk_no_leaf _ _ _ 4 _ _ Htree Hno' T4).
Qed.

End proofs.

(** Loading a valid file. *)
Lemma load_elf_ok {St : Type} `{FrameAllocator St}
    (n : nat) (st : Statics) (k : Z) (Tk : Typing) (s : Vm St) (data : list Z) (phs : list ProgramHeader)
    (Hok : vm_ok s) (Hk : PML4 st = k + KERNEL_VMA_BASE) (Hkh : kernel_half Tk k s)
    (Hfree : has_free (6 + (seg_frames phs + (32 + n))) (falloc s))
    (Hdata : Forall is_byte data) (Hlen : 64 <= Z.of_nat (length data))
    (Hvalid : is_valid (elf_header data) = true)
    (Hphs : program_headers (elf_header data) data = Ret phs)
    (Hsegs : Forall (fun ph => p_type ph = PT_LOAD -> segment_ok data ph) phs) :
  exists T root s', load_elf st data s =
      Ret (Ok (mkImage (e_entry (elf_header data)) 0x508000 root (image_end 0 phs)), s') /\
    user_ok T root s' /\ has_free n (falloc s') /\
    forall v, 0 <= v < 2 ^ 47 ->
      if decide (0x500000 <= v < 0x508000) then is_Some (user_byte root (vmem s') v)
      else user_byte root (vmem s') v = image_byte data phs None v.
Proof.
  destruct (fresh_space_ok _ st k Tk s Hok Hfree Hk Hkh) as (root & T0 & s0 & R0 & F0 & Ok0 & W0 & B0).
  destruct (load_segments_ok data phs _ T0 root s0 0 Hdata Hsegs Ok0 W0 F0)
    as (T1 & s1 & R1 & Ok1 & W1 & F1 & B1).
  destruct (map_stack_ok (seqZ 0 stack_pages) n T1 root s1) as (T2 & s2 & R2 & Ok2 & W2 & F2 & B2); try done.
  { apply Forall_forall. intros i Hi%elem_of_seqZ. unfold stack_pages in *. lia. }
  exists T2, root, s2. split_and!; try done.
  - unfold load_elf. rewrite (proj2 (Z.leb_le _ _) Hlen), Hvalid. cbn [negb].
    unfold try_bind, mbind, M_bind, lift. rewrite R0, Hphs, R1, R2. done.
  - intros v Hv. specialize (B2 v Hv). rewrite B1, B0 in B2 by done.
    assert (Exists (fun i => stack_vaddr + i * 4096 <= v < stack_vaddr + i * 4096 + 4096) (seqZ 0 stack_pages)
      <-> 0x500000 <= v < 0x508000) as Hex.
    { rewrite Exists_exists. unfold stack_vaddr, stack_pages. split.
      - intros (i & Hi%elem_of_seqZ & Hr). lia.
      - intros Hr. exists ((v - 0x500000) / 4096). rewrite elem_of_seqZ. split; dm_lia. }
    repeat case_decide; tauto.
Qed.

(** ** Property *)

(** C2: with enough free frames, loading a valid ELF file whose segments lie
    between [0x400000] and the stack succeeds: the process gets its entry
    point, a stack top of [0x508000] and a break at the end of its highest
    segment, and finds at every address exactly what the segments say in
    order: file bytes, zeroes in the rest of each segment's pages, nothing
    elsewhere but the eight stack pages. Segments may share pages. *)
Theorem load_elf_spec {St : Type} `{FrameAllocator St}
    (n : nat) (st : Statics) (k : Z) (Tk : Typing) (s : Vm St) (data : list Z) (phs : list ProgramHeader)
    (Hok : vm_ok s) (Hk : PML4 st = k + KERNEL_VMA_BASE) (Hkh : kernel_half Tk k s)
    (Hfree : has_free (6 + (seg_frames phs + (32 + n))) (falloc s))
    (Hdata : Forall is_byte data) (Hlen : 64 <= Z.of_nat (length data))
    (Hvalid : is_valid (elf_header data) = true)
    (Hphs : program_headers (elf_header data) data = Ret phs)
    (Hsegs : Forall (fun ph => p_type ph = PT_LOAD -> segment_ok data ph) phs) :
  exists T root s', load_elf st data s =
      Ret (Ok (mkImage (e_entry (elf_header data)) 0x508000 root (image_end 0 phs)), s') /\
    user_ok T root s' /\ has_free n (falloc s') /\
    forall v, 0 <= v < 2 ^ 47 ->
      if decide (0x500000 <= v < 0x508000) then is_Some (user_byte root (vmem s') v)
      else user_byte root (vmem s') v = image_byte data phs None v.
Proof. by apply (load_elf_ok n st k Tk). Qed.

(** ** Witness *)

(** 256 free frames at 2 MB. *)
Definition big_pmm : PmmState := Pmm.init (Some [mkRegion 0x200000 0x100000 Usable]) PmmState_new.

Lemma big_pmm_facts :
  pmm_ok big_pmm /\ (forall p, 512 <= p < 768 -> frame_free big_pmm (p * PAGE_SIZE)) /\
  forall p, 256 <= p < 263 -> ~ frame_free big_pmm (p * PAGE_SIZE).
Proof.
  assert (Forall (fun p => page_used big_pmm p = false) (seqZ 512 256)) as Hf.
  { apply (bool_decide_unpack _). vm_compute. exact I. }
  assert (Forall (fun p => page_used big_pmm p = true) (seqZ 256 7)) as Hu.
  { apply (bool_decide_unpack _). vm_compute. exact I. }
  rewrite Forall_forall in Hf. rewrite Forall_forall in Hu. split_and!.
  - apply (init_regions_ok [mkRegion 0x200000 0x100000 Usable] PmmState_new); [apply PmmState_new_ok|].
    repeat constructor; simpl; lia.
  - intros p Hp. split; [by rewrite Z.mod_mul|]. rewrite Z.div_mul by done. apply elem_of_free_set.
    split; [unfold MAX_PAGES, BITMAP_BYTES; lia|]. apply Hf, elem_of_seqZ. lia.
  - intros p Hp [_ [_ Hx]%elem_of_free_set]. rewrite Z.div_mul in Hx by done.
    rewrite Hu in Hx; [done|]. apply elem_of_seqZ. lia.
Qed.

Lemma big_has_free (n : nat) : (n <= 256)%nat -> has_free n big_pmm.
Proof.
  intros Hn. exists ((fun p => p * PAGE_SIZE) <$> seqZ 512 (Z.of_nat n)). split_and!.
  - apply NoDup_fmap_2; [|apply NoDup_seqZ]. intros a b. unfold PAGE_SIZE. lia.
  - rewrite length_fmap, length_seqZ. lia.
  - apply Forall_fmap, Forall_forall. intros p Hp%elem_of_seqZ. apply big_pmm_facts. lia.
Qed.

Lemma boot_vm_ok :
  vm_ok (mkVm demo_boot big_pmm) /\
  kernel_half (kernel_typing 0x102000 demo_pd) 0x100000 (mkVm demo_boot big_pmm).
Proof.
  destruct big_pmm_facts as (Hok & _ & Hus). destruct demo_boot_ok as (Hm & _). split; [done|].
  apply init_kernel_half; [exact demo_statics_ok|intros; apply zero_entry|].
  assert (forall p, 256 <= p < 263 -> ~ fa_free big_pmm (p * 4096)) as Hu by exact Hus.
  intros f Hf. repeat (apply elem_of_cons in Hf as [->|Hf]);
    [apply (Hu 256)|apply (Hu 258)|apply (Hu 259)|apply (Hu 260)|apply (Hu 261)|apply (Hu 262)|
     by apply elem_of_nil in Hf]; lia.
Qed.

(** One segment: four bytes of file, eight of memory. *)
Definition demo_elf : list Z :=
  [0x7f; 69; 76; 70; 2] ++ replicate 19 0 ++ le_bytes 8 0x400000 ++ le_bytes 8 64 ++
  replicate 14 0 ++ le_bytes 2 56 ++ le_bytes 2 1 ++ replicate 6 0 ++
  le_bytes 4 1 ++ le_bytes 4 5 ++ le_bytes 8 120 ++ le_bytes 8 0x400000 ++ le_bytes 8 0x400000 ++
  le_bytes 8 4 ++ le_bytes 8 8 ++ le_bytes 8 4096 ++ [0x90; 0x90; 0xEB; 0xFE].

Definition demo_ph : ProgramHeader := mkPh 1 5 120 0x400000 0x400000 4 8 4096.

Lemma load_elf_spec_witness :
  exists root s', load_elf demo_statics demo_elf (mkVm demo_boot big_pmm) =
      Ret (Ok (mkImage 0x400000 0x508000 root 0x401000), s') /\
    user_byte root (vmem s') 0x400002 = Some 0xEB /\ user_byte root (vmem s') 0x400006 = Some 0.
Proof.
  destruct boot_vm_ok as [Hvm Hkh].
  destruct (load_elf_spec 0 demo_statics 0x100000 (kernel_typing 0x102000 demo_pd)
    (mkVm demo_boot big_pmm) demo_elf [demo_ph] Hvm eq_refl Hkh)
    as (T & root & s' & Hrun & _ & _ & Hb).
  - apply big_has_free. vm_compute. lia.
  - apply (bool_decide_unpack (Forall is_byte demo_elf)). vm_compute. exact I.
  - vm_compute. discriminate.
  - vm_compute. reflexivity.
  - vm_compute. reflexivity.
  - repeat constructor; vm_compute; discriminate.
  - exists root, s'. split; [exact Hrun|]. split.
    + specialize (Hb 0x400002 ltac:(lia)). rewrite decide_False in Hb by lia. exact Hb.
    + specialize (Hb 0x400006 ltac:(lia)). rewrite decide_False in Hb by lia. exact Hb.
Defined.
