(* ===== verification/Syscall.v ===== *)
(** * System calls ([ross-kernel/src/syscall.rs], [task.rs: spawn_process])

    [syscall_dispatch] over the state of the whole kernel: the user's memory
    (through the processor's translation), the scheduler with the tasks'
    descriptor tables, the pipes, the keyboard ring, the file system and the
    output devices.  The theorems follow a call from the registers to what
    the process can observe. *)

From Stdlib Require Import String.
From S2P Require Import Prelude Bytes Frames Pmm Paging Spaces Mmap Str Vfs Ramfs Elf.
From S2P Require Kbuf Ipc Fd Gdt Task.

Section kernel.
Context {W N St : Type} {VN : VfsNode W N} {FA : FrameAllocator St}.

(** The statics a system call can reach.  [kn_world] is the state behind the
    file-system nodes, [kn_cr3] the CR3 register, [kn_serial] and [kn_screen]
    the bytes sent to the serial port and the characters given to
    [Writer::put_char], [kn_ticks] the PIT counter. *)
Record Kernel := mkKernel {
  kn_world : W;
  kn_vm : Vm St;
  kn_cr3 : Z;
  kn_sched : @Task.Scheduler N;
  kn_next_id : Z;
  kn_pipes : Ipc.PipeTable;
  kn_kbuf : Kbuf.Ring;
  kn_vfs : VfsRoot N;
  kn_serial : list Z;
  kn_screen : list Z;
  kn_ticks : Z
}.

Definition set_world w k := mkKernel w (kn_vm k) (kn_cr3 k) (kn_sched k) (kn_next_id k) (kn_pipes k)
  (kn_kbuf k) (kn_vfs k) (kn_serial k) (kn_screen k) (kn_ticks k).
Definition set_vm v k := mkKernel (kn_world k) v (kn_cr3 k) (kn_sched k) (kn_next_id k) (kn_pipes k)
  (kn_kbuf k) (kn_vfs k) (kn_serial k) (kn_screen k) (kn_ticks k).
Definition set_sched s k := mkKernel (kn_world k) (kn_vm k) (kn_cr3 k) s (kn_next_id k) (kn_pipes k)
  (kn_kbuf k) (kn_vfs k) (kn_serial k) (kn_screen k) (kn_ticks k).
Definition set_next_id i k := mkKernel (kn_world k) (kn_vm k) (kn_cr3 k) (kn_sched k) i (kn_pipes k)
  (kn_kbuf k) (kn_vfs k) (kn_serial k) (kn_screen k) (kn_ticks k).
Definition set_pipes p k := mkKernel (kn_world k) (kn_vm k) (kn_cr3 k) (kn_sched k) (kn_next_id k) p
  (kn_kbuf k) (kn_vfs k) (kn_serial k) (kn_screen k) (kn_ticks k).
Definition set_kbuf b k := mkKernel (kn_world k) (kn_vm k) (kn_cr3 k) (kn_sched k) (kn_next_id k) (kn_pipes k)
  b (kn_vfs k) (kn_serial k) (kn_screen k) (kn_ticks k).
Definition set_serial l k := mkKernel (kn_world k) (kn_vm k) (kn_cr3 k) (kn_sched k) (kn_next_id k) (kn_pipes k)
  (kn_kbuf k) (kn_vfs k) l (kn_screen k) (kn_ticks k).
Definition set_screen l k := mkKernel (kn_world k) (kn_vm k) (kn_cr3 k) (kn_sched k) (kn_next_id k) (kn_pipes k)
  (kn_kbuf k) (kn_vfs k) (kn_serial k) l (kn_ticks k).

Definition K (A : Type) : Type := M Kernel A.

Definition modify (f : Kernel -> Kernel) : K unit := fun k => Ret (tt, f k).

(** Running a computation on one component of the state. *)
Definition on_world {A} (m : M W A) : K A := fun k =>
  match m (kn_world k) with
  | Ret (a, w) => Ret (a, set_world w k) | Panic => Panic | Diverge => Diverge
  end.
Definition on_vm {A} (m : M (Vm St) A) : K A := fun k =>
  match m (kn_vm k) with
  | Ret (a, v) => Ret (a, set_vm v k) | Panic => Panic | Diverge => Diverge
  end.

(** ** Devices *)

(** Waiting for the transmitter is left out: the port accepts every byte.
    @src ross-kernel/src/serial.rs 7-12 SerialPort::write_byte *)
Definition write_byte (b : Z) : K unit := modify (fun k => set_serial (kn_serial k ++ [b]) k).

(** @src ross-kernel/src/serial.rs 25-30 SerialPort::write_str *)
Fixpoint serial_print (s : str) : K unit :=
  match s with
  | [] => mret tt
  | b :: s => write_byte b;; serial_print s
  end.

(** ** User memory

    The kernel dereferences user pointers directly: each access goes through
    the processor's translation under the task's CR3, with the kernel's
    rights.  An unmapped address is a page fault, whose handler halts: here a
    panic.  Write protection is not modelled. *)

Fixpoint load_user (cr3 : Z) (m : mem) (ptr : Z) (len : nat) : outcome (list Z) :=
  match len with
  | O => Ret []
  | S len =>
      match translate 4 m cr3 ptr with
      | Some (pa, _) => bs ← load_user cr3 m (ptr + 1) len; mret (m pa :: bs)
      | None => Panic
      end
  end.

Fixpoint store_user (cr3 : Z) (ptr : Z) (bs : list Z) (m : mem) : outcome mem :=
  match bs with
  | [] => Ret m
  | b :: bs =>
      match translate 4 m cr3 ptr with
      | Some (pa, _) => store_user cr3 (ptr + 1) bs (st_bytes [b] pa m)
      | None => Panic
      end
  end.

(** [slice::from_raw_parts(ptr, len)], read. *)
Definition user_slice (ptr len : Z) : K (list Z) :=
  k ← get; lift (load_user (kn_cr3 k) (vmem (kn_vm k)) ptr (Z.to_nat len)).

(** Storing through [slice::from_raw_parts_mut(ptr, len)]. *)
Definition user_store (ptr : Z) (bs : list Z) : K unit :=
  k ← get;
  m ← lift (store_user (kn_cr3 k) ptr bs (vmem (kn_vm k)));
  modify (set_vm (mkVm m (falloc (kn_vm k)))).

(** ** The running task *)

Definition current : K (option (@Task.Task N)) := k ← get; mret (Task.current_task (kn_sched k)).

(** Assignments through [sched.current_task.as_mut()]. *)
Definition update_task (f : @Task.Task N -> @Task.Task N) : K unit :=
  modify (fun k => set_sched (Task.mkSched (Task.tasks (kn_sched k)) (f <$> Task.current_task (kn_sched k))) k).

Definition MAX : Z := 2 ^ 64 - 1.

(** [task.fd_table.alloc(entry).map(|fd| fd as u64).unwrap_or(u64::MAX)]. *)
Definition alloc_fd (entry : Fd.FdEntry N) : K Z :=
  t ← current;
  match t with
  | None => mret MAX
  | Some task =>
      match Fd.alloc entry (Task.fd_table task) with
      | (Some fd, tbl) => update_task (Task.set_fd_table tbl);; mret fd
      | (None, _) => mret MAX
      end
  end.

(** [sched.current_task.as_ref().and_then(|t| t.fd_table.get(fd))]. *)
Definition fd_entry (fd : Z) : K (option (Fd.FdEntry N)) :=
  t ← current;
  mret (match t with Some task => Fd.get fd (Task.fd_table task) | None => None end).

(** ** The calls *)

(** @src ross-kernel/src/syscall.rs 55-65 syscall_dispatch *)
Definition sys_log (ptr len : Z) : K Z :=
  msg ← user_slice ptr len;
  serial_print (lit "[SYSCALL LOG] ");;
  serial_print msg;;
  serial_print [10];;
  mret 0.

(** @src ross-kernel/src/syscall.rs 68-68 syscall_dispatch *)
Definition sys_uptime : K Z := k ← get; mret (kn_ticks k).

(** @src ross-kernel/src/syscall.rs 71-84 syscall_dispatch *)
Definition sys_pipe : K Z :=
  k ← get;
  match Ipc.create (kn_pipes k) with
  | (Some id, pipes) => modify (set_pipes pipes);; alloc_fd (Fd.Pipe id)
  | (None, _) => mret MAX
  end.

(** [u8::is_ascii_graphic]. *)
Definition is_ascii_graphic (b : Z) : bool := (33 <=? b) && (b <=? 126).

(** The characters of [data] that reach the screen.
    @src ross-kernel/src/syscall.rs 98-104 syscall_dispatch *)
Definition printable (data : list Z) : list Z :=
  List.filter (fun b => (b =? 10) || is_ascii_graphic b || (b =? 32)) data.

(** @src ross-kernel/src/syscall.rs 87-130 syscall_dispatch *)
Definition sys_write (fd ptr len : Z) : K Z :=
  if len =? 0 then mret 0
  else if fd =? 1 then
    data ← user_slice ptr len;
    modify (fun k => set_screen (kn_screen k ++ printable data) k);; mret len
  else if fd =? 2 then
    data ← user_slice ptr len;
    serial_print data;; mret len
  else
    e ← fd_entry fd;
    match e with
    | Some (Fd.Pipe id) =>
        data ← user_slice ptr len;
        k ← get;
        let '(r, pipes) := Ipc.write id data (kn_pipes k) in
        modify (set_pipes pipes);;
        mret (match r with Ok n => n | Err _ => MAX end)
    | _ => mret MAX
    end.

(** The bytes waiting in the keyboard ring, at most [n].
    @src ross-kernel/src/syscall.rs 141-149 syscall_dispatch *)
Fixpoint pop_many (n : nat) (r : Kbuf.Ring) : list Z * Kbuf.Ring :=
  match n with
  | O => ([], r)
  | S n =>
      match Kbuf.pop r with
      | (Some b, r) => let '(bs, r) := pop_many n r in (b :: bs, r)
      | (None, r) => ([], r)
      end
  end.

(** @src ross-kernel/src/syscall.rs 133-193 syscall_dispatch *)
Definition sys_read (fd ptr len : Z) : K Z :=
  if len =? 0 then mret 0
  else if fd =? 0 then
    k ← get;
    let '(bs, r) := pop_many (Z.to_nat len) (kn_kbuf k) in
    modify (set_kbuf r);;
    user_store ptr bs;;
    mret (Z.of_nat (length bs))
  else
    e ← fd_entry fd;
    match e with
    | Some (Fd.Pipe id) =>
        k ← get;
        let '(r, buf, pipes) := Ipc.read id (replicate (Z.to_nat len) 0) (kn_pipes k) in
        modify (set_pipes pipes);;
        match r with
        | Ok n => user_store ptr (take (Z.to_nat n) buf);; mret n
        | Err _ => mret MAX
        end
    | Some (Fd.VfsFile node offset) =>
        r ← on_world (read node offset len);
        match r with
        | Ok bs =>
            user_store ptr bs;;
            let n := Z.of_nat (length bs) in
            offset' ← lift (cadd 64 offset n);
            update_task (fun t => Task.set_fd_table (Fd.get_mut fd (fun e =>
              match e with Fd.VfsFile node _ => Fd.VfsFile node offset' | e => e end) (Task.fd_table t)) t);;
            mret n
        | Err _ => mret MAX
        end
    | _ => mret MAX
    end.

(** @src ross-kernel/src/syscall.rs 196-207 syscall_dispatch *)
Definition sys_exit (code : Z) : K Z :=
  serial_print (lit "[SYSCALL] sys_exit(" ++ dec code ++ lit ")" ++ [10]);;
  update_task (Task.set_state Task.Dead);;
  mret 0.

(** The loop of [sys_brk]; [None] means out of frames.
    @src ross-kernel/src/syscall.rs 222-231 syscall_dispatch *)
Fixpoint brk_loop (fuel : nat) (cr3 addr new_brk : Z) : M (Vm St) Z :=
  match fuel with
  | O => fun _ => Diverge
  | S fuel =>
      if addr <? new_brk then
        phys ← alloc_frame;
        match phys with
        | Some phys =>
            kptr ← lift (phys_to_virt phys);
            modify_mem (fill (kptr - KERNEL_VMA_BASE) 0 4096);;
            map_user_page cr3 addr phys 0x7;;
            next ← lift (cadd 64 addr 4096);
            brk_loop fuel cr3 next new_brk
        | None => mret addr
        end
      else mret addr
  end.

(** @src ross-kernel/src/syscall.rs 210-238 syscall_dispatch *)
Definition sys_brk (new_brk : Z) : K Z :=
  t ← current;
  match t with
  | None => mret 0
  | Some task =>
      if new_brk =? 0 then mret (Task.heap_end task)
      else if Task.heap_end task <? new_brk then
        addr ← on_vm (brk_loop (S (Z.to_nat ((new_brk - Task.heap_end task + 4095) / 4096)))
                        (Task.cr3 task) (Task.heap_end task) new_brk);
        update_task (Task.set_heap_end addr);; mret addr
      else mret (Task.heap_end task)
  end.

(** @src ross-kernel/src/syscall.rs 242-267 syscall_dispatch *)
Definition sys_mmap (len : Z) : K Z :=
  if len =? 0 then mret MAX
  else
    padded ← lift (cadd 64 len 4095);
    let pages := padded / 4096 in
    t ← current;
    match t with
    | None => mret MAX
    | Some task =>
        let base := Task.heap_end task in
        r ← on_vm (alloc_anon (Task.cr3 task) base pages);
        match r with
        | Ok _ =>
            size ← lift (cmul 64 pages 4096);
            heap_end ← lift (cadd 64 base size);
            update_task (Task.set_heap_end heap_end);; mret base
        | Err _ => mret MAX
        end
    end.

(** [s.push(b as char)]: a byte from 128 on becomes two. *)
Definition push_char (b : Z) : str :=
  if b <? 128 then [b] else [Z.lor 0xC0 (Z.shiftr b 6); Z.lor 0x80 (Z.land b 0x3F)].

(** @src ross-kernel/src/syscall.rs 273-283 syscall_dispatch *)
Fixpoint user_path (fuel : nat) (cr3 : Z) (m : mem) (p : Z) (s : str) : outcome str :=
  match fuel with
  | O => Diverge
  | S fuel =>
      match translate 4 m cr3 p with
      | Some (pa, _) =>
          if (m pa =? 0) || (512 <=? Z.of_nat (length s)) then Ret s
          else user_path fuel cr3 m (p + 1) (s ++ push_char (m pa))
      | None => Panic
      end
  end.

(** @src ross-kernel/src/syscall.rs 270-298 syscall_dispatch *)
Definition sys_open (path_ptr : Z) : K Z :=
  k ← get;
  path ← lift (user_path 514 (kn_cr3 k) (vmem (kn_vm k)) path_ptr []);
  r ← on_world (open (kn_vfs k) path);
  match r with
  | Ok node => alloc_fd (Fd.VfsFile node 0)
  | Err _ => mret MAX
  end.

(** @src ross-kernel/src/syscall.rs 301-309 syscall_dispatch *)
Definition sys_close (fd : Z) : K Z :=
  t ← current;
  match t with
  | None => mret MAX
  | Some task =>
      let '(ok, tbl) := Fd.close fd (Task.fd_table task) in
      update_task (Task.set_fd_table tbl);;
      mret (if ok : bool then 0 else MAX)
  end.

(** @src ross-kernel/src/syscall.rs 52-313 syscall_dispatch *)
Definition syscall_dispatch (id arg1 arg2 arg3 : Z) : K Z :=
  match id with
  | 1 => sys_log arg1 arg2
  | 2 => sys_uptime
  | 3 => sys_pipe
  | 4 => sys_write arg1 arg2 arg3
  | 5 => sys_read arg1 arg2 arg3
  | 6 => sys_exit arg1
  | 7 => sys_brk arg1
  | 8 => sys_mmap arg1
  | 9 => sys_open arg1
  | 10 => sys_close arg1
  | _ => mret MAX
  end.


(** ** Creating a process *)

(** The kernel's view of physical memory: [va] is at [va - KERNEL_VMA_BASE]. *)
Definition virt_view (m : mem) : mem := fun va => m (va - KERNEL_VMA_BASE).
Definition phys_view (m : mem) : mem := fun pa => m (pa + KERNEL_VMA_BASE).

(** @src ross-kernel/src/task.rs 304-312 spawn_process *)
Definition segment_line (i : Z) (ph : ProgramHeader) (stop : Z) : str :=
  lit "[EXEC] Mapped Segment " ++ dec i ++ lit ": 0x" ++ hex (p_vaddr ph) ++ lit " -> 0x" ++ hex stop ++ [10].

(** The loop over the program headers, numbered from [i], with its log.
    @src ross-kernel/src/task.rs 238-314 spawn_process *)
Fixpoint spawn_segments (cr3 : Z) (data : list Z) (heap_end i : Z) (phs : list ProgramHeader) : K (res Z) :=
  match phs with
  | [] => mret (Ok heap_end)
  | ph :: phs =>
      heap_end ←? on_vm (load_segment cr3 data heap_end ph);
      (if p_type ph =? PT_LOAD then
         stop ← lift (cadd 64 (p_vaddr ph) (p_memsz ph));
         serial_print (segment_line i ph stop)
       else mret tt);;
      spawn_segments cr3 data heap_end (i + 1) phs
  end.

(** The loader with its log; [Elf.load_elf] is what it does to memory.
    @src ross-kernel/src/task.rs 224-323 spawn_process *)
Definition spawn_image (st : Statics) (data : list Z) : K (res Image) :=
  if negb (64 <=? Z.of_nat (length data)) then panic
  else
    let header := elf_header data in
    if negb (is_valid header) then
      serial_print (lit "[EXEC] Error: Invalid ELF header" ++ [10]);; mret (Err tt)
    else
      cr3 ← on_vm (create_user_address_space st);
      serial_print (lit "[EXEC] Created user address space (CR3)" ++ [10]);;
      phs ← lift (program_headers header data);
      heap_end ←? spawn_segments cr3 data 0 0 phs;
      _ ←? on_vm (map_stack cr3 (seqZ 0 stack_pages));
      mret (Ok (mkImage (e_entry header) (Z.land (stack_vaddr + stack_pages * 4096) (notw 64 0xF)) cr3 heap_end)).

(** The bytes of the dash in the last line of the log. *)
Definition em_dash : str := [0xE2; 0x80; 0x94].

(** [stack_ptr] is the address the heap returns for the kernel stack.
    @src ross-kernel/src/task.rs 214-335 spawn_process *)
Definition spawn_process (st : Statics) (stack_ptr : Z) (path : str) : K (res unit) :=
  serial_print (lit "[EXEC] Spawning process: ");;
  serial_print path;;
  serial_print [10];;
  k ← get;
  file ←? on_world (open (kn_vfs k) path);
  stat ← on_world (attribute file);
  bs ←? on_world (read file 0 (st_size stat));
  let data := bs ++ replicate (Z.to_nat (st_size stat) - length bs) 0 in
  image ←? spawn_image st data;
  k ← get;
  let '(user_task, next_id, m) :=
    Task.Task_new (im_entry image) (im_stack_top image) (im_cr3 image) true stack_ptr (kn_next_id k)
      (virt_view (vmem (kn_vm k))) in
  modify (set_vm (mkVm (phys_view m) (falloc (kn_vm k))));;
  modify (set_next_id next_id);;
  modify (fun k => set_sched (Task.add_task (Task.set_heap_end (im_heap_end image) user_task) (kn_sched k)) k);;
  serial_print (lit "[EXEC] User task queued " ++ em_dash ++ lit " entry=0x" ++ hex (im_entry image) ++
                lit " stack=0x" ++ hex (im_stack_top image) ++ [10]);;
  mret (Ok tt).

(** The serial port gets every byte, in order. *)
Lemma serial_print_run s k : serial_print s k = Ret (tt, set_serial (kn_serial k ++ s) k).
Proof.
  revert k. induction s as [|b s IH]; intros k; cbn [serial_print].
  - unfold_m. rewrite app_nil_r. by destruct k.
  - unfold write_byte, modify. unfold_m. rewrite IH. cbn. rewrite <- app_assoc. by destruct k.
Qed.

(** ** The loader's log

    [m] does to memory what [m'] does and otherwise only writes to the log. *)
Definition logs {A} (m : K A) (m' : M (Vm St) A) : Prop := forall k, exists log,
  m k = match m' (kn_vm k) with
        | Ret (a, v) => Ret (a, set_serial (kn_serial k ++ log) (set_vm v k))
        | Panic => Panic
        | Diverge => Diverge
        end.

Lemma logs_vm {A} (m : M (Vm St) A) : logs (on_vm m) m.
Proof.
  intros k. exists []. unfold on_vm. destruct (m (kn_vm k)) as [[a v]| |]; [|done..]. by rewrite app_nil_r.
Qed.

Lemma logs_pure {A} (o : outcome A) : logs (lift o) (lift o).
Proof. intros k. exists []. unfold lift. destruct o; [|done..]. rewrite app_nil_r. by destruct k. Qed.

Lemma logs_print s : logs (serial_print s) (mret tt).
Proof. intros k. exists s. rewrite serial_print_run. by destruct k. Qed.

Lemma logs_bind {A B} (m : K A) m' (f : A -> K B) f' : logs m m' -> (forall a, logs (f a) (f' a)) -> logs (m ≫= f) (m' ≫= f').
Proof.
  intros Hm Hf k. destruct (Hm k) as [l1 R]. unfold mbind, M_bind. rewrite R.
  destruct (m' (kn_vm k)) as [[a v]| |]; [|by exists []..].
  destruct (Hf a (set_serial (kn_serial k ++ l1) (set_vm v k))) as [l2 R2]. exists (l1 ++ l2). rewrite R2. cbn.
  rewrite app_assoc. by destruct (f' a v) as [[b v']| |].
Qed.

Lemma logs_try {A B E} (m : K (result A E)) m' (f : A -> K (result B E)) f' :
  logs m m' -> (forall a, logs (f a) (f' a)) -> logs (try_bind m f) (try_bind m' f').
Proof. intros Hm Hf. apply logs_bind; [done|]. intros [a|e]; [apply Hf|]. apply (logs_pure (Ret (Err e))). Qed.

Lemma logs_after {A} s (m : K A) m' : logs m m' -> logs (serial_print s;; m) m'.
Proof. intros Hm. exact (logs_bind _ _ _ (fun _ => m') (logs_print s) (fun _ => Hm)). Qed.

(** A segment that was loaded has an end. *)
Lemma load_segment_end cr3 data heap_end ph v r v' : load_segment cr3 data heap_end ph v = Ret (r, v') ->
  p_type ph = PT_LOAD -> exists stop, cadd 64 (p_vaddr ph) (p_memsz ph) = Ret stop.
Proof.
  unfold load_segment. intros R Hp. rewrite Hp, Z.eqb_refl in R. unfold segment_bounds in R.
  destruct (cadd 64 (p_vaddr ph) (p_memsz ph)) as [stop| |]; [by exists stop|done..].
Qed.

Lemma logs_segments cr3 data phs : forall heap_end i, logs (spawn_segments cr3 data heap_end i phs) (load_segments cr3 data heap_end phs).
Proof.
  induction phs as [|ph phs IH]; intros heap_end i; cbn [spawn_segments load_segments]; [apply (logs_pure (Ret (Ok heap_end)))|].
  intros k. unfold try_bind at 1 2, on_vm, mbind, M_bind.
  destruct (load_segment cr3 data heap_end ph (kn_vm k)) as [[[h|e] v]| |] eqn:R; [|by exists []; rewrite app_nil_r|by exists []..].
  destruct (Z.eqb_spec (p_type ph) PT_LOAD) as [Hp|_].
  - destruct (load_segment_end _ _ _ _ _ _ _ R Hp) as [stop ->]. apply (logs_after (segment_line i ph stop) _ _ (IH h (i + 1)) (set_vm v k)).
  - apply (IH h (i + 1) (set_vm v k)).
Qed.

Lemma logs_image st data : logs (spawn_image st data) (load_elf st data).
Proof.
  unfold spawn_image, load_elf. destruct (negb (64 <=? _)); [by exists []|]. cbv zeta.
  destruct (negb (is_valid _)); [apply logs_after, (logs_pure (Ret (Err tt)))|].
  apply logs_bind; [apply logs_vm|]. intros cr3. apply logs_after, logs_bind; [apply logs_pure|]. intros phs.
  apply logs_try; [apply logs_segments|]. intros heap_end. apply logs_try; [apply logs_vm|]. intros _. apply (logs_pure (Ret (Ok _))).
Qed.

(** ** User memory behind mapped pages *)

Section usermem.
Context (T : Typing) (root : Z).

Lemma user_byte_translate (s : Vm St) v b :
  user_ok T root s -> user_byte root (vmem s) v = Some b ->
  exists pa, translate 4 (vmem s) root v = Some (pa, true) /\ vmem s pa = b /\
    exists p, lookup_page root v (vmem s) = Ret (Some p) /\ pa = p + v mod 4096.
Proof.
  intros Hok Hb. destruct (user_byte_mapped root (vmem s) v b Hb) as [p Hp].
  exists (p + v mod 4096). split; [by apply (lookup_translate T); [apply Hok|]|].
  split; [|by exists p]. unfold user_byte, user_phys in Hb. rewrite Hp in Hb. simpl in Hb. congruence.
Qed.

(** The process has the bytes [bs] at [ptr]. *)
Definition has_bytes (m : mem) (ptr : Z) (bs : list Z) : Prop :=
  forall i : nat, (i < length bs)%nat -> user_byte root m (ptr + Z.of_nat i) = Some (bs !!! i).

Lemma has_bytes_cons m ptr b bs :
  has_bytes m ptr (b :: bs) <-> user_byte root m ptr = Some b /\ has_bytes m (ptr + 1) bs.
Proof.
  unfold has_bytes. split.
  - intros Hb. split.
    + specialize (Hb 0%nat ltac:(simpl; lia)). by rewrite Z.add_0_r in Hb.
    + intros i Hi. specialize (Hb (S i) ltac:(simpl; lia)).
      replace (ptr + 1 + Z.of_nat i) with (ptr + Z.of_nat (S i)) by lia. exact Hb.
  - intros [H0 Hb] [|i] Hi.
    + by rewrite Z.add_0_r.
    + replace (ptr + Z.of_nat (S i)) with (ptr + 1 + Z.of_nat i) by lia. apply Hb. simpl in Hi. lia.
Qed.

Lemma load_user_ok (s : Vm St) bs : forall ptr,
  user_ok T root s -> has_bytes (vmem s) ptr bs ->
  load_user root (vmem s) ptr (length bs) = Ret bs.
Proof.
  induction bs as [|b bs IH]; intros ptr Hok Hb; [done|].
  apply has_bytes_cons in Hb as [H0 Hb]. cbn [length load_user].
  destruct (user_byte_translate s ptr b Hok H0) as (pa & -> & Hpa & _).
  rewrite IH by done. cbn. by rewrite Hpa.
Qed.

(** Mapped addresses. *)
Definition is_mapped (m : mem) (ptr len : Z) : Prop :=
  forall w, ptr <= w < ptr + len -> is_Some (user_byte root m w).

Lemma store_byte_ok (s : Vm St) ptr b :
  user_ok T root s -> is_byte b -> 0 <= ptr < 2 ^ 47 -> is_Some (user_byte root (vmem s) ptr) ->
  exists pa, translate 4 (vmem s) root ptr = Some (pa, true) /\
    user_ok T root (mkVm (st_bytes [b] pa (vmem s)) (falloc s)) /\
    (forall w, hits_huge 4 (st_bytes [b] pa (vmem s)) root w = hits_huge 4 (vmem s) root w) /\
    forall w, 0 <= w < 2 ^ 47 -> user_byte root (st_bytes [b] pa (vmem s)) w =
      if decide (w = ptr) then Some b else user_byte root (vmem s) w.
Proof.
  intros Hok Hbb Hptr [b0 Hb0]. destruct (user_byte_translate s ptr b0 Hok Hb0) as (pa & Ht & _ & p & Hl & ->).
  exists (p + ptr mod 4096). destruct (uo_frame _ _ _ Hok ptr p Hl) as (Ha & _).
  pose proof (Z.mod_pos_bound ptr 4096 ltac:(lia)) as Ho.
  destruct (page_write_ok T root s ptr p (st_bytes [b] (p + ptr mod 4096) (vmem s)) Hok Hl) as (H1 & _ & H3 & H4).
  { apply st_bytes_ok; [by constructor|]. apply (tr_mem _ _ _ (uo_tree _ _ _ Hok)). }
  { intros x Hx. apply st_bytes_out. simpl. destruct (decide (x = p + ptr mod 4096)) as [->|]; [|lia].
    by rewrite page_phys in Hx. }
  split_and!; try done. intros w Hw. rewrite H4. pose proof (Z.mod_pos_bound w 4096 ltac:(lia)) as Hwo.
  destruct (decide (w = ptr)) as [->|Hne].
  - rewrite decide_True by done. f_equal. unfold st_bytes. bool_lia; simpl; lia || f_equal.
    by rewrite Z.sub_diag.
  - case_decide as Hs; [|done]. rewrite st_bytes_out.
    + unfold user_byte, user_phys. rewrite <- (lookup_same_page T root s ptr w) by (done || apply Hok). by rewrite Hl.
    + destruct (decide (ptr mod 4096 = w mod 4096)) as [E|]; [exfalso|simpl; lia].
      apply Hne. pose proof (same_page_offset _ _ Hs E) as Hm. rewrite !Z.mod_small in Hm by lia. done.
Qed.

Lemma store_user_ok bs : forall (s : Vm St) ptr,
  user_ok T root s -> Forall is_byte bs -> 0 <= ptr -> ptr + Z.of_nat (length bs) <= 2 ^ 47 ->
  is_mapped (vmem s) ptr (Z.of_nat (length bs)) ->
  exists m', store_user root ptr bs (vmem s) = Ret m' /\ user_ok T root (mkVm m' (falloc s)) /\
    (forall w, hits_huge 4 m' root w = hits_huge 4 (vmem s) root w) /\
    (forall w, 0 <= w < 2 ^ 47 -> user_byte root m' w =
       if decide (ptr <= w < ptr + Z.of_nat (length bs)) then Some (bs !!! Z.to_nat (w - ptr))
       else user_byte root (vmem s) w).
Proof.
  induction bs as [|b bs IH]; intros s ptr Hok Hb Hp Hr Hm.
  - exists (vmem s). split_and!; try done; [by destruct s|]. intros w Hw. by rewrite decide_False by (simpl; lia).
  - apply Forall_cons in Hb as [Hb0 Hb]. simpl length in *.
    destruct (store_byte_ok s ptr b Hok Hb0 ltac:(lia)) as (pa & Ht & Hok1 & Hh1 & Hb1); [apply Hm; lia|].
    destruct (IH (mkVm (st_bytes [b] pa (vmem s)) (falloc s)) (ptr + 1)) as (m' & Hrun & Hok' & Hh' & Hb'); try done; try lia.
    { intros w Hw. simpl. rewrite Hb1 by lia. case_decide; [by eexists|]. apply Hm. lia. }
    exists m'. split_and!; try done.
    + cbn [store_user]. rewrite Ht. exact Hrun.
    + intros w. by rewrite Hh', Hh1.
    + intros w Hw. rewrite Hb' by done. simpl. rewrite Hb1 by done.
      repeat case_decide; try done; try lia.
      * f_equal. replace (Z.to_nat (w - ptr)) with (S (Z.to_nat (w - (ptr + 1)))) by lia. done.
      * subst. by rewrite Z.sub_diag.
Qed.

End usermem.

End kernel.
Arguments Kernel : clear implicits.
