(* ===== verification/Process.v ===== *)
(** * What a process observes of its system calls

    Theorems about [Syscall.syscall_dispatch] from the caller's side: bytes
    that go through a pipe or come out of a file arrive in the process's
    memory, [brk] yields zeroed pages, calls that fail leave everything as it
    was, and a spawned program is queued with the context its first dispatch
    loads.  The file system is any instance of [VfsNode], the frame allocator
    any [FrameAllocator]. *)

From Stdlib Require Import String.
From S2P Require Import Prelude Bytes Frames Pmm Paging Spaces Mmap Str Vfs Ramfs Elf Syscall.
From S2P Require Kbuf Ipc Fd Gdt Task.

Section process.
Context {W N St : Type} {VN : VfsNode W N} {FA : FrameAllocator St}.
Context (T : Typing).
Notation Kernel := (Kernel W N St).
Implicit Types k : Kernel.

(** [task] is running in its own address space, its frames and the tables the
    kernel keeps for it are in order. *)
Record running (k : Kernel) (task : @Task.Task N) : Prop := {
  rn_current : Task.current_task (kn_sched k) = Some task;
  rn_cr3 : Task.cr3 task = kn_cr3 k;
  rn_user : user_ok T (kn_cr3 k) (kn_vm k);
  rn_fds : Fd.fd_ok (Task.fd_table task);
  rn_pipes : Ipc.table_ok (kn_pipes k)
}.

(** The byte the process reads at [v]. *)
Definition ubyte (k : Kernel) (v : Z) : option Z := user_byte (kn_cr3 k) (vmem (kn_vm k)) v.

Definition ubytes (k : Kernel) (ptr : Z) (bs : list Z) : Prop :=
  has_bytes (kn_cr3 k) (vmem (kn_vm k)) ptr bs.

(** A user buffer of [len] mapped bytes. *)
Definition user_buffer (k : Kernel) (ptr len : Z) : Prop :=
  0 <= ptr /\ ptr + len <= 2 ^ 47 /\ is_mapped (kn_cr3 k) (vmem (kn_vm k)) ptr len.

(** [bs] was stored at [ptr] and nothing else of the memory changed. *)
Definition stored (k k' : Kernel) (ptr : Z) (bs : list Z) : Prop :=
  forall w, 0 <= w < 2 ^ 47 -> ubyte k' w =
    if decide (ptr <= w < ptr + Z.of_nat (length bs)) then Some (bs !!! Z.to_nat (w - ptr)) else ubyte k w.

(** The entry behind a descriptor of the running task. *)
Definition fd_of (k : Kernel) (fd : Z) : option (Fd.FdEntry N) :=
  match Task.current_task (kn_sched k) with Some t => Fd.get fd (Task.fd_table t) | None => None end.

Lemma stored_bytes k k' ptr bs :
  0 <= ptr -> ptr + Z.of_nat (length bs) <= 2 ^ 47 -> stored k k' ptr bs -> ubytes k' ptr bs.
Proof.
  intros Hp Hr Hs i Hi. change (ubyte k' (ptr + Z.of_nat i) = Some (bs !!! i)).
  rewrite Hs, decide_True by lia. do 2 f_equal. lia.
Qed.

Lemma ubytes_byte k task ptr bs : running k task -> ubytes k ptr bs -> Forall is_byte bs.
Proof.
  intros Hr Hb. apply Forall_lookup. intros i b Hi.
  pose proof (Hb i (lookup_lt_Some _ _ _ Hi)) as Hu.
  unfold user_byte in Hu. rewrite (list_lookup_total_correct _ _ _ Hi) in Hu.
  destruct (user_phys _ _ _) as [pa|]; simplify_eq/=.
  apply (tr_mem _ _ _ (uo_tree _ _ _ (rn_user _ _ Hr))).
Qed.

(** ** Steps of the calls *)

Lemma fd_entry_run fd k : fd_entry fd k = Ret (fd_of k fd, k).
Proof. unfold fd_entry, fd_of, current. unfold_m. by destruct (Task.current_task (kn_sched k)). Qed.

Lemma user_slice_ok k task ptr bs :
  running k task -> ubytes k ptr bs ->
  user_slice ptr (Z.of_nat (length bs)) k = Ret (bs, k).
Proof.
  intros Hr Hb. unfold user_slice. unfold_m. rewrite Nat2Z.id.
  by rewrite (load_user_ok T _ _ _ _ (rn_user _ _ Hr) Hb).
Qed.

(** Storing to a mapped buffer. *)
Lemma user_store_ok k task ptr bs :
  running k task -> Forall is_byte bs -> user_buffer k ptr (Z.of_nat (length bs)) ->
  exists v', user_store ptr bs k = Ret (tt, set_vm v' k) /\ falloc v' = falloc (kn_vm k) /\
    running (set_vm v' k) task /\ stored k (set_vm v' k) ptr bs /\
    (forall w, hits_huge 4 (vmem v') (kn_cr3 k) w = hits_huge 4 (vmem (kn_vm k)) (kn_cr3 k) w).
Proof.
  intros Hr Hb (Hp & Hq & Hm).
  destruct (store_user_ok T _ bs (kn_vm k) ptr (rn_user _ _ Hr) Hb Hp Hq Hm) as (m' & Hrun & Hok & Hh & Hby).
  exists (mkVm m' (falloc (kn_vm k))). split_and!; try done.
  - unfold user_store, modify. unfold_m. by rewrite Hrun.
  - by destruct Hr; constructor.
Qed.

(** The state after the running task's descriptor table was replaced. *)
Definition with_fds (task : @Task.Task N) (tbl : Fd.FdTable N) (k : Kernel) : Kernel :=
  set_sched (Task.mkSched (Task.tasks (kn_sched k)) (Some (Task.set_fd_table tbl task))) k.

Lemma with_fds_running k task tbl :
  running k task -> Fd.fd_ok tbl -> running (with_fds task tbl k) (Task.set_fd_table tbl task).
Proof. intros [] Ht. by constructor. Qed.

Definition fd_slot (task : @Task.Task N) : Prop :=
  exists j, 3 <= j < Fd.FD_MAX /\ Fd.get j (Task.fd_table task) = None.

Lemma alloc_fd_ok k task e :
  running k task -> fd_slot task ->
  exists fd tbl, alloc_fd e k = Ret (fd, with_fds task tbl k) /\ 3 <= fd < Fd.FD_MAX /\
    Fd.get fd (Task.fd_table task) = None /\ running (with_fds task tbl k) (Task.set_fd_table tbl task) /\
    (forall j, 0 <= j -> fd_of (with_fds task tbl k) j = if decide (fd = j) then Some e else fd_of k j).
Proof.
  intros Hr (j & Hj & Hg). pose proof (Fd.alloc_cases _ e (rn_fds _ _ Hr)) as Ha.
  unfold alloc_fd, current, update_task, modify. unfold_m. rewrite (rn_current _ _ Hr).
  destruct (Fd.alloc e (Task.fd_table task)) as [[fd|] tbl].
  - destruct Ha as (Hfd & Hn & _ & Ht & Hget). exists fd, tbl. split_and!; try done; try lia.
    + unfold with_fds. cbn. by rewrite (rn_current _ _ Hr).
    + by apply with_fds_running.
    + intros i Hi. unfold fd_of. cbn. rewrite (rn_current _ _ Hr). by apply Hget.
  - destruct Ha as [_ Hall]. destruct (Hall j Hj) as [? E]. congruence.
Qed.

(** ** Pipes *)

Definition pipe_room (k : Kernel) : Prop := exists i, 0 <= i < Ipc.MAX_PIPES /\ Ipc.pipe_bytes (kn_pipes k) i = None.

Lemma sys_pipe_ok k task :
  running k task -> pipe_room k -> fd_slot task ->
  exists fd id tbl pipes, sys_pipe k = Ret (fd, with_fds task tbl (set_pipes pipes k)) /\
    3 <= fd < Fd.FD_MAX /\ fd_of k fd = None /\ 0 <= id /\ Ipc.pipe_bytes pipes id = Some [] /\
    running (with_fds task tbl (set_pipes pipes k)) (Task.set_fd_table tbl task) /\
    (forall j, 0 <= j -> fd_of (with_fds task tbl (set_pipes pipes k)) j =
       if decide (fd = j) then Some (Fd.Pipe id) else fd_of k j).
Proof.
  intros Hr (i & Hi & Hn) Hs. pose proof (Ipc.create_cases _ (rn_pipes _ _ Hr)) as Hc.
  unfold sys_pipe. unfold_m. destruct (Ipc.create (kn_pipes k)) as [[id|] pipes].
  - destruct Hc as (Hid & _ & Hok & Hb). cbn [modify].
    assert (running (set_pipes pipes k) task) as Hr1 by (destruct Hr; by constructor).
    destruct (alloc_fd_ok _ _ (Fd.Pipe id) Hr1 Hs) as (fd & tbl & Hrun & Hfd & Hg & Hr2 & Hof).
    exists fd, id, tbl, pipes. split_and!; try done; try lia.
    + unfold fd_of. by rewrite (rn_current _ _ Hr).
    + rewrite Hb, decide_True by (done || lia). done.
  - destruct Hc as [_ Hall]. destruct (Hall i Hi) as [? E]. congruence.
Qed.

Lemma sys_write_pipe k task fd id old ptr bs :
  running k task -> fd <> 1 -> fd <> 2 -> 0 <= id -> fd_of k fd = Some (Fd.Pipe id) ->
  Ipc.pipe_bytes (kn_pipes k) id = Some old -> bs <> [] -> ubytes k ptr bs ->
  exists n pipes, sys_write fd ptr (Z.of_nat (length bs)) k = Ret (n, set_pipes pipes k) /\
    n = (Ipc.MAX_PIPE_BYTES - Z.of_nat (length old)) `min` Z.of_nat (length bs) /\
    Ipc.pipe_bytes pipes id = Some (old ++ take (Z.to_nat n) bs) /\ running (set_pipes pipes k) task.
Proof.
  intros Hr H1 H2 Hid Hfd Hold Hne Hb. pose proof (Ipc.write_spec id bs _ Hid (rn_pipes _ _ Hr)) as Hw.
  rewrite Hold in Hw. destruct Hw as (n & pipes & Hw & Hok & Hn & _ & Hby). exists n, pipes.
  split_and!; try done.
  - unfold sys_write. assert (0 < Z.of_nat (length bs)) by (destruct bs; [done|simpl; lia]).
    do 3 rewrite (proj2 (Z.eqb_neq _ _)) by lia.
    rewrite (run_bind _ _ _ _ _ (fd_entry_run fd k)), Hfd.
    rewrite (run_bind _ _ _ _ _ (user_slice_ok k task ptr bs Hr Hb)). unfold modify. unfold_m. by rewrite Hw.
  - rewrite Hby, decide_True by (done || lia). done.
  - destruct Hr. by constructor.
Qed.

Lemma sys_read_pipe k task fd id bs ptr len :
  running k task -> fd <> 0 -> 0 <= id -> fd_of k fd = Some (Fd.Pipe id) ->
  Ipc.pipe_bytes (kn_pipes k) id = Some bs -> Forall is_byte bs -> 0 < len -> user_buffer k ptr len ->
  exists n k', sys_read fd ptr len k = Ret (n, k') /\ n = len `min` Z.of_nat (length bs) /\
    stored k k' ptr (take (Z.to_nat n) bs) /\ Ipc.pipe_bytes (kn_pipes k') id = Some (drop (Z.to_nat n) bs) /\
    kn_cr3 k' = kn_cr3 k /\ running k' task.
Proof.
  intros Hr H0 Hid Hfd Hbs Hb Hlen (Hp & Hq & Hm).
  pose proof (Ipc.read_spec id (replicate (Z.to_nat len) 0) _ Hid (rn_pipes _ _ Hr)) as Hrd.
  rewrite Hbs in Hrd. destruct Hrd as (n & pipes & Hrd & Hok & Hn & Hby). rewrite length_replicate, Z2Nat.id in Hn by lia.
  assert (length (take (Z.to_nat n) bs) = Z.to_nat n) as Hl by (rewrite length_take; lia).
  assert (running (set_pipes pipes k) task) as Hr1 by (destruct Hr; by constructor).
  destruct (user_store_ok (set_pipes pipes k) task ptr (take (Z.to_nat n) bs) Hr1) as (v' & Hst & _ & Hr2 & Hs & _).
  { by apply Forall_take. }
  { rewrite Hl. split_and!; [done|lia|]. intros w Hw. apply Hm. lia. }
  exists n, (set_vm v' (set_pipes pipes k)). split_and!; try done.
  - unfold sys_read. do 2 rewrite (proj2 (Z.eqb_neq _ _)) by lia.
    rewrite (run_bind _ _ _ _ _ (fd_entry_run fd k)), Hfd.
    unfold get at 1. unfold mbind at 1, M_bind at 1. rewrite Hrd.
    rewrite take_app_length' by done.
    unfold modify at 1. unfold mbind at 1, M_bind at 1. by rewrite (run_bind _ _ _ _ _ Hst).
  - cbn. by rewrite Hby, decide_True by (done || lia).
Qed.

(** ** Files *)

(** A regular file with the given contents, as far as [read] can tell. *)
Definition file_content (node : N) (content : list Z) : Prop :=
  forall off len w, 0 <= off -> 0 <= len ->
    read node off len w = Ret (Ok (take (Z.to_nat len) (drop (Z.to_nat off) content)), w).

Definition advance (fd offset : Z) (t : Fd.FdTable N) : Fd.FdTable N :=
  Fd.get_mut fd (fun e => match e with Fd.VfsFile node _ => Fd.VfsFile node offset | e => e end) t.

Lemma fd_of_running k task fd : running k task -> fd_of k fd = Fd.get fd (Task.fd_table task).
Proof. intros Hr. unfold fd_of. by rewrite (rn_current _ _ Hr). Qed.

Lemma sys_read_file k task fd node off content ptr len :
  running k task -> 0 < fd -> fd_of k fd = Some (Fd.VfsFile node off) -> 0 <= off ->
  file_content node content -> Forall is_byte content -> off + len < 2 ^ 64 -> 0 < len -> user_buffer k ptr len ->
  let bs := take (Z.to_nat len) (drop (Z.to_nat off) content) in
  let off' := off + Z.of_nat (length bs) in
  exists k', sys_read fd ptr len k = Ret (Z.of_nat (length bs), k') /\
    stored k k' ptr bs /\ kn_cr3 k' = kn_cr3 k /\
    running k' (Task.set_fd_table (advance fd off' (Task.fd_table task)) task) /\
    (forall j, 0 <= j -> fd_of k' j = if decide (fd = j) then Some (Fd.VfsFile node off') else fd_of k j).
Proof.
  intros Hr H0 Hfd Ho Hc Hb Hov Hlen (Hp & Hq & Hm) bs off'.
  assert (Z.of_nat (length bs) <= len) as Hl by (subst bs; rewrite length_take; lia).
  assert (Fd.get fd (Task.fd_table task) = Some (Fd.VfsFile node off)) as Hg
    by (by rewrite <- (fd_of_running k)).
  set (tbl := advance fd off' (Task.fd_table task)).
  destruct (Fd.get_mut_cases (Task.fd_table task) fd (fun e => match e with Fd.VfsFile node _ => Fd.VfsFile node off' | e => e end)
    (rn_fds _ _ Hr) ltac:(lia)) as [Htok Hget].
  destruct (user_store_ok (set_world (kn_world k) k) task ptr bs) as (v' & Hst & _ & Hr2 & Hs & _).
  { destruct Hr. by constructor. } { by apply Forall_take, Forall_drop. }
  { split_and!; [done|lia|]. intros w Hw. apply Hm. lia. }
  pose proof (with_fds_running _ _ tbl Hr2 Htok) as Hr3.
  exists (with_fds task tbl (set_vm v' (set_world (kn_world k) k))). split_and!; try done.
  - unfold sys_read. do 2 rewrite (proj2 (Z.eqb_neq _ _)) by lia.
    rewrite (run_bind _ _ _ _ _ (fd_entry_run fd k)), Hfd.
    assert (on_world (read node off len) k = Ret (Ok bs, set_world (kn_world k) k)) as Hrd.
    { unfold on_world. by rewrite Hc by lia. }
    rewrite (run_bind _ _ _ _ _ Hrd), (run_bind _ _ _ _ _ Hst). unfold cadd.
    rewrite (proj2 (Z.ltb_lt _ _)) by (subst off'; lia). unfold update_task, modify. unfold_m.
    unfold with_fds. cbn. by rewrite (rn_current _ _ Hr).
  - intros j Hj. unfold fd_of at 1. cbn. unfold tbl, advance. rewrite Hget by done. rewrite Hg, (fd_of_running k task) by done.
    by case_decide.
Qed.

(** A process that reads into one buffer after another, collecting what it
    finds there after each call. *)
Fixpoint read_all (fd : Z) (bufs : list (Z * Z)) : K (W := W) (N := N) (St := St) (list Z) :=
  match bufs with
  | [] => mret []
  | (ptr, len) :: bufs =>
      n ← sys_read fd ptr len;
      bs ← user_slice ptr n;
      rest ← read_all fd bufs;
      mret (bs ++ rest)
  end.

Definition total (bufs : list (Z * Z)) : Z := foldr (fun b n => snd b + n) 0 bufs.

Lemma user_buffer_stored k k' p bs ptr len :
  kn_cr3 k' = kn_cr3 k -> stored k k' p bs -> user_buffer k ptr len -> user_buffer k' ptr len.
Proof.
  intros Hc Hs (Hp & Hq & Hm). split_and!; try done. intros w Hw.
  change (is_Some (ubyte k' w)). rewrite Hs by lia. case_decide; [by eexists|]. by apply Hm.
Qed.

Lemma total_nonneg k bufs : Forall (fun b => 0 < snd b /\ user_buffer k (fst b) (snd b)) bufs -> 0 <= total bufs.
Proof. induction 1 as [|[p l] bufs [Hl _] _ IH]; simpl in *; lia. Qed.

Lemma read_all_ok bufs : forall k task fd node off content,
  running k task -> 0 < fd -> fd_of k fd = Some (Fd.VfsFile node off) -> 0 <= off ->
  file_content node content -> Forall is_byte content -> off + total bufs < 2 ^ 64 ->
  Forall (fun b => 0 < snd b /\ user_buffer k (fst b) (snd b)) bufs ->
  exists k', read_all fd bufs k = Ret (take (Z.to_nat (total bufs)) (drop (Z.to_nat off) content), k').
Proof.
  induction bufs as [|[ptr len] bufs IH]; intros k task fd node off content Hr H0 Hfd Ho Hc Hb Hov Hbufs.
  - exists k. done.
  - apply Forall_cons in Hbufs as [[Hlen Hbuf] Hbufs]. pose proof (total_nonneg _ _ Hbufs) as Ht.
    cbn [total foldr fst snd] in Hlen, Hbuf, Hov |- *. fold (total bufs) in Hov |- *.
    destruct (sys_read_file k task fd node off content ptr len) as (k1 & Hrun & Hs & Hcr & Hr1 & Hf1); try done; try lia.
    set (bs := take (Z.to_nat len) (drop (Z.to_nat off) content)) in *.
    assert (Z.of_nat (length bs) <= len) as Hl by (subst bs; rewrite length_take; lia).
    destruct (IH k1 _ fd node (off + Z.of_nat (length bs)) content Hr1) as (k2 & Hrun2); try done; try lia.
    { rewrite Hf1 by lia. by rewrite decide_True by done. }
    { eapply Forall_impl; [exact Hbufs|]. intros [p l] [Hl' Hu]. split; [done|]. by eapply user_buffer_stored. }
    exists k2. cbn [read_all]. destruct Hbuf as (Hp & Hq & _).
    rewrite (run_bind _ _ _ _ _ Hrun), (run_bind _ _ _ _ _ (user_slice_ok _ _ ptr bs Hr1 ltac:(by apply (stored_bytes k); [|lia|]))).
    rewrite (run_bind _ _ _ _ _ Hrun2). unfold mret, M_ret. do 2 f_equal.
    replace (Z.to_nat (len + total bufs)) with (Z.to_nat len + Z.to_nat (total bufs))%nat by lia.
    rewrite <- take_take_drop. f_equal. fold bs. rewrite drop_drop.
    destruct (decide (length bs = Z.to_nat len)) as [E|E].
    + do 2 f_equal. lia.
    + assert (length (drop (Z.to_nat off) content) < Z.to_nat len)%nat as Hd
        by (subst bs; rewrite length_take in E; lia).
      assert (length bs = length (drop (Z.to_nat off) content)) as E2 by (subst bs; rewrite length_take; lia).
      rewrite length_drop in Hd, E2. rewrite !drop_ge by lia. done.
Qed.

(** The path a process passes to [open]: at most 512 ASCII characters and a
    terminator. *)
Lemma user_path_ok k task path : forall fuel s ptr,
  running k task -> ubytes k ptr (path ++ [0]) -> Forall (fun c => 0 < c < 128) path ->
  Z.of_nat (length s) + Z.of_nat (length path) <= 512 -> (length path < fuel)%nat ->
  user_path fuel (kn_cr3 k) (vmem (kn_vm k)) ptr s = Ret (s ++ path).
Proof.
  induction path as [|c path IH]; intros fuel s ptr Hr Hb Hc Hs Hf; destruct fuel as [|fuel]; try (simpl in Hf; lia).
  - apply has_bytes_cons in Hb as [Hb _]. cbn [user_path].
    destruct (user_byte_translate T (kn_cr3 k) (kn_vm k) ptr 0 (rn_user _ _ Hr) Hb) as (pa & -> & -> & _).
    by rewrite app_nil_r.
  - rewrite <- app_comm_cons in Hb. apply has_bytes_cons in Hb as [Hb0 Hb]. apply Forall_cons in Hc as [Hc0 Hc].
    cbn [user_path].
    destruct (user_byte_translate T (kn_cr3 k) (kn_vm k) ptr c (rn_user _ _ Hr) Hb0) as (pa & -> & -> & _).
    simpl length in Hs, Hf. rewrite (proj2 (Z.eqb_neq _ _)), (proj2 (Z.leb_gt _ _)) by lia. cbn [orb].
    unfold push_char. rewrite (proj2 (Z.ltb_lt _ _)) by lia.
    rewrite IH; [by rewrite <- app_assoc|done|done|done|rewrite length_app; simpl; lia|lia].
Qed.

Lemma sys_open_ok k task ptr path node w' :
  running k task -> fd_slot task -> ubytes k ptr (path ++ [0]) -> Forall (fun c => 0 < c < 128) path ->
  Z.of_nat (length path) <= 512 -> open (kn_vfs k) path (kn_world k) = Ret (Ok node, w') ->
  exists fd tbl, sys_open ptr k = Ret (fd, with_fds task tbl (set_world w' k)) /\ 3 <= fd < Fd.FD_MAX /\
    running (with_fds task tbl (set_world w' k)) (Task.set_fd_table tbl task) /\
    (forall j, 0 <= j -> fd_of (with_fds task tbl (set_world w' k)) j =
       if decide (fd = j) then Some (Fd.VfsFile node 0) else fd_of k j).
Proof.
  intros Hr Hs Hb Hc Hl Ho. assert (running (set_world w' k) task) as Hr1 by (destruct Hr; by constructor).
  destruct (alloc_fd_ok _ _ (Fd.VfsFile node 0) Hr1 Hs) as (fd & tbl & Hrun & Hfd & Hg & Hr2 & Hof).
  exists fd, tbl. split_and!; try done; try lia.
  unfold sys_open. unfold get, lift. unfold mbind at 1, M_bind at 1. unfold mbind at 1, M_bind at 1.
  rewrite (user_path_ok k task path) by (done || simpl; lia). cbn [app].
  assert (on_world (open (kn_vfs k) path) k = Ret (Ok node, set_world w' k)) as Hopen.
  { unfold on_world. by rewrite Ho. }
  rewrite (run_bind _ _ _ _ _ Hopen). exact Hrun.
Qed.

End process.

(** ** The break *)

Section heap.
Context {W N St : Type} {VN : VfsNode W N} {FA : FrameAllocator St}.
Notation Kernel := (Kernel W N St).
Implicit Types k : Kernel.

(** [brk] maps the pages [mmap] would. *)
Lemma brk_loop_anon (n : nat) : forall i fuel root base new (s s' : Vm St),
  alloc_anon_from root base i n s = Ret (Ok tt, s') -> (n < fuel)%nat -> 0 <= i ->
  base + (i + Z.of_nat n - 1) * 4096 < new \/ n = 0%nat -> new <= base + (i + Z.of_nat n) * 4096 < 2 ^ 64 ->
  brk_loop fuel root (base + i * 4096) new s = Ret (base + (i + Z.of_nat n) * 4096, s').
Proof.
  induction n as [|n IH]; intros i [|fuel] root base new s s' Hrun Hf Hi Hlo Hhi; try lia; cbn [brk_loop].
  - injection Hrun as ->. rewrite (proj2 (Z.ltb_ge _ _)) by lia. unfold_m. do 2 f_equal. lia.
  - rewrite (proj2 (Z.ltb_lt _ _)) by lia. revert Hrun. cbn [alloc_anon_from]. unfold_m.
    unfold cmul. destruct (i * 4096 <? 2 ^ 64); [|done].
    unfold cadd at 1. destruct (base + i * 4096 <? 2 ^ 64); [|done].
    destruct (alloc_frame s) as [[[phys|] s1]| |]; try done.
    destruct (phys_to_virt phys) as [kp| |]; try done. destruct (modify_mem _ s1) as [[[] s2]| |]; try done.
    destruct (map_user_page _ _ _ _ s2) as [[[] s3]| |]; try done. intros Hrun.
    unfold cadd. rewrite (proj2 (Z.ltb_lt _ _)) by lia.
    replace (base + i * 4096 + 4096) with (base + (i + 1) * 4096) by lia.
    rewrite (IH (i + 1) fuel root base new s3 s' Hrun) by lia. do 2 f_equal. lia.
Qed.

Definition grow (h new : Z) : Z := (new - h + 4095) / 4096.

(** Where the break is after [brk(new)]. *)
Definition brk_end (h new : Z) : Z := if h <? new then h + grow h new * 4096 else h.

Lemma sys_brk_ok (n : nat) T k task new :
  running T k task -> let h := Task.heap_end task in
  0 <= h -> h < new -> h + grow h new * 4096 < 2 ^ 64 ->
  (forall j, 0 <= j < grow h new -> hits_huge 4 (vmem (kn_vm k)) (kn_cr3 k) (h + j * 4096) = false) ->
  has_free (4 * Z.to_nat (grow h new) + n) (falloc (kn_vm k)) ->
  exists T' k', sys_brk new k = Ret (brk_end h new, k') /\
    running T' k' (Task.set_heap_end (brk_end h new) task) /\ kn_cr3 k' = kn_cr3 k /\
    has_free n (falloc (kn_vm k')) /\
    (forall w, ubyte k' w = if decide (in_pages h 0 (Z.to_nat (grow h new)) w) then Some 0 else ubyte k w).
Proof.
  intros Hr h Hh Hlt Hov Hhuge Hfree.
  assert (0 <= grow h new) as Hg by (unfold grow; dm_lia).
  destruct (alloc_anon_from_ok (Z.to_nat (grow h new)) n 0 T (kn_cr3 k) (kn_vm k) h (rn_user _ _ _ Hr))
    as (T' & s' & Hrun & Hok & Hf & Hby & _); try done; try lia.
  { intros j Hj. apply Hhuge. lia. }
  assert (brk_loop (S (Z.to_nat ((new - h + 4095) / 4096))) (kn_cr3 k) h new (kn_vm k) =
    Ret (h + grow h new * 4096, s')) as Hloop.
  { pose proof (brk_loop_anon _ 0 (S (Z.to_nat (grow h new))) _ h new _ _ Hrun) as Hl.
    rewrite Z.mul_0_l, Z.add_0_r, Z.add_0_l, Z2Nat.id in Hl by lia. apply Hl; try lia.
    all: unfold grow in *; dm_lia. }
  assert (brk_end h new = h + grow h new * 4096) as Hbe by (unfold brk_end; by rewrite (proj2 (Z.ltb_lt _ _))).
  exists T', (set_sched (Task.mkSched (Task.tasks (kn_sched k)) (Some (Task.set_heap_end (brk_end h new) task))) (set_vm s' k)).
  split_and!; try done.
  - unfold sys_brk, current. unfold_m. rewrite (rn_current _ _ _ Hr). fold h.
    rewrite (proj2 (Z.eqb_neq _ _)), (proj2 (Z.ltb_lt _ _)), (rn_cr3 _ _ _ Hr) by lia.
    unfold on_vm. rewrite Hloop, Hbe. unfold update_task, modify. cbn. by rewrite (rn_current _ _ _ Hr).
  - destruct Hr. by constructor.
Qed.

(** [brk(0)] and a break that is already high enough change nothing. *)
Lemma sys_brk_same T k task new :
  running T k task -> 0 <= new <= Task.heap_end task -> sys_brk new k = Ret (Task.heap_end task, k).
Proof.
  intros Hr Hn. unfold sys_brk, current. unfold_m. rewrite (rn_current _ _ _ Hr).
  destruct (new =? 0); [done|]. by rewrite (proj2 (Z.ltb_ge _ _)) by lia.
Qed.

(** With no frame left the break stays where it is. *)
Lemma sys_brk_oom T k task new :
  running T k task -> Task.heap_end task < new -> new <> 0 -> (forall b, ~ fa_free (falloc (kn_vm k)) b) ->
  sys_brk new k = Ret (Task.heap_end task, k).
Proof.
  intros Hr Hlt Hnz Hn. unfold sys_brk, current. unfold_m. rewrite (rn_current _ _ _ Hr).
  rewrite (proj2 (Z.eqb_neq _ _)), (proj2 (Z.ltb_lt _ _)) by lia.
  unfold on_vm. cbn [brk_loop]. rewrite (proj2 (Z.ltb_lt _ _)) by lia. unfold_m.
  unfold alloc_frame. rewrite (alloc_none T _ _ (uo_tree _ _ _ (rn_user _ _ _ Hr)) Hn). unfold_m.
  unfold update_task, modify. cbn. rewrite (rn_current _ _ _ Hr). cbn. do 2 f_equal.
  destruct k as [? v ? [? c]]. pose proof (rn_current _ _ _ Hr) as Hc. cbn in Hc. subst c. destruct v, task. done.
Qed.

End heap.

(** ** Calls that fail *)

Section errors.
Context {W N St : Type} {VN : VfsNode W N} {FA : FrameAllocator St}.
Notation Kernel := (Kernel W N St).
Implicit Types k : Kernel.

(** Writing back what is there changes nothing. *)
Lemma update_task_same k (f : @Task.Task N -> @Task.Task N) :
  f <$> Task.current_task (kn_sched k) = Task.current_task (kn_sched k) -> update_task f k = Ret (tt, k).
Proof.
  intros Hf. unfold update_task, modify. cbv beta. rewrite Hf. destruct k as [? ? ? [? ?]]. reflexivity.
Qed.

Definition no_target (e : option (Fd.FdEntry N)) : Prop :=
  match e with Some (Fd.Pipe _) | Some (Fd.VfsFile _ _) => False | _ => True end.

Definition not_pipe (e : option (Fd.FdEntry N)) : Prop :=
  match e with Some (Fd.Pipe _) => False | _ => True end.

Lemma sys_write_bad k fd ptr len :
  0 < len -> fd <> 1 -> fd <> 2 -> not_pipe (fd_of k fd) -> sys_write fd ptr len k = Ret (MAX, k).
Proof.
  intros Hl H1 H2 Hn. unfold sys_write. do 3 rewrite (proj2 (Z.eqb_neq _ _)) by lia.
  rewrite (run_bind _ _ _ _ _ (fd_entry_run fd k)). by destruct (fd_of k fd) as [[]|].
Qed.

Lemma sys_read_bad k fd ptr len :
  0 < len -> fd <> 0 -> no_target (fd_of k fd) -> sys_read fd ptr len k = Ret (MAX, k).
Proof.
  intros Hl H0 Hn. unfold sys_read. do 2 rewrite (proj2 (Z.eqb_neq _ _)) by lia.
  rewrite (run_bind _ _ _ _ _ (fd_entry_run fd k)). by destruct (fd_of k fd) as [[]|].
Qed.

Lemma sys_close_bad T k task fd :
  running T k task -> 0 <= fd -> fd_of k fd = None -> sys_close fd k = Ret (MAX, k).
Proof.
  intros Hr Hfd Hg. rewrite (fd_of_running T k task fd Hr) in Hg.
  pose proof (Fd.close_cases _ fd (rn_fds _ _ _ Hr) Hfd) as Hc. rewrite Hg in Hc.
  unfold sys_close, current. unfold_m. rewrite (rn_current _ _ _ Hr), Hc.
  rewrite update_task_same; [done|]. rewrite (rn_current _ _ _ Hr). cbn. by destruct task.
Qed.

Lemma sys_close_ok T k task fd e :
  running T k task -> 0 <= fd -> fd_of k fd = Some e ->
  exists tbl, sys_close fd k = Ret (0, with_fds task tbl k) /\
    running T (with_fds task tbl k) (Task.set_fd_table tbl task) /\
    forall j, 0 <= j -> fd_of (with_fds task tbl k) j = if decide (fd = j) then None else fd_of k j.
Proof.
  intros Hr Hfd Hg. rewrite (fd_of_running T k task fd Hr) in Hg.
  pose proof (Fd.close_cases _ fd (rn_fds _ _ _ Hr) Hfd) as Hc. rewrite Hg in Hc.
  destruct Hc as (tbl & Hc & Ht & Hget). exists tbl. split_and!.
  - unfold sys_close, current. unfold_m. rewrite (rn_current _ _ _ Hr), Hc.
    unfold update_task, modify, with_fds. cbn. by rewrite (rn_current _ _ _ Hr).
  - by apply with_fds_running.
  - intros j Hj. rewrite (fd_of_running T k task j Hr). unfold fd_of. cbn. by apply Hget.
Qed.

(** The pipe stays allocated when no descriptor is left for it. *)
Lemma sys_pipe_leak T k task :
  running T k task -> pipe_room k -> (forall j, 3 <= j < Fd.FD_MAX -> is_Some (fd_of k j)) ->
  exists id pipes, sys_pipe k = Ret (MAX, set_pipes pipes k) /\
    Ipc.pipe_bytes (kn_pipes k) id = None /\ Ipc.pipe_bytes pipes id = Some [].
Proof.
  intros Hr (i & Hi & Hn) Hfull. pose proof (Ipc.create_cases _ (rn_pipes _ _ _ Hr)) as Hc.
  unfold sys_pipe. unfold_m. destruct (Ipc.create (kn_pipes k)) as [[id|] pipes].
  - destruct Hc as (Hid & Hnone & Hok & Hb). exists id, pipes. split_and!; [|done|].
    + unfold modify, alloc_fd, current. unfold_m. cbn. rewrite (rn_current _ _ _ Hr).
      pose proof (Fd.alloc_cases _ (Fd.Pipe id) (rn_fds _ _ _ Hr)) as Ha.
      destruct (Fd.alloc _ (Task.fd_table task)) as [[fd|] tbl]; [|done].
      destruct Ha as (Hfd & Hg & _). destruct (Hfull fd Hfd) as [e He].
      rewrite (fd_of_running T k task fd Hr) in He. congruence.
    + rewrite Hb, decide_True by (done || lia). done.
  - destruct Hc as [_ Hall]. destruct (Hall i Hi) as [? E]. congruence.
Qed.

End errors.

(** ** Ending and starting processes *)

Section lifecycle.
Context {W N St : Type} {VN : VfsNode W N} {FA : FrameAllocator St}.
Notation Kernel := (Kernel W N St).
Implicit Types k : Kernel.

Lemma sys_exit_run k code task :
  Task.current_task (kn_sched k) = Some task ->
  exists log, sys_exit code k = Ret (0,
    set_sched (Task.mkSched (Task.tasks (kn_sched k)) (Some (Task.set_state Task.Dead task)))
      (set_serial (kn_serial k ++ log) k)).
Proof.
  intros Hc. eexists. unfold sys_exit. rewrite (run_bind _ _ _ _ _ (serial_print_run _ k)).
  unfold update_task, modify. unfold_m. cbn. by rewrite Hc.
Qed.

(** The file [open] finds at [path] holds [data]. *)
Definition executable k (path : str) (data : list Z) : Prop :=
  exists node w, open (kn_vfs k) path (kn_world k) = Ret (Ok node, w) /\ file_content node data /\
    forall w', attribute node w' = Ret (mkStat (Z.of_nat (length data)) File, w').

(** What [spawn_process] makes of the loader's answer. *)
Lemma spawn_prefix st ptr path data k r v' :
  executable k path data -> load_elf st data (kn_vm k) = Ret (r, v') ->
  exists k1 log, kn_vm k1 = v' /\ kn_sched k1 = kn_sched k /\ kn_next_id k1 = kn_next_id k /\
    spawn_process st ptr path k = match r with
    | Err e => Ret (Err e, k1)
    | Ok image =>
        let '(user_task, next_id, m) :=
          Task.Task_new (im_entry image) (im_stack_top image) (im_cr3 image) true ptr (kn_next_id k)
            (virt_view (vmem v')) in
        Ret (Ok tt, set_serial log (set_sched (Task.add_task (Task.set_heap_end (im_heap_end image) user_task) (kn_sched k))
                      (set_next_id next_id (set_vm (mkVm (phys_view m) (falloc v')) k1))))
    end.
Proof.
  intros (node & w & Hopen & Hc & Ha) Hload. unfold spawn_process.
  do 3 rewrite (run_bind _ _ _ _ _ (serial_print_run _ _)). set (k0 := set_serial _ _).
  rewrite (run_bind get _ k0 k0 k0 eq_refl).
  assert (on_world (open (kn_vfs k0) path) k0 = Ret (Ok node, set_world w k0)) as R1 by (unfold on_world; cbn; by rewrite Hopen).
  rewrite (run_try _ _ _ _ _ R1).
  assert (on_world (attribute node) (set_world w k0) = Ret (mkStat (Z.of_nat (length data)) File, set_world w k0)) as R2
    by (unfold on_world; cbn; by rewrite Ha).
  rewrite (run_bind _ _ _ _ _ R2). cbn [st_size].
  assert (on_world (read node 0 (Z.of_nat (length data))) (set_world w k0) = Ret (Ok data, set_world w k0)) as R3.
  { unfold on_world. cbn. rewrite Hc by lia. by rewrite Nat2Z.id, drop_0, firstn_all. }
  rewrite (run_try _ _ _ _ _ R3). rewrite Nat2Z.id, Nat.sub_diag. cbn [replicate]. rewrite app_nil_r. cbv zeta.
  destruct (logs_image st data (set_world w k0)) as [log R4]. cbn [kn_vm k0 set_world set_serial] in R4. rewrite Hload in R4.
  destruct r as [image|e].
  - rewrite (run_try _ _ _ _ _ R4). set (k1 := set_serial _ _). rewrite (run_bind get _ k1 k1 k1 eq_refl).
    destruct (@Task.Task_new N _ _ _ _ _ _ _) as [[t i] m] eqn:Et. cbn [kn_vm k1 set_serial set_vm vmem kn_next_id set_world] in Et.
    exists k1. eexists. split; [done|]. split; [done|]. split; [done|].
    unfold modify. unfold_m. rewrite serial_print_run. subst k1. reflexivity.
  - rewrite (run_try_err _ _ _ _ _ R4). eexists _, []. split_and!; [..|reflexivity]; done.
Qed.

End lifecycle.

(** ** Properties *)

(** C10: bytes sent through a pipe arrive.  When a pipe and a descriptor are
    free, the [pipe] call returns a new descriptor; after writing up to 4096
    bytes of the process's memory to it, reading as many into another buffer
    returns their number, leaves exactly these bytes in the buffer and every
    other byte of the process as it was. *)
Theorem pipe_transfer {W N St : Type} `{VfsNode W N} `{FrameAllocator St}
    (T : Typing) (k : Kernel W N St) (task : @Task.Task N) (src dst : Z) (bs : list Z)
    (Hr : running T k task) (Hroom : pipe_room k) (Hslot : fd_slot task)
    (Hne : bs <> []) (Hlen : Z.of_nat (length bs) <= 4096)
    (Hsrc : ubytes k src bs) (Hdst : user_buffer k dst (Z.of_nat (length bs))) :
  exists fd k1 k2 k3 task',
    syscall_dispatch 3 0 0 0 k = Ret (fd, k1) /\ 3 <= fd < 64 /\ fd_of k fd = None /\
    syscall_dispatch 4 fd src (Z.of_nat (length bs)) k1 = Ret (Z.of_nat (length bs), k2) /\
    syscall_dispatch 5 fd dst (Z.of_nat (length bs)) k2 = Ret (Z.of_nat (length bs), k3) /\
    stored k k3 dst bs /\ running T k3 task'.
Proof.
  destruct (sys_pipe_ok T k task Hr Hroom Hslot) as (fd & id & tbl & pipes & R1 & Hfd & Hnew & Hid & Hp1 & Hr1 & Hf1).
  set (k1 := with_fds task tbl (set_pipes pipes k)) in *.
  assert (fd_of k1 fd = Some (Fd.Pipe id)) as Hfd1 by (rewrite Hf1, decide_True by (done || lia); done).
  destruct (sys_write_pipe T k1 _ fd id [] src bs Hr1) as (n & pipes2 & R2 & Hn & Hp2 & Hr2); try done; try lia.
  assert (n = Z.of_nat (length bs)) as -> by (unfold Ipc.MAX_PIPE_BYTES in Hn; simpl in Hn; lia).
  rewrite Nat2Z.id, firstn_all in Hp2. cbn [app] in Hp2.
  destruct (sys_read_pipe T (set_pipes pipes2 k1) _ fd id bs dst (Z.of_nat (length bs)) Hr2)
    as (n & k3 & R3 & Hn3 & Hst & _ & _ & Hr3); try done; try lia.
  { by eapply ubytes_byte. } { destruct bs; [done|simpl; lia]. }
  assert (n = Z.of_nat (length bs)) as -> by lia. rewrite Nat2Z.id, firstn_all in Hst.
  exists fd, k1, (set_pipes pipes2 k1), k3, (Task.set_fd_table tbl task). unfold Fd.FD_MAX in Hfd. split_and!; done || lia.
Qed.

(** C11: a process that opens a regular file and reads it buffer by buffer
    finds, in order, the bytes of the file from its start: the contents up to
    the total length of the buffers, however they are cut, because each read
    moves the descriptor's offset by what it delivered. *)
Theorem file_read_stream {W N St : Type} `{VfsNode W N} `{FrameAllocator St}
    (T : Typing) (k : Kernel W N St) (task : @Task.Task N) (ptr : Z) (path : str) (node : N) (w' : W)
    (content : list Z) (bufs : list (Z * Z))
    (Hr : running T k task) (Hslot : fd_slot task)
    (Hpath : ubytes k ptr (path ++ [0])) (Hascii : Forall (fun c => 0 < c < 128) path)
    (Hpl : Z.of_nat (length path) <= 512) (Hopen : open (kn_vfs k) path (kn_world k) = Ret (Ok node, w'))
    (Hc : file_content node content) (Hb : Forall is_byte content)
    (Htot : total bufs < 2 ^ 64) (Hbufs : Forall (fun b => 0 < snd b /\ user_buffer k (fst b) (snd b)) bufs) :
  exists fd k1 k2, syscall_dispatch 9 ptr 0 0 k = Ret (fd, k1) /\ 3 <= fd < 64 /\
    read_all fd bufs k1 = Ret (take (Z.to_nat (total bufs)) content, k2).
Proof.
  destruct (sys_open_ok T k task ptr path node w') as (fd & tbl & R1 & Hfd & Hr1 & Hf1); try done.
  set (k1 := with_fds task tbl (set_world w' k)) in *.
  destruct (read_all_ok T bufs k1 _ fd node 0 content Hr1) as (k2 & R2); try done; try lia.
  { rewrite Hf1, decide_True by (done || lia). done. }
  exists fd, k1, k2. rewrite drop_0 in R2. unfold Fd.FD_MAX in Hfd. split_and!; done || lia.
Qed.

(** C13: while four frames per page are free and no 2 MB page is in the way,
    raising the break succeeds and returns it rounded up to whole pages; the
    process reads zero in the new pages and its old bytes elsewhere.  Asking
    for 0 or for less changes nothing, and with no frame left the break stays
    and is returned. *)
Theorem brk_spec {W N St : Type} `{VfsNode W N} `{FrameAllocator St}
    (n : nat) (T : Typing) (k : Kernel W N St) (task : @Task.Task N) (new : Z)
    (Hr : running T k task) (Hnew : 0 <= new) (Hh : 0 <= Task.heap_end task)
    (Hov : Task.heap_end task + grow (Task.heap_end task) new * 4096 < 2 ^ 64) :
  let h := Task.heap_end task in
  (new <= h -> syscall_dispatch 7 new 0 0 k = Ret (h, k)) /\
  (h < new -> (forall b, ~ fa_free (falloc (kn_vm k)) b) -> syscall_dispatch 7 new 0 0 k = Ret (h, k)) /\
  (h < new -> (forall j, 0 <= j < grow h new -> hits_huge 4 (vmem (kn_vm k)) (kn_cr3 k) (h + j * 4096) = false) ->
   has_free (4 * Z.to_nat (grow h new) + n) (falloc (kn_vm k)) ->
   exists T' k', syscall_dispatch 7 new 0 0 k = Ret (h + grow h new * 4096, k') /\
     new <= h + grow h new * 4096 < new + 4096 /\
     running T' k' (Task.set_heap_end (h + grow h new * 4096) task) /\
     forall v, ubyte k' v =
       if decide (Exists (fun j => same_page (h + j * 4096) v) (seqZ 0 (grow h new))) then Some 0 else ubyte k v).
Proof.
  intros h. split_and!; cbn [syscall_dispatch].
  - intros Hle. by apply (sys_brk_same T).
  - intros Hlt Hn. apply (sys_brk_oom T); try done. lia.
  - intros Hlt Hhuge Hfree. destruct (sys_brk_ok n T k task new Hr) as (T' & k' & R & Hr' & _ & _ & Hby); try done.
    assert (brk_end h new = h + grow h new * 4096) as E by (unfold brk_end; by rewrite (proj2 (Z.ltb_lt _ _))).
    fold h in R, Hr', Hby. rewrite E in R, Hr'. exists T', k'. split_and!; try done; try (unfold grow; dm_lia).
    intros v. rewrite Hby. assert (Z.of_nat (Z.to_nat (grow h new)) = grow h new) as Hz by (unfold grow; dm_lia).
    repeat case_decide; try done; unfold in_pages in *; rewrite Hz in *; done.
Qed.


(** [exit] takes effect at the next timer tick: the task is marked dead,
    and [pick_next] then drops it, keeps every other task and runs the first
    one waiting.  When none waits, the tick returns to the dead task's own
    stack and address space: it goes on running. *)
Theorem exit_drops_task {W N St : Type} `{VfsNode W N} `{FrameAllocator St}
    (k : Kernel W N St) (task : @Task.Task N) (code r c : Z) (tss : Gdt.Gdt.Tss)
    (Hc : Task.current_task (kn_sched k) = Some task) :
  exists k', syscall_dispatch 6 code 0 0 k = Ret (0, k') /\
    match Task.tasks (kn_sched k) with
    | next :: rest => exists tss', Task.pick_next r c (kn_sched k') tss =
        (Task.mkSwitch (Task.rsp next) (Task.cr3 next),
         Task.mkSched rest (Some (Task.set_state Task.Running next)), tss')
    | [] => Task.pick_next r c (kn_sched k') tss = (Task.mkSwitch r c, Task.mkSched [] None, tss)
    end.
Proof.
  destruct (sys_exit_run k code task Hc) as (log & R). eexists. split; [exact R|].
  unfold Task.pick_next, Task.requeue. cbn. destruct (Task.tasks (kn_sched k)); [done|by eexists].
Qed.

(** C12: spawning a program puts exactly one task at the end of the run queue.
    The task has the address space and break the loader returned and, when it
    is first dispatched, starts at the entry point in ring 3 with interrupts
    on and the loader's stack; beyond the new 8 KB kernel stack the memory is
    what the loader left.  A file the loader rejects changes neither queue nor
    task counter. *)
Theorem spawn_process_spec {W N St : Type} `{VfsNode W N} `{FrameAllocator St}
    (st : Statics) (ptr : Z) (path : str) (data : list Z) (k : Kernel W N St) (r : res Image) (v' : Vm St)
    (Hex : executable k path data) (Hload : load_elf st data (kn_vm k) = Ret (r, v'))
    (Hp : 0 <= ptr) (Hp2 : ptr + Task.STACK_SIZE < 2 ^ 64)
    (Hr : forall image, r = Ok image -> fits 64 (im_entry image) /\ fits 64 (im_stack_top image) /\ im_stack_top image <> 0) :
  exists k', 
    match r with
    | Err _ => spawn_process st ptr path k = Ret (Err tt, k') /\ kn_sched k' = kn_sched k /\ kn_next_id k' = kn_next_id k
    | Ok image => spawn_process st ptr path k = Ret (Ok tt, k') /\
        exists t, kn_sched k' = Task.add_task t (kn_sched k) /\ Task.state t = Task.Ready /\
          Task.task_id t = kn_next_id k /\ kn_next_id k' = wrap 64 (kn_next_id k + 1) /\
          Task.cr3 t = im_cr3 image /\ Task.heap_end t = im_heap_end image /\ Task.is_user t = true /\
          Task.kernel_stack_top t = ptr + Task.STACK_SIZE /\ Fd.fd_ok (Task.fd_table t) /\
          Task.restore_context (Task.rsp t) (virt_view (vmem (kn_vm k'))) =
            (Task.mkRegs 0 0 0 0 0 0 0 0 0 0 0 0 0 0 0, Some 0x1B,
             Task.mkFrame (im_entry image) 0x23 0x202 (im_stack_top image) 0x1B) /\
          falloc (kn_vm k') = falloc v' /\
          forall pa, pa < ptr - KERNEL_VMA_BASE \/ ptr - KERNEL_VMA_BASE + Task.STACK_SIZE <= pa ->
            vmem (kn_vm k') pa = vmem v' pa
    end.
Proof.
  destruct (spawn_prefix st ptr path data k r v' Hex Hload) as (k1 & log & Hv1 & Hs1 & Hi1 & Hrun).
  destruct r as [image|[]]; [|by exists k1]. destruct (Hr image eq_refl) as (He & Hs & Hnz).
  pose proof (@Task.Task_new_ok N (im_entry image) (im_stack_top image) (im_cr3 image) true ptr (kn_next_id k)
    (virt_view (vmem v')) He Hs Hp Hp2) as Ht.
  pose proof (@Task.Task_new_fields N (im_entry image) (im_stack_top image) (im_cr3 image) true ptr (kn_next_id k)
    (virt_view (vmem v'))) as Hf.
  destruct (@Task.Task_new N _ _ _ _ _ _ _) as [[t i] m]. destruct Ht as (Hst & Hrd & _ & _ & Hm & Hctx).
  destruct Hf as (Hid & Hcr & Hu & Hfd & ->). eexists. split; [exact Hrun|].
  exists (Task.set_heap_end (im_heap_end image) t). split_and!; try done.
  - cbn. by rewrite Hfd.
  - cbn -[Task.restore_context]. assert (forall x, virt_view (phys_view m) x = m x) as Hvp.
    { intros x. unfold virt_view, phys_view. f_equal. lia. }
    rewrite (Task.restore_context_ext _ _ _ Hvp), Hctx.
    by rewrite (proj2 (Z.eqb_neq _ _)).
  - intros pa Hpa. cbn. unfold phys_view. rewrite Hm by lia. unfold virt_view. f_equal. lia.
Qed.

(** ** Witnesses *)

(** A file system of one file, whose nodes are their contents. *)
#[local] Instance plain_node : VfsNode unit (list Z) := {
  attribute n := mret (mkStat (Z.of_nat (length n)) File);
  read n off len := mret (Ok (take (Z.to_nat len) (drop (Z.to_nat off) n)));
  readdir _ := mret (Err tt);
  finddir n s := mret (Ok n);
  write := default_write;
  create_in := default_create
}.

Definition demo_task : @Task.Task (list Z) :=
  Task.mkTask 1 (Task.mkVec 0 0) 0 0 0x1000 Task.Running true Fd.with_stdio 0x400000.

Definition demo_kernel (v : Vm PmmState) (cr3 : Z) : Kernel unit (list Z) PmmState :=
  mkKernel tt v cr3 (Task.mkSched [] (Some demo_task)) 2 Ipc.PipeTable_new Kbuf.Ring_init
    (mkVfs (Some [7; 8; 9]) None) [] [] 0.

Lemma demo_kernel_running T v :
  user_ok T 0x1000 v -> running T (demo_kernel v 0x1000) demo_task.
Proof. intros Hv. by constructor. Qed.

Lemma demo_room v : pipe_room (demo_kernel v 0x1000) /\ fd_slot demo_task.
Proof. split; [exists 0|exists 3]; by vm_compute. Qed.

(** The process with one page, at 0x400000, that starts with [bs]. *)
Lemma demo_page (bs : list Z) :
  Forall is_byte bs -> Z.of_nat (length bs) <= 4096 ->
  exists T v, running T (demo_kernel v 0x1000) demo_task /\
    ubytes (demo_kernel v 0x1000) 0x400000 bs /\
    forall ptr len, 0x400000 <= ptr -> ptr + len <= 0x401000 -> user_buffer (demo_kernel v 0x1000) ptr len.
Proof.
  intros Hb Hl.
  destruct (alloc_anon_from_ok 1 0 0 _ 0x1000 _ 0x400000 demo_user_ok)
    as (T & s & _ & Hok & _ & Hby & _); try lia; [intros j Hj; reflexivity|exact demo_has_free4|].
  assert (forall w, 0x400000 <= w < 0x401000 -> is_Some (user_byte 0x1000 (vmem s) w)) as Hm.
  { intros w Hw. rewrite Hby, decide_True; [by eexists|]. apply Exists_cons. left.
    unfold same_page, pfx. change (12 + 9 * (0 - 0)) with 12. dm_lia. }
  destruct (store_user_ok T 0x1000 bs s 0x400000 Hok Hb ltac:(lia) ltac:(lia)) as (m & _ & Hok' & _ & Hby').
  { intros w Hw. apply Hm. lia. }
  exists T, (mkVm m (falloc s)). split_and!.
  - by apply demo_kernel_running.
  - intros i Hi. cbn. rewrite Hby', decide_True by lia. do 2 f_equal. lia.
  - intros ptr len Hp Hq. split_and!; [lia|lia|]. intros w Hw. cbn. rewrite Hby' by lia.
    case_decide; [by eexists|]. apply Hm. lia.
Qed.

Lemma pipe_transfer_witness :
  exists T k, running T k demo_task /\
    exists fd k1 k2 k3, syscall_dispatch 3 0 0 0 k = Ret (fd, k1) /\
      syscall_dispatch 4 fd 0x400000 3 k1 = Ret (3, k2) /\ syscall_dispatch 5 fd 0x400100 3 k2 = Ret (3, k3) /\
      ubyte k3 0x400101 = Some 98.
Proof.
  assert (Forall is_byte [97; 98; 99]) as Hb by (apply (bool_decide_unpack _); vm_compute; exact I).
  destruct (demo_page [97; 98; 99] Hb ltac:(by vm_compute)) as (T & v & Hr & Hu & Hbuf).
  destruct (demo_room v) as [Hroom Hslot].
  destruct (pipe_transfer T _ demo_task 0x400000 0x400100 [97; 98; 99] Hr Hroom Hslot)
    as (fd & k1 & k2 & k3 & t & R1 & _ & _ & R2 & R3 & Hs & _); try done.
  { apply Hbuf; simpl; lia. }
  exists T, (demo_kernel v 0x1000). split; [done|]. exists fd, k1, k2, k3. split_and!; try done.
  rewrite Hs by lia. reflexivity.
Defined.

Lemma file_read_stream_witness :
  exists T k, running T k demo_task /\
    exists fd k1 k2, syscall_dispatch 9 0x400000 0 0 k = Ret (fd, k1) /\
      read_all fd [(0x400100, 1); (0x400200, 4)] k1 = Ret ([7; 8; 9], k2).
Proof.
  assert (Forall is_byte ([47; 97] ++ [0])) as Hb by (apply (bool_decide_unpack _); vm_compute; exact I).
  destruct (demo_page _ Hb ltac:(by vm_compute)) as (T & v & Hr & Hu & Hbuf).
  destruct (demo_room v) as [_ Hslot].
  destruct (file_read_stream T _ demo_task 0x400000 [47; 97] [7; 8; 9] tt [7; 8; 9]
    [(0x400100, 1); (0x400200, 4)] Hr Hslot Hu) as (fd & k1 & k2 & R1 & _ & R2); try done.
  - repeat constructor; lia.
  - apply (bool_decide_unpack _). vm_compute. exact I.
  - repeat apply Forall_cons_2; [..|apply Forall_nil_2]; (split; [simpl; lia|apply Hbuf; simpl; lia]).
  - exists T, (demo_kernel v 0x1000). split; [done|]. by exists fd, k1, k2.
Defined.

Lemma brk_spec_witness :
  let k := demo_kernel (mkVm (fun _ => 0) demo_pmm) 0x1000 in
  exists k', syscall_dispatch 7 0x400010 0 0 k = Ret (0x401000, k') /\ ubyte k' 0x400800 = Some 0.
Proof.
  intros k. pose proof (demo_kernel_running _ _ demo_user_ok) as Hr.
  destruct (brk_spec 0 _ k demo_task 0x400010 Hr) as (_ & _ & Hg); [lia|by vm_compute|by vm_compute|].
  destruct Hg as (T' & k' & R & _ & _ & Hb).
  - by vm_compute.
  - intros j Hj. reflexivity.
  - exact demo_has_free4.
  - exists k'. split; [exact R|]. rewrite Hb, decide_True; [done|]. apply Exists_cons. left. reflexivity.
Defined.


Lemma exit_drops_task_witness :
  let k := demo_kernel (mkVm (fun _ => 0) demo_pmm) 0x1000 in
  exists k', syscall_dispatch 6 1 0 0 k = Ret (0, k') /\
    Task.pick_next 0x9000 0x1000 (kn_sched k') Gdt.Gdt.Tss_new =
      (Task.mkSwitch 0x9000 0x1000, Task.mkSched [] None, Gdt.Gdt.Tss_new).
Proof. intros k. exact (exit_drops_task k demo_task 1 0x9000 0x1000 Gdt.Gdt.Tss_new eq_refl). Defined.

Definition boot_kernel : Kernel unit (list Z) PmmState :=
  mkKernel tt (mkVm demo_boot big_pmm) 0x100000 Task.Scheduler_new 1 Ipc.PipeTable_new Kbuf.Ring_init
    (mkVfs (Some demo_elf) None) [] [] 0.

Lemma spawn_process_spec_witness :
  exists root k' t, spawn_process demo_statics 0xFFFFFFFF80300000 (lit "/init") boot_kernel = Ret (Ok tt, k') /\
    kn_sched k' = Task.mkSched [t] None /\ Task.cr3 t = root /\ Task.heap_end t = 0x401000 /\
    Task.f_rip (snd (Task.restore_context (Task.rsp t) (virt_view (vmem (kn_vm k'))))) = 0x400000.
Proof.
  destruct boot_vm_ok as [Hvm Hkh].
  destruct (load_elf_ok 0 demo_statics 0x100000 (kernel_typing 0x102000 demo_pd)
    (mkVm demo_boot big_pmm) demo_elf [demo_ph] Hvm eq_refl Hkh) as (T & root & s' & Hrun & _).
  - apply big_has_free. vm_compute. lia.
  - apply (bool_decide_unpack (Forall is_byte demo_elf)). vm_compute. exact I.
  - vm_compute. discriminate.
  - vm_compute. reflexivity.
  - vm_compute. reflexivity.
  - repeat constructor; vm_compute; discriminate.
  - change (e_entry (elf_header demo_elf)) with 0x400000 in Hrun.
    change (image_end 0 [demo_ph]) with 0x401000 in Hrun.
    destruct (spawn_process_spec demo_statics 0xFFFFFFFF80300000 (lit "/init") demo_elf boot_kernel (Ok (mkImage 0x400000 0x508000 root 0x401000)) s')
      as (k' & R & t & Hs & _ & _ & _ & Hc & Hh & _ & _ & _ & Hx & _).
    + exists demo_elf, tt. split_and!; [reflexivity| |reflexivity]. by intros off len [].
    + exact Hrun.
    + lia.
    + by vm_compute.
    + intros image [= <-]. cbn. unfold fits. lia.
    + exists root, k', t. split_and!; [exact R|rewrite Hs; reflexivity|exact Hc|exact Hh|by rewrite Hx].
Defined.
