(* ===== verification/Block.v ===== *)
(** * Block devices

    The interface between the FAT32 driver and the AHCI driver: the signatures
    of [ahci::read_sectors] and [ahci::write_sectors], and what they promise
    over the abstract disk, a total map from sector numbers to sectors.  A
    RAM disk is the instance the witnesses run on. *)

From Stdlib Require Import String.
From S2P Require Import Prelude Bytes.

(** The caller's buffer is passed and, for a read, returned. *)
Class BlockDevice (D : Type) := {
  read_sectors : Z -> Z -> list Z -> M D (result (list Z) string);
  write_sectors : Z -> Z -> list Z -> M D (result unit string)
}.

(** Sectors, and [count] of them from [lba] on as one string of bytes. *)
Notation sectors := (Z -> list Z).

Fixpoint gather (s : sectors) (lba : Z) (count : nat) : list Z :=
  match count with
  | O => []
  | S count => s lba ++ gather s (lba + 1) count
  end.

(** Sectors [lba .. lba + count) after writing [buf] there. *)
Definition scatter (buf : list Z) (lba count : Z) (s : sectors) : sectors :=
  fun x => if (lba <=? x) && (x <? lba + count) then sub buf ((x - lba) * 512) 512 else s x.

Definition sectors_ok (s : sectors) : Prop := forall x, length (s x) = 512%nat /\ Forall is_byte (s x).

(** What a driver promises on requests inside the disk. *)
Class BlockLaws (D : Type) {BD : BlockDevice D} := {
  bd_ok : D -> Prop;
  bd_sec : D -> sectors;
  bd_cap : D -> Z;
  bd_sec_ok d : bd_ok d -> sectors_ok (bd_sec d);
  bd_read d lba count buf :
    bd_ok d -> 0 <= lba -> 1 <= count <= 8 -> lba + count <= bd_cap d ->
    count * 512 <= Z.of_nat (length buf) ->
    exists d', read_sectors lba count buf d =
        Ret (Ok (gather (bd_sec d) lba (Z.to_nat count) ++ drop (Z.to_nat (count * 512)) buf), d') /\
      bd_ok d' /\ bd_cap d' = bd_cap d /\ forall x, bd_sec d' x = bd_sec d x;
  bd_write d lba count buf :
    bd_ok d -> 0 <= lba -> 1 <= count <= 8 -> lba + count <= bd_cap d ->
    count * 512 <= Z.of_nat (length buf) -> Forall is_byte buf ->
    exists d', write_sectors lba count buf d = Ret (Ok tt, d') /\
      bd_ok d' /\ bd_cap d' = bd_cap d /\ forall x, bd_sec d' x = scatter buf lba count (bd_sec d) x
}.

Lemma length_gather s lba n : sectors_ok s -> length (gather s lba n) = (n * 512)%nat.
Proof.
  intros Hs. revert lba. induction n as [|n IH]; intros lba; [done|]. cbn [gather].
  rewrite length_app, IH, (proj1 (Hs lba)). lia.
Qed.

Lemma gather_byte s lba n : sectors_ok s -> Forall is_byte (gather s lba n).
Proof.
  intros Hs. revert lba. induction n as [|n IH]; intros lba; [by constructor|]. cbn [gather].
  apply Forall_app. split; [apply Hs|done].
Qed.

Lemma gather_ext s s' lba n :
  (forall x, lba <= x < lba + Z.of_nat n -> s x = s' x) -> gather s lba n = gather s' lba n.
Proof.
  revert lba. induction n as [|n IH]; intros lba Hx; [done|]. cbn [gather]. f_equal.
  - apply Hx. lia.
  - apply IH. intros x Hxr. apply Hx. lia.
Qed.

Lemma gather_app s lba n k : gather s lba (n + k) = gather s lba n ++ gather s (lba + Z.of_nat n) k.
Proof.
  revert lba. induction n as [|n IH]; intros lba; cbn [gather Nat.add].
  - cbn. do 2 f_equal. lia.
  - rewrite IH, app_assoc. do 2 f_equal. lia.
Qed.

Lemma scatter_in buf lba count s x :
  lba <= x < lba + count -> scatter buf lba count s x = sub buf ((x - lba) * 512) 512.
Proof.
  intros Hx. unfold scatter. by rewrite (proj2 (Z.leb_le _ _)), (proj2 (Z.ltb_lt _ _)) by lia.
Qed.

Lemma scatter_out buf lba count s x : x < lba \/ lba + count <= x -> scatter buf lba count s x = s x.
Proof.
  intros Hx. unfold scatter. destruct (Z.leb_spec lba x); [|done].
  by rewrite (proj2 (Z.ltb_ge _ _)) by lia.
Qed.

(** Writing the first sector, then the others. *)
Lemma scatter_S buf lba n s x :
  scatter buf lba (Z.of_nat (S n)) s x =
    if decide (x = lba) then take 512 buf else scatter (drop 512 buf) (lba + 1) (Z.of_nat n) s x.
Proof.
  case_decide as E.
  - subst. rewrite scatter_in by lia. unfold sub. by rewrite Z.sub_diag.
  - destruct (decide (lba <= x < lba + Z.of_nat (S n))).
    + rewrite !scatter_in by lia. unfold sub. rewrite drop_drop. do 2 f_equal. lia.
    + by rewrite !scatter_out by lia.
Qed.

(** Reading back what was written. *)
Lemma gather_scatter buf lba n s :
  length buf = (n * 512)%nat -> gather (scatter buf lba (Z.of_nat n) s) lba n = buf.
Proof.
  revert lba buf s. induction n as [|n IH]; intros lba buf s Hl; cbn [gather]; [by destruct buf|].
  rewrite scatter_S, decide_True by done.
  rewrite (gather_ext _ (scatter (drop 512 buf) (lba + 1) (Z.of_nat n) s)).
  - rewrite IH by (rewrite length_drop; lia). apply take_drop.
  - intros x Hx. by rewrite scatter_S, decide_False by lia.
Qed.

Lemma scatter_ok buf lba count s :
  sectors_ok s -> Forall is_byte buf -> count * 512 <= Z.of_nat (length buf) ->
  sectors_ok (scatter buf lba count s).
Proof.
  intros Hs Hb Hl x. destruct (decide (lba <= x < lba + count)).
  - rewrite scatter_in by lia. split; [rewrite length_sub by lia; done|].
    unfold sub. by apply Forall_take, Forall_drop.
  - rewrite scatter_out by lia. apply Hs.
Qed.

(** ** A RAM disk *)

Record RamDisk := mkDisk { rd_cap : Z; rd_data : gmap Z (list Z) }.

Definition zero_sector : list Z := replicate 512 0.
Definition rd_sec (d : RamDisk) : sectors := fun x => default zero_sector (rd_data d !! x).

Fixpoint rd_store (buf : list Z) (lba : Z) (count : nat) (m : gmap Z (list Z)) : gmap Z (list Z) :=
  match count with
  | O => m
  | S count => rd_store (drop 512 buf) (lba + 1) count (<[lba := take 512 buf]> m)
  end.

#[global] Instance ram_disk : BlockDevice RamDisk := {
  read_sectors lba count buf d :=
    if lba + count <=? rd_cap d
    then Ret (Ok (gather (rd_sec d) lba (Z.to_nat count) ++ drop (Z.to_nat (count * 512)) buf), d)
    else Ret (Err "bad sector"%string, d);
  write_sectors lba count buf d :=
    if lba + count <=? rd_cap d
    then Ret (Ok tt, mkDisk (rd_cap d) (rd_store buf lba (Z.to_nat count) (rd_data d)))
    else Ret (Err "bad sector"%string, d)
}.

Lemma rd_store_sec cap n : forall buf lba m x,
  rd_sec (mkDisk cap (rd_store buf lba n m)) x = scatter buf lba (Z.of_nat n) (rd_sec (mkDisk cap m)) x.
Proof.
  induction n as [|n IH]; intros buf lba m x; cbn [rd_store].
  - by rewrite scatter_out by lia.
  - rewrite IH, scatter_S. case_decide as E.
    + subst. rewrite scatter_out by lia. unfold rd_sec; cbn [rd_data]. by rewrite lookup_insert_eq.
    + unfold scatter, rd_sec; cbn [rd_data]. by rewrite lookup_insert_ne by done.
Qed.

#[global] Program Instance ram_disk_laws : BlockLaws RamDisk := {
  bd_ok d := sectors_ok (rd_sec d);
  bd_sec := rd_sec;
  bd_cap := rd_cap
}.
Next Obligation. done. Qed.
Next Obligation.
  intros d lba count buf Hok Hl Hc Hr Hb. exists d. cbn. by rewrite (proj2 (Z.leb_le _ _) Hr).
Qed.
Next Obligation.
  intros d lba count buf Hok Hl Hc Hr Hb Hbytes.
  exists (mkDisk (rd_cap d) (rd_store buf lba (Z.to_nat count) (rd_data d))).
  assert (forall x, rd_sec (mkDisk (rd_cap d) (rd_store buf lba (Z.to_nat count) (rd_data d))) x =
    scatter buf lba count (rd_sec d) x) as Hs.
  { intros x. rewrite rd_store_sec, Z2Nat.id by lia. by destruct d. }
  cbn. rewrite (proj2 (Z.leb_le _ _) Hr). split_and!; try done.
  intros x. rewrite Hs. by apply scatter_ok.
Qed.
