(* ===== verification/Fat32.v ===== *)
(** * The FAT32 driver ([ross-kernel/src/fat32.rs])

    The on-disk structures over any block device: the BIOS parameter block,
    the FAT and its chains, directory entries, and the nodes that implement
    [VfsNode].  A node is shared ([Arc]) and its first cluster and size are
    atomics that [write] updates, so nodes live in the state and are named by
    handles.  Error strings are kept where the driver has them.

    The loops over cluster chains that the source does not bound
    ([walk_dir], [find_free_slot]) take fuel; all other loops are bounded by
    what they count. *)

From Stdlib Require Import String.
From S2P Require Import Prelude Bytes Str Vfs Block.

(** ** The BIOS parameter block *)

(** @src ross-kernel/src/fat32.rs 18-26 BiosParameterBlock *)
Record BiosParameterBlock := mkBpb {
  bytes_per_sector : Z;
  sectors_per_cluster : Z;
  reserved_sectors : Z;
  num_fats : Z;
  fat_size_sectors : Z;
  root_cluster : Z
}.

(** [u32::is_power_of_two]. *)
Definition is_power_of_two (x : Z) : bool := (0 <? x) && (Z.land x (x - 1) =? 0).

Definition u16_at (l : list Z) (o : Z) : Z := le_val (sub l o 2).
Definition u32_at (l : list Z) (o : Z) : Z := le_val (sub l o 4).

(** @src ross-kernel/src/fat32.rs 28-53 parse_bpb *)
Definition parse_bpb (sector : list Z) : result BiosParameterBlock string :=
  if negb (sector !!! 510%nat =? 0x55) || negb (sector !!! 511%nat =? 0xAA)
  then Err "FAT32: missing 0x55AA signature"%string
  else
    let bps := u16_at sector 0x0B in
    let spc := sector !!! 0x0D%nat in
    let rsvd := u16_at sector 0x0E in
    let nfat := sector !!! 0x10%nat in
    let fat16 := u16_at sector 0x16 in
    let fat32 := u32_at sector 0x24 in
    let root := u32_at sector 0x2C in
    if negb (fat16 =? 0) then Err "FAT32: FAT12/16 not supported"%string
    else if negb (bps =? 512) then Err "FAT32: only 512-byte sectors supported"%string
    else if (spc =? 0) || negb (is_power_of_two spc) then Err "FAT32: bad sectors_per_cluster"%string
    else Ok (mkBpb bps spc rsvd nfat fat32 root).

(** @src ross-kernel/src/fat32.rs 57-61 Fat32Fs *)
Record Fat32Fs := mkFs {
  bpb : BiosParameterBlock;
  fat_start_sector : Z;
  data_start_sector : Z
}.

Definition FAT_MASK : Z := 0x0FFFFFFF.
Definition EOC : Z := 0x0FFFFFF8.

(** [cluster >= 2 && cluster < 0x0FFF_FFF8]. *)
Definition in_chain (cluster : Z) : bool := (2 <=? cluster) && (cluster <? EOC).

Section fs.
Context {D : Type} {BD : BlockDevice D}.

(** Fallible operations on the device. *)
Notation DevM A := (M D (result A string)).

(** @src ross-kernel/src/fat32.rs 63-71 Fat32Fs::mount *)
Definition mount : DevM Fat32Fs :=
  sec ←? read_sectors 0 1 (replicate 512 0);
  match parse_bpb sec with
  | Err e => mret (Err e)
  | Ok b =>
      fats ← lift (cmul 64 (num_fats b) (fat_size_sectors b));
      data_start ← lift (cadd 64 (reserved_sectors b) fats);
      mret (Ok (mkFs b (reserved_sectors b) data_start))
  end.

Section ops.
Context (fs : Fat32Fs).

Definition spc : Z := sectors_per_cluster (bpb fs).

(** @src ross-kernel/src/fat32.rs 79-81 Fat32Fs::cluster_to_sector *)
Definition cluster_to_sector (cluster : Z) : outcome Z :=
  i ← csub cluster 2;
  o ← cmul 64 i spc;
  cadd 64 (data_start_sector fs) o.

(** @src ross-kernel/src/fat32.rs 83-85 Fat32Fs::cluster_size_bytes *)
Definition cluster_size_bytes : Z := spc * 512.

(** The loop of [read_cluster].
    @src ross-kernel/src/fat32.rs 93-99 Fat32Fs::read_cluster *)
Fixpoint read_chunks (fuel : nat) (sec rem off : Z) (buf : list Z) : DevM (list Z) :=
  match fuel with
  | O => fun _ => Diverge
  | S fuel =>
      if 0 <? rem then
        let cnt := rem `min` 8 in
        tail ← lift (slice buf off (Z.of_nat (length buf)));
        tail ←? read_sectors sec cnt tail;
        sec ← lift (cadd 64 sec cnt);
        read_chunks fuel sec (rem - cnt) (off + cnt * 512) (take (Z.to_nat off) buf ++ tail)
      else mret (Ok buf)
  end.

(** @src ross-kernel/src/fat32.rs 88-101 Fat32Fs::read_cluster *)
Definition read_cluster (cluster : Z) (buf : list Z) : DevM (list Z) :=
  first ← lift (cluster_to_sector cluster);
  read_chunks (S (Z.to_nat spc)) first spc 0 buf.

(** The loop of [write_cluster].
    @src ross-kernel/src/fat32.rs 109-115 Fat32Fs::write_cluster *)
Fixpoint write_chunks (fuel : nat) (sec rem off : Z) (buf : list Z) : DevM unit :=
  match fuel with
  | O => fun _ => Diverge
  | S fuel =>
      if 0 <? rem then
        let cnt := rem `min` 8 in
        tail ← lift (slice buf off (Z.of_nat (length buf)));
        _ ←? write_sectors sec cnt tail;
        sec ← lift (cadd 64 sec cnt);
        write_chunks fuel sec (rem - cnt) (off + cnt * 512) buf
      else mret (Ok tt)
  end.

(** @src ross-kernel/src/fat32.rs 104-117 Fat32Fs::write_cluster *)
Definition write_cluster (cluster : Z) (buf : list Z) : DevM unit :=
  first ← lift (cluster_to_sector cluster);
  write_chunks (S (Z.to_nat spc)) first spc 0 buf.

(** @src ross-kernel/src/fat32.rs 119-127 Fat32Fs::next_cluster *)
Definition next_cluster (cluster : Z) : DevM Z :=
  let ob := cluster * 4 in
  sec ← lift (cadd 64 (fat_start_sector fs) (ob / 512));
  buf ←? read_sectors sec 1 (replicate 512 0);
  mret (Ok (Z.land (u32_at buf (ob mod 512)) FAT_MASK)).

(** One pass of the loop over the copies of the FAT, and the ones after it.
    @src ross-kernel/src/fat32.rs 133-141 Fat32Fs::set_fat_entry *)
Fixpoint set_fat_copies (n : nat) (f cluster value : Z) : DevM unit :=
  match n with
  | O => mret (Ok tt)
  | S n =>
      let ob := cluster * 4 in
      let pos := ob mod 512 in
      o ← lift (cmul 64 f (fat_size_sectors (bpb fs)));
      base ← lift (cadd 64 (fat_start_sector fs) o);
      sec ← lift (cadd 64 base (ob / 512));
      buf ←? read_sectors sec 1 (replicate 512 0);
      let existing := u32_at buf pos in
      let new := Z.lor (Z.land existing 0xF0000000) (Z.land value FAT_MASK) in
      buf ← lift (splice buf pos (le_bytes 4 new));
      _ ←? write_sectors sec 1 buf;
      set_fat_copies n (f + 1) cluster value
  end.

(** @src ross-kernel/src/fat32.rs 129-143 Fat32Fs::set_fat_entry *)
Definition set_fat_entry (cluster value : Z) : DevM unit :=
  set_fat_copies (Z.to_nat (num_fats (bpb fs))) 0 cluster value.

(** The inner loop of [alloc_cluster]: entries [i .. i + n) of a FAT sector
    whose first entry is [base].
    @src ross-kernel/src/fat32.rs 152-157 Fat32Fs::alloc_cluster *)
Fixpoint scan_entries (n : nat) (i base : Z) (buf : list Z) : outcome (option Z) :=
  match n with
  | O => Ret None
  | S n =>
      cluster ← cadd 32 base i;
      if cluster <? 2 then scan_entries n (i + 1) base buf
      else if Z.land (u32_at buf (i * 4)) FAT_MASK =? 0 then Ret (Some cluster)
      else scan_entries n (i + 1) base buf
  end.

(** The scan for a free cluster.
    @src ross-kernel/src/fat32.rs 148-158 Fat32Fs::alloc_cluster *)
Fixpoint scan_fat (n : nat) (si : Z) : DevM (option Z) :=
  match n with
  | O => mret (Ok None)
  | S n =>
      sec ← lift (cadd 64 (fat_start_sector fs) si);
      buf ←? read_sectors sec 1 (replicate 512 0);
      found ← lift (scan_entries 128 0 (wrap 32 (si * 128)) buf);
      match found with
      | Some c => mret (Ok (Some c))
      | None => scan_fat n (si + 1)
      end
  end.

(** @src ross-kernel/src/fat32.rs 146-169 Fat32Fs::alloc_cluster *)
Definition alloc_cluster (prev : option Z) : DevM Z :=
  found ←? scan_fat (Z.to_nat (fat_size_sectors (bpb fs))) 0;
  match found with
  | None => mret (Err "FAT32: disk full"%string)
  | Some c =>
      _ ←? set_fat_entry c 0x0FFFFFFF;
      _ ←? match prev with
           | Some p => set_fat_entry p c
           | None => mret (Ok tt)
           end;
      _ ←? write_cluster c (replicate (Z.to_nat cluster_size_bytes) 0);
      mret (Ok c)
  end.

(** The loop of [read_chain_into]; each pass adds at least one byte.
    @src ross-kernel/src/fat32.rs 176-183 Fat32Fs::read_chain_into *)
Fixpoint read_chain (fuel : nat) (cluster : Z) (out : list Z) (max : Z) : DevM (list Z) :=
  match fuel with
  | O => fun _ => Diverge
  | S fuel =>
      if in_chain cluster && (Z.of_nat (length out) <? max) then
        let old_len := Z.of_nat (length out) in
        let take_ := cluster_size_bytes `min` (max - old_len) in
        buf ←? read_cluster cluster (replicate (Z.to_nat cluster_size_bytes) 0);
        let out := take (Z.to_nat (old_len + take_)) (out ++ buf) in
        cluster ←? next_cluster cluster;
        read_chain fuel cluster out max
      else mret (Ok out)
  end.

(** @src ross-kernel/src/fat32.rs 171-185 Fat32Fs::read_chain_into *)
Definition read_chain_into (first max : Z) : DevM (list Z) :=
  if first <? 2 then mret (Ok [])
  else read_chain (S (Z.to_nat max)) first [] max.

End ops.
End fs.

(** ** Directory entries *)

(** [u8::to_ascii_lowercase] and [to_ascii_uppercase]. *)
Definition lower (b : Z) : Z := if (65 <=? b) && (b <=? 90) then b + 32 else b.
Definition upper (b : Z) : Z := if (97 <=? b) && (b <=? 122) then b - 32 else b.

(** [b as char] in a string: a byte from 128 on becomes two. *)
Definition char_of (b : Z) : str :=
  if b <? 128 then [b] else [Z.lor 0xC0 (Z.shiftr b 6); Z.lor 0x80 (Z.land b 0x3F)].

(** The field up to its last byte that is not a blank ([rposition]). *)
Definition rstrip (l : list Z) : list Z := trim_end_matches 32 l.

(** @src ross-kernel/src/fat32.rs 274-284 decode_8_3 *)
Definition decode_8_3 (e : list Z) : str :=
  let name := rstrip (sub e 0 8) in
  let ext := rstrip (sub e 8 3) in
  let s := concat (map (fun b => char_of (lower b)) name) in
  match ext with
  | [] => s
  | _ => s ++ [46] ++ concat (map (fun b => char_of (lower b)) ext)
  end.

(** [str::eq_ignore_ascii_case]. *)
Definition eq_ignore_ascii_case (a b : str) : bool := bool_decide (map lower a = map lower b).

(** @src ross-kernel/src/fat32.rs 286-288 name_matches *)
Definition name_matches (e : list Z) (target : str) : bool := eq_ignore_ascii_case (decode_8_3 e) target.

(** @src ross-kernel/src/fat32.rs 290-293 first_cluster_of *)
Definition first_cluster_of (e : list Z) : Z := Z.lor (Z.shiftl (u16_at e 0x14) 16) (u16_at e 0x1A).

(** @src ross-kernel/src/fat32.rs 295-297 entry_size *)
Definition entry_size (e : list Z) : Z := u32_at e 0x1C.

(** @src ross-kernel/src/fat32.rs 301-313 to_8_3 *)
Definition to_8_3 (name : str) : option (list Z) :=
  let '(base, ext) := match rsplit 46 name with Some (l, r) => (l, r) | None => (name, []) end in
  if (length base =? 0)%nat || (8 <? length base)%nat || (3 <? length ext)%nat then None
  else Some (list_inserts 8 (map upper ext) (list_inserts 0 (map upper base) (replicate 11 32))).

(** ** Nodes *)

(** @src ross-kernel/src/fat32.rs 190-199 Fat32Node *)
Record Fat32Node := mkNode {
  node_fs : Fat32Fs;
  first_cluster : Z;
  size : Z;
  is_dir : bool;
  parent_cluster : Z;
  dir_entry_offset : Z
}.

(** @src ross-kernel/src/fat32.rs 202-205 Fat32Node::dir *)
Definition node_dir (fs : Fat32Fs) (first parent off : Z) : Fat32Node := mkNode fs first 0 true parent off.
(** @src ross-kernel/src/fat32.rs 206-209 Fat32Node::file *)
Definition node_file (fs : Fat32Fs) (first size parent off : Z) : Fat32Node := mkNode fs first size false parent off.

(** [first_cluster.store(c)] and [size.store(n)]. *)
Definition set_first (c : Z) (n : Fat32Node) : Fat32Node :=
  mkNode (node_fs n) c (size n) (is_dir n) (parent_cluster n) (dir_entry_offset n).
Definition set_size (z : Z) (n : Fat32Node) : Fat32Node :=
  mkNode (node_fs n) (first_cluster n) z (is_dir n) (parent_cluster n) (dir_entry_offset n).

(** The disk and every node that was ever created; a handle is an index. *)
Record FatWorld (D : Type) := mkFat {
  fw_dev : D;
  fw_nodes : list Fat32Node
}.
Arguments mkFat {D}.
Arguments fw_dev {D}.
Arguments fw_nodes {D}.

Section nodes.
Context {D : Type} {BD : BlockDevice D}.
Context (fuel : nat).

Notation DevM A := (M D (result A string)).
Notation FatM A := (M (FatWorld D) A).

(** [.map_err(|_| ())?]. *)
Definition dev {A} (m : DevM A) : FatM (res A) := fun w =>
  match m (fw_dev w) with
  | Ret (r, d) => Ret (match r with Ok a => Ok a | Err _ => Err tt end, mkFat d (fw_nodes w))
  | Panic => Panic
  | Diverge => Diverge
  end.

Definition node (h : nat) : FatM Fat32Node := fun w =>
  match fw_nodes w !! h with Some n => Ret (n, w) | None => Panic end.

Definition store_node (h : nat) (f : Fat32Node -> Fat32Node) : FatM unit := fun w =>
  Ret (tt, mkFat (fw_dev w) (alter f h (fw_nodes w))).

(** [Arc::new]. *)
Definition new_node (n : Fat32Node) : FatM nat := fun w =>
  Ret (length (fw_nodes w), mkFat (fw_dev w) (fw_nodes w ++ [n])).

(** @src ross-kernel/src/fat32.rs 73-75 Fat32Fs::root *)
Definition root (fs : Fat32Fs) : FatM nat := new_node (node_dir fs (root_cluster (bpb fs)) 0 0).

(** The entries of one cluster, [n] of them from offset [i] on; [f] may change
    what its closure captures.  [Some r] leaves [walk_dir] with [r].
    @src ross-kernel/src/fat32.rs 221-232 Fat32Node::walk_dir *)
Fixpoint walk_entries {T A} (f : list Z -> Z -> Z -> A -> option T * A)
    (n : nat) (buf : list Z) (cluster i : Z) (acc : A) : option (option T) * A :=
  match n with
  | O => (None, acc)
  | S n =>
      let entry := sub buf i 32 in
      let b0 := entry !!! 0%nat in
      if b0 =? 0x00 then (Some None, acc)
      else if b0 =? 0xE5 then walk_entries f n buf cluster (i + 32) acc
      else
        let attr := entry !!! 0x0B%nat in
        if (attr =? 0x0F) || negb (Z.land attr 0x08 =? 0) then walk_entries f n buf cluster (i + 32) acc
        else match f entry cluster i acc with
             | (Some v, acc) => (Some (Some v), acc)
             | (None, acc) => walk_entries f n buf cluster (i + 32) acc
             end
  end.

(** @src ross-kernel/src/fat32.rs 219-235 Fat32Node::walk_dir *)
Fixpoint walk_clusters {T A} (f : list Z -> Z -> Z -> A -> option T * A)
    (fs : Fat32Fs) (k : nat) (cluster : Z) (acc : A) : DevM (option T * A) :=
  match k with
  | O => fun _ => Diverge
  | S k =>
      if in_chain cluster then
        let cb := cluster_size_bytes fs in
        buf ←? read_cluster fs cluster (replicate (Z.to_nat cb) 0);
        match walk_entries f (Z.to_nat (cb / 32)) buf cluster 0 acc with
        | (Some r, acc) => mret (Ok (r, acc))
        | (None, acc) =>
            cluster ←? next_cluster fs cluster;
            walk_clusters f fs k cluster acc
        end
      else mret (Ok (None, acc))
  end.

(** @src ross-kernel/src/fat32.rs 213-236 Fat32Node::walk_dir *)
Definition walk_dir {T A} (f : list Z -> Z -> Z -> A -> option T * A) (n : Fat32Node) (acc : A)
  : DevM (option T * A) :=
  walk_clusters f (node_fs n) fuel (first_cluster n) acc.

(** The first free slot of a cluster.
    @src ross-kernel/src/fat32.rs 248-252 Fat32Node::find_free_slot *)
Fixpoint free_slot (n : nat) (buf : list Z) (i : Z) : option Z :=
  match n with
  | O => None
  | S n =>
      let b := buf !!! Z.to_nat i in
      if (b =? 0x00) || (b =? 0xE5) then Some i else free_slot n buf (i + 32)
  end.

(** @src ross-kernel/src/fat32.rs 245-257 Fat32Node::find_free_slot *)
Fixpoint find_slot (fs : Fat32Fs) (k : nat) (cluster last_cluster : Z) : DevM (Z * Z) :=
  match k with
  | O => fun _ => Diverge
  | S k =>
      if in_chain cluster then
        let cb := cluster_size_bytes fs in
        buf ←? read_cluster fs cluster (replicate (Z.to_nat cb) 0);
        match free_slot (Z.to_nat ((cb + 31) / 32)) buf 0 with
        | Some i => mret (Ok (cluster, i))
        | None =>
            next ←? next_cluster fs cluster;
            find_slot fs k next cluster
        end
      else
        new_c ←? alloc_cluster fs (Some last_cluster);
        mret (Ok (new_c, 0))
  end.

(** @src ross-kernel/src/fat32.rs 240-258 Fat32Node::find_free_slot *)
Definition find_free_slot (n : Fat32Node) : DevM (Z * Z) :=
  find_slot (node_fs n) fuel (first_cluster n) (first_cluster n).

(** Read-modify-write of the cluster that holds the node's directory entry. *)
Definition patch_cluster (fs : Fat32Fs) (cluster : Z) (f : list Z -> outcome (list Z)) : DevM unit :=
  buf ←? read_cluster fs cluster (replicate (Z.to_nat (cluster_size_bytes fs)) 0);
  buf ← lift (f buf);
  write_cluster fs cluster buf.

(** @src ross-kernel/src/fat32.rs 260-269 Fat32Node::update_size_on_disk *)
Definition update_size_on_disk (n : Fat32Node) (new_size : Z) : DevM unit :=
  if parent_cluster n =? 0 then mret (Ok tt)
  else patch_cluster (node_fs n) (parent_cluster n)
         (fun buf => splice buf (dir_entry_offset n + 0x1C) (le_bytes 4 new_size)).

(** *** The methods of the trait *)

(** @src ross-kernel/src/fat32.rs 318-323 Fat32Node::attribute *)
Definition fat_attribute (h : nat) : FatM Stat :=
  n ← node h;
  mret (mkStat (size n) (if is_dir n then Directory else File)).

(** @src ross-kernel/src/fat32.rs 325-338 Fat32Node::read *)
Definition fat_read (h : nat) (offset len : Z) : FatM (res (list Z)) :=
  n ← node h;
  if is_dir n then mret (Err tt)
  else
    let total := size n in
    if total <=? offset then mret (Ok [])
    else
      let want := len `min` (total - offset) in
      stop ← lift (cadd 64 offset want);
      chain ←? dev (read_chain_into (node_fs n) (first_cluster n) stop);
      let end_ := Z.of_nat (length chain) `min` stop in
      if end_ <=? offset then mret (Ok [])
      else mret (Ok (sub chain offset (end_ - offset))).

(** The first cluster of an empty file, recorded in its directory entry.
    @src ross-kernel/src/fat32.rs 346-361 Fat32Node::write *)
Definition ensure_first (h : nat) : FatM (res unit) :=
  n ← node h;
  if first_cluster n <? 2 then
    c ←? dev (alloc_cluster (node_fs n) None);
    store_node h (set_first c);;
    if parent_cluster n =? 0 then mret (Ok tt)
    else
      let o := dir_entry_offset n in
      dev (patch_cluster (node_fs n) (parent_cluster n) (fun buf =>
        buf ← splice buf (o + 0x14) [Z.land (Z.shiftr c 16) 0xFF; Z.land (Z.shiftr c 24) 0xFF];
        splice buf (o + 0x1A) [Z.land c 0xFF; Z.land (Z.shiftr c 8) 0xFF]))
  else mret (Ok tt).

(** The cluster after [cluster], allocated when the chain ends.
    @src ross-kernel/src/fat32.rs 367-370 Fat32Node::write *)
Definition advance (fs : Fat32Fs) (cluster : Z) : DevM Z :=
  next ←? next_cluster fs cluster;
  if EOC <=? next then alloc_cluster fs (Some cluster) else mret (Ok next).

(** @src ross-kernel/src/fat32.rs 364-371 Fat32Node::write *)
Fixpoint advance_by (fs : Fat32Fs) (n : nat) (cluster : Z) : DevM Z :=
  match n with
  | O => mret (Ok cluster)
  | S n => cluster ←? advance fs cluster; advance_by fs n cluster
  end.

(** The main loop of [write]; each pass writes at least one byte.
    @src ross-kernel/src/fat32.rs 373-389 Fat32Node::write *)
Fixpoint write_data (k : nat) (fs : Fat32Fs) (data : list Z) (written cluster buf_off : Z) : DevM Z :=
  match k with
  | O => fun _ => Diverge
  | S k =>
      if written <? Z.of_nat (length data) then
        let cb := cluster_size_bytes fs in
        let take_ := (Z.of_nat (length data) - written) `min` (cb - buf_off) in
        _ ←? patch_cluster fs cluster (fun buf => splice buf buf_off (sub data written take_));
        let written := written + take_ in
        if written <? Z.of_nat (length data) then
          cluster ←? advance fs cluster;
          write_data k fs data written cluster 0
        else write_data k fs data written cluster 0
      else mret (Ok written)
  end.

(** @src ross-kernel/src/fat32.rs 340-396 Fat32Node::write *)
Definition fat_write (h : nat) (offset : Z) (data : list Z) : FatM (res Z) :=
  n ← node h;
  if is_dir n || (length data =? 0)%nat then mret (Err tt)
  else
    let fs := node_fs n in
    let cb := cluster_size_bytes fs in
    let old_size := size n in
    stop ← lift (cadd 64 offset (Z.of_nat (length data)));
    let new_size := stop `max` old_size in
    _ ←? ensure_first h;
    n ← node h;
    cluster ←? dev (advance_by fs (Z.to_nat (offset / cb)) (first_cluster n));
    written ←? dev (write_data (S (length data)) fs data 0 cluster (offset mod cb));
    if old_size <? new_size then
      store_node h (set_size (wrap 32 new_size));;
      n ← node h;
      _ ←? dev (update_size_on_disk n (wrap 32 new_size));
      mret (Ok written)
    else mret (Ok written).

(** @src ross-kernel/src/fat32.rs 398-426 Fat32Node::create *)
Definition fat_create (h : nat) (name : str) : FatM (res nat) :=
  n ← node h;
  if negb (is_dir n) then mret (Err tt)
  else
    match to_8_3 name with
    | None => mret (Err tt)
    | Some name83 =>
        dup ←? dev (walk_dir (fun e _ _ (_ : unit) => (if name_matches e name then Some tt else None, tt)) n tt);
        match dup with
        | (Some _, _) => mret (Err tt)
        | (None, _) =>
            slot ←? dev (find_free_slot n);
            let '(slot_cluster, slot_off) := slot in
            let cb := cluster_size_bytes (node_fs n) in
            _ ←? dev (patch_cluster (node_fs n) slot_cluster (fun buf =>
                   buf ← splice buf slot_off (name83 ++ [0x20] ++ replicate 20 0);
                   if slot_off + 64 <=? cb then splice buf (slot_off + 32) [0] else mret buf));
            h' ← new_node (node_file (node_fs n) 0 0 slot_cluster slot_off);
            mret (Ok h')
        end
    end.

(** @src ross-kernel/src/fat32.rs 428-434 Fat32Node::readdir *)
Definition fat_readdir (h : nat) : FatM (res (list str)) :=
  n ← node h;
  if negb (is_dir n) then mret (Err tt)
  else
    names ←? dev (walk_dir (fun e _ _ names => (None : option unit, names ++ [decode_8_3 e])) n []);
    mret (Ok (snd names)).

(** The node a directory entry describes.
    @src ross-kernel/src/fat32.rs 439-441 Fat32Node::finddir *)
Definition found_entry (name : str) (e : list Z) (cluster off : Z) (_ : unit)
  : option (Z * Z * bool * Z * Z) * unit :=
  (if name_matches e name
   then Some (first_cluster_of e, entry_size e, negb (Z.land (e !!! 0x0B%nat) 0x10 =? 0), cluster, off)
   else None, tt).

(** @src ross-kernel/src/fat32.rs 436-452 Fat32Node::finddir *)
Definition fat_finddir (h : nat) (name : str) : FatM (res nat) :=
  n ← node h;
  if negb (is_dir n) then mret (Err tt)
  else
    found ←? dev (walk_dir (found_entry name) n tt);
    match found with
    | (Some (first, sz, isdir, pcluster, poff), _) =>
        h' ← new_node (if isdir : bool then node_dir (node_fs n) first pcluster poff
                       else node_file (node_fs n) first sz pcluster poff);
        mret (Ok h')
    | (None, _) => mret (Err tt)
    end.

(** @src ross-kernel/src/fat32.rs 317-317 Fat32Node *)
#[export] Instance fat_node : VfsNode (FatWorld D) nat := {
  attribute := fat_attribute;
  read := fat_read;
  readdir := fat_readdir;
  finddir := fat_finddir;
  write := fat_write;
  create_in := fat_create
}.

End nodes.
