(* ===== verification/FatSpec.v ===== *)
(** * What the FAT32 driver keeps on the disk

    The driver of [Fat32] over any block device that satisfies
    [BlockLaws]: clusters and FAT entries as views of the sectors, chains,
    the contents of a file, and the theorems about allocation, reading and
    writing. *)

From Stdlib Require Import String.
From S2P Require Import Prelude Bytes Str Vfs Block Fat32.

(** ** Patching byte strings *)

Lemma run_lift {S A B} (a : A) (f : A -> M S B) s : (lift (Ret a) ≫= f) s = f a s.
Proof. done. Qed.

Lemma splice_ok l o x :
  o + Z.of_nat (length x) <= Z.of_nat (length l) -> splice l o x = Ret (list_inserts (Z.to_nat o) x l).
Proof. intros Hl. unfold splice. by rewrite (proj2 (Z.leb_le _ _)). Qed.

Lemma sub_inserts_same l o x n :
  0 <= o -> o + Z.of_nat (length x) <= Z.of_nat (length l) -> n = Z.of_nat (length x) ->
  sub (list_inserts (Z.to_nat o) x l) o n = x.
Proof.
  intros Ho Hl ->. unfold sub. rewrite Nat2Z.id. apply list_eq. intros i.
  destruct (decide (i < length x)%nat) as [Hi|Hi].
  - rewrite lookup_take_lt, lookup_drop, list_lookup_inserts by lia. f_equal. lia.
  - rewrite (lookup_ge_None_2 x), lookup_take_ge by lia. done.
Qed.

Lemma sub_inserts_other l o x a n :
  0 <= o -> 0 <= a -> a + n <= o \/ o + Z.of_nat (length x) <= a ->
  sub (list_inserts (Z.to_nat o) x l) a n = sub l a n.
Proof.
  intros Ho Ha Hd. unfold sub. apply list_eq. intros i.
  destruct (decide (i < Z.to_nat n)%nat) as [Hi|Hi].
  - rewrite !lookup_take_lt, !lookup_drop by done. destruct Hd.
    + rewrite list_lookup_inserts_lt by lia. done.
    + rewrite list_lookup_inserts_ge by lia. done.
  - by rewrite !lookup_take_ge by lia.
Qed.

Lemma inserts_byte l o x : Forall is_byte l -> Forall is_byte x -> Forall is_byte (list_inserts o x l).
Proof. intros. by apply Forall_inserts. Qed.

(** ** Well-formed file systems *)

(** The number of entries of the FAT. *)
Definition clusters (fs : Fat32Fs) : Z := fat_size_sectors (bpb fs) * 128.

(** The FAT describes clusters of the disk only. *)
Record fs_ok (fs : Fat32Fs) (cap : Z) : Prop := {
  fo_spc : 1 <= spc fs <= 128;
  fo_fats : 1 <= num_fats (bpb fs) <= 255;
  fo_size : 1 <= fat_size_sectors (bpb fs);
  fo_start : 0 <= fat_start_sector fs;
  fo_data : data_start_sector fs = fat_start_sector fs + num_fats (bpb fs) * fat_size_sectors (bpb fs);
  fo_cap : data_start_sector fs + (clusters fs - 2) * spc fs <= cap;
  fo_max : clusters fs <= EOC;
  fo_cap64 : cap < 2 ^ 63
}.

Definition valid (fs : Fat32Fs) (c : Z) : Prop := 2 <= c < clusters fs.

Section spec.
Context {D : Type} {BD : BlockDevice D} {BL : BlockLaws D}.
Context (fs : Fat32Fs) (cap : Z) (Hfs : fs_ok fs cap).
Implicit Types (d : D) (s : sectors).

(** The device holds the sectors [s]. *)
Record holds d s : Prop := {
  hd_ok : bd_ok d;
  hd_cap : bd_cap d = cap;
  hd_sec x : bd_sec d x = s x
}.

(** The first sector of a cluster, its bytes, its FAT entry. *)
Definition csec (c : Z) : Z := data_start_sector fs + (c - 2) * spc fs.
Definition cdata s (c : Z) : list Z := gather s (csec c) (Z.to_nat (spc fs)).
Definition fat_sec (c : Z) : Z := fat_start_sector fs + c * 4 / 512.
Definition fat s (c : Z) : Z := Z.land (u32_at (s (fat_sec c)) (c * 4 mod 512)) FAT_MASK.

Lemma holds_sectors_ok d s : holds d s -> sectors_ok s.
Proof. intros [Hok _ Hs] x. rewrite <- Hs. by apply bd_sec_ok. Qed.

Lemma holds_ext d s s' : (forall x, s x = s' x) -> holds d s -> holds d s'.
Proof. intros Hx []. constructor; try done. congruence. Qed.

(** One request to the device. *)
Lemma holds_read d s lba count buf :
  holds d s -> 0 <= lba -> 1 <= count <= 8 -> lba + count <= cap -> count * 512 <= Z.of_nat (length buf) ->
  exists d', read_sectors lba count buf d =
      Ret (Ok (gather s lba (Z.to_nat count) ++ drop (Z.to_nat (count * 512)) buf), d') /\ holds d' s.
Proof.
  intros [Hok Hc Hs] Hl Hn Hr Hb. destruct (bd_read d lba count buf) as (d' & Hrun & Hok' & Hc' & Hs'); try done; try lia.
  exists d'. split.
  - rewrite Hrun. do 4 f_equal. apply gather_ext. intros x _. apply Hs.
  - constructor; [done|lia|]. intros x. by rewrite Hs', Hs.
Qed.

Lemma holds_write d s lba count buf :
  holds d s -> 0 <= lba -> 1 <= count <= 8 -> lba + count <= cap -> count * 512 <= Z.of_nat (length buf) ->
  Forall is_byte buf ->
  exists d', write_sectors lba count buf d = Ret (Ok tt, d') /\ holds d' (scatter buf lba count s).
Proof.
  intros [Hok Hc Hs] Hl Hn Hr Hb Hby.
  destruct (bd_write d lba count buf) as (d' & Hrun & Hok' & Hc' & Hs'); try done; try lia.
  exists d'. split; [done|]. constructor; [done|lia|]. intros x. rewrite Hs'. unfold scatter.
  destruct (_ && _); [done|apply Hs].
Qed.

(** One sector. *)
Lemma read_sector_ok d s x :
  holds d s -> 0 <= x < cap ->
  exists d', read_sectors x 1 (replicate 512 0) d = Ret (Ok (s x), d') /\ holds d' s.
Proof.
  intros Hd Hx. destruct (holds_read d s x 1 (replicate 512 0) Hd) as (d' & Hrun & Hd'); try lia.
  { by rewrite length_replicate. }
  exists d'. split; [|done]. rewrite Hrun. do 3 f_equal. change (Z.to_nat 1) with 1%nat. cbn [gather].
  rewrite drop_ge by (by rewrite length_replicate). by rewrite !app_nil_r.
Qed.

Lemma write_sector_ok d s x buf :
  holds d s -> 0 <= x < cap -> length buf = 512%nat -> Forall is_byte buf ->
  exists d', write_sectors x 1 buf d = Ret (Ok tt, d') /\ holds d' (fun y => if decide (y = x) then buf else s y).
Proof.
  intros Hd Hx Hl Hb. destruct (holds_write d s x 1 buf Hd) as (d' & Hrun & Hd'); try done; try lia.
  exists d'. split; [done|]. eapply holds_ext; [|exact Hd']. intros y. case_decide.
  - subst. rewrite scatter_in by lia. rewrite Z.sub_diag. apply sub_all. lia.
  - by rewrite scatter_out by lia.
Qed.

(** ** Clusters *)

Lemma csec_range c : valid fs c -> data_start_sector fs <= csec c /\ csec c + spc fs <= cap.
Proof.
  intros [H2 Hc]. destruct Hfs. unfold csec, clusters in *. split; nia.
Qed.

Lemma data_start_pos : 0 <= data_start_sector fs.
Proof. destruct Hfs. nia. Qed.

Lemma csec_disjoint c c' : c <> c' -> csec c + spc fs <= csec c' \/ csec c' + spc fs <= csec c.
Proof. intros Hne. destruct Hfs. unfold csec. destruct (Z.lt_total c c') as [|[|]]; [left|done|right]; nia. Qed.

Lemma cluster_to_sector_ok c : valid fs c -> cluster_to_sector fs c = Ret (csec c).
Proof.
  intros Hc. pose proof (csec_range c Hc) as [H1 H2]. pose proof data_start_pos. destruct Hc as [Hc _], Hfs.
  unfold cluster_to_sector, csub, cmul, cadd, mbind, outcome_bind.
  rewrite (proj2 (Z.leb_le _ _)) by lia. unfold csec in *.
  rewrite (proj2 (Z.ltb_lt _ _)) by nia. by rewrite (proj2 (Z.ltb_lt _ _)) by lia.
Qed.

Lemma slice_tail (buf : list Z) off :
  0 <= off <= Z.of_nat (length buf) -> slice buf off (Z.of_nat (length buf)) = Ret (drop (Z.to_nat off) buf).
Proof.
  intros Ho. unfold slice. rewrite !(proj2 (Z.leb_le _ _)) by lia. cbn. f_equal. unfold sub.
  apply take_ge. rewrite length_drop. lia.
Qed.

Lemma read_chunks_ok fuel : forall d s sec rem off buf,
  holds d s -> 0 <= sec -> 0 <= rem -> (Z.to_nat rem < fuel)%nat -> sec + rem <= cap -> 0 <= off ->
  Z.of_nat (length buf) = off + rem * 512 ->
  exists d', read_chunks fuel sec rem off buf d =
      Ret (Ok (take (Z.to_nat off) buf ++ gather s sec (Z.to_nat rem)), d') /\ holds d' s.
Proof.
  induction fuel as [|fuel IH]; intros d s sec rem off buf Hd Hsec Hrem Hf Hcap Hoff Hlen; [lia|].
  cbn [read_chunks]. destruct (Z.ltb_spec 0 rem) as [Hr|Hr].
  - assert (1 <= rem `min` 8 <= 8) as Hcnt by lia. set (cnt := rem `min` 8) in *.
    destruct (holds_read d s sec cnt (drop (Z.to_nat off) buf) Hd) as (d1 & R1 & Hd1); try lia.
    { rewrite length_drop. lia. }
    rewrite slice_tail, run_lift by lia.
    rewrite (run_try _ _ _ _ _ R1). unfold cadd. rewrite (proj2 (Z.ltb_lt _ _)) by (destruct Hfs; lia).
    rewrite run_lift.
    destruct (IH d1 s (sec + cnt) (rem - cnt) (off + cnt * 512)
      (take (Z.to_nat off) buf ++ gather s sec (Z.to_nat cnt) ++ drop (Z.to_nat (cnt * 512)) (drop (Z.to_nat off) buf)))
      as (d2 & R2 & Hd2); try done; try lia.
    { rewrite !length_app, length_take, !length_drop, (length_gather s) by (by eapply holds_sectors_ok). lia. }
    exists d2. split; [|done]. rewrite R2. do 3 f_equal. rewrite (app_assoc (take _ buf)).
    rewrite take_app_length'.
    + rewrite <- app_assoc. f_equal. replace (Z.to_nat rem) with (Z.to_nat cnt + Z.to_nat (rem - cnt))%nat by lia.
      rewrite gather_app. do 2 f_equal. lia.
    + rewrite length_app, length_take, (length_gather s) by (by eapply holds_sectors_ok). lia.
  - assert (rem = 0) as -> by lia. exists d. split; [|done]. unfold_m. cbn [gather]. rewrite app_nil_r, take_ge by lia. done.
Qed.

Lemma cluster_bytes : cluster_size_bytes fs = spc fs * 512.
Proof. done. Qed.

Lemma length_cdata d s c : holds d s -> Z.of_nat (length (cdata s c)) = cluster_size_bytes fs.
Proof.
  intros Hd. unfold cdata. rewrite (length_gather s) by (by eapply holds_sectors_ok). rewrite cluster_bytes.
  destruct Hfs. lia.
Qed.

Lemma cdata_byte d s c : holds d s -> Forall is_byte (cdata s c).
Proof. intros Hd. apply gather_byte. by eapply holds_sectors_ok. Qed.

Lemma read_cluster_ok d s c buf :
  holds d s -> valid fs c -> Z.of_nat (length buf) = cluster_size_bytes fs ->
  exists d', read_cluster fs c buf d = Ret (Ok (cdata s c), d') /\ holds d' s.
Proof.
  intros Hd Hc Hl. pose proof (csec_range c Hc) as [H1 H2]. pose proof data_start_pos. destruct Hfs.
  destruct (read_chunks_ok (S (Z.to_nat (spc fs))) d s (csec c) (spc fs) 0 buf) as (d' & R & Hd'); try done; try lia.
  exists d'. split; [|done]. unfold read_cluster. rewrite cluster_to_sector_ok by done.
  rewrite run_lift. exact R.
Qed.

(** A long write is the same as its parts. *)
Lemma scatter_split buf lba a b s x :
  0 <= a -> 0 <= b ->
  scatter (drop (Z.to_nat (a * 512)) buf) (lba + a) b (scatter buf lba a s) x = scatter buf lba (a + b) s x.
Proof.
  intros Ha Hb. destruct (decide (lba <= x < lba + (a + b))) as [Hx|Hx].
  - rewrite (scatter_in buf lba (a + b)) by done. destruct (decide (x < lba + a)).
    + rewrite scatter_out, scatter_in by lia. done.
    + rewrite scatter_in by lia. unfold sub. rewrite drop_drop. do 2 f_equal. lia.
  - by rewrite !scatter_out by lia.
Qed.

Lemma scatter_drop_out (buf : list Z) lba count s x : count <= 0 -> scatter buf lba count s x = s x.
Proof. intros. apply scatter_out. lia. Qed.

Lemma write_chunks_ok fuel : forall d s sec rem off buf,
  holds d s -> 0 <= sec -> 0 <= rem -> (Z.to_nat rem < fuel)%nat -> sec + rem <= cap -> 0 <= off ->
  Z.of_nat (length buf) = off + rem * 512 -> Forall is_byte buf ->
  exists d', write_chunks fuel sec rem off buf d = Ret (Ok tt, d') /\
    holds d' (scatter (drop (Z.to_nat off) buf) sec rem s).
Proof.
  induction fuel as [|fuel IH]; intros d s sec rem off buf Hd Hsec Hrem Hf Hcap Hoff Hlen Hby; [lia|].
  cbn [write_chunks]. destruct (Z.ltb_spec 0 rem) as [Hr|Hr].
  - assert (1 <= rem `min` 8 <= 8) as Hcnt by lia. set (cnt := rem `min` 8) in *.
    destruct (holds_write d s sec cnt (drop (Z.to_nat off) buf) Hd) as (d1 & R1 & Hd1); try lia.
    { rewrite length_drop. lia. } { by apply Forall_drop. }
    rewrite slice_tail, run_lift by lia.
    rewrite (run_try _ _ _ _ _ R1). unfold cadd. rewrite (proj2 (Z.ltb_lt _ _)) by (destruct Hfs; lia).
    rewrite run_lift.
    destruct (IH d1 _ (sec + cnt) (rem - cnt) (off + cnt * 512) buf Hd1) as (d2 & R2 & Hd2); try done; try lia.
    exists d2. split; [done|]. eapply holds_ext; [|exact Hd2]. intros x.
    replace (drop (Z.to_nat (off + cnt * 512)) buf) with (drop (Z.to_nat (cnt * 512)) (drop (Z.to_nat off) buf)).
    + rewrite scatter_split by lia. f_equal. lia.
    + rewrite drop_drop. f_equal. lia.
  - assert (rem = 0) as -> by lia. exists d. split; [done|]. eapply holds_ext; [|exact Hd].
    intros x. by rewrite scatter_drop_out by lia.
Qed.

(** The sectors after cluster [c] was overwritten. *)
Definition put_cluster (c : Z) (buf : list Z) s : sectors := scatter buf (csec c) (spc fs) s.

Lemma write_cluster_ok d s c buf :
  holds d s -> valid fs c -> Z.of_nat (length buf) = cluster_size_bytes fs -> Forall is_byte buf ->
  exists d', write_cluster fs c buf d = Ret (Ok tt, d') /\ holds d' (put_cluster c buf s).
Proof.
  intros Hd Hc Hl Hb. pose proof (csec_range c Hc) as [H1 H2]. pose proof data_start_pos. destruct Hfs.
  destruct (write_chunks_ok (S (Z.to_nat (spc fs))) d s (csec c) (spc fs) 0 buf) as (d' & R & Hd'); try done; try lia.
  exists d'. split; [|done]. unfold write_cluster. rewrite cluster_to_sector_ok by done.
  rewrite run_lift. exact R.
Qed.

Lemma fat_sec_range c : 0 <= c < clusters fs ->
  fat_start_sector fs <= fat_sec c < fat_start_sector fs + fat_size_sectors (bpb fs).
Proof. intros Hc. unfold fat_sec, clusters in *. dm_lia. Qed.

Lemma fat_sec_data c : 0 <= c < clusters fs -> fat_sec c < data_start_sector fs.
Proof. intros Hc. pose proof (fat_sec_range c Hc). destruct Hfs. nia. Qed.

Lemma fat_put_cluster c buf s c' : valid fs c -> 0 <= c' < clusters fs -> fat (put_cluster c buf s) c' = fat s c'.
Proof.
  intros Hc Hc'. unfold fat, put_cluster. rewrite scatter_out; [done|].
  pose proof (fat_sec_data c' Hc'). pose proof (csec_range c Hc). lia.
Qed.

Lemma cdata_put_cluster c buf s c' :
  valid fs c -> Z.of_nat (length buf) = cluster_size_bytes fs ->
  cdata (put_cluster c buf s) c' = if decide (c = c') then buf else cdata s c'.
Proof.
  intros Hc Hl. unfold cdata, put_cluster. case_decide as E.
  - subst c'. rewrite cluster_bytes in Hl.
    pose proof (gather_scatter buf (csec c) (Z.to_nat (spc fs)) s) as Hg.
    rewrite Z2Nat.id in Hg by (destruct Hfs; lia). apply Hg. destruct Hfs. lia.
  - apply gather_ext. intros x Hx. apply scatter_out. destruct (csec_disjoint c c' E); destruct Hfs; lia.
Qed.

(** ** The FAT *)

Lemma next_cluster_ok d s c :
  holds d s -> 0 <= c < clusters fs ->
  exists d', next_cluster fs c d = Ret (Ok (fat s c), d') /\ holds d' s.
Proof.
  intros Hd Hc. pose proof (fat_sec_range c Hc). pose proof (fat_sec_data c Hc). destruct Hfs.
  assert (data_start_sector fs <= cap) by (unfold clusters in *; nia).
  destruct (read_sector_ok d s (fat_sec c) Hd) as (d' & R & Hd'); [lia|].
  exists d'. split; [|done]. unfold next_cluster, cadd. fold (fat_sec c).
  rewrite (proj2 (Z.ltb_lt _ _)) by lia. rewrite run_lift.
  by rewrite (run_try _ _ _ _ _ R).
Qed.

Lemma fat_range s c : sectors_ok s -> 0 <= fat s c <= FAT_MASK.
Proof.
  intros Hs. unfold fat. change FAT_MASK with (Z.ones 28). rewrite Z.land_ones by lia.
  pose proof (Z.mod_pos_bound (u32_at (s (fat_sec c)) (c * 4 mod 512)) (2 ^ 28) ltac:(lia)).
  change (Z.ones 28) with (2 ^ 28 - 1). lia.
Qed.

Definition new_entry (existing value : Z) : Z := Z.lor (Z.land existing 0xF0000000) (Z.land value FAT_MASK).

Lemma new_entry_mask e v : Z.land (new_entry e v) FAT_MASK = Z.land v FAT_MASK.
Proof.
  unfold new_entry. rewrite Z.land_lor_distr_l, <- !Z.land_assoc.
  change (Z.land 0xF0000000 FAT_MASK) with 0. rewrite Z.land_0_r, Z.lor_0_l. f_equal.
Qed.

Lemma new_entry_fits e v : fits 32 (new_entry e v).
Proof.
  unfold new_entry. apply fits_lor; [lia| |].
  - rewrite Z.land_comm. apply fits_land_l; [lia|]. by vm_compute.
  - rewrite Z.land_comm. apply fits_land_l; [lia|]. by vm_compute.
Qed.

Lemma pos_range c : 0 <= c * 4 mod 512 /\ c * 4 mod 512 + 4 <= 512.
Proof. dm_lia. Qed.

(** The sectors after entry [c] of copy [f] was set. *)
Definition put_copy (f c value : Z) s : sectors :=
  let sec := fat_start_sector fs + f * fat_size_sectors (bpb fs) + c * 4 / 512 in
  let pos := c * 4 mod 512 in
  fun y => if decide (y = sec)
    then list_inserts (Z.to_nat pos) (le_bytes 4 (new_entry (u32_at (s sec) pos) value)) (s sec)
    else s y.

Lemma fat_put_copy f c v s c' :
  sectors_ok s -> 0 <= f -> 0 <= c < clusters fs -> 0 <= c' < clusters fs ->
  fat (put_copy f c v s) c' = if decide (f = 0 /\ c = c') then Z.land v FAT_MASK else fat s c'.
Proof.
  intros Hs Hf Hc Hc'. pose proof (pos_range c). pose proof (pos_range c'). unfold fat at 1. unfold put_copy.
  pose proof (fat_sec_range c' Hc') as Hr. unfold fat_sec in Hr |- *.
  assert (length (s (fat_start_sector fs + f * fat_size_sectors (bpb fs) + c * 4 / 512)) = 512%nat) as Hl by apply Hs.
  destruct (decide (f = 0 /\ c = c')) as [[-> ->]|Hne].
  - rewrite Z.mul_0_l, Z.add_0_r in Hl |- *. rewrite decide_True by done. unfold u32_at.
    rewrite sub_inserts_same by (rewrite ?length_le_bytes; lia).
    rewrite le_roundtrip by apply new_entry_fits. apply new_entry_mask.
  - case_decide as E; [|done].
    assert (f = 0) as ->.
    { destruct (decide (f = 0)) as [|Hf0]; [done|exfalso]. unfold clusters in *. destruct Hfs.
      assert (fat_size_sectors (bpb fs) <= f * fat_size_sectors (bpb fs)) by nia.
      assert (0 <= c * 4 / 512) by dm_lia. lia. }
    assert (c <> c') by (intros ->; tauto). unfold fat, fat_sec, u32_at. rewrite E.
    rewrite sub_inserts_other; [done|lia|lia|]. rewrite length_le_bytes. dm_lia.
Qed.

Lemma put_copy_out f c v s y :
  0 <= f < num_fats (bpb fs) -> 0 <= c < clusters fs -> y < fat_start_sector fs \/ data_start_sector fs <= y ->
  put_copy f c v s y = s y.
Proof.
  intros Hf Hc Hy. unfold put_copy. case_decide as E; [exfalso|done]. destruct Hfs. unfold clusters in *.
  assert (0 <= c * 4 / 512 < fat_size_sectors (bpb fs)) by dm_lia.
  assert (f * fat_size_sectors (bpb fs) + fat_size_sectors (bpb fs) <= num_fats (bpb fs) * fat_size_sectors (bpb fs)) by nia.
  nia.
Qed.

Lemma set_fat_copies_ok n : forall d s f c v,
  holds d s -> 0 <= f -> f + Z.of_nat n <= num_fats (bpb fs) -> 0 <= c < clusters fs ->
  exists d' s', set_fat_copies fs n f c v d = Ret (Ok tt, d') /\ holds d' s' /\
    (forall y, y < fat_start_sector fs \/ data_start_sector fs <= y -> s' y = s y) /\
    (forall c', 0 <= c' < clusters fs ->
       fat s' c' = if decide (f = 0 /\ n <> 0%nat /\ c = c') then Z.land v FAT_MASK else fat s c').
Proof.
  induction n as [|n IH]; intros d s f c v Hd Hf Hn Hc; cbn [set_fat_copies].
  - exists d, s. split_and!; try done. intros c' _. rewrite decide_False; [done|]. intros (_ & [] & _). done.
  - pose proof (holds_sectors_ok _ _ Hd) as Hs. pose proof (pos_range c).
    set (sec := fat_start_sector fs + f * fat_size_sectors (bpb fs) + c * 4 / 512).
    assert (0 <= sec < cap /\ f * fat_size_sectors (bpb fs) < 2 ^ 64 /\
            fat_start_sector fs + f * fat_size_sectors (bpb fs) < 2 ^ 64) as (Hsec & Ho1 & Ho2).
    { destruct Hfs. unfold clusters, sec in *. assert (0 <= c * 4 / 512 < fat_size_sectors (bpb fs)) by dm_lia.
      assert (f * fat_size_sectors (bpb fs) + fat_size_sectors (bpb fs) <= num_fats (bpb fs) * fat_size_sectors (bpb fs)) by nia.
      assert (0 <= f * fat_size_sectors (bpb fs)) by nia. nia. }
    assert (length (s sec) = 512%nat) as Hl by apply Hs.
    unfold cmul, cadd. rewrite (proj2 (Z.ltb_lt _ _) Ho1), run_lift.
    rewrite (proj2 (Z.ltb_lt _ _) Ho2), run_lift.
    fold sec. rewrite (proj2 (Z.ltb_lt sec _)) by (destruct Hfs; lia). rewrite run_lift.
    destruct (read_sector_ok d s sec Hd Hsec) as (d1 & R1 & Hd1). rewrite (run_try _ _ _ _ _ R1).
    fold (new_entry (u32_at (s sec) (c * 4 mod 512)) v). rewrite splice_ok by (rewrite length_le_bytes; lia).
    rewrite run_lift.
    destruct (write_sector_ok d1 s sec (list_inserts (Z.to_nat (c * 4 mod 512))
      (le_bytes 4 (new_entry (u32_at (s sec) (c * 4 mod 512)) v)) (s sec)) Hd1 Hsec) as (d2 & R2 & Hd2).
    { by rewrite length_inserts. } { apply inserts_byte; [apply Hs|apply le_bytes_byte]. }
    rewrite (run_try _ _ _ _ _ R2).
    assert (holds d2 (put_copy f c v s)) as Hd2' by exact Hd2.
    destruct (IH d2 (put_copy f c v s) (f + 1) c v Hd2') as (d3 & s3 & R3 & Hd3 & Hout & Hfat); [lia|lia|done|].
    exists d3, s3. split_and!; [exact R3|done| |].
    + intros y Hy. rewrite Hout by done. apply put_copy_out; [lia|done|done].
    + intros c' Hc'. rewrite Hfat, decide_False, fat_put_copy by (done || lia).
      destruct (decide (f = 0 /\ c = c')) as [[-> ->]|Hx]; [by rewrite decide_True|].
      rewrite decide_False; [done|]. intros (? & _ & ?). by apply Hx.
Qed.

Lemma set_fat_entry_ok d s c v :
  holds d s -> 0 <= c < clusters fs ->
  exists d' s', set_fat_entry fs c v d = Ret (Ok tt, d') /\ holds d' s' /\
    (forall y, y < fat_start_sector fs \/ data_start_sector fs <= y -> s' y = s y) /\
    (forall c', 0 <= c' < clusters fs -> fat s' c' = if decide (c = c') then Z.land v FAT_MASK else fat s c').
Proof.
  intros Hd Hc. destruct (set_fat_copies_ok (Z.to_nat (num_fats (bpb fs))) d s 0 c v Hd)
    as (d' & s' & R & Hd' & Hout & Hfat); try (destruct Hfs; lia).
  exists d', s'. split_and!; try done. intros c' Hc'. rewrite Hfat by done. destruct Hfs.
  destruct (decide (c = c')) as [->|Hx]; [rewrite decide_True; [done|]|rewrite decide_False; [done|]].
  - split_and!; [done|lia|done].
  - by intros (_ & _ & ?).
Qed.

Lemma cdata_same s s' c :
  valid fs c -> (forall y, y < fat_start_sector fs \/ data_start_sector fs <= y -> s' y = s y) ->
  cdata s' c = cdata s c.
Proof.
  intros Hc Hs. apply gather_ext. intros x Hx. apply Hs. pose proof (csec_range c Hc). lia.
Qed.


(** The sectors before the FAT, the boot sector among them. *)
Definition reserved_kept s s' : Prop := forall x, x < fat_start_sector fs -> s' x = s x.

Lemma reserved_trans s1 s2 s3 : reserved_kept s1 s2 -> reserved_kept s2 s3 -> reserved_kept s1 s3.
Proof. intros H1 H2 x Hx. by rewrite H2, H1. Qed.

Lemma put_cluster_reserved c buf s : valid fs c -> reserved_kept s (put_cluster c buf s).
Proof.
  intros Hc x Hx. pose proof (csec_range c Hc). apply scatter_out. left. destruct Hfs.
  assert (0 <= num_fats (bpb fs) * fat_size_sectors (bpb fs)) by nia. lia.
Qed.

(** ** Allocation *)

(** No free cluster from [lo] to [hi]. *)
Definition none_free s (lo hi : Z) : Prop := forall c, lo <= c < hi -> 2 <= c -> fat s c <> 0.

(** The lowest free cluster from [lo] on. *)
Definition first_free s (lo hi : Z) (r : option Z) : Prop :=
  match r with
  | Some c => lo <= c < hi /\ 2 <= c /\ fat s c = 0 /\ none_free s lo c
  | None => none_free s lo hi
  end.

Lemma first_free_step s lo hi r :
  (2 <= lo -> fat s lo <> 0) -> first_free s (lo + 1) hi r -> first_free s lo hi r.
Proof.
  intros Hlo. assert (forall h, none_free s (lo + 1) h -> none_free s lo h) as Hn.
  { intros h Hh c Hc H2. destruct (decide (c = lo)) as [->|]; [by apply Hlo|]. apply Hh; lia. }
  destruct r as [c|]; simpl; [|apply Hn]. intros (? & ? & ? & ?). split_and!; try done; try lia. by apply Hn.
Qed.

Lemma first_free_app s lo mid hi r :
  none_free s lo mid -> lo <= mid -> first_free s mid hi r -> first_free s lo hi r.
Proof.
  intros Hm Hlm. assert (forall h, none_free s mid h -> none_free s lo h) as Hn.
  { intros h Hh c Hc H2. destruct (decide (c < mid)); [apply Hm; lia|apply Hh; lia]. }
  destruct r as [c|]; simpl; [|apply Hn]. intros (? & ? & ? & ?). split_and!; try done; try lia. by apply Hn.
Qed.

Lemma fat_entry_at s si i :
  0 <= i < 128 -> fat s (si * 128 + i) = Z.land (u32_at (s (fat_start_sector fs + si)) (i * 4)) FAT_MASK.
Proof.
  intros Hi. unfold fat, fat_sec. do 3 f_equal; [f_equal; dm_lia|dm_lia].
Qed.

Lemma scan_entries_ok s si n : forall i,
  0 <= si -> si * 128 + 128 <= clusters fs -> 0 <= i -> i + Z.of_nat n <= 128 ->
  exists r, scan_entries n i (si * 128) (s (fat_start_sector fs + si)) = Ret r /\
    first_free s (si * 128 + i) (si * 128 + i + Z.of_nat n) r.
Proof.
  induction n as [|n IH]; intros i Hsi Hc Hi Hn; cbn [scan_entries].
  - exists None. split; [done|]. intros c Hr. lia.
  - unfold cadd. rewrite (proj2 (Z.ltb_lt _ _)) by (destruct Hfs; unfold EOC in *; lia). cbn [mbind outcome_bind].
    destruct (IH (i + 1)) as (r & R & Hr); try lia.
    replace (si * 128 + (i + 1)) with (si * 128 + i + 1) in Hr by lia.
    replace (si * 128 + i + 1 + Z.of_nat n) with (si * 128 + i + Z.of_nat (S n)) in Hr by lia.
    rewrite <- fat_entry_at by lia. destruct (Z.ltb_spec (si * 128 + i) 2).
    + exists r. split; [done|]. apply first_free_step; [lia|done].
    + destruct (Z.eqb_spec (fat s (si * 128 + i)) 0) as [Hz|Hz].
      * eexists. split; [done|]. split_and!; try done; try lia. intros c Hcr. lia.
      * exists r. split; [done|]. by apply first_free_step.
Qed.

Lemma scan_fat_ok n : forall d s si,
  holds d s -> 0 <= si -> si + Z.of_nat n = fat_size_sectors (bpb fs) ->
  exists d' r, scan_fat fs n si d = Ret (Ok r, d') /\ holds d' s /\ first_free s (si * 128) (clusters fs) r.
Proof.
  induction n as [|n IH]; intros d s si Hd Hsi Hn; cbn [scan_fat].
  - exists d, None. split_and!; try done. intros c Hc. unfold clusters in Hc. lia.
  - assert (0 <= fat_start_sector fs + si < cap) as Hsec by (destruct Hfs; unfold clusters in *; nia).
    unfold cadd. rewrite (proj2 (Z.ltb_lt _ _)), run_lift by (destruct Hfs; lia).
    destruct (read_sector_ok d s _ Hd Hsec) as (d1 & R1 & Hd1). rewrite (run_try _ _ _ _ _ R1).
    unfold wrap. rewrite Z.mod_small by (destruct Hfs; unfold clusters, EOC in *; lia).
    destruct (scan_entries_ok s si 128 0) as (r & R & Hr); try lia; [unfold clusters; lia|].
    rewrite R, run_lift. rewrite Z.add_0_r in Hr. destruct r as [c|].
    + exists d1, (Some c). split_and!; try done. destruct Hr as (? & ? & ? & ?).
      split_and!; try done; unfold clusters; lia.
    + destruct (IH d1 s (si + 1) Hd1) as (d2 & r & R2 & Hd2 & Hr2); try lia. exists d2, r. split_and!; try done.
      eapply first_free_app; [exact Hr|lia|]. by replace (si * 128 + Z.of_nat 128) with ((si + 1) * 128) by lia.
Qed.

Lemma length_zero : Z.of_nat (length (replicate (Z.to_nat (cluster_size_bytes fs)) 0)) = cluster_size_bytes fs.
Proof. rewrite length_replicate. rewrite cluster_bytes. destruct Hfs. lia. Qed.

Definition zero_cluster : list Z := replicate (Z.to_nat (cluster_size_bytes fs)) 0.

Lemma alloc_cluster_ok d s prev :
  holds d s -> (forall p, prev = Some p -> valid fs p /\ fat s p <> 0) ->
  exists d',
    (none_free s 2 (clusters fs) /\ alloc_cluster fs prev d = Ret (Err "FAT32: disk full"%string, d') /\ holds d' s) \/
     exists c s', alloc_cluster fs prev d = Ret (Ok c, d') /\ holds d' s' /\
       valid fs c /\ fat s c = 0 /\ none_free s 2 c /\
       (forall c', 0 <= c' < clusters fs -> fat s' c' =
          if decide (prev = Some c') then c else if decide (c = c') then FAT_MASK else fat s c') /\
       (forall c', valid fs c' -> cdata s' c' = if decide (c = c') then zero_cluster else cdata s c') /\ reserved_kept s s'.
Proof.
  intros Hd Hp. destruct (scan_fat_ok (Z.to_nat (fat_size_sectors (bpb fs))) d s 0 Hd) as (d1 & r & R1 & Hd1 & Hr);
    try (destruct Hfs; lia).
  assert (first_free s 2 (clusters fs) r) as Hr2.
  { rewrite Z.mul_0_l in Hr. destruct r as [c|]; simpl in *; [|intros c Hc; apply Hr; lia].
    destruct Hr as (? & ? & ? & Hn). split_and!; try done; try lia. intros c' Hc'. apply Hn. lia. }
  unfold alloc_cluster. rewrite (run_try _ _ _ _ _ R1). destruct r as [c|]; [|exists d1; by left].
  destruct Hr2 as (Hcr & Hc2 & Hz & Hn). assert (valid fs c) as Hv by (split; lia).
  destruct (set_fat_entry_ok d1 s c 0x0FFFFFFF Hd1) as (d2 & s2 & R2 & Hd2 & O2 & F2); [unfold valid in *; lia|].
  rewrite (run_try _ _ _ _ _ R2).
  assert (exists d3 s3, match prev with Some p => set_fat_entry fs p c | None => mret (Ok tt) end d2 = Ret (Ok tt, d3) /\
    holds d3 s3 /\ (forall y, y < fat_start_sector fs \/ data_start_sector fs <= y -> s3 y = s2 y) /\
    (forall c', 0 <= c' < clusters fs -> fat s3 c' = if decide (prev = Some c') then c else fat s2 c'))
    as (d3 & s3 & R3 & Hd3 & O3 & F3).
  { destruct prev as [p|]; [|exists d2, s2; by split_and!].
    destruct (Hp p eq_refl) as [[Hp2 Hpc] _].
    destruct (set_fat_entry_ok d2 s2 p c Hd2) as (d3 & s3 & R3 & Hd3 & O3 & F3); [lia|].
    exists d3, s3. split_and!; try done. intros c' Hc'. rewrite F3 by done.
    assert (Z.land c FAT_MASK = c) as ->.
    { change FAT_MASK with (Z.ones 28). rewrite Z.land_ones by lia. apply Z.mod_small.
      destruct Hfs. unfold EOC in *. lia. }
    repeat case_decide; congruence. }
  rewrite (run_try _ _ _ _ _ R3).
  destruct (write_cluster_ok d3 s3 c zero_cluster Hd3 Hv) as (d4 & R4 & Hd4); [apply length_zero| |].
  { apply Forall_replicate. by vm_compute. }
  unfold zero_cluster in R4. rewrite (run_try _ _ _ _ _ R4). exists d4. right.
  exists c, (put_cluster c zero_cluster s3). split_and!; try done; try lia.
  - intros c' Hc'. rewrite fat_put_cluster, F3, F2 by (done || (unfold valid in *; lia)).
    repeat case_decide; done.
  - intros c' Hc'. rewrite cdata_put_cluster by (done || apply length_zero). case_decide; [done|].
    rewrite (cdata_same s2 s3), (cdata_same s s2) by done. done.
  - eapply reserved_trans; [|by apply put_cluster_reserved]. intros x Hx. rewrite O3, O2 by (by left). done.
Qed.


(** ** Chains *)

(** The clusters of a file whose first cluster is [c]. *)
Inductive chain s : Z -> list Z -> Prop :=
  | chain_end c : EOC <= c -> chain s c []
  | chain_link c l : valid fs c -> chain s (fat s c) l -> chain s c (c :: l).

Lemma valid_in_chain c : valid fs c -> in_chain c = true.
Proof.
  intros [H1 H2]. unfold in_chain. rewrite (proj2 (Z.leb_le _ _) H1).
  rewrite (proj2 (Z.ltb_lt _ _)); [done|]. destruct Hfs. lia.
Qed.

Lemma valid_not_eoc c : valid fs c -> c < EOC.
Proof. intros [H1 H2]. destruct Hfs. lia. Qed.

Lemma chain_det s c l1 l2 : chain s c l1 -> chain s c l2 -> l1 = l2.
Proof.
  intros H1. revert l2. induction H1 as [c He|c l Hv Hc IH]; intros l2 H2; inversion H2; subst; try done.
  3: f_equal; by apply IH.
  all: exfalso; match goal with Hv : valid fs ?c, He : EOC <= ?c |- _ => pose proof (valid_not_eoc c Hv); lia end.
Qed.

Lemma chain_suffix s c0 l1 c l2 : chain s c0 (l1 ++ c :: l2) -> chain s c (c :: l2).
Proof.
  revert c0. induction l1 as [|a l1 IH]; intros c0 H; inversion H; subst; [done|]. by eapply IH.
Qed.

Lemma chain_valid s c l : chain s c l -> Forall (valid fs) l.
Proof. induction 1; by constructor. Qed.

Lemma chain_NoDup s c l : chain s c l -> NoDup l.
Proof.
  induction 1 as [c He|c l Hv Hc IH]; [by constructor|]. constructor; [|done].
  intros (l1 & l2 & ->)%list_elem_of_split.
  pose proof (chain_suffix s _ l1 c l2 Hc) as Hs.
  pose proof (chain_det s c _ _ Hs (chain_link s c _ Hv Hc)) as E.
  apply (f_equal length) in E. simpl in E. rewrite length_app in E. simpl in E. lia.
Qed.

Lemma chain_head s c l : chain s c l -> l <> [] -> head l = Some c.
Proof. by destruct 1. Qed.

Lemma chain_frame s s' c l : (forall c', c' ∈ l -> fat s' c' = fat s c') -> chain s c l -> chain s' c l.
Proof.
  intros Hf H. induction H as [c He|c l Hv Hc IH]; [by constructor|]. constructor; [done|].
  rewrite Hf by (by left). apply IH. intros c' Hc'. apply Hf. by right.
Qed.

(** The entry after cluster [i]. *)
Lemma chain_next s c l (i : nat) a :
  chain s c l -> l !! i = Some a ->
  match l !! S i with Some b => fat s a = b | None => EOC <= fat s a end.
Proof.
  intros H. revert i. induction H as [c He|c l Hv Hc IH]; intros [|i] Hi; simplify_eq/=; try done.
  - destruct Hc; simpl; done.
  - by apply IH.
Qed.

Lemma chain_used s c l a : chain s c l -> a ∈ l -> fat s a <> 0.
Proof.
  intros H Ha. apply list_elem_of_lookup in Ha as [i Hi]. pose proof (chain_next s c l i a H Hi) as Hn.
  destruct (l !! S i) as [b|] eqn:E; [|unfold EOC in Hn; lia].
  pose proof (Forall_lookup_1 _ _ _ _ (chain_valid s c l H) E) as [Hb _]. lia.
Qed.

(** Linking a new cluster after the last one. *)
Lemma chain_extend s s' c l p a :
  chain s c (l ++ [p]) -> valid fs a -> fat s' p = a -> EOC <= fat s' a ->
  (forall x, x ∈ l -> fat s' x = fat s x) -> chain s' c (l ++ [p; a]).
Proof.
  intros H Ha Hp He Hs. revert c H. induction l as [|x l IH]; intros c H; inversion H; subst.
  - constructor; [done|]. constructor; [done|]. by constructor.
  - constructor; [done|]. rewrite Hs by (by left). apply IH; [|done]. intros y Hy. apply Hs. by right.
Qed.

(** ** The bytes of a file *)

Definition content s (l : list Z) : list Z := concat (map (cdata s) l).

Notation cb := (cluster_size_bytes fs).

Lemma cb_pos : 0 < cb.
Proof. rewrite cluster_bytes. destruct Hfs. lia. Qed.

Lemma length_content d s l : holds d s -> Z.of_nat (length (content s l)) = Z.of_nat (length l) * cb.
Proof.
  intros Hd. induction l as [|c l IH]; [done|]. unfold content in *. cbn [map concat].
  rewrite length_app, Nat2Z.inj_add, IH, (length_cdata d) by done. simpl length. lia.
Qed.

(** Byte [p] of the chain [l]. *)
Definition fbyte s (l : list Z) (p : Z) : Z := cdata s (l !!! Z.to_nat (p / cb)) !!! Z.to_nat (p mod cb).

Lemma content_fbyte d s l p :
  holds d s -> 0 <= p < Z.of_nat (length l) * cb -> content s l !! Z.to_nat p = Some (fbyte s l p).
Proof.
  intros Hd. pose proof cb_pos. revert p. induction l as [|c l IH]; intros p Hp; [simpl in Hp; lia|].
  unfold content in *. cbn [map concat]. pose proof (length_cdata d s c Hd) as Hl.
  destruct (decide (p < cb)) as [Hlt|Hge].
  - rewrite lookup_app_l by lia. unfold fbyte. rewrite Z.div_small, Z.mod_small by lia.
    change ((c :: l) !!! Z.to_nat 0) with c. apply list_lookup_lookup_total_lt. lia.
  - rewrite lookup_app_r by lia. replace (Z.to_nat p - length (cdata s c))%nat with (Z.to_nat (p - cb)) by lia.
    rewrite IH by (simpl length in Hp; lia). f_equal. unfold fbyte.
    replace (p / cb) with ((p - cb) / cb + 1) by (rewrite <- Z.div_add by lia; f_equal; lia).
    replace ((p - cb) mod cb) with (p mod cb)
      by (rewrite <- (Z.mod_add p (-1) cb) by lia; f_equal; lia).
    assert (0 <= (p - cb) / cb) by (apply Z.div_pos; lia).
    rewrite Z2Nat.inj_add, Nat.add_1_r by lia. done.
Qed.

Lemma read_chain_ok (fuel : nat) : forall d s c l out max,
  holds d s -> chain s c l -> Z.of_nat (length out) <= max -> (Z.to_nat (max - Z.of_nat (length out)) < fuel)%nat ->
  exists d', read_chain fs fuel c out max d = Ret (Ok (take (Z.to_nat max) (out ++ content s l)), d') /\ holds d' s.
Proof.
  pose proof cb_pos as Hcb.
  induction fuel as [|fuel IH]; intros d s c l out max Hd Hc Hm Hf; [lia|]. cbn [read_chain].
  destruct Hc as [c He|c l Hv Hc].
  - assert (in_chain c = false) as ->.
    { unfold in_chain. rewrite (proj2 (Z.ltb_ge c EOC)) by lia. apply andb_false_r. }
    exists d. split; [|done]. cbn. by rewrite app_nil_r, take_ge by lia.
  - rewrite (valid_in_chain c Hv). cbn [andb]. destruct (Z.ltb_spec (Z.of_nat (length out)) max) as [Hlt|Hge].
    + destruct (read_cluster_ok d s c _ Hd Hv length_zero) as (d1 & R1 & Hd1). rewrite (run_try _ _ _ _ _ R1).
      destruct (next_cluster_ok d1 s c Hd1) as (d2 & R2 & Hd2); [unfold valid in Hv; lia|].
      rewrite (run_try _ _ _ _ _ R2). pose proof (length_cdata d s c Hd) as Hl.
      set (out' := take (Z.to_nat (Z.of_nat (length out) + cb `min` (max - Z.of_nat (length out)))) (out ++ cdata s c)).
      assert (Z.of_nat (length out') = Z.of_nat (length out) + cb `min` (max - Z.of_nat (length out))) as Hlo.
      { unfold out'. rewrite length_take, length_app. lia. }
      destruct (IH d2 s (fat s c) l out' max Hd2 Hc) as (d3 & R3 & Hd3); [lia|lia|].
      exists d3. split; [|done]. rewrite R3. do 3 f_equal. unfold content at 2. cbn [map concat]. fold (content s l).
      destruct (decide (cb <= max - Z.of_nat (length out))) as [Hle|Hgt].
      * unfold out'. rewrite (take_ge (out ++ cdata s c)) by (rewrite length_app; lia). by rewrite <- app_assoc.
      * assert (Z.of_nat (length out') = max) as Hmax by lia.
        rewrite take_app_le, take_ge by lia. rewrite app_assoc, take_app_le by (rewrite length_app; lia).
        unfold out'. f_equal. lia.
    + exists d. split; [|done]. assert (max = Z.of_nat (length out)) as -> by lia.
      unfold_m. do 3 f_equal. rewrite Nat2Z.id. by rewrite take_app_length.
Qed.

Lemma read_chain_into_ok d s c l max :
  holds d s -> chain s c l -> 0 <= max ->
  exists d', read_chain_into fs c max d = Ret (Ok (take (Z.to_nat max) (content s l)), d') /\ holds d' s.
Proof.
  intros Hd Hc Hm. unfold read_chain_into. rewrite (proj2 (Z.ltb_ge _ _)).
  - apply (read_chain_ok _ d s c l [] max); try done; simpl; lia.
  - destruct Hc as [c He|c l [Hv _] _]; [unfold EOC in He; lia|done].
Qed.


(** ** Writing *)

(** [k] clusters are free. *)
Definition has_clusters (k : nat) s : Prop :=
  exists l, NoDup l /\ length l = k /\ Forall (fun c => valid fs c /\ fat s c = 0) l.

Lemma has_clusters_mono k k' s s' :
  (forall c, valid fs c -> fat s c = 0 -> fat s' c = 0) -> (k' <= k)%nat -> has_clusters k s -> has_clusters k' s'.
Proof.
  intros Hf Hk (l & Hn & Hl & Ha). exists (take k' l). split_and!.
  - eapply sublist_NoDup; [done|apply sublist_take].
  - rewrite length_take. lia.
  - apply Forall_take. eapply Forall_impl; [exact Ha|]. intros c [Hv Hz]. split; [done|by apply Hf].
Qed.

Lemma has_clusters_alloc k s s' a :
  (forall c, valid fs c -> c <> a -> fat s c = 0 -> fat s' c = 0) -> has_clusters (S k) s -> has_clusters k s'.
Proof.
  intros Hf (l & Hn & Hl & Ha).
  assert (exists l', sublist l' l /\ (k <= length l')%nat /\ a ∉ l') as (l' & Hs & Hk & Hal).
  { destruct (decide (a ∈ l)) as [(l1 & l2 & ->)%list_elem_of_split|Hni].
    - exists (l1 ++ l2). split_and!.
      + apply sublist_app; [done|]. by apply sublist_cons.
      + rewrite length_app in *. simpl in Hl. lia.
      + apply NoDup_app in Hn as (_ & Hd & Hn). apply NoDup_cons in Hn as [Hn _].
        intros [H|H]%elem_of_app; [|done]. apply (Hd a H). by left.
    - exists l. split_and!; [done|lia|done]. }
  exists (take k l'). split_and!.
  - eapply sublist_NoDup; [exact Hn|]. etrans; [apply sublist_take|done].
  - rewrite length_take. lia.
  - apply Forall_forall. intros c Hc.
    assert (c ∈ l') as Hc' by (eapply elem_of_sublist; [exact Hc|apply sublist_take]).
    pose proof (elem_of_sublist _ _ _ Hc' Hs) as Hcl. rewrite Forall_forall in Ha. destruct (Ha c Hcl) as [Hv Hz].
    split; [done|]. apply Hf; try done. by intros ->.
Qed.

Lemma has_clusters_pos k s : has_clusters (S k) s -> ~ none_free s 2 (clusters fs).
Proof.
  intros (l & _ & Hl & Ha) Hn. destruct l as [|c l]; [done|]. apply Forall_cons in Ha as [[Hv Hz] _].
  destruct Hv. by apply (Hn c).
Qed.

(** The chain [l] from [first] was extended to [l'], with zeroes, and the bytes
    [bs] were written at [start]; nothing else changed, but for the bytes of
    cluster [pc], which holds the file's directory entry. *)
Record wrote (pc first : Z) s (l : list Z) s' (l' : list Z) (start : Z) (bs : list Z) : Prop := {
  wr_ext : exists ext, l' = l ++ ext /\ Forall (fun c => valid fs c /\ fat s c = 0) ext /\
    (forall k, has_clusters (k + length ext) s -> has_clusters k s');
  wr_chain : chain s' first l';
  wr_other c : valid fs c -> c ∉ l' -> fat s' c = fat s c /\ (c <> pc -> cdata s' c = cdata s c);
  wr_bytes p : 0 <= p < Z.of_nat (length l') * cb -> fbyte s' l' p =
    if decide (start <= p < start + Z.of_nat (length bs)) then bs !!! Z.to_nat (p - start)
    else if decide (p < Z.of_nat (length l) * cb) then fbyte s l p else 0;
  wr_reserved : reserved_kept s s'
}.

#[local] Arguments wr_ext {pc first s l s' l' start bs}.
#[local] Arguments wr_chain {pc first s l s' l' start bs}.
#[local] Arguments wr_other {pc first s l s' l' start bs}.
#[local] Arguments wr_bytes {pc first s l s' l' start bs}.
#[local] Arguments wr_reserved {pc first s l s' l' start bs}.

Lemma wrote_refl pc first s l start : chain s first l -> wrote pc first s l s l start [].
Proof.
  intros Hc. constructor; try done.
  - exists []. split_and!; [by rewrite app_nil_r|by constructor|]. intros k. simpl. by rewrite Nat.add_0_r.
  - intros p Hp. rewrite decide_False by (simpl; lia). by rewrite decide_True by lia.
Qed.

Lemma wrote_trans pc first s l s1 l1 s2 l2 start b1 b2 :
  wrote pc first s l s1 l1 start b1 -> wrote pc first s1 l1 s2 l2 (start + Z.of_nat (length b1)) b2 ->
  0 <= start -> start + Z.of_nat (length b1) <= Z.of_nat (length l1) * cb \/ b1 = [] ->
  wrote pc first s l s2 l2 start (b1 ++ b2).
Proof.
  pose proof cb_pos. intros [(e1 & -> & He1 & Hk1) Hc1 Ho1 Hb1 Hr1] [(e2 & -> & He2 & Hk2) Hc2 Ho2 Hb2 Hr2] Hs Hle.
  constructor; [|done| | |by eapply reserved_trans].
  - exists (e1 ++ e2). split_and!; [by rewrite app_assoc| |].
    + apply Forall_app. split; [done|]. rewrite Forall_forall in He2 |- *. intros c Hc.
      destruct (He2 c Hc) as [Hv Hz]. split; [done|]. rewrite <- (proj1 (Ho1 c Hv ltac:(
        intros Hin; by apply (chain_used s1 first (l ++ e1) c)))). done.
    + intros k Hk. apply Hk2, Hk1. by rewrite length_app, (Nat.add_comm (length e1)), Nat.add_assoc in Hk.
  - intros c Hv Hc. destruct (Ho2 c Hv Hc) as [-> H2]. destruct (Ho1 c Hv) as [H1' H2'].
    { intros Hx. apply Hc, elem_of_app. by left. }
    split; [done|]. intros Hp. by rewrite H2, H2'.
  - assert (start + Z.of_nat (length b1) <= Z.of_nat (length (l ++ e1)) * cb \/ length b1 = 0%nat) as Hle'
      by (destruct Hle as [|Hle]; [by left|right; by rewrite Hle]). clear Hle.
    intros p Hp. rewrite Hb2 by done. rewrite !length_app, !Nat2Z.inj_add in *.
    case_decide as H1.
    + rewrite decide_True by lia. rewrite lookup_total_app_r by lia. f_equal. lia.
    + destruct (decide (p < (Z.of_nat (length l) + Z.of_nat (length e1)) * cb)) as [Hlt|Hge].
      * rewrite Hb1 by lia. case_decide as H2.
        -- rewrite decide_True by lia. by rewrite lookup_total_app_l by lia.
        -- by rewrite (decide_False (P := start <= p < _)) by lia.
      * rewrite decide_False by lia. by rewrite decide_False by nia.
Qed.

(** Overwriting part of one cluster of the chain. *)
Lemma patch_wrote pc d first s l (i : nat) c o x :
  holds d s -> chain s first l -> l !! i = Some c -> 0 <= o -> o + Z.of_nat (length x) <= cb ->
  wrote pc first s l (put_cluster c (list_inserts (Z.to_nat o) x (cdata s c)) s) l (Z.of_nat i * cb + o) x.
Proof.
  intros Hd Hc Hi Ho Hx. pose proof cb_pos. pose proof (chain_valid _ _ _ Hc) as Hall.
  pose proof (Forall_lookup_1 _ _ _ _ Hall Hi) as Hv. pose proof (length_cdata d s c Hd) as Hl.
  assert (Z.of_nat (length (list_inserts (Z.to_nat o) x (cdata s c))) = cb) as Hl' by (by rewrite length_inserts).
  constructor.
  - exists []. split_and!; [by rewrite app_nil_r|by constructor|]. intros k Hk. simpl in Hk. rewrite Nat.add_0_r in Hk.
    eapply has_clusters_mono; [|done|exact Hk]. intros c' Hv' Hz. rewrite fat_put_cluster; [done|done|unfold valid in Hv'; lia].
  - eapply chain_frame; [|exact Hc]. intros c' Hc'. rewrite Forall_forall in Hall. specialize (Hall c' Hc').
    apply fat_put_cluster; [done|]. unfold valid in Hall. lia.
  - intros c' Hv' Hn. split; [apply fat_put_cluster; [done|unfold valid in Hv'; lia]|].
    rewrite cdata_put_cluster by done. rewrite decide_False; [done|]. intros ->. apply Hn. by eapply list_elem_of_lookup_2.
  - intros p Hp. unfold fbyte at 1. rewrite cdata_put_cluster by done.
    assert (0 <= p / cb) by (apply Z.div_pos; lia). pose proof (Z.mod_pos_bound p cb ltac:(lia)) as Hm.
    pose proof (Z.div_mod p cb ltac:(lia)) as Hdm.
    assert (Z.to_nat (p / cb) < length l)%nat as Hj by (assert (p / cb < Z.of_nat (length l)) by (apply Z.div_lt_upper_bound; lia); lia).
    destruct (lookup_lt_is_Some_2 l _ Hj) as [cj Hcj]. rewrite (list_lookup_total_correct _ _ _ Hcj).
    assert (c = cj <-> Z.to_nat (p / cb) = i) as Hiff.
    { split; [intros <-; by eapply NoDup_lookup; [eapply chain_NoDup| |]|intros E; rewrite E in Hcj; congruence]. }
    rewrite (decide_True (P := p < _)) by lia.
    destruct (decide (c = cj)) as [E|E].
    + subst cj. assert (p = Z.of_nat i * cb + p mod cb) as Hp' by (apply proj1 in Hiff; specialize (Hiff eq_refl); nia).
      case_decide as Hr.
      * rewrite list_lookup_total_inserts by lia. f_equal. lia.
      * assert (list_inserts (Z.to_nat o) x (cdata s c) !!! Z.to_nat (p mod cb) = cdata s c !!! Z.to_nat (p mod cb)) as ->.
        { destruct (decide (p mod cb < o)); [apply list_lookup_total_inserts_lt; lia|apply list_lookup_total_inserts_ge; lia]. }
        unfold fbyte. by rewrite (list_lookup_total_correct _ _ _ Hcj).
    + rewrite decide_False.
      * unfold fbyte. by rewrite (list_lookup_total_correct _ _ _ Hcj).
      * intros Hr. apply E, Hiff. assert (p / cb = Z.of_nat i); [|lia]. symmetry. apply (Z.div_unique p cb (Z.of_nat i) (p - Z.of_nat i * cb)); lia.
  - by apply put_cluster_reserved.
Qed.


Lemma patch_cluster_ok d s c f buf' :
  holds d s -> valid fs c -> f (cdata s c) = Ret buf' -> length buf' = length (cdata s c) -> Forall is_byte buf' ->
  exists d', patch_cluster fs c f d = Ret (Ok tt, d') /\ holds d' (put_cluster c buf' s).
Proof.
  intros Hd Hv Hf Hl Hb. pose proof (length_cdata d s c Hd) as Hlc.
  destruct (read_cluster_ok d s c _ Hd Hv length_zero) as (d1 & R1 & Hd1).
  destruct (write_cluster_ok d1 s c buf' Hd1 Hv) as (d2 & R2 & Hd2); [lia|done|].
  exists d2. split; [|done]. unfold patch_cluster. rewrite (run_try _ _ _ _ _ R1), Hf, run_lift. exact R2.
Qed.

(** How many clusters a chain lacks to have [n]. *)
Definition missing (n : nat) (l : list Z) : nat := n - length l.

Lemma fbyte_extend s s' l a p :
  0 <= p < (Z.of_nat (length l) + 1) * cb -> (forall x, x ∈ l -> cdata s' x = cdata s x) -> cdata s' a = zero_cluster ->
  fbyte s' (l ++ [a]) p = if decide (p < Z.of_nat (length l) * cb) then fbyte s l p else 0.
Proof.
  intros Hp Hl Ha. pose proof cb_pos. assert (0 <= p / cb) by (apply Z.div_pos; lia).
  assert (p / cb < Z.of_nat (length l) + 1) by (apply Z.div_lt_upper_bound; lia).
  pose proof (Z.mod_pos_bound p cb ltac:(lia)). unfold fbyte at 1. case_decide as Hpl.
  - assert (Z.to_nat (p / cb) < length l)%nat as Hj
      by (assert (p / cb < Z.of_nat (length l)) by (apply Z.div_lt_upper_bound; lia); lia).
    destruct (lookup_lt_is_Some_2 l _ Hj) as [x Hx]. rewrite lookup_total_app_l by done.
    unfold fbyte. rewrite (list_lookup_total_correct _ _ _ Hx), Hl; [done|]. by eapply list_elem_of_lookup_2.
  - assert (Z.to_nat (p / cb) = length l) as ->
      by (assert (Z.of_nat (length l) <= p / cb) by (apply Z.div_le_lower_bound; lia); lia).
    rewrite lookup_total_app_r, Nat.sub_diag by lia. change ([a] !!! 0%nat) with a.
    rewrite Ha. unfold zero_cluster. apply replicate_lookup_total_Z. lia.
Qed.

Lemma valid_range x : valid fs x -> 0 <= x < clusters fs.
Proof. unfold valid. lia. Qed.

(** Allocating a cluster behind the last one of a chain. *)
Lemma link_wrote pc first s s' l0 c a start :
  chain s first (l0 ++ [c]) -> valid fs a -> fat s a = 0 ->
  (forall x, 0 <= x < clusters fs -> fat s' x = if decide (Some c = Some x) then a else if decide (a = x) then FAT_MASK else fat s x) ->
  (forall x, valid fs x -> cdata s' x = if decide (a = x) then zero_cluster else cdata s x) -> reserved_kept s s' ->
  wrote pc first s (l0 ++ [c]) s' (l0 ++ [c; a]) start [].
Proof.
  intros Hc Hva Hza Hfat Hdat Hres. set (l := l0 ++ [c]) in *.
  assert (forall x, x ∈ l -> a <> x) as Hal by (intros x Hx ->; by apply (chain_used s first l x)).
  pose proof (chain_NoDup _ _ _ Hc) as Hnd. pose proof (chain_valid _ _ _ Hc) as Hall. rewrite Forall_forall in Hall.
  assert (c ∈ l) as Hcl by (apply elem_of_app; right; by left).
  replace (l0 ++ [c; a]) with (l ++ [a]) by (unfold l; by rewrite <- app_assoc). constructor; [..|done].
  - exists [a]. split_and!; [done|by apply Forall_singleton|]. intros k' Hk'. simpl in Hk'. rewrite Nat.add_1_r in Hk'.
    eapply has_clusters_alloc; [|exact Hk']. intros x Hx Hxa Hxz. rewrite Hfat by (by apply valid_range).
    rewrite decide_False by (intros [= <-]; by apply (chain_used s first l c)). by rewrite decide_False by done.
  - unfold l. rewrite <- app_assoc. eapply (chain_extend s); [exact Hc|done|..].
    + rewrite Hfat by (by apply valid_range, Hall). by rewrite decide_True.
    + rewrite Hfat by (by apply valid_range). rewrite decide_False by (intros [= E]; by apply (Hal c)).
      by rewrite decide_True.
    + intros x Hx. assert (x ∈ l) as Hxl by (apply elem_of_app; by left).
      rewrite Hfat by (by apply valid_range, Hall). rewrite decide_False; [by rewrite decide_False by (by apply Hal)|].
      intros [= ->]. apply NoDup_app in Hnd as (_ & Hd & _). apply (Hd x Hx). by left.
  - intros x Hx Hxl. rewrite elem_of_app, list_elem_of_singleton in Hxl.
    rewrite Hfat, Hdat by (done || by apply valid_range). rewrite !(decide_False (P := a = x)) by (intros ->; tauto).
    rewrite decide_False; [done|]. intros [= ->]. tauto.
  - intros p Hp. rewrite decide_False by (simpl; lia). rewrite length_app, Nat2Z.inj_add in Hp. apply fbyte_extend; [done| |].
    + intros x Hx. rewrite Hdat by (by apply Hall). by rewrite decide_False by (by apply Hal).
    + rewrite Hdat by done. by rewrite decide_True.
Qed.

Lemma last_split (l : list Z) (i : nat) c : l !! i = Some c -> length l = S i -> exists l0, l = l0 ++ [c].
Proof.
  intros Hi Hl. destruct (exists_last (l := l)) as (l0 & c0 & ->); [by intros ->|].
  rewrite length_app in Hl. simpl in Hl. rewrite lookup_app_r in Hi by lia.
  replace (i - length l0)%nat with 0%nat in Hi by lia. exists l0. by simplify_eq/=.
Qed.

Lemma advance_ok pc (k : nat) d s first l (i : nat) c start :
  holds d s -> chain s first l -> l !! i = Some c -> has_clusters (k + missing (i + 2) l) s ->
  exists d' s' l' c', advance fs c d = Ret (Ok c', d') /\ holds d' s' /\ l' !! S i = Some c' /\
    wrote pc first s l s' l' start [] /\ length l' = Nat.max (length l) (i + 2) /\ has_clusters k s'.
Proof.
  intros Hd Hc Hi Hk. pose proof (Forall_lookup_1 _ _ _ _ (chain_valid _ _ _ Hc) Hi) as Hv.
  pose proof (chain_next s first l i c Hc Hi) as Hn. pose proof (lookup_lt_Some _ _ _ Hi) as Hlt.
  destruct (next_cluster_ok d s c Hd) as (d1 & R1 & Hd1); [by apply valid_range|].
  unfold advance. rewrite (run_try _ _ _ _ _ R1). unfold missing in Hk.
  destruct (l !! S i) as [b|] eqn:Hb.
  - pose proof (Forall_lookup_1 _ _ _ _ (chain_valid _ _ _ Hc) Hb) as Hvb. pose proof (lookup_lt_Some _ _ _ Hb).
    rewrite (proj2 (Z.leb_gt _ _)) by (rewrite Hn; by apply valid_not_eoc). exists d1, s, l, b. rewrite Hn.
    split_and!; try done; [by apply wrote_refl|lia|]. eapply has_clusters_mono; [done| |exact Hk]. lia.
  - apply lookup_ge_None in Hb. assert (length l = S i) as Hll by lia.
    rewrite (proj2 (Z.leb_le _ _)) by done. replace (i + 2 - length l)%nat with 1%nat in Hk by lia.
    destruct (alloc_cluster_ok d1 s (Some c) Hd1) as (d2 & [(Hfull & _)|(a & s2 & R2 & Hd2 & Hva & Hza & _ & Hfat & Hdat & Hres)]).
    { intros p [= <-]. split; [done|]. unfold EOC in Hn. lia. }
    { exfalso. rewrite Nat.add_1_r in Hk. by apply (has_clusters_pos _ _ Hk). }
    destruct (last_split l i c Hi Hll) as [l0 ->].
    pose proof (link_wrote pc first s s2 l0 c a start Hc Hva Hza Hfat Hdat Hres) as Hw.
    exists d2, s2, (l0 ++ [c; a]), a. split_and!; try done.
    + rewrite length_app in Hll. simpl in Hll. rewrite lookup_app_r by lia.
      by replace (S i - length l0)%nat with 1%nat by lia.
    + rewrite length_app in Hll. rewrite !length_app. cbn [length] in *. lia.
    + destruct (wr_ext Hw) as (ext & E & _ & Hfree). apply Hfree.
      apply (f_equal length) in E. rewrite !length_app in E. simpl in E. by replace (length ext) with 1%nat by lia.
Qed.

Lemma missing_split (n m : nat) l l' :
  (m <= n)%nat -> length l' = Nat.max (length l) m -> missing n l = (missing n l' + missing m l)%nat.
Proof. unfold missing. lia. Qed.

Lemma advance_by_ok pc (n : nat) : forall (k : nat) d s first l (i : nat) c start,
  holds d s -> chain s first l -> l !! i = Some c -> has_clusters (k + missing (i + n + 1) l) s -> 0 <= start ->
  exists d' s' l' c', advance_by fs n c d = Ret (Ok c', d') /\ holds d' s' /\ l' !! (i + n)%nat = Some c' /\
    wrote pc first s l s' l' start [] /\ length l' = Nat.max (length l) (i + n + 1) /\ has_clusters k s'.
Proof.
  induction n as [|n IH]; intros k d s first l i c start Hd Hc Hi Hk Hst; cbn [advance_by].
  - exists d, s, l, c. pose proof (lookup_lt_Some _ _ _ Hi). rewrite Nat.add_0_r. split_and!; try done.
    + by apply wrote_refl.
    + lia.
    + eapply has_clusters_mono; [done| |exact Hk]. lia.
  - destruct (advance_ok pc (k + missing (i + S n + 1) (l ++ replicate (i + 2 - length l) 0)) d s first l i c start Hd Hc Hi)
      as (d1 & s1 & l1 & c1 & R1 & Hd1 & Hi1 & Hw1 & Hl1 & Hk1).
    { eapply has_clusters_mono; [done| |exact Hk]. unfold missing. rewrite length_app, length_replicate. lia. }
    rewrite (run_try _ _ _ _ _ R1).
    destruct (IH k d1 s1 first l1 (S i) c1 start Hd1 (wr_chain Hw1) Hi1) as (d2 & s2 & l2 & c2 & R2 & Hd2 & Hi2 & Hw2 & Hl2 & Hk2).
    { eapply has_clusters_mono; [done| |exact Hk1]. unfold missing. rewrite length_app, length_replicate. lia. }
    { done. }
    exists d2, s2, l2, c2. split_and!; try done.
    + by replace (i + S n)%nat with (S i + n)%nat by lia.
    + eapply (wrote_trans _ _ _ _ _ _ _ _ _ [] []); [exact Hw1| | |].
      * simpl. rewrite Z.add_0_r. exact Hw2.
      * lia.
      * by right.
    + lia.
Qed.

Lemma sub_length_le (l : list Z) a n : 0 <= a -> 0 <= n -> a + n <= Z.of_nat (length l) -> Z.of_nat (length (sub l a n)) = n.
Proof. intros. rewrite length_sub by done. lia. Qed.

Lemma drop_split (l : list Z) a n :
  0 <= a -> 0 <= n -> drop (Z.to_nat a) l = sub l a n ++ drop (Z.to_nat (a + n)) l.
Proof.
  intros Ha Hn. unfold sub. rewrite <- (take_drop (Z.to_nat n) (drop (Z.to_nat a) l)) at 1.
  f_equal. rewrite drop_drop. f_equal. lia.
Qed.

(** The clusters needed for [n] bytes. *)
Definition clusters_for (n : Z) : nat := Z.to_nat ((n + cb - 1) / cb).

Lemma clusters_for_le (i : nat) n : Z.of_nat i * cb < n -> (S i <= clusters_for n)%nat.
Proof.
  intros Hn. pose proof cb_pos. unfold clusters_for.
  assert (Z.of_nat i + 1 <= (n + cb - 1) / cb); [|lia]. apply Z.div_le_lower_bound; lia.
Qed.

Lemma clusters_for_ge (i : nat) n : n <= Z.of_nat i * cb -> (clusters_for n <= i)%nat.
Proof.
  intros Hn. pose proof cb_pos. unfold clusters_for.
  assert ((n + cb - 1) / cb < Z.of_nat i + 1); [|lia]. apply Z.div_lt_upper_bound; lia.
Qed.

Lemma write_data_ok pc (f : nat) : forall (k : nat) d s first l (i : nat) c data w o,
  holds d s -> chain s first l -> l !! i = Some c -> Forall is_byte data ->
  0 <= w < Z.of_nat (length data) -> (Z.to_nat (Z.of_nat (length data) - w) < f)%nat -> 0 <= o < cb ->
  let stop := Z.of_nat i * cb + o + (Z.of_nat (length data) - w) in
  has_clusters (k + missing (clusters_for stop) l) s ->
  exists d' s' l', write_data f fs data w c o d = Ret (Ok (Z.of_nat (length data)), d') /\ holds d' s' /\
    wrote pc first s l s' l' (Z.of_nat i * cb + o) (drop (Z.to_nat w) data) /\
    length l' = Nat.max (length l) (clusters_for stop) /\ has_clusters k s'.
Proof.
  induction f as [|f IH]; intros k d s first l i c data w o Hd Hc Hi Hb Hw Hf Ho stop Hk; [lia|].
  cbn [write_data]. rewrite (proj2 (Z.ltb_lt _ _)) by lia. pose proof cb_pos as Hcb.
  set (tk := (Z.of_nat (length data) - w) `min` (cb - o)) in *. assert (0 < tk) as Htk by lia.
  pose proof (Forall_lookup_1 _ _ _ _ (chain_valid _ _ _ Hc) Hi) as Hv. pose proof (lookup_lt_Some _ _ _ Hi) as Hlt.
  pose proof (length_cdata d s c Hd) as Hl. pose proof (sub_length_le data w tk ltac:(lia) ltac:(lia) ltac:(lia)) as Hsl.
  assert (Z.of_nat i * cb + o + Z.of_nat (length (sub data w tk)) <= Z.of_nat (length l) * cb) as Hfit by nia.
  set (s1 := put_cluster c (list_inserts (Z.to_nat o) (sub data w tk) (cdata s c)) s).
  destruct (patch_cluster_ok d s c (fun buf => splice buf o (sub data w tk))
    (list_inserts (Z.to_nat o) (sub data w tk) (cdata s c)) Hd Hv) as (d1 & R1 & Hd1).
  { apply splice_ok. lia. } { apply length_inserts. }
  { apply inserts_byte; [by eapply cdata_byte|]. unfold sub. by apply Forall_take, Forall_drop. }
  pose proof (patch_wrote pc d first s l i c o (sub data w tk) Hd Hc Hi ltac:(lia) ltac:(lia)) as Hw1. fold s1 in Hd1, Hw1.
  rewrite (run_try _ _ _ _ _ R1).
  assert (forall m, has_clusters m s -> has_clusters m s1) as Hfree.
  { intros m Hm. destruct (wr_ext Hw1) as (ext & E & _ & Hfr). apply Hfr.
    apply (f_equal length) in E. rewrite length_app in E. by replace (m + length ext)%nat with m by lia. }
  destruct (Z.ltb_spec (w + tk) (Z.of_nat (length data))) as [Hmore|Hdone].
  - assert (tk = cb - o) as Etk by lia.
    assert (i + 2 <= clusters_for stop)%nat as Hi2.
    { pose proof (clusters_for_le (S i) stop). unfold stop in *. lia. }
    destruct (advance_ok pc (k + missing (clusters_for stop) (l ++ replicate (i + 2 - length l) 0)) d1 s1 first l i c
      (Z.of_nat i * cb + o + Z.of_nat (length (sub data w tk))) Hd1 (wr_chain Hw1) Hi)
      as (d2 & s2 & l2 & c2 & R2 & Hd2 & Hi2' & Hw2 & Hl2 & Hk2).
    { eapply has_clusters_mono; [done| |apply Hfree, Hk]. unfold missing. rewrite length_app, length_replicate. lia. }
    rewrite (run_try _ _ _ _ _ R2).
    pose proof (wrote_trans _ _ _ _ _ _ _ _ _ _ _ Hw1 Hw2 ltac:(nia) (or_introl Hfit)) as Hw12. rewrite app_nil_r in Hw12.
    destruct (IH k d2 s2 first l2 (S i) c2 data (w + tk) 0) as (d3 & s3 & l3 & R3 & Hd3 & Hw3 & Hl3 & Hk3); try done; try lia.
    { apply (wr_chain Hw2). }
    { replace (Z.of_nat (S i) * cb + 0 + (Z.of_nat (length data) - (w + tk))) with stop by (unfold stop; lia).
      eapply has_clusters_mono; [done| |exact Hk2]. unfold missing. rewrite length_app, length_replicate. lia. }
    replace (Z.of_nat (S i) * cb + 0 + (Z.of_nat (length data) - (w + tk))) with stop in Hl3 by (unfold stop; lia).
    exists d3, s3, l3. split_and!; try done; [|lia].
    rewrite (drop_split data w tk) by lia. eapply wrote_trans; [exact Hw12| |nia|].
    + replace (Z.of_nat i * cb + o + Z.of_nat (length (sub data w tk))) with (Z.of_nat (S i) * cb + 0) by lia. exact Hw3.
    + left. rewrite Hl2. nia.
  - assert (w + tk = Z.of_nat (length data)) as E by lia. exists d1, s1, l.
    assert (drop (Z.to_nat w) data = sub data w tk) as ->.
    { rewrite (drop_split data w tk) by lia. rewrite E, drop_ge, app_nil_r by lia. done. }
    split_and!; try done.
    + destruct f as [|f]; [lia|]. cbn [write_data]. rewrite E. by rewrite Z.ltb_irrefl.
    + pose proof (clusters_for_ge (S i) stop). unfold stop in *. lia.
    + apply Hfree. eapply has_clusters_mono; [done| |exact Hk]. lia.
Qed.


(** ** Files *)

Implicit Types w : FatWorld D.

(** [h] names a regular file whose clusters are [l]. *)
Record file_state (pc : Z) w (h : nat) (n : Fat32Node) s (l : list Z) : Prop := {
  fl_dev : holds (fw_dev w) s;
  fl_node : fw_nodes w !! h = Some n;
  fl_fs : node_fs n = fs;
  fl_file : is_dir n = false;
  fl_chain : (l = [] /\ first_cluster n < 2) \/ (l <> [] /\ chain s (first_cluster n) l);
  fl_size : 0 <= size n < 2 ^ 32 /\ size n <= Z.of_nat (length l) * cb;
  fl_parent : parent_cluster n = pc /\ (pc = 0 \/
    (valid fs pc /\ fat s pc <> 0 /\ pc ∉ l /\ 0 <= dir_entry_offset n /\ dir_entry_offset n + 32 <= cb))
}.

(** The bytes of the file. *)
Definition file_bytes (n : Fat32Node) s (l : list Z) : list Z := take (Z.to_nat (size n)) (content s l).

Lemma run_dev {A} (m : M D (result A string)) w (a : A) d' :
  m (fw_dev w) = Ret (Ok a, d') -> dev m w = Ret (Ok a, mkFat d' (fw_nodes w)).
Proof. intros Hm. unfold dev. by rewrite Hm. Qed.

Lemma run_node w h n : fw_nodes w !! h = Some n -> node h w = Ret (n, w).
Proof. intros Hn. unfold node. by rewrite Hn. Qed.

Lemma fat_read_ok pc w h n s l off len :
  file_state pc w h n s l -> 0 <= off -> 0 <= len ->
  exists w', fat_read h off len w =
      Ret (Ok (take (Z.to_nat len) (drop (Z.to_nat off) (file_bytes n s l))), w') /\
    holds (fw_dev w') s /\ fw_nodes w' = fw_nodes w.
Proof.
  intros [Hd Hn Hf Hfile Hc [Hs Hsl] _] Ho Hlen. unfold fat_read. rewrite (run_bind _ _ _ _ _ (run_node _ _ _ Hn)), Hfile.
  unfold file_bytes. pose proof (length_content _ s l Hd) as Hcl.
  destruct (Z.leb_spec (size n) off) as [Hge|Hlt].
  - exists w. split; [|done]. unfold_m. rewrite (drop_ge _ (Z.to_nat off)) by (rewrite length_take; lia). by rewrite take_nil.
  - set (want := len `min` (size n - off)). unfold cadd. rewrite (proj2 (Z.ltb_lt _ _)), run_lift by lia. rewrite Hf.
    destruct Hc as [[-> _]|[_ Hc]]; [simpl in Hsl; lia|].
    destruct (read_chain_into_ok (fw_dev w) s _ l (off + want) Hd Hc) as (d' & R & Hd'); [lia|].
    rewrite (run_try _ _ _ _ _ (run_dev _ w _ d' R)). rewrite length_take.
    replace (Z.of_nat (Z.to_nat (off + want) `min` length (content s l)) `min` (off + want)) with (off + want) by lia.
    exists (mkFat d' (fw_nodes w)). destruct (Z.leb_spec (off + want) off) as [Hz|Hnz].
    + assert (len = 0) as -> by lia. by split.
    + split; [|done]. unfold_m. do 3 f_equal. unfold sub. rewrite !take_drop_commute, !take_take. do 2 f_equal. lia.
Qed.

(** Patching the directory entry leaves the files alone. *)
Lemma parent_wrote pc first s l buf start :
  chain s first l -> valid fs pc -> pc ∉ l -> Z.of_nat (length buf) = cb ->
  wrote pc first s l (put_cluster pc buf s) l start [].
Proof.
  intros Hc Hv Hp Hb. pose proof (chain_valid _ _ _ Hc) as Hall. rewrite Forall_forall in Hall.
  assert (forall x, valid fs x -> fat (put_cluster pc buf s) x = fat s x) as Hfat.
  { intros x Hx. apply fat_put_cluster; [done|by apply valid_range]. }
  constructor.
  - exists []. split_and!; [by rewrite app_nil_r|by constructor|]. intros k Hk. simpl in Hk. rewrite Nat.add_0_r in Hk.
    eapply has_clusters_mono; [|done|exact Hk]. intros x Hx Hz. by rewrite Hfat.
  - eapply chain_frame; [|exact Hc]. intros x Hx. by apply Hfat, Hall.
  - intros x Hx Hxl. split; [by apply Hfat|]. intros Hne. rewrite cdata_put_cluster by done. by rewrite decide_False.
  - intros p Hr. rewrite decide_False by (simpl; lia). rewrite decide_True by lia. unfold fbyte.
    rewrite cdata_put_cluster, decide_False; try done. intros E. apply Hp. rewrite E.
    apply list_elem_of_lookup_total_2. pose proof cb_pos.
    assert (0 <= p / cb) by (apply Z.div_pos; lia).
    assert (p / cb < Z.of_nat (length l)) by (apply Z.div_lt_upper_bound; lia). lia.
  - by apply put_cluster_reserved.
Qed.

(** The entry of the file in its directory. *)
Definition dir_entry (pc : Z) s (n : Fat32Node) : list Z := sub (cdata s pc) (dir_entry_offset n) 32.

(** In the cluster with the entry, only its fields for the first cluster and the
    size may have changed. *)
Definition dir_kept (pc : Z) s s' (n : Fat32Node) : Prop :=
  forall a m, 0 <= a -> a + m <= dir_entry_offset n + 0x14 \/ dir_entry_offset n + 0x20 <= a ->
    sub (cdata s' pc) a m = sub (cdata s pc) a m.

(** The entry says what the node says. *)
Definition synced (pc : Z) s (n : Fat32Node) : Prop :=
  first_cluster_of (dir_entry pc s n) = first_cluster n /\ Fat32.entry_size (dir_entry pc s n) = size n.


Lemma wrote_weaken pc first s l s' l' start bs :
  wrote 0 first s l s' l' start bs -> wrote pc first s l s' l' start bs.
Proof.
  intros Hw. constructor; try apply Hw. intros c Hv Hc. destruct (wr_other Hw c Hv Hc) as [H1 H2].
  split; [done|]. intros _. apply H2. intros ->. by destruct Hv.
Qed.

Lemma wrote_start pc first s l s' l' start start' :
  wrote pc first s l s' l' start [] -> wrote pc first s l s' l' start' [].
Proof.
  intros [He Hc Ho Hb Hr]. constructor; try done. intros p Hp. rewrite Hb by done.
  by rewrite !(decide_False (P := _ <= p < _ + _)) by (simpl; lia).
Qed.

Lemma wrote_dir_entry pc first s l s' l' start bs n :
  wrote 0 first s l s' l' start bs -> valid fs pc -> pc ∉ l' -> dir_entry pc s' n = dir_entry pc s n.
Proof.
  intros Hw Hv Hp. unfold dir_entry. f_equal. apply (wr_other Hw pc Hv Hp). intros ->. by destruct Hv.
Qed.

(** The first cluster of an empty file. *)
Lemma alloc_first_wrote pc s s' c start :
  valid fs c -> fat s c = 0 ->
  (forall x, 0 <= x < clusters fs -> fat s' x = if decide (None = Some x) then c else if decide (c = x) then FAT_MASK else fat s x) ->
  (forall x, valid fs x -> cdata s' x = if decide (c = x) then zero_cluster else cdata s x) -> reserved_kept s s' ->
  wrote pc c s [] s' [c] start [].
Proof.
  intros Hv Hz Hf Hd Hres. assert (fat s' c = FAT_MASK) as Hc.
  { rewrite Hf by (by apply valid_range). rewrite decide_False by done. by rewrite decide_True. }
  constructor.
  - exists [c]. split_and!; [done|by apply Forall_singleton|]. intros k Hk. simpl in Hk. rewrite Nat.add_1_r in Hk.
    eapply has_clusters_alloc; [|exact Hk]. intros x Hx Hne Hxz. rewrite Hf by (by apply valid_range).
    rewrite decide_False by done. by rewrite decide_False by done.
  - constructor; [done|]. rewrite Hc. by constructor.
  - intros x Hx Hn. rewrite list_elem_of_singleton in Hn. rewrite Hf, Hd by (done || by apply valid_range).
    rewrite !(decide_False (P := c = x)) by done. by rewrite decide_False by done.
  - intros p Hp. rewrite decide_False by (simpl; lia). change [c] with ([] ++ [c]).
    apply (fbyte_extend s); [simpl in *; lia| |]; [intros x Hx; by apply elem_of_nil in Hx|].
    rewrite Hd by done. by rewrite decide_True.
  - done.
Qed.

Lemma sub_sub l o m a n : 0 <= o -> 0 <= a -> a + n <= m -> sub (sub l o m) a n = sub l (o + a) n.
Proof.
  intros Ho Ha Hn. unfold sub. apply list_eq. intros i. destruct (decide (i < Z.to_nat n)%nat).
  - rewrite lookup_take_lt, lookup_drop, lookup_take_lt, lookup_drop by lia.
    rewrite lookup_take_lt, lookup_drop by lia. f_equal. lia.
  - by rewrite !(lookup_take_ge _ _ i) by lia.
Qed.


Lemma first_cluster_split c : fits 32 c ->
  Z.lor (Z.shiftl (le_val [Z.land (Z.shiftr c 16) 0xFF; Z.land (Z.shiftr c 24) 0xFF]) 16)
        (le_val [Z.land c 0xFF; Z.land (Z.shiftr c 8) 0xFF]) = c.
Proof.
  intros Hc. unfold le_val. rewrite !Z.mul_0_r, !Z.add_0_r. rewrite !(land_mask _ 0xFF 8) by done.
  assert (forall x, x mod 2 ^ 8 + 256 * (Z.shiftr x 8 mod 2 ^ 8) = x mod 2 ^ 16) as Hle.
  { intros x. rewrite Z.shiftr_div_pow2 by lia. dm_lia. }
  replace (Z.shiftr c 24) with (Z.shiftr (Z.shiftr c 16) 8) by (by rewrite Z.shiftr_shiftr).
  rewrite !Hle. bitwise.
Qed.

(** Recording the first cluster in a directory entry. *)
Definition put_first (o c : Z) (buf : list Z) : list Z :=
  list_inserts (Z.to_nat (o + 0x1A)) [Z.land c 0xFF; Z.land (Z.shiftr c 8) 0xFF]
    (list_inserts (Z.to_nat (o + 0x14)) [Z.land (Z.shiftr c 16) 0xFF; Z.land (Z.shiftr c 24) 0xFF] buf).

Lemma put_first_cluster o c buf :
  fits 32 c -> 0 <= o -> o + 32 <= Z.of_nat (length buf) -> first_cluster_of (sub (put_first o c buf) o 32) = c.
Proof.
  intros Hc Ho Hl. unfold first_cluster_of, u16_at, put_first. rewrite !sub_sub by lia.
  rewrite sub_inserts_other by (simpl; lia). rewrite !sub_inserts_same by (rewrite ?length_inserts; simpl; lia).
  by apply first_cluster_split.
Qed.

Lemma land_byte x : is_byte (Z.land x 0xFF).
Proof. rewrite (land_mask _ 0xFF 8) by done. by apply fits_mod. Qed.

Lemma put_first_bytes o c buf : Forall is_byte buf -> Forall is_byte (put_first o c buf).
Proof.
  intros Hb. unfold put_first. repeat apply inserts_byte; [done|..];
    repeat (apply Forall_cons; split); try apply Forall_nil; try done; apply land_byte.
Qed.

Lemma alter_insert_node (l : list Fat32Node) h n f : l !! h = Some n -> alter f h l = <[h := f n]> l.
Proof.
  intros Hn. apply list_eq. intros i. destruct (decide (i = h)) as [->|Hne].
  - rewrite list_lookup_alter_eq, Hn. rewrite list_lookup_insert_eq; [done|by eapply lookup_lt_Some].
  - by rewrite list_lookup_alter_ne, list_lookup_insert_ne by done.
Qed.

Lemma run_store w h n f :
  fw_nodes w !! h = Some n -> store_node h f w = Ret (tt, mkFat (fw_dev w) (<[h := f n]> (fw_nodes w))).
Proof. intros Hn. unfold store_node. by rewrite (alter_insert_node _ h n). Qed.

Lemma set_first_id n : set_first (first_cluster n) n = n.
Proof. by destruct n. Qed.

Lemma ensure_first_ok pc w h n s l start (k : nat) :
  file_state pc w h n s l -> has_clusters (k + missing 1 l) s ->
  exists d1 s1 l1 c, ensure_first h w = Ret (Ok tt, mkFat d1 (<[h := set_first c n]> (fw_nodes w))) /\
    holds d1 s1 /\ l1 <> [] /\ length l1 = Nat.max (length l) 1 /\ wrote pc c s l s1 l1 start [] /\ has_clusters k s1 /\
    (l <> [] -> c = first_cluster n) /\
    (l = [] -> pc <> 0 -> first_cluster_of (dir_entry pc s1 n) = c) /\ (pc <> 0 -> fat s1 pc <> 0 /\ pc ∉ l1) /\
    (pc <> 0 -> dir_kept pc s s1 n /\ Fat32.entry_size (dir_entry pc s1 n) = Fat32.entry_size (dir_entry pc s n)) /\
    (l <> [] -> s1 = s).
Proof.
  intros [Hd Hn Hf Hfile Hc Hs [Hpc Hpar]] Hk. unfold ensure_first. rewrite (run_bind _ _ _ _ _ (run_node _ _ _ Hn)).
  destruct Hc as [[-> Hfc]|[Hne Hc]].
  - rewrite (proj2 (Z.ltb_lt _ _) Hfc), Hf. unfold missing in Hk. simpl in Hk. rewrite Nat.add_1_r in Hk.
    destruct (alloc_cluster_ok (fw_dev w) s None Hd) as (d1 & [(Hfull & _)|(c & s1 & R1 & Hd1 & Hv & Hz & _ & Hfat & Hdat & Hres)]);
      [done|by destruct (has_clusters_pos _ _ Hk)|].
    rewrite (run_try _ _ _ _ _ (run_dev _ w c d1 R1)), (run_bind _ _ _ _ _ (run_store (mkFat d1 (fw_nodes w)) h n (set_first c) Hn)).
    pose proof (alloc_first_wrote 0 s s1 c start Hv Hz Hfat Hdat Hres) as Hw. rewrite Hpc. cbn [fw_dev fw_nodes].
    assert (has_clusters k s1) as Hk1.
    { destruct (wr_ext Hw) as (ext & E & _ & Hfr). apply Hfr. simpl in E. subst ext. simpl. by rewrite Nat.add_1_r. }
    destruct (Z.eqb_spec pc 0) as [E0|E0].
    + exists d1, s1, [c], c. split_and!; try done. by apply wrote_weaken.
    + destruct Hpar as [|(Hvp & Hfp & _ & Ho & Ho2)]; [done|].
      assert (c <> pc) as Hcp by (intros ->; done).
      assert (fat s1 pc <> 0 /\ pc ∉ [c]) as [Hfp1 Hnin].
      { split; [|by rewrite list_elem_of_singleton]. rewrite Hfat by (by apply valid_range). by rewrite decide_False, decide_False. }
      pose proof (length_cdata d1 s1 pc Hd1) as Hlc.
      destruct (patch_cluster_ok d1 s1 pc (fun buf =>
        buf ← splice buf (dir_entry_offset n + 0x14) [Z.land (Z.shiftr c 16) 0xFF; Z.land (Z.shiftr c 24) 0xFF];
        splice buf (dir_entry_offset n + 0x1A) [Z.land c 0xFF; Z.land (Z.shiftr c 8) 0xFF])
        (put_first (dir_entry_offset n) c (cdata s1 pc)) Hd1 Hvp) as (d2 & R2 & Hd2).
      { rewrite splice_ok by (simpl; lia). cbn [mbind outcome_bind].
        rewrite splice_ok by (rewrite length_inserts; simpl; lia). done. }
      { unfold put_first. by rewrite !length_inserts. } { apply put_first_bytes. by eapply cdata_byte. }
      rewrite (run_dev _ (mkFat d1 _) _ d2 R2). cbn [fw_nodes].
      assert (Z.of_nat (length (put_first (dir_entry_offset n) c (cdata s1 pc))) = cb) as Hlp
        by (unfold put_first; by rewrite !length_inserts).
      pose proof (parent_wrote pc c s1 [c] _ start (wr_chain Hw) Hvp Hnin Hlp) as Hw2.
      exists d2, (put_cluster pc (put_first (dir_entry_offset n) c (cdata s1 pc)) s1), [c], c. split_and!; try done.
      * apply (wrote_start pc _ _ _ _ _ 0). pose proof (wrote_start pc _ _ _ _ _ start 0 (wrote_weaken pc _ _ _ _ _ _ _ Hw)) as Hw1.
        apply (wrote_trans _ _ _ _ _ _ _ _ _ [] [] Hw1); [|done|by right].
        by apply (wrote_start pc _ _ _ _ _ start).
      * destruct (wr_ext Hw2) as (ext & E & _ & Hfr). apply Hfr. apply (f_equal length) in E. rewrite length_app in E.
        by replace (k + length ext)%nat with k by lia.
      * intros _ _. unfold dir_entry. rewrite cdata_put_cluster, decide_True by done. apply put_first_cluster; [|done|lia].
        destruct Hv as [? Hc2], Hfs. unfold fits, EOC in *. lia.
      * intros _. rewrite fat_put_cluster by (done || by apply valid_range). done.
      * assert (cdata s1 pc = cdata s pc) as Es by (rewrite Hdat by done; by apply decide_False).
        intros _. unfold dir_kept, dir_entry. rewrite cdata_put_cluster, decide_True, Es by done. split.
        -- intros a m Ha Hm. unfold put_first. by rewrite !sub_inserts_other by (simpl; lia).
        -- unfold Fat32.entry_size, u32_at, put_first. rewrite !sub_sub by lia. by rewrite !sub_inserts_other by (simpl; lia).
  - assert (2 <= first_cluster n) as H2.
    { destruct Hc as [c He|c l [Hv _] _]; [unfold EOC in He; lia|done]. }
    rewrite (proj2 (Z.ltb_ge _ _) H2). exists (fw_dev w), s, l, (first_cluster n).
    assert (0 < length l)%nat by (destruct l; [done|simpl; lia]). split_and!; try done.
    + unfold_m. do 2 f_equal. rewrite set_first_id, list_insert_id by done. by destruct w.
    + lia.
    + by apply wrote_refl.
    + eapply has_clusters_mono; [done| |exact Hk]. lia.
    + intros Hp0. destruct Hpar as [|(_ & Hfp & Hnp & _)]; done.
Qed.


Lemma clusters_for_mul n : n <= Z.of_nat (clusters_for n) * cb.
Proof.
  pose proof cb_pos. unfold clusters_for. pose proof (Z.div_mod (n + cb - 1) cb ltac:(lia)).
  pose proof (Z.mod_pos_bound (n + cb - 1) cb ltac:(lia)). nia.
Qed.

Lemma update_size_ok pc first d s l n z start :
  holds d s -> chain s first l -> node_fs n = fs -> parent_cluster n = pc -> fits 32 z ->
  pc = 0 \/ (valid fs pc /\ pc ∉ l /\ 0 <= dir_entry_offset n /\ dir_entry_offset n + 32 <= cb) ->
  exists d' s', update_size_on_disk n z d = Ret (Ok tt, d') /\ holds d' s' /\ wrote pc first s l s' l start [] /\
    (forall x, valid fs x -> fat s' x = fat s x) /\ (pc <> 0 -> dir_kept pc s s' n) /\
    (pc <> 0 -> Fat32.entry_size (dir_entry pc s' n) = z /\
       first_cluster_of (dir_entry pc s' n) = first_cluster_of (dir_entry pc s n)).
Proof.
  intros Hd Hc Hf Hpc Hz Hpar. unfold update_size_on_disk. rewrite Hpc.
  destruct (Z.eqb_spec pc 0) as [->|Hne].
  - exists d, s. split_and!; try done. by apply wrote_refl.
  - destruct Hpar as [|(Hv & Hn & Ho & Ho2)]; [done|]. rewrite Hf. pose proof (length_cdata d s pc Hd) as Hl.
    set (buf := list_inserts (Z.to_nat (dir_entry_offset n + 0x1C)) (le_bytes 4 z) (cdata s pc)).
    assert (Z.of_nat (length buf) = cb) as Hlb by (unfold buf; by rewrite length_inserts).
    destruct (patch_cluster_ok d s pc (fun buf => splice buf (dir_entry_offset n + 0x1C) (le_bytes 4 z)) buf Hd Hv)
      as (d' & R & Hd').
    { apply splice_ok. rewrite length_le_bytes. lia. } { lia. }
    { apply inserts_byte; [by eapply cdata_byte|apply le_bytes_byte]. }
    exists d', (put_cluster pc buf s). split_and!; try done.
    + by apply parent_wrote.
    + intros x Hx. apply fat_put_cluster; [done|by apply valid_range].
    + intros _ a m Ha Hm. rewrite cdata_put_cluster, decide_True by done. unfold buf.
      by rewrite sub_inserts_other by (rewrite ?length_le_bytes; lia).
    + intros _. unfold dir_entry. rewrite cdata_put_cluster, decide_True by done.
      unfold Fat32.entry_size, first_cluster_of, u16_at, u32_at. rewrite !sub_sub by lia. unfold buf.
      rewrite sub_inserts_same by (rewrite ?length_le_bytes; lia). split; [by apply le_roundtrip|].
      by rewrite !sub_inserts_other by (rewrite ?length_le_bytes; lia).
Qed.

(** The middle of [write]: walking to the first cluster and writing. *)
Lemma write_chain_ok (k : nat) d s first l off data :
  holds d s -> chain s first l -> l <> [] -> 0 <= off -> data <> [] -> Forall is_byte data ->
  has_clusters (k + missing (clusters_for (off + Z.of_nat (length data))) l) s ->
  exists d1 c d' s' l', advance_by fs (Z.to_nat (off / cb)) first d = Ret (Ok c, d1) /\
    write_data (S (length data)) fs data 0 c (off mod cb) d1 = Ret (Ok (Z.of_nat (length data)), d') /\
    holds d' s' /\ wrote 0 first s l s' l' off data /\ has_clusters k s' /\
    off + Z.of_nat (length data) <= Z.of_nat (length l') * cb.
Proof.
  intros Hd Hc Hne Ho Hdne Hb Hk. pose proof cb_pos as Hcb. set (stop := off + Z.of_nat (length data)) in *.
  assert (0 < Z.of_nat (length data)) as Hdl by (destruct data; [done|simpl; lia]).
  assert (l !! 0%nat = Some first) as H0 by (pose proof (chain_head _ _ _ Hc Hne); by destruct l).
  assert (0 <= off / cb) by (apply Z.div_pos; lia).
  pose proof (Z.div_mod off cb ltac:(lia)) as Hdm. pose proof (Z.mod_pos_bound off cb ltac:(lia)) as Hmb.
  set (i := Z.to_nat (off / cb)) in *.
  assert (Z.of_nat i * cb + off mod cb = off) as Hoff by (unfold i; lia).
  assert (S i <= clusters_for stop)%nat as HN by (apply clusters_for_le; lia).
  destruct (advance_by_ok 0 i (k + missing (clusters_for stop) (l ++ replicate (i + 1 - length l) 0)) d s first l 0 first off Hd Hc H0)
    as (d1 & s1 & l1 & c & R1 & Hd1 & Hi1 & Hw1 & Hl1 & Hk1).
  { eapply has_clusters_mono; [done| |exact Hk]. unfold missing. rewrite length_app, length_replicate. lia. }
  { lia. }
  destruct (write_data_ok 0 (S (length data)) k d1 s1 first l1 i c data 0 (off mod cb)) as (d2 & s2 & l2 & R2 & Hd2 & Hw2 & Hl2 & Hk2);
    try done; try lia.
  { apply (wr_chain Hw1). }
  { rewrite Hoff, Z.sub_0_r. fold stop. eapply has_clusters_mono; [done| |exact Hk1]. unfold missing.
    rewrite length_app, length_replicate. lia. }
  rewrite Hoff, Z.sub_0_r in Hl2. fold stop in Hl2. rewrite Hoff in Hw2. rewrite drop_0 in Hw2.
  exists d1, c, d2, s2, l2. split_and!; try done.
  - apply (wrote_trans 0 _ _ _ _ _ _ _ off [] data Hw1); [simpl; by rewrite Z.add_0_r|done|by right].
  - fold stop. pose proof (clusters_for_mul stop). rewrite Hl2. nia.
Qed.


Lemma wrote_len pc first s l s' l' start bs : wrote pc first s l s' l' start bs -> (length l <= length l')%nat.
Proof. intros Hw. destruct (wr_ext Hw) as (ext & -> & _). rewrite length_app. lia. Qed.

(** A used cluster outside the chain stays outside. *)
Lemma wrote_not_in pc first s l s' l' start bs x :
  wrote pc first s l s' l' start bs -> fat s x <> 0 -> x ∉ l -> x ∉ l'.
Proof.
  intros Hw Hf Hx. destruct (wr_ext Hw) as (ext & -> & He & _). rewrite elem_of_app. intros [|Hin]; [done|].
  rewrite Forall_forall in He. by destruct (He x Hin).
Qed.

Lemma fat_write_ok pc (k : nat) w h n s l off data :
  file_state pc w h n s l -> 0 <= off -> off + Z.of_nat (length data) < 2 ^ 32 -> data <> [] -> Forall is_byte data ->
  has_clusters (k + missing (clusters_for (off + Z.of_nat (length data))) l) s ->
  exists w' n' s' l', fat_write h off data w = Ret (Ok (Z.of_nat (length data)), w') /\
    file_state pc w' h n' s' l' /\ size n' = (off + Z.of_nat (length data)) `max` size n /\
    fw_nodes w' = <[h := n']> (fw_nodes w) /\ wrote pc (first_cluster n') s l s' l' off data /\ has_clusters k s' /\
    (pc <> 0 -> (size n < size n' -> Fat32.entry_size (dir_entry pc s' n') = size n') /\
                (l = [] -> first_cluster_of (dir_entry pc s' n') = first_cluster n')) /\
    (exists c z, n' = set_size z (set_first c n)) /\
    (pc <> 0 -> dir_kept pc s s' n /\ (synced pc s n -> synced pc s' n')).
Proof.
  intros Hst Ho Hlen Hdne Hb Hk. pose proof Hst as [Hd Hn Hf Hfile Hc [Hs1 Hs2] [Hpc Hpar]].
  set (stop := off + Z.of_nat (length data)) in *. pose proof cb_pos.
  assert (0 < Z.of_nat (length data)) as Hdl by (destruct data; [done|simpl; lia]).
  assert (1 <= clusters_for stop)%nat as HN by (apply (clusters_for_le 0); lia).
  destruct (ensure_first_ok pc w h n s l 0 (k + missing (clusters_for stop) (l ++ replicate (1 - length l) 0)) Hst)
    as (d1 & s1 & l1 & c & R1 & Hd1 & Hne1 & Hl1 & Hw1 & Hk1 & Hcsame & Hdir1 & Hp1 & Hkept1 & Hs1same).
  { eapply has_clusters_mono; [done| |exact Hk]. unfold missing. rewrite length_app, length_replicate. lia. }
  destruct (write_chain_ok k d1 s1 c l1 off data Hd1 (wr_chain Hw1) Hne1 Ho Hdne Hb)
    as (d2 & c2 & d3 & s3 & l3 & R2 & R3 & Hd3 & Hw3 & Hk3 & Hfit).
  { eapply has_clusters_mono; [done| |exact Hk1]. fold stop. unfold missing. rewrite length_app, length_replicate. lia. }
  set (n1 := set_first c n) in *. pose proof (lookup_lt_Some _ _ _ Hn) as Hh.
  set (w1 := mkFat d1 (<[h:=n1]> (fw_nodes w))) in *.
  assert (fw_nodes w1 !! h = Some n1) as Hn1 by (by apply list_lookup_insert_eq).
  assert (wrote pc c s l s3 l3 off data) as Hw13.
  { apply (wrote_trans pc _ _ _ _ _ _ _ off [] data (wrote_start _ _ _ _ _ _ 0 off Hw1)); [|done|by right].
    simpl. rewrite Z.add_0_r. by apply wrote_weaken. }
  assert (pc <> 0 -> valid fs pc /\ pc ∉ l3 /\ fat s3 pc <> 0 /\ 0 <= dir_entry_offset n /\ dir_entry_offset n + 32 <= cb) as Hp3.
  { intros Hp0. destruct Hpar as [|(Hv & _ & _ & ? & ?)]; [done|]. destruct (Hp1 Hp0) as [Hf1 Hni1].
    pose proof (wrote_not_in _ _ _ _ _ _ _ _ _ Hw3 Hf1 Hni1) as Hni3. split_and!; try done.
    by rewrite (proj1 (wr_other Hw3 pc Hv Hni3)). }
  assert (l3 <> []) as Hne3.
  { pose proof (wrote_len _ _ _ _ _ _ _ _ Hw3) as Hlen3. intros ->. destruct l1; [done|simpl in Hlen3; lia]. }
  assert (pc <> 0 -> dir_entry pc s3 n = dir_entry pc s1 n) as Hde.
  { intros Hp0. destruct (Hp3 Hp0) as (Hv & Hni & _). by eapply wrote_dir_entry. }
  assert (pc <> 0 -> dir_kept pc s s3 n) as Hk03.
  { intros Hp0 a m Ha Hm. rewrite <- (proj1 (Hkept1 Hp0) a m Ha Hm). f_equal. destruct (Hp3 Hp0) as (Hv & Hni & _).
    apply (wr_other Hw3 pc Hv Hni). intros ->. by destruct Hv. }
  assert (pc <> 0 -> synced pc s n -> first_cluster_of (dir_entry pc s3 n) = c /\ Fat32.entry_size (dir_entry pc s3 n) = size n) as Hsy3.
  { intros Hp0 [H1 H2]. rewrite Hde by done. rewrite (proj2 (Hkept1 Hp0)). split; [|done].
    destruct (decide (l = [])) as [El|El]; [by apply Hdir1|]. by rewrite (Hs1same El), Hcsame. }
  unfold fat_write. rewrite (run_bind _ _ _ _ _ (run_node _ _ _ Hn)), Hfile.
  rewrite (proj2 (Nat.eqb_neq _ _)) by lia. cbn [orb]. unfold cadd. rewrite (proj2 (Z.ltb_lt _ _)), run_lift by (fold stop; lia).
  fold stop. rewrite Hf, (run_try _ _ _ _ _ R1), (run_bind _ _ _ _ _ (run_node _ _ _ Hn1)).
  rewrite (run_try _ _ _ _ _ (run_dev _ w1 _ _ R2)), (run_try _ _ _ _ _ (run_dev _ (mkFat d2 (fw_nodes w1)) _ _ R3)).
  cbn [fw_nodes]. destruct (Z.ltb_spec (size n) (stop `max` size n)) as [Hgrow|Hsame].
  - assert (wrap 32 (stop `max` size n) = stop `max` size n) as -> by (unfold wrap; apply Z.mod_small; lia).
    set (n2 := set_size (stop `max` size n) n1).
    rewrite (run_bind _ _ _ _ _ (run_store (mkFat d3 (fw_nodes w1)) h n1 (set_size (stop `max` size n)) Hn1)). fold n2.
    rewrite (run_bind _ _ _ _ _ (run_node (mkFat d3 (<[h:=n2]> (fw_nodes w1))) h n2
      ltac:(apply list_lookup_insert_eq; simpl; by rewrite length_insert))).
    destruct (update_size_ok pc c d3 s3 l3 n2 (stop `max` size n) (off + Z.of_nat (length data)) Hd3 (wr_chain Hw3))
      as (d4 & s4 & R4 & Hd4 & Hw4 & Hfat4 & Hk4 & Hde4); try done.
    { unfold fits. lia. }
    { destruct (decide (pc = 0)); [by left|right]. destruct (Hp3 ltac:(done)) as (? & ? & ? & ? & ?). by split_and!. }
    rewrite (run_try _ _ _ _ _ (run_dev _ (mkFat d3 (<[h:=n2]> (fw_nodes w1))) _ _ R4)).
    pose proof (wrote_trans _ _ _ _ _ _ _ _ _ _ _ Hw13 Hw4 Ho (or_introl Hfit)) as Hwf. rewrite app_nil_r in Hwf.
    exists (mkFat d4 (<[h:=n2]> (fw_nodes w1))), n2, s4, l3. split_and!; try done.
    + constructor; simpl; try done.
      * apply list_lookup_insert_eq. by rewrite length_insert.
      * right. split; [done|apply (wr_chain Hwf)].
      * lia.
      * split; [done|]. destruct (decide (pc = 0)); [by left|right]. destruct (Hp3 ltac:(done)) as (Hv & ? & ? & ? & ?).
        split_and!; try done. by rewrite Hfat4.
    + simpl. by rewrite list_insert_insert_eq.
    + destruct (wr_ext Hw4) as (ext & E & _ & Hfr). apply Hfr. apply (f_equal length) in E. rewrite length_app in E.
      by replace (k + length ext)%nat with k by lia.
    + intros Hpc0. destruct (Hde4 Hpc0) as [He1 He2]. split; [by intros _|]. intros Hl0. rewrite He2. change (dir_entry pc s3 n2) with (dir_entry pc s3 n).
      rewrite Hde by done. by apply Hdir1.
    + by exists c, (stop `max` size n).
    + intros Hpc0. split; [intros a m Ha Hm; rewrite <- (Hk03 Hpc0 a m Ha Hm); by apply (Hk4 Hpc0)|]. intros Hsy.
      destruct (Hde4 Hpc0) as [He1 He2]. destruct (Hsy3 Hpc0 Hsy) as [Hf3 _]. split; [|done]. rewrite He2. exact Hf3.
  - assert (stop `max` size n = size n) as -> by lia. exists (mkFat d3 (fw_nodes w1)), n1, s3, l3. split_and!; try done.
    + constructor; simpl; try done.
      * right. split; [done|apply (wr_chain Hw13)].
      * pose proof (wrote_len _ _ _ _ _ _ _ _ Hw13). split; [lia|nia].
      * split; [done|]. destruct (decide (pc = 0)); [by left|right]. destruct (Hp3 ltac:(done)) as (Hv & ? & ? & ? & ?). by split_and!.
    + intros Hpc0. split; [intros Hx; simpl in Hx; lia|]. intros Hl0. change (dir_entry pc s3 n1) with (dir_entry pc s3 n). rewrite Hde by done. by apply Hdir1.
    + exists c, (size n). by destruct n.
    + intros Hpc0. split; [by apply Hk03|]. intros Hsy. exact (Hsy3 Hpc0 Hsy).
Qed.

(** *** What the other files see *)

Lemma wrote_frame pc first s l s' l' start bs c l2 :
  wrote pc first s l s' l' start bs -> chain s c l2 -> (forall x, x ∈ l2 -> x ∉ l /\ x <> pc) ->
  chain s' c l2 /\ content s' l2 = content s l2.
Proof.
  intros Hw Hc Hd. pose proof (chain_valid _ _ _ Hc) as Hall. rewrite Forall_forall in Hall.
  assert (forall x, x ∈ l2 -> fat s' x = fat s x /\ cdata s' x = cdata s x) as Hx.
  { intros x Hx. destruct (Hd x Hx) as [Hxl Hxp].
    pose proof (wrote_not_in _ _ _ _ _ _ _ _ x Hw (chain_used _ _ _ _ Hc Hx) Hxl) as Hni.
    destruct (wr_other Hw x (Hall x Hx) Hni) as [H1 H2]. auto. }
  split; [eapply chain_frame; [|exact Hc]; intros x Hin; by apply Hx|].
  unfold content. f_equal. apply map_ext_in. intros x Hin. by apply Hx, list_elem_of_In.
Qed.

(** The bytes of the file after a write. *)
Lemma wrote_file_bytes pc first w h n s l w' n' s' l' off data p :
  file_state pc w h n s l -> file_state pc w' h n' s' l' -> wrote pc first s l s' l' off data ->
  size n' = (off + Z.of_nat (length data)) `max` size n -> 0 <= off -> 0 <= p < size n' ->
  (off <= p < off + Z.of_nat (length data) -> file_bytes n' s' l' !! Z.to_nat p = data !! Z.to_nat (p - off)) /\
  (p < size n -> p < off \/ off + Z.of_nat (length data) <= p ->
   file_bytes n' s' l' !! Z.to_nat p = file_bytes n s l !! Z.to_nat p).
Proof.
  intros Hst Hst' Hw Hsz Ho Hp. destruct (fl_size _ _ _ _ _ _ Hst) as [_ Hsl]. destruct (fl_size _ _ _ _ _ _ Hst') as [_ Hsl'].
  unfold file_bytes. rewrite lookup_take_lt by lia.
  rewrite (content_fbyte _ _ _ _ (fl_dev _ _ _ _ _ _ Hst')) by lia. rewrite (wr_bytes Hw) by lia. split.
  - intros Hr. rewrite decide_True by done. symmetry. apply list_lookup_lookup_total_lt. lia.
  - intros Hlt Hr. rewrite decide_False by lia. rewrite decide_True by lia. rewrite lookup_take_lt by lia.
    by rewrite (content_fbyte _ _ _ _ (fl_dev _ _ _ _ _ _ Hst)) by lia.
Qed.

(** What was written is what is read. *)
Lemma written_range pc first w h n s l w' n' s' l' off data :
  file_state pc w h n s l -> file_state pc w' h n' s' l' -> wrote pc first s l s' l' off data ->
  size n' = (off + Z.of_nat (length data)) `max` size n -> 0 <= off ->
  take (length data) (drop (Z.to_nat off) (file_bytes n' s' l')) = data.
Proof.
  intros Hst Hst' Hw Hsz Ho. apply list_eq. intros i. destruct (decide (i < length data)%nat) as [Hi|Hi].
  - rewrite lookup_take_lt, lookup_drop by done.
    destruct (wrote_file_bytes pc first w h n s l w' n' s' l' off data (off + Z.of_nat i) Hst Hst' Hw Hsz Ho ltac:(lia)) as [H1 _].
    replace (Z.to_nat off + i)%nat with (Z.to_nat (off + Z.of_nat i)) by lia. rewrite H1 by lia. f_equal. lia.
  - rewrite lookup_take_ge, (lookup_ge_None_2 data) by lia. done.
Qed.
End spec.

(** ** Properties *)

(** C5: writing to a file of the disk.  With enough free clusters for the
    file's new length, [write] takes the whole buffer; the file then has the
    written bytes in their place and its old bytes elsewhere, its chain grows
    by free clusters only, its directory entry on the disk records the new
    size and (for a file that was empty) the first cluster, and every other
    chain keeps its clusters and its bytes.  Reading the same range gives the
    data back. *)
Theorem fat_write_spec {D : Type} {BD : BlockDevice D} {BL : BlockLaws D} (fs : Fat32Fs) (cap : Z)
    (fuel k : nat) (pc : Z) (w : FatWorld D) (h : nat) (n : Fat32Node) (s : sectors) (l : list Z)
    (off : Z) (data : list Z)
    (Hfs : fs_ok fs cap) (Hst : file_state fs cap pc w h n s l) (Ho : 0 <= off)
    (Hlen : off + Z.of_nat (length data) < 2 ^ 32) (Hne : data <> []) (Hb : Forall is_byte data)
    (Hfree : has_clusters fs (k + missing (clusters_for fs (off + Z.of_nat (length data))) l) s) :
  exists w' n' s' l',
    (fat_node fuel).(Vfs.write) h off data w = Ret (Ok (Z.of_nat (length data)), w') /\
    file_state fs cap pc w' h n' s' l' /\ size n' = (off + Z.of_nat (length data)) `max` size n /\
    (forall p, 0 <= p < size n' ->
       (off <= p < off + Z.of_nat (length data) ->
          file_bytes fs n' s' l' !! Z.to_nat p = data !! Z.to_nat (p - off)) /\
       (p < size n -> p < off \/ off + Z.of_nat (length data) <= p ->
          file_bytes fs n' s' l' !! Z.to_nat p = file_bytes fs n s l !! Z.to_nat p)) /\
    (exists w2, (fat_node fuel).(Vfs.read) h off (Z.of_nat (length data)) w' = Ret (Ok data, w2)) /\
    (forall c l2, chain fs s c l2 -> (forall x, x ∈ l2 -> x ∉ l /\ x <> pc) ->
       chain fs s' c l2 /\ content fs s' l2 = content fs s l2) /\
    (pc <> 0 -> (size n < size n' -> Fat32.entry_size (dir_entry fs pc s' n') = size n') /\
                (l = [] -> first_cluster_of (dir_entry fs pc s' n') = first_cluster n')) /\
    has_clusters fs k s'.
Proof.
  destruct (fat_write_ok fs cap Hfs pc k w h n s l off data) as (w' & n' & s' & l' & R & Hst' & Hsz & _ & Hw & Hk & Hdir & _); try done.
  assert (forall p, 0 <= p < size n' -> _ /\ _) as Hby
    by exact (fun p => wrote_file_bytes fs cap Hfs pc _ w h n s l w' n' s' l' off data p Hst Hst' Hw Hsz Ho).
  exists w', n', s', l'. split_and!; try done.
  - destruct (fat_read_ok fs cap Hfs pc w' h n' s' l' off (Z.of_nat (length data)) Hst' Ho ltac:(lia)) as (w2 & R2 & _).
    exists w2. rewrite Nat2Z.id in R2. change (fat_read h off (Z.of_nat (length data)) w' = Ret (Ok data, w2)).
    rewrite R2. do 3 f_equal. by apply (written_range fs cap Hfs pc (first_cluster n') w h n s l w' n' s' l').
  - intros c l2 Hc Hd. by eapply wrote_frame.
Qed.

(** ** Witnesses *)

(** A disk of 128 one-sector clusters; the root directory is cluster 2. *)
Definition demo_fs : Fat32Fs := mkFs (mkBpb 512 1 1 1 1 2) 1 2.

Definition demo_fat : list Z := list_inserts 0 (concat (replicate 3 (le_bytes 4 0x0FFFFFFF))) zero_sector.

Definition demo_disk : RamDisk := mkDisk 128 {[ 1 := demo_fat ]}.

(** An empty file whose entry is the first of the root directory. *)
Definition demo_file : Fat32Node := node_file demo_fs 0 0 2 0.

Lemma demo_fs_ok : fs_ok demo_fs 128.
Proof. constructor; by vm_compute. Qed.

Lemma demo_disk_holds : holds 128 demo_disk (rd_sec demo_disk).
Proof.
  constructor; [|done|done]. intros x. unfold rd_sec. cbn [rd_data demo_disk].
  destruct (decide (x = 1)) as [->|Hne].
  - rewrite lookup_singleton_eq. split; [by vm_compute|]. apply (bool_decide_unpack _). vm_compute. exact I.
  - rewrite lookup_singleton_ne by done. split; [done|]. apply Forall_replicate. by vm_compute.
Qed.

Lemma demo_file_state : file_state demo_fs 128 2 (mkFat demo_disk [demo_file]) 0 demo_file (rd_sec demo_disk) [].
Proof.
  constructor; try done.
  - apply demo_disk_holds.
  - by left.
  - split; [done|right]. split_and!; try (by vm_compute). intros H. by apply elem_of_nil in H.
Qed.

Lemma fat_write_spec_witness :
  exists w', (fat_node 5).(Vfs.write) 0%nat 0 [10; 20; 30] (mkFat demo_disk [demo_file]) = Ret (Ok 3, w') /\
    exists w2, (fat_node 5).(Vfs.read) 0%nat 0 3 w' = Ret (Ok [10; 20; 30], w2).
Proof.
  destruct (fat_write_spec demo_fs 128 5 0 2 (mkFat demo_disk [demo_file]) 0 demo_file (rd_sec demo_disk) [] 0 [10; 20; 30])
    as (w' & n' & s' & l' & R & _ & _ & _ & R2 & _).
  - exact demo_fs_ok.
  - exact demo_file_state.
  - lia.
  - simpl; lia.
  - discriminate.
  - apply (bool_decide_unpack _). vm_compute. exact I.
  - exists [3]. split_and!; [apply NoDup_singleton|reflexivity|].
    apply Forall_singleton. split; [split; by vm_compute|]. vm_compute. reflexivity.
  - exists w'. split; [exact R|exact R2].
Defined.
