(* ===== verification/FatDir.v ===== *)
(** * Directories of the FAT32 file system ([fat32.rs])

    [readdir], [finddir] and [create] against the list of 32-byte records of
    the directory's clusters: what is listed, what a name finds, what creating
    a file does to the directory and to every other file, and that a file
    written is found again. *)

From Stdlib Require Import String.
From S2P Require Import Prelude Bytes Str Block Vfs Fat32 FatSpec.

(** ** Records *)

(** A record with the cluster and offset it stands at. *)
Definition Rec : Type := (Z * Z * list Z)%type.

Definition ended (e : list Z) : bool := e !!! 0%nat =? 0x00.
Definition deleted (e : list Z) : bool := e !!! 0%nat =? 0xE5.
Definition free (e : list Z) : bool := ended e || deleted e.

(** Deleted records, parts of long names and volume labels. *)
Definition hidden (e : list Z) : bool :=
  deleted e || (e !!! 0x0B%nat =? 0x0F) || negb (Z.land (e !!! 0x0B%nat) 0x08 =? 0).

(** The records a directory shows: up to the end mark. *)
Fixpoint live (rs : list Rec) : list Rec :=
  match rs with
  | [] => []
  | r :: rs => if ended r.2 then [] else if hidden r.2 then live rs else r :: live rs
  end.

(** [f] on the records one after the other, until it answers. *)
Fixpoint walk {T A} (f : list Z -> Z -> Z -> A -> option T * A) (rs : list Rec) (acc : A) : option T * A :=
  match rs with
  | [] => (None, acc)
  | (c, o, e) :: rs => match f e c o acc with (Some v, acc) => (Some v, acc) | (None, acc) => walk f rs acc end
  end.

Lemma live_app rs1 rs2 : Forall (fun r => ended r.2 = false) rs1 -> live (rs1 ++ rs2) = live rs1 ++ live rs2.
Proof.
  induction 1 as [|r rs1 Hr Hrs IH]; [done|]. cbn [app live]. rewrite Hr. destruct (hidden r.2); [done|]. by rewrite IH.
Qed.

Lemma live_cut rs1 rs2 : existsb (fun r => ended r.2) rs1 = true -> live (rs1 ++ rs2) = live rs1.
Proof.
  induction rs1 as [|r rs1 IH]; [done|]. cbn [existsb app live]. destruct (ended r.2); [done|]. cbn [orb]. intros He. by rewrite IH.
Qed.

Lemma not_ended rs : existsb (fun r => ended r.2) rs = false -> Forall (fun r : Rec => ended r.2 = false) rs.
Proof. induction rs as [|r rs IH]; [by constructor|]. cbn [existsb]. intros [H1 H2]%orb_false_iff. constructor; [done|by apply IH]. Qed.

Lemma free_ended e : free e = false -> ended e = false.
Proof. unfold free. by intros [? _]%orb_false_iff. Qed.

(** At the first free record the listing ends or goes on. *)
Lemma live_free rs1 r rs2 :
  Forall (fun r : Rec => free r.2 = false) rs1 -> free r.2 = true ->
  live (rs1 ++ r :: rs2) = live rs1 ++ (if deleted r.2 then live rs2 else []).
Proof.
  intros H1 Hr. rewrite live_app by (eapply Forall_impl; [exact H1|]; intros x; apply free_ended). f_equal. cbn [live].
  unfold free in Hr. unfold hidden. destruct (ended r.2) eqn:Ee; cbn [orb] in Hr.
  - unfold ended, deleted in *. apply Z.eqb_eq in Ee. by rewrite Ee.
  - by rewrite Hr.
Qed.

Lemma live_shown rs1 r rs2 :
  Forall (fun r : Rec => free r.2 = false) rs1 -> ended r.2 = false -> hidden r.2 = false ->
  live (rs1 ++ r :: rs2) = live rs1 ++ r :: live rs2.
Proof.
  intros H1 He Hh. rewrite live_app by (eapply Forall_impl; [exact H1|]; intros x; apply free_ended). cbn [live]. by rewrite He, Hh.
Qed.

Lemma walk_app {T A} (f : list Z -> Z -> Z -> A -> option T * A) rs1 rs2 acc :
  walk f (rs1 ++ rs2) acc = match walk f rs1 acc with (Some v, acc) => (Some v, acc) | (None, acc) => walk f rs2 acc end.
Proof.
  revert acc. induction rs1 as [|[[c o] e] rs1 IH]; intros acc; [done|]. cbn [app walk]. destruct (f e c o acc) as [[v|] a]; [done|apply IH].
Qed.

(** ** Names *)

(** ASCII, and neither the name nor the extension ends in a blank; a dot has an
    extension after it. *)
Definition plain_name (name : str) : Prop :=
  Forall (fun b => 0 < b < 128) name /\
  match rsplit 46 name with
  | Some (base, ext) => ext <> [] /\ last base <> Some 32 /\ last ext <> Some 32
  | None => last name <> Some 32
  end.

Lemma rsplit_some c s l t : rsplit c s = Some (l, t) -> s = l ++ c :: t.
Proof.
  revert l t. induction s as [|b s IH]; intros l t; [done|]. cbn [rsplit]. destruct (rsplit c s) as [[l' t']|].
  - intros [= <- <-]. cbn. f_equal. by apply IH.
  - destruct (Z.eqb_spec b c); [|done]. intros [= <- <-]. by subst.
Qed.

Lemma rstrip_blanks x n : last x <> Some 32 -> rstrip (x ++ replicate n 32) = x.
Proof.
  intros Hx. unfold rstrip, trim_end_matches. rewrite reverse_app, reverse_replicate. induction n as [|n IH].
  - cbn [replicate app]. rewrite trim_start_not; [apply reverse_involutive|]. intros r E. apply Hx.
    rewrite <- (reverse_involutive x), E, reverse_cons. apply last_snoc.
  - cbn [replicate app trim_start_matches]. by rewrite Z.eqb_refl.
Qed.

Lemma lower_upper b : lower (upper b) = lower b.
Proof.
  unfold lower, upper. destruct (Z.leb_spec 97 b); destruct (Z.leb_spec b 122); cbn [andb]; [|done..].
  rewrite (proj2 (Z.leb_le 65 (b - 32))), (proj2 (Z.leb_le (b - 32) 90)), (proj2 (Z.leb_gt b 90)) by lia. rewrite andb_false_r. cbn. lia.
Qed.

Lemma lower_lower b : lower (lower b) = lower b.
Proof.
  unfold lower. destruct (Z.leb_spec 65 b); destruct (Z.leb_spec b 90); cbn [andb].
  - rewrite (proj2 (Z.leb_gt (b + 32) 90)) by lia. by rewrite andb_false_r.
  - rewrite (proj2 (Z.leb_gt b 90)) by lia. by rewrite andb_false_r.
  - by rewrite (proj2 (Z.leb_gt 65 b)) by lia.
  - by rewrite (proj2 (Z.leb_gt 65 b)) by lia.
Qed.

Lemma upper_range b : 0 < b < 128 -> 0 < upper b < 128 /\ lower (upper b) < 128 /\ (upper b = 32 -> b = 32).
Proof.
  intros Hb. rewrite lower_upper. unfold lower, upper.
  destruct (Z.leb_spec 97 b); destruct (Z.leb_spec b 122); destruct (Z.leb_spec 65 b); destruct (Z.leb_spec b 90); cbn [andb]; lia.
Qed.

Lemma decode_chars l : Forall (fun b => 0 < b < 128) l -> concat (map (fun b => char_of (lower b)) (map upper l)) = map lower l.
Proof.
  induction 1 as [|b l Hb Hl IH]; [done|]. cbn [map concat]. rewrite IH. destruct (upper_range b Hb) as (_ & H & _).
  unfold char_of. rewrite (proj2 (Z.ltb_lt _ _)) by done. cbn. by rewrite lower_upper.
Qed.

Lemma last_upper l : Forall (fun b => 0 < b < 128) l -> last l <> Some 32 -> last (map upper l) <> Some 32.
Proof.
  intros Hl Hn. change (map upper l) with (upper <$> l). rewrite fmap_last. destruct (last l) as [b|] eqn:E; [|done]. cbn. intros [= Hu].
  apply Hn. f_equal. rewrite Forall_forall in Hl. apply (upper_range b); [|done]. apply Hl. by apply last_Some_elem_of.
Qed.

(** The eleven bytes of a name. *)
Definition field_83 (base ext : list Z) : list Z :=
  (map upper base ++ replicate (8 - length base) 32) ++ map upper ext ++ replicate (3 - length ext) 32.

Lemma to_8_3_ok name name83 : to_8_3 name = Some name83 ->
  let '(base, ext) := match rsplit 46 name with Some (l, r) => (l, r) | None => (name, []) end in
  name83 = field_83 base ext /\ (0 < length base <= 8)%nat /\ (length ext <= 3)%nat.
Proof.
  unfold to_8_3. destruct (match rsplit 46 name with Some (l, r) => (l, r) | None => (name, []) end) as [base ext].
  destruct (Nat.eqb_spec (length base) 0); [done|]. destruct (Nat.ltb_spec 8 (length base)); [done|].
  destruct (Nat.ltb_spec 3 (length ext)); [done|]. cbn [orb]. intros [= <-]. split; [|lia]. clear name.
  unfold field_83.
  destruct base as [|b0 [|b1 [|b2 [|b3 [|b4 [|b5 [|b6 [|b7 [|b8 base]]]]]]]]]; cbn [length] in *; try lia;
    (destruct ext as [|e0 [|e1 [|e2 [|e3 ext]]]]; cbn [length] in *; [reflexivity..|lia]).
Qed.

(** The 32 bytes [create] writes: the name, the archive attribute, zeroes. *)
Definition new_entry83 (name83 : list Z) : list Z := name83 ++ [0x20] ++ replicate 20 0.

Lemma new_entry_ok name name83 :
  plain_name name -> to_8_3 name = Some name83 ->
  length name83 = 11%nat /\ Forall is_byte name83 /\ name_matches (new_entry83 name83) name = true /\
  ended (new_entry83 name83) = false /\ free (new_entry83 name83) = false /\ hidden (new_entry83 name83) = false.
Proof.
  intros [Hascii Hends] H83. pose proof (to_8_3_ok name name83 H83) as Hs.
  set (p := match rsplit 46 name with Some (l, r) => (l, r) | None => (name, []) end) in *.
  assert (Forall (fun b => 0 < b < 128) p.1 /\ Forall (fun b => 0 < b < 128) p.2 /\ last p.1 <> Some 32 /\ last p.2 <> Some 32 /\
    map lower name = map lower p.1 ++ (match p.2 with [] => [] | _ => 46 :: map lower p.2 end)) as (Hb & He & Lb & Le & En).
  { unfold p. destruct (rsplit 46 name) as [[b e]|] eqn:Er.
    - destruct Hends as (Hne & H1 & H2). apply rsplit_some in Er. subst name. apply Forall_app in Hascii as [Hb He].
      apply Forall_cons in He as [_ He]. split; [done|]. split; [done|]. split; [done|]. split; [done|].
      cbn [fst snd]. rewrite map_app. destruct e; done.
    - split; [done|]. split; [by constructor|]. split; [done|]. split; [done|]. cbn. by rewrite app_nil_r. }
  destruct p as [base ext]. cbn [fst snd] in *. destruct Hs as (-> & Hlb & Hle).
  pose proof (map_length upper base) as Hmb. pose proof (map_length upper ext) as Hme.
  set (nf := map upper base ++ replicate (8 - length base) 32). set (ef := map upper ext ++ replicate (3 - length ext) 32).
  assert (length nf = 8%nat) as Hnf by (unfold nf; rewrite length_app, length_replicate; lia).
  assert (length ef = 3%nat) as Hef by (unfold ef; rewrite length_app, length_replicate; lia).
  assert (Forall (fun b => 0 < b < 128) (nf ++ ef)) as Hall.
  { assert (forall l, Forall (fun b => 0 < b < 128) l -> Forall (fun b => 0 < b < 128) (map upper l)) as Hu.
    { intros l Hl. apply Forall_map. eapply Forall_impl; [exact Hl|]. intros b Hb0. by apply upper_range. }
    unfold nf, ef. repeat apply Forall_app_2; try (by apply Hu); by apply Forall_replicate. }
  assert (length (nf ++ ef) = 11%nat) as Hlen by (rewrite length_app; lia).
  fold (field_83 base ext) in *. change (field_83 base ext) with (nf ++ ef).
  split; [done|]. split. { eapply Forall_impl; [exact Hall|]. intros b Hb0. cbv beta in Hb0. unfold fits. lia. }
  assert (0 < new_entry83 (nf ++ ef) !!! 0%nat < 128) as H0.
  { unfold new_entry83. rewrite lookup_total_app_l by lia. rewrite Forall_forall in Hall. apply Hall.
    apply list_elem_of_lookup_total_2. lia. }
  assert (new_entry83 (nf ++ ef) !!! 0x0B%nat = 0x20) as H1.
  { unfold new_entry83. rewrite lookup_total_app_r by lia. by rewrite Hlen. }
  split; [|unfold hidden, free, ended, deleted; rewrite H1, (proj2 (Z.eqb_neq _ 0)), (proj2 (Z.eqb_neq _ 0xE5)) by lia; done].
  unfold name_matches, eq_ignore_ascii_case. apply bool_decide_eq_true. rewrite En. unfold decode_8_3, new_entry83.
  assert (sub ((nf ++ ef) ++ [0x20] ++ replicate 20 0) 0 8 = nf) as ->.
  { unfold sub. change (Z.to_nat 8) with 8%nat. rewrite drop_0, <- app_assoc, take_app_le, take_ge by lia. done. }
  assert (sub ((nf ++ ef) ++ [0x20] ++ replicate 20 0) 8 3 = ef) as ->.
  { unfold sub. change (Z.to_nat 8) with 8%nat. change (Z.to_nat 3) with 3%nat. rewrite <- app_assoc, drop_app_length' by done.
    rewrite take_app_le, take_ge by lia. done. }
  unfold nf, ef. rewrite !rstrip_blanks by (by apply last_upper). rewrite !decode_chars by done.
  assert (forall l, map lower (map lower l) = map lower l) as Hid by (intros l; rewrite map_map; apply map_ext; exact lower_lower).
  destruct ext as [|e ext]; cbn [map]; [by rewrite Hid, app_nil_r|]. rewrite map_app, Hid. f_equal. cbn. by rewrite lower_lower, Hid.
Qed.

(** ** The records on the disk *)

Section dir.
Context {D : Type} {BD : BlockDevice D} {BL : BlockLaws D}.
Context (fs : Fat32Fs) (cap : Z) (Hfs : fs_ok fs cap).
Implicit Types (d : D) (s : sectors).
Notation cb := (cluster_size_bytes fs).
Notation holds := (holds cap).
Notation valid := (valid fs).
Notation cdata := (cdata fs).
Notation chain := (chain fs).

(** The records of cluster [c] with the bytes [buf], from the [i]th on. *)
Definition recs (c : Z) (buf : list Z) (i n : Z) : list Rec := (fun j => (c, 32 * j, sub buf (32 * j) 32)) <$> seqZ i n.
Definition per : Z := cb / 32.
Definition records s (l : list Z) : list Rec := l ≫= fun c => recs c (cdata s c) 0 per.

Lemma per_spec : cb = 32 * per /\ 16 <= per.
Proof. unfold per. rewrite cluster_bytes. destruct Hfs. dm_lia. Qed.

Lemma recs_cons c buf i n : 0 < n -> recs c buf i n = (c, 32 * i, sub buf (32 * i) 32) :: recs c buf (i + 1) (n - 1).
Proof. intros Hn. unfold recs. rewrite seqZ_cons by done. cbn. do 2 f_equal; f_equal; lia. Qed.

Lemma walk_entries_ok {T A} (f : list Z -> Z -> Z -> A -> option T * A) (n : nat) : forall buf c i acc,
  walk_entries f n buf c (32 * i) acc =
    let rs := recs c buf i (Z.of_nat n) in
    match walk f (live rs) acc with
    | (Some v, acc) => (Some (Some v), acc)
    | (None, acc) => (if existsb (fun r => ended r.2) rs then Some None else None, acc)
    end.
Proof.
  induction n as [|n IH]; intros buf c i acc; [done|]. cbn [walk_entries]. cbv zeta.
  rewrite recs_cons by lia. replace (Z.of_nat (S n) - 1) with (Z.of_nat n) by lia. cbn [live existsb snd].
  replace (32 * i + 32) with (32 * (i + 1)) by lia. unfold ended at 1 2, hidden, deleted.
  destruct (_ =? 0) eqn:E0; [done|]. cbn [orb]. destruct (_ =? 229); cbn [orb]; [apply IH|].
  destruct (_ =? 15); cbn [orb]; [apply IH|]. destruct (negb _); [apply IH|]. cbn [walk].
  destruct (f _ c (32 * i) acc) as [[v|] a]; [done|]. apply IH.
Qed.

Lemma per_nat : Z.of_nat (Z.to_nat (cb / 32)) = per.
Proof. pose proof per_spec. fold per. lia. Qed.

Lemma walk_clusters_ok {T A} (f : list Z -> Z -> Z -> A -> option T * A) s c l :
  chain s c l -> forall k d acc, holds d s -> (length l < k)%nat ->
  exists d', walk_clusters f fs k c acc d = Ret (Ok (walk f (live (records s l)) acc), d') /\ holds d' s.
Proof.
  induction 1 as [c He|c l Hv Hc IH]; intros [|k] d acc Hd Hk; try (simpl in Hk; lia); cbn [walk_clusters].
  - assert (in_chain c = false) as ->.
    { unfold in_chain. rewrite (proj2 (Z.ltb_ge c EOC)) by lia. apply andb_false_r. }
    by exists d.
  - rewrite (valid_in_chain fs cap Hfs c Hv).
    destruct (read_cluster_ok fs cap Hfs d s c _ Hd Hv (length_zero fs cap Hfs)) as (d1 & R1 & Hd1). rewrite (run_try _ _ _ _ _ R1).
    rewrite (walk_entries_ok f _ _ c 0 acc). cbv zeta. rewrite per_nat. unfold records. cbn [mbind list_bind].
    destruct (existsb _ _) eqn:Ee.
    + rewrite live_cut by exact Ee. destruct (walk f _ acc) as [[v|] a]; by exists d1.
    + rewrite live_app, walk_app by (by apply not_ended). destruct (walk f (live (recs c _ 0 per)) acc) as [[v|] a]; [by exists d1|].
      destruct (next_cluster_ok fs cap Hfs d1 s c Hd1) as (d2 & R2 & Hd2); [unfold FatSpec.valid in Hv; lia|].
      rewrite (run_try _ _ _ _ _ R2). apply IH; [done|simpl in Hk; lia].
Qed.

(** ** Directories *)

Implicit Types w : FatWorld D.

(** [h] names a directory whose clusters are [l]. *)
Record dir_state w (h : nat) (n : Fat32Node) s (l : list Z) : Prop := {
  ds_dev : holds (fw_dev w) s;
  ds_node : fw_nodes w !! h = Some n;
  ds_fs : node_fs n = fs;
  ds_dir : is_dir n = true;
  ds_chain : chain s (first_cluster n) l
}.

(** What a directory lists. *)
Definition listing s (l : list Z) : list Rec := live (records s l).

Lemma walk_dir_ok {T A} fuel (f : list Z -> Z -> Z -> A -> option T * A) w h n s l acc :
  dir_state w h n s l -> (length l < fuel)%nat ->
  exists d', dev (walk_dir fuel f n acc) w = Ret (Ok (walk f (listing s l) acc), mkFat d' (fw_nodes w)) /\ holds d' s.
Proof.
  intros [Hd Hn Hf Hdir Hc] Hk. destruct (walk_clusters_ok f s _ l Hc fuel (fw_dev w) acc Hd Hk) as (d' & R & Hd').
  exists d'. split; [|done]. apply run_dev. unfold walk_dir. by rewrite Hf.
Qed.

(** The walk that stops at the first record with a property. *)
Lemma walk_find {T} (p : list Z -> bool) (g : list Z -> Z -> Z -> T) rs :
  walk (fun e c o (_ : unit) => (if p e then Some (g e c o) else None, tt)) rs tt =
    ((fun r : Rec => g r.2 r.1.1 r.1.2) <$> List.find (fun r : Rec => p r.2) rs, tt).
Proof. induction rs as [|[[c o] e] rs IH]; [done|]. cbn [walk List.find snd]. by destruct (p e). Qed.

Lemma walk_collect {B} (g : list Z -> B) rs : forall acc,
  walk (fun e _ _ names => (None : option unit, names ++ [g e])) rs acc = (None, acc ++ map (fun r : Rec => g r.2) rs).
Proof.
  induction rs as [|[[c o] e] rs IH]; intros acc; [by rewrite app_nil_r|]. cbn [walk map]. by rewrite IH, <- app_assoc.
Qed.

(** The node a record describes. *)
Definition node_of (r : Rec) : Fat32Node :=
  let '(c, o, e) := r in
  if Z.land (e !!! 0x0B%nat) 0x10 =? 0 then node_file fs (first_cluster_of e) (Fat32.entry_size e) c o
  else node_dir fs (first_cluster_of e) c o.

Definition named (name : str) (r : Rec) : bool := name_matches r.2 name.

Lemma readdir_ok fuel w h n s l :
  dir_state w h n s l -> (length l < fuel)%nat ->
  exists d', fat_readdir fuel h w = Ret (Ok (map (fun r : Rec => decode_8_3 r.2) (listing s l)), mkFat d' (fw_nodes w)) /\ holds d' s.
Proof.
  intros Hs Hk. destruct (walk_dir_ok fuel (fun e _ _ names => (None : option unit, names ++ [decode_8_3 e])) w h n s l [] Hs Hk) as (d' & R & Hd').
  exists d'. split; [|done]. unfold fat_readdir. rewrite (run_bind _ _ _ _ _ (run_node _ _ _ (ds_node _ _ _ _ _ Hs))), (ds_dir _ _ _ _ _ Hs).
  cbn [negb]. rewrite (run_try _ _ _ _ _ R). unfold_m. by rewrite walk_collect.
Qed.

Lemma finddir_ok fuel w h n s l name :
  dir_state w h n s l -> (length l < fuel)%nat ->
  exists d', holds d' s /\ fat_finddir fuel h name w =
    match List.find (named name) (listing s l) with
    | Some r => Ret (Ok (length (fw_nodes w)), mkFat d' (fw_nodes w ++ [node_of r]))
    | None => Ret (Err tt, mkFat d' (fw_nodes w))
    end.
Proof.
  intros Hs Hk. destruct (walk_dir_ok fuel (found_entry name) w h n s l tt Hs Hk) as (d' & R & Hd').
  exists d'. split; [done|]. unfold fat_finddir. rewrite (run_bind _ _ _ _ _ (run_node _ _ _ (ds_node _ _ _ _ _ Hs))), (ds_dir _ _ _ _ _ Hs).
  cbn [negb]. rewrite (run_try _ _ _ _ _ R). unfold found_entry.
  rewrite (walk_find (fun e => name_matches e name)
    (fun e c o => (first_cluster_of e, Fat32.entry_size e, negb (Z.land (e !!! 0x0B%nat) 0x10 =? 0), c, o))).
  change (fun r : Rec => name_matches r.2 name) with (named name).
  destruct (List.find (named name) (listing s l)) as [[[c o] e]|]; [|done]. cbn [fmap option_fmap option_map fst snd].
  unfold new_node. rewrite (ds_fs _ _ _ _ _ Hs). unfold node_of. by destruct (_ =? 0).
Qed.

(** ** The free slot *)

Lemma recs_app c buf i n m : 0 <= n -> 0 <= m -> recs c buf i (n + m) = recs c buf i n ++ recs c buf (i + n) m.
Proof. intros Hn Hm. unfold recs. by rewrite seqZ_app, fmap_app. Qed.

Lemma recs_ext c buf buf' i n :
  (forall j, i <= j < i + n -> sub buf (32 * j) 32 = sub buf' (32 * j) 32) -> recs c buf i n = recs c buf' i n.
Proof. intros He. unfold recs. apply list_fmap_ext. intros k j Hj. apply lookup_seqZ in Hj. rewrite He by lia. done. Qed.

Lemma sub_head (buf : list Z) o n : 0 < n -> sub buf o n !!! 0%nat = buf !!! Z.to_nat o.
Proof.
  intros Hn. unfold sub. rewrite !list_lookup_total_alt, lookup_take_lt, lookup_drop by lia. by rewrite Nat.add_0_r.
Qed.

(** Where the first free record is, among the records of one cluster. *)
Lemma free_slot_ok (n : nat) : forall buf c i,
  match free_slot n buf (32 * i) with
  | Some o => exists j, o = 32 * j /\ i <= j < i + Z.of_nat n /\ free (sub buf (32 * j) 32) = true /\
      Forall (fun r => free r.2 = false) (recs c buf i (j - i))
  | None => Forall (fun r => free r.2 = false) (recs c buf i (Z.of_nat n))
  end.
Proof.
  induction n as [|n IH]; intros buf c i; [by constructor|]. cbn [free_slot].
  pose proof (sub_head buf (32 * i) 32 ltac:(lia)) as Eh. destruct ((_ =? 0) || (_ =? 229)) eqn:Ef.
  { exists i. split; [done|]. split; [lia|]. split; [by unfold free, ended, deleted; rewrite Eh|]. rewrite Z.sub_diag. constructor. }
  replace (32 * i + 32) with (32 * (i + 1)) by lia. specialize (IH buf c (i + 1)).
  assert (free (sub buf (32 * i) 32) = false) as Hi by (by unfold free, ended, deleted; rewrite Eh).
  destruct (free_slot n buf (32 * (i + 1))) as [o|].
  - destruct IH as (j & -> & Hj & Hfree & Hall). exists j. split; [done|]. split; [lia|]. split; [done|].
    rewrite recs_cons by lia. constructor; [done|]. by replace (j - i - 1) with (j - (i + 1)) by lia.
  - rewrite recs_cons by lia. constructor; [done|]. by replace (Z.of_nat (S n) - 1) with (Z.of_nat n) by lia.
Qed.

(** The directory around slot [j] of cluster [c]. *)
Definition before s (l1 : list Z) (c j : Z) : list Rec := records s l1 ++ recs c (cdata s c) 0 j.
Definition behind s (l2 : list Z) (c j : Z) : list Rec := recs c (cdata s c) (j + 1) (per - (j + 1)) ++ records s l2.

Lemma records_app s l1 l2 : records s (l1 ++ l2) = records s l1 ++ records s l2.
Proof. apply bind_app. Qed.

Lemma records_split s l1 c l2 j :
  0 <= j < per ->
  records s (l1 ++ c :: l2) = before s l1 c j ++ (c, 32 * j, sub (cdata s c) (32 * j) 32) :: behind s l2 c j.
Proof.
  intros Hj. rewrite records_app. unfold before, behind, records. cbn [mbind list_bind].
  replace per with (j + (1 + (per - (j + 1)))) at 1 by lia. rewrite recs_app by lia. rewrite Z.add_0_l.
  rewrite (recs_cons c _ j) by lia. replace (1 + (per - (j + 1)) - 1) with (per - (j + 1)) by lia.
  rewrite <- !app_assoc. done.
Qed.

(** [find_free_slot]: the first free record, or none and one more cluster is
    asked for. *)
Lemma find_slot_ok s c l : chain s c l -> forall k last d, holds d s -> (length l < k)%nat ->
  exists d', holds d' s /\
    ((exists l1 c' l2 j, l = l1 ++ c' :: l2 /\ 0 <= j < per /\ free (sub (cdata s c') (32 * j) 32) = true /\
        Forall (fun r => free r.2 = false) (before s l1 c' j) /\ find_slot fs k c last d = Ret (Ok (c', 32 * j), d')) \/
     (Forall (fun r => free r.2 = false) (records s l) /\
        find_slot fs k c last d = (new_c ←? alloc_cluster fs (Some (default last (list.last l))); mret (Ok (new_c, 0))) d')).
Proof.
  induction 1 as [c He|c l Hv Hc IH]; intros [|k] last d Hd Hk; try (simpl in Hk; lia); cbn [find_slot].
  - assert (in_chain c = false) as ->.
    { unfold in_chain. rewrite (proj2 (Z.ltb_ge c EOC)) by lia. apply andb_false_r. }
    exists d. split; [done|]. right. split; [by constructor|done].
  - rewrite (valid_in_chain fs cap Hfs c Hv).
    destruct (read_cluster_ok fs cap Hfs d s c _ Hd Hv (length_zero fs cap Hfs)) as (d1 & R1 & Hd1). rewrite (run_try _ _ _ _ _ R1).
    pose proof per_spec as [Hcb Hper]. replace ((cb + 31) / 32) with per by (rewrite Hcb; dm_lia).
    pose proof (free_slot_ok (Z.to_nat per) (cdata s c) c 0) as Hslot. rewrite Z.mul_0_r in Hslot.
    destruct (free_slot (Z.to_nat per) (cdata s c) 0) as [o|].
    + destruct Hslot as (j & -> & Hj & Hfree & Hall). exists d1. split; [done|]. left. exists [], c, l, j.
      split; [done|]. split; [lia|]. split; [done|]. split; [|done]. unfold before. cbn. by rewrite Z.sub_0_r in Hall.
    + rewrite Z2Nat.id in Hslot by lia.
      destruct (next_cluster_ok fs cap Hfs d1 s c Hd1) as (d2 & R2 & Hd2); [unfold FatSpec.valid in Hv; lia|].
      rewrite (run_try _ _ _ _ _ R2). destruct (IH k c d2 Hd2 ltac:(simpl in Hk; lia)) as (d3 & Hd3 & Hcase). exists d3. split; [done|].
      destruct Hcase as [(l1 & c' & l2 & j & -> & Hj & Hfree & Hall & R)|[Hall R]].
      * left. exists (c :: l1), c', l2, j. split; [done|]. split; [done|]. split; [done|]. split; [|done].
        unfold before, records in *. cbn [mbind list_bind]. rewrite <- app_assoc. by apply Forall_app.
      * right. split; [unfold records; cbn [mbind list_bind]; by apply Forall_app|]. rewrite R. rewrite last_cons. by destruct (list.last l).
Qed.

(** ** The new record *)

(** The cluster with the record in slot [j] and the slot after it ended. *)
Definition patched (buf : list Z) (j : Z) (name83 : list Z) : list Z :=
  let buf := list_inserts (Z.to_nat (32 * j)) (new_entry83 name83) buf in
  if 32 * j + 64 <=? cb then list_inserts (Z.to_nat (32 * j + 32)) [0] buf else buf.

Lemma patched_run (buf : list Z) j name83 :
  Z.of_nat (length buf) = cb -> length name83 = 11%nat -> 0 <= j < per ->
  (buf ← splice buf (32 * j) (name83 ++ [0x20] ++ replicate 20 0);
   if 32 * j + 64 <=? cb then splice buf (32 * j + 32) [0] else mret buf) = Ret (patched buf j name83) /\
  Z.of_nat (length (patched buf j name83)) = cb.
Proof.
  intros Hb Hn Hj. pose proof per_spec as [Hcb _]. unfold patched. fold (new_entry83 name83).
  assert (length (new_entry83 name83) = 32%nat) as Hl by (unfold new_entry83; rewrite !length_app, length_replicate, Hn; done).
  rewrite splice_ok by (rewrite Hl; lia). cbn [mbind outcome_bind]. destruct (Z.leb_spec (32 * j + 64) cb).
  - rewrite splice_ok by (rewrite length_inserts; cbn; lia). by rewrite !length_inserts.
  - by rewrite length_inserts.
Qed.

Lemma patched_bytes buf j name83 : Forall is_byte buf -> Forall is_byte name83 -> Forall is_byte (patched buf j name83).
Proof.
  intros Hb Hn. assert (Forall is_byte (new_entry83 name83)) as He.
  { unfold new_entry83. apply Forall_app. split; [done|]. apply Forall_app. split; [by apply Forall_singleton|]. by apply Forall_replicate. }
  unfold patched. case_match; repeat apply inserts_byte; try done. by apply Forall_singleton.
Qed.

(** The records of the patched cluster; the slot after the new one, if there is
    one, is the end of the directory. *)
Lemma patched_recs c buf j name83 :
  Z.of_nat (length buf) = cb -> length name83 = 11%nat -> 0 <= j < per ->
  recs c (patched buf j name83) 0 j = recs c buf 0 j /\
  sub (patched buf j name83) (32 * j) 32 = new_entry83 name83 /\
  (32 * j + 64 <= cb -> j + 1 < per /\ ended (sub (patched buf j name83) (32 * (j + 1)) 32) = true).
Proof.
  intros Hb Hn Hj. pose proof per_spec as [Hcb _].
  assert (length (new_entry83 name83) = 32%nat) as Hl by (unfold new_entry83; rewrite !length_app, length_replicate, Hn; done).
  unfold patched. set (b1 := list_inserts (Z.to_nat (32 * j)) (new_entry83 name83) buf).
  assert (length b1 = length buf) as Hl1 by (unfold b1; by rewrite length_inserts).
  assert (forall i, 0 <= i < j -> sub b1 (32 * i) 32 = sub buf (32 * i) 32) as Ho by (intros i Hi; apply sub_inserts_other; lia).
  assert (sub b1 (32 * j) 32 = new_entry83 name83) as Hsame by (apply sub_inserts_same; lia).
  destruct (Z.leb_spec (32 * j + 64) cb).
  - split; [apply recs_ext; intros i Hi; rewrite sub_inserts_other by lia; apply Ho; lia|].
    split; [rewrite sub_inserts_other by lia; done|]. intros _. split; [lia|]. unfold ended.
    rewrite sub_head by lia. replace (32 * (j + 1)) with (32 * j + 32) by lia.
    rewrite list_lookup_total_inserts by (cbn; lia). by rewrite Nat.sub_diag.
  - split; [apply recs_ext; intros i Hi; apply Ho; lia|]. split; [done|lia].
Qed.

(** ** Creating a file *)

Lemma put_chain s c buf c2 l2 : valid c -> chain s c2 l2 -> chain (put_cluster fs c buf s) c2 l2.
Proof.
  intros Hv Hc. pose proof (chain_valid fs s c2 l2 Hc) as Hall. rewrite Forall_forall in Hall.
  eapply chain_frame; [|exact Hc]. intros x Hx. apply (fat_put_cluster fs cap Hfs); [done|]. apply valid_range. by apply Hall.
Qed.

Lemma records_ext s s' l : (forall x, x ∈ l -> cdata s' x = cdata s x) -> records s' l = records s l.
Proof.
  intros He. induction l as [|c l IH]; [done|]. unfold records in *. cbn [mbind list_bind]. rewrite He by (by left). f_equal.
  apply IH. intros x Hx. apply He. by right.
Qed.

(** The directory after slot [j] of cluster [c] was taken. *)
Lemma put_records s l1 c l2 j name83 first d :
  holds d s -> chain s first (l1 ++ c :: l2) -> length name83 = 11%nat -> 0 <= j < per ->
  let s' := put_cluster fs c (patched (cdata s c) j name83) s in
  exists rest, records s' (l1 ++ c :: l2) = before s l1 c j ++ (c, 32 * j, new_entry83 name83) :: rest /\
    live rest = if 32 * j + 64 <=? cb then [] else live (behind s l2 c j).
Proof.
  intros Hd Hc Hn Hj. cbv zeta. pose proof per_spec as [Hcb _]. pose proof (length_cdata fs cap Hfs d s c Hd) as Hl.
  pose proof (chain_valid fs s _ _ Hc) as Hall. rewrite Forall_forall in Hall.
  assert (valid c) as Hv by (apply Hall; set_solver).
  pose proof (chain_NoDup fs cap Hfs s _ _ Hc) as Hnd. apply NoDup_app in Hnd as (_ & Hd1 & Hd2). apply NoDup_cons in Hd2 as [Hd2 _].
  destruct (patched_run (cdata s c) j name83 Hl Hn Hj) as [_ Hlp].
  destruct (patched_recs c (cdata s c) j name83 Hl Hn Hj) as (H1 & H2 & H3).
  set (s' := put_cluster _ _ _ _). assert (cdata s' c = patched (cdata s c) j name83) as Ec.
  { unfold s'. rewrite (cdata_put_cluster fs cap Hfs) by done. by rewrite decide_True. }
  assert (forall x, x <> c -> cdata s' x = cdata s x) as Eo.
  { intros x Hx. unfold s'. rewrite (cdata_put_cluster fs cap Hfs) by done. by rewrite decide_False. }
  rewrite (records_split s' l1 c l2 j Hj), Ec, H2. unfold before at 1. rewrite Ec, H1.
  rewrite (records_ext s s' l1) by (intros x Hx; apply Eo; intros ->; apply (Hd1 c Hx); by left). eexists. split; [done|].
  unfold behind. rewrite Ec. destruct (Z.leb_spec (32 * j + 64) cb) as [Hle|Hgt].
  - destruct (H3 Hle) as [Hj1 He]. rewrite recs_cons by lia. cbn [app live snd]. by rewrite He.
  - replace (per - (j + 1)) with 0 by lia. cbn [recs seqZ fmap list_fmap app]. f_equal.
    apply records_ext. intros x Hx. apply Eo. by intros ->.
Qed.

(** What another file's chain shows is the same, and so are the boot sector and
    its neighbours. *)
Definition untouched s s' (l : list Z) : Prop :=
  reserved_kept fs s s' /\ forall c2 l2, chain s c2 l2 -> (forall x, x ∈ l2 -> x ∉ l) -> chain s' c2 l2 /\ content fs s' l2 = content fs s l2.

(** Taking slot [j] of cluster [c] of the directory. *)
Lemma take_slot d s first l1 c l2 j name83 :
  holds d s -> chain s first (l1 ++ c :: l2) -> length name83 = 11%nat -> Forall is_byte name83 -> 0 <= j < per ->
  exists d' s', patch_cluster fs c (fun buf =>
      buf ← splice buf (32 * j) (name83 ++ [0x20] ++ replicate 20 0);
      if 32 * j + 64 <=? cb then splice buf (32 * j + 32) [0] else mret buf) d = Ret (Ok tt, d') /\
    holds d' s' /\ chain s' first (l1 ++ c :: l2) /\ (forall x, valid x -> fat fs s' x = fat fs s x) /\
    (exists rest, records s' (l1 ++ c :: l2) = before s l1 c j ++ (c, 32 * j, new_entry83 name83) :: rest /\
      live rest = if 32 * j + 64 <=? cb then [] else live (behind s l2 c j)) /\
    untouched s s' (l1 ++ c :: l2).
Proof.
  intros Hd Hc Hn Hb Hj. pose proof (length_cdata fs cap Hfs d s c Hd) as Hl.
  pose proof (chain_valid fs s _ _ Hc) as Hall. rewrite Forall_forall in Hall.
  assert (valid c) as Hv by (apply Hall; set_solver).
  destruct (patched_run (cdata s c) j name83 Hl Hn Hj) as [Hrun Hlp].
  assert (forall x, valid x -> fat fs (put_cluster fs c (patched (cdata s c) j name83) s) x = fat fs s x) as Hfat.
  { intros x Hx. apply (fat_put_cluster fs cap Hfs); [done|by apply valid_range]. }
  destruct (patch_cluster_ok fs cap Hfs d s c (fun buf =>
      buf ← splice buf (32 * j) (name83 ++ [0x20] ++ replicate 20 0);
      if 32 * j + 64 <=? cb then splice buf (32 * j + 32) [0] else mret buf) _ Hd Hv Hrun) as (d' & R & Hd'); [lia| |].
  { apply patched_bytes; [by apply (cdata_byte fs cap d)|done]. }
  exists d', (put_cluster fs c (patched (cdata s c) j name83) s). split; [exact R|]. split; [done|].
  split; [by apply put_chain|]. split; [done|]. split; [by apply (put_records s l1 c l2 j name83 first d)|].
  split; [by apply put_cluster_reserved with (cap := cap)|].
  intros c2 k2 Hc2 Hdis. split; [by apply put_chain|]. unfold content. f_equal. apply map_ext_in. intros x Hx%list_elem_of_In.
  rewrite (cdata_put_cluster fs cap Hfs) by done. apply decide_False. intros <-. apply (Hdis c Hx). set_solver.
Qed.

(** One more cluster for a directory that is full. *)
Lemma grow d s first l :
  holds d s -> chain s first l -> l <> [] -> has_clusters fs 1 s ->
  exists d' s' a, alloc_cluster fs (Some (default first (list.last l))) d = Ret (Ok a, d') /\ holds d' s' /\
    valid a /\ fat fs s a = 0 /\ chain s' first (l ++ [a]) /\ records s' l = records s l /\ cdata s' a = zero_cluster fs /\
    (forall k, has_clusters fs (S k) s -> has_clusters fs k s') /\ untouched s s' l /\ fat fs s' a <> 0.
Proof.
  intros Hd Hc Hne Hk. pose proof (chain_valid fs s _ _ Hc) as Hall. rewrite Forall_forall in Hall.
  destruct (exists_last Hne) as (l0 & p & ->). rewrite last_snoc. cbn [default].
  assert (p ∈ l0 ++ [p]) as Hp by set_solver.
  destruct (alloc_cluster_ok fs cap Hfs d s (Some p) Hd) as (d' & [(Hnone & _)|(a & s' & R & Hd' & Hv & Hz & _ & Hf & Hda & Hres)]).
  { intros q [= <-]. split; [by apply Hall|]. by apply (chain_used fs s first (l0 ++ [p])). }
  { exfalso. by apply (has_clusters_pos fs 0 s Hk). }
  assert (a ∉ l0 ++ [p]) as Ha by (intros Hin; by apply (chain_used fs s first (l0 ++ [p]) a Hc Hin)).
  pose proof (chain_NoDup fs cap Hfs s _ _ Hc) as Hnd. apply NoDup_app in Hnd as (_ & Hnd & _).
  assert (forall x, valid x -> x <> p -> x <> a -> fat fs s' x = fat fs s x) as Hsame.
  { intros x Hx H1 H2. rewrite Hf by (by apply valid_range). rewrite decide_False by congruence. by rewrite decide_False by congruence. }
  assert (fat fs s' p = a) as Ep by (rewrite Hf by (apply valid_range, Hall, Hp); by rewrite decide_True).
  assert (fat fs s' a = FAT_MASK) as Ea.
  { rewrite Hf by (by apply valid_range). rewrite decide_False by (intros [= ->]; by apply Ha). by rewrite decide_True. }
  assert (forall x, valid x -> x <> a -> cdata s' x = cdata s x) as Hcd by (intros x Hx H1; rewrite Hda by done; by apply decide_False).
  exists d', s', a. split; [exact R|]. split; [done|]. split; [done|]. split; [done|]. split.
  { rewrite <- app_assoc. apply (chain_extend fs s s' first l0 p a); [done|done|done|by rewrite Ea|].
    intros x Hx. apply Hsame; [apply Hall; set_solver|intros ->; by apply (Hnd p Hx); left|intros ->; apply Ha; set_solver]. }
  split. { apply records_ext. intros x Hx. apply Hcd; [by apply Hall|by intros ->]. }
  split; [rewrite Hda by done; by rewrite decide_True|]. split.
  { intros k. apply (has_clusters_alloc fs k s s' a). intros x Hx Hxa Hx0. rewrite Hsame; [done|done| |done].
    intros ->. by apply (chain_used fs s first (l0 ++ [p]) p Hc Hp). }
  split; [|by rewrite Ea]. split; [done|].
  intros c2 l2 Hc2 Hdis. pose proof (chain_valid fs s _ _ Hc2) as Hall2. rewrite Forall_forall in Hall2.
  assert (forall x, x ∈ l2 -> x <> p /\ x <> a) as Hx2.
  { intros x Hx. split; [by intros ->; apply (Hdis p Hx)|]. intros ->. by apply (chain_used fs s c2 l2 a Hc2 Hx). }
  split.
  - eapply chain_frame; [|exact Hc2]. intros x Hx. destruct (Hx2 x Hx). apply Hsame; [by apply Hall2|done|done].
  - unfold content. f_equal. apply map_ext_in. intros x Hx%list_elem_of_In. destruct (Hx2 x Hx). apply Hcd; [by apply Hall2|done].
Qed.

Lemma node_of_new c o name83 : length name83 = 11%nat -> node_of (c, o, new_entry83 name83) = node_file fs 0 0 c o.
Proof. intros Hn. do 11 (destruct name83 as [|? name83]; [done|]). destruct name83; [|done]. reflexivity. Qed.

(** What [create] checks before it writes. *)
Lemma create_start fuel w h n s l name name83 :
  dir_state w h n s l -> (length l < fuel)%nat -> to_8_3 name = Some name83 ->
  exists d', holds d' s /\ fat_create fuel h name w =
    if List.find (named name) (listing s l) then Ret (Err tt, mkFat d' (fw_nodes w))
    else (slot ←? dev (find_free_slot fuel n);
      let '(slot_cluster, slot_off) := slot in
      _ ←? dev (patch_cluster fs slot_cluster (fun buf =>
             buf ← splice buf slot_off (name83 ++ [0x20] ++ replicate 20 0);
             if slot_off + 64 <=? cb then splice buf (slot_off + 32) [0] else mret buf));
      h' ← new_node (node_file fs 0 0 slot_cluster slot_off);
      mret (Ok h')) (mkFat d' (fw_nodes w)).
Proof.
  intros Hs Hk H83.
  destruct (walk_dir_ok fuel (fun e _ _ (_ : unit) => (if name_matches e name then Some tt else None, tt)) w h n s l tt Hs Hk) as (d' & R & Hd').
  exists d'. split; [done|]. unfold fat_create. rewrite (run_bind _ _ _ _ _ (run_node _ _ _ (ds_node _ _ _ _ _ Hs))), (ds_dir _ _ _ _ _ Hs), H83.
  cbn [negb]. rewrite (run_try _ _ _ _ _ R), (walk_find (fun e => name_matches e name) (fun _ _ _ => tt)), (ds_fs _ _ _ _ _ Hs).
  change (fun r : Rec => name_matches r.2 name) with (named name). by destruct (List.find (named name) (listing s l)).
Qed.

(** The end of [create], once the slot is known. *)
Lemma create_end fuel d nodes h n s l1 c l2 j name name83 :
  holds d s -> nodes !! h = Some n -> node_fs n = fs -> is_dir n = true -> chain s (first_cluster n) (l1 ++ c :: l2) ->
  (S (length (l1 ++ c :: l2)) <= fuel)%nat -> plain_name name -> to_8_3 name = Some name83 -> 0 <= j < per -> fat fs s c <> 0 ->
  Forall (fun r => free r.2 = false) (before s l1 c j) -> Forall (fun r => named name r = false) (live (before s l1 c j)) ->
  exists w' s', (_ ←? dev (patch_cluster fs c (fun buf =>
             buf ← splice buf (32 * j) (name83 ++ [0x20] ++ replicate 20 0);
             if 32 * j + 64 <=? cb then splice buf (32 * j + 32) [0] else mret buf));
      h' ← new_node (node_file fs 0 0 c (32 * j));
      mret (Ok h')) (mkFat d nodes) = Ret (Ok (length nodes), w') /\
    fw_nodes w' = nodes ++ [node_file fs 0 0 c (32 * j)] /\
    dir_state w' h n s' (l1 ++ c :: l2) /\ file_state fs cap c w' (length nodes) (node_file fs 0 0 c (32 * j)) s' [] /\
    listing s' (l1 ++ c :: l2) = live (before s l1 c j) ++ (c, 32 * j, new_entry83 name83) ::
      (if 32 * j + 64 <=? cb then [] else live (behind s l2 c j)) /\
    List.find (named name) (listing s' (l1 ++ c :: l2)) = Some (c, 32 * j, new_entry83 name83) /\
    (exists w2, fat_finddir fuel h name w' = Ret (Ok (S (length nodes)), w2) /\
       fw_nodes w2 !! S (length nodes) = Some (node_file fs 0 0 c (32 * j))) /\
    (forall k, has_clusters fs k s -> has_clusters fs k s') /\ untouched s s' (l1 ++ c :: l2).
Proof.
  intros Hd Hnode Hfsn Hdir Hc Hk Hplain H83 Hj Hused Hfree Hnone. pose proof per_spec as [Hcb _].
  destruct (new_entry_ok name name83 Hplain H83) as (Hlen & Hbyte & Hmatch & He & _ & Hh).
  destruct (take_slot d s (first_cluster n) l1 c l2 j name83 Hd Hc Hlen Hbyte Hj) as (d' & s' & R & Hd' & Hc' & Hfat & (rest & Hrec & Hrest) & Hun).
  assert (valid c) as Hv by (pose proof (chain_valid fs s _ _ Hc) as Hall; rewrite Forall_forall in Hall; apply Hall; set_solver).
  set (f := node_file fs 0 0 c (32 * j)). set (w' := mkFat d' (nodes ++ [f])).
  assert (dir_state w' h n s' (l1 ++ c :: l2)) as Hds.
  { constructor; try done. cbn. by apply lookup_app_l_Some. }
  assert (listing s' (l1 ++ c :: l2) = live (before s l1 c j) ++ (c, 32 * j, new_entry83 name83) :: live rest) as Hlist.
  { unfold listing. rewrite Hrec. by apply live_shown. }
  exists w', s'. split. { rewrite (run_try _ _ _ _ _ (run_dev _ (mkFat d nodes) _ d' R)). done. }
  split; [done|]. split; [done|]. split.
  { constructor; try done; [by apply list_lookup_middle|by left|]. split; [done|right]. cbn. rewrite Hfat by done. split; [done|]. split; [done|].
    split; [intros Hin; by apply elem_of_nil in Hin|lia]. }
  split; [by rewrite Hlist, Hrest|]. split; [by rewrite Hlist; apply find_first|]. split.
  { destruct (finddir_ok fuel w' h n s' _ name Hds Hk) as (d2 & _ & Rf). rewrite Hlist, find_first in Rf by done.
    rewrite node_of_new in Rf by done. fold f in Rf. cbn [fw_nodes w'] in Rf. rewrite length_app, Nat.add_1_r in Rf.
    eexists. split; [exact Rf|]. cbn [fw_nodes]. apply list_lookup_middle. rewrite length_app. cbn. lia. }
  split; [|done]. intros k Hck. eapply has_clusters_mono; [|done|exact Hck]. intros x Hx Hz. by rewrite Hfat.
Qed.
(** All that [create] does, for a name it accepts. *)
Lemma fat_create_ok (fuel : nat) (w : FatWorld D) (h : nat) (n : Fat32Node) (s : sectors) (l : list Z) (name : str) (name83 : list Z)
  (Hs : dir_state w h n s l) (Hne : l <> []) (Hk : (S (length l) < fuel)%nat)
  (Hplain : plain_name name) (H83 : to_8_3 name = Some name83) (Hnew : List.find (named name) (listing s l) = None)
  (Hroom : List.find (fun r : Rec => free r.2) (records s l) <> None \/ has_clusters fs 1 s) :
  exists w' s' l' c o, let h' := length (fw_nodes w) in let new := (c, o, new_entry83 name83) in
    fat_create fuel h name w = Ret (Ok h', w') /\
    dir_state w' h n s' l' /\ file_state fs cap c w' h' (node_file fs 0 0 c o) s' [] /\
    match List.find (fun r : Rec => free r.2) (records s l) with
    | Some r => l' = l /\ r.1 = (c, o) /\ exists before behind,
        records s l = before ++ r :: behind /\ Forall (fun r : Rec => free r.2 = false) before /\
        listing s l = live before ++ (if deleted r.2 then live behind else []) /\
        listing s' l' = live before ++ new :: (if o + 64 <=? cb then [] else live behind)
    | None => l' = l ++ [c] /\ o = 0 /\ fat fs s c = 0 /\ listing s' l' = listing s l ++ [new]
    end /\
    (exists w2, fat_finddir fuel h name w' = Ret (Ok (S h'), w2) /\ fw_nodes w2 !! S h' = Some (node_file fs 0 0 c o)) /\
    untouched s s' l /\
    (forall k, has_clusters fs (S k) s -> has_clusters fs k s') /\
    fw_nodes w' = fw_nodes w ++ [node_file fs 0 0 c o] /\
    (exists j, o = 32 * j /\ 0 <= j < per) /\ List.find (named name) (listing s' l') = Some new.
Proof.
  destruct (create_start fuel w h n s l name name83 Hs ltac:(lia) H83) as (d1 & Hd1 & R1). rewrite Hnew in R1.
  pose proof Hs as [_ Hnode Hfsn Hdir Hc]. pose proof per_spec as [Hcb Hper].
  destruct (find_slot_ok s _ l Hc fuel (first_cluster n) d1 Hd1 ltac:(lia)) as (d2 & Hd2 & Hcase).
  assert (forall r, find_slot fs fuel (first_cluster n) (first_cluster n) d1 = r -> find_free_slot fuel n d1 = r) as Hslot
    by (intros r <-; unfold find_free_slot; by rewrite Hfsn).
  destruct Hcase as [(l1 & c & l2 & j & -> & Hj & Hfree & Hall & R2)|[Hall R2]].
  - set (r := (c, 32 * j, sub (cdata s c) (32 * j) 32) : Rec).
    pose proof (records_split s l1 c l2 j Hj) as Hsplit. fold r in Hsplit.
    assert (listing s (l1 ++ c :: l2) = live (before s l1 c j) ++ (if deleted r.2 then live (behind s l2 c j) else [])) as Hold
      by (unfold listing; rewrite Hsplit; by apply live_free).
    destruct (create_end fuel d2 (fw_nodes w) h n s l1 c l2 j name name83) as (w' & s' & R3 & Hn & Hds & Hfl & Hl & Hnm & Hfind & Hcl & Hun); try done; try lia.
    { apply (chain_used fs s _ _ c Hc). set_solver. }
    { rewrite Hold in Hnew. apply find_nowhere, Forall_app in Hnew. apply Hnew. }
    exists w', s', (l1 ++ c :: l2), c, (32 * j). cbv zeta. split.
    { rewrite R1.
      rewrite (run_try _ _ _ _ _ (run_dev _ (mkFat d1 (fw_nodes w)) _ d2 (Hslot _ R2))). exact R3. }
    split; [done|]. split; [done|]. split.
    { rewrite Hsplit, find_first by done. split; [done|]. split; [done|]. by exists (before s l1 c j), (behind s l2 c j). }
    split; [done|]. split; [done|]. split.
    { intros k Hck. apply Hcl. eapply has_clusters_mono; [|by apply Nat.le_succ_diag_r|exact Hck]. done. }
    split; [done|]. split; [by exists j|done].
  - assert (List.find (fun r : Rec => free r.2) (records s l) = None) as Hnone by (by apply find_nowhere).
    destruct Hroom as [|Hroom]; [done|].
    destruct (grow d2 s (first_cluster n) l Hd2 Hc Hne Hroom) as (d3 & s3 & a & Ra & Hd3 & Hv & Hz & Hc3 & Hrec & Hza & Hk3 & Hun3 & Hua).
    assert (before s3 l a 0 = records s l) as Hbef by (unfold before; cbn; by rewrite app_nil_r).
    assert (listing s l = live (records s l)) as Hold by done.
    destruct (create_end fuel d3 (fw_nodes w) h n s3 l a [] 0 name name83) as (w' & s' & R3 & Hn & Hds & Hfl & Hl & Hnm & Hfind & Hcl & Hun); try done; try lia.
    { rewrite length_app. cbn. lia. } { by rewrite Hbef. } { rewrite Hbef. by apply find_nowhere. }
    rewrite Z.mul_0_r in *. exists w', s', (l ++ [a]), a, 0. cbv zeta. split.
    { rewrite R1.
      erewrite run_try; [|apply run_dev; apply Hslot; rewrite R2; rewrite (run_try _ _ _ _ _ Ra); done]. exact R3. }
    split; [done|]. split; [done|]. split.
    { rewrite Hnone. split; [done|]. split; [done|]. split; [done|]. rewrite Hl, Hbef. do 2 f_equal.
      rewrite (proj2 (Z.leb_le _ _)) by lia. done. }
    split; [done|]. split; [|split; [intros k Hck; by apply Hcl, Hk3|split; [done|split; [exists 0; lia|done]]]].
    split; [exact (reserved_trans fs _ _ _ (proj1 Hun3) (proj1 Hun))|].
    intros c2 l2 Hc2 Hdis. destruct (proj2 Hun3 c2 l2 Hc2 Hdis) as [Hc4 E4]. destruct (proj2 Hun c2 l2 Hc4) as [Hc5 E5]; [|split; [done|by rewrite E5]].
    intros x Hx Hin. apply elem_of_app in Hin as [Hin|Hin]; [by apply (Hdis x)|]. apply list_elem_of_singleton in Hin as ->.
    by apply (chain_used fs s c2 l2 a Hc2 Hx).
Qed.
(** ** A directory after a file of it was written *)

(** The same place, the same name and attributes. *)
Definition rec_kept (r r' : Rec) : Prop := r'.1 = r.1 /\ sub r'.2 0 20 = sub r.2 0 20.

Lemma kept_byte (e e' : list Z) (i : nat) : (i < 20)%nat -> sub e' 0 20 = sub e 0 20 -> e' !!! i = e !!! i.
Proof.
  intros Hi He. apply (f_equal (fun l : list Z => l !!! i)) in He. unfold sub in He.
  rewrite !list_lookup_total_alt, !lookup_take_lt, !lookup_drop in He by lia. rewrite !list_lookup_total_alt. exact He.
Qed.

Lemma kept_decode (e e' : list Z) : sub e' 0 20 = sub e 0 20 -> decode_8_3 e' = decode_8_3 e.
Proof.
  intros He. unfold decode_8_3.
  assert (forall a n, 0 <= a -> a + n <= 20 -> sub e' a n = sub e a n) as Hs.
  { intros a n Ha Hn. pose proof (sub_sub e' 0 20 a n ltac:(lia) Ha Hn) as E1. pose proof (sub_sub e 0 20 a n ltac:(lia) Ha Hn) as E2.
    rewrite Z.add_0_l in E1, E2. by rewrite <- E1, <- E2, He. }
  by rewrite !Hs by lia.
Qed.

Lemma kept_shows (r r' : Rec) : rec_kept r r' -> ended r'.2 = ended r.2 /\ hidden r'.2 = hidden r.2 /\ forall name, named name r' = named name r.
Proof.
  intros [_ He]. unfold ended, hidden, deleted. rewrite !(kept_byte r.2 r'.2) by (done || lia). split; [done|]. split; [done|].
  intros name. unfold named, name_matches. by rewrite (kept_decode _ _ He).
Qed.

Lemma live_kept rs rs' : Forall2 rec_kept rs rs' -> Forall2 rec_kept (live rs) (live rs').
Proof.
  induction 1 as [|r r' rs rs' Hr Hrs IH]; [constructor|]. cbn [live]. destruct (kept_shows r r' Hr) as (-> & -> & _).
  destruct (ended r.2); [constructor|]. destruct (hidden r.2); [done|by constructor].
Qed.

Lemma find_kept name rs rs' r : Forall2 rec_kept rs rs' -> List.find (named name) rs = Some r ->
  exists r', List.find (named name) rs' = Some r' /\ rec_kept r r'.
Proof.
  induction 1 as [|x x' rs rs' Hx Hrs IH]; [done|]. cbn [List.find]. destruct (kept_shows x x' Hx) as (_ & _ & ->).
  destruct (named name x); [|done]. intros [= ->]. by exists x'.
Qed.

Lemma elem_of_records s l r : r ∈ records s l -> exists c j, c ∈ l /\ 0 <= j < per /\ r = (c, 32 * j, sub (cdata s c) (32 * j) 32).
Proof.
  unfold records, recs. intros (c & Hr & Hc)%list_elem_of_bind. apply list_elem_of_fmap in Hr as (j & -> & Hj). apply elem_of_seqZ in Hj.
  exists c, j. split; [done|]. split; [lia|done].
Qed.

Lemma live_sub rs r : r ∈ live rs -> r ∈ rs.
Proof.
  induction rs as [|x rs IH]; [done|]. cbn [live]. destruct (ended x.2); [by intros ?%elem_of_nil|]. destruct (hidden x.2).
  - intros Hin. right. by apply IH.
  - intros [->|Hin]%elem_of_cons; [by left|right; by apply IH].
Qed.

Lemma records_kept s s' l pc n j0 :
  dir_entry_offset n = 32 * j0 -> (forall x, x ∈ l -> x <> pc -> cdata s' x = cdata s x) -> dir_kept fs pc s s' n ->
  Forall2 rec_kept (records s l) (records s' l).
Proof.
  intros Ho Hx Hk. induction l as [|c l IH]; [constructor|]. unfold records in *. cbn [mbind list_bind].
  apply Forall2_app; [|apply IH; intros x Hin; apply Hx; by right]. unfold recs. apply Forall2_fmap, Forall_Forall2_diag, Forall_forall.
  intros j Hj%elem_of_seqZ. split; [done|]. cbn [snd]. destruct (decide (c = pc)) as [->|Hne]; [|by rewrite Hx by (done || by left)].
  rewrite !sub_sub, Z.add_0_r by lia. apply Hk; [lia|]. rewrite Ho. lia.
Qed.

Lemma file_state_move pc w h w' h' n s l :
  file_state fs cap pc w h n s l -> holds (fw_dev w') s -> fw_nodes w' !! h' = Some n -> file_state fs cap pc w' h' n s l.
Proof. intros []. by constructor. Qed.

(** Whoever looks the name up in the directory [ld] of the disk [s] finds a file
    with these bytes, and looking changes nothing. *)
Definition stored s (ld : list Z) (name : str) (data : list Z) : Prop :=
  exists n, forall fuel w h nd, dir_state w h nd s ld -> (length ld < fuel)%nat ->
    let len := Z.of_nat (length data) in
    exists d', holds d' s /\ fat_finddir fuel h name w = Ret (Ok (length (fw_nodes w)), mkFat d' (fw_nodes w ++ [n])) /\
      forall w' h', fw_nodes w' !! h' = Some n -> holds (fw_dev w') s ->
        fat_attribute h' w' = Ret (mkStat len File, w') /\
        forall off n, 0 <= off -> 0 <= n -> exists w2, fat_read h' off n w' = Ret (Ok (take (Z.to_nat n) (drop (Z.to_nat off) data)), w2) /\
          holds (fw_dev w2) s /\ fw_nodes w2 = fw_nodes w'.

(** The record found describes a file that holds the data. *)
Lemma stored_of pc w h s ld l name n r data :
  file_state fs cap pc w h n s l -> List.find (named name) (listing s ld) = Some r -> node_of r = n ->
  size n = Z.of_nat (length data) -> take (length data) (file_bytes fs n s l) = data -> stored s ld name data.
Proof.
  intros Hfl Hfind Hn Hsz Hdata. exists n. intros fuel w0 h0 nd Hs Hk. cbv zeta.
  destruct (finddir_ok fuel w0 h0 nd s ld name Hs Hk) as (d' & Hd' & R). rewrite Hfind, Hn in R. exists d'. split; [done|]. split; [done|].
  intros w' h' Hh Hw. pose proof (file_state_move pc w h w' h' n s l Hfl Hw Hh) as Hfl'.
  assert (file_bytes fs n s l = data) as Hall.
  { rewrite <- Hdata. symmetry. apply take_ge. unfold file_bytes. rewrite length_take. lia. }
  split.
  - unfold fat_attribute. rewrite (run_bind _ _ _ _ _ (run_node _ _ _ Hh)), (fl_file _ _ _ _ _ _ _ _ Hfl'), Hsz. done.
  - intros off k Ho Hk'. destruct (fat_read_ok fs cap Hfs pc w' h' n s l off k Hfl' Ho Hk') as (w2 & R2 & H2). exists w2.
    rewrite <- Hall at 1. done.
Qed.

(** The new file, written for the first time: the directory shows it with what
    its node says. *)
Lemma written_stored pc hd nd h n w s ld l (k : nat) data name e :
  dir_state w hd nd s ld -> file_state fs cap pc w h n s l -> hd <> h ->
  pc ∈ ld -> (forall x, x ∈ l -> x ∉ ld) -> (exists j, dir_entry_offset n = 32 * j /\ 0 <= j < per) ->
  List.find (named name) (listing s ld) = Some (pc, dir_entry_offset n, e) -> Z.land (e !!! 0x0B%nat) 0x10 = 0 -> synced fs pc s n ->
  size n <= Z.of_nat (length data) < 2 ^ 32 -> data <> [] -> Forall is_byte data ->
  has_clusters fs (k + missing (clusters_for fs (Z.of_nat (length data))) l) s ->
  exists w2 s2, fat_write h 0 data w = Ret (Ok (Z.of_nat (length data)), w2) /\
    dir_state w2 hd nd s2 ld /\ length (fw_nodes w2) = length (fw_nodes w) /\ stored s2 ld name data /\ reserved_kept fs s s2.
Proof.
  intros Hds Hfl Hne Hpc Hdis (j & Hj & Hjr) Hfind Hattr Hsy Hlen Hdne Hby Hcl.
  destruct (fat_write_ok fs cap Hfs pc k w h n s l 0 data Hfl ltac:(lia) ltac:(lia) Hdne Hby Hcl)
    as (w2 & n2 & s2 & l2 & R2 & Hfl2 & Hsz & Hnodes & Hw & _ & _ & (c2 & z2 & En2) & Hdir).
  destruct Hds as [Hd Hn Hf Hdd Hc]. pose proof (chain_valid fs s _ _ Hc) as Hall. rewrite Forall_forall in Hall.
  assert (pc <> 0) as Hp0 by (pose proof (Hall pc Hpc) as [H2 _]; lia).
  destruct (Hdir Hp0) as [Hkept Hsync].
  assert (forall x, x ∈ ld -> x ∉ l2) as Hout.
  { intros x Hx. eapply wrote_not_in; [exact Hw|by apply (chain_used fs s _ _ x Hc)|]. intros Hin. by apply (Hdis x Hin). }
  assert (dir_state w2 hd nd s2 ld) as Hds2.
  { constructor; try done; [apply Hfl2|by rewrite Hnodes, list_lookup_insert_ne|]. eapply chain_frame; [|exact Hc].
    intros x Hx. apply (wr_other _ _ _ _ _ _ _ _ _ Hw); [by apply Hall|by apply Hout]. }
  assert (Forall2 rec_kept (records s ld) (records s2 ld)) as Hrk.
  { apply (records_kept s s2 ld pc n j Hj); [|done]. intros x Hx Hxp. apply (wr_other _ _ _ _ _ _ _ _ _ Hw); [by apply Hall|by apply Hout|done]. }
  destruct (find_kept name _ _ _ (live_kept _ _ Hrk) Hfind) as ([[c o] e'] & Hfind2 & [Eco Ee]). cbn [fst snd] in Eco, Ee. injection Eco as -> ->.
  assert (e' = dir_entry fs pc s2 n2) as ->.
  { apply find_some in Hfind2 as [Hin _]. apply list_elem_of_In, live_sub, elem_of_records in Hin as (c' & j' & _ & _ & E). injection E as <- Eo ->.
    unfold dir_entry. rewrite En2. cbn. by rewrite Eo. }
  assert (node_of (pc, dir_entry_offset n, dir_entry fs pc s2 n2) = n2) as En.
  { unfold node_of. rewrite (kept_byte e _ 0x0B) by (done || lia). rewrite Hattr. cbn [Z.eqb]. destruct (Hsync Hsy) as [-> ->]. unfold node_file.
    destruct Hfl as [_ _ Hfn Hfd _ _ [Hpar _]]. rewrite En2. destruct n. cbn in *. by subst. }
  exists w2, s2. split; [exact R2|]. split; [done|]. split; [by rewrite Hnodes, length_insert|]. split; [|apply Hw].
  pose proof (written_range fs cap Hfs pc _ w h n s l w2 n2 s2 l2 0 data Hfl Hfl2 Hw Hsz ltac:(lia)) as Hwr. rewrite drop_0 in Hwr.
  eapply stored_of; [exact Hfl2|exact Hfind2|done|lia|exact Hwr].
Qed.

(** Creating a file and writing to it. *)
Lemma create_stored (fuel : nat) (w : FatWorld D) (h : nat) (n : Fat32Node) (s : sectors) (l : list Z)
  (name : str) (name83 : list Z) (data : list Z)
  (Hs : dir_state w h n s l) (Hne : l <> []) (Hk : (S (length l) < fuel)%nat)
  (Hplain : plain_name name) (H83 : to_8_3 name = Some name83) (Hnew : List.find (named name) (listing s l) = None)
  (Hdne : data <> []) (Hby : Forall is_byte data) (Hlen : Z.of_nat (length data) < 2 ^ 32)
  (Hroom : has_clusters fs (S (clusters_for fs (Z.of_nat (length data)))) s) :
  exists w1 w2 s2 l2, let h1 := length (fw_nodes w) in
    fat_create fuel h name w = Ret (Ok h1, w1) /\ length (fw_nodes w1) = S h1 /\
    fat_write h1 0 data w1 = Ret (Ok (Z.of_nat (length data)), w2) /\ length (fw_nodes w2) = S h1 /\
    dir_state w2 h n s2 l2 /\ (length l2 < fuel)%nat /\ stored s2 l2 name data /\ reserved_kept fs s s2.
Proof.
  set (need := clusters_for fs (Z.of_nat (length data))) in *.
  destruct (fat_create_ok fuel w h n s l name name83 Hs Hne Hk Hplain H83 Hnew)
    as (w1 & s1 & l1 & c & o & R1 & Hds & Hfl & Hcase & _ & [Hres1 _] & Hcl & Hnodes & (j & Hj & Hjr) & Hfind).
  { right. eapply has_clusters_mono; [| |exact Hroom]; [done|lia]. }
  destruct (new_entry_ok name name83 Hplain H83) as (Hl83 & _).
  pose proof (ds_node _ _ _ _ _ Hs) as Hhn. apply lookup_lt_Some in Hhn.
  pose proof Hfind as Hin. apply find_some in Hin as [Hin _]. apply list_elem_of_In, live_sub, elem_of_records in Hin as (c' & j' & Hc & _ & E).
  injection E as <- Eo Enew.
  assert (synced fs c s1 (node_file fs 0 0 c o)) as Hsy.
  { unfold synced, dir_entry. cbn [dir_entry_offset node_file]. rewrite Eo, <- Enew.
    do 11 (destruct name83 as [|? name83]; [done|]). destruct name83; [|done]. split; reflexivity. }
  assert (length l1 < fuel)%nat as Hk1.
  { destruct (List.find _ (records s l)); [destruct Hcase as [-> _]; lia|]. destruct Hcase as [-> _]. rewrite length_app. cbn. lia. }
  destruct (written_stored c h n (length (fw_nodes w)) (node_file fs 0 0 c o) w1 s1 l1 [] 0 data name (new_entry83 name83))
    as (w2 & s2 & R2 & Hds2 & Hln & Hst & Hres2); try done.
  { lia. }
  { intros x Hx. by apply elem_of_nil in Hx. }
  { by exists j. }
  { do 11 (destruct name83 as [|? name83]; [done|]). destruct name83; [|done]. reflexivity. }
  { cbn. lia. }
  { apply Hcl. eapply has_clusters_mono; [| |exact Hroom]; [done|unfold missing; cbn; lia]. }
  exists w1, w2, s2, l1. cbv zeta. split; [exact R1|]. assert (length (fw_nodes w1) = S (length (fw_nodes w))) as Hl1.
  { rewrite Hnodes, length_app. cbn. lia. }
  split; [done|]. split; [exact R2|]. split; [lia|]. split; [done|]. split; [done|]. split; [done|]. by eapply reserved_trans.
Qed.
End dir.

(** ** The operations of a directory *)

Section operations.
Context {D : Type} {BD : BlockDevice D} {BL : BlockLaws D}.
Context (fs : Fat32Fs) (cap : Z).

(** C17: what a directory shows.  [readdir] lists the names of its records in
    order, up to the end mark and without the deleted ones, the long-name parts
    and the volume labels; [finddir] answers with the first of these whose name
    matches without regard to case, as a node with its first cluster, size, kind
    and place, and fails when there is none; [create] refuses a name that is
    not of the form 8.3 and a name that matches one in the list.  None of them
    changes the disk. *)
Theorem fat_listing_spec (fuel : nat) (w : FatWorld D) (h : nat) (n : Fat32Node) (s : sectors) (l : list Z) (name : str)
  (Hfs : fs_ok fs cap) (Hs : dir_state fs cap w h n s l) (Hk : (length l < fuel)%nat) :
  (exists d', (fat_node fuel).(Vfs.readdir) h w = Ret (Ok (map (fun r : Rec => decode_8_3 r.2) (listing fs s l)), mkFat d' (fw_nodes w)) /\
     holds cap d' s) /\
  (exists d', holds cap d' s /\ (fat_node fuel).(Vfs.finddir) h name w =
     match List.find (named name) (listing fs s l) with
     | Some r => Ret (Ok (length (fw_nodes w)), mkFat d' (fw_nodes w ++ [node_of fs r]))
     | None => Ret (Err tt, mkFat d' (fw_nodes w))
     end) /\
  (to_8_3 name = None \/ List.find (named name) (listing fs s l) <> None ->
   exists d', holds cap d' s /\ (fat_node fuel).(create_in) h name w = Ret (Err tt, mkFat d' (fw_nodes w))).
Proof.
  split; [|split].
  - by apply (readdir_ok fs cap Hfs) with (n := n).
  - by apply (finddir_ok fs cap Hfs) with (n := n).
  - intros Hbad. destruct (to_8_3 name) as [name83|] eqn:E.
    + destruct Hbad as [|Hdup]; [done|]. destruct (create_start fs cap Hfs fuel w h n s l name name83 Hs Hk E) as (d' & Hd' & R).
      exists d'. split; [done|]. change (fat_create fuel h name w = Ret (Err tt, mkFat d' (fw_nodes w))). rewrite R.
      by destruct (List.find _ _).
    + exists (fw_dev w). split; [apply Hs|]. change (fat_create fuel h name w = Ret (Err tt, mkFat (fw_dev w) (fw_nodes w))).
      unfold fat_create. rewrite (run_bind _ _ _ _ _ (run_node _ _ _ (ds_node _ _ _ _ _ _ _ Hs))), (ds_dir _ _ _ _ _ _ _ Hs), E.
      cbn [negb]. by destruct w.
Qed.

(** C8: creating a file.  For a new name of ASCII letters in the form 8.3, with
    a free record in the directory or a free cluster on the disk, [create]
    succeeds: the record stands in the first free slot, or at the start of a
    cluster added to the directory; the new handle is an empty file with that
    directory entry, ready for [write]; [finddir] finds it; every other chain
    keeps its clusters and bytes, and the boot sector is not touched.  The list of the directory is the old one
    with the new record in its place, except that everything behind the slot is
    lost when the slot was that of a deleted file and not the last of its
    cluster: the record after it is marked as the end. *)
Theorem fat_create_spec (fuel : nat) (w : FatWorld D) (h : nat) (n : Fat32Node) (s : sectors) (l : list Z) (name : str) (name83 : list Z)
  (Hfs : fs_ok fs cap) (Hs : dir_state fs cap w h n s l) (Hne : l <> []) (Hk : (S (length l) < fuel)%nat)
  (Hplain : plain_name name) (H83 : to_8_3 name = Some name83) (Hnew : List.find (named name) (listing fs s l) = None)
  (Hroom : List.find (fun r : Rec => free r.2) (records fs s l) <> None \/ has_clusters fs 1 s) :
  exists w' s' l' c o, let h' := length (fw_nodes w) in let new := (c, o, new_entry83 name83) in
    (fat_node fuel).(create_in) h name w = Ret (Ok h', w') /\
    dir_state fs cap w' h n s' l' /\ file_state fs cap c w' h' (node_file fs 0 0 c o) s' [] /\
    match List.find (fun r : Rec => free r.2) (records fs s l) with
    | Some r => l' = l /\ r.1 = (c, o) /\ exists before behind,
        records fs s l = before ++ r :: behind /\ Forall (fun r : Rec => free r.2 = false) before /\
        listing fs s l = live before ++ (if deleted r.2 then live behind else []) /\
        listing fs s' l' = live before ++ new :: (if o + 64 <=? cluster_size_bytes fs then [] else live behind)
    | None => l' = l ++ [c] /\ o = 0 /\ fat fs s c = 0 /\ listing fs s' l' = listing fs s l ++ [new]
    end /\
    (exists w2, (fat_node fuel).(Vfs.finddir) h name w' = Ret (Ok (S h'), w2) /\ fw_nodes w2 !! S h' = Some (node_file fs 0 0 c o)) /\
    untouched fs s s' l /\
    (forall k, has_clusters fs (S k) s -> has_clusters fs k s').
Proof.
  destruct (fat_create_ok fs cap Hfs fuel w h n s l name name83) as (w' & s' & l' & c & o & R & H1 & H2 & H3 & H4 & H5 & H6 & _); try done.
  by exists w', s', l', c, o.
Qed.

(** C6: a file outlives its handle.  Creating a file in a directory of the disk,
    writing to the new handle, looking the name up again and reading through the
    handle found gives the data back, and the node found has the size that was
    written: what [create] and [write] left in the directory and in the FAT is
    enough to find the file. *)
Theorem fat_persistence (fuel : nat) (w : FatWorld D) (h : nat) (n : Fat32Node) (s : sectors) (l : list Z)
  (name : str) (name83 : list Z) (data : list Z)
  (Hfs : fs_ok fs cap) (Hs : dir_state fs cap w h n s l) (Hne : l <> []) (Hk : (S (length l) < fuel)%nat)
  (Hplain : plain_name name) (H83 : to_8_3 name = Some name83) (Hnew : List.find (named name) (listing fs s l) = None)
  (Hdne : data <> []) (Hby : Forall is_byte data) (Hlen : Z.of_nat (length data) < 2 ^ 32)
  (Hroom : has_clusters fs (S (clusters_for fs (Z.of_nat (length data)))) s) :
  let len := Z.of_nat (length data) in
  exists w1 w2 w3 w4 h1 h2,
    (fat_node fuel).(create_in) h name w = Ret (Ok h1, w1) /\
    (fat_node fuel).(Vfs.write) h1 0 data w1 = Ret (Ok len, w2) /\
    (fat_node fuel).(Vfs.finddir) h name w2 = Ret (Ok h2, w3) /\ h2 <> h1 /\
    (fat_node fuel).(Vfs.attribute) h2 w3 = Ret (mkStat len File, w3) /\
    (fat_node fuel).(Vfs.read) h2 0 len w3 = Ret (Ok data, w4).
Proof.
  cbv zeta. destruct (create_stored fs cap Hfs fuel w h n s l name name83 data Hs Hne Hk Hplain H83 Hnew Hdne Hby Hlen Hroom)
    as (w1 & w2 & s2 & l2 & R1 & _ & R2 & Hl2 & Hds & Hk2 & (n2 & Hst) & _).
  destruct (Hst fuel w2 h n Hds Hk2) as (d3 & Hd3 & R3 & Hfile). set (w3 := mkFat d3 (fw_nodes w2 ++ [n2])) in *.
  destruct (Hfile w3 (length (fw_nodes w2))) as [Ra Hr]; [by apply list_lookup_middle|done|].
  destruct (Hr 0 (Z.of_nat (length data)) ltac:(lia) ltac:(lia)) as (w4 & R4 & _).
  rewrite drop_0, Nat2Z.id, firstn_all in R4.
  exists w1, w2, w3, w4, (length (fw_nodes w)), (length (fw_nodes w2)). split; [exact R1|]. split; [exact R2|]. split; [exact R3|].
  split; [lia|]. split; [exact Ra|exact R4].
Qed.
End operations.

(** ** A root directory with a deleted file before a live one *)

Definition name_a : list Z := field_83 (lit "a") (lit "txt").
Definition dir_sector : list Z := list_inserts 32 (new_entry83 name_a) (list_inserts 0 [0xE5] zero_sector).
Definition dir_disk : RamDisk := mkDisk 128 {[ 1 := demo_fat; 2 := dir_sector ]}.
Definition root_node : Fat32Node := node_dir demo_fs 2 0 0.
Definition dir_world : FatWorld RamDisk := mkFat dir_disk [root_node].

Lemma dir_disk_holds : holds 128 dir_disk (rd_sec dir_disk).
Proof.
  constructor; [|done|done]. intros x. unfold rd_sec. cbn [rd_data dir_disk].
  destruct (decide (x = 1)) as [->|H1].
  { rewrite lookup_insert_eq. split; [by vm_compute|]. apply (bool_decide_unpack _). vm_compute. exact I. }
  rewrite lookup_insert_ne by done. destruct (decide (x = 2)) as [->|H2].
  - rewrite lookup_singleton_eq. split; [by vm_compute|]. apply (bool_decide_unpack _). vm_compute. exact I.
  - rewrite lookup_singleton_ne by done. split; [done|]. apply Forall_replicate. by vm_compute.
Qed.

Lemma dir_world_state : dir_state demo_fs 128 dir_world 0 root_node (rd_sec dir_disk) [2].
Proof.
  constructor; try done; [apply dir_disk_holds|]. constructor; [split; by vm_compute|]. constructor. by vm_compute.
Qed.

Example fat_listing_spec_witness :
  exists d', (fat_node 5).(Vfs.readdir) 0%nat dir_world = Ret (Ok [lit "a.txt"], mkFat d' [root_node]).
Proof.
  destruct (fat_listing_spec demo_fs 128 5 dir_world 0 root_node (rd_sec dir_disk) [2] (lit "x"))
    as ((d' & R & _) & _).
  - exact demo_fs_ok.
  - exact dir_world_state.
  - cbn. lia.
  - exists d'. refine (eq_trans R _). vm_compute. reflexivity.
Defined.

(** The new file takes the place of the deleted one, and [a.txt] is gone. *)
Example fat_create_spec_witness :
  exists w' s', (fat_node 5).(create_in) 0%nat (lit "b.txt") dir_world = Ret (Ok 1%nat, w') /\
    map (fun r : Rec => decode_8_3 r.2) (listing demo_fs (rd_sec dir_disk) [2]) = [lit "a.txt"] /\
    map (fun r : Rec => decode_8_3 r.2) (listing demo_fs s' [2]) = [lit "b.txt"].
Proof.
  destruct (fat_create_spec demo_fs 128 5 dir_world 0 root_node (rd_sec dir_disk) [2] (lit "b.txt") (field_83 (lit "b") (lit "txt")))
    as (w' & s' & l' & c & o & R & _ & _ & Hm & _).
  - exact demo_fs_ok.
  - exact dir_world_state.
  - discriminate.
  - cbn. lia.
  - split; [apply (bool_decide_unpack _); vm_compute; exact I|]. vm_compute. repeat split; discriminate.
  - vm_compute. reflexivity.
  - vm_compute. reflexivity.
  - left. vm_compute. discriminate.
  - exists w', s'. split; [exact R|]. split; [vm_compute; reflexivity|].
    assert (List.find (fun r : Rec => free r.2) (records demo_fs (rd_sec dir_disk) [2]) =
      Some (2, 0, 0xE5 :: replicate 31 0)) as Ef by (vm_compute; reflexivity).
    assert (head (records demo_fs (rd_sec dir_disk) [2]) = Some (2, 0, 0xE5 :: replicate 31 0)) as Eh by (vm_compute; reflexivity).
    rewrite Ef in Hm. destruct Hm as (-> & Er & before & behind & Erec & Hb & _ & Hl). injection Er as <- <-.
    rewrite Erec in Eh. destruct before as [|x before].
    + rewrite Hl. vm_compute. reflexivity.
    + injection Eh as ->. apply Forall_cons in Hb as [Hb _]. discriminate Hb.
Defined.

(** The same directory, and two free clusters. *)
Example fat_persistence_witness :
  exists w1 w2 w3 w4 h1 h2, (fat_node 5).(create_in) 0%nat (lit "b.txt") dir_world = Ret (Ok h1, w1) /\
    (fat_node 5).(Vfs.write) h1 0 [10; 20; 30] w1 = Ret (Ok 3, w2) /\
    (fat_node 5).(Vfs.finddir) 0%nat (lit "b.txt") w2 = Ret (Ok h2, w3) /\ h2 <> h1 /\
    (fat_node 5).(Vfs.attribute) h2 w3 = Ret (mkStat 3 File, w3) /\
    (fat_node 5).(Vfs.read) h2 0 3 w3 = Ret (Ok [10; 20; 30], w4).
Proof.
  apply (fat_persistence demo_fs 128 5 dir_world 0 root_node (rd_sec dir_disk) [2] (lit "b.txt") (field_83 (lit "b") (lit "txt")) [10; 20; 30]).
  - exact demo_fs_ok.
  - exact dir_world_state.
  - discriminate.
  - cbn. lia.
  - split; [apply (bool_decide_unpack _); vm_compute; exact I|]. vm_compute. repeat split; discriminate.
  - vm_compute. reflexivity.
  - vm_compute. reflexivity.
  - discriminate.
  - apply (bool_decide_unpack _). vm_compute. exact I.
  - cbn. lia.
  - exists [3; 4]. split; [apply (bool_decide_unpack _); vm_compute; exact I|]. split; [vm_compute; reflexivity|].
    apply (bool_decide_unpack _). vm_compute. exact I.
Defined.
