(* ===== verification/Font.v ===== *)
(** * The bitmap font ([ross-common/src/font.rs]) *)

From S2P Require Import Prelude.

(** @src ross-common/src/font.rs 1-108 FONT_BASIC *)
Definition FONT_BASIC : list (list Z) :=
  [replicate 8 0;
   replicate 8 0;
   replicate 8 0;
   replicate 8 0;
   replicate 8 0;
   replicate 8 0;
   replicate 8 0;
   replicate 8 0;
   replicate 8 0;
   replicate 8 0;
   replicate 8 0;
   replicate 8 0;
   replicate 8 0;
   replicate 8 0;
   replicate 8 0;
   replicate 8 0;
   replicate 8 0;
   replicate 8 0;
   replicate 8 0;
   replicate 8 0;
   replicate 8 0;
   replicate 8 0;
   replicate 8 0;
   replicate 8 0;
   replicate 8 0;
   replicate 8 0;
   replicate 8 0;
   replicate 8 0;
   replicate 8 0;
   replicate 8 0;
   replicate 8 0;
   replicate 8 0;
   [0x00; 0x00; 0x00; 0x00; 0x00; 0x00; 0x00; 0x00];
   [0x18; 0x3c; 0x3c; 0x18; 0x18; 0x00; 0x18; 0x00];
   [0x6c; 0x6c; 0x6c; 0x00; 0x00; 0x00; 0x00; 0x00];
   [0x6c; 0x6c; 0xfe; 0x6c; 0xfe; 0x6c; 0x6c; 0x00];
   [0x18; 0x3e; 0x60; 0x3c; 0x06; 0x7c; 0x18; 0x00];
   [0x00; 0x6c; 0x6c; 0x10; 0x20; 0x66; 0x66; 0x00];
   [0x38; 0x6c; 0x6c; 0x38; 0x6e; 0x6c; 0x3e; 0x00];
   [0x18; 0x18; 0x30; 0x00; 0x00; 0x00; 0x00; 0x00];
   [0x0c; 0x18; 0x30; 0x30; 0x30; 0x18; 0x0c; 0x00];
   [0x30; 0x18; 0x0c; 0x0c; 0x0c; 0x18; 0x30; 0x00];
   [0x00; 0x66; 0x3c; 0xff; 0x3c; 0x66; 0x00; 0x00];
   [0x00; 0x18; 0x18; 0x7e; 0x18; 0x18; 0x00; 0x00];
   [0x00; 0x00; 0x00; 0x00; 0x00; 0x18; 0x18; 0x30];
   [0x00; 0x00; 0x00; 0x7e; 0x00; 0x00; 0x00; 0x00];
   [0x00; 0x00; 0x00; 0x00; 0x00; 0x18; 0x18; 0x00];
   [0x02; 0x06; 0x0c; 0x18; 0x30; 0x60; 0x40; 0x00];
   [0x3c; 0x66; 0x6e; 0x7e; 0x76; 0x66; 0x3c; 0x00];
   [0x18; 0x38; 0x18; 0x18; 0x18; 0x18; 0x7e; 0x00];
   [0x3c; 0x66; 0x06; 0x0c; 0x18; 0x30; 0x7e; 0x00];
   [0x3c; 0x66; 0x06; 0x1c; 0x06; 0x66; 0x3c; 0x00];
   [0x06; 0x0e; 0x1e; 0x36; 0x7e; 0x06; 0x06; 0x00];
   [0x7e; 0x60; 0x7c; 0x06; 0x06; 0x66; 0x3c; 0x00];
   [0x3c; 0x66; 0x60; 0x7c; 0x66; 0x66; 0x3c; 0x00];
   [0x7e; 0x06; 0x0c; 0x18; 0x30; 0x30; 0x30; 0x00];
   [0x3c; 0x66; 0x66; 0x3c; 0x66; 0x66; 0x3c; 0x00];
   [0x3c; 0x66; 0x66; 0x3e; 0x06; 0x66; 0x3c; 0x00];
   [0x00; 0x18; 0x18; 0x00; 0x18; 0x18; 0x00; 0x00];
   [0x00; 0x18; 0x18; 0x00; 0x18; 0x18; 0x30; 0x00];
   [0x0c; 0x18; 0x30; 0x60; 0x30; 0x18; 0x0c; 0x00];
   [0x00; 0x00; 0x7e; 0x00; 0x7e; 0x00; 0x00; 0x00];
   [0x30; 0x18; 0x0c; 0x06; 0x0c; 0x18; 0x30; 0x00];
   [0x3c; 0x66; 0x06; 0x0c; 0x18; 0x00; 0x18; 0x00];
   [0x3c; 0x66; 0x6e; 0x6e; 0x60; 0x62; 0x3c; 0x00];
   [0x18; 0x3c; 0x66; 0x66; 0x7e; 0x66; 0x66; 0x00];
   [0x7c; 0x66; 0x66; 0x7c; 0x66; 0x66; 0x7c; 0x00];
   [0x3c; 0x66; 0x60; 0x60; 0x60; 0x66; 0x3c; 0x00];
   [0x78; 0x6c; 0x66; 0x66; 0x66; 0x6c; 0x78; 0x00];
   [0x7e; 0x60; 0x60; 0x78; 0x60; 0x60; 0x7e; 0x00];
   [0x7e; 0x60; 0x60; 0x78; 0x60; 0x60; 0x60; 0x00];
   [0x3c; 0x66; 0x60; 0x6e; 0x66; 0x66; 0x3c; 0x00];
   [0x66; 0x66; 0x66; 0x7e; 0x66; 0x66; 0x66; 0x00];
   [0x3c; 0x18; 0x18; 0x18; 0x18; 0x18; 0x3c; 0x00];
   [0x06; 0x06; 0x06; 0x06; 0x06; 0x66; 0x3c; 0x00];
   [0x66; 0x6c; 0x78; 0x70; 0x78; 0x6c; 0x66; 0x00];
   [0x60; 0x60; 0x60; 0x60; 0x60; 0x60; 0x7e; 0x00];
   [0x63; 0x77; 0x7f; 0x6b; 0x63; 0x63; 0x63; 0x00];
   [0x66; 0x76; 0x7e; 0x7e; 0x6e; 0x66; 0x66; 0x00];
   [0x3c; 0x66; 0x66; 0x66; 0x66; 0x66; 0x3c; 0x00];
   [0x7c; 0x66; 0x66; 0x7c; 0x60; 0x60; 0x60; 0x00];
   [0x3c; 0x66; 0x66; 0x66; 0x66; 0x3c; 0x0e; 0x00];
   [0x7c; 0x66; 0x66; 0x7c; 0x78; 0x6c; 0x66; 0x00];
   [0x3c; 0x66; 0x60; 0x3c; 0x06; 0x66; 0x3c; 0x00];
   [0x7e; 0x18; 0x18; 0x18; 0x18; 0x18; 0x18; 0x00];
   [0x66; 0x66; 0x66; 0x66; 0x66; 0x66; 0x3c; 0x00];
   [0x66; 0x66; 0x66; 0x66; 0x66; 0x3c; 0x18; 0x00];
   [0x63; 0x63; 0x63; 0x6b; 0x7f; 0x77; 0x63; 0x00];
   [0x66; 0x66; 0x3c; 0x18; 0x3c; 0x66; 0x66; 0x00];
   [0x66; 0x66; 0x66; 0x3c; 0x18; 0x18; 0x18; 0x00];
   [0x7e; 0x06; 0x0c; 0x18; 0x30; 0x60; 0x7e; 0x00];
   [0x3c; 0x30; 0x30; 0x30; 0x30; 0x30; 0x3c; 0x00];
   [0x40; 0x60; 0x30; 0x18; 0x0c; 0x06; 0x02; 0x00];
   [0x3c; 0x0c; 0x0c; 0x0c; 0x0c; 0x0c; 0x3c; 0x00];
   [0x10; 0x38; 0x6c; 0x00; 0x00; 0x00; 0x00; 0x00];
   [0x00; 0x00; 0x00; 0x00; 0x00; 0x00; 0x00; 0xff];
   [0x30; 0x30; 0x18; 0x00; 0x00; 0x00; 0x00; 0x00];
   [0x00; 0x00; 0x3c; 0x06; 0x3e; 0x66; 0x3e; 0x00];
   [0x60; 0x60; 0x7c; 0x66; 0x66; 0x66; 0x7c; 0x00];
   [0x00; 0x00; 0x3c; 0x60; 0x60; 0x66; 0x3c; 0x00];
   [0x06; 0x06; 0x3e; 0x66; 0x66; 0x66; 0x3e; 0x00];
   [0x00; 0x00; 0x3c; 0x66; 0x7e; 0x60; 0x3c; 0x00];
   [0x1c; 0x30; 0x78; 0x30; 0x30; 0x30; 0x30; 0x00];
   [0x00; 0x00; 0x3e; 0x66; 0x66; 0x3e; 0x06; 0x3c];
   [0x60; 0x60; 0x7c; 0x66; 0x66; 0x66; 0x66; 0x00];
   [0x18; 0x00; 0x38; 0x18; 0x18; 0x18; 0x3c; 0x00];
   [0x06; 0x00; 0x06; 0x06; 0x06; 0x66; 0x3c; 0x00];
   [0x60; 0x60; 0x66; 0x6c; 0x78; 0x6c; 0x66; 0x00];
   [0x30; 0x30; 0x30; 0x30; 0x30; 0x30; 0x1c; 0x00];
   [0x00; 0x00; 0x66; 0x7f; 0x7f; 0x6b; 0x63; 0x00];
   [0x00; 0x00; 0x7c; 0x66; 0x66; 0x66; 0x66; 0x00];
   [0x00; 0x00; 0x3c; 0x66; 0x66; 0x66; 0x3c; 0x00];
   [0x00; 0x00; 0x7c; 0x66; 0x66; 0x7c; 0x60; 0x60];
   [0x00; 0x00; 0x3e; 0x66; 0x66; 0x3e; 0x06; 0x06];
   [0x00; 0x00; 0x7c; 0x66; 0x60; 0x60; 0x60; 0x00];
   [0x00; 0x00; 0x3e; 0x60; 0x3c; 0x06; 0x7c; 0x00];
   [0x30; 0x30; 0x78; 0x30; 0x30; 0x30; 0x1c; 0x00];
   [0x00; 0x00; 0x66; 0x66; 0x66; 0x66; 0x3e; 0x00];
   [0x00; 0x00; 0x66; 0x66; 0x66; 0x3c; 0x18; 0x00];
   [0x00; 0x00; 0x63; 0x6b; 0x7f; 0x7f; 0x36; 0x00];
   [0x00; 0x00; 0x66; 0x3c; 0x18; 0x3c; 0x66; 0x00];
   [0x00; 0x00; 0x66; 0x66; 0x66; 0x3e; 0x06; 0x3c];
   [0x00; 0x00; 0x7e; 0x0c; 0x18; 0x30; 0x7e; 0x00];
   [0x0c; 0x18; 0x18; 0x70; 0x18; 0x18; 0x0c; 0x00];
   [0x18; 0x18; 0x18; 0x00; 0x18; 0x18; 0x18; 0x00];
   [0x30; 0x18; 0x18; 0x0e; 0x18; 0x18; 0x30; 0x00];
   [0x31; 0x6b; 0x46; 0x00; 0x00; 0x00; 0x00; 0x00];
   replicate 8 0].

Lemma font_shape : length FONT_BASIC = 128%nat /\ Forall (fun g => length g = 8%nat /\ Forall is_byte g) FONT_BASIC.
Proof. split; [reflexivity|]. apply (bool_decide_unpack _). vm_compute. exact I. Qed.
