(* ===== verification/Io.v ===== *)
(** * Port and memory-mapped I/O

    The processor's [in], [out] and volatile accesses to device registers.
    The hardware is a parameter: a state [H] and what each access does to it.
    What a driver relies on is stated about its own device, in its file. *)

From S2P Require Import Prelude.

(** ** Parts of a larger state *)

(** Run a computation over a part of the state. *)
Definition zoom {S T A} (part : S -> T) (set_part : T -> S -> S) (m : M T A) : M S A := fun s =>
  match m (part s) with
  | Ret (a, t) => Ret (a, set_part t s)
  | Panic => Panic
  | Diverge => Diverge
  end.

Lemma run_zoom {S T A} (part : S -> T) set_part (m : M T A) s a t :
  m (part s) = Ret (a, t) -> zoom part set_part m s = Ret (a, set_part t s).
Proof. intros Hm. unfold zoom. by rewrite Hm. Qed.

(** ** Polling *)

(** [for _ in 0..n { if test { break } }]: what the pass that left the loop
    says, or [None].  The bound is in binary, since the drivers poll millions
    of times. *)
Fixpoint poll {S X} (n : positive) (test : M S (option X)) : M S (option X) :=
  match n with
  | xH => test
  | xO n => r ← poll n test; match r with Some x => mret (Some x) | None => poll n test end
  | xI n =>
      r ← test;
      match r with
      | Some x => mret (Some x)
      | None => r ← poll n test; match r with Some x => mret (Some x) | None => poll n test end
      end
  end.

(** [P k] holds before a test that can still fail [k] times, [Q x] when it
    answers [x]. *)
Definition counts_down {S X} (P : nat -> S -> Prop) (Q : X -> S -> Prop) (test : M S (option X)) : Prop :=
  forall k s, P k s -> exists r s', test s = Ret (r, s') /\
    match r with Some x => Q x s' | None => exists k', (k' < k)%nat /\ P k' s' end.

Lemma poll_ok {S X} (P : nat -> S -> Prop) (Q : X -> S -> Prop) (test : M S (option X)) n :
  counts_down P Q test -> forall k s, P k s -> exists r s', poll n test s = Ret (r, s') /\
    match r with Some x => Q x s' | None => exists k', (k' + Pos.to_nat n <= k)%nat /\ P k' s' end.
Proof.
  intros Ht.
  assert (forall n, (forall k s, P k s -> exists r s', poll n test s = Ret (r, s') /\
      match r with Some x => Q x s' | None => exists k', (k' + Pos.to_nat n <= k)%nat /\ P k' s' end) ->
    forall k s, P k s -> exists r s', poll n~0 test s = Ret (r, s') /\
      match r with Some x => Q x s' | None => exists k', (k' + Pos.to_nat n~0 <= k)%nat /\ P k' s' end) as Htwice.
  { intros m IH k s HP. cbn [poll]. destruct (IH k s HP) as ([x|] & s1 & R1 & H1); rewrite (run_bind _ _ _ _ _ R1).
    { by exists (Some x), s1. }
    destruct H1 as (k1 & L1 & P1). destruct (IH k1 s1 P1) as ([x|] & s2 & R2 & H2); [by exists (Some x), s2|].
    destruct H2 as (k2 & L2 & P2). exists None, s2. split; [done|]. exists k2. split; [lia|done]. }
  induction n as [n IH|n IH|]; intros k s HP.
  - change (poll n~1 test) with (r ← test; match r with Some x => mret (Some x) | None => poll n~0 test end).
    destruct (Ht k s HP) as ([x|] & s1 & R1 & H1); rewrite (run_bind _ _ _ _ _ R1); [by exists (Some x), s1|].
    destruct H1 as (k1 & L1 & P1). destruct (Htwice n IH k1 s1 P1) as ([x|] & s2 & R2 & H2); [by exists (Some x), s2|].
    destruct H2 as (k2 & L2 & P2). exists None, s2. split; [done|]. exists k2. split; [lia|done].
  - by apply Htwice.
  - destruct (Ht k s HP) as ([x|] & s1 & R1 & H1); [by exists (Some x), s1|].
    destruct H1 as (k1 & L1 & P1). exists None, s1. split; [done|]. exists k1. split; [lia|done].
Qed.

(** So polling succeeds when fewer failures are left than the bound. *)
Lemma poll_success {S X} (P : nat -> S -> Prop) (Q : X -> S -> Prop) (test : M S (option X)) n k s :
  counts_down P Q test -> P k s -> (k < Pos.to_nat n)%nat ->
  exists x s', poll n test s = Ret (Some x, s') /\ Q x s'.
Proof.
  intros Ht HP Hk. destruct (poll_ok P Q test n Ht k s HP) as ([x|] & s' & R & H); [by exists x, s'|].
  destruct H as (k' & L & _). lia.
Qed.

(** A test that keeps [P], whatever it answers. *)
Lemma poll_keeps {S X} (P : S -> Prop) (test : M S (option X)) n :
  (forall s, P s -> exists r s', test s = Ret (r, s') /\ P s') ->
  forall s, P s -> exists r s', poll n test s = Ret (r, s') /\ P s'.
Proof.
  intros Ht.
  induction n as [n IH|n IH|]; intros s HP; cbn [poll].
  - destruct (Ht s HP) as ([x|] & s1 & R1 & P1); rewrite (run_bind _ _ _ _ _ R1); [by exists (Some x), s1|].
    destruct (IH s1 P1) as ([x|] & s2 & R2 & P2); rewrite (run_bind _ _ _ _ _ R2); [by exists (Some x), s2|].
    by apply IH.
  - destruct (IH s HP) as ([x|] & s2 & R2 & P2); rewrite (run_bind _ _ _ _ _ R2); [by exists (Some x), s2|].
    by apply IH.
  - by apply Ht.
Qed.

(** [while test {}]: the source does not bound these loops. *)
Fixpoint spin {S} (fuel : nat) (test : M S bool) : M S unit :=
  match fuel with
  | O => fun _ => Diverge
  | S fuel => b ← test; if b : bool then mret tt else spin fuel test
  end.

Lemma spin_ok {S} (P : nat -> S -> Prop) (Q : S -> Prop) (test : M S bool) :
  (forall k s, P k s -> exists b s', test s = Ret (b, s') /\
     if b : bool then Q s' else exists k', (k' < k)%nat /\ P k' s') ->
  forall fuel k s, P k s -> (k < fuel)%nat -> exists s', spin fuel test s = Ret (tt, s') /\ Q s'.
Proof.
  intros Ht fuel. induction fuel as [|fuel IH]; intros k s HP Hk; [lia|]. cbn [spin].
  destruct (Ht k s HP) as ([|] & s1 & R1 & H1); rewrite (run_bind _ _ _ _ _ R1); [by exists s1|].
  destruct H1 as (k1 & L1 & P1). apply (IH k1); [done|lia].
Qed.

(** ** The hardware *)

(** [timer_irqs] is the number of timer interrupts taken since it was last
    looked at. *)
Class Hardware (H : Type) := {
  port_out8 : Z -> Z -> H -> H;
  port_in8 : Z -> H -> Z * H;
  port_out32 : Z -> Z -> H -> H;
  port_in32 : Z -> H -> Z * H;
  mmio_store : Z -> Z -> H -> H;
  mmio_load : Z -> H -> Z * H;
  timer_irqs : H -> Z * H
}.

Section io.
Context {H : Type} {HW : Hardware H}.

(** @src ross-kernel/src/pic.rs 1-12 outb *)
Definition outb (port val : Z) : M H unit := fun h => Ret (tt, port_out8 port val h).
(** @src ross-kernel/src/pic.rs 14-27 inb *)
Definition inb (port : Z) : M H Z := fun h => Ret (port_in8 port h).

Definition outl (port val : Z) : M H unit := fun h => Ret (tt, port_out32 port val h).
Definition inl (port : Z) : M H Z := fun h => Ret (port_in32 port h).

(** [read_volatile] and [write_volatile] of a 32-bit register. *)
Definition read_volatile (addr : Z) : M H Z := fun h => Ret (mmio_load addr h).
Definition write_volatile (addr val : Z) : M H unit := fun h => Ret (tt, mmio_store addr val h).

End io.

(** ** Recording hardware

    What was written, newest last, with no answers but zero. *)

Inductive Access :=
  | Out8 (port val : Z)
  | In8 (port : Z)
  | Out32 (port val : Z)
  | In32 (port : Z)
  | Store (addr val : Z)
  | Load (addr : Z).

Definition Trace : Type := list Access.

Definition trace_hw : Hardware Trace := {|
  port_out8 p v t := t ++ [Out8 p v];
  port_in8 p t := (0, t ++ [In8 p]);
  port_out32 p v t := t ++ [Out32 p v];
  port_in32 p t := (0, t ++ [In32 p]);
  mmio_store a v t := t ++ [Store a v];
  mmio_load a t := (0, t ++ [Load a]);
  timer_irqs t := (1, t)
|}.
