(* ===== verification/Writer.v ===== *)
(** * The framebuffer terminal ([ross-kernel/src/writer.rs])

    Text drawn pixel by pixel into a framebuffer of [w] by [h] pixels.  The
    framebuffer is a map from pixel indices, so that a write outside the
    screen is visible as such: [drawing_in_bounds] shows there is none. *)

From S2P Require Import Prelude Str Font.

(** @src ross-kernel/src/writer.rs 6-6 BG *)
Definition BG : Z := 0x00180702.
(** @src ross-kernel/src/writer.rs 7-7 FG *)
Definition FG : Z := 0x00FFFFFF.
(** @src ross-kernel/src/writer.rs 8-8 DIM *)
Definition DIM : Z := 0x00999999.
(** @src ross-kernel/src/writer.rs 9-9 ACCENT *)
Definition ACCENT : Z := 0x0000FF99.
(** @src ross-kernel/src/writer.rs 10-10 RED *)
Definition RED : Z := 0x004444FF.
(** @src ross-kernel/src/writer.rs 11-11 YELLOW *)
Definition YELLOW : Z := 0x0000CCFF.
(** @src ross-kernel/src/writer.rs 14-14 LEFT_MARGIN *)
Definition LEFT_MARGIN : Z := 20.
(** @src ross-kernel/src/shell.rs 19-19 TERM_Y *)
Definition TERM_Y : Z := 60.

(** [fb] holds the pixels written so far.
    @src ross-kernel/src/writer.rs 18-27 Writer *)
Record Writer := mkWriter {
  fb : gmap Z Z;
  w : Z;
  h : Z;
  x : Z;
  y : Z;
  input_x : Z
}.

(** @src ross-kernel/src/writer.rs 30-39 Writer::new *)
Definition Writer_new (screen_width screen_height : Z) : Writer :=
  mkWriter ∅ screen_width screen_height LEFT_MARGIN 50 LEFT_MARGIN.

Notation Wr := (M Writer).

(** [*self.framebuffer.add(i) = color]. *)
Definition set_pixel (i color : Z) : Wr unit := fun wr =>
  Ret (tt, mkWriter (<[i := color]> (fb wr)) (w wr) (h wr) (x wr) (y wr) (input_x wr)).

(** @src ross-kernel/src/writer.rs 41-44 Writer::set_pos *)
Definition set_pos (px py : Z) : Wr unit := fun wr =>
  Ret (tt, mkWriter (fb wr) (w wr) (h wr) px py (input_x wr)).

(** @src ross-kernel/src/writer.rs 46-55 Writer::fill_rect *)
Definition fill_rect (x0 y0 rw rh color : Z) : Wr unit :=
  wr ← get;
  y1 ← lift (cadd 64 y0 rh);
  for_in y0 (y1 `min` h wr) (fun row =>
    x1 ← lift (cadd 64 x0 rw);
    for_in x0 (x1 `min` w wr) (fun col => set_pixel (row * w wr + col) color)).

(** @src ross-kernel/src/writer.rs 97-105 Writer::newline *)
Definition newline (scale : Z) : Wr unit :=
  wr ← get;
  y1 ← lift (cadd 64 (y wr) (8 * scale + 4));
  set_pos LEFT_MARGIN y1;;
  bottom ← lift (cadd 64 y1 (8 * scale));
  if h wr <=? bottom then
    set_pos LEFT_MARGIN (TERM_Y + 20);;
    rest ← lift (csub (h wr) (TERM_Y + 20));
    fill_rect 0 (TERM_Y + 20) (w wr) rest BG
  else mret tt.

(** The pixels of one bit of a glyph.
    @src ross-kernel/src/writer.rs 69-77 Writer::put_char *)
Definition put_dot (gx gy color scale : Z) : Wr unit :=
  wr ← get;
  for_in 0 scale (fun sy =>
    for_in 0 scale (fun sx =>
      px ← lift (cadd 64 (x wr) (gx * scale + sx));
      py ← lift (cadd 64 (y wr) (gy * scale + sy));
      if (px <? w wr) && (py <? h wr) then set_pixel (py * w wr + px) color else mret tt)).

(** @src ross-kernel/src/writer.rs 64-80 Writer::put_char *)
Definition put_glyph (ch color scale : Z) : Wr unit :=
  let glyph := FONT_BASIC !!! Z.to_nat ch in
  for_in 0 8 (fun gy =>
    let row := glyph !!! Z.to_nat gy in
    for_in 0 8 (fun gx =>
      if Z.land (Z.shiftr row (7 - gx)) 1 =? 1 then put_dot gx gy color scale else mret tt)).

(** @src ross-kernel/src/writer.rs 57-82 Writer::put_char *)
Definition put_char (ch color scale : Z) : Wr unit :=
  if ch =? 10 then newline scale
  else if 128 <=? ch then mret tt
  else
    let advance := 8 * scale + scale in
    wr ← get;
    right ← lift (cadd 64 (x wr) advance);
    (if w wr <? right then newline scale else mret tt);;
    put_glyph ch color scale;;
    wr ← get;
    x1 ← lift (cadd 64 (x wr) advance);
    set_pos x1 (y wr).

(** @src ross-kernel/src/writer.rs 84-86 Writer::put_str *)
Fixpoint put_str (s : str) (color scale : Z) : Wr unit :=
  match s with
  | [] => mret tt
  | b :: s => put_char b color scale;; put_str s color scale
  end.

(** @src ross-kernel/src/writer.rs 88-95 Writer::backspace *)
Definition backspace (scale : Z) : Wr unit :=
  let char_w := 8 * scale + scale in
  wr ← get;
  left ← lift (cadd 64 (input_x wr) char_w);
  if left <=? x wr then
    set_pos (x wr - char_w) (y wr);;
    fill_rect (x wr - char_w) (y wr) char_w (8 * scale) BG
  else mret tt.

(** @src ross-kernel/src/writer.rs 107-110 Writer::mark_input_start *)
Definition mark_input_start : Wr unit := fun wr =>
  Ret (tt, mkWriter (fb wr) (w wr) (h wr) (x wr) (y wr) (x wr)).

(** [write!(writer, ..)].
    @src ross-kernel/src/writer.rs 113-118 Writer::write_str *)
Definition write_str (s : str) : Wr unit := put_str s FG 1.

(** ** Staying on the screen *)

(** Every pixel written lies on the screen, the cursor is within reach. *)
Record screen_ok (wr : Writer) : Prop := {
  so_w : 0 <= w wr < 2 ^ 31;
  so_h : TERM_Y + 20 <= h wr < 2 ^ 31;
  so_x : 0 <= x wr < 2 ^ 32 - 9 * 2 ^ 16;
  so_y : 0 <= y wr < 2 ^ 32;
  so_in : 0 <= input_x wr < 2 ^ 32;
  so_fb i : is_Some (fb wr !! i) -> 0 <= i < w wr * h wr
}.

(** Only pixels changed. *)
Definition same_cursor (a b : Writer) : Prop :=
  w a = w b /\ h a = h b /\ x a = x b /\ y a = y b /\ input_x a = input_x b.

Definition drawn (wr wr' : Writer) : Prop := screen_ok wr' /\ same_cursor wr wr'.

(** The screen is the same one. *)
Definition kept (wr wr' : Writer) : Prop := screen_ok wr' /\ w wr' = w wr /\ h wr' = h wr.

Lemma drawn_refl wr : screen_ok wr -> drawn wr wr.
Proof. done. Qed.

Lemma set_pixel_ok wr row col color :
  screen_ok wr -> 0 <= row < h wr -> 0 <= col < w wr ->
  exists wr', set_pixel (row * w wr + col) color wr = Ret (tt, wr') /\ drawn wr wr'.
Proof.
  intros [Hw Hh Hx Hy Hi Hf] Hr Hc. eexists. split; [done|]. split; [|done].
  constructor; try done. intros i. cbn. destruct (decide (i = row * w wr + col)) as [->|Hne].
  - intros _. nia.
  - rewrite lookup_insert_ne by done. apply Hf.
Qed.

Lemma drawn_loop wr lo hi (f : Z -> Wr unit) :
  screen_ok wr -> lo <= hi ->
  (forall i wr1, lo <= i < hi -> drawn wr wr1 -> exists wr2, f i wr1 = Ret (tt, wr2) /\ drawn wr wr2) ->
  exists wr', for_in lo hi f wr = Ret (tt, wr') /\ drawn wr wr'.
Proof.
  intros Hok Hle Hf. apply (for_in_inv (fun _ wr1 => drawn wr wr1)); [done| |by apply drawn_refl].
  intros i wr1 Hi Hd. by apply Hf.
Qed.

Lemma drawn_trans a b c : drawn a b -> drawn b c -> drawn a c.
Proof. unfold drawn, same_cursor. intros [_ H1] [H2 H3]. split; [done|]. intuition congruence. Qed.

Lemma run_cadd {B} a b (f : Z -> Wr B) wr : a + b < 2 ^ 64 -> (lift (cadd 64 a b) ≫= f) wr = f (a + b) wr.
Proof. intros Hl. unfold cadd. rewrite (proj2 (Z.ltb_lt _ _)) by done. done. Qed.

Lemma fill_rect_ok wr x0 y0 rw rh color :
  screen_ok wr -> 0 <= x0 < 2 ^ 33 -> 0 <= y0 < 2 ^ 33 -> 0 <= rw < 2 ^ 33 -> 0 <= rh < 2 ^ 33 ->
  exists wr', fill_rect x0 y0 rw rh color wr = Ret (tt, wr') /\ drawn wr wr'.
Proof.
  intros Hok Hx Hy Hw Hh. unfold fill_rect. rewrite (run_bind get _ wr wr wr) by done. rewrite run_cadd by lia.
  destruct (Z.le_gt_cases y0 ((y0 + rh) `min` h wr)) as [Hle|Hgt].
  2: { exists wr. rewrite for_in_empty by lia. by split; [|apply drawn_refl]. }
  apply drawn_loop; [done|done|]. intros row wr1 Hr Hd1. pose proof Hd1 as [Hok1 (Ew & Eh & _)].
  rewrite run_cadd by lia.
  destruct (Z.le_gt_cases x0 ((x0 + rw) `min` w wr)) as [Hle2|Hgt2].
  2: { exists wr1. rewrite for_in_empty by lia. by split. }
  destruct (drawn_loop wr1 x0 ((x0 + rw) `min` w wr) (fun col => set_pixel (row * w wr + col) color))
    as (wr2 & R2 & Hd2); [done|lia| |exists wr2; split; [done|by eapply drawn_trans]].
  intros col wr2 Hc Hd2. pose proof Hd2 as [Hok2 (Ew2 & Eh2 & _)]. rewrite Ew, Ew2.
  destruct (set_pixel_ok wr2 row col color Hok2) as (wr3 & R3 & Hd3); [lia|lia|].
  exists wr3. split; [done|]. by eapply drawn_trans.
Qed.

Lemma set_pos_ok wr px py :
  screen_ok wr -> 0 <= px < 2 ^ 32 - 9 * 2 ^ 16 -> 0 <= py < 2 ^ 32 ->
  exists wr', set_pos px py wr = Ret (tt, wr') /\ kept wr wr' /\ x wr' = px /\ y wr' = py /\ input_x wr' = input_x wr.
Proof. intros [] Hx Hy. eexists. split; [done|]. split_and!; done. Qed.

Lemma kept_refl wr : screen_ok wr -> kept wr wr.
Proof. done. Qed.

Lemma kept_trans a b c : kept a b -> kept b c -> kept a c.
Proof. unfold kept. intuition congruence. Qed.

Lemma drawn_kept a b : drawn a b -> kept a b.
Proof. unfold drawn, kept, same_cursor. intuition congruence. Qed.

Lemma newline_ok wr scale :
  screen_ok wr -> 1 <= scale <= 2 ^ 16 ->
  exists wr', newline scale wr = Ret (tt, wr') /\ kept wr wr' /\ x wr' = LEFT_MARGIN /\ input_x wr' = input_x wr.
Proof.
  intros Hok Hs. pose proof Hok as [Hw Hh Hx Hy Hi Hf]. unfold newline.
  rewrite (run_bind get _ wr wr wr), run_cadd by done || lia.
  unfold set_pos at 1. erewrite run_bind by done. rewrite run_cadd by lia.
  set (y1 := y wr + (8 * scale + 4)) in *. case_match eqn:Eb.
  - unfold set_pos. erewrite run_bind by done. unfold csub.
    rewrite (proj2 (Z.leb_le _ _)) by lia. erewrite run_bind by done.
    match goal with |- exists _, fill_rect ?a ?b ?c ?d ?e ?s = _ /\ _ =>
      destruct (fill_rect_ok s a b c d e) as (w2 & R2 & Hd) end; unfold TERM_Y, LEFT_MARGIN in *; cbn; try lia.
    { constructor; cbn; try done; unfold TERM_Y; lia. }
    exists w2. split; [done|]. destruct Hd as [Hok2 (E1 & E2 & E3 & E4 & E5)]. cbn in *. done.
  - apply Z.leb_gt in Eb. eexists. split; [done|]. split_and!; try done.
    split; [|done]. constructor; cbn; try done; unfold LEFT_MARGIN; lia.
Qed.

Lemma put_dot_ok wr gx gy color scale :
  screen_ok wr -> 0 <= gx < 8 -> 0 <= gy < 8 -> 1 <= scale <= 2 ^ 16 ->
  exists wr', put_dot gx gy color scale wr = Ret (tt, wr') /\ drawn wr wr'.
Proof.
  intros Hok Hgx Hgy Hs. pose proof Hok as [Hw Hh Hx Hy Hi Hf]. unfold put_dot.
  assert (0 <= gx * scale <= 7 * 2 ^ 16 /\ 0 <= gy * scale <= 7 * 2 ^ 16) as [Bx By] by nia.
  rewrite (run_bind get _ wr wr wr) by done.
  apply drawn_loop; [done|lia|]. intros sy wr1 Hsy Hd1.
  destruct (drawn_loop wr1 0 scale (fun sx =>
      px ← lift (cadd 64 (x wr) (gx * scale + sx));
      py ← lift (cadd 64 (y wr) (gy * scale + sy));
      if (px <? w wr) && (py <? h wr) then set_pixel (py * w wr + px) color else mret tt))
    as (wr2 & R2 & Hd2); [apply Hd1|lia| |exists wr2; split; [done|by eapply drawn_trans]].
  intros sx wr2 Hsx Hd2. do 2 rewrite run_cadd by lia.
  case_match eqn:Eb; [|by exists wr2].
  apply andb_true_iff in Eb as [Ex%Z.ltb_lt Ey%Z.ltb_lt].
  pose proof Hd1 as [_ (Ew1 & Eh1 & _)]. pose proof Hd2 as [Hok2 (Ew2 & Eh2 & _)].
  replace (w wr) with (w wr2) by congruence.
  destruct (set_pixel_ok wr2 (y wr + (gy * scale + sy)) (x wr + (gx * scale + sx)) color Hok2)
    as (wr3 & R3 & Hd3); [lia|lia|]. exists wr3. split; [done|]. by eapply drawn_trans.
Qed.

Lemma put_glyph_ok wr ch color scale :
  screen_ok wr -> 1 <= scale <= 2 ^ 16 ->
  exists wr', put_glyph ch color scale wr = Ret (tt, wr') /\ drawn wr wr'.
Proof.
  intros Hok Hs. unfold put_glyph. apply drawn_loop; [done|lia|]. intros gy wr1 Hgy Hd1.
  match goal with |- exists _, for_in 0 8 ?f wr1 = _ /\ _ =>
    destruct (drawn_loop wr1 0 8 f) as (wr2 & R2 & Hd2) end;
    [apply Hd1|lia| |exists wr2; split; [done|by eapply drawn_trans]].
  intros gx wr2 Hgx Hd2. cbn. case_match; [|by exists wr2].
  destruct (put_dot_ok wr2 gx gy color scale) as (wr3 & R3 & Hd3); [apply Hd2|lia|lia|lia|].
  exists wr3. split; [done|]. by eapply drawn_trans.
Qed.

Lemma put_char_ok wr ch color scale :
  screen_ok wr -> 1 <= scale <= 2 ^ 16 ->
  exists wr', put_char ch color scale wr = Ret (tt, wr') /\ kept wr wr' /\ input_x wr' = input_x wr.
Proof.
  intros Hok Hs. pose proof Hok as [Hw Hh Hx Hy Hi Hf]. unfold put_char. case_match.
  { destruct (newline_ok wr scale Hok Hs) as (w1 & R & K & E & Ei). by exists w1. }
  case_match. { exists wr. by split_and!. }
  rewrite (run_bind get _ wr wr wr), run_cadd by done || lia.
  assert (exists w1, (if w wr <? x wr + (8 * scale + scale) then newline scale else mret tt) wr = Ret (tt, w1) /\
    kept wr w1 /\ x w1 + 9 * scale <= Z.max (w wr) (LEFT_MARGIN + 9 * scale) /\ input_x w1 = input_x wr)
    as (w1 & R1 & K1 & L1 & I1).
  { case_match eqn:E.
    - destruct (newline_ok wr scale Hok Hs) as (w1 & R & K & E1 & Ei). exists w1. split_and!; [done|apply K..| |done]. lia.
    - apply Z.ltb_ge in E. exists wr. split_and!; [done|done|lia|done]. }
  rewrite (run_bind _ _ _ _ _ R1).
  destruct (put_glyph_ok w1 ch color scale) as (w2 & R2 & Hd2); [apply K1|done|].
  rewrite (run_bind _ _ _ _ _ R2). rewrite (run_bind get _ w2 w2 w2) by done.
  pose proof Hd2 as [Hok2 (Ew2 & Eh2 & Ex2 & Ey2 & Ei2)]. pose proof K1 as [Hok1 _].
  unfold LEFT_MARGIN in L1. destruct Hok1. rewrite run_cadd by lia.
  destruct (set_pos_ok w2 (x w2 + (8 * scale + scale)) (y w2) Hok2) as (w3 & R3 & K3 & E3 & _ & I3); [lia|lia|].
  exists w3. split_and!; [done| |congruence].
  eapply kept_trans; [apply K1|]. eapply kept_trans; [by apply drawn_kept|done].
Qed.

Lemma put_str_ok s color scale : forall wr,
  screen_ok wr -> 1 <= scale <= 2 ^ 16 ->
  exists wr', put_str s color scale wr = Ret (tt, wr') /\ kept wr wr' /\ input_x wr' = input_x wr.
Proof.
  induction s as [|c s IH]; intros wr Hok Hs; cbn [put_str].
  { exists wr. split_and!; by try apply kept_refl. }
  destruct (put_char_ok wr c color scale Hok Hs) as (w1 & R1 & K1 & I1).
  rewrite (run_bind _ _ _ _ _ R1).
  destruct (IH w1) as (w2 & R2 & K2 & I2); [apply K1|done|].
  exists w2. split_and!; [done|by eapply kept_trans|congruence].
Qed.

Lemma backspace_ok wr scale :
  screen_ok wr -> 1 <= scale <= 2 ^ 16 ->
  exists wr', backspace scale wr = Ret (tt, wr') /\ kept wr wr' /\ input_x wr' = input_x wr /\
    (input_x wr <= x wr -> input_x wr <= x wr').
Proof.
  intros Hok Hs. pose proof Hok as [Hw Hh Hx Hy Hi Hf]. unfold backspace.
  rewrite (run_bind get _ wr wr wr), run_cadd by done || lia. case_match eqn:E; [|by exists wr].
  apply Z.leb_le in E.
  destruct (set_pos_ok wr (x wr - (8 * scale + scale)) (y wr) Hok) as (w1 & R1 & K1 & E1 & _ & I1); [lia|lia|].
  rewrite (run_bind _ _ _ _ _ R1).
  destruct (fill_rect_ok w1 (x wr - (8 * scale + scale)) (y wr) (8 * scale + scale) (8 * scale) BG)
    as (w2 & R2 & K2); [apply K1|lia..|].
  exists w2. pose proof K2 as [_ (_ & _ & Ex & _ & Ei)]. split_and!; [done| |congruence|lia].
  eapply kept_trans; [done|by apply drawn_kept].
Qed.

(** What the kernel does with the writer: [TextOp]s. *)
Inductive TextOp :=
  | PutStr (s : str) (color scale : Z)
  | Newline (scale : Z)
  | Backspace (scale : Z)
  | MarkInput
  | FillRect (x0 y0 rw rh color : Z).

Definition run_op (op : TextOp) : Wr unit :=
  match op with
  | PutStr s color scale => put_str s color scale
  | Newline scale => newline scale
  | Backspace scale => backspace scale
  | MarkInput => mark_input_start
  | FillRect x0 y0 rw rh color => fill_rect x0 y0 rw rh color
  end.

Fixpoint run_ops (ops : list TextOp) : Wr unit :=
  match ops with
  | [] => mret tt
  | op :: ops => run_op op;; run_ops ops
  end.

(** Scales and rectangles the source could sensibly pass. *)
Definition sane (op : TextOp) : Prop :=
  match op with
  | PutStr _ _ scale | Newline scale | Backspace scale => 1 <= scale <= 2 ^ 16
  | MarkInput => True
  | FillRect x0 y0 rw rh _ => 0 <= x0 < 2 ^ 33 /\ 0 <= y0 < 2 ^ 33 /\ 0 <= rw < 2 ^ 33 /\ 0 <= rh < 2 ^ 33
  end.

Lemma run_op_ok op wr : screen_ok wr -> sane op -> exists wr', run_op op wr = Ret (tt, wr') /\ kept wr wr'.
Proof.
  destruct op as [s color scale|scale|scale| |x0 y0 rw rh color]; intros Hok Hs; cbn [run_op sane] in *.
  - destruct (put_str_ok s color scale wr Hok Hs) as (w1 & R & K & _). by exists w1.
  - destruct (newline_ok wr scale Hok Hs) as (w1 & R & K & _). by exists w1.
  - destruct (backspace_ok wr scale Hok Hs) as (w1 & R & K & _). by exists w1.
  - eexists. split; [done|]. split; [|done]. destruct Hok. constructor; cbn; try done. lia.
  - destruct Hs as (H1 & H2 & H3 & H4).
    destruct (fill_rect_ok wr x0 y0 rw rh color Hok H1 H2 H3 H4) as (w1 & R & K). exists w1.
    split; [done|by apply drawn_kept].
Qed.

Lemma run_ops_ok ops : forall wr, screen_ok wr -> Forall sane ops -> exists wr', run_ops ops wr = Ret (tt, wr') /\ kept wr wr'.
Proof.
  induction ops as [|op ops IH]; intros wr Hok Hs; cbn [run_ops].
  { by exists wr. }
  inversion_clear Hs as [|? ? Hop Hops]. destruct (run_op_ok op wr Hok Hop) as (w1 & R1 & K1).
  destruct (IH w1) as (w2 & R2 & K2); [apply K1|done|]. exists w2.
  rewrite (run_bind _ _ _ _ _ R1). split; [done|by eapply kept_trans].
Qed.

(** [m] draws: it returns and keeps the screen sound. *)
Definition draws (m : Wr unit) : Prop := forall wr, screen_ok wr -> exists wr', m wr = Ret (tt, wr') /\ kept wr wr'.

Lemma draws_seq m1 m2 : draws m1 -> draws m2 -> draws (m1;; m2).
Proof.
  intros H1 H2 wr Hok. destruct (H1 wr Hok) as (w1 & R1 & K1). destruct (H2 w1) as (w2 & R2 & K2); [apply K1|].
  exists w2. rewrite (run_bind _ _ _ _ _ R1). split; [done|by eapply kept_trans].
Qed.

Lemma draws_op op : sane op -> draws (run_op op).
Proof. intros Hs wr Hok. by apply run_op_ok. Qed.

Lemma draws_str s color scale : 1 <= scale <= 2 ^ 16 -> draws (put_str s color scale).
Proof. apply (draws_op (PutStr s color scale)). Qed.

Lemma draws_write s : draws (write_str s).
Proof. by apply draws_str. Qed.

Lemma draws_fill x0 y0 rw rh color :
  0 <= x0 < 2 ^ 33 -> 0 <= y0 < 2 ^ 33 -> 0 <= rw < 2 ^ 33 -> 0 <= rh < 2 ^ 33 -> draws (fill_rect x0 y0 rw rh color).
Proof. intros. by apply (draws_op (FillRect x0 y0 rw rh color)). Qed.

Lemma draws_pos px py : 0 <= px < 2 ^ 31 -> 0 <= py < 2 ^ 32 -> draws (set_pos px py).
Proof.
  intros Hx Hy wr Hok. destruct (set_pos_ok wr px py Hok) as (w1 & R & K & _); [lia|done|]. by exists w1.
Qed.

#[export] Hint Resolve draws_seq draws_str draws_write draws_fill draws_pos : draw.
Ltac draw := repeat first [apply draws_write | apply draws_str; lia | apply draws_fill; lia | apply draws_pos; lia | apply draws_seq].

(** ** The property *)

(** C29: whatever text is printed, erased or cleared on a screen of at least 80
    lines, drawing never panics, every pixel written lies inside the
    framebuffer, and the cursor stays within the range in which none of the
    coordinate sums overflows. *)
Theorem drawing_in_bounds (sw sh : Z) (ops : list TextOp)
  (Hw : 0 <= sw < 2 ^ 31) (Hh : TERM_Y + 20 <= sh < 2 ^ 31) (Hs : Forall sane ops) :
  exists wr, run_ops ops (Writer_new sw sh) = Ret (tt, wr) /\ w wr = sw /\ h wr = sh /\
    0 <= x wr < 2 ^ 32 /\ 0 <= y wr < 2 ^ 32 /\
    (forall i, is_Some (fb wr !! i) -> 0 <= i < sw * sh).
Proof.
  destruct (run_ops_ok ops (Writer_new sw sh)) as (wr & R & [Hx Hy Hi Hf Hc Hb] & E1 & E2); [|done|].
  - constructor; cbn; try lia; try done. intros i. rewrite lookup_empty. by intros [? ?].
  - exists wr. split; [done|]. cbn in *. rewrite <- E1, <- E2. split_and!; try done; lia.
Qed.

Example drawing_in_bounds_witness :
  exists wr, run_ops [PutStr [82; 10; 79] FG 1; MarkInput; PutStr [83] ACCENT 2; Backspace 2]
                     (Writer_new 40 100) = Ret (tt, wr) /\
    w wr = 40 /\ h wr = 100 /\ 0 <= x wr < 2 ^ 32 /\ 0 <= y wr < 2 ^ 32 /\
    (forall i, is_Some (fb wr !! i) -> 0 <= i < 40 * 100).
Proof.
  apply (drawing_in_bounds 40 100).
  - lia.
  - unfold TERM_Y; lia.
  - repeat constructor; cbn; lia.
Defined.
