(* ===== verification/Pci.v ===== *)
(** * PCI enumeration ([ross-kernel/src/pci.rs])

    The scan of the configuration space through the ports 0xCF8 and 0xCFC.
    [enumerate_spec]: the registry holds exactly the functions present, in
    order, each with the fields of its configuration header. *)

From Stdlib Require Import String.
From S2P Require Import Prelude Io.

(** @src ross-kernel/src/pci.rs 9-9 CONFIG_ADDRESS *)
Definition CONFIG_ADDRESS : Z := 0xCF8.
(** @src ross-kernel/src/pci.rs 10-10 CONFIG_DATA *)
Definition CONFIG_DATA : Z := 0xCFC.

(** @src ross-kernel/src/pci.rs 12-23 PciDevice *)
Record PciDevice := mkPciDevice {
  bus : Z;
  device : Z;
  function : Z;
  vendor_id : Z;
  device_id : Z;
  class : Z;
  subclass : Z;
  prog_if : Z;
  header_type : Z
}.

#[global] Instance PciDevice_eq_dec : EqDecision PciDevice.
Proof. solve_decision. Defined.

(** @src ross-kernel/src/pci.rs 35-41 address *)
Definition address (bus device function offset : Z) : Z :=
  Z.lor (Z.lor (Z.lor (Z.lor 0x80000000 (Z.shiftl bus 16)) (Z.shiftl device 11)) (Z.shiftl function 8))
        (Z.land offset 0xFC).

(** The hardware and the registry [DEVICES].
    @src ross-kernel/src/pci.rs 33-33 DEVICES *)
Record Pci (H : Type) := mkPci { pci_hw : H; DEVICES : list PciDevice }.
Arguments mkPci {H} _ _.
Arguments pci_hw {H} _.
Arguments DEVICES {H} _.

Section pci.
Context {H : Type} {HW : Hardware H}.

(** @src ross-kernel/src/pci.rs 43-61 read_config_dword *)
Definition read_config_dword (bus device function offset : Z) : M H Z :=
  let addr := address bus device function offset in
  outl CONFIG_ADDRESS addr;;
  inl CONFIG_DATA.

(** @src ross-kernel/src/pci.rs 63-67 read_config_word *)
Definition read_config_word (bus device function offset : Z) : M H Z :=
  dw ← read_config_dword bus device function (Z.land offset 0xFC);
  let shift := Z.land offset 2 * 8 in
  mret (Z.land (Z.shiftr dw shift) 0xFFFF).

(** @src ross-kernel/src/pci.rs 69-73 read_config_byte *)
Definition read_config_byte (bus device function offset : Z) : M H Z :=
  dw ← read_config_dword bus device function (Z.land offset 0xFC);
  let shift := Z.land offset 3 * 8 in
  mret (Z.land (Z.shiftr dw shift) 0xFF).

(** @src ross-kernel/src/pci.rs 27-30 PciDevice::read_bar *)
Definition read_bar (d : PciDevice) (index : Z) : M H Z :=
  if index <? 6 then read_config_dword (bus d) (device d) (function d) (0x10 + index * 4) else panic.

(** @src ross-kernel/src/pci.rs 75-88 probe *)
Definition probe (bus device function : Z) : M H (option PciDevice) :=
  vendor_id ← read_config_word bus device function 0x00;
  if vendor_id =? 0xFFFF then mret None
  else
    device_id ← read_config_word bus device function 0x02;
    prog_if ← read_config_byte bus device function 0x09;
    subclass ← read_config_byte bus device function 0x0A;
    class ← read_config_byte bus device function 0x0B;
    header_type ← read_config_byte bus device function 0x0E;
    mret (Some (mkPciDevice bus device function vendor_id device_id class subclass prog_if header_type)).

Definition on_hw {A} : M H A -> M (Pci H) A := zoom pci_hw (fun h s => mkPci h (DEVICES s)).

(** @src ross-kernel/src/pci.rs 98-98 enumerate *)
Definition push_device (d : PciDevice) : M (Pci H) unit := fun s =>
  Ret (tt, mkPci (pci_hw s) (DEVICES s ++ [d])).

(** One device number: its function 0 and, where that says so, the others.
    @src ross-kernel/src/pci.rs 96-106 enumerate *)
Definition scan_device (bus dev : Z) : M (Pci H) unit :=
  d ← on_hw (probe bus dev 0);
  match d with
  | None => mret tt
  | Some d0 =>
      let multi_function := negb (Z.land (header_type d0) 0x80 =? 0) in
      push_device d0;;
      if multi_function then
        for_in 1 8 (fun func =>
          d ← on_hw (probe bus dev func);
          match d with Some d => push_device d | None => mret tt end)
      else mret tt
  end.

(** @src ross-kernel/src/pci.rs 90-112 enumerate *)
Definition enumerate : M (Pci H) unit :=
  (fun s => Ret (tt, mkPci (pci_hw s) []));;
  for_in 0 256 (fun bus => for_in 0 32 (fun dev => scan_device bus dev)).

(** @src ross-kernel/src/pci.rs 116-120 find_by_class *)
Definition find_by_class (cl subcl : Z) (s : Pci H) : option PciDevice :=
  List.find (fun d => (class d =? cl) && (subclass d =? subcl)) (DEVICES s).

End pci.

(** @src ross-kernel/src/pci.rs 122-138 class_name *)
Definition class_name (class subclass : Z) : string :=
  if class =? 0x00 then "Unclassified"
  else if (class =? 0x01) && (subclass =? 0x00) then "SCSI Controller"
  else if (class =? 0x01) && (subclass =? 0x01) then "IDE Controller"
  else if (class =? 0x01) && (subclass =? 0x06) then "SATA Controller (AHCI)"
  else if (class =? 0x01) && (subclass =? 0x08) then "NVMe Controller"
  else if (class =? 0x02) && (subclass =? 0x00) then "Ethernet Controller"
  else if (class =? 0x03) && (subclass =? 0x00) then "VGA Controller"
  else if class =? 0x04 then "Multimedia Controller"
  else if (class =? 0x06) && (subclass =? 0x00) then "Host Bridge"
  else if (class =? 0x06) && (subclass =? 0x01) then "ISA Bridge"
  else if (class =? 0x06) && (subclass =? 0x04) then "PCI-to-PCI Bridge"
  else if (class =? 0x0C) && (subclass =? 0x03) then "USB Controller"
  else "Unknown".

(** ** Configuration space *)

(** Configuration mechanism 1 of the PCI bus: a dword written to 0xCF8 with
    bit 31 set selects what 0xCFC answers; looking does not change it. *)
Class PciConfig (H : Type) {HW : Hardware H} := {
  cfg : H -> Z -> Z;
  cfg_read h a : fits 32 a -> Z.testbit a 31 = true ->
    exists h', port_in32 CONFIG_DATA (port_out32 CONFIG_ADDRESS a h) = (cfg h a, h') /\
      forall x, cfg h' x = cfg h x
}.

(** Byte and word [k] of the configuration header of a function, in a space
    [c] of dwords. *)
Definition cfg_byte (c : Z -> Z) (b d f k : Z) : Z :=
  c (2 ^ 31 + b * 2 ^ 16 + d * 2 ^ 11 + f * 2 ^ 8 + k / 4 * 4) / 2 ^ (8 * (k mod 4)) mod 256.
Definition cfg_word (c : Z -> Z) (b d f k : Z) : Z := cfg_byte c b d f k + 256 * cfg_byte c b d f (k + 1).

(** A function is present when its vendor is not 0xFFFF and, but for function
    0, when function 0 is present with the multi-function bit. *)
Definition answers (c : Z -> Z) (b d f : Z) : bool := negb (cfg_word c b d f 0 =? 0xFFFF).
Definition present (c : Z -> Z) (b d f : Z) : bool :=
  answers c b d f && ((f =? 0) || (answers c b d 0 && (128 <=? cfg_byte c b d 0 0x0E))).

Definition describe (c : Z -> Z) (b d f : Z) : PciDevice :=
  mkPciDevice b d f (cfg_word c b d f 0) (cfg_word c b d f 2) (cfg_byte c b d f 0x0B)
    (cfg_byte c b d f 0x0A) (cfg_byte c b d f 0x09) (cfg_byte c b d f 0x0E).

Definition on_device (c : Z -> Z) (b d : Z) (fs : list Z) : list PciDevice :=
  fs ≫= λ f, if present c b d f then [describe c b d f] else [].

(** Every function of every device of every bus, those present described. *)
Definition pci_functions (c : Z -> Z) : list PciDevice :=
  seqZ 0 256 ≫= λ b, seqZ 0 32 ≫= λ d, on_device c b d (seqZ 0 8).

Lemma lor_add a b k : 0 <= k -> 0 <= b < 2 ^ k -> Z.lor (a * 2 ^ k) b = a * 2 ^ k + b.
Proof.
  intros Hk Hb. assert (Z.land (a * 2 ^ k) b = 0) as H0.
  { apply Z.bits_inj'. intros n Hn. rewrite Z.land_spec, Z.bits_0. destruct (Z.lt_ge_cases n k).
    - by rewrite Z.mul_pow2_bits_low by lia.
    - by rewrite (fits_testbit k b n), andb_false_r by (done || lia). }
  by rewrite Z.add_nocarry_lxor, Z.lxor_lor.
Qed.

Lemma address_eq b d f k :
  0 <= b < 256 -> 0 <= d < 32 -> 0 <= f < 8 -> 0 <= k < 256 ->
  address b d f (Z.land k 0xFC) = 2 ^ 31 + b * 2 ^ 16 + d * 2 ^ 11 + f * 2 ^ 8 + k / 4 * 4.
Proof.
  intros Hb Hd Hf Hk. unfold address. rewrite !Z.shiftl_mul_pow2 by lia.
  assert (Z.land (Z.land k 0xFC) 0xFC = k / 4 * 4) as ->.
  { rewrite <- Z.land_assoc. change (Z.land 0xFC 0xFC) with (Z.shiftl (Z.ones 6) 2).
    replace k with (Z.lor (k / 4 * 2 ^ 2) (k mod 4)) at 1 by (rewrite lor_add; [dm_lia|lia|dm_lia]).
    rewrite <- Z.shiftl_mul_pow2 by lia. rewrite Z.land_lor_distr_l, <- Z.shiftl_land.
    rewrite Z.land_ones by lia. rewrite Z.mod_small by dm_lia.
    change (k mod 4) with (k mod 2 ^ 2). rewrite <- Z.land_ones, <- Z.land_assoc by lia.
    change (Z.land (Z.ones 2) _) with 0. rewrite Z.land_0_r, Z.lor_0_r, Z.shiftl_mul_pow2 by lia. done. }
  change 0x80000000 with (1 * 2 ^ 31). rewrite (lor_add 1 (b * 2 ^ 16) 31) by lia.
  replace (1 * 2 ^ 31 + b * 2 ^ 16) with ((2 ^ 15 + b) * 2 ^ 16) by lia.
  rewrite (lor_add _ (d * 2 ^ 11) 16) by lia.
  replace ((2 ^ 15 + b) * 2 ^ 16 + d * 2 ^ 11) with (((2 ^ 15 + b) * 2 ^ 5 + d) * 2 ^ 11) by lia.
  rewrite (lor_add _ (f * 2 ^ 8) 11) by lia.
  replace (((2 ^ 15 + b) * 2 ^ 5 + d) * 2 ^ 11 + f * 2 ^ 8) with
    ((((2 ^ 15 + b) * 2 ^ 5 + d) * 2 ^ 3 + f) * 2 ^ 8) by lia.
  rewrite (lor_add _ _ 8) by dm_lia. lia.
Qed.

Section laws.
Context {H : Type} {HW : Hardware H} {PC : PciConfig H}.

(** Reading the configuration space leaves it as it is. *)
Definition same_cfg (h h' : H) : Prop := forall x, cfg h' x = cfg h x.

Lemma same_cfg_trans a b c : same_cfg a b -> same_cfg b c -> same_cfg a c.
Proof. intros H1 H2 x. by rewrite H2. Qed.

Definition function_ok (b d f : Z) : Prop := 0 <= b < 256 /\ 0 <= d < 32 /\ 0 <= f < 8.

Lemma read_dword_ok b d f k h :
  function_ok b d f -> 0 <= k < 256 ->
  exists h', read_config_dword b d f (Z.land k 0xFC) h =
      Ret (cfg h (2 ^ 31 + b * 2 ^ 16 + d * 2 ^ 11 + f * 2 ^ 8 + k / 4 * 4), h') /\ same_cfg h h'.
Proof.
  intros (Hb & Hd & Hf) Hk. unfold read_config_dword. rewrite address_eq by done.
  set (a := 2 ^ 31 + b * 2 ^ 16 + d * 2 ^ 11 + f * 2 ^ 8 + k / 4 * 4).
  assert (2 ^ 31 <= a < 2 ^ 32) as Ha by (subst a; dm_lia).
  assert (Z.testbit a 31 = true) as H31.
  { rewrite Z.testbit_true by lia. by rewrite <- (Z.div_unique a (2 ^ 31) 1 (a - 2 ^ 31)) by lia. }
  assert (fits 32 a) as Hfit by (unfold fits; lia).
  destruct (cfg_read h a Hfit H31) as (h' & R & Hsame). exists h'. split; [|done].
  unfold outl, inl, mbind, M_bind. by rewrite R.
Qed.

Lemma read_byte_ok b d f k h :
  function_ok b d f -> 0 <= k < 256 ->
  exists h', read_config_byte b d f k h = Ret (cfg_byte (cfg h) b d f k, h') /\ same_cfg h h'.
Proof.
  intros Hok Hk. unfold read_config_byte. destruct (read_dword_ok b d f k h Hok Hk) as (h' & R & Hs).
  rewrite (run_bind _ _ _ _ _ R). exists h'. split; [|done]. cbv zeta.
  rewrite (land_mask k 3 2), (land_mask _ 0xFF 8) by done.
  rewrite Z.shiftr_div_pow2 by dm_lia. unfold cfg_byte. change (2 ^ 2) with 4. change (2 ^ 8) with 256 at 2.
  by rewrite (Z.mul_comm (k mod 4) 8).
Qed.

Lemma read_word_ok b d f k h :
  function_ok b d f -> k = 0 \/ k = 2 ->
  exists h', read_config_word b d f k h = Ret (cfg_word (cfg h) b d f k, h') /\ same_cfg h h'.
Proof.
  intros Hok Hk. unfold read_config_word. destruct (read_dword_ok b d f k h Hok) as (h' & R & Hs); [lia|].
  rewrite (run_bind _ _ _ _ _ R). exists h'. split; [|done]. cbv zeta.
  rewrite (land_mask _ 0xFFFF 16) by done. unfold cfg_word, cfg_byte.
  destruct Hk as [-> | ->]; [change ((0 + 1) / 4) with (0 / 4)|change ((2 + 1) / 4) with (2 / 4)]; cbn -[Z.pow Z.mul Z.div Z.modulo]; rewrite Z.shiftr_div_pow2 by done;
    match goal with |- context [cfg h ?a / 2 ^ (8 * (0 mod 4))] => generalize (cfg h a)
      | |- context [cfg h ?a / 2 ^ (8 * (2 mod 4))] => generalize (cfg h a) end; intros v.
  - change (2 ^ (Z.land 0 2 * 8)) with 1. change (2 ^ (8 * (0 mod 4))) with 1.
    change (2 ^ (8 * ((0 + 1) mod 4))) with 256. change (2 ^ 16) with 65536. unfold mret, M_ret. do 2 f_equal. dm_lia.
  - change (2 ^ (Z.land 2 2 * 8)) with 65536. change (2 ^ (8 * (2 mod 4))) with 65536.
    change (2 ^ (8 * ((2 + 1) mod 4))) with 16777216. change (2 ^ 16) with 65536. unfold mret, M_ret. do 2 f_equal. dm_lia.
Qed.

Lemma cfg_byte_ext c c' b d f k : (forall x, c' x = c x) -> cfg_byte c' b d f k = cfg_byte c b d f k.
Proof. intros Hc. unfold cfg_byte. by rewrite Hc. Qed.

Lemma cfg_word_ext c c' b d f k : (forall x, c' x = c x) -> cfg_word c' b d f k = cfg_word c b d f k.
Proof. intros Hc. unfold cfg_word. by rewrite !(cfg_byte_ext c c'). Qed.

Lemma answers_ext c c' b d f : (forall x, c' x = c x) -> answers c' b d f = answers c b d f.
Proof. intros Hc. unfold answers. by rewrite (cfg_word_ext c c'). Qed.

Lemma describe_ext c c' b d f : (forall x, c' x = c x) -> describe c' b d f = describe c b d f.
Proof. intros Hc. unfold describe. by rewrite !(cfg_word_ext c c'), !(cfg_byte_ext c c'). Qed.

Lemma probe_ok b d f h :
  function_ok b d f ->
  exists h', probe b d f h = Ret (if answers (cfg h) b d f then Some (describe (cfg h) b d f) else None, h') /\
    same_cfg h h'.
Proof.
  intros Hok. unfold probe, answers.
  destruct (read_word_ok b d f 0 h Hok) as (h1 & R1 & S1); [by left|]. rewrite (run_bind _ _ _ _ _ R1).
  case_match eqn:E; rewrite ?E; [by exists h1|]. cbn [negb].
  destruct (read_word_ok b d f 2 h1 Hok) as (h2 & R2 & S2); [by right|]. rewrite (run_bind _ _ _ _ _ R2).
  destruct (read_byte_ok b d f 0x09 h2 Hok) as (h3 & R3 & S3); [lia|]. rewrite (run_bind _ _ _ _ _ R3).
  destruct (read_byte_ok b d f 0x0A h3 Hok) as (h4 & R4 & S4); [lia|]. rewrite (run_bind _ _ _ _ _ R4).
  destruct (read_byte_ok b d f 0x0B h4 Hok) as (h5 & R5 & S5); [lia|]. rewrite (run_bind _ _ _ _ _ R5).
  destruct (read_byte_ok b d f 0x0E h5 Hok) as (h6 & R6 & S6); [lia|]. rewrite (run_bind _ _ _ _ _ R6).
  pose proof (same_cfg_trans _ _ _ S1 S2) as T2. pose proof (same_cfg_trans _ _ _ T2 S3) as T3.
  pose proof (same_cfg_trans _ _ _ T3 S4) as T4. pose proof (same_cfg_trans _ _ _ T4 S5) as T5.
  exists h6. split; [|by eapply same_cfg_trans]. unfold describe, mret, M_ret.
  by rewrite (cfg_word_ext (cfg h) (cfg h1)), (cfg_byte_ext (cfg h) (cfg h2)), (cfg_byte_ext (cfg h) (cfg h3)),
    (cfg_byte_ext (cfg h) (cfg h4)), (cfg_byte_ext (cfg h) (cfg h5)).
Qed.

(** The registry [ds] was extended by [added]. *)
Definition grown (s s' : Pci H) (added : list PciDevice) : Prop :=
  same_cfg (pci_hw s) (pci_hw s') /\ DEVICES s' = DEVICES s ++ added.

Lemma probe_and_push b d f (s : Pci H) :
  function_ok b d f ->
  exists s', on_hw (probe b d f) s =
      Ret (if answers (cfg (pci_hw s)) b d f then Some (describe (cfg (pci_hw s)) b d f) else None, s') /\
    grown s s' [].
Proof.
  intros Hok. destruct (probe_ok b d f (pci_hw s) Hok) as (h' & R & Hs).
  exists (mkPci h' (DEVICES s)). split; [unfold on_hw, zoom; by rewrite R|]. split; [done|]. by rewrite app_nil_r.
Qed.

Lemma present_0 c b d : present c b d 0 = answers c b d 0.
Proof. unfold present. cbn. by rewrite andb_true_r. Qed.

Lemma on_device_app c b d l1 l2 : on_device c b d (l1 ++ l2) = on_device c b d l1 ++ on_device c b d l2.
Proof. unfold on_device. by rewrite bind_app. Qed.

Lemma on_device_nil c b d l : (forall f, f ∈ l -> present c b d f = false) -> on_device c b d l = [].
Proof.
  induction l as [|f l IH]; intros Hl; [done|]. change (f :: l) with ([f] ++ l). rewrite on_device_app, IH.
  - unfold on_device; cbn. by rewrite Hl by set_solver.
  - intros g Hg. apply Hl. set_solver.
Qed.

Lemma seqZ_S lo n : 0 <= n -> seqZ lo (n + 1) = seqZ lo n ++ [lo + n].
Proof. intros. rewrite seqZ_app by lia. by rewrite (seqZ_cons (lo + n)) by lia. Qed.

Lemma high_bit v : 0 <= v < 256 -> (Z.land v 0x80 =? 0) = negb (128 <=? v).
Proof.
  intros Hv. change (Z.land v 0x80) with (Z.land v (Z.shiftl 1 7)). rewrite land_bit_test by lia. f_equal.
  rewrite Z.testbit_odd, Z.shiftr_div_pow2 by lia. change (2 ^ 7) with 128.
  destruct (Z.leb_spec 128 v).
  - by rewrite <- (Z.div_unique v 128 1 (v - 128)) by lia.
  - by rewrite Z.div_small by lia.
Qed.

Lemma scan_device_ok b d (s : Pci H) :
  0 <= b < 256 -> 0 <= d < 32 ->
  exists s', scan_device b d s = Ret (tt, s') /\ grown s s' (on_device (cfg (pci_hw s)) b d (seqZ 0 8)).
Proof.
  intros Hb Hd. unfold scan_device. set (c := cfg (pci_hw s)).
  destruct (probe_and_push b d 0 s) as (s1 & R1 & G1 & D1); [done|]. rewrite (run_bind _ _ _ _ _ R1).
  fold c. rewrite app_nil_r in D1. destruct (answers c b d 0) eqn:A0.
  2: { exists s1. split; [done|]. split; [done|]. rewrite on_device_nil, app_nil_r; [done|].
    intros f [_ Hf]%elem_of_seqZ. unfold present. rewrite A0. destruct (Z.eqb_spec f 0) as [->|]; [by rewrite A0|].
    by rewrite andb_false_r. }
  unfold push_device at 1. erewrite run_bind by done. cbn [header_type describe].
  set (s2 := mkPci (pci_hw s1) (DEVICES s1 ++ [describe c b d 0])).
  rewrite high_bit by (unfold cfg_byte; apply Z.mod_pos_bound; lia). rewrite negb_involutive.
  assert (on_device c b d (seqZ 0 1) = [describe c b d 0]) as E1.
  { change (seqZ 0 1) with [0]. unfold on_device; cbn. by rewrite present_0, A0. }
  destruct (128 <=? cfg_byte c b d 0 14) eqn:MF.
  - destruct (for_in_inv (fun i s' => same_cfg (pci_hw s) (pci_hw s') /\
        DEVICES s' = DEVICES s ++ on_device c b d (seqZ 0 i))
      (fun func => d0 ← on_hw (probe b d func);
        match d0 with Some d0 => push_device d0 | None => mret tt end) 1 8 s2) as (s3 & R3 & G3); [lia| | |by exists s3].
    + intros i t Hi (Gt & Dt). destruct (probe_and_push b d i t) as (t1 & Rt & Gt1 & Dt1); [split_and!; lia|].
      rewrite (run_bind _ _ _ _ _ Rt). rewrite app_nil_r in Dt1.
      assert (answers (cfg (pci_hw t)) b d i = answers c b d i) as ->.
      { by apply answers_ext. }
      assert (describe (cfg (pci_hw t)) b d i = describe c b d i) as ->.
      { by apply describe_ext. }
      pose proof (same_cfg_trans _ _ _ Gt Gt1) as Gs.
      rewrite seqZ_S, on_device_app, app_assoc, <- Dt, <- Dt1, (Z.add_0_l i) by lia.
      assert (present c b d i = answers c b d i) as Ep.
      { unfold present. rewrite A0, MF, orb_true_r. by rewrite andb_true_r. }
      assert (on_device c b d [i] = if answers c b d i then [describe c b d i] else []) as ->.
      { unfold on_device. cbn. rewrite app_nil_r. by rewrite Ep. }
      destruct (answers c b d i).
      * eexists. split; [done|]. done.
      * exists t1. by rewrite app_nil_r.
    + split; [done|]. cbn [DEVICES s2]. by rewrite E1, D1.
  - exists s2. split; [done|]. split; [done|]. cbn [DEVICES s2]. rewrite D1. f_equal.
    change (seqZ 0 8) with (seqZ 0 1 ++ seqZ 1 7). rewrite on_device_app, E1, on_device_nil; [done|].
    intros f Hf%elem_of_seqZ. unfold present. rewrite A0, MF. rewrite (proj2 (Z.eqb_neq f 0)) by lia. by rewrite andb_false_r.
Qed.

Lemma on_device_ext c c' b d fs : (forall x, c' x = c x) -> on_device c' b d fs = on_device c b d fs.
Proof.
  intros Hc. unfold on_device. induction fs as [|f fs IH]; [done|]. cbn. rewrite IH. f_equal.
  unfold present. by rewrite !(answers_ext c c'), (describe_ext c c'), (cfg_byte_ext c c').
Qed.

Definition on_bus (c : Z -> Z) (b : Z) (ds : list Z) : list PciDevice := ds ≫= λ d, on_device c b d (seqZ 0 8).

(** A loop that appends what a list of pieces prescribes. *)
Lemma grow_loop (f : Z -> M (Pci H) unit) (piece : (Z -> Z) -> Z -> list PciDevice) lo n (s : Pci H) :
  0 <= n ->
  (forall c c' i, (forall x, c' x = c x) -> piece c' i = piece c i) ->
  (forall i t, lo <= i < lo + n -> exists t', f i t = Ret (tt, t') /\ grown t t' (piece (cfg (pci_hw t)) i)) ->
  exists s', for_in lo (lo + n) f s = Ret (tt, s') /\
    grown s s' (seqZ lo n ≫= piece (cfg (pci_hw s))).
Proof.
  intros Hn Hext Hf. set (c := cfg (pci_hw s)).
  destruct (for_in_inv (fun i t => grown s t (seqZ lo (i - lo) ≫= piece c)) f lo (lo + n) s)
    as (s' & R & G); [lia| | |].
  - intros i t Hi (Gt & Dt). destruct (Hf i t Hi) as (t' & R & G & D). exists t'. split; [done|].
    split; [by eapply same_cfg_trans|]. rewrite D, Dt, <- app_assoc. f_equal.
    replace (i + 1 - lo) with (i - lo + 1) by lia. rewrite seqZ_S, bind_app by lia. f_equal. cbn.
    rewrite app_nil_r. replace (lo + (i - lo)) with i by lia. by apply Hext.
  - rewrite Z.sub_diag. split; [done|]. cbn. by rewrite app_nil_r.
  - replace (lo + n - lo) with n in G by lia. by exists s'.
Qed.

Lemma pci_functions_ext c c' : (forall x, c' x = c x) -> pci_functions c' = pci_functions c.
Proof.
  intros Hc. unfold pci_functions. apply list_bind_ext; [intros b|done].
  apply list_bind_ext; [intros d; by apply on_device_ext|done].
Qed.

Lemma enumerate_run (s : Pci H) :
  exists s', enumerate s = Ret (tt, s') /\ DEVICES s' = pci_functions (cfg (pci_hw s)) /\ same_cfg (pci_hw s) (pci_hw s').
Proof.
  unfold enumerate. erewrite run_bind by done.
  destruct (grow_loop (fun b => for_in 0 32 (fun dev => scan_device b dev)) (fun c b => on_bus c b (seqZ 0 32))
    0 256 (mkPci (pci_hw s) [])) as (s' & R & G & D); [done| | |].
  - intros c c' i Hc. unfold on_bus. generalize (seqZ 0 32). intros l.
    induction l as [|d l IH]; [done|]. cbn. by rewrite IH, (on_device_ext c c').
  - intros b t Hb. apply (grow_loop (scan_device b) (fun c d => on_device c b d (seqZ 0 8)) 0 32 t); [done| |].
    + intros c c' i Hc. by apply on_device_ext.
    + intros d u Hd. by apply scan_device_ok.
  - exists s'. split; [done|]. split; [exact D|exact G].
Qed.

Lemma pci_functions_in c d : d ∈ pci_functions c ->
  function_ok (bus d) (device d) (function d) /\ present c (bus d) (device d) (function d) = true /\
  d = describe c (bus d) (device d) (function d).
Proof.
  intros Hin. unfold pci_functions in Hin. apply list_elem_of_bind in Hin as (b & Hin & Hb).
  apply list_elem_of_bind in Hin as (dv & Hin & Hdv).
  unfold on_device in Hin. apply list_elem_of_bind in Hin as (f & Hin & Hf).
  destruct (present _ b dv f) eqn:Ep; [|by apply not_elem_of_nil in Hin].
  apply list_elem_of_singleton in Hin as ->. apply elem_of_seqZ in Hb, Hdv, Hf. split; [|done]. unfold function_ok. cbn. lia.
Qed.

(** C30: PCI enumeration ends with the registry holding exactly the functions
    present on the 256 buses - those whose vendor is not 0xFFFF, and functions
    1 to 7 only on a device whose function 0 is there and says it has several -
    in the order of bus, device and function, each with the fields of its
    configuration header; the configuration space is left alone. *)
Theorem enumerate_spec (s : Pci H) :
  exists s', enumerate s = Ret (tt, s') /\
    DEVICES s' = pci_functions (cfg (pci_hw s)) /\
    (forall x, cfg (pci_hw s') x = cfg (pci_hw s) x) /\
    forall cl subcl d, find_by_class cl subcl s' = Some d ->
      class d = cl /\ subclass d = subcl /\
      present (cfg (pci_hw s)) (bus d) (device d) (function d) = true /\
      d = describe (cfg (pci_hw s)) (bus d) (device d) (function d).
Proof.
  destruct (enumerate_run s) as (s' & R & D & G). exists s'. split; [done|]. split; [done|]. split; [done|].
  intros cl subcl d Hd. apply List.find_some in Hd as [Hin Hcl].
  apply andb_true_iff in Hcl as [E1%Z.eqb_eq E2%Z.eqb_eq]. rewrite D in Hin.
  apply list_elem_of_In, pci_functions_in in Hin as (_ & Hp & He). done.
Qed.
End laws.

(** ** A small bus *)

(** The last address written and a configuration space. *)
Record PciBus := mkBus { latch : Z; space : Z -> Z }.

#[global] Instance bus_hw : Hardware PciBus := {
  port_out8 p v h := h;
  port_in8 p h := (0, h);
  port_out32 p v h := if p =? CONFIG_ADDRESS then mkBus v (space h) else h;
  port_in32 p h := (if p =? CONFIG_DATA then space h (latch h) else 0, h);
  mmio_store a v h := h;
  mmio_load a h := (0, h);
  timer_irqs h := (0, h)
}.

#[global] Instance bus_config : PciConfig PciBus.
Proof. refine {| cfg := space |}. intros h a Ha H31. by exists (mkBus a (space h)). Defined.

(** A host bridge, and a SATA controller as function 2 of device 31 whose
    function 0 is an ISA bridge. *)
Definition demo_space (a : Z) : Z :=
  if a =? 0x80000000 then 0x29C08086
  else if a =? 0x80000008 then 0x06000000
  else if a =? 0x8000F800 then 0x29188086
  else if a =? 0x8000F808 then 0x06010002
  else if a =? 0x8000F80C then 0x00800000
  else if a =? 0x8000FA00 then 0x29228086
  else if a =? 0x8000FA08 then 0x01060102
  else if a <? 0x80000000 then 0 else if a mod 256 =? 0 then 0xFFFFFFFF else 0.

Definition demo_bus : Pci PciBus := mkPci (mkBus 0 demo_space) [].

Example enumerate_spec_witness :
  exists s', enumerate demo_bus = Ret (tt, s') /\
    DEVICES s' = pci_functions (cfg (pci_hw demo_bus)) /\
    (forall x, cfg (pci_hw s') x = cfg (pci_hw demo_bus) x) /\
    forall cl subcl d, find_by_class cl subcl s' = Some d ->
      class d = cl /\ subclass d = subcl /\
      present (cfg (pci_hw demo_bus)) (bus d) (device d) (function d) = true /\
      d = describe (cfg (pci_hw demo_bus)) (bus d) (device d) (function d).
Proof. exact (enumerate_spec demo_bus). Defined.

Example enumerate_demo :
  match enumerate demo_bus with
  | Ret (_, s) => (fun d => (bus d, device d, function d, device_id d)) <$> DEVICES s =
      [(0, 0, 0, 0x29C0); (0, 31, 0, 0x2918); (0, 31, 2, 0x2922)] /\
      (device_id <$> find_by_class 1 6 s) = Some 0x2922
  | _ => False
  end.
Proof. vm_compute. done. Qed.
