(* ===== verification/Acpi.v ===== *)
(** * ACPI tables ([ross-kernel/src/acpi.rs])

    The search for the RSDP, the walk through the RSDT or XSDT, and the MADT,
    read from physical memory (identity mapped below 4 GB).
    [acpi_init_spec]: discovery is total and finds the first root pointer in
    the documented order and the first table signed APIC; [madt_roundtrip]:
    the list of processors is the one the firmware wrote. *)

From Stdlib Require Import String.
From S2P Require Import Prelude Bytes Str Pmm.

(** ** Structures: offsets of the packed fields *)

(** @src ross-kernel/src/acpi.rs 3-15 Rsdp *)
Record Rsdp := mkRsdp { revision : Z; rsdt_addr : Z; xsdt_addr : Z }.

Definition rsdp_at (m : mem) (a : Z) : Rsdp := mkRsdp (m (a + 15)) (ld32 m (a + 16)) (ld64 m (a + 24)).

(** The length field; the header is 36 bytes.
    @src ross-kernel/src/acpi.rs 17-28 SdtHeader *)
Definition sdt_length (m : mem) (a : Z) : Z := ld32 m (a + 4).
Definition SDT_HEADER : Z := 36.

(** @src ross-kernel/src/acpi.rs 30-36 Madt *)
Definition madt_lapic_addr (m : mem) (a : Z) : Z := ld32 m (a + SDT_HEADER).
Definition MADT_SIZE : Z := 44.

(** @src ross-kernel/src/acpi.rs 38-42 AcpiInfo *)
Record AcpiInfo := mkAcpi { lapic_base : Z; ap_ids : list Z; bsp_id : Z }.

(** ** Searching *)

Definition is_rsdp (m : mem) (a : Z) : bool := bool_decide (ld_bytes m a 8 = lit "RSD PTR ").

(** @src ross-kernel/src/acpi.rs 46-52 scan_range *)
Fixpoint scan_from (fuel : nat) (m : mem) (addr end_ : Z) : outcome (option Z) :=
  match fuel with
  | O => Diverge
  | S fuel =>
      stop ← cadd 64 addr 8;
      if stop <=? end_ then
        if is_rsdp m addr then mret (Some addr)
        else addr ← cadd 64 addr 16; scan_from fuel m addr end_
      else mret None
  end.

(** [fuel]: one pass per 16 bytes, see [scan_range_ok].
    @src ross-kernel/src/acpi.rs 44-54 scan_range *)
Definition scan_range (m : mem) (start end_ : Z) : outcome (option Z) :=
  scan_from (S (Z.to_nat ((end_ - start) / 16 + 2))) m (Z.land start (notw 64 0xF)) end_.

(** @src ross-kernel/src/acpi.rs 70-77 find_rsdp *)
Fixpoint scan_regions (m : mem) (regions : list MemoryRegion) : outcome (option Z) :=
  match regions with
  | [] => mret None
  | r :: regions =>
      if negb (bool_decide (rg_kind r = Reserved)) then scan_regions m regions
      else if 0xD0000000 <=? rg_base r then scan_regions m regions
      else if 8 * 1024 * 1024 <? rg_size r then scan_regions m regions
      else
        stop ← cadd 64 (rg_base r) (rg_size r);
        a ← scan_range m (rg_base r) stop;
        match a with Some a => mret (Some a) | None => scan_regions m regions end
  end.

(** [map] is [None] for a null pointer.
    @src ross-kernel/src/acpi.rs 59-80 find_rsdp *)
Definition find_rsdp (m : mem) (map : option (list MemoryRegion)) : outcome (option Z) :=
  a ← scan_range m 0xE0000 0x100000;
  match a with
  | Some a => mret (Some a)
  | None => match map with Some regions => scan_regions m regions | None => mret None end
  end.

(** The [count] entries of [w] bytes after the header of a table. *)
Definition sdt_entries (w : nat) (m : mem) (a : Z) : list Z :=
  let n_entries := sat_sub (sdt_length m a) SDT_HEADER / Z.of_nat w in
  (fun i => ld w m (a + SDT_HEADER + Z.of_nat w * i)) <$> seqZ 0 n_entries.

Definition has_sig (m : mem) (sig : str) (a : Z) : bool := bool_decide (ld_bytes m a 4 = sig).

(** @src ross-kernel/src/acpi.rs 82-97 find_table_xsdt *)
Definition find_table_xsdt (m : mem) (xsdt_phys : Z) (sig : str) : option Z :=
  List.find (has_sig m sig) (sdt_entries 8 m xsdt_phys).

(** @src ross-kernel/src/acpi.rs 99-114 find_table_rsdt *)
Definition find_table_rsdt (m : mem) (rsdt_phys : Z) (sig : str) : option Z :=
  List.find (has_sig m sig) (sdt_entries 4 m rsdt_phys).

(** ** The MADT *)

(** @src ross-kernel/src/acpi.rs 124-138 parse_madt *)
Fixpoint madt_loop (fuel : nat) (m : mem) (ptr off total : Z) (apic_ids : list Z) : outcome (list Z) :=
  match fuel with
  | O => Diverge
  | S fuel =>
      if off + 2 <=? total then
        let ic_type := m (ptr + off) in
        let ic_len := m (ptr + off + 1) in
        if ic_len <? 2 then mret apic_ids
        else
          let apic_ids :=
            if (ic_type =? 0) && (8 <=? ic_len) then
              let apic_id := m (ptr + off + 3) in
              let flags := ld32 m (ptr + off + 4) in
              if negb (Z.land flags 1 =? 0) then apic_ids ++ [apic_id] else apic_ids
            else apic_ids in
          madt_loop fuel m ptr (off + ic_len) total apic_ids
      else mret apic_ids
  end.

(** @src ross-kernel/src/acpi.rs 116-140 parse_madt *)
Definition parse_madt (m : mem) (madt_phys : Z) : outcome (Z * list Z) :=
  let total := sdt_length m madt_phys in
  apic_ids ← madt_loop (S (Z.to_nat total)) m madt_phys MADT_SIZE total [];
  mret (madt_lapic_addr m madt_phys, apic_ids).

(** The table the root pointer leads to.
    @src ross-kernel/src/acpi.rs 146-154 init *)
Definition find_madt (m : mem) (rsdp_phys : Z) : option Z :=
  let rsdp := rsdp_at m rsdp_phys in
  if 2 <=? revision rsdp then find_table_xsdt m (xsdt_addr rsdp) (lit "APIC")
  else find_table_rsdt m (rsdt_addr rsdp) (lit "APIC").

(** @src ross-kernel/src/acpi.rs 142-169 init *)
Definition init (m : mem) (map : option (list MemoryRegion)) : outcome (option AcpiInfo) :=
  rsdp_phys ← find_rsdp m map;
  match rsdp_phys with
  | None => mret None
  | Some rsdp_phys =>
      match find_madt m rsdp_phys with
      | None => mret None
      | Some madt_phys =>
          '(lapic_base, apic_ids) ← parse_madt m madt_phys;
          let bsp_id := Z.land (Z.shiftr (ld32 m (lapic_base + 0x20)) 24) 0xFF in
          mret (Some (mkAcpi lapic_base apic_ids bsp_id))
      end
  end.

(** ** Where the root pointer is looked for *)

(** The multiples of 16 from [start] rounded down, as long as 8 bytes fit. *)
Definition probes (start end_ : Z) : list Z :=
  let a := start / 16 * 16 in (fun i => a + 16 * i) <$> seqZ 0 ((end_ - 8 - a) / 16 + 1).

Definition searched (r : MemoryRegion) : bool :=
  bool_decide (rg_kind r = Reserved) && (rg_base r <? 0xD0000000) && (rg_size r <=? 8 * 1024 * 1024).

Definition region_probes (r : MemoryRegion) : list Z :=
  if searched r then probes (rg_base r) (rg_base r + rg_size r) else [].

Definition rsdp_candidates (map : option (list MemoryRegion)) : list Z :=
  probes 0xE0000 0x100000 ++ (default [] map ≫= region_probes).

Definition region_ok (r : MemoryRegion) : Prop := fits 64 (rg_base r) /\ fits 64 (rg_size r).

Lemma align16 a : 0 <= a < 2 ^ 64 -> Z.land a (notw 64 0xF) = a / 16 * 16.
Proof.
  intros Ha. change 16 with (2 ^ 4). rewrite <- Z.shiftr_div_pow2, <- Z.shiftl_mul_pow2 by lia.
  assert (fits 64 a) as Hf by done. apply Z.bits_inj'. intros n Hn.
  rewrite Z.land_spec, Z.shiftl_spec by done. unfold notw.
  rewrite Z.lxor_spec, testbit_ones by lia.
  replace (Z.testbit 0xF n) with (n <? 4) by (change 0xF with (2 ^ 4 - 1); symmetry; apply testbit_ones; lia).
  destruct (Z.lt_ge_cases n 4).
  - rewrite (Z.testbit_neg_r _ (n - 4)), (proj2 (Z.ltb_lt n 64)), (proj2 (Z.ltb_lt n 4)) by lia. apply andb_false_r.
  - rewrite Z.shiftr_spec by lia. replace (n - 4 + 4) with n by lia.
    rewrite (proj2 (Z.ltb_ge n 4)) by lia. destruct (Z.ltb_spec n 64); cbn.
    + by rewrite andb_true_r.
    + by rewrite (fits_testbit 64 a n).
Qed.

Lemma cadd_bind {B} a b (f : Z -> outcome B) : a + b < 2 ^ 64 -> (cadd 64 a b ≫= f) = f (a + b).
Proof. intros Hl. unfold cadd. by rewrite (proj2 (Z.ltb_lt _ _)). Qed.

Lemma scan_from_ok m end_ : forall fuel addr,
  0 <= addr -> addr + 8 < 2 ^ 64 -> end_ + 24 < 2 ^ 64 -> 1 <= Z.of_nat fuel ->
  (end_ - addr) / 16 + 1 < Z.of_nat fuel ->
  scan_from fuel m addr end_ =
    Ret (List.find (is_rsdp m) ((fun i => addr + 16 * i) <$> seqZ 0 ((end_ - 8 - addr) / 16 + 1))).
Proof.
  induction fuel as [|fuel IH]; intros addr Ha Hov Hend H1 Hf; [lia|]. cbn [scan_from].
  rewrite cadd_bind by lia.
  destruct (Z.leb_spec (addr + 8) end_) as [Hle|Hgt].
  2: { replace (seqZ 0 ((end_ - 8 - addr) / 16 + 1)) with (@nil Z); [done|].
    symmetry. apply seqZ_nil. dm_lia. }
  rewrite seqZ_cons by dm_lia. cbn [fmap list_fmap List.find]. rewrite Z.mul_0_r, Z.add_0_r.
  case_match; [done|]. rewrite cadd_bind by lia.
  rewrite IH; [|lia|lia|lia|dm_lia|dm_lia]. do 2 f_equal.
  replace (Z.succ 0) with (1 + 0) by lia. rewrite <- (fmap_add_seqZ 1 0), <- list_fmap_compose.
  replace (Z.pred ((end_ - 8 - addr) / 16 + 1)) with ((end_ - 8 - (addr + 16)) / 16 + 1) by dm_lia.
  apply list_fmap_ext. intros i x _. cbn. lia.
Qed.

Lemma scan_range_ok m start end_ :
  0 <= start -> end_ + 24 < 2 ^ 64 -> start + 24 < 2 ^ 64 ->
  scan_range m start end_ = Ret (List.find (is_rsdp m) (probes start end_)).
Proof.
  intros Hs He Hs2. unfold scan_range, probes. rewrite align16 by lia. apply scan_from_ok; dm_lia.
Qed.

Lemma scan_regions_ok m rs :
  Forall region_ok rs -> scan_regions m rs = Ret (List.find (is_rsdp m) (rs ≫= region_probes)).
Proof.
  induction 1 as [|r rs [Hb Hz] Hrs IH]; [done|]. cbn [scan_regions mbind list_bind].
  rewrite find_app. unfold region_probes at 1, searched. unfold fits in *.
  case_bool_decide; cbn [negb andb]; [|by rewrite IH].
  rewrite (Z.ltb_antisym 0xD0000000), (Z.leb_antisym (8 * 1024 * 1024)). destruct (Z.leb_spec 0xD0000000 (rg_base r)); cbn [negb andb]; [by rewrite IH|].
  destruct (Z.ltb_spec (8 * 1024 * 1024) (rg_size r)); cbn [negb andb]; [by rewrite IH|].
  rewrite cadd_bind by lia.
  rewrite scan_range_ok by lia. cbn [mbind outcome_bind]. case_match; [done|by rewrite IH].
Qed.

Lemma find_rsdp_ok m map :
  Forall region_ok (default [] map) -> find_rsdp m map = Ret (List.find (is_rsdp m) (rsdp_candidates map)).
Proof.
  intros Hm. unfold find_rsdp, rsdp_candidates. rewrite scan_range_ok by lia. cbn [mbind outcome_bind].
  rewrite find_app. case_match; [done|]. destruct map as [rs|]; [by apply scan_regions_ok|done].
Qed.

(** ** Reading the MADT *)

(** An interrupt controller structure: a local APIC, or anything else, which is
    skipped by its length. *)
Inductive Ic :=
  | LocalApic (uid id flags : Z)
  | OtherIc (type : Z) (body : list Z).

Definition ic_bytes (ic : Ic) : list Z :=
  match ic with
  | LocalApic uid id flags => [0; 8; uid; id] ++ le_bytes 4 flags
  | OtherIc type body => [type; 2 + Z.of_nat (length body)] ++ body
  end.

Definition ic_ok (ic : Ic) : Prop :=
  match ic with
  | LocalApic uid id flags => fits 32 flags
  | OtherIc type body => (type <> 0 \/ (length body < 6)%nat) /\ Z.of_nat (length body) < 254
  end.

(** The processors enabled. *)
Definition enabled (ic : Ic) : list Z :=
  match ic with
  | LocalApic _ id flags => if Z.odd flags then [id] else []
  | OtherIc _ _ => []
  end.

(** The table as the firmware lays it out: the signature, the length, the rest
    of the header, the two fields of the MADT, the structures. *)
Definition madt_bytes (rest : list Z) (lapic flags : Z) (ics : list Ic) : list Z :=
  let body := ics ≫= ic_bytes in
  lit "APIC" ++ le_bytes 4 (MADT_SIZE + Z.of_nat (length body)) ++ rest ++
  le_bytes 4 lapic ++ le_bytes 4 flags ++ body.

(** The string [l] at [a]. *)
Definition holds_bytes (m : mem) (a : Z) (l : list Z) : Prop := ld_bytes m a (length l) = l.

Lemma holds_app m a l1 l2 :
  holds_bytes m a (l1 ++ l2) <-> holds_bytes m a l1 /\ holds_bytes m (a + Z.of_nat (length l1)) l2.
Proof.
  unfold holds_bytes. rewrite length_app, ld_bytes_app. split.
  - intros He. by apply app_inj_1 in He; [|rewrite length_ld_bytes].
  - by intros [-> ->].
Qed.

Lemma holds_cons m a b l : holds_bytes m a (b :: l) <-> m a = b /\ holds_bytes m (a + 1) l.
Proof. unfold holds_bytes. cbn. split; [by intros [= -> ->]|by intros [-> ->]]. Qed.

Lemma holds_ld m a n v : fits (8 * Z.of_nat n) v -> holds_bytes m a (le_bytes n v) -> ld n m a = v.
Proof.
  unfold holds_bytes. rewrite length_le_bytes. intros Hf He. unfold ld. rewrite He. by apply le_roundtrip.
Qed.

Lemma madt_loop_ok m ptr ics : forall fuel off ids,
  Forall ic_ok ics -> holds_bytes m (ptr + off) (ics ≫= ic_bytes) ->
  (length (ics ≫= ic_bytes) < fuel)%nat ->
  madt_loop fuel m ptr off (off + Z.of_nat (length (ics ≫= ic_bytes))) ids = Ret (ids ++ (ics ≫= enabled)).
Proof.
  induction ics as [|ic ics IH]; intros [|fuel] off ids Hok Hm Hf; try (cbn in Hf; lia); cbn [madt_loop].
  { cbn. rewrite (proj2 (Z.leb_gt _ _)) by lia. by rewrite app_nil_r. }
  inversion_clear Hok as [|? ? Hic Hics]. cbn [mbind list_bind] in *. rewrite length_app in *.
  apply holds_app in Hm as [Hm Hrest].
  assert (exists len, m (ptr + off + 1) = len /\ 2 <= len < 256 /\ Z.of_nat (length (ic_bytes ic)) = len) as (len & El & Hl & Hlen).
  { destruct ic as [uid id flags|type body]; cbn [ic_bytes app ic_ok] in *; rewrite !holds_cons in Hm.
    - exists 8. split; [apply Hm|]. cbn [length]. rewrite length_le_bytes. lia.
    - exists (2 + Z.of_nat (length body)). split; [apply Hm|]. cbn [length]. lia. }
  rewrite (proj2 (Z.leb_le _ _)) by lia. rewrite El, (proj2 (Z.ltb_ge len 2)) by lia.
  replace (off + Z.of_nat (length (ic_bytes ic) + length (ics ≫= ic_bytes))) with
    (off + len + Z.of_nat (length (ics ≫= ic_bytes))) by lia.
  rewrite IH; [|done| |lia].
  2: { by replace (ptr + (off + len)) with (ptr + off + Z.of_nat (length (ic_bytes ic))) by lia. }
  f_equal. rewrite app_assoc. f_equal. destruct ic as [uid id flags|type body]; cbn [ic_bytes app enabled ic_ok] in *.
  - rewrite !holds_cons in Hm. destruct Hm as (E0 & E1 & E2 & E3 & E4).
    replace (ptr + off + 1 + 1 + 1) with (ptr + off + 3) in * by lia.
    replace (ptr + off + 3 + 1) with (ptr + off + 4) in E4 by lia.
    rewrite E0, E3, (holds_ld _ _ 4 flags Hic E4), <- El, E1. cbn -[Z.land].
    rewrite (land_mask flags 1 1) by done. rewrite Zmod_odd. by destruct (Z.odd flags); cbn; rewrite ?app_nil_r.
  - rewrite !holds_cons in Hm. destruct Hm as (E0 & E1 & _). rewrite E0, app_nil_r.
    destruct (Z.eqb_spec type 0); [|done]. rewrite (proj2 (Z.leb_gt 8 len)) by lia. done.
Qed.

Lemma length_lit4 : length (lit "APIC") = 4%nat.
Proof. done. Qed.

Lemma parse_madt_ok m a rest lapic flags ics :
  holds_bytes m a (madt_bytes rest lapic flags ics) -> length rest = 28%nat -> fits 32 lapic ->
  Forall ic_ok ics -> MADT_SIZE + Z.of_nat (length (ics ≫= ic_bytes)) < 2 ^ 32 ->
  parse_madt m a = Ret (lapic, ics ≫= enabled) /\ has_sig m (lit "APIC") a = true.
Proof.
  intros Hm Hr Hl Hics Hlen. unfold madt_bytes in Hm. rewrite !holds_app, !length_le_bytes, Hr, length_lit4 in Hm.
  destruct Hm as (H1 & H2 & _ & H3 & _ & H4). unfold MADT_SIZE in *.
  split; [|by apply bool_decide_eq_true].
  unfold parse_madt, sdt_length, madt_lapic_addr, SDT_HEADER. change (a + Z.of_nat 4) with (a + 4) in *.
  rewrite (holds_ld m (a + 4) 4 (44 + Z.of_nat (length (ics ≫= ic_bytes)))); [|unfold fits; lia|done].
  replace (a + 4 + Z.of_nat 4 + Z.of_nat 28) with (a + 36) in * by lia.
  replace (a + 36 + Z.of_nat 4 + Z.of_nat 4) with (a + 44) in * by lia.
  rewrite (holds_ld m (a + 36) 4 lapic Hl H3). unfold MADT_SIZE. rewrite madt_loop_ok by (done || lia). done.
Qed.

(** Every structure takes at least two bytes, so the loop ends. *)
Lemma madt_loop_total m ptr total : forall fuel off ids,
  Z.max 0 (total - off) < Z.of_nat fuel -> exists ids', madt_loop fuel m ptr off total ids = Ret ids'.
Proof.
  induction fuel as [|fuel IH]; intros off ids Hf; [lia|]. cbn [madt_loop].
  destruct (Z.leb_spec (off + 2) total); [|by eexists].
  destruct (Z.ltb_spec (m (ptr + off + 1)) 2); [by eexists|]. apply IH. lia.
Qed.

Lemma parse_madt_total m a : mem_ok m -> exists ids, parse_madt m a = Ret (madt_lapic_addr m a, ids).
Proof.
  intros Hm. unfold parse_madt. pose proof (ld_fits 4 m (a + 4) Hm) as [Hl _].
  destruct (madt_loop_total m a (sdt_length m a) (S (Z.to_nat (sdt_length m a))) MADT_SIZE []) as (ids & ->).
  - unfold MADT_SIZE, sdt_length in *. lia.
  - by exists ids.
Qed.

(** ** Discovery *)

Lemma init_total (m : mem) (map : option (list MemoryRegion)) : mem_ok m -> Forall region_ok (default [] map) ->
  exists r, init m map = Ret r.
Proof.
  intros Hm Hmap. unfold init. rewrite find_rsdp_ok by done. cbn [mbind outcome_bind].
  destruct (List.find _ _) as [a|]; [|by eexists]. destruct (find_madt m a) as [p|]; [|by eexists].
  destruct (parse_madt_total m p Hm) as (ids & R). rewrite R. by eexists.
Qed.


(** When the MADT found is one written for a list of interrupt
    controllers, [ap_ids] is the list of the identifiers of the enabled local
    APICs in it, in order, whatever other structures stand between them. *)
Theorem madt_roundtrip (m : mem) (map : option (list MemoryRegion)) (rsdp madt : Z)
  (rest : list Z) (lapic flags : Z) (ics : list Ic)
  (Hm : mem_ok m) (Hmap : Forall region_ok (default [] map))
  (Hr : List.find (is_rsdp m) (rsdp_candidates map) = Some rsdp)
  (Hf : find_madt m rsdp = Some madt)
  (Hb : holds_bytes m madt (madt_bytes rest lapic flags ics))
  (Hrest : length rest = 28%nat) (Hl : fits 32 lapic) (Hics : Forall ic_ok ics)
  (Hlen : MADT_SIZE + Z.of_nat (length (ics ≫= ic_bytes)) < 2 ^ 32) :
  exists bsp, init m map = Ret (Some (mkAcpi lapic (ics ≫= enabled) bsp)).
Proof.
  destruct (parse_madt_ok m madt rest lapic flags ics Hb Hrest Hl Hics Hlen) as [R _].
  eexists. unfold init. rewrite find_rsdp_ok, Hr by done. cbn [mbind outcome_bind]. rewrite Hf, R. done.
Qed.

(** ** A machine with two processors *)

(** The root pointer at 0xF0000, the XSDT at 0x1000 with a first table that is
    not the MADT, the MADT at 0x2000. *)
Definition demo_ics : list Ic :=
  [LocalApic 0 0 1; OtherIc 1 [0; 0; 0; 0; 192; 254; 0; 0; 0; 0]; LocalApic 1 3 1; LocalApic 2 7 0].
Definition demo_madt : list Z := madt_bytes (replicate 28 0) 0xFEE00000 1 demo_ics.
Definition demo_acpi : mem :=
  st_bytes (lit "RSD PTR ") 0xF0000 (st_bytes [2] 0xF000F (st_bytes (le_bytes 8 0x1000) 0xF0018 (
  st_bytes (lit "XSDT") 0x1000 (st_bytes (le_bytes 4 52) 0x1004 (
  st_bytes (le_bytes 8 0x3000) 0x1024 (st_bytes (le_bytes 8 0x2000) 0x102C (
  st_bytes (lit "FACP") 0x3000 (st_bytes demo_madt 0x2000 (fun _ => 0))))))))).

Lemma demo_acpi_ok : mem_ok demo_acpi.
Proof.
  unfold demo_acpi. repeat apply st_bytes_ok; try (intros a; done);
    apply (bool_decide_unpack _); vm_compute; done.
Qed.


Example madt_roundtrip_witness : exists bsp, init demo_acpi None = Ret (Some (mkAcpi 0xFEE00000 [0; 3] bsp)).
Proof.
  apply (madt_roundtrip demo_acpi None 0xF0000 0x2000 (replicate 28 0) 0xFEE00000 1 demo_ics).
  - exact demo_acpi_ok.
  - constructor.
  - vm_compute. reflexivity.
  - vm_compute. reflexivity.
  - vm_compute. reflexivity.
  - reflexivity.
  - unfold fits. lia.
  - repeat constructor; cbn; unfold fits; lia || (left; lia).
  - vm_compute. reflexivity.
Defined.
