(* ===== verification/Ahci.v ===== *)
(** * The AHCI driver ([ross-kernel/src/ahci.rs])

    Port set-up, and the synchronous READ and WRITE DMA EXT commands: the
    command FIS, the PRDT and the command header are built in memory, the
    port's registers are polled.  Memory is shared with the controller, so it
    is part of the hardware here ([Dma]). *)

From Stdlib Require Import String.
From S2P Require Import Prelude Bytes Frames Paging Block Io Pci.

(** Memory the controller reaches, as the kernel reads and writes it. *)
Class Dma (H : Type) := {
  ram : H -> mem;
  set_ram : mem -> H -> H
}.

(** ** Registers *)

(** @src ross-kernel/src/ahci.rs 14-14 HBA_CAP *)
Definition HBA_CAP : Z := 0x00.
(** @src ross-kernel/src/ahci.rs 15-15 HBA_GHC *)
Definition HBA_GHC : Z := 0x04.
(** @src ross-kernel/src/ahci.rs 16-16 HBA_PI *)
Definition HBA_PI : Z := 0x0C.
(** @src ross-kernel/src/ahci.rs 18-18 GHC_AE *)
Definition GHC_AE : Z := Z.shiftl 1 31.
(** @src ross-kernel/src/ahci.rs 21-21 HBA_PORT_BASE *)
Definition HBA_PORT_BASE : Z := 0x100.
(** @src ross-kernel/src/ahci.rs 22-22 HBA_PORT_SIZE *)
Definition HBA_PORT_SIZE : Z := 0x80.
(** @src ross-kernel/src/ahci.rs 24-24 PX_CLB *)
Definition PX_CLB : Z := 0x00.
(** @src ross-kernel/src/ahci.rs 25-25 PX_CLBU *)
Definition PX_CLBU : Z := 0x04.
(** @src ross-kernel/src/ahci.rs 26-26 PX_FB *)
Definition PX_FB : Z := 0x08.
(** @src ross-kernel/src/ahci.rs 27-27 PX_FBU *)
Definition PX_FBU : Z := 0x0C.
(** @src ross-kernel/src/ahci.rs 28-28 PX_IS *)
Definition PX_IS : Z := 0x10.
(** @src ross-kernel/src/ahci.rs 29-29 PX_CMD *)
Definition PX_CMD : Z := 0x18.
(** @src ross-kernel/src/ahci.rs 30-30 PX_TFD *)
Definition PX_TFD : Z := 0x20.
(** @src ross-kernel/src/ahci.rs 31-31 PX_SIG *)
Definition PX_SIG : Z := 0x24.
(** @src ross-kernel/src/ahci.rs 32-32 PX_SSTS *)
Definition PX_SSTS : Z := 0x28.
(** @src ross-kernel/src/ahci.rs 33-33 PX_SERR *)
Definition PX_SERR : Z := 0x30.
(** @src ross-kernel/src/ahci.rs 34-34 PX_CI *)
Definition PX_CI : Z := 0x38.
(** @src ross-kernel/src/ahci.rs 36-36 CMD_ST *)
Definition CMD_ST : Z := Z.shiftl 1 0.
(** @src ross-kernel/src/ahci.rs 37-37 CMD_FRE *)
Definition CMD_FRE : Z := Z.shiftl 1 4.
(** @src ross-kernel/src/ahci.rs 38-38 CMD_FR *)
Definition CMD_FR : Z := Z.shiftl 1 14.
(** @src ross-kernel/src/ahci.rs 39-39 CMD_CR *)
Definition CMD_CR : Z := Z.shiftl 1 15.
(** @src ross-kernel/src/ahci.rs 41-41 TFD_ERR *)
Definition TFD_ERR : Z := Z.shiftl 1 0.
(** @src ross-kernel/src/ahci.rs 42-42 TFD_DRQ *)
Definition TFD_DRQ : Z := Z.shiftl 1 3.
(** @src ross-kernel/src/ahci.rs 43-43 TFD_BSY *)
Definition TFD_BSY : Z := Z.shiftl 1 7.
(** @src ross-kernel/src/ahci.rs 45-45 IS_TFES *)
Definition IS_TFES : Z := Z.shiftl 1 30.
(** @src ross-kernel/src/ahci.rs 47-47 SIG_SATA *)
Definition SIG_SATA : Z := 0x00000101.
(** @src ross-kernel/src/ahci.rs 48-48 ATA_CMD_READ_DMA_EXT *)
Definition ATA_CMD_READ_DMA_EXT : Z := 0x25.
(** @src ross-kernel/src/ahci.rs 49-49 ATA_CMD_WRITE_DMA_EXT *)
Definition ATA_CMD_WRITE_DMA_EXT : Z := 0x35.

(** Offsets of the fields of the structures shared with the controller
    ([CommandHeader], [CommandTable], [PrdtEntry]). *)
(** @src ross-kernel/src/ahci.rs 56-56 hdr_flags *)
Definition hdr_flags : Z := 0.
(** @src ross-kernel/src/ahci.rs 57-57 hdr_prdtl *)
Definition hdr_prdtl : Z := 2.
(** @src ross-kernel/src/ahci.rs 58-58 hdr_prdbc *)
Definition hdr_prdbc : Z := 4.
(** @src ross-kernel/src/ahci.rs 59-59 hdr_ctba *)
Definition hdr_ctba : Z := 8.
(** @src ross-kernel/src/ahci.rs 60-60 hdr_ctbau *)
Definition hdr_ctbau : Z := 12.
(** @src ross-kernel/src/ahci.rs 75-78 ct_prdt *)
Definition ct_prdt : Z := 64 + 16 + 48.
(** @src ross-kernel/src/ahci.rs 67-67 prdt_dba *)
Definition prdt_dba : Z := ct_prdt.
(** @src ross-kernel/src/ahci.rs 68-68 prdt_dbau *)
Definition prdt_dbau : Z := ct_prdt + 4.
(** @src ross-kernel/src/ahci.rs 69-69 prdt_reserved *)
Definition prdt_reserved : Z := ct_prdt + 8.
(** @src ross-kernel/src/ahci.rs 70-70 prdt_dbc *)
Definition prdt_dbc : Z := ct_prdt + 12.

(** ** Driver state *)

(** @src ross-kernel/src/ahci.rs 83-88 PortState *)
Record PortState := mkPort { port : Z; clb_phys : Z; ct_phys : Z; dma_phys : Z }.

(** The PCI bus with the hardware behind it, the page allocator, and the
    statics.
    @src ross-kernel/src/ahci.rs 90-95 PORT, ABAR_VIRT *)
Record Ahci (H St : Type) := mkAhci {
  ah_pci : Pci H;
  ah_frames : St;
  ABAR_VIRT : Z;
  PORT : option PortState
}.
Arguments mkAhci {H St} _ _ _ _.
Arguments ah_pci {H St} _.
Arguments ah_frames {H St} _.
Arguments ABAR_VIRT {H St} _.
Arguments PORT {H St} _.

Section ahci.
Context {H St : Type} {HW : Hardware H} {DM : Dma H} {FA : FrameAllocator St}.

Notation A := (M (Ahci H St)).
Notation R X := (result X string).

Definition ah_hw (s : Ahci H St) : H := pci_hw (ah_pci s).
Definition with_hw (h : H) (s : Ahci H St) : Ahci H St :=
  mkAhci (mkPci h (DEVICES (ah_pci s))) (ah_frames s) (ABAR_VIRT s) (PORT s).
Definition hw {X} : M H X -> A X := zoom ah_hw with_hw.

Definition set_abar (a : Z) : A unit := fun s => Ret (tt, mkAhci (ah_pci s) (ah_frames s) a (PORT s)).
Definition set_port (p : PortState) : A unit := fun s =>
  Ret (tt, mkAhci (ah_pci s) (ah_frames s) (ABAR_VIRT s) (Some p)).

(** A memory access at a higher-half virtual address. *)
Definition phys (va : Z) : Z := va - KERNEL_VMA_BASE.
Definition update_ram (f : mem -> mem) : A unit := hw (fun h => Ret (tt, set_ram (f (ram h)) h)).

(** @src ross-kernel/src/ahci.rs 97-100 mmio_read *)
Definition mmio_read (off : Z) : A Z :=
  s ← get; a ← lift (cadd 64 (ABAR_VIRT s) off); hw (read_volatile a).

(** @src ross-kernel/src/ahci.rs 102-105 mmio_write *)
Definition mmio_write (off val : Z) : A unit :=
  s ← get; a ← lift (cadd 64 (ABAR_VIRT s) off); hw (write_volatile a val).

(** @src ross-kernel/src/ahci.rs 107-109 port_read *)
Definition port_read (p off : Z) : A Z := mmio_read (HBA_PORT_BASE + p * HBA_PORT_SIZE + off).

(** @src ross-kernel/src/ahci.rs 111-113 port_write *)
Definition port_write (p off val : Z) : A unit := mmio_write (HBA_PORT_BASE + p * HBA_PORT_SIZE + off) val.

(** The test of the polling loops: no bit of [mask] is set. *)
Definition clear_bits (p off mask : Z) : A (option unit) :=
  v ← port_read p off; mret (if Z.land v mask =? 0 then Some tt else None).

Definition alloc_or (e : string) : A (R Z) := fun s =>
  let '(r, fa) := fa_alloc (ah_frames s) in
  Ret (match r with Some a => Ok a | None => Err e end, mkAhci (ah_pci s) fa (ABAR_VIRT s) (PORT s)).

Definition low32 (a : Z) : Z := Z.land a 0xFFFFFFFF.
Definition high32 (a : Z) : Z := Z.shiftr a 32.

(** The four zeroed pages, the first command header pointing to the command
    table.
    @src ross-kernel/src/ahci.rs 172-185 init_port *)
Definition clear_pages (clb_phys fb_phys ct_phys dma_phys : Z) : A unit :=
  clb_virt ← lift (phys_to_virt clb_phys);
  fb_virt ← lift (phys_to_virt fb_phys);
  ct_virt ← lift (phys_to_virt ct_phys);
  dma_virt ← lift (phys_to_virt dma_phys);
  update_ram (fill (phys clb_virt) 0 4096);;
  update_ram (fill (phys fb_virt) 0 4096);;
  update_ram (fill (phys ct_virt) 0 4096);;
  update_ram (fill (phys dma_virt) 0 4096);;
  update_ram (st32 (phys clb_virt + hdr_ctba) (low32 ct_phys));;
  update_ram (st32 (phys clb_virt + hdr_ctbau) (high32 ct_phys)).

(** @src ross-kernel/src/ahci.rs 187-199 init_port *)
Definition start_port (p clb_phys fb_phys : Z) : A unit :=
  port_write p PX_CLB (low32 clb_phys);;
  port_write p PX_CLBU (high32 clb_phys);;
  port_write p PX_FB (low32 fb_phys);;
  port_write p PX_FBU (high32 fb_phys);;
  port_write p PX_SERR 0xFFFFFFFF;;
  port_write p PX_IS 0xFFFFFFFF;;
  poll 100000 (clear_bits p PX_CMD CMD_CR);;
  cmd ← port_read p PX_CMD;
  port_write p PX_CMD (Z.lor (Z.lor cmd CMD_FRE) CMD_ST).

(** @src ross-kernel/src/ahci.rs 157-208 init_port *)
Definition init_port (p : Z) : A (R unit) :=
  cmd ← port_read p PX_CMD;
  port_write p PX_CMD (Z.land cmd (notw 32 (Z.lor CMD_ST CMD_FRE)));;
  poll 100000 (clear_bits p PX_CMD (Z.lor CMD_FR CMD_CR));;
  clb_phys ←? alloc_or "OOM: CLB";
  fb_phys ←? alloc_or "OOM: FB";
  ct_phys ←? alloc_or "OOM: CT";
  dma_phys ←? alloc_or "OOM: DMA";
  clear_pages clb_phys fb_phys ct_phys dma_phys;;
  start_port p clb_phys fb_phys;;
  set_port (mkPort p clb_phys ct_phys dma_phys);;
  mret (Ok tt).

(** The search for a port with a drive.
    @src ross-kernel/src/ahci.rs 141-154 init *)
Fixpoint find_port (pi : Z) (ports : list Z) : A (R unit) :=
  match ports with
  | [] => mret (Err "No SATA drive attached"%string)
  | p :: ports =>
      if Z.land pi (Z.shiftl 1 p) =? 0 then find_port pi ports
      else
        sig ← port_read p PX_SIG;
        ssts ← port_read p PX_SSTS;
        let det := Z.land ssts 0x0F in
        let ipm := Z.land (Z.shiftr ssts 8) 0x0F in
        if (det =? 3) && (ipm =? 1) && (sig =? SIG_SATA) then
          _ ←? init_port p; mret (Ok tt)
        else find_port pi ports
  end.

(** @src ross-kernel/src/ahci.rs 117-155 init *)
Definition init : A (R unit) :=
  s ← get;
  match find_by_class 0x01 0x06 (ah_pci s) with
  | None => mret (Err "No AHCI controller"%string)
  | Some controller =>
      bar5 ← hw (read_bar controller 5);
      let abar_phys := Z.land bar5 0xFFFFFFF0 in
      if abar_phys =? 0 then mret (Err "ABAR is zero"%string)
      else
        set_abar abar_phys;;
        ghc ← mmio_read HBA_GHC;
        mmio_write HBA_GHC (Z.lor ghc GHC_AE);;
        cap ← mmio_read HBA_CAP;
        pi ← mmio_read HBA_PI;
        find_port pi (seqZ 0 32)
  end.

(** ** Commands *)

Definition store_fields (base : Z) (fields : list (Z * Z)) (m : mem) : mem :=
  foldl (fun m '(i, v) => st_bytes [v] (base + i) m) m fields.

(** The command FIS, the one PRDT entry and the command header.
    @src ross-kernel/src/ahci.rs 223-251 read_sectors *)
Definition build_command (ps : PortState) (command flags lba count bytes : Z) : A unit :=
  ct ← lift (phys_to_virt (ct_phys ps));
  update_ram (fill (phys ct) 0 64);;
  update_ram (store_fields (phys ct)
    [(0, 0x27); (1, Z.shiftl 1 7); (2, command);
     (4, Z.land lba 0xFF); (5, Z.land (Z.shiftr lba 8) 0xFF); (6, Z.land (Z.shiftr lba 16) 0xFF);
     (7, Z.shiftl 1 6);
     (8, Z.land (Z.shiftr lba 24) 0xFF); (9, Z.land (Z.shiftr lba 32) 0xFF); (10, Z.land (Z.shiftr lba 40) 0xFF);
     (12, Z.land count 0xFF); (13, Z.land (Z.shiftr count 8) 0xFF)]);;
  update_ram (st32 (phys ct + prdt_dba) (low32 (dma_phys ps)));;
  update_ram (st32 (phys ct + prdt_dbau) (high32 (dma_phys ps)));;
  update_ram (st32 (phys ct + prdt_reserved) 0);;
  update_ram (st32 (phys ct + prdt_dbc) (bytes - 1));;
  hdr ← lift (phys_to_virt (clb_phys ps));
  update_ram (st 2 (phys hdr + hdr_flags) flags);;
  update_ram (st 2 (phys hdr + hdr_prdtl) 1);;
  update_ram (st32 (phys hdr + hdr_prdbc) 0).

(** One pass of the completion loop: an error, or whether the command is done.
    @src ross-kernel/src/ahci.rs 262-265 read_sectors *)
Definition completion (p : Z) : A (option bool) :=
  is_ ← port_read p PX_IS;
  if negb (Z.land is_ IS_TFES =? 0) then mret (Some false)
  else
    ci ← port_read p PX_CI;
    if Z.land ci 1 =? 0 then mret (Some true) else mret None.

(** @src ross-kernel/src/ahci.rs 253-267 read_sectors *)
Definition issue (p : Z) (timed_out : string) : A (R unit) :=
  poll 1000000 (clear_bits p PX_TFD (Z.lor TFD_BSY TFD_DRQ));;
  port_write p PX_IS 0xFFFFFFFF;;
  port_write p PX_CI 1;;
  ok ← poll 10000000 (completion p);
  match ok with
  | Some false => mret (Err "AHCI task file error"%string)
  | None => mret (Err timed_out)
  | Some true =>
      tfd ← port_read p PX_TFD;
      if negb (Z.land tfd TFD_ERR =? 0) then mret (Err "AHCI TFD error bit"%string) else mret (Ok tt)
  end.

(** @src ross-kernel/src/ahci.rs 210-274 read_sectors *)
Definition ahci_read_sectors (lba count : Z) (buf : list Z) : A (R (list Z)) :=
  if count =? 0 then mret (Ok buf)
  else if 8 <? count then mret (Err "AHCI: max 8 sectors per call"%string)
  else
    let bytes := count * 512 in
    if Z.of_nat (length buf) <? bytes then mret (Err "AHCI: buf too small"%string)
    else
      s ← get;
      match PORT s with
      | None => mret (Err "AHCI not initialized"%string)
      | Some ps =>
          build_command ps ATA_CMD_READ_DMA_EXT 5 lba count bytes;;
          _ ←? issue (port ps) "AHCI read timed out";
          dma_virt ← lift (phys_to_virt (dma_phys ps));
          s ← get;
          mret (Ok (ld_bytes (ram (ah_hw s)) (phys dma_virt) (Z.to_nat bytes) ++ drop (Z.to_nat bytes) buf))
      end.

(** @src ross-kernel/src/ahci.rs 276-333 write_sectors *)
Definition ahci_write_sectors (lba count : Z) (buf : list Z) : A (R unit) :=
  if count =? 0 then mret (Ok tt)
  else if 8 <? count then mret (Err "AHCI: max 8 sectors per call"%string)
  else
    let bytes := count * 512 in
    if Z.of_nat (length buf) <? bytes then mret (Err "AHCI: buf too small"%string)
    else
      s ← get;
      match PORT s with
      | None => mret (Err "AHCI not initialized"%string)
      | Some ps =>
          dma_virt ← lift (phys_to_virt (dma_phys ps));
          update_ram (st_bytes (take (Z.to_nat bytes) buf) (phys dma_virt));;
          build_command ps ATA_CMD_WRITE_DMA_EXT (Z.lor 5 (Z.shiftl 1 6)) lba count bytes;;
          _ ←? issue (port ps) "AHCI write timed out";
          mret (Ok tt)
      end.

(** @src ross-kernel/src/ahci.rs 335-337 is_ready *)
Definition is_ready (s : Ahci H St) : bool := match PORT s with Some _ => true | None => false end.

End ahci.
