(* ===== verification/AhciSpec.v ===== *)
(** * The AHCI driver keeps the promises of a block device

    What the controller and the drive do is a contract on the hardware
    ([Hba]), after the AHCI and ATA command set documents: registers hold what
    is written to them, a command issued on a running port is decoded from the
    command list and table in memory, completes after finitely many polls,
    moves the data, and clears its bit in PxCI.  Under it [init] brings a port
    up, and the driver is an instance of [BlockLaws], so that everything
    proved about FAT32 over a block device holds over this driver. *)

From Stdlib Require Import String.
From S2P Require Import Prelude Bytes Frames Pmm Paging Elf Block Io Pci Ahci.

(** ** The controller *)

(** Base of the registers; the registers of each port; the drive's sectors and
    their number; the command running on each port, by how many more polls of
    PxCI it may take; memory. *)
Record HbaState := mkHba {
  hs_base : Z;
  hs_reg : Z -> Z -> Z;
  hs_disk : sectors;
  hs_cap : Z;
  hs_run : gmap Z nat;
  hs_ram : mem
}.

Definition with_ram (m : mem) (x : HbaState) : HbaState :=
  mkHba (hs_base x) (hs_reg x) (hs_disk x) (hs_cap x) (hs_run x) m.
Definition with_reg (p off v : Z) (x : HbaState) : HbaState :=
  mkHba (hs_base x) (fun q o => if decide (q = p /\ o = off) then v else hs_reg x q o)
    (hs_disk x) (hs_cap x) (hs_run x) (hs_ram x).
Definition with_run (p : Z) (k : nat) (x : HbaState) : HbaState :=
  mkHba (hs_base x) (hs_reg x) (hs_disk x) (hs_cap x) (<[p := k]> (hs_run x)) (hs_ram x).

Definition port_addr (x : HbaState) (p off : Z) : Z := hs_base x + 0x100 + p * 0x80 + off.

(** ** Commands *)

Record Command := mkCommand {
  cmd_write : bool;
  cmd_lba : Z;
  cmd_count : Z;
  cmd_addr : Z;
  cmd_bytes : Z
}.

(** Slot 0 of the command list at [clb]: a host-to-device register FIS of five
    dwords with the command bit, LBA addressing, and one PRDT entry. *)
Definition decode (m : mem) (clb : Z) : option Command :=
  let flags := ld 2 m clb in
  let ct := ld32 m (clb + 8) + 2 ^ 32 * ld32 m (clb + 12) in
  if (flags mod 32 =? 5) && (ld 2 m (clb + 2) =? 1) && (m ct =? 0x27) &&
     Z.testbit (m (ct + 1)) 7 && Z.testbit (m (ct + 7)) 6 &&
     (m (ct + 2) =? (if Z.testbit flags 6 then 0x35 else 0x25))
  then Some (mkCommand (Z.testbit flags 6)
    (le_val [m (ct + 4); m (ct + 5); m (ct + 6); m (ct + 8); m (ct + 9); m (ct + 10)])
    (le_val [m (ct + 12); m (ct + 13)])
    (ld32 m (ct + 0x80) + 2 ^ 32 * ld32 m (ct + 0x84))
    (ld32 m (ct + 0x8C) mod 2 ^ 22 + 1))
  else None.

Definition reg64 (x : HbaState) (p off : Z) : Z := hs_reg x p off + 2 ^ 32 * hs_reg x p (off + 4).
Definition clb_of (x : HbaState) (p : Z) : Z := reg64 x p PX_CLB.
Definition fb_of (x : HbaState) (p : Z) : Z := reg64 x p PX_FB.

(** Where the controller writes on its own account: the byte count in the
    command header and the received FIS. *)
Definition scratch (x : HbaState) (p a : Z) : Prop :=
  clb_of x p + 4 <= a < clb_of x p + 8 \/ fb_of x p <= a < fb_of x p + 256.

(** A command the drive can carry out. *)
Definition command_ok (x : HbaState) (c : Command) : Prop :=
  1 <= cmd_count c /\ cmd_lba c + cmd_count c <= hs_cap x /\ cmd_bytes c = 512 * cmd_count c.

(** The command of port [p] has been carried out. *)
Definition finished (p : Z) (c : Command) (x x' : HbaState) : Prop :=
  exists m disk, x' = mkHba (hs_base x) (hs_reg x) disk (hs_cap x) (delete p (hs_run x)) m /\
    (mem_ok (hs_ram x) -> sectors_ok (hs_disk x) -> mem_ok m) /\
    (forall a, ~ scratch x p a ->
       m a = if cmd_write c then hs_ram x a
             else st_bytes (gather (hs_disk x) (cmd_lba c) (Z.to_nat (cmd_count c))) (cmd_addr c) (hs_ram x) a) /\
    (forall y, disk y = if cmd_write c
       then scatter (ld_bytes (hs_ram x) (cmd_addr c) (Z.to_nat (cmd_bytes c))) (cmd_lba c) (cmd_count c) (hs_disk x) y
       else hs_disk x y).

Definition config_regs : list Z := [PX_CLB; PX_CLBU; PX_FB; PX_FBU; PX_CMD].

(** The engine of port [p] is on and takes commands. *)
Definition running (x : HbaState) (p : Z) : Prop :=
  Z.testbit (hs_reg x p PX_CMD) 0 = true /\ Z.testbit (hs_reg x p PX_CMD) 4 = true.

(** What an idle port answers: not busy, no error, no command. *)
Definition idle_answer (off v : Z) : Prop :=
  fits 32 v /\
  (off = PX_TFD -> Z.land v 0x89 = 0) /\
  (off = PX_IS -> Z.land v IS_TFES = 0) /\
  (off = PX_CI -> Z.land v 1 = 0).

Class Hba (H : Type) {HW : Hardware H} {DM : Dma H} := {
  hba : H -> HbaState;
  hba_ram h : ram h = hs_ram (hba h);
  hba_set_ram m h : hba (set_ram m h) = with_ram m (hba h);
  hba_load h p off :
    0 <= p < 32 -> 0 <= off < 0x80 -> hs_run (hba h) !! p = None ->
    exists v h', mmio_load (port_addr (hba h) p off) h = (v, h') /\ hba h' = hba h /\ idle_answer off v;
  hba_load_is h p k :
    0 <= p < 32 -> hs_run (hba h) !! p = Some k ->
    exists v h', mmio_load (port_addr (hba h) p PX_IS) h = (v, h') /\ hba h' = hba h /\ Z.land v IS_TFES = 0;
  hba_load_ci h p k c :
    0 <= p < 32 -> hs_run (hba h) !! p = Some k ->
    decode (hs_ram (hba h)) (clb_of (hba h) p) = Some c -> command_ok (hba h) c ->
    exists v h', mmio_load (port_addr (hba h) p PX_CI) h = (v, h') /\
      if Z.land v 1 =? 0 then finished p c (hba h) (hba h')
      else exists k', (k' < k)%nat /\ hba h' = with_run p k' (hba h);
  hba_store h p off v :
    0 <= p < 32 -> fits 32 v -> hs_run (hba h) !! p = None ->
    (off ∈ config_regs -> hba (mmio_store (port_addr (hba h) p off) v h) = with_reg p off v (hba h)) /\
    (off = PX_IS \/ off = PX_SERR -> hba (mmio_store (port_addr (hba h) p off) v h) = hba h);
  hba_issue h p c :
    0 <= p < 32 -> hs_run (hba h) !! p = None -> running (hba h) p ->
    decode (hs_ram (hba h)) (clb_of (hba h) p) = Some c -> command_ok (hba h) c ->
    exists k, (k < Pos.to_nat 10000000)%nat /\
      hba (mmio_store (port_addr (hba h) p PX_CI) 1 h) = with_run p k (hba h)
}.

(** ** A port that is up *)

Definition page_ok (a : Z) : Prop := a mod 4096 = 0 /\ 0 <= a < 2 ^ 30.

Record port_up (x : HbaState) (ps : PortState) (fb : Z) : Prop := {
  pu_base : 0 <= hs_base x < 2 ^ 32;
  pu_port : 0 <= port ps < 32;
  pu_idle : hs_run x !! port ps = None;
  pu_running : running x (port ps);
  pu_clb : clb_of x (port ps) = clb_phys ps;
  pu_fb : fb_of x (port ps) = fb;
  pu_pages : Forall page_ok [clb_phys ps; fb; ct_phys ps; dma_phys ps];
  pu_distinct : NoDup [clb_phys ps; fb; ct_phys ps; dma_phys ps];
  pu_ctba : ld32 (hs_ram x) (clb_phys ps + 8) + 2 ^ 32 * ld32 (hs_ram x) (clb_phys ps + 12) = ct_phys ps;
  pu_ram : mem_ok (hs_ram x);
  pu_disk : sectors_ok (hs_disk x);
  pu_cap : 0 <= hs_cap x <= 2 ^ 48
}.

(** Memory outside the pages [l] is the same. *)
Definition outside (l : list Z) (m m' : mem) : Prop := forall a, (forall q, q ∈ l -> ~ q <= a < q + 4096) -> m' a = m a.

Lemma outside_weaken l l' m m' : (forall q, q ∈ l -> q ∈ l') -> outside l m m' -> outside l' m m'.
Proof. intros Hl Ho a Ha. apply Ho. intros q Hq. by apply Ha, Hl. Qed.

Lemma outside_trans l m1 m2 m3 : outside l m1 m2 -> outside l m2 m3 -> outside l m1 m3.
Proof. intros H1 H2 a Ha. by rewrite H2, H1. Qed.

Definition port_pages (ps : PortState) (fb : Z) : list Z := [clb_phys ps; fb; ct_phys ps; dma_phys ps].

(** ** The command the driver builds *)

Lemma st1_same a v m : st_bytes [v] a m a = v.
Proof. pose proof (st_bytes_in [v] a m 0 ltac:(simpl; lia)) as E. by rewrite Z.add_0_r in E. Qed.

Lemma st1_ne a v m x : x <> a -> st_bytes [v] a m x = m x.
Proof. intros Hx. apply st_bytes_out. simpl. lia. Qed.

Lemma st_out n a v m x : x < a \/ a + Z.of_nat n <= x -> st n a v m x = m x.
Proof. intros Hx. apply st_bytes_out. by rewrite length_le_bytes. Qed.

(** Read a byte or a field back through stores elsewhere. *)
Ltac peel :=
  repeat first
    [ rewrite st1_same | rewrite st1_ne by lia | rewrite st_out by lia | rewrite fill_in by lia
    | rewrite fill_out by lia | rewrite ld_st_ne by lia | rewrite ld_st_bytes_ne by (simpl; lia)
    | rewrite ld_fill_ne by lia ].

(** Memory after [build_command], with the tables at [ct] and [clb]. *)
Definition fis_fields (command lba count : Z) : list (Z * Z) :=
  [(0, 0x27); (1, Z.shiftl 1 7); (2, command);
   (4, Z.land lba 0xFF); (5, Z.land (Z.shiftr lba 8) 0xFF); (6, Z.land (Z.shiftr lba 16) 0xFF);
   (7, Z.shiftl 1 6);
   (8, Z.land (Z.shiftr lba 24) 0xFF); (9, Z.land (Z.shiftr lba 32) 0xFF); (10, Z.land (Z.shiftr lba 40) 0xFF);
   (12, Z.land count 0xFF); (13, Z.land (Z.shiftr count 8) 0xFF)].

Definition with_table (ct dma command lba count bytes : Z) (m : mem) : mem :=
  st32 (ct + prdt_dbc) (bytes - 1) (st32 (ct + prdt_reserved) 0 (st32 (ct + prdt_dbau) (high32 dma)
    (st32 (ct + prdt_dba) (low32 dma) (store_fields ct (fis_fields command lba count) (fill ct 0 64 m))))).

Definition with_header (clb flags : Z) (m : mem) : mem :=
  st32 (clb + hdr_prdbc) 0 (st 2 (clb + hdr_prdtl) 1 (st 2 (clb + hdr_flags) flags m)).

Lemma store_fields_out base fields i : forall m,
  ~ i ∈ fields.*1 -> store_fields base fields m (base + i) = m (base + i).
Proof.
  induction fields as [|[j v] fields IH]; intros m Hi; [done|]. cbn [fmap list_fmap fst] in Hi.
  apply not_elem_of_cons in Hi as [Hne Hi]. unfold store_fields in *. cbn [foldl]. rewrite IH by done.
  apply st1_ne. lia.
Qed.

Lemma store_fields_in base fields i v : forall m,
  NoDup (fields.*1) -> (i, v) ∈ fields -> store_fields base fields m (base + i) = v.
Proof.
  induction fields as [|[j u] fields IH]; intros m Hnd Hi; [by apply elem_of_nil in Hi|].
  cbn [fmap list_fmap fst] in Hnd. apply NoDup_cons in Hnd as [Hj Hnd].
  change (store_fields base ((j, u) :: fields) m) with (store_fields base fields (st_bytes [u] (base + j) m)).
  apply elem_of_cons in Hi as [[= -> ->]|Hi]; [|by apply IH].
  rewrite store_fields_out by done. apply st1_same.
Qed.

Lemma with_table_fis ct dma command lba count bytes m i v :
  0 <= i < 64 -> (i, v) ∈ fis_fields command lba count -> with_table ct dma command lba count bytes m (ct + i) = v.
Proof.
  intros Hi Hv. unfold with_table, prdt_dbc, prdt_reserved, prdt_dbau, prdt_dba, ct_prdt.
  rewrite !st_out by lia. apply store_fields_in; [|done].
  unfold fis_fields. cbn [fmap list_fmap fst]. apply (bool_decide_unpack _). done.
Qed.

Lemma byte_land v : 0 <= v < 256 -> Z.land v 0xFF = v.
Proof. intros Hv. rewrite (land_mask v 0xFF 8) by done. by apply Z.mod_small. Qed.

Lemma lba_bytes lba :
  0 <= lba < 2 ^ 48 ->
  le_val [Z.land lba 0xFF; Z.land (Z.shiftr lba 8) 0xFF; Z.land (Z.shiftr lba 16) 0xFF;
          Z.land (Z.shiftr lba 24) 0xFF; Z.land (Z.shiftr lba 32) 0xFF; Z.land (Z.shiftr lba 40) 0xFF] = lba.
Proof.
  intros Hl. rewrite <- (le_roundtrip 6 lba) at 7 by exact Hl. f_equal. cbn [le_bytes].
  rewrite !(land_mask _ 0xFF 8), !Z.shiftr_div_pow2, !Zdiv.Zdiv_Zdiv by done. done.
Qed.

Lemma count_bytes count :
  0 <= count < 2 ^ 16 -> le_val [Z.land count 0xFF; Z.land (Z.shiftr count 8) 0xFF] = count.
Proof.
  intros Hl. rewrite <- (le_roundtrip 2 count) at 3 by exact Hl. f_equal. cbn [le_bytes].
  by rewrite !(land_mask _ 0xFF 8), !Z.shiftr_div_pow2 by done.
Qed.

Lemma pages_apart a b : page_ok a -> page_ok b -> a <> b -> a + 4096 <= b \/ b + 4096 <= a.
Proof. unfold page_ok. intros [Ha _] [Hb _] Hne. dm_lia. Qed.

Lemma low_high a : page_ok a -> low32 a = a /\ high32 a = 0.
Proof.
  intros [_ Ha]. unfold low32, high32. rewrite (land_mask a 0xFFFFFFFF 32) by done.
  rewrite Z.shiftr_div_pow2, Z.mod_small, Z.div_small by lia. done.
Qed.

Lemma with_table_out ct dma command lba count bytes m a :
  ~ (ct <= a < ct + 4096) -> with_table ct dma command lba count bytes m a = m a.
Proof.
  intros Ha. unfold with_table, prdt_dbc, prdt_reserved, prdt_dbau, prdt_dba, ct_prdt, fis_fields.
  cbn [store_fields foldl]. by peel.
Qed.

Lemma with_header_out clb flags m a : ~ (clb <= a < clb + 8) -> with_header clb flags m a = m a.
Proof. intros Ha. unfold with_header, hdr_flags, hdr_prdtl, hdr_prdbc. by peel. Qed.

Lemma decode_built (w : bool) ct clb dma lba count m :
  page_ok ct -> page_ok clb -> page_ok dma -> ct <> clb -> 0 <= lba < 2 ^ 48 -> 1 <= count <= 8 ->
  ld32 m (clb + 8) + 2 ^ 32 * ld32 m (clb + 12) = ct ->
  decode (with_header clb (if w then Z.lor 5 (Z.shiftl 1 6) else 5)
    (with_table ct dma (if w then ATA_CMD_WRITE_DMA_EXT else ATA_CMD_READ_DMA_EXT) lba count (count * 512) m)) clb =
  Some (mkCommand w lba count dma (512 * count)).
Proof.
  intros Hct Hclb Hdma Hne Hl Hc Hctba. pose proof (pages_apart ct clb Hct Hclb Hne) as Hap.
  set (m1 := with_table _ _ _ _ _ _ _). set (m2 := with_header _ _ _).
  assert (forall a, ct <= a < ct + 4096 -> m2 a = m1 a) as Hm2.
  { intros a Ha. apply with_header_out. lia. }
  assert (forall n a, ct <= a -> a + Z.of_nat n <= ct + 4096 -> ld n m2 a = ld n m1 a) as Hld.
  { intros n a H1 H2. apply ld_ext. intros x Hx. apply Hm2. lia. }
  assert (ld 2 m2 clb = if w then 69 else 5) as Eflags.
  { unfold m2, with_header, hdr_flags, hdr_prdtl, hdr_prdbc. rewrite Z.add_0_r, !ld_st_ne by lia.
    rewrite ld_st_same; [by destruct w|]. by destruct w. }
  assert (ld 2 m2 (clb + 2) = 1) as Eprdtl.
  { unfold m2, with_header, hdr_flags, hdr_prdtl, hdr_prdbc. rewrite ld_st_ne, ld_st_same by (done || lia). done. }
  assert (ld32 m2 (clb + 8) + 2 ^ 32 * ld32 m2 (clb + 12) = ct) as Ect.
  { etransitivity; [|exact Hctba]. f_equal; [|f_equal]; apply ld_ext; intros x Hx; unfold m2, m1;
      rewrite with_header_out, with_table_out by lia; done. }
  unfold decode. rewrite Ect, Eflags, Eprdtl, !Hm2, !Hld by lia.
  assert (forall i v, 0 <= i < 64 -> (i, v) ∈ fis_fields (if w then ATA_CMD_WRITE_DMA_EXT else ATA_CMD_READ_DMA_EXT) lba count ->
    m1 (ct + i) = v) as Hf by (intros; by apply with_table_fis).
  assert (m1 ct = 0x27) as -> by (rewrite <- (Z.add_0_r ct); apply Hf; [lia|set_solver]).
  rewrite (Hf 1 _ ltac:(lia) ltac:(by do 1 right; left)), (Hf 2 _ ltac:(lia) ltac:(by do 2 right; left)),
    (Hf 4 _ ltac:(lia) ltac:(by do 3 right; left)), (Hf 5 _ ltac:(lia) ltac:(by do 4 right; left)),
    (Hf 6 _ ltac:(lia) ltac:(by do 5 right; left)), (Hf 7 _ ltac:(lia) ltac:(by do 6 right; left)),
    (Hf 8 _ ltac:(lia) ltac:(by do 7 right; left)), (Hf 9 _ ltac:(lia) ltac:(by do 8 right; left)),
    (Hf 10 _ ltac:(lia) ltac:(by do 9 right; left)), (Hf 12 _ ltac:(lia) ltac:(by do 10 right; left)),
    (Hf 13 _ ltac:(lia) ltac:(by do 11 right; left)).
  rewrite lba_bytes, count_bytes by lia. destruct (low_high dma Hdma) as [El Eh]. destruct Hdma as [_ Hdma].
  assert (ld32 m1 (ct + 0x80) = dma) as ->.
  { unfold m1, with_table, prdt_dbc, prdt_reserved, prdt_dbau, prdt_dba, ct_prdt. rewrite El.
    do 3 rewrite ld_st_ne by lia. apply ld_st_same. unfold fits. lia. }
  assert (ld32 m1 (ct + 0x84) = 0) as ->.
  { unfold m1, with_table, prdt_dbc, prdt_reserved, prdt_dbau, prdt_dba, ct_prdt. rewrite Eh.
    do 2 rewrite ld_st_ne by lia. by apply ld_st_same. }
  assert (ld32 m1 (ct + 0x8C) = count * 512 - 1) as ->.
  { unfold m1, with_table, prdt_dbc, prdt_reserved, prdt_dbau, prdt_dba, ct_prdt. apply ld_st_same. unfold fits. lia. }
  rewrite (Z.mod_small (count * 512 - 1)) by lia. replace (count * 512 - 1 + 1) with (512 * count) by lia.
  rewrite Z.mul_0_r, Z.add_0_r. by destruct w.
Qed.

Lemma with_table_ok ct dma command lba count bytes m :
  is_byte command -> mem_ok m -> mem_ok (with_table ct dma command lba count bytes m).
Proof.
  intros Hc Hm. unfold with_table, fis_fields. cbn [store_fields foldl].
  assert (forall x, is_byte (Z.land x 0xFF)) as Hb by (intros x; rewrite (land_mask x 0xFF 8) by done; by apply fits_mod).
  repeat apply st_ok. repeat (apply st_bytes_ok; [repeat constructor; (done || apply Hb || unfold fits; lia || apply Hc)|]).
  by apply fill_ok.
Qed.

Lemma with_header_ok clb flags m : mem_ok m -> mem_ok (with_header clb flags m).
Proof. intros Hm. by repeat apply st_ok. Qed.

Section spec.
Context {H St : Type} {HW : Hardware H} {DM : Dma H} {FA : FrameAllocator St} {HB : Hba H}.

(** What the driver sees of the controller in a state. *)
Definition view (s : Ahci H St) : HbaState := hba (ah_hw s).

(** [s] with other hardware. *)
Lemma with_hw_hw h h' (s : Ahci H St) : with_hw h' (with_hw h s) = with_hw h' s.
Proof. done. Qed.

Lemma with_hw_id (s : Ahci H St) : with_hw (ah_hw s) s = s.
Proof. by destruct s as [[? ?] ? ? ?]. Qed.

(** The part of the driver that talks to the hardware returned [a]. *)
Definition runs {X} (m : M (Ahci H St) X) (s : Ahci H St) (a : X) (Q : HbaState -> Prop) : Prop :=
  exists h, m s = Ret (a, with_hw h s) /\ Q (hba h).

Lemma runs_bind {X Y} (m : M (Ahci H St) X) (f : X -> M (Ahci H St) Y) s a b Q Q' :
  runs m s a Q -> (forall h, Q (hba h) -> runs (f a) (with_hw h s) b Q') -> runs (m ≫= f) s b Q'.
Proof.
  intros (h & R & HQ) Hf. destruct (Hf h HQ) as (h' & R' & HQ'). exists h'.
  by rewrite (run_bind _ _ _ _ _ R).
Qed.

Lemma runs_step {X Y} (m : M (Ahci H St) X) (f : X -> M (Ahci H St) Y) s a h b Q :
  m s = Ret (a, with_hw h s) -> runs (f a) (with_hw h s) b Q -> runs (m ≫= f) s b Q.
Proof. intros R (h' & R' & HQ). exists h'. by rewrite (run_bind _ _ _ _ _ R). Qed.

Lemma runs_ret {X} (a : X) s (Q : HbaState -> Prop) : Q (view s) -> runs (mret a) s a Q.
Proof. intros HQ. exists (ah_hw s). by rewrite with_hw_id. Qed.

Lemma runs_conseq {X} (m : M (Ahci H St) X) s a (Q Q' : HbaState -> Prop) :
  runs m s a Q -> (forall x, Q x -> Q' x) -> runs m s a Q'.
Proof. intros (h & R & HQ) HQQ. exists h. eauto. Qed.

Lemma runs_virt {Y} a (f : Z -> M (Ahci H St) Y) s b Q :
  page_ok a -> runs (f (a + KERNEL_VMA_BASE)) s b Q -> runs (lift (phys_to_virt a) ≫= f) s b Q.
Proof. intros [_ Ha] Hr. rewrite phys_to_virt_ok by lia. exact Hr. Qed.

Lemma runs_ram {Y} g (f : unit -> M (Ahci H St) Y) s b Q :
  (forall h, hba h = with_ram (g (hs_ram (view s))) (view s) -> runs (f tt) (with_hw h s) b Q) ->
  runs (update_ram g ≫= f) s b Q.
Proof.
  intros Hf. apply (runs_bind _ _ _ tt b (fun x => x = with_ram (g (hs_ram (view s))) (view s))); [|by eauto].
  exists (set_ram (g (ram (ah_hw s))) (ah_hw s)). split; [done|]. by rewrite hba_set_ram, hba_ram.
Qed.

(** ** Registers *)

(** The statics agree with the controller. *)
Definition bound (s : Ahci H St) : Prop := ABAR_VIRT s = hs_base (view s) /\ 0 <= hs_base (view s) < 2 ^ 32.

Lemma port_read_run (s : Ahci H St) p off :
  bound s -> 0 <= p < 32 -> 0 <= off < 0x80 ->
  port_read p off s =
    let '(v, h) := mmio_load (port_addr (view s) p off) (ah_hw s) in Ret (v, with_hw h s).
Proof.
  intros [Eb Hb] Hp Ho. unfold port_read, mmio_read, HBA_PORT_BASE, HBA_PORT_SIZE.
  erewrite run_bind by done. unfold cadd. rewrite (proj2 (Z.ltb_lt _ _)) by lia.
  erewrite run_bind by done. unfold hw, zoom, read_volatile, port_addr. rewrite Eb.
  replace (hs_base (view s) + (256 + p * 128 + off)) with (hs_base (view s) + 256 + p * 128 + off) by lia.
  by destruct (mmio_load _ _).
Qed.

Lemma port_write_run (s : Ahci H St) p off v :
  bound s -> 0 <= p < 32 -> 0 <= off < 0x80 ->
  port_write p off v s = Ret (tt, with_hw (mmio_store (port_addr (view s) p off) v (ah_hw s)) s).
Proof.
  intros [Eb Hb] Hp Ho. unfold port_write, mmio_write, HBA_PORT_BASE, HBA_PORT_SIZE.
  erewrite run_bind by done. unfold cadd. rewrite (proj2 (Z.ltb_lt _ _)) by lia.
  erewrite run_bind by done. unfold hw, zoom, write_volatile, port_addr. rewrite Eb.
  by replace (hs_base (view s) + (256 + p * 128 + off)) with (hs_base (view s) + 256 + p * 128 + off) by lia.
Qed.

Lemma read_runs (s : Ahci H St) p off :
  bound s -> 0 <= p < 32 -> 0 <= off < 0x80 -> hs_run (view s) !! p = None ->
  exists v, runs (port_read p off) s v (fun x => x = view s) /\ idle_answer off v.
Proof.
  intros Hb Hp Ho Hr. destruct (hba_load (ah_hw s) p off Hp Ho Hr) as (v & h & E & Eh & Ha).
  exists v. split; [|done]. exists h. rewrite port_read_run by done. unfold view. by rewrite E.
Qed.

Lemma read_idle {Y} p off (f : Z -> M (Ahci H St) Y) s b Q :
  bound s -> 0 <= p < 32 -> 0 <= off < 0x80 -> hs_run (view s) !! p = None ->
  (forall v h, idle_answer off v -> hba h = view s -> runs (f v) (with_hw h s) b Q) ->
  runs (port_read p off ≫= f) s b Q.
Proof.
  intros Hb Hp Ho Hr Hf. destruct (read_runs s p off Hb Hp Ho Hr) as (v & R & Ha).
  eapply runs_bind; [exact R|]. eauto.
Qed.

Lemma write_config_runs p off v (s : Ahci H St) :
  bound s -> 0 <= p < 32 -> fits 32 v -> hs_run (view s) !! p = None -> off ∈ config_regs ->
  runs (port_write p off v) s tt (fun x => x = with_reg p off v (view s)).
Proof.
  intros Hb Hp Hv Hr Ho.
  assert (0 <= off < 0x80).
  { unfold config_regs in Ho. repeat (apply elem_of_cons in Ho as [->|Ho]; [by vm_compute|]). by apply elem_of_nil in Ho. }
  destruct (hba_store (ah_hw s) p off v Hp Hv Hr) as [Hc _].
  eexists. rewrite port_write_run by done. split; [done|]. by apply Hc.
Qed.

Lemma write_config {Y} p off v (f : unit -> M (Ahci H St) Y) s b Q :
  bound s -> 0 <= p < 32 -> fits 32 v -> hs_run (view s) !! p = None -> off ∈ config_regs ->
  (forall h, hba h = with_reg p off v (view s) -> runs (f tt) (with_hw h s) b Q) ->
  runs (port_write p off v ≫= f) s b Q.
Proof.
  intros Hb Hp Hv Hr Ho Hf. eapply runs_bind; [by apply write_config_runs|]. eauto.
Qed.

Lemma write_status {Y} p off v (f : unit -> M (Ahci H St) Y) s b Q :
  bound s -> 0 <= p < 32 -> fits 32 v -> hs_run (view s) !! p = None -> off = PX_IS \/ off = PX_SERR ->
  (forall h, hba h = view s -> runs (f tt) (with_hw h s) b Q) ->
  runs (port_write p off v ≫= f) s b Q.
Proof.
  intros Hb Hp Hv Hr Ho Hf.
  assert (0 <= off < 0x80) by (destruct Ho as [-> | ->]; by vm_compute).
  destruct (hba_store (ah_hw s) p off v Hp Hv Hr) as [_ Hc].
  apply (runs_bind _ _ _ tt b (fun x => x = view s)); [|by eauto].
  eexists. rewrite port_write_run by done. split; [done|]. by apply Hc.
Qed.

Lemma poll_runs n p off mask (s : Ahci H St) :
  bound s -> 0 <= p < 32 -> 0 <= off < 0x80 -> hs_run (view s) !! p = None ->
  exists r, runs (poll n (clear_bits p off mask)) s r (fun x => x = view s).
Proof.
  intros Hb Hp Ho Hr.
  destruct (poll_keeps (fun t => exists h, t = with_hw h s /\ hba h = view s) (clear_bits p off mask) n)
    with (s := s) as (r & t & R & h & -> & Eh).
  - intros t (h & -> & Eh). assert (bound (with_hw h s)) as Hb'.
    { unfold bound, view. cbn [ah_hw pci_hw ah_pci with_hw ABAR_VIRT]. by rewrite Eh. }
    assert (hs_run (view (with_hw h s)) !! p = None) as Hr' by (unfold view; cbn; by rewrite Eh).
    destruct (hba_load h p off Hp Ho) as (v & h' & E & Eh' & _); [by rewrite Eh|].
    eexists _, (with_hw h' s). split; [|exists h'; split; [done|by transitivity (hba h)]].
    unfold clear_bits. erewrite run_bind; [done|]. rewrite port_read_run by done.
    unfold view, ah_hw. cbn [pci_hw ah_pci with_hw]. by rewrite E.
  - exists (ah_hw s). by rewrite with_hw_id.
  - exists r. by exists h.
Qed.

Lemma poll_idle {Y} n p off mask (f : option unit -> M (Ahci H St) Y) s b Q :
  bound s -> 0 <= p < 32 -> 0 <= off < 0x80 -> hs_run (view s) !! p = None ->
  (forall r h, hba h = view s -> runs (f r) (with_hw h s) b Q) ->
  runs (poll n (clear_bits p off mask) ≫= f) s b Q.
Proof.
  intros Hb Hp Ho Hr Hf. destruct (poll_runs n p off mask s Hb Hp Ho Hr) as (r & R).
  eapply runs_bind; [exact R|]. eauto.
Qed.

Lemma bound_with h (s : Ahci H St) : bound s -> hs_base (hba h) = hs_base (view s) -> bound (with_hw h s).
Proof. unfold bound, view. cbn. by intros [-> Hb] ->. Qed.

Definition command_byte (w : bool) : Z := if w then ATA_CMD_WRITE_DMA_EXT else ATA_CMD_READ_DMA_EXT.
Definition header_flags (w : bool) : Z := if w then Z.lor 5 (Z.shiftl 1 6) else 5.

Lemma build_run (s : Ahci H St) ps (w : bool) lba count :
  page_ok (ct_phys ps) -> page_ok (clb_phys ps) ->
  runs (build_command ps (command_byte w) (header_flags w) lba count (count * 512)) s tt
    (fun x => x = with_ram (with_header (clb_phys ps) (header_flags w)
       (with_table (ct_phys ps) (dma_phys ps) (command_byte w) lba count (count * 512) (hs_ram (view s)))) (view s)).
Proof.
  intros Hct Hclb. unfold build_command. apply runs_virt; [done|]. unfold phys.
  replace (ct_phys ps + KERNEL_VMA_BASE - KERNEL_VMA_BASE) with (ct_phys ps) by lia.
  do 6 (apply runs_ram; intros ? ?). apply runs_virt; [done|]. unfold phys.
  replace (clb_phys ps + KERNEL_VMA_BASE - KERNEL_VMA_BASE) with (clb_phys ps) by lia.
  do 2 (apply runs_ram; intros ? ?).
  exists (set_ram (st32 (clb_phys ps + hdr_prdbc) 0 (ram h6)) h6). split; [done|].
  rewrite hba_set_ram, hba_ram. unfold view in *; cbn [ah_hw with_hw ah_pci pci_hw] in *.
  repeat match goal with E : hba ?h = _ |- _ => rewrite E; clear E end. done.
Qed.

(** Issuing a decoded command on an idle port carries it out. *)
Lemma issue_run (s : Ahci H St) p c e :
  bound s -> 0 <= p < 32 -> hs_run (view s) !! p = None -> running (view s) p ->
  decode (hs_ram (view s)) (clb_of (view s) p) = Some c -> command_ok (view s) c ->
  runs (issue p e) s (Ok tt) (fun x => exists k, finished p c (with_run p k (view s)) x).
Proof.
  intros Hb Hp Hr Hrun Hd Hc. unfold issue. apply poll_idle; [done..|by vm_compute|done|]. intros _ h1 E1.
  apply write_status; [by apply bound_with; rewrite ?E1|done|done|by unfold view; cbn; rewrite E1|by left|].
  intros h2 E2. unfold view in E2. cbn [ah_hw with_hw ah_pci pci_hw] in E2. rewrite E1 in E2. rewrite with_hw_hw.
  assert (bound (with_hw h2 s)) as Hb2 by (apply bound_with; [done|by rewrite E2]).
  set (x := view s) in *.
  destruct (hba_issue h2 p c) as (k & Hk & E3); rewrite ?E2; try done.
  set (h3 := mmio_store (port_addr (hba h2) p PX_CI) 1 h2) in *.
  apply (runs_step _ _ _ tt h3); [by rewrite port_write_run|]. rewrite with_hw_hw.
  rewrite E2 in E3.
  destruct (poll_success
    (fun j t => exists h, t = with_hw h s /\ hba h = with_run p j x)
    (fun b t => b = true /\ exists h j, t = with_hw h s /\ finished p c (with_run p j x) (hba h))
    (completion p) 10000000 k (with_hw h3 s)) as (ok & t & R & -> & h4 & j & -> & Hfin); [|by exists h3|done|].
  { intros j t (h & -> & Eh). assert (bound (with_hw h s)) as Hbh by (apply bound_with; [done|by rewrite Eh]).
    assert (hs_run (hba h) !! p = Some j) as Hrj by (rewrite Eh; cbn; by rewrite lookup_insert_eq).
    destruct (hba_load_is h p j Hp Hrj) as (v & h' & L & Eh' & Hv).
    unfold completion. rewrite (run_bind _ _ _ v (with_hw h' s)).
    2: { rewrite port_read_run by done. unfold view, ah_hw; cbn [pci_hw ah_pci with_hw]. by rewrite L. }
    rewrite Hv. cbn [Z.eqb negb].
    assert (bound (with_hw h' s)) as Hbh' by (apply bound_with; [done|by rewrite Eh', Eh]).
    destruct (hba_load_ci h' p j c Hp) as (v2 & h2' & L2 & Hfin); rewrite ?Eh', ?Eh; try done.
    { cbn. by rewrite lookup_insert_eq. }
    rewrite (run_bind _ _ _ v2 (with_hw h2' s)).
    2: { rewrite port_read_run by done. unfold view, ah_hw; cbn [pci_hw ah_pci with_hw]. by rewrite L2. }
    rewrite Eh', Eh in Hfin. destruct (Z.land v2 1 =? 0).
    - eexists _, _. split; [done|]. split; [done|]. by exists h2', j.
    - destruct Hfin as (k' & Hk' & Ek'). eexists None, _. split; [done|]. exists k'. split; [done|].
      exists h2'. split; [done|]. rewrite Ek'. unfold with_run. cbn. by rewrite insert_insert_eq. }
  apply (runs_step _ _ _ (Some true) h4); [done|]. rewrite with_hw_hw.
  pose proof Hfin as (m & disk & E4 & _).
  apply read_idle; [apply bound_with; [exact Hb|by rewrite E4]|exact Hp|by vm_compute| |].
  { unfold view; cbn. rewrite E4. cbn. by rewrite lookup_delete_eq. }
  intros v h5 (_ & Hv & _) E5. specialize (Hv eq_refl).
  assert (Z.land v TFD_ERR = 0) as ->.
  { change TFD_ERR with (Z.land 0x89 1). by rewrite Z.land_assoc, Hv. }
  apply runs_ret. exists j. unfold view in E5 |- *. cbn [ah_hw with_hw ah_pci pci_hw] in E5 |- *. by rewrite E5.
Qed.

(** What one command did, as the driver and the file system see it. *)
Definition carried (w : bool) (ps : PortState) (fb lba count : Z) (x x' : HbaState) : Prop :=
  port_up x' ps fb /\ hs_base x' = hs_base x /\ hs_cap x' = hs_cap x /\
  (forall y, hs_disk x' y = if w
     then scatter (ld_bytes (hs_ram x) (dma_phys ps) (Z.to_nat (count * 512))) lba count (hs_disk x) y
     else hs_disk x y) /\
  (w = false -> ld_bytes (hs_ram x') (dma_phys ps) (Z.to_nat (count * 512)) = gather (hs_disk x) lba (Z.to_nat count)) /\
  outside (port_pages ps fb) (hs_ram x) (hs_ram x').

Lemma finished_carried (w : bool) ps fb lba count m k x x' :
  port_up x ps fb -> 0 <= lba -> 1 <= count <= 8 -> lba + count <= hs_cap x ->
  mem_ok m ->
  (forall a, ~ (clb_phys ps <= a < clb_phys ps + 8) -> ~ (ct_phys ps <= a < ct_phys ps + 4096) -> m a = hs_ram x a) ->
  finished (port ps) (mkCommand w lba count (dma_phys ps) (512 * count)) (with_run (port ps) k (with_ram m x)) x' ->
  carried w ps fb lba count x x'.
Proof.
  intros [] Hl Hc Hcap Hmok Hm (m' & disk & -> & Hmok' & Hm' & Hd).
  cbn [cmd_write cmd_lba cmd_count cmd_addr cmd_bytes hs_ram hs_disk hs_cap hs_reg hs_base hs_run with_run with_ram] in *.
  specialize (Hmok' Hmok pu_disk0). rewrite !Forall_cons in pu_pages0. destruct pu_pages0 as (Pc & Pf & Pt & Pd & _).
  apply NoDup_cons in pu_distinct0 as Hnd. destruct Hnd as [Nc Hnd]. apply NoDup_cons in Hnd as [Nf Hnd].
  apply NoDup_cons in Hnd as [Nt _].
  assert (clb_phys ps <> fb /\ clb_phys ps <> ct_phys ps /\ clb_phys ps <> dma_phys ps /\ fb <> dma_phys ps /\ ct_phys ps <> dma_phys ps)
    as (N1 & N2 & N3 & N4 & N5) by (split_and!; set_solver).
  pose proof (pages_apart _ _ Pc Pf N1) as A1. pose proof (pages_apart _ _ Pc Pt N2) as A2.
  pose proof (pages_apart _ _ Pc Pd N3) as A3. pose proof (pages_apart _ _ Pf Pd N4) as A4.
  pose proof (pages_apart _ _ Pt Pd N5) as A5.
  assert (forall a, ~ (clb_phys ps + 4 <= a < clb_phys ps + 8) -> ~ (fb <= a < fb + 256) ->
    m' a = if w then m a else st_bytes (gather (hs_disk x) lba (Z.to_nat count)) (dma_phys ps) m a) as Hs.
  { intros a H1 H2. apply Hm'. unfold scratch, clb_of, fb_of, reg64. cbn [hs_reg with_run with_ram].
    unfold clb_of, fb_of, reg64 in pu_clb0, pu_fb0. rewrite pu_clb0, pu_fb0. tauto. }
  assert (length (gather (hs_disk x) lba (Z.to_nat count)) = Z.to_nat (count * 512)) as Hg.
  { rewrite length_gather by done. lia. }
  assert (ld_bytes m (dma_phys ps) (Z.to_nat (count * 512)) = ld_bytes (hs_ram x) (dma_phys ps) (Z.to_nat (count * 512))) as Hdma.
  { apply ld_bytes_ext. intros a Ha. apply Hm; lia. }
  split; [|split_and!; [done|done| | |]].
  - constructor; cbn [hs_ram hs_disk hs_cap hs_reg hs_base hs_run]; try done.
    + by rewrite lookup_delete_eq.
    + by rewrite !Forall_cons.
    + rewrite <- pu_ctba0. f_equal; [|f_equal]; apply ld_ext; intros a Ha; rewrite Hs by lia;
        (transitivity (m a); [destruct w; [done|]; apply st_bytes_out; rewrite Hg; lia|apply Hm; lia]).
    + intros y. rewrite Hd. destruct w; [|done]. apply scatter_ok; [done|by apply ld_bytes_byte|].
      rewrite length_ld_bytes. lia.
  - intros y. rewrite Hd. destruct w; [|done]. rewrite <- Hdma.
    by replace (Z.to_nat (512 * count)) with (Z.to_nat (count * 512)) by lia.
  - intros ->. rewrite <- Hg. cbn [hs_ram].
    set (g := gather (hs_disk x) lba (Z.to_nat count)) in *.
    transitivity (ld_bytes (st_bytes g (dma_phys ps) m) (dma_phys ps) (length g)); [|apply ld_bytes_st_bytes_same].
    apply ld_bytes_ext. intros a Ha. apply Hs; lia.
  - intros a Ha. cbn [hs_ram]. pose proof (Ha _ (list_elem_of_here _ _)) as Q1.
    pose proof (Ha fb ltac:(by do 1 right; left)) as Q2. pose proof (Ha (ct_phys ps) ltac:(by do 2 right; left)) as Q3.
    pose proof (Ha (dma_phys ps) ltac:(by do 3 right; left)) as Q4. rewrite Hs by lia.
    transitivity (m a); [destruct w; [done|]; apply st_bytes_out; rewrite Hg; lia|apply Hm; lia].
Qed.

Lemma command_run (w : bool) (s : Ahci H St) ps fb lba count e :
  bound s -> port_up (view s) ps fb -> 0 <= lba -> 1 <= count <= 8 -> lba + count <= hs_cap (view s) ->
  runs (build_command ps (command_byte w) (header_flags w) lba count (count * 512);; issue (port ps) e) s (Ok tt)
    (carried w ps fb lba count (view s)).
Proof.
  intros Hb Hup Hl Hc Hcap. pose proof Hup as []. rewrite !Forall_cons in pu_pages0. destruct pu_pages0 as (Pc & Pf & Pt & Pd & _).
  assert (clb_phys ps <> ct_phys ps) as Hne by (apply NoDup_cons in pu_distinct0 as [Hn _]; set_solver).
  set (m := with_header (clb_phys ps) (header_flags w)
    (with_table (ct_phys ps) (dma_phys ps) (command_byte w) lba count (count * 512) (hs_ram (view s)))).
  assert (decode m (clb_phys ps) = Some (mkCommand w lba count (dma_phys ps) (512 * count))) as Hd.
  { apply decode_built; try done; try lia. }
  eapply runs_bind; [by apply build_run|]. cbv beta. intros h1 E1. fold m in E1.
  assert (view (with_hw h1 s) = with_ram m (view s)) as Ev by exact E1.
  assert (bound (with_hw h1 s)) as B1 by (apply bound_with; [exact Hb|by rewrite E1]).
  assert (hs_run (view (with_hw h1 s)) !! port ps = None) as B2 by (rewrite Ev; exact pu_idle0).
  assert (running (view (with_hw h1 s)) (port ps)) as B3 by (rewrite Ev; exact pu_running0).
  assert (decode (hs_ram (view (with_hw h1 s))) (clb_of (view (with_hw h1 s)) (port ps)) =
    Some (mkCommand w lba count (dma_phys ps) (512 * count))) as B4.
  { rewrite Ev. change (clb_of (with_ram m (view s)) (port ps)) with (clb_of (view s) (port ps)).
    rewrite pu_clb0. exact Hd. }
  assert (command_ok (view (with_hw h1 s)) (mkCommand w lba count (dma_phys ps) (512 * count))) as B5.
  { rewrite Ev. split_and!; cbn [cmd_lba cmd_count cmd_bytes hs_cap with_ram]; lia. }
  eapply runs_conseq; [exact (issue_run _ _ _ e B1 pu_port0 B2 B3 B4 B5)|].
  intros x' (k & Hf). rewrite Ev in Hf. apply (finished_carried w ps fb lba count m k (view s) x'); [exact Hup|exact Hl|exact Hc|exact Hcap| | |exact Hf].
  - apply with_header_ok, with_table_ok; [|exact pu_ram0]. unfold command_byte. by destruct w.
  - intros a H1 H2. unfold m. by rewrite with_header_out, with_table_out.
Qed.

(** ** The driver as a block device *)

Definition ready (s : Ahci H St) : Prop :=
  bound s /\ exists ps fb, PORT s = Some ps /\ port_up (view s) ps fb.

(** The pages of the port are among [l]. *)
Definition ready_on (l : list Z) (s : Ahci H St) : Prop :=
  bound s /\ exists ps fb, PORT s = Some ps /\ port_up (view s) ps fb /\ forall q, q ∈ port_pages ps fb -> q ∈ l.

Lemma ready_pages s : ready s -> exists l, ready_on l s.
Proof. intros (Hb & ps & fb & EP & Hup). exists (port_pages ps fb). split; [done|]. by exists ps, fb. Qed.

Lemma ready_on_ready l s : ready_on l s -> ready s.
Proof. intros (Hb & ps & fb & EP & Hup & _). split; [done|]. by exists ps, fb. Qed.

(** Memory may change elsewhere. *)
Lemma ready_ram l s h m : ready_on l s -> hba h = with_ram m (view s) -> mem_ok m ->
  (forall q a, q ∈ l -> q <= a < q + 4096 -> m a = hs_ram (view s) a) -> ready_on l (with_hw h s).
Proof.
  intros (Hb & ps & fb & EP & [] & Hin) Eh Hm Hl. split; [apply bound_with; [done|by rewrite Eh]|].
  exists ps, fb. split; [done|]. split; [|done]. change (view (with_hw h s)) with (hba h). rewrite Eh.
  constructor; cbn [hs_ram hs_disk hs_cap hs_reg hs_base hs_run with_ram]; try done.
  rewrite <- pu_ctba0. pose proof (Hin (clb_phys ps) (list_elem_of_here _ _)) as Hc.
  f_equal; [|f_equal]; apply ld_ext; intros a Ha; apply (Hl (clb_phys ps)); lia || done.
Qed.

(** A transfer only changes the hardware, and no memory but the pages. *)
Definition moved (l : list Z) (s s' : Ahci H St) : Prop :=
  exists h, s' = with_hw h s /\ ready_on l s' /\ outside l (hs_ram (view s)) (hs_ram (hba h)).

Lemma ahci_read_ok l (s : Ahci H St) lba count buf :
  ready_on l s -> 0 <= lba -> 1 <= count <= 8 -> lba + count <= hs_cap (view s) -> count * 512 <= Z.of_nat (length buf) ->
  exists s', ahci_read_sectors lba count buf s =
      Ret (Ok (gather (hs_disk (view s)) lba (Z.to_nat count) ++ drop (Z.to_nat (count * 512)) buf), s') /\
    moved l s s' /\ hs_cap (view s') = hs_cap (view s) /\ forall x, hs_disk (view s') x = hs_disk (view s) x.
Proof.
  intros (Hb & ps & fb & EP & Hup & Hin) Hl Hc Hcap Hbuf. unfold ahci_read_sectors.
  rewrite (proj2 (Z.eqb_neq count 0)), (proj2 (Z.ltb_ge 8 count)), (proj2 (Z.ltb_ge (Z.of_nat _) _)) by lia.
  erewrite run_bind by done. rewrite EP.
  destruct (command_run false s ps fb lba count "AHCI read timed out" Hb Hup Hl Hc Hcap) as (h & Rc & Hup' & Eb & Ec & Ed & Eg & Eo).
  unfold command_byte, header_flags in Rc.
  destruct (build_command ps ATA_CMD_READ_DMA_EXT 5 lba count (count * 512) s) as [[[] s1]| |] eqn:E1;
    unfold mbind, M_bind in Rc; rewrite E1 in Rc; try done.
  rewrite (run_bind _ _ _ _ _ E1), (run_try _ _ _ _ _ Rc).
  pose proof Hup' as []. rewrite !Forall_cons in pu_pages0. destruct pu_pages0 as (_ & _ & _ & [_ Pd] & _).
  rewrite phys_to_virt_ok by lia. erewrite run_bind by done. erewrite run_bind by done.
  eexists. split; [|split; [|split]].
  - unfold mret, M_ret, phys. do 3 f_equal.
    replace (dma_phys ps + KERNEL_VMA_BASE - KERNEL_VMA_BASE) with (dma_phys ps) by lia.
    cbn [ah_hw with_hw ah_pci pci_hw]. rewrite hba_ram, Eg by done. done.
  - exists h. split; [done|]. split; [|by eapply outside_weaken].
    split; [by apply bound_with|]. by exists ps, fb.
  - done.
  - done.
Qed.

Lemma scatter_take buf lba count d x :
  0 <= count -> count * 512 <= Z.of_nat (length buf) ->
  scatter (take (Z.to_nat (count * 512)) buf) lba count d x = scatter buf lba count d x.
Proof.
  intros Hc Hb. destruct (decide (lba <= x < lba + count)).
  - rewrite !scatter_in by lia. unfold sub. rewrite skipn_firstn_comm, take_take. f_equal. lia.
  - by rewrite !scatter_out by lia.
Qed.

Lemma ahci_write_ok l (s : Ahci H St) lba count buf :
  ready_on l s -> 0 <= lba -> 1 <= count <= 8 -> lba + count <= hs_cap (view s) -> count * 512 <= Z.of_nat (length buf) ->
  Forall is_byte buf ->
  exists s', ahci_write_sectors lba count buf s = Ret (Ok tt, s') /\
    moved l s s' /\ hs_cap (view s') = hs_cap (view s) /\
    forall x, hs_disk (view s') x = scatter buf lba count (hs_disk (view s)) x.
Proof.
  intros (Hb & ps & fb & EP & Hup & Hin) Hl Hc Hcap Hbuf Hbytes. unfold ahci_write_sectors.
  rewrite (proj2 (Z.eqb_neq count 0)), (proj2 (Z.ltb_ge 8 count)), (proj2 (Z.ltb_ge (Z.of_nat _) _)) by lia.
  erewrite run_bind by done. rewrite EP.
  pose proof Hup as []. rewrite !Forall_cons in pu_pages0. destruct pu_pages0 as (Pc & Pf & Pt & Pd & _).
  rewrite phys_to_virt_ok by (destruct Pd; lia). erewrite run_bind by done. unfold phys.
  replace (dma_phys ps + KERNEL_VMA_BASE - KERNEL_VMA_BASE) with (dma_phys ps) by lia.
  set (m := st_bytes (take (Z.to_nat (count * 512)) buf) (dma_phys ps) (ram (ah_hw s))).
  set (s1 := with_hw (set_ram m (ah_hw s)) s).
  assert (update_ram (st_bytes (take (Z.to_nat (count * 512)) buf) (dma_phys ps)) s = Ret (tt, s1)) as R0 by done.
  rewrite (run_bind _ _ _ _ _ R0).
  assert (view s1 = with_ram m (view s)) as Ev1 by apply hba_set_ram.
  assert (length (take (Z.to_nat (count * 512)) buf) = Z.to_nat (count * 512)) as Htake by (rewrite length_take; lia).
  apply NoDup_cons in pu_distinct0 as Hnd. destruct Hnd as [Nc Hnd].
  assert (port_up (view s1) ps fb) as Hup1.
  { rewrite Ev1. constructor; cbn [hs_ram hs_disk hs_cap hs_reg hs_base hs_run with_ram]; try done.
    - by rewrite !Forall_cons.
    - rewrite <- pu_ctba0. assert (clb_phys ps <> dma_phys ps) as N by set_solver.
      pose proof (pages_apart _ _ Pc Pd N). unfold m. rewrite hba_ram.
      rewrite !ld_st_bytes_ne by (rewrite Htake; lia). done.
    - apply st_bytes_ok; [by apply Forall_take|]. by rewrite hba_ram. }
  assert (bound s1) as Hb1 by (apply bound_with; [done|]; by rewrite hba_set_ram).
  destruct (command_run true s1 ps fb lba count "AHCI write timed out" Hb1 Hup1 Hl Hc) as (h & Rc & Hup' & Eb & Ec & Ed & _ & Eo).
  { by rewrite Ev1. }
  unfold command_byte, header_flags in Rc.
  destruct (build_command ps ATA_CMD_WRITE_DMA_EXT (Z.lor 5 (Z.shiftl 1 6)) lba count (count * 512) s1) as [[[] s2]| |] eqn:E1;
    unfold mbind, M_bind in Rc; rewrite E1 in Rc; try done.
  rewrite (run_bind _ _ _ _ _ E1), (run_try _ _ _ _ _ Rc).
  exists (with_hw h s1). split; [done|]. split; [|split].
  - exists h. split; [done|]. split; [split; [apply bound_with; [done|]; exact Eb|by exists ps, fb]|].
    apply (outside_trans _ _ m); [|rewrite Ev1 in Eo; by eapply outside_weaken].
    intros a Ha. unfold m. rewrite hba_ram. apply st_bytes_out. rewrite Htake.
    pose proof (Ha (dma_phys ps) (Hin _ ltac:(by do 3 right; left))). lia.
  - unfold view at 1; cbn [ah_hw with_hw ah_pci pci_hw]. rewrite Ec, Ev1. done.
  - intros x. unfold view at 1; cbn [ah_hw with_hw ah_pci pci_hw]. rewrite Ed, Ev1.
    cbn [hs_ram hs_disk with_ram].
    pose proof (ld_bytes_st_bytes_same (take (Z.to_nat (count * 512)) buf) (dma_phys ps) (ram (ah_hw s))) as Er.
    rewrite Htake in Er. fold m in Er. rewrite Er. apply scatter_take; lia.
Qed.

End spec.

(** ** Bringing a port up *)

(** The rest of the machine around the controller: its global registers, the
    ports with a drive, and the PCI ports, which are none of its business. *)
Class HbaBus (H : Type) {HW : Hardware H} {DM : Dma H} {HB : Hba H} := {
  hba_drive : Z -> bool;
  hba_global_load h off :
    off = HBA_GHC \/ off = HBA_CAP \/ off = HBA_PI ->
    exists v h', mmio_load (hs_base (hba h) + off) h = (v, h') /\ hba h' = hba h /\ fits 32 v /\
      (off = HBA_PI -> forall p, 0 <= p < 32 -> hba_drive p = true -> Z.testbit v p = true);
  hba_global_store h v : hba (mmio_store (hs_base (hba h) + HBA_GHC) v h) = hba h;
  hba_drive_sig h p :
    0 <= p < 32 -> hba_drive p = true -> (mmio_load (port_addr (hba h) p PX_SIG) h).1 = SIG_SATA;
  hba_drive_ssts h p :
    0 <= p < 32 -> hba_drive p = true ->
    let v := (mmio_load (port_addr (hba h) p PX_SSTS) h).1 in
    Z.land v 0x0F = 3 /\ Z.land (Z.shiftr v 8) 0x0F = 1;
  hba_pci_out h a v : hba (port_out32 a v h) = hba h;
  hba_pci_in h a : hba (port_in32 a h).2 = hba h
}.

Section init.
Context {H St : Type} {HW : Hardware H} {DM : Dma H} {FA : FrameAllocator St} {HB : Hba H} {BUS : HbaBus H}.

Definition with_frames (fa : St) (s : Ahci H St) : Ahci H St := mkAhci (ah_pci s) fa (ABAR_VIRT s) (PORT s).

(** From [s] to [s'] the driver took the pages [l] from the allocator, wrote to
    no other memory, and left the registry and the disk alone. *)
Record within (l : list Z) (s s' : Ahci H St) : Prop := {
  wi_frames : took l (ah_frames s) (ah_frames s');
  wi_length : (length l <= 4)%nat;
  wi_ok : mem_ok (hs_ram (view s'));
  wi_ram : outside l (hs_ram (view s)) (hs_ram (view s'));
  wi_disk : hs_disk (view s') = hs_disk (view s) /\ hs_cap (view s') = hs_cap (view s);
  wi_devices : DEVICES (ah_pci s') = DEVICES (ah_pci s)
}.


(** Before [init]: no command runs, the memory and the disk are well formed. *)
Record quiet (x : HbaState) : Prop := {
  qu_base : 0 <= hs_base x < 2 ^ 32;
  qu_run : hs_run x = ∅;
  qu_ram : mem_ok (hs_ram x);
  qu_disk : sectors_ok (hs_disk x);
  qu_cap : 0 <= hs_cap x <= 2 ^ 48
}.

Lemma page_frame (a : Z) (fa : St) : fa_ok fa -> fa_free fa a -> page_ok a.
Proof. intros Hok Hf. split; [by apply fa_free_aligned with fa|by apply fa_free_range with fa]. Qed.

Lemma clear_pages_run (s : Ahci H St) clb fb ct dma :
  Forall page_ok [clb; fb; ct; dma] -> NoDup [clb; fb; ct; dma] -> mem_ok (hs_ram (view s)) ->
  runs (clear_pages clb fb ct dma) s tt (fun x => exists m, x = with_ram m (view s) /\ mem_ok m /\
    ld32 m (clb + 8) + 2 ^ 32 * ld32 m (clb + 12) = ct /\ outside [clb; fb; ct; dma] (hs_ram (view s)) m).
Proof.
  intros Hp Hnd Hm. rewrite !Forall_cons in Hp. destruct Hp as (Pc & Pf & Pt & Pd & _). unfold clear_pages.
  do 4 (apply runs_virt; [done|]). unfold phys.
  repeat match goal with |- context [?a + KERNEL_VMA_BASE - KERNEL_VMA_BASE] =>
    replace (a + KERNEL_VMA_BASE - KERNEL_VMA_BASE) with a by lia end.
  do 5 (apply runs_ram; intros ? ?).
  exists (set_ram (st32 (clb + hdr_ctbau) (high32 ct) (ram h3)) h3). split; [done|].
  rewrite hba_set_ram, hba_ram. unfold view in *; cbn [ah_hw with_hw ah_pci pci_hw] in *.
  repeat match goal with E : hba ?h = _ |- _ => rewrite E; clear E end.
  eexists. split; [done|]. cbn [hs_ram with_ram]. split; [by repeat (apply st_ok || apply fill_ok)|].
  destruct (low_high ct Pt) as [-> ->]. unfold hdr_ctba, hdr_ctbau. split.
  { rewrite ld_st_ne, !ld_st_same by (done || lia || (destruct Pt; unfold fits; lia)). lia. }
  intros a Ha. assert (forall q, q ∈ [clb; fb; ct; dma] -> a < q \/ q + 4096 <= a) as Hq by (intros q Hin; specialize (Ha q Hin); lia).
  pose proof (Hq clb ltac:(set_solver)). pose proof (Hq fb ltac:(set_solver)).
  pose proof (Hq ct ltac:(set_solver)). pose proof (Hq dma ltac:(set_solver)). by peel.
Qed.

(** The registers of a port after [start_port]; everything else is kept. *)
Definition started (p clb fb : Z) (x x' : HbaState) : Prop :=
  running x' p /\ clb_of x' p = clb /\ fb_of x' p = fb /\
  hs_base x' = hs_base x /\ hs_run x' = hs_run x /\ hs_ram x' = hs_ram x /\ hs_disk x' = hs_disk x /\ hs_cap x' = hs_cap x.

Lemma start_port_run (s : Ahci H St) p clb fb :
  bound s -> 0 <= p < 32 -> hs_run (view s) !! p = None -> page_ok clb -> page_ok fb ->
  runs (start_port p clb fb) s tt (started p clb fb (view s)).
Proof.
  intros Hb Hp Hr Pc Pf. unfold start_port.
  destruct (low_high clb Pc) as [-> ->]. destruct (low_high fb Pf) as [-> ->].
  assert (forall h, hs_base (hba h) = hs_base (view s) -> bound (with_hw h s)) as HB' by (intros; by apply bound_with).
  assert (fits 32 clb /\ fits 32 fb) as [F1 F2] by (destruct Pc, Pf; unfold fits; lia).
  apply write_config; [done|done|done|done|by do 0 right; left|]. intros h1 E1.
  apply write_config; [apply HB'; by rewrite E1|done|done|by unfold view; cbn; rewrite E1|by do 1 right; left|]. intros h2 E2.
  rewrite with_hw_hw. unfold view at 1 in E2. cbn [ah_hw with_hw ah_pci pci_hw] in E2. rewrite E1 in E2.
  apply write_config; [apply HB'; by rewrite E2|done|done|by unfold view; cbn; rewrite E2|by do 2 right; left|]. intros h3 E3.
  rewrite with_hw_hw. unfold view at 1 in E3. cbn [ah_hw with_hw ah_pci pci_hw] in E3. rewrite E2 in E3.
  apply write_config; [apply HB'; by rewrite E3|done|done|by unfold view; cbn; rewrite E3|by do 3 right; left|]. intros h4 E4.
  rewrite with_hw_hw. unfold view at 1 in E4. cbn [ah_hw with_hw ah_pci pci_hw] in E4. rewrite E3 in E4.
  apply write_status; [apply HB'; by rewrite E4|done|done|by unfold view; cbn; rewrite E4|by right|]. intros h5 E5.
  rewrite with_hw_hw. unfold view at 1 in E5. cbn [ah_hw with_hw ah_pci pci_hw] in E5. rewrite E4 in E5.
  apply write_status; [apply HB'; by rewrite E5|done|done|by unfold view; cbn; rewrite E5|by left|]. intros h6 E6.
  rewrite with_hw_hw. unfold view at 1 in E6. cbn [ah_hw with_hw ah_pci pci_hw] in E6. rewrite E5 in E6.
  apply poll_idle; [apply HB'; by rewrite E6|done|by vm_compute|by unfold view; cbn; rewrite E6|]. intros _ h7 E7.
  rewrite with_hw_hw. unfold view at 1 in E7. cbn [ah_hw with_hw ah_pci pci_hw] in E7. rewrite E6 in E7.
  apply read_idle; [apply HB'; by rewrite E7|done|by vm_compute|by unfold view; cbn; rewrite E7|]. intros v h8 (Hv & _) E8.
  rewrite with_hw_hw. unfold view at 1 in E8. cbn [ah_hw with_hw ah_pci pci_hw] in E8. rewrite E7 in E8.
  set (c := Z.lor (Z.lor v CMD_FRE) CMD_ST).
  assert (fits 32 c) as Hc by (apply fits_lor; [done|apply fits_lor; done|done]).
  destruct (hba_store h8 p PX_CMD c Hp Hc) as [E9 _]; [by rewrite E8|].
  exists (mmio_store (port_addr (hba h8) p PX_CMD) c h8). rewrite port_write_run; [split; [done|]|apply HB'; by rewrite E8|done|by vm_compute].
  rewrite E9 by (by do 4 right; left). rewrite E8. unfold started, running, clb_of, fb_of, reg64.
  cbn [hs_reg with_reg hs_base hs_run hs_ram hs_disk hs_cap].
  unfold PX_CMD, PX_CLB, PX_CLBU, PX_FB, PX_FBU. cbn [Z.add].
  repeat match goal with |- context [decide (p = p /\ ?a = ?b)] =>
    first [rewrite (decide_True (P := (p = p /\ a = b))) by done | rewrite (decide_False (P := (p = p /\ a = b))) by lia] end.
  subst c. unfold CMD_FRE, CMD_ST. rewrite !Z.lor_spec. cbn. rewrite !orb_true_r, Z.add_0_r.
  split_and!; try done; lia.
Qed.

Lemma alloc_or_run e (s0 s : Ahci H St) l :
  took l (ah_frames s0) (ah_frames s) ->
  (exists a fa, alloc_or e s = Ret (Ok a, with_frames fa s) /\ page_ok a /\ took (a :: l) (ah_frames s0) fa /\
      forall n, has_free (S n) (ah_frames s) -> has_free n fa) \/
  (alloc_or e s = Ret (Err e, s) /\ ~ has_free 1 (ah_frames s)).
Proof.
  intros Ht. pose proof Ht as [Hok _]. unfold alloc_or. destruct (fa_alloc (ah_frames s)) as [[a|] fa] eqn:E.
  - destruct (fa_alloc_some _ _ _ Hok E) as (_ & Hf & _). left. exists a, fa. split; [done|].
    split; [exact (page_frame a _ Hok Hf)|]. split; [by eapply took_cons|].
    intros n Hn. destruct (has_free_S n _ Hok Hn) as (a' & s' & E' & Hn'). rewrite E in E'. by injection E' as <- <-.
  - destruct (fa_alloc_none _ _ Hok E) as [-> Hnone]. right. split; [by destruct s|].
    intros ([|b k] & _ & Hk & Hf); [done|]. inversion Hf. by eapply Hnone.
Qed.

(** [m] returns, in a state and with an answer [Post] allows. *)
Definition ends {X} (m : M (Ahci H St) X) (s : Ahci H St) (Post : X -> Ahci H St -> Prop) : Prop :=
  exists r s', m s = Ret (r, s') /\ Post r s'.

Lemma ends_bind {X Y} (m : M (Ahci H St) X) (f : X -> M (Ahci H St) Y) s a Q Post :
  runs m s a Q -> (forall h, Q (hba h) -> ends (f a) (with_hw h s) Post) -> ends (m ≫= f) s Post.
Proof.
  intros (h & R & HQ) Hf. destruct (Hf h HQ) as (r & s' & R' & HP). exists r, s'.
  by rewrite (run_bind _ _ _ _ _ R).
Qed.

Lemma ends_step {X Y} (m : M (Ahci H St) X) (f : X -> M (Ahci H St) Y) s a s' Post :
  m s = Ret (a, s') -> ends (f a) s' Post -> ends (m ≫= f) s Post.
Proof. intros R (r & s2 & R' & HP). exists r, s2. by rewrite (run_bind _ _ _ _ _ R). Qed.

Lemma quiet_run x p : quiet x -> hs_run x !! p = None.
Proof. intros []. by rewrite qu_run0. Qed.

(** What [init_port] leaves behind. *)
Definition port_outcome (s : Ahci H St) (r : result unit string) (s' : Ahci H St) : Prop :=
  exists l, within l s s' /\
    ((r = Ok tt /\ ready_on l s') \/ ((exists e, r = Err e) /\ PORT s' = PORT s /\ ~ has_free 4 (ah_frames s))).

Lemma alloc_step {Y} n e l (s s0 : Ahci H St) (f : Z -> M (Ahci H St) (result Y string)) (Post : result Y string -> Ahci H St -> Prop) :
  took l (ah_frames s0) (ah_frames s) -> (has_free 4 (ah_frames s0) -> has_free (S n) (ah_frames s)) ->
  (~ has_free 4 (ah_frames s0) -> Post (Err e) s) ->
  (forall a fa, took (a :: l) (ah_frames s0) fa -> (has_free 4 (ah_frames s0) -> has_free n fa) -> page_ok a ->
     ends (f a) (with_frames fa s) Post) ->
  ends (try_bind (alloc_or e) f) s Post.
Proof.
  intros Ht Hfree Herr Hf.
  destruct (alloc_or_run e s0 s l Ht) as [(a & fa & R & Pa & Ht' & Hn)|(R & Hno)].
  - destruct (Hf a fa Ht') as (r & s' & R' & HP); [by auto|done|].
    exists r, s'. by rewrite (run_try _ _ _ _ _ R).
  - eexists _, _. rewrite (run_try_err _ _ _ _ _ R). split; [done|]. apply Herr. intros H4. apply Hno.
    eapply has_free_le; [|by apply Hfree]. lia.
Qed.

Lemma NoDup_four (a b c d : Z) : a <> b -> a <> c -> a <> d -> b <> c -> b <> d -> c <> d -> NoDup [a; b; c; d].
Proof.
  intros. rewrite !NoDup_cons, !not_elem_of_cons.
  repeat split; try done; try apply not_elem_of_nil; apply NoDup_nil_2.
Qed.

(** Four pages were got and the port is up, or an error says which page was
    missing. *)
Lemma init_port_run (s : Ahci H St) p :
  bound s -> quiet (view s) -> fa_ok (ah_frames s) -> 0 <= p < 32 -> ends (init_port p) s (port_outcome s).
Proof.
  intros Hb Hq Hfa Hp. pose proof (quiet_run _ p Hq) as Hr. destruct Hq as [Hbase Hrun Hram Hdisk Hcap]. unfold init_port.
  destruct (read_runs s p PX_CMD Hb Hp ltac:(by vm_compute) Hr) as (v & Rv & Hv & _).
  eapply ends_bind; [exact Rv|]. cbv beta. intros h1 E1.
  assert (bound (with_hw h1 s)) as Hb1 by (apply bound_with; [exact Hb|by rewrite E1]).
  eapply ends_bind; [apply write_config_runs; [exact Hb1|exact Hp|by apply fits_land_l|unfold view; cbn; by rewrite E1|by do 4 right; left]|].
  cbv beta. intros h2 E2. rewrite with_hw_hw. unfold view in E2 at 1. cbn [ah_hw with_hw ah_pci pci_hw] in E2. rewrite E1 in E2.
  assert (bound (with_hw h2 s)) as Hb2 by (apply bound_with; [exact Hb|by rewrite E2]).
  destruct (poll_runs 100000 p PX_CMD (Z.lor CMD_FR CMD_CR) (with_hw h2 s)) as (b & Rb);
    [exact Hb2|exact Hp|by vm_compute|unfold view; cbn; by rewrite E2|].
  eapply ends_bind; [exact Rb|]. cbv beta. intros h3 E3. rewrite with_hw_hw. unfold view in E3.
  cbn [ah_hw with_hw ah_pci pci_hw] in E3. rewrite E2 in E3.
  assert (forall l fa, took l (ah_frames s) fa -> (length l <= 4)%nat -> within l s (with_frames fa (with_hw h3 s))) as Hwi.
  { intros l fa Ht Hl. constructor; [exact Ht|exact Hl|..]; change (view (with_frames fa (with_hw h3 s))) with (hba h3); by rewrite ?E3. }
  assert (forall e l fa, took l (ah_frames s) fa -> (length l <= 4)%nat -> ~ has_free 4 (ah_frames s) -> port_outcome s (Err e) (with_frames fa (with_hw h3 s))) as Herr.
  { intros e l fa Ht Hl H4. exists l. split; [by apply Hwi|]. right. split; [by eexists|by split]. }
  apply (alloc_step 3 _ [] _ s); [by apply took_nil|done|apply (Herr _ [] (ah_frames s)); [by apply took_nil|cbn; lia]|].
  intros clb fa1 Ht1 Hn1 Pc.
  apply (alloc_step 2 _ [clb] _ s); [done|done|apply (Herr _ _ _ Ht1); cbn; lia|].
  intros fb fa2 Ht2 Hn2 Pf.
  apply (alloc_step 1 _ [fb; clb] _ s); [done|done|apply (Herr _ _ _ Ht2); cbn; lia|].
  intros ct fa3 Ht3 Hn3 Pt.
  apply (alloc_step 0 _ [ct; fb; clb] _ s); [done|done|apply (Herr _ _ _ Ht3); cbn; lia|].
  intros dma fa4 Ht4 Hn4 Pd. cbn [ah_frames with_frames with_hw] in *.
  set (s4 := with_frames fa4 _). assert (view s4 = with_reg p PX_CMD (Z.land v (notw 32 (Z.lor CMD_ST CMD_FRE))) (view s)) as Ev by exact E3.
  assert (bound s4) as Hb4 by (unfold bound; rewrite Ev; exact Hb).
  assert (NoDup [clb; fb; ct; dma]) as Hnd.
  { destruct Ht4 as (_ & Hnd & _). by rewrite <- reverse_Permutation in Hnd. }
  destruct (clear_pages_run s4 clb fb ct dma) as (h5 & R5 & m & E5 & Hm & Hct & Hout);
    [by rewrite !Forall_cons|exact Hnd|by rewrite Ev|].
  apply (ends_step _ _ _ _ _ _ R5). rewrite Ev in E5.
  assert (bound (with_hw h5 s4)) as Hb5 by (apply bound_with; [exact Hb4|by rewrite E5, Ev]).
  destruct (start_port_run (with_hw h5 s4) p clb fb Hb5 Hp) as (h6 & R6 & Hrun6 & C6 & F6 & B6 & U6 & M6 & D6 & K6);
    [unfold view; cbn; by rewrite E5|exact Pc|exact Pf|].
  apply (ends_step _ _ _ _ _ _ R6).
  unfold view in B6, U6, M6, D6, K6. cbn [ah_hw with_hw ah_pci pci_hw] in B6, U6, M6, D6, K6.
  rewrite E5 in B6, U6, M6, D6, K6. cbn [hs_base hs_run hs_ram hs_disk hs_cap with_ram with_reg] in B6, U6, M6, D6, K6.
  eexists _, _. split; [done|]. exists [dma; ct; fb; clb]. split.
  { constructor; [exact Ht4|done| | | |done].
    - change (mem_ok (hs_ram (hba h6))). by rewrite M6.
    - intros a Ha. change (hs_ram (hba h6) a = hs_ram (view s) a). rewrite M6, Hout, Ev; [done|].
      intros q Hq. apply Ha. clear -Hq. set_solver.
    - change (hs_disk (hba h6) = hs_disk (view s) /\ hs_cap (hba h6) = hs_cap (view s)). by rewrite D6, K6. }
  left. split; [done|]. split.
  - unfold bound, view in Hb |- *. cbn. by rewrite B6.
  - eexists _, fb. split; [done|]. split; [|clear; intros q Hq; set_solver]. unfold view; cbn. constructor; cbn [port clb_phys ct_phys dma_phys].
    + by rewrite B6.
    + done.
    + by rewrite U6, Hrun.
    + done.
    + done.
    + done.
    + by rewrite !Forall_cons.
    + done.
    + by rewrite M6.
    + by rewrite M6.
    + by rewrite D6.
    + by rewrite K6.
Qed.

(** What the search for a port ends with. *)
Definition search_outcome (wanted : Prop) (s : Ahci H St) (r : result unit string) (s' : Ahci H St) : Prop :=
  exists l, within l s s' /\ (r = Ok tt -> ready_on l s') /\ (forall e, r = Err e -> PORT s' = PORT s) /\
  (wanted -> has_free 4 (ah_frames s) -> r = Ok tt).

Lemma within_refl s : mem_ok (hs_ram (view s)) -> fa_ok (ah_frames s) -> within [] s s.
Proof. intros Hm Hf. constructor; [by apply took_nil|cbn; lia|done|by intros a _|done|done]. Qed.

(** Looking at registers first makes no difference. *)
Lemma within_view l h s s' : hba h = view s -> within l (with_hw h s) s' -> within l s s'.
Proof.
  intros Eh [Hf Hl Hm Hr Hd Hv]. change (view (with_hw h s)) with (hba h) in Hr, Hd. rewrite Eh in Hr, Hd. by constructor.
Qed.

Lemma find_port_run pi ports : forall (s : Ahci H St),
  bound s -> quiet (view s) -> fa_ok (ah_frames s) -> Forall (fun p => 0 <= p < 32) ports ->
  (forall p, 0 <= p < 32 -> hba_drive p = true -> Z.testbit pi p = true) ->
  ends (find_port pi ports) s (search_outcome (exists p, p ∈ ports /\ hba_drive p = true) s).
Proof.
  induction ports as [|p ports IH]; intros s Hb Hq Hfa Hports Hpi; cbn [find_port].
  { eexists _, _. split; [done|]. exists []. split; [apply within_refl; [apply Hq|done]|]. split; [done|].
    split; [done|]. by intros (p & Hp%elem_of_nil & _). }
  inversion_clear Hports as [|? ? Hp Hps].
  assert (forall h, hba h = view s -> hba_drive p = false ->
    ends (find_port pi ports) (with_hw h s) (search_outcome (exists q, q ∈ p :: ports /\ hba_drive q = true) s)) as Hskip.
  { intros h Eh Hd. destruct (IH (with_hw h s)) as (r & s' & R & l & Hwi & Hok & Herr & Hw); try done.
    - apply bound_with; [done|by rewrite Eh].
    - unfold view; cbn. by rewrite Eh.
    - exists r, s'. split; [done|]. exists l. split; [by apply (within_view l h)|]. split; [done|]. split; [done|]. intros (q & Hq' & Hdq) H4. apply Hw; [|done].
      apply elem_of_cons in Hq' as [->|Hq']; [congruence|]. by exists q. }
  rewrite land_bit_test by lia. destruct (Z.testbit pi p) eqn:Ebit; cbn [negb].
  2: { rewrite <- (with_hw_id s) at 1. apply Hskip; [done|]. destruct (hba_drive p) eqn:E; [|done].
       by rewrite (Hpi p Hp E) in Ebit. }
  pose proof (quiet_run _ p Hq) as Hr.
  destruct (hba_load (ah_hw s) p PX_SIG Hp ltac:(by vm_compute) Hr) as (sig & h1 & L1 & E1 & _).
  apply (ends_step _ _ _ sig (with_hw h1 s)); [rewrite port_read_run by (done || by vm_compute); unfold view; by rewrite L1|].
  assert (bound (with_hw h1 s)) as Hb1 by (apply bound_with; [exact Hb|by rewrite E1]).
  destruct (hba_load h1 p PX_SSTS Hp ltac:(by vm_compute)) as (ssts & h2 & L2 & E2 & _); [by rewrite E1|].
  apply (ends_step _ _ _ ssts (with_hw h2 s)).
  { rewrite port_read_run by (done || by vm_compute). unfold view, ah_hw; cbn [pci_hw ah_pci with_hw]. by rewrite L2. }
  rewrite E1 in E2.
  assert (hba_drive p = true ->
    (Z.land ssts 0x0F =? 3) && (Z.land (Z.shiftr ssts 8) 0x0F =? 1) && (sig =? SIG_SATA) = true) as Hmatch.
  { intros Hd. pose proof (hba_drive_sig (ah_hw s) p Hp Hd) as D1. rewrite L1 in D1. cbn in D1. rewrite D1.
    pose proof (hba_drive_ssts h1 p Hp Hd) as D2. rewrite L2 in D2. cbn [fst] in D2. destruct D2 as [-> ->]. done. }
  cbv zeta. destruct (_ && _ && _).
  - destruct (init_port_run (with_hw h2 s) p) as (r & s' & R & Ho).
    + apply bound_with; [exact Hb|by rewrite E2].
    + unfold view; cbn. by rewrite E2.
    + done.
    + done.
    + destruct Ho as (l & Hwi & Ho). apply (within_view l h2) in Hwi; [|done]. destruct Ho as [(-> & Hready)|((e & ->) & EP & Hno)].
      * eexists _, _. rewrite (run_try _ _ _ _ _ R). split; [done|]. exists l. by split_and!.
      * eexists _, _. rewrite (run_try_err _ _ _ _ _ R). split; [done|]. exists l. split; [done|]. split; [done|]. split; [done|].
        intros _ H4. by destruct Hno.
  - apply Hskip; [done|]. destruct (hba_drive p); [|done]. by discriminate Hmatch.
Qed.

Lemma mmio_read_run (s : Ahci H St) off :
  bound s -> 0 <= off < 0x100 ->
  mmio_read off s = let '(v, h) := mmio_load (hs_base (view s) + off) (ah_hw s) in Ret (v, with_hw h s).
Proof.
  intros [Eb Hb] Ho. unfold mmio_read. erewrite run_bind by done. unfold cadd. rewrite (proj2 (Z.ltb_lt _ _)) by lia.
  erewrite run_bind by done. unfold hw, zoom, read_volatile. rewrite Eb. by destruct (mmio_load _ _).
Qed.

Lemma mmio_write_run (s : Ahci H St) off v :
  bound s -> 0 <= off < 0x100 ->
  mmio_write off v s = Ret (tt, with_hw (mmio_store (hs_base (view s) + off) v (ah_hw s)) s).
Proof.
  intros [Eb Hb] Ho. unfold mmio_write. erewrite run_bind by done. unfold cadd. rewrite (proj2 (Z.ltb_lt _ _)) by lia.
  erewrite run_bind by done. unfold hw, zoom, write_volatile. by rewrite Eb.
Qed.

Lemma global_read (s : Ahci H St) off {Y} (f : Z -> M (Ahci H St) Y) Post :
  bound s -> off = HBA_GHC \/ off = HBA_CAP \/ off = HBA_PI ->
  (forall v h, hba h = view s -> fits 32 v ->
     (off = HBA_PI -> forall p, 0 <= p < 32 -> hba_drive p = true -> Z.testbit v p = true) ->
     ends (f v) (with_hw h s) Post) ->
  ends (mmio_read off ≫= f) s Post.
Proof.
  intros Hb Ho Hf. destruct (hba_global_load (ah_hw s) off Ho) as (v & h & L & E & Hv & Hpi).
  apply (ends_step _ _ _ v (with_hw h s)); [|by apply Hf].
  rewrite mmio_read_run; [unfold view; by rewrite L|done|destruct Ho as [->|[->| ->]]; by vm_compute].
Qed.

Lemma pci_read_run {PC : PciConfig H} (s : Ahci H St) d k :
  function_ok (bus d) (device d) (function d) -> 0 <= k < 6 ->
  exists h, hw (read_bar d k) s =
      Ret (cfg (ah_hw s) (2 ^ 31 + bus d * 2 ^ 16 + device d * 2 ^ 11 + function d * 2 ^ 8 + 0x10 + 4 * k), with_hw h s) /\
    hba h = view s.
Proof.
  intros Hfn Hk. unfold read_bar. rewrite (proj2 (Z.ltb_lt k 6)) by lia.
  destruct (read_dword_ok (bus d) (device d) (function d) (0x10 + k * 4) (ah_hw s) Hfn) as (h' & R & _); [lia|].
  replace (Z.land (0x10 + k * 4) 0xFC) with (0x10 + k * 4) in R.
  2: { assert (k ∈ seqZ 0 6) as Hin by (apply elem_of_seqZ; lia). revert Hin. clear.
       assert (Forall (fun k => 0x10 + k * 4 = Z.land (0x10 + k * 4) 0xFC) (seqZ 0 6)) as Hall by (repeat constructor).
       rewrite Forall_forall in Hall. apply Hall. }
  unfold hw, zoom. rewrite R. exists h'. split.
  - do 3 f_equal. replace ((0x10 + k * 4) / 4 * 4) with (0x10 + 4 * k) by dm_lia. lia.
  - unfold read_config_dword, outl, inl, mbind, M_bind in R. injection R as Eh.
    rewrite <- (hba_pci_out (ah_hw s) CONFIG_ADDRESS (address (bus d) (device d) (function d) (0x10 + k * 4)) : _ = view s),
      <- (hba_pci_in (port_out32 CONFIG_ADDRESS _ (ah_hw s)) CONFIG_DATA), Eh. done.
Qed.
End init.

(** The interface [fat32.rs] is written against. *)
#[global] Instance ahci_block {H St} {HW : Hardware H} {DM : Dma H} : BlockDevice (Ahci H St) := {
  read_sectors := ahci_read_sectors;
  write_sectors := ahci_write_sectors
}.

#[global] Program Instance ahci_laws {H St} {HW : Hardware H} {DM : Dma H} {HB : Hba H} : BlockLaws (Ahci H St) := {
  bd_ok := ready;
  bd_sec s := hs_disk (view s);
  bd_cap s := hs_cap (view s)
}.
Next Obligation. intros H St HW DM HB d (_ & ps & fb & _ & Hup). apply Hup. Qed.
Next Obligation.
  intros H St HW DM HB d lba count buf (l & Hok)%ready_pages Hl Hc Hr Hb.
  destruct (ahci_read_ok l d lba count buf Hok Hl Hc Hr Hb) as (d' & R & (h & _ & Hok' & _) & Hd).
  exists d'. split; [done|]. split; [by eapply ready_on_ready|done].
Qed.
Next Obligation.
  intros H St HW DM HB d lba count buf (l & Hok)%ready_pages Hl Hc Hr Hb Hbytes.
  destruct (ahci_write_ok l d lba count buf Hok Hl Hc Hr Hb Hbytes) as (d' & R & (h & _ & Hok' & _) & Hd).
  exists d'. split; [done|]. split; [by eapply ready_on_ready|done].
Qed.

(** The same device watched from a state [s0] on: its port stays up on pages of
    [l], nothing but the hardware changes, and of memory only these pages. *)
Section watched.
Context {H St : Type} {HW : Hardware H} {DM : Dma H} {HB : Hba H} (l : list Z) (s0 : Ahci H St).

Lemma moved_trans s s' : moved l s0 s -> moved l s s' -> moved l s0 s'.
Proof.
  intros (h & -> & Hr & Ho) (h' & -> & Hr' & Ho'). exists h'. split; [done|]. split; [done|]. by eapply outside_trans.
Qed.

Lemma moved_refl : ready_on l s0 -> moved l s0 s0.
Proof. intros Hr. exists (ah_hw s0). rewrite with_hw_id. split; [done|]. split; [done|]. by intros a _. Qed.

#[local] Program Instance watched_laws : BlockLaws (Ahci H St) := {
  bd_ok := moved l s0;
  bd_sec s := hs_disk (view s);
  bd_cap s := hs_cap (view s)
}.
Next Obligation. intros s (h & -> & (_ & ps & fb & _ & Hup & _) & _). apply Hup. Qed.
Next Obligation.
  intros s lba count buf Hm Hl Hc Hr Hb. pose proof Hm as (h & _ & Hok & _).
  destruct (ahci_read_ok l s lba count buf Hok Hl Hc Hr Hb) as (s' & R & Hm' & Hd).
  exists s'. split; [done|]. split; [by eapply moved_trans|done].
Qed.
Next Obligation.
  intros s lba count buf Hm Hl Hc Hr Hb Hbytes. pose proof Hm as (h & _ & Hok & _).
  destruct (ahci_write_ok l s lba count buf Hok Hl Hc Hr Hb Hbytes) as (s' & R & Hm' & Hd).
  exists s'. split; [done|]. split; [by eapply moved_trans|done].
Qed.
End watched.

(** ** What the driver guarantees *)

Section attach.
Context {H St : Type} {HW : Hardware H} {DM : Dma H} {FA : FrameAllocator St} {HB : Hba H} {BUS : HbaBus H} {PC : PciConfig H}.

(** The registry's controller is the one the contract is about. *)
Definition attached (s : Ahci H St) (d : PciDevice) : Prop :=
  find_by_class 0x01 0x06 (ah_pci s) = Some d /\ function_ok (bus d) (device d) (function d) /\
  Z.land (cfg (ah_hw s) (2 ^ 31 + bus d * 2 ^ 16 + device d * 2 ^ 11 + function d * 2 ^ 8 + 0x10 + 4 * 5)) 0xFFFFFFF0 =
    hs_base (view s).

Lemma ahci_init_ok (s : Ahci H St) (d : PciDevice) :
  attached s d -> 0 < hs_base (view s) -> quiet (view s) -> fa_ok (ah_frames s) ->
  exists r s' l, init s = Ret (r, s') /\ within l s s' /\
    (r = Ok tt -> ready_on l s') /\ (forall e, r = Err e -> PORT s' = PORT s) /\
    ((exists p, 0 <= p < 32 /\ hba_drive p = true) -> has_free 4 (ah_frames s) -> r = Ok tt).
Proof.
  intros (Hdev & Hfn & Hbar) Hbase Hq Hfa.
  unfold init. erewrite run_bind by done. rewrite Hdev.
  destruct (pci_read_run s d 5 Hfn) as (h1 & R1 & E1); [lia|]. rewrite (run_bind _ _ _ _ _ R1). cbv zeta.
  rewrite Hbar, (proj2 (Z.eqb_neq _ 0)) by lia. erewrite run_bind by done.
  set (s1 := mkAhci _ _ _ _).
  assert (view s1 = view s) as Ev by exact E1.
  assert (bound s1) as Hb1 by (split; [by rewrite Ev|rewrite Ev; apply Hq]).
  assert (ends (ghc ← mmio_read HBA_GHC; mmio_write HBA_GHC (Z.lor ghc GHC_AE);;
    cap ← mmio_read HBA_CAP; pi ← mmio_read HBA_PI; find_port pi (seqZ 0 32)) s1
    (search_outcome (exists p, p ∈ seqZ 0 32 /\ hba_drive p = true) s1)) as (r & s' & R & l & [Wf Wl Wm Wr Wd Wv] & Hok & Herr & Hw).
  2: { exists r, s', l. split; [exact R|]. split; [constructor; [exact Wf|exact Wl|exact Wm|by rewrite <- Ev|by rewrite <- Ev|exact Wv]|].
       split; [exact Hok|]. split; [exact Herr|].
       intros (p & Hp & Hdp) H4. apply Hw; [|exact H4]. exists p. split; [apply elem_of_seqZ; lia|done]. }
  apply global_read; [exact Hb1|by left|]. intros ghc h2 E2 Hghc _.
  assert (bound (with_hw h2 s1)) as Hb2 by (apply bound_with; [exact Hb1|by rewrite E2]).
  apply (ends_step _ _ _ tt (with_hw (mmio_store (hs_base (hba h2) + HBA_GHC) (Z.lor ghc GHC_AE) h2) s1)).
  { by rewrite mmio_write_run. }
  set (h3 := mmio_store _ _ _). assert (hba h3 = view s1) as E3 by (rewrite <- E2; apply hba_global_store).
  apply global_read; [apply bound_with; [exact Hb1|by rewrite E3]|by right; left|]. intros cap h4 E4 Hcap _.
  rewrite with_hw_hw. unfold view in E4 at 1. cbn [ah_hw with_hw ah_pci pci_hw] in E4. rewrite E3 in E4.
  apply global_read; [apply bound_with; [exact Hb1|by rewrite E4]|by right; right|]. intros pi h5 E5 Hpi Hdrv.
  rewrite with_hw_hw. unfold view in E5 at 1. cbn [ah_hw with_hw ah_pci pci_hw] in E5. rewrite E4 in E5.
  destruct (find_port_run pi (seqZ 0 32) (with_hw h5 s1)) as (r & s' & R & l & Hwi & Ho).
  - apply bound_with; [exact Hb1|by rewrite E5].
  - unfold view; cbn. rewrite E5, Ev. exact Hq.
  - exact Hfa.
  - apply Forall_forall. intros p Hp%elem_of_seqZ. lia.
  - by apply Hdrv.
  - exists r, s'. split; [exact R|]. exists l. split; [by apply (within_view l h5)|exact Ho].
Qed.
End attach.

(** C32: with an AHCI controller in the registry whose BAR 5 locates its
    registers, [init] always returns, and whatever the outcome it wrote to no
    memory but the pages it took from the allocator, at most four, and left the
    disk and the registry alone.  If a port has a drive and four pages are free
    it succeeds; whenever it succeeds the port is up - pages of its own among
    those taken, command list and received FIS area programmed, engine running -
    so that the driver is the block device FAT32 expects; when it fails nothing
    was published. *)
Theorem ahci_init_spec {H St : Type} {HW : Hardware H} {DM : Dma H} {FA : FrameAllocator St} {HB : Hba H}
    {BUS : HbaBus H} {PC : PciConfig H} (s : Ahci H St) (d : PciDevice) (Hdev : attached s d)
    (Hbase : 0 < hs_base (view s)) (Hq : quiet (view s)) (Hfa : fa_ok (ah_frames s)) :
  exists r s' l, init s = Ret (r, s') /\
    took l (ah_frames s) (ah_frames s') /\ (length l <= 4)%nat /\ outside l (ram (ah_hw s)) (ram (ah_hw s')) /\
    DEVICES (ah_pci s') = DEVICES (ah_pci s) /\ hs_disk (view s') = hs_disk (view s) /\
    (r = Ok tt -> bd_ok s') /\ (forall e, r = Err e -> PORT s' = PORT s) /\
    ((exists p, 0 <= p < 32 /\ hba_drive p = true) -> has_free 4 (ah_frames s) -> r = Ok tt).
Proof.
  destruct (ahci_init_ok s d Hdev Hbase Hq Hfa) as (r & s' & l & R & [Wt Wl Wm Wr [Wd _] Wv] & Hok & Herr & Hw).
  exists r, s', l. rewrite !hba_ram. split_and!; try done. intros Hr. by eapply ready_on_ready, Hok.
Qed.

(** C33: on a port that is up, a write of one to eight sectors followed by a
    read of the same sectors gives back what was written, in whatever buffer;
    every other sector of the disk keeps its contents, and the port stays up. *)
Theorem ahci_transfer {H St : Type} {HW : Hardware H} {DM : Dma H} {HB : Hba H}
    (s : Ahci H St) (lba count : Z) (data buf : list Z)
    (Hready : bd_ok s) (Hl : 0 <= lba) (Hc : 1 <= count <= 8) (Hcap : lba + count <= bd_cap s)
    (Hdata : Forall is_byte data) (Hlen : Z.of_nat (length data) = count * 512) (Hbuf : length buf = length data) :
  exists s1 s2, ahci_write_sectors lba count data s = Ret (Ok tt, s1) /\
    ahci_read_sectors lba count buf s1 = Ret (Ok data, s2) /\ bd_ok s2 /\
    forall x, ~ (lba <= x < lba + count) -> bd_sec s2 x = bd_sec s x.
Proof.
  destruct (bd_write s lba count data Hready Hl Hc Hcap ltac:(lia) Hdata) as (s1 & R1 & Hr1 & Hc1 & Hd1).
  destruct (bd_read s1 lba count buf Hr1 Hl Hc) as (s2 & R2 & Hr2 & Hc2 & Hd2);
    [by rewrite Hc1|rewrite Hbuf; lia|].
  exists s1, s2. split; [done|]. split; [|split; [done|intros x Hx; rewrite Hd2, Hd1; apply scatter_out; lia]].
  refine (eq_trans R2 _). do 3 f_equal. rewrite drop_ge, app_nil_r by lia.
  rewrite (gather_ext _ (scatter data lba (Z.of_nat (Z.to_nat count)) (bd_sec s))).
  - apply gather_scatter. lia.
  - intros x Hx. rewrite Hd1, Z2Nat.id by lia. done.
Qed.

(** ** A simulated machine *)

(** One drive on port 0; commands take two polls; a PCI bus that answers from
    a table. *)
Record Machine := mkMachine { mc_hba : HbaState; mc_latch : Z; mc_space : Z -> Z }.

Definition with_hba (x : HbaState) (h : Machine) : Machine := mkMachine x (mc_latch h) (mc_space h).

Definition execute (p : Z) (x : HbaState) : HbaState :=
  match decode (hs_ram x) (clb_of x p) with
  | Some c => mkHba (hs_base x) (hs_reg x)
      (if cmd_write c
       then scatter (ld_bytes (hs_ram x) (cmd_addr c) (Z.to_nat (cmd_bytes c))) (cmd_lba c) (cmd_count c) (hs_disk x)
       else hs_disk x) (hs_cap x) (delete p (hs_run x))
      (if cmd_write c then hs_ram x
       else st_bytes (gather (hs_disk x) (cmd_lba c) (Z.to_nat (cmd_count c))) (cmd_addr c) (hs_ram x))
  | None => x
  end.

Definition sim_load (a : Z) (h : Machine) : Z * Machine :=
  let x := mc_hba h in
  let o := a - hs_base x - 0x100 in
  if o <? 0 then (if a - hs_base x =? HBA_PI then 1 else 0, h)
  else
    let p := o / 0x80 in
    let off := o mod 0x80 in
    if off =? PX_SIG then (SIG_SATA, h)
    else if off =? PX_SSTS then (0x103, h)
    else match hs_run x !! p with
      | Some k =>
          if off =? PX_CI then
            match k with
            | O => (0, with_hba (execute p x) h)
            | S k => (1, with_hba (with_run p k x) h)
            end
          else (0, h)
      | None => (0, h)
      end.

Definition sim_store (a v : Z) (h : Machine) : Machine :=
  let x := mc_hba h in
  let o := a - hs_base x - 0x100 in
  if o <? 0 then h
  else
    let p := o / 0x80 in
    let off := o mod 0x80 in
    if bool_decide (off ∈ config_regs) then with_hba (with_reg p off v x) h
    else if off =? PX_CI then with_hba (with_run p 2 x) h
    else h.

#[global] Instance sim_hw : Hardware Machine := {
  port_out8 p v h := h;
  port_in8 p h := (0, h);
  port_out32 p v h := if p =? CONFIG_ADDRESS then mkMachine (mc_hba h) v (mc_space h) else h;
  port_in32 p h := (if p =? CONFIG_DATA then mc_space h (mc_latch h) else 0, h);
  mmio_store := sim_store;
  mmio_load := sim_load;
  timer_irqs h := (0, h)
}.

#[global] Instance sim_dma : Dma Machine := {
  ram h := hs_ram (mc_hba h);
  set_ram m h := with_hba (with_ram m (mc_hba h)) h
}.

#[global] Instance sim_config : PciConfig Machine.
Proof. refine {| cfg := mc_space |}. intros h a Ha H31. by exists (mkMachine (mc_hba h) a (mc_space h)). Defined.

Lemma sim_addr x p off : 0 <= p -> 0 <= off < 0x80 ->
  port_addr x p off - hs_base x - 0x100 = p * 0x80 + off /\ (p * 0x80 + off) / 0x80 = p /\ (p * 0x80 + off) mod 0x80 = off.
Proof. intros Hp Ho. unfold port_addr. split_and!; [lia|dm_lia|dm_lia]. Qed.

#[global] Program Instance sim_hba : Hba Machine := { hba := mc_hba }.
Next Obligation. done. Qed.
Next Obligation. done. Qed.
Next Obligation.
  intros h p off Hp Ho Hr. cbn. unfold sim_load. destruct (sim_addr (mc_hba h) p off) as (-> & -> & ->); [lia|done|].
  rewrite (proj2 (Z.ltb_ge _ 0)) by lia. rewrite Hr.
  destruct (Z.eqb_spec off PX_SIG) as [->|_]; [by eexists _, h|].
  destruct (Z.eqb_spec off PX_SSTS) as [->|_]; [by eexists _, h|]. by eexists _, h.
Qed.
Next Obligation.
  intros h p k Hp Hr. cbn. unfold sim_load. destruct (sim_addr (mc_hba h) p PX_IS) as (-> & -> & ->); [lia|by vm_compute|].
  rewrite (proj2 (Z.ltb_ge _ 0)) by (unfold PX_IS; lia). rewrite Hr. by eexists _, h.
Qed.
Next Obligation.
  intros h p k c Hp Hr Hd Hc. cbn. unfold sim_load. destruct (sim_addr (mc_hba h) p PX_CI) as (-> & -> & ->); [lia|by vm_compute|].
  rewrite (proj2 (Z.ltb_ge _ 0)) by (unfold PX_CI; lia). rewrite Hr. change (PX_CI =? PX_SIG) with false.
  change (PX_CI =? PX_SSTS) with false. cbn iota. rewrite Z.eqb_refl. destruct k as [|k].
  - eexists _, _. split; [done|]. cbn [Z.land Z.eqb]. cbn [mc_hba with_hba]. unfold execute. rewrite Hd.
    eexists _, _. split; [done|]. split_and!.
    + intros Hm Hs. destruct (cmd_write c); [done|]. apply st_bytes_ok; [by apply gather_byte|done].
    + intros a Ha. by destruct (cmd_write c).
    + intros y. by destruct (cmd_write c).
  - eexists _, _. split; [done|]. cbn [Z.land Z.eqb]. exists k. split; [lia|done].
Qed.
Next Obligation.
  intros h p off v Hp Hv Hr. cbn. split.
  - intros Ho. assert (0 <= off < 0x80).
    { unfold config_regs in Ho. repeat (apply elem_of_cons in Ho as [->|Ho]; [by vm_compute|]). by apply elem_of_nil in Ho. }
    unfold sim_store. destruct (sim_addr (mc_hba h) p off) as (-> & -> & ->); [lia|done|].
    rewrite (proj2 (Z.ltb_ge _ 0)) by lia. by rewrite bool_decide_eq_true_2.
  - intros Ho. assert (0 <= off < 0x80) by (destruct Ho as [-> | ->]; by vm_compute).
    unfold sim_store. destruct (sim_addr (mc_hba h) p off) as (-> & -> & ->); [lia|done|].
    rewrite (proj2 (Z.ltb_ge _ 0)) by lia. by destruct Ho as [-> | ->].
Qed.
Next Obligation.
  intros h p c Hp Hr Hrun Hd Hc. exists 2%nat. split; [lia|]. cbn. unfold sim_store.
  destruct (sim_addr (mc_hba h) p PX_CI) as (-> & -> & ->); [lia|by vm_compute|].
  rewrite (proj2 (Z.ltb_ge _ 0)) by (unfold PX_CI; lia). done.
Qed.

#[global] Program Instance sim_bus : HbaBus Machine := { hba_drive p := p =? 0 }.
Next Obligation.
  intros h off Ho. cbn. unfold sim_load. assert (off < 0x100) by (unfold HBA_GHC, HBA_CAP, HBA_PI in Ho; lia).
  rewrite (proj2 (Z.ltb_lt _ 0)) by lia. replace (hs_base (mc_hba h) + off - hs_base (mc_hba h)) with off by lia.
  eexists _, h. split; [done|]. split; [done|]. split; [by case_match|]. intros -> p Hp Hd%Z.eqb_eq. by subst.
Qed.
Next Obligation.
  intros h v. cbn. unfold sim_store. by rewrite (proj2 (Z.ltb_lt _ 0)) by (unfold HBA_GHC; lia).
Qed.
Next Obligation.
  intros h p Hp Hd%Z.eqb_eq. cbn. unfold sim_load.
  destruct (sim_addr (mc_hba h) p PX_SIG) as (-> & -> & ->); [lia|by vm_compute|].
  by rewrite (proj2 (Z.ltb_ge _ 0)) by (unfold PX_SIG; lia).
Qed.
Next Obligation.
  intros h p Hp Hd%Z.eqb_eq. cbn. unfold sim_load.
  destruct (sim_addr (mc_hba h) p PX_SSTS) as (-> & -> & ->); [lia|by vm_compute|].
  by rewrite (proj2 (Z.ltb_ge _ 0)) by (unfold PX_SSTS; lia).
Qed.
Next Obligation. intros h a v. cbn. by case_match. Qed.
Next Obligation. done. Qed.

(** A blank disk of 1000 sectors; the SATA controller is function 2 of device
    31. *)
Definition demo_hba : HbaState := mkHba 0xFEBF1000 (fun _ _ => 0) (fun _ => zero_sector) 1000 ∅ (fun _ => 0).
Definition sata_controller : PciDevice := mkPciDevice 0 31 2 0x8086 0x2922 1 6 1 0.
Definition demo_machine : Ahci Machine PmmState :=
  mkAhci (mkPci (mkMachine demo_hba 0 (fun a => if a =? 0x8000FA24 then 0xFEBF1000 else 0)) [sata_controller])
    big_pmm 0 None.

Lemma demo_quiet : quiet demo_hba.
Proof.
  constructor; cbn; try done.
  - intros x. by split; [|apply (bool_decide_unpack _); vm_compute].
Qed.

Example ahci_init_spec_witness :
  exists r s' l, init demo_machine = Ret (r, s') /\
    took l (ah_frames demo_machine) (ah_frames s') /\ outside l (ram (ah_hw demo_machine)) (ram (ah_hw s')) /\
    (r = Ok tt -> bd_ok s') /\ (has_free 4 (ah_frames demo_machine) -> r = Ok tt).
Proof.
  destruct (ahci_init_spec demo_machine sata_controller) as (r & s' & l & R & Ht & _ & Ho & _ & _ & Hok & _ & Hw).
  - split; [reflexivity|]. split; [split_and!; cbn; lia|]. vm_compute. reflexivity.
  - cbn. lia.
  - exact demo_quiet.
  - apply big_pmm_facts.
  - exists r, s', l. split; [exact R|]. split; [exact Ht|]. split; [exact Ho|]. split; [exact Hok|].
    apply Hw. exists 0. split; [lia|reflexivity].
Defined.

(** A port that is up, its pages at 2 MB. *)
Definition up_regs (p off : Z) : Z :=
  if p =? 0 then
    if off =? PX_CLB then 0x200000 else if off =? PX_FB then 0x201000 else if off =? PX_CMD then 0x11 else 0
  else 0.
Definition up_machine : Ahci Machine PmmState :=
  mkAhci (mkPci (mkMachine (mkHba 0xFEBF1000 up_regs (fun _ => zero_sector) 1000 ∅
    (st32 0x200008 0x202000 (fun _ => 0))) 0 (fun _ => 0)) []) big_pmm 0xFEBF1000
    (Some (mkPort 0 0x200000 0x202000 0x203000)).

Lemma up_ready : bd_ok up_machine.
Proof.
  split; [split; cbn; lia|]. eexists _, 0x201000. split; [done|]. constructor; cbn; try done.
  - repeat constructor; cbn; lia.
  - apply NoDup_four; lia.
  - apply st_ok. by intros x.
  - apply demo_quiet.
Qed.

Example ahci_transfer_witness :
  exists s1 s2, ahci_write_sectors 7 2 (replicate 1024 0x5A) up_machine = Ret (Ok tt, s1) /\
    ahci_read_sectors 7 2 (replicate 1024 0) s1 = Ret (Ok (replicate 1024 0x5A), s2) /\ bd_ok s2 /\
    forall x, ~ (7 <= x < 7 + 2) -> bd_sec s2 x = bd_sec up_machine x.
Proof.
  apply ahci_transfer.
  - exact up_ready.
  - lia.
  - lia.
  - cbn. lia.
  - apply (bool_decide_unpack _). vm_compute. reflexivity.
  - vm_compute. reflexivity.
  - vm_compute. reflexivity.
Defined.
