(* ===== verification/Serial.v ===== *)
(** * The serial console ([ross-kernel/src/serial.rs])

    [serial_print_sends]: with a UART that becomes ready again after each
    byte, printing a string sends exactly its bytes, in order. *)

From S2P Require Import Prelude Str Io.

Section serial.
Context {H : Type} {HW : Hardware H}.

(** The busy-wait test of [write_byte].
    @src ross-kernel/src/serial.rs 9-9 SerialPort::write_byte *)
Definition tx_ready : M H bool :=
  st ← inb (0x3F8 + 5); mret (negb (Z.land st 0x20 =? 0)).

(** [fuel] bounds the wait for one byte.
    @src ross-kernel/src/serial.rs 7-12 SerialPort::write_byte *)
Definition write_byte (fuel : nat) (byte : Z) : M H unit :=
  spin fuel tx_ready;;
  outb 0x3F8 byte.

(** @src ross-kernel/src/serial.rs 24-31 SerialPort::write_str *)
Fixpoint serial_write_str (fuel : nat) (s : str) : M H unit :=
  match s with
  | [] => mret tt
  | byte :: s => write_byte fuel byte;; serial_write_str fuel s
  end.

(** @src ross-kernel/src/serial.rs 33-36 serial_print *)
Definition serial_print (fuel : nat) (s : str) : M H unit := serial_write_str fuel s.

(** @src ross-kernel/src/serial.rs 38-40 serial_print_byte *)
Definition serial_print_byte (fuel : nat) (b : Z) : M H unit := write_byte fuel b.
End serial.

(** ** A UART *)

(** The transmitter of a 16550: what it has sent, and for how many more looks
    at the status register it stays busy, at most [uart_wait]. *)
Class Uart (H : Type) {HW : Hardware H} := {
  sent : H -> list Z;
  busy : H -> nat;
  uart_wait : nat;
  busy_bound h : (busy h <= uart_wait)%nat;
  status_read h :
    let '(st, h') := port_in8 0x3FD h in
    sent h' = sent h /\
    match busy h with
    | O => Z.land st 0x20 <> 0 /\ busy h' = O
    | S k => Z.land st 0x20 = 0 /\ (busy h' < S k)%nat
    end;
  data_write h b : busy h = O -> sent (port_out8 0x3F8 b h) = sent h ++ [b]
}.

Section spec.
Context {H : Type} {HW : Hardware H} {U : Uart H}.

Lemma tx_wait fuel (h : H) :
  (uart_wait < fuel)%nat -> exists h', spin fuel tx_ready h = Ret (tt, h') /\ sent h' = sent h /\ busy h' = O.
Proof.
  intros Hf. apply (spin_ok (fun k h1 => busy h1 = k /\ sent h1 = sent h) (fun h1 => sent h1 = sent h /\ busy h1 = O))
    with (k := busy h); [|done|pose proof (busy_bound h); lia].
  intros k h1 (Hb & Hs). unfold tx_ready, inb. pose proof (status_read h1) as Hst.
  change (0x3F8 + 5) with 0x3FD. unfold_m. destruct (port_in8 0x3FD h1) as [st h2].
  rewrite Hb, Hs in Hst. eexists _, h2. split; [done|]. destruct Hst as [Hs2 Hst]. destruct k as [|k].
  - destruct Hst as [Hne Hb2]. rewrite (proj2 (Z.eqb_neq _ 0)) by done. done.
  - destruct Hst as [-> Hb2]. cbn. by exists (busy h2).
Qed.

Lemma write_byte_ok fuel b (h : H) :
  (uart_wait < fuel)%nat -> exists h', write_byte fuel b h = Ret (tt, h') /\ sent h' = sent h ++ [b].
Proof.
  intros Hf. destruct (tx_wait fuel h Hf) as (h1 & R & Hs & Hb). unfold write_byte.
  rewrite (run_bind _ _ _ _ _ R). eexists. split; [done|]. by rewrite data_write, Hs.
Qed.

(** printing on the serial port ends and sends exactly the bytes of the
    string, in order, after what was sent before, on every UART that becomes
    ready within [fuel] looks at its status register. *)
Theorem serial_print_sends (fuel : nat) (s : str) (h : H) (Hf : (uart_wait < fuel)%nat) :
  exists h', serial_print fuel s h = Ret (tt, h') /\ sent h' = sent h ++ s.
Proof.
  unfold serial_print. revert h. induction s as [|b s IH]; intros h; cbn [serial_write_str].
  - exists h. by rewrite app_nil_r.
  - destruct (write_byte_ok fuel b h Hf) as (h1 & R1 & S1). rewrite (run_bind _ _ _ _ _ R1).
    destruct (IH h1) as (h2 & R2 & S2). exists h2. split; [done|]. by rewrite S2, S1, <- app_assoc.
Qed.
End spec.

(** A UART busy for three looks after each byte. *)
Record DemoUart := mkUart { du_sent : list Z; du_busy : nat }.

#[global] Instance demo_uart_hw : Hardware DemoUart := {
  port_out8 p v h := if p =? 0x3F8 then mkUart (du_sent h ++ [v]) 3 else h;
  port_in8 p h :=
    match du_busy h with O => (0x60, h) | S k => (0, mkUart (du_sent h) (k `min` 2)) end;
  port_out32 p v h := h;
  port_in32 p h := (0, h);
  mmio_store a v h := h;
  mmio_load a h := (0, h);
  timer_irqs h := (0, h)
}.

#[global] Program Instance demo_uart : Uart DemoUart := {
  sent := du_sent; busy h := (du_busy h `min` 3)%nat; uart_wait := 3
}.
Next Obligation. intros h. cbn. lia. Qed.
Next Obligation.
  intros [l k]. cbn. destruct k as [|k]; cbn; [done|]. split_and!; [done|done|lia].
Qed.
Next Obligation. done. Qed.

Example serial_print_sends_witness :
  (3 < 4)%nat /\ exists h', serial_print 4 [82; 79; 83; 83; 10] (mkUart [] 3) = Ret (tt, h') /\
    sent h' = sent (mkUart [] 3) ++ [82; 79; 83; 83; 10].
Proof. split; [lia|]. apply (serial_print_sends (H := DemoUart) 4 [82; 79; 83; 83; 10] (mkUart [] 3)). cbn. lia. Defined.
