(* ===== verification/Irq.v ===== *)
(** * Interrupt controllers and timers ([pic.rs], [pit.rs], [lapic.rs])

    The programming sequences of the two 8259 PICs, the PIT and the local
    APIC, and the tick counter.  The devices are contracts on the hardware:
    what each write does to the abstract state of the chip, after its data
    sheet. *)

From S2P Require Import Prelude Io.

(** ** Ports and registers *)

(** @src ross-kernel/src/pic.rs 35-35 PIC1_CMD *)
Definition PIC1_CMD : Z := 0x20.
(** @src ross-kernel/src/pic.rs 36-36 PIC1_DATA *)
Definition PIC1_DATA : Z := 0x21.
(** @src ross-kernel/src/pic.rs 37-37 PIC2_CMD *)
Definition PIC2_CMD : Z := 0xA0.
(** @src ross-kernel/src/pic.rs 38-38 PIC2_DATA *)
Definition PIC2_DATA : Z := 0xA1.
(** @src ross-kernel/src/pic.rs 39-39 PIC_EOI *)
Definition PIC_EOI : Z := 0x20.

(** @src ross-kernel/src/pit.rs 6-6 PIT_BASE_FREQ *)
Definition PIT_BASE_FREQ : Z := 1193182.
(** @src ross-kernel/src/pit.rs 7-7 TARGET_HZ *)
Definition TARGET_HZ : Z := 100.
(** @src ross-kernel/src/pit.rs 9-9 DIVISOR *)
Definition DIVISOR : Z := PIT_BASE_FREQ / TARGET_HZ.

(** @src ross-kernel/src/lapic.rs 9-9 REG_ID *)
Definition REG_ID : Z := 0x020.
(** @src ross-kernel/src/lapic.rs 10-10 REG_EOI *)
Definition REG_EOI : Z := 0x0B0.
(** @src ross-kernel/src/lapic.rs 11-11 REG_SPURIOUS *)
Definition REG_SPURIOUS : Z := 0x0F0.
(** @src ross-kernel/src/lapic.rs 12-12 REG_ICR_LOW *)
Definition REG_ICR_LOW : Z := 0x300.
(** @src ross-kernel/src/lapic.rs 13-13 REG_ICR_HIGH *)
Definition REG_ICR_HIGH : Z := 0x310.
(** @src ross-kernel/src/lapic.rs 14-14 REG_LVT_TIMER *)
Definition REG_LVT_TIMER : Z := 0x320.
(** @src ross-kernel/src/lapic.rs 15-15 REG_TIMER_INIT *)
Definition REG_TIMER_INIT : Z := 0x380.
(** @src ross-kernel/src/lapic.rs 16-16 REG_TIMER_CURR *)
Definition REG_TIMER_CURR : Z := 0x390.
(** @src ross-kernel/src/lapic.rs 17-17 REG_TIMER_DIV *)
Definition REG_TIMER_DIV : Z := 0x3E0.

(** The hardware and the statics [TICKS], [LAPIC_BASE], [LAPIC_ENABLED].
    @src ross-kernel/src/lapic.rs 5-6 LAPIC_BASE, LAPIC_ENABLED *)
Record Irq (H : Type) := mkIrq {
  irq_hw : H;
  TICKS : Z;
  LAPIC_BASE : Z;
  LAPIC_ENABLED : bool
}.
Arguments mkIrq {H} _ _ _ _.
Arguments irq_hw {H} _.
Arguments TICKS {H} _.
Arguments LAPIC_BASE {H} _.
Arguments LAPIC_ENABLED {H} _.

Section pic.
Context {H : Type} {HW : Hardware H}.

(** ** The PICs *)

(** @src ross-kernel/src/pic.rs 29-33 io_wait *)
Definition io_wait : M H unit := outb 0x80 0x00.

(** @src ross-kernel/src/pic.rs 41-64 init *)
Definition pic_init : M H unit :=
  outb PIC1_CMD 0x11;; io_wait;;
  outb PIC2_CMD 0x11;; io_wait;;
  outb PIC1_DATA 0x20;; io_wait;;
  outb PIC2_DATA 0x28;; io_wait;;
  outb PIC1_DATA 0x04;; io_wait;;
  outb PIC2_DATA 0x02;; io_wait;;
  outb PIC1_DATA 0x01;; io_wait;;
  outb PIC2_DATA 0x01;; io_wait;;
  outb PIC1_DATA 0xFC;;
  outb PIC2_DATA 0xFF.

(** @src ross-kernel/src/pic.rs 66-72 send_eoi *)
Definition send_eoi (irq : Z) : M H unit :=
  (if 8 <=? irq then outb PIC2_CMD PIC_EOI else mret tt);;
  outb PIC1_CMD PIC_EOI.

(** @src ross-kernel/src/pic.rs 74-80 send_eoi_both *)
Definition send_eoi_both : M H unit :=
  outb PIC2_CMD PIC_EOI;;
  outb PIC1_CMD PIC_EOI.

(** @src ross-kernel/src/pic.rs 82-88 disable *)
Definition pic_disable : M H unit :=
  outb PIC1_DATA 0xFF;;
  outb PIC2_DATA 0xFF.

(** ** The PIT *)

(** @src ross-kernel/src/pit.rs 11-24 init *)
Definition pit_init : M H unit :=
  outb 0x43 0x34;;
  outb 0x40 (Z.land DIVISOR 0xFF);;
  outb 0x40 (Z.land (Z.shiftr DIVISOR 8) 0xFF).
End pic.

Section irq.
Context {H : Type} {HW : Hardware H}.
Notation I := (M (Irq H)).

Definition set_ticks (t : Z) (s : Irq H) : Irq H := mkIrq (irq_hw s) t (LAPIC_BASE s) (LAPIC_ENABLED s).
Definition set_irq_hw (h : H) (s : Irq H) : Irq H := mkIrq h (TICKS s) (LAPIC_BASE s) (LAPIC_ENABLED s).
Definition on_dev {X} : M H X -> I X := zoom irq_hw set_irq_hw.

(** @src ross-kernel/src/pit.rs 26-30 tick *)
Definition tick : I unit := fun s => Ret (tt, set_ticks (wrap 64 (TICKS s + 1)) s).

(** The counter as it is at this moment: the timer interrupts taken since the
    last look have each run [tick].
    @src ross-kernel/src/pit.rs 32-37 ticks *)
Definition ticks : I Z := fun s =>
  let '(k, h) := timer_irqs (irq_hw s) in
  let t := wrap 64 (TICKS s + k) in
  Ret (t, set_ticks t (set_irq_hw h s)).

(** @src ross-kernel/src/pit.rs 43-50 sleep_ms *)
Definition sleep_ms (fuel : nat) (ms : Z) : I unit :=
  let ticks_needed := (ms + 1000 / TARGET_HZ - 1) / (1000 / TARGET_HZ) in
  t ← ticks;
  target ← lift (cadd 64 t ticks_needed);
  spin fuel (t ← ticks; mret (target <=? t)).

(** ** The local APIC *)

(** @src ross-kernel/src/lapic.rs 19-23 read *)
Definition lapic_read (reg : Z) : I Z :=
  s ← get; a ← lift (cadd 64 (LAPIC_BASE s) reg); on_dev (read_volatile a).

(** @src ross-kernel/src/lapic.rs 25-29 write *)
Definition lapic_write (reg val : Z) : I unit :=
  s ← get; a ← lift (cadd 64 (LAPIC_BASE s) reg); on_dev (write_volatile a val).

Definition set_lapic_base (base : Z) : I unit := fun s =>
  Ret (tt, mkIrq (irq_hw s) (TICKS s) base (LAPIC_ENABLED s)).
Definition set_lapic_enabled : I unit := fun s =>
  Ret (tt, mkIrq (irq_hw s) (TICKS s) (LAPIC_BASE s) true).

(** [fuel] bounds the wait for a timer tick.
    @src ross-kernel/src/lapic.rs 31-66 init *)
Definition lapic_init (fuel : nat) (base : Z) : I unit :=
  set_lapic_base base;;
  lapic_write REG_SPURIOUS 0x1FF;;
  lapic_write REG_TIMER_DIV 0x3;;
  lapic_write REG_LVT_TIMER 0x10000;;
  lapic_write REG_TIMER_INIT 0xFFFFFFFF;;
  t0 ← ticks;
  spin fuel (t ← ticks; mret (negb (t =? t0)));;
  t1 ← ticks;
  elapsed ← lift (csub t1 t0);
  let elapsed_ticks := wrap 32 elapsed in
  curr ← lapic_read REG_TIMER_CURR;
  let apic_count := wrap 32 (0xFFFFFFFF - curr) in
  let counts_per_tick := if 0 <? elapsed_ticks then apic_count / elapsed_ticks else apic_count in
  lapic_write REG_LVT_TIMER 0x20020;;
  lapic_write REG_TIMER_DIV 0x3;;
  lapic_write REG_TIMER_INIT counts_per_tick;;
  set_lapic_enabled.

(** @src ross-kernel/src/lapic.rs 68-76 init_ap *)
Definition lapic_init_ap (base : Z) : I unit :=
  set_lapic_base base;;
  lapic_write REG_SPURIOUS 0x1FF;;
  lapic_write REG_LVT_TIMER 0x20020;;
  lapic_write REG_TIMER_DIV 0x3.

(** @src ross-kernel/src/lapic.rs 78-82 eoi *)
Definition lapic_eoi : I unit := lapic_write REG_EOI 0.

(** @src ross-kernel/src/lapic.rs 84-88 is_enabled *)
Definition is_enabled (s : Irq H) : bool := LAPIC_ENABLED s.

(** @src ross-kernel/src/lapic.rs 90-94 my_id *)
Definition my_id : I Z := id ← lapic_read REG_ID; mret (Z.land (Z.shiftr id 24) 0xFF).

(** @src ross-kernel/src/lapic.rs 96-101 wait_icr_idle *)
Definition wait_icr_idle (fuel : nat) : I unit :=
  spin fuel (v ← lapic_read REG_ICR_LOW; mret (Z.land v (Z.shiftl 1 12) =? 0)).

(** @src ross-kernel/src/lapic.rs 103-108 send_init *)
Definition send_init (fuel : nat) (apic_id : Z) : I unit :=
  lapic_write REG_ICR_HIGH (Z.shiftl apic_id 24);;
  lapic_write REG_ICR_LOW 0x00004500;;
  wait_icr_idle fuel.

(** @src ross-kernel/src/lapic.rs 110-115 send_init_deassert *)
Definition send_init_deassert (fuel : nat) : I unit :=
  lapic_write REG_ICR_HIGH 0;;
  lapic_write REG_ICR_LOW 0x00008500;;
  wait_icr_idle fuel.

(** @src ross-kernel/src/lapic.rs 117-122 send_sipi *)
Definition send_sipi (fuel : nat) (apic_id vector : Z) : I unit :=
  lapic_write REG_ICR_HIGH (Z.shiftl apic_id 24);;
  lapic_write REG_ICR_LOW (Z.lor 0x00004600 vector);;
  wait_icr_idle fuel.
End irq.

(** ** The 8259 pair *)

(** One chip: the initialisation word it waits for, the base vector, the
    cascade wiring, the mode, the mask, the interrupts in service, by line. *)
Record Chip := mkChip {
  ch_expect : option Z;
  ch_vector : Z;
  ch_cascade : Z;
  ch_mode : Z;
  ch_mask : Z;
  ch_service : list Z
}.

(** A write to the command port: ICW1 (bit 4 set) restarts the initialisation
    and clears mask and service; a non-specific EOI ends the service of the
    highest priority, the least line. *)
Definition chip_command (v : Z) (c : Chip) : Chip :=
  if Z.testbit v 4 then mkChip (Some 2) (ch_vector c) (ch_cascade c) (ch_mode c) 0 []
  else if v =? 0x20 then
    mkChip (ch_expect c) (ch_vector c) (ch_cascade c) (ch_mode c) (ch_mask c)
      (match ch_service c with [] => [] | l :: ls => ls end)
  else c.

(** A write to the data port: ICW2, ICW3, ICW4 in this order, then masks. *)
Definition chip_data (v : Z) (c : Chip) : Chip :=
  match ch_expect c with
  | Some 2 => mkChip (Some 3) v (ch_cascade c) (ch_mode c) (ch_mask c) (ch_service c)
  | Some 3 => mkChip (Some 4) (ch_vector c) v (ch_mode c) (ch_mask c) (ch_service c)
  | Some 4 => mkChip None (ch_vector c) (ch_cascade c) v (ch_mask c) (ch_service c)
  | _ => mkChip None (ch_vector c) (ch_cascade c) (ch_mode c) v (ch_service c)
  end.

(** [ch_service] lists the lines in service by priority. *)
Class Pics (H : Type) {HW : Hardware H} := {
  pic1 : H -> Chip;
  pic2 : H -> Chip;
  pic_out p v h :
    let h' := port_out8 p v h in
    pic1 h' = (if p =? 0x20 then chip_command v (pic1 h) else if p =? 0x21 then chip_data v (pic1 h) else pic1 h) /\
    pic2 h' = (if p =? 0xA0 then chip_command v (pic2 h) else if p =? 0xA1 then chip_data v (pic2 h) else pic2 h)
}.

Section pics.
Context {H : Type} {HW : Hardware H} {P : Pics H}.

(** The pair of chips as one state, and a computation as its effect on it. *)
Definition pics (h : H) : Chip * Chip := (pic1 h, pic2 h).

Definition out_effect (p v : Z) (c : Chip * Chip) : Chip * Chip :=
  (if p =? 0x20 then chip_command v c.1 else if p =? 0x21 then chip_data v c.1 else c.1,
   if p =? 0xA0 then chip_command v c.2 else if p =? 0xA1 then chip_data v c.2 else c.2).

Definition has_effect (m : M H unit) (f : Chip * Chip -> Chip * Chip) : Prop :=
  forall h, exists h', m h = Ret (tt, h') /\ pics h' = f (pics h).

Lemma outb_effect p v : has_effect (outb p v) (out_effect p v).
Proof.
  intros h. eexists. split; [done|]. unfold pics, out_effect. destruct (pic_out p v h) as [-> ->]. done.
Qed.

Lemma seq_effect m1 m2 f1 f2 : has_effect m1 f1 -> has_effect m2 f2 -> has_effect (m1;; m2) (fun c => f2 (f1 c)).
Proof.
  intros H1 H2 h. destruct (H1 h) as (h1 & R1 & E1). destruct (H2 h1) as (h2 & R2 & E2).
  exists h2. rewrite (run_bind _ _ _ _ _ R1). split; [done|]. by rewrite E2, E1.
Qed.

Lemma ret_effect : has_effect (mret tt) (fun c => c).
Proof. intros h. by exists h. Qed.
End pics.

#[export] Hint Resolve outb_effect seq_effect ret_effect : irq.

(** Run a sequence of writes on the chips. *)
Ltac run_effects :=
  match goal with |- exists h', ?m ?h = _ /\ _ =>
    let E := fresh "E" in
    eassert (has_effect m _) as E by (repeat first [apply seq_effect | apply outb_effect | apply ret_effect]);
    destruct (E h) as (h' & R & Ep); exists h'; split; [exact R|];
    unfold pics in Ep; injection Ep as -> ->; clear E R
  end.

(** The IRQ a vector stands for, with the base vectors of the chips. *)
Definition vector_of (c1 c2 : Chip) (irq : Z) : Z :=
  if irq <? 8 then ch_vector c1 + irq else ch_vector c2 + (irq - 8).
Definition masked (c1 c2 : Chip) (irq : Z) : bool :=
  if irq <? 8 then Z.testbit (ch_mask c1) irq else Z.testbit (ch_mask c2) (irq - 8) || Z.testbit (ch_mask c1) 2.

(** Whatever state the two PICs were in, [pic::init] leaves them
    initialised with IRQ n on vector 32 + n and every line masked but the timer
    and the keyboard; an EOI for a line of the master ends exactly the most
    urgent service of the master, for a line of the slave of both chips; and
    [disable] masks every line. *)
Theorem pic_protocol {H : Type} {HW : Hardware H} {P : Pics H} (h : H) :
  (exists h', pic_init h = Ret (tt, h') /\
     ch_expect (pic1 h') = None /\ ch_expect (pic2 h') = None /\
     ch_cascade (pic1 h') = 4 /\ ch_cascade (pic2 h') = 2 /\
     ch_service (pic1 h') = [] /\ ch_service (pic2 h') = [] /\
     forall irq, 0 <= irq < 16 ->
       vector_of (pic1 h') (pic2 h') irq = 32 + irq /\
       masked (pic1 h') (pic2 h') irq = negb ((irq =? 0) || (irq =? 1))) /\
  (forall irq, exists h', send_eoi irq h = Ret (tt, h') /\
     ch_service (pic1 h') = tail (ch_service (pic1 h)) /\
     ch_service (pic2 h') = if irq <? 8 then ch_service (pic2 h) else tail (ch_service (pic2 h))) /\
  (ch_expect (pic1 h) = None -> ch_expect (pic2 h) = None ->
   exists h', pic_disable h = Ret (tt, h') /\ forall irq, 0 <= irq < 16 -> masked (pic1 h') (pic2 h') irq = true).
Proof.
  split_and!.
  - unfold pic_init, io_wait. run_effects. cbn. split_and!; try done. intros irq Hirq. unfold vector_of, masked. cbn.
    assert (irq ∈ seqZ 0 16) as Hin by (apply elem_of_seqZ; lia). clear Hirq. revert irq Hin. apply Forall_forall.
    repeat constructor.
  - intros irq. unfold send_eoi. rewrite Z.leb_antisym. destruct (irq <? 8); cbn [negb]; run_effects; cbn; by repeat case_match.
  - intros E1 E2. unfold pic_disable. run_effects. cbn. unfold chip_data. rewrite E1, E2. intros irq Hirq. unfold masked. cbn.
    assert (irq ∈ seqZ 0 16) as Hin by (apply elem_of_seqZ; lia). clear Hirq. revert irq Hin. apply Forall_forall.
    repeat constructor.
Qed.

(** The chips themselves, as the witness. *)
Record DemoPics := mkPics { dp_1 : Chip; dp_2 : Chip }.

#[global] Instance demo_pics_hw : Hardware DemoPics := {
  port_out8 p v h :=
    mkPics (if p =? 0x20 then chip_command v (dp_1 h) else if p =? 0x21 then chip_data v (dp_1 h) else dp_1 h)
           (if p =? 0xA0 then chip_command v (dp_2 h) else if p =? 0xA1 then chip_data v (dp_2 h) else dp_2 h);
  port_in8 p h := (0, h);
  port_out32 p v h := h;
  port_in32 p h := (0, h);
  mmio_store a v h := h;
  mmio_load a h := (0, h);
  timer_irqs h := (0, h)
}.
#[global] Instance demo_pics : Pics DemoPics.
Proof. refine {| pic1 := dp_1; pic2 := dp_2 |}. done. Defined.

Definition reset_pics : DemoPics := mkPics (mkChip None 8 0 0 0 [0; 1]) (mkChip None 0x70 0 0 0 [3]).

Example pic_protocol_witness :
  (exists h', pic_init reset_pics = Ret (tt, h') /\ ch_vector (pic1 h') + 1 = 33 /\ ch_mask (pic1 h') = 0xFC) /\
  (exists h', pic_disable reset_pics = Ret (tt, h') /\ forall irq, 0 <= irq < 16 -> masked (pic1 h') (pic2 h') irq = true).
Proof.
  destruct (pic_protocol reset_pics) as ((h' & R & _) & _ & Hd). split; [|exact (Hd eq_refl eq_refl)].
  exists h'. split; [exact R|]. vm_compute in R. injection R as <-. done.
Defined.

(** ** Time *)

(** Timer interrupts keep coming: after at most [tick_wait] looks in vain there
    is one; fewer than 2^31 are taken between two looks. *)
Class Clock (H : Type) {HW : Hardware H} := {
  tick_wait : nat;
  patience : H -> nat;
  patience_bound h : (patience h <= tick_wait)%nat;
  clock_look h :
    let '(k, h') := timer_irqs h in 0 <= k < 2 ^ 31 /\ (k = 0 -> (patience h' < patience h)%nat)
}.

Section clock.
Context {H : Type} {HW : Hardware H} {CK : Clock H}.

(** A look at the counter that does not wrap. *)
Lemma ticks_run (s : Irq H) :
  0 <= TICKS s -> TICKS s + 2 ^ 31 < 2 ^ 64 ->
  exists k h, ticks s = Ret (TICKS s + k, set_ticks (TICKS s + k) (set_irq_hw h s)) /\ 0 <= k < 2 ^ 31 /\
    timer_irqs (irq_hw s) = (k, h) /\ (k = 0 -> (patience h < patience (irq_hw s))%nat).
Proof.
  intros H0 H1. unfold ticks. pose proof (clock_look (irq_hw s)) as Hl. destruct (timer_irqs (irq_hw s)) as [k h].
  destruct Hl as [Hk Hp]. exists k, h. unfold wrap. by rewrite Z.mod_small by lia.
Qed.

(** The fuel a wait for [n] ticks takes. *)
Definition wait_fuel (n : Z) (h : H) : nat := (Z.to_nat n * S tick_wait + patience h)%nat.

Lemma spin_until (target : Z) fuel (s : Irq H) :
  0 <= TICKS s -> TICKS s < target -> target + 2 ^ 32 < 2 ^ 64 -> (wait_fuel (target - TICKS s) (irq_hw s) < fuel)%nat ->
  exists s', spin fuel (t ← ticks; mret (target <=? t)) s = Ret (tt, s') /\ target <= TICKS s' /\
    LAPIC_BASE s' = LAPIC_BASE s.
Proof.
  intros H0 H1 H2 Hf.
  apply (spin_ok (fun k t => 0 <= TICKS t < target /\ LAPIC_BASE t = LAPIC_BASE s /\ k = wait_fuel (target - TICKS t) (irq_hw t))
    (fun t => target <= TICKS t /\ LAPIC_BASE t = LAPIC_BASE s)) with (k := wait_fuel (target - TICKS s) (irq_hw s)); [|done|done].
  intros k t (Ht & Hb & ->). destruct (ticks_run t) as (n & h & R & Hn & _ & Hp); [lia|lia|].
  rewrite (run_bind _ _ _ _ _ R). eexists _, _. split; [done|]. destruct (Z.leb_spec target (TICKS t + n)).
  { done. }
  eexists. split; [|split_and!; [cbn; lia|cbn; lia|done|done]]. unfold wait_fuel. cbn.
  pose proof (patience_bound h). destruct (decide (n = 0)) as [->|Hne].
  - specialize (Hp eq_refl). rewrite Z.add_0_r. lia.
  - assert (S (Z.to_nat (target - (TICKS t + n))) <= Z.to_nat (target - TICKS t))%nat by lia. nia.
Qed.

(** [sleep_ms] ends, not before as many ticks of 10 ms as the time asked
    for, rounded up, have gone by, provided timer interrupts keep coming and
    the counter is not about to wrap. *)
Theorem sleep_ms_spec (fuel : nat) (ms : Z) (s : Irq H)
  (Hms : 0 <= ms < 2 ^ 62) (Ht : 0 <= TICKS s < 2 ^ 62)
  (Hf : (Z.to_nat (ms / 10 + 1) * S tick_wait + tick_wait < fuel)%nat) :
  exists s', sleep_ms fuel ms s = Ret (tt, s') /\ ms <= 10 * (TICKS s' - TICKS s).
Proof.
  unfold sleep_ms. destruct (ticks_run s) as (k & h & R & Hk & _ & _); [lia|lia|].
  rewrite (run_bind _ _ _ _ _ R). change (1000 / TARGET_HZ) with 10.
  set (need := (ms + 10 - 1) / 10). assert (0 <= need /\ ms <= 10 * need < ms + 10) as [Hn Hd] by (subst need; dm_lia).
  unfold cadd. rewrite (proj2 (Z.ltb_lt _ _)) by lia. erewrite run_bind by done.
  set (s1 := set_ticks _ _). change (TICKS s + k) with (TICKS s1). destruct (decide (need = 0)) as [E|Hne].
  - destruct fuel as [|fuel]; [lia|]. cbn [spin].
    destruct (ticks_run s1) as (k2 & h2 & R2 & Hk2 & _); [cbn; lia|cbn; lia|].
    erewrite run_bind; [|rewrite (run_bind _ _ _ _ _ R2); done].
    rewrite (proj2 (Z.leb_le _ _)) by lia. eexists. split; [done|]. cbn. lia.
  - destruct (spin_until (TICKS s1 + need) fuel s1) as (s2 & R2 & H2 & _); try (cbn; lia).
    { unfold wait_fuel. pose proof (patience_bound (irq_hw s1)).
      replace (TICKS s1 + need - TICKS s1) with need by lia.
      assert (Z.to_nat need <= Z.to_nat (ms / 10 + 1))%nat by (subst need; dm_lia). nia. }
    exists s2. split; [exact R2|]. cbn in H2. lia.
Qed.
End clock.

(** ** The local APIC *)

(** A register file: what was written last; reading and waiting change nothing
    in it. *)
Class Lapic (H : Type) {HW : Hardware H} := {
  lapic_at : Z;
  lapic_reg : H -> Z -> Z;
  lapic_at_range : 0 <= lapic_at < 2 ^ 63;
  lapic_store h off v :
    0 <= off < 0x400 ->
    forall r, lapic_reg (mmio_store (lapic_at + off) v h) r = if decide (r = off) then v else lapic_reg h r;
  lapic_load h off :
    0 <= off < 0x400 ->
    let '(v, h') := mmio_load (lapic_at + off) h in fits 32 v /\ forall r, lapic_reg h' r = lapic_reg h r;
  lapic_time h : forall r, lapic_reg (timer_irqs h).2 r = lapic_reg h r
}.

Section lapic.
Context {H : Type} {HW : Hardware H} {LA : Lapic H}.

Lemma lapic_write_run (s : Irq H) off v :
  LAPIC_BASE s = lapic_at -> 0 <= off < 0x400 ->
  exists h, lapic_write off v s = Ret (tt, set_irq_hw h s) /\
    forall r, lapic_reg h r = if decide (r = off) then v else lapic_reg (irq_hw s) r.
Proof.
  intros Hb Ho. pose proof lapic_at_range. unfold lapic_write. erewrite run_bind by done. rewrite Hb. unfold cadd.
  rewrite (proj2 (Z.ltb_lt _ _)) by lia. erewrite run_bind by done.
  eexists. split; [done|]. by apply lapic_store.
Qed.

Lemma lapic_read_run (s : Irq H) off :
  LAPIC_BASE s = lapic_at -> 0 <= off < 0x400 ->
  exists v h, lapic_read off s = Ret (v, set_irq_hw h s) /\ fits 32 v /\ forall r, lapic_reg h r = lapic_reg (irq_hw s) r.
Proof.
  intros Hb Ho. pose proof lapic_at_range. unfold lapic_read. erewrite run_bind by done. rewrite Hb. unfold cadd.
  rewrite (proj2 (Z.ltb_lt _ _)) by lia. erewrite run_bind by done. unfold on_dev, zoom, read_volatile.
  pose proof (lapic_load (irq_hw s) off Ho) as Hl. destruct (mmio_load _ _) as [v h]. by exists v, h.
Qed.

(** The state [s] with the registers written as [w] says. *)
Definition written (w : list (Z * Z)) (s s' : Irq H) : Prop :=
  LAPIC_BASE s' = lapic_at /\ LAPIC_ENABLED s' = LAPIC_ENABLED s /\
  forall r, lapic_reg (irq_hw s') r = default (lapic_reg (irq_hw s) r) (snd <$> List.find (fun p => r =? p.1) w).

Lemma written_step off v w s s1 :
  written w s s1 -> 0 <= off < 0x400 ->
  exists s2, lapic_write off v s1 = Ret (tt, s2) /\ written ((off, v) :: w) s s2 /\ TICKS s2 = TICKS s1.
Proof.
  intros (Hb & He & Hr) Ho. destruct (lapic_write_run s1 off v Hb Ho) as (h & R & Hh).
  exists (set_irq_hw h s1). split; [done|]. split; [|done]. split_and!; [done|done|].
  intros r. cbn. rewrite Hh, Hr. destruct (Z.eqb_spec r off); by case_decide.
Qed.

Context {CK : Clock H}.

Lemma written_ticks w s s1 :
  written w s s1 -> 0 <= TICKS s1 -> TICKS s1 + 2 ^ 31 < 2 ^ 64 ->
  exists k s2, ticks s1 = Ret (TICKS s1 + k, s2) /\ written w s s2 /\ TICKS s2 = TICKS s1 + k /\ 0 <= k < 2 ^ 31 /\
    (k = 0 -> (patience (irq_hw s2) < patience (irq_hw s1))%nat).
Proof.
  intros (Hb & He & Hr) H0 H1. destruct (ticks_run s1 H0 H1) as (k & h & R & Hk & Ei & Hp).
  exists k. eexists. split; [exact R|]. split; [|done]. split_and!; [done|done|]. intros r.
  pose proof (lapic_time (irq_hw s1) r) as Hl. rewrite Ei in Hl. cbn in *. by rewrite Hl.
Qed.

Lemma spin_change w s s1 t0 fuel :
  written w s s1 -> TICKS s1 = t0 -> 0 <= t0 < 2 ^ 62 -> (tick_wait < fuel)%nat ->
  exists s2, spin fuel (t ← ticks; mret (negb (t =? t0))) s1 = Ret (tt, s2) /\ written w s s2 /\
    t0 < TICKS s2 < t0 + 2 ^ 31.
Proof.
  intros Hw Ht H0 Hf.
  apply (spin_ok (fun k t => written w s t /\ TICKS t = t0 /\ k = patience (irq_hw t))
    (fun t => written w s t /\ t0 < TICKS t < t0 + 2 ^ 31)) with (k := patience (irq_hw s1));
    [|done|pose proof (patience_bound (irq_hw s1)); lia].
  intros k t (Hwt & Htt & ->). destruct (written_ticks w s t Hwt) as (n & t2 & R & Hw2 & E2 & Hn & Hp); [lia|lia|].
  rewrite (run_bind _ _ _ _ _ R). eexists _, t2. split; [done|]. destruct (Z.eqb_spec (TICKS t + n) t0); cbn.
  - exists (patience (irq_hw t2)). split; [apply Hp; lia|]. split_and!; [done| |done]. rewrite E2. lia.
  - split; [done|]. rewrite E2. lia.
Qed.

(** on a running clock the set-up of the local APIC ends with the unit
    enabled, the timer periodic on vector 32 with the divider at 16, and an
    initial count which is what the timer counted down in the ticks that went
    by, per tick. *)
Theorem lapic_init_spec (fuel : nat) (s : Irq H)
  (Ht : 0 <= TICKS s < 2 ^ 61) (Hf : (tick_wait < fuel)%nat) :
  exists s' curr elapsed, lapic_init fuel lapic_at s = Ret (tt, s') /\
    LAPIC_ENABLED s' = true /\ LAPIC_BASE s' = lapic_at /\
    fits 32 curr /\ 1 <= elapsed < 2 ^ 32 /\
    lapic_reg (irq_hw s') REG_SPURIOUS = 0x1FF /\
    lapic_reg (irq_hw s') REG_LVT_TIMER = Z.lor (Z.shiftl 1 17) 32 /\
    lapic_reg (irq_hw s') REG_TIMER_DIV = 3 /\
    lapic_reg (irq_hw s') REG_TIMER_INIT = (2 ^ 32 - 1 - curr) / elapsed.
Proof.
  unfold lapic_init. unfold set_lapic_base. erewrite run_bind by done. set (s0 := mkIrq _ _ _ _).
  assert (written [] s0 s0) as W0 by done.
  destruct (written_step REG_SPURIOUS 0x1FF _ _ _ W0) as (s1 & R1 & W1 & T1); [by vm_compute|]. rewrite (run_bind _ _ _ _ _ R1).
  destruct (written_step REG_TIMER_DIV 0x3 _ _ _ W1) as (s2 & R2 & W2 & T2); [by vm_compute|]. rewrite (run_bind _ _ _ _ _ R2).
  destruct (written_step REG_LVT_TIMER 0x10000 _ _ _ W2) as (s3 & R3 & W3 & T3); [by vm_compute|]. rewrite (run_bind _ _ _ _ _ R3).
  destruct (written_step REG_TIMER_INIT 0xFFFFFFFF _ _ _ W3) as (s4 & R4 & W4 & T4); [by vm_compute|]. rewrite (run_bind _ _ _ _ _ R4).
  assert (TICKS s4 = TICKS s) as E4 by (rewrite T4, T3, T2, T1; done).
  destruct (written_ticks _ _ _ W4) as (k & s5 & R5 & W5 & T5 & Hk & _); [lia|lia|]. rewrite (run_bind _ _ _ _ _ R5).
  rewrite <- T5. destruct (spin_change _ _ _ (TICKS s5) fuel W5 eq_refl) as (s6 & R6 & W6 & T6); [lia|done|].
  rewrite (run_bind _ _ _ _ _ R6).
  destruct (written_ticks _ _ _ W6) as (k2 & s7 & R7 & W7 & T7 & Hk2 & _); [lia|lia|]. rewrite (run_bind _ _ _ _ _ R7).
  unfold csub. rewrite (proj2 (Z.leb_le _ _)) by lia. erewrite run_bind by done.
  set (elapsed := TICKS s6 + k2 - TICKS s5). assert (1 <= elapsed < 2 ^ 32) as He by (subst elapsed; lia).
  pose proof W7 as (Hb7 & He7 & Hr7). destruct (lapic_read_run s7 REG_TIMER_CURR Hb7) as (curr & h & R8 & Hc & Hh); [by vm_compute|].
  rewrite (run_bind _ _ _ _ _ R8). set (s8 := set_irq_hw h s7).
  assert (written [(REG_TIMER_INIT, 0xFFFFFFFF); (REG_LVT_TIMER, 0x10000); (REG_TIMER_DIV, 0x3); (REG_SPURIOUS, 0x1FF)] s0 s8) as W8.
  { split_and!; [done|done|]. intros r. cbn [s8 irq_hw set_irq_hw]. by rewrite Hh, Hr7. }
  cbv zeta. unfold fits in Hc. unfold wrap.
  rewrite (Z.mod_small (0xFFFFFFFF - curr)), !(Z.mod_small elapsed), (proj2 (Z.ltb_lt 0 elapsed)) by lia.
  destruct (written_step REG_LVT_TIMER 0x20020 _ _ _ W8) as (s9 & R9 & W9 & T9); [by vm_compute|]. rewrite (run_bind _ _ _ _ _ R9).
  destruct (written_step REG_TIMER_DIV 0x3 _ _ _ W9) as (s10 & R10 & W10 & T10); [by vm_compute|]. rewrite (run_bind _ _ _ _ _ R10).
  destruct (written_step REG_TIMER_INIT ((0xFFFFFFFF - curr) / elapsed) _ _ _ W10) as (s11 & R11 & (Hb & _ & Hr) & T11); [by vm_compute|].
  rewrite (run_bind _ _ _ _ _ R11). eexists _, curr, elapsed. split; [done|]. cbn. rewrite !Hr. split_and!; try done; lia.
Qed.
End lapic.

(** ** A clock and an APIC for the witnesses *)

(** An interrupt at every third look; the registers of an APIC at the usual
    address, whose timer always reads 0xFFFF0000. *)
Record DemoApic := mkApic { da_wait : nat; da_reg : Z -> Z }.

#[global] Instance demo_apic_hw : Hardware DemoApic := {
  port_out8 p v h := h;
  port_in8 p h := (0, h);
  port_out32 p v h := h;
  port_in32 p h := (0, h);
  mmio_store a v h := mkApic (da_wait h) (fun r => if decide (r = a - 0xFEE00000) then v else da_reg h r);
  mmio_load a h := (0xFFFF0000, h);
  timer_irqs h := match (da_wait h `min` 2)%nat with O => (1, mkApic 2 (da_reg h)) | S k => (0, mkApic k (da_reg h)) end
}.

#[global] Program Instance demo_clock : Clock DemoApic := { tick_wait := 2; patience h := (da_wait h `min` 2)%nat }.
Next Obligation. intros h. cbn -[Nat.min]. lia. Qed.
Next Obligation. intros [n r]. cbn -[Nat.min]. destruct (n `min` 2)%nat as [|k] eqn:E; cbn -[Nat.min]; rewrite ?E; lia. Qed.

#[global] Program Instance demo_apic : Lapic DemoApic := { lapic_at := 0xFEE00000; lapic_reg := da_reg }.
Next Obligation. lia. Qed.
Next Obligation. intros h off v Ho r. cbn. by replace (0xFEE00000 + off - 0xFEE00000) with off by lia. Qed.
Next Obligation. intros h off Ho. cbn. done. Qed.
Next Obligation. intros h r. cbn. by destruct (da_wait h `min` 2)%nat. Qed.

Definition demo_irq : Irq DemoApic := mkIrq (mkApic 0 (fun _ => 0)) 0 0xFEE00000 false.

Example sleep_ms_spec_witness : exists s', sleep_ms 100 25 demo_irq = Ret (tt, s') /\ 25 <= 10 * (TICKS s' - TICKS demo_irq).
Proof. apply (sleep_ms_spec 100 25 demo_irq); [lia|cbn; lia|vm_compute; lia]. Defined.

Example lapic_init_spec_witness :
  exists s' curr elapsed, lapic_init 3 lapic_at demo_irq = Ret (tt, s') /\
    LAPIC_ENABLED s' = true /\ LAPIC_BASE s' = lapic_at /\
    fits 32 curr /\ 1 <= elapsed < 2 ^ 32 /\
    lapic_reg (irq_hw s') REG_SPURIOUS = 0x1FF /\
    lapic_reg (irq_hw s') REG_LVT_TIMER = Z.lor (Z.shiftl 1 17) 32 /\
    lapic_reg (irq_hw s') REG_TIMER_DIV = 3 /\
    lapic_reg (irq_hw s') REG_TIMER_INIT = (2 ^ 32 - 1 - curr) / elapsed.
Proof. apply (lapic_init_spec 3 demo_irq); cbn; lia. Defined.
