(* ===== verification/Handlers.v ===== *)
(** * Interrupt and exception handlers ([idt.rs], [keyboard.rs])

    The Rust halves of the interrupt entries: the timer (which is the
    scheduler's clock), the keyboard (the producer of the ring buffer), the
    stubs, and the panic screen the exceptions end in. *)

From Stdlib Require Import String.
From S2P Require Import Prelude Bytes Str Kbuf Gdt Task Font Writer Io Irq.

(** ** Keyboard *)

(** The hardware and the statics the handler touches.
    @src ross-kernel/src/keyboard.rs 8-8 READY_SHOWN *)
Record Kbd (H : Type) := mkKbd {
  kd_hw : H;
  kd_ring : Ring;
  READY_SHOWN : bool;
  kd_wr : Writer
}.
Arguments mkKbd {H} _ _ _ _.
Arguments kd_hw {H} _.
Arguments kd_ring {H} _.
Arguments READY_SHOWN {H} _.
Arguments kd_wr {H} _.

(** @src ross-kernel/src/keyboard.rs 24-37 show_ready *)
Definition show_ready : Wr unit :=
  wr ← get;
  clear_y ← lift (cadd 64 (h wr / 2) 20);
  fill_rect 0 clear_y (w wr) 100 BG;;
  let msg := lit "R.O.S.S. Ready." in
  let scale := 3 in
  let msg_w := sat_sub (Z.of_nat (length msg) * (8 * scale + scale)) scale in
  wr ← get;
  let cx := w wr / 2 in
  y ← lift (cadd 64 clear_y 20);
  set_pos (sat_sub cx (msg_w / 2)) y;;
  put_str msg FG scale.

Section keyboard.
Context {H : Type} {HW : Hardware H}.
Notation K := (M (Kbd H)).

Definition kd_dev {X} : M H X -> K X := zoom kd_hw (fun h s => mkKbd h (kd_ring s) (READY_SHOWN s) (kd_wr s)).
Definition kd_draw {X} : Wr X -> K X := zoom kd_wr (fun wr s => mkKbd (kd_hw s) (kd_ring s) (READY_SHOWN s) wr).

(** @src ross-kernel/src/keyboard.rs 10-22 handler *)
Definition handler : K unit :=
  scancode ← kd_dev (inb 0x60);
  (fun s => Ret (tt, mkKbd (kd_hw s) (push scancode (kd_ring s)) (READY_SHOWN s) (kd_wr s)));;
  s ← get;
  (if (scancode =? 0x1C) && negb (READY_SHOWN s) then
     (fun s => Ret (tt, mkKbd (kd_hw s) (kd_ring s) true (kd_wr s)));;
     kd_draw show_ready
   else mret tt);;
  kd_dev (send_eoi 1).
End keyboard.

(** ** Timer and stubs *)

(** The timer entry's state: controllers and counter, scheduler, TSS. *)
Record Tick (H N : Type) := mkTick {
  tk_irq : Irq H;
  tk_sched : Scheduler N;
  tk_tss : Gdt.Tss
}.
Arguments mkTick {H N} _ _ _.
Arguments tk_irq {H N} _.
Arguments tk_sched {H N} _.
Arguments tk_tss {H N} _.

Section timer.
Context {H N : Type} {HW : Hardware H}.
Notation T := (M (Tick H N)).

Definition tk_on {X} : M (Irq H) X -> T X := zoom tk_irq (fun i s => mkTick i (tk_sched s) (tk_tss s)).

(** The answer carries the new RSP in its low half and the new CR3 in its high
    half; [cr3_reg] is CR3 on entry.
    @src ross-kernel/src/idt.rs 106-120 task_timer_handler *)
Definition task_timer_handler (rsp cr3_reg : Z) : T Z :=
  tk_on tick;;
  s ← get;
  let '(res, sched, tss) := pick_next rsp cr3_reg (tk_sched s) (tk_tss s) in
  (fun s => Ret (tt, mkTick (tk_irq s) sched tss));;
  s ← get;
  (if is_enabled (tk_irq s) then tk_on lapic_eoi else tk_on (on_dev (send_eoi 0)));;
  mret (Z.lor (Z.shiftl (res_cr3 res) 64) (res_rsp res)).

(** @src ross-kernel/src/idt.rs 179-182 irq_stub_handler *)
Definition irq_stub_handler : M H unit := send_eoi_both.

(** @src ross-kernel/src/idt.rs 102-104 lapic_spurious_handler *)
Definition lapic_spurious_handler : M H unit := mret tt.
End timer.

(** ** Exceptions *)

(** @src ross-kernel/src/idt.rs 71-78 InterruptStackFrame *)
Record InterruptStackFrame := mkFrame {
  instruction_pointer : Z;
  code_segment : Z;
  cpu_flags : Z;
  stack_pointer : Z;
  stack_segment : Z
}.

(** The screen, after which the processor loops; [cr2] is that register.
    @src ross-kernel/src/idt.rs 211-234 panic_screen *)
Definition panic_screen (cr2 : Z) (name : str) (frame : InterruptStackFrame) (error_code : Z) : Wr unit :=
  fill_rect 0 0 10000 10000 0x000000FF;;
  set_pos 100 100;;
  put_str (lit "!!!!!!!! KERNEL PANIC !!!!!!!!") 0x00FFFFFF 2;;
  set_pos 100 150;;
  write_str (lit "EXCEPTION: ");; write_str name;; write_str (lit " (RIP: 0x");;
  write_str (hex (instruction_pointer frame));; write_str (lit ")");;
  set_pos 100 200;;
  write_str (lit "CR2: 0x");; write_str (hex cr2);; write_str (lit "  ERROR: 0x");; write_str (hex error_code).

(** @src ross-kernel/src/idt.rs 184-186 divide_error_handler *)
Definition divide_error_handler (cr2 : Z) (frame : InterruptStackFrame) : Wr unit :=
  panic_screen cr2 (lit "DIVIDE BY ZERO") frame 0.
(** @src ross-kernel/src/idt.rs 188-192 breakpoint_handler *)
Definition breakpoint_handler : Wr unit :=
  put_str (10 :: lit "[ROSS] BREAKPOINT HIT! System Halting.") 0x00FF0000 2.
(** @src ross-kernel/src/idt.rs 194-196 invalid_opcode_handler *)
Definition invalid_opcode_handler (cr2 : Z) (frame : InterruptStackFrame) : Wr unit :=
  panic_screen cr2 (lit "INVALID OPCODE") frame 0.
(** @src ross-kernel/src/idt.rs 198-201 double_fault_handler *)
Definition double_fault_handler (cr2 : Z) (frame : InterruptStackFrame) (error_code : Z) : Wr unit :=
  panic_screen cr2 (lit "DOUBLE FAULT") frame error_code.
(** @src ross-kernel/src/idt.rs 203-205 general_protection_fault_handler *)
Definition general_protection_fault_handler (cr2 : Z) (frame : InterruptStackFrame) (error_code : Z) : Wr unit :=
  panic_screen cr2 (lit "GENERAL PROTECTION FAULT") frame error_code.
(** @src ross-kernel/src/idt.rs 207-209 page_fault_handler *)
Definition page_fault_handler (cr2 : Z) (frame : InterruptStackFrame) (error_code : Z) : Wr unit :=
  panic_screen cr2 (lit "PAGE FAULT") frame error_code.

(** ** Drawing on a sound screen *)

Lemma panic_screen_draws cr2 name frame e : draws (panic_screen cr2 name frame e).
Proof. unfold panic_screen. draw. Qed.

Lemma show_ready_draws : draws show_ready.
Proof.
  intros wr Hok. pose proof Hok as [Hw Hh Hx Hy Hi Hf]. unfold TERM_Y in Hh. unfold show_ready.
  rewrite (run_bind get _ wr wr wr), run_cadd by (done || dm_lia).
  destruct (draws_fill 0 (h wr / 2 + 20) (w wr) 100 BG) with (wr := wr) as (w1 & R1 & K1); [lia|dm_lia|lia|lia|done|].
  rewrite (run_bind _ _ _ _ _ R1). cbv zeta. rewrite (run_bind get _ w1 w1 w1), run_cadd by (done || dm_lia).
  destruct K1 as (Hok1 & Ew & Eh). rewrite Ew.
  set (px := sat_sub _ _). assert (0 <= px < 2 ^ 31) as Hpx by (unfold px, sat_sub; dm_lia).
  destruct (draws_seq (set_pos px (h wr / 2 + 20 + 20)) (put_str (lit "R.O.S.S. Ready.") FG 3)) with (wr := w1)
    as (w2 & R2 & K2); [apply draws_pos; dm_lia|apply draws_str; lia|done|].
  exists w2. split; [exact R2|]. by eapply kept_trans.
Qed.

(** The keyboard interrupt always returns: the scan code read from the
    controller goes into the ring buffer, the first Enter (and only the first)
    draws the ready message, without leaving the screen, and the master PIC is
    told the interrupt is over. *)
Theorem keyboard_handler_spec {H : Type} {HW : Hardware H} {P : Pics H} (s : Kbd H) (Hok : screen_ok (kd_wr s)) :
  let '(sc, h1) := port_in8 0x60 (kd_hw s) in
  exists s', handler s = Ret (tt, s') /\
    kd_ring s' = push sc (kd_ring s) /\
    READY_SHOWN s' = READY_SHOWN s || (sc =? 0x1C) /\
    (sc <> 0x1C \/ READY_SHOWN s = true -> kd_wr s' = kd_wr s) /\
    screen_ok (kd_wr s') /\
    ch_service (pic1 (kd_hw s')) = tail (ch_service (pic1 h1)) /\ pic2 (kd_hw s') = pic2 h1.
Proof.
  destruct (port_in8 0x60 (kd_hw s)) as [sc h1] eqn:Ein. unfold handler.
  set (s1 := mkKbd h1 (kd_ring s) (READY_SHOWN s) (kd_wr s)).
  assert (kd_dev (inb 0x60) s = Ret (sc, s1)) as R1 by (unfold kd_dev, zoom, inb; by rewrite Ein).
  rewrite (run_bind _ _ _ _ _ R1). erewrite run_bind by done. erewrite run_bind by done.
  set (s2 := mkKbd _ _ _ _). cbn [READY_SHOWN s2 s1].
  assert (exists wr', (if (sc =? 0x1C) && negb (READY_SHOWN s) then
      (fun s => Ret (tt, mkKbd (kd_hw s) (kd_ring s) true (kd_wr s)));; kd_draw show_ready else mret tt) s2 =
      Ret (tt, mkKbd h1 (push sc (kd_ring s)) (READY_SHOWN s || (sc =? 0x1C)) wr') /\ screen_ok wr' /\
      (sc <> 0x1C \/ READY_SHOWN s = true -> wr' = kd_wr s)) as (wr' & R2 & Hok' & Hsame).
  { destruct (Z.eqb_spec sc 0x1C), (READY_SHOWN s) eqn:Er; cbn [andb negb orb];
      try (eexists; split; [unfold s2, s1; cbn; rewrite ?Er; done|done]).
    destruct (show_ready_draws (kd_wr s) Hok) as (w1 & Rw & K). exists w1.
    erewrite run_bind by done. unfold kd_draw, zoom. cbn [kd_wr s2 s1]. rewrite Rw. split; [done|].
    split; [apply K|]. by intros []. }
  rewrite (run_bind _ _ _ _ _ R2). unfold kd_dev, zoom, send_eoi. cbn [kd_hw]. change (8 <=? 1) with false. cbn iota.
  erewrite run_bind by done. unfold outb at 1. eexists. split; [done|]. cbn.
  destruct (pic_out 0x20 0x20 h1) as [E1 E2]. unfold PIC1_CMD, PIC_EOI. rewrite E1, E2. cbn.
  repeat (split; [done|]). done.
Qed.

(** The timer interrupt counts one tick, makes the scheduler's choice, ends
    the interrupt at the controller in charge - the local APIC once it is
    enabled, the master PIC before - and returns the chosen stack pointer and
    page-table root in the two halves of its answer. *)
Theorem timer_interrupt_spec {H N : Type} {HW : Hardware H} {P : Pics H} {LA : Lapic H}
    (s : Tick H N) (rsp cr3_reg : Z)
    (Hb : LAPIC_BASE (tk_irq s) = lapic_at)
    (Hrsp : fits 64 (res_rsp (pick_next rsp cr3_reg (tk_sched s) (tk_tss s)).1.1)) :
  let '(res, sched, tss) := pick_next rsp cr3_reg (tk_sched s) (tk_tss s) in
  exists r s', task_timer_handler rsp cr3_reg s = Ret (r, s') /\
    r mod 2 ^ 64 = res_rsp res /\ r / 2 ^ 64 = res_cr3 res /\
    tk_sched s' = sched /\ tk_tss s' = tss /\
    TICKS (tk_irq s') = (TICKS (tk_irq s) + 1) mod 2 ^ 64 /\
    (if LAPIC_ENABLED (tk_irq s) then lapic_reg (irq_hw (tk_irq s')) REG_EOI = 0
     else ch_service (pic1 (irq_hw (tk_irq s'))) = tail (ch_service (pic1 (irq_hw (tk_irq s))))).
Proof.
  unfold task_timer_handler. erewrite run_bind by done. erewrite run_bind by done. cbn [tk_sched tk_tss].
  destruct (pick_next rsp cr3_reg (tk_sched s) (tk_tss s)) as [[res sched] tss]. cbn [fst] in Hrsp.
  erewrite run_bind by done. erewrite run_bind by done. cbn [tk_irq is_enabled].
  set (i1 := set_ticks _ _). unfold is_enabled. cbn [LAPIC_ENABLED i1 set_ticks].
  set (r := Z.lor _ _).
  assert (r mod 2 ^ 64 = res_rsp res /\ r / 2 ^ 64 = res_cr3 res) as [Er1 Er2].
  { unfold r. split.
    - rewrite <- Z.land_ones, Z.land_lor_distr_l, !Z.land_ones, Z.shiftl_mul_pow2, Z_mod_mult by lia.
      rewrite Z.lor_0_l. by apply Z.mod_small.
    - rewrite <- Z.shiftr_div_pow2, Z.shiftr_lor, Z.shiftr_shiftl_l by lia. change (64 - 64) with 0.
      rewrite Z.shiftl_0_r, (Z.shiftr_div_pow2 (res_rsp res)), Z.div_small by (done || lia). by rewrite Z.lor_0_r. }
  destruct (LAPIC_ENABLED (tk_irq s)) eqn:En.
  - unfold lapic_eoi, tk_on. destruct (lapic_write_run i1 REG_EOI 0) as (h' & R & Hr); [done|by vm_compute|].
    erewrite run_bind by (unfold zoom; cbn [tk_irq]; rewrite R; done).
    eexists r, _. split; [done|]. cbn. rewrite Hr, decide_True by done. by split_and!.
  - unfold tk_on, on_dev. erewrite run_bind by done. eexists r, _. split; [done|]. cbn.
    destruct (pic_out 0x20 0x20 (irq_hw (tk_irq s))) as [E1 _]. unfold PIC1_CMD, PIC_EOI. rewrite E1. cbn.
    by split_and!.
Qed.

(** ** Witnesses *)

(** Two PICs, a keyboard controller with scan codes to deliver, the registers
    of a local APIC. *)
Record DemoBoard := mkBoard { bd_pics : DemoPics; bd_codes : list Z; bd_reg : Z -> Z }.

#[global] Instance demo_board_hw : Hardware DemoBoard := {
  port_out8 p v h := mkBoard (port_out8 p v (bd_pics h)) (bd_codes h) (bd_reg h);
  port_in8 p h := match bd_codes h with [] => (0, h) | c :: cs => (c, mkBoard (bd_pics h) cs (bd_reg h)) end;
  port_out32 p v h := h;
  port_in32 p h := (0, h);
  mmio_store a v h := mkBoard (bd_pics h) (bd_codes h) (fun r => if decide (r = a - 0xFEE00000) then v else bd_reg h r);
  mmio_load a h := (0, h);
  timer_irqs h := (0, h)
}.
#[global] Instance demo_board_pics : Pics DemoBoard.
Proof. refine {| pic1 h := dp_1 (bd_pics h); pic2 h := dp_2 (bd_pics h) |}. done. Defined.
#[global] Program Instance demo_board_apic : Lapic DemoBoard := { lapic_at := 0xFEE00000; lapic_reg := bd_reg }.
Next Obligation. lia. Qed.
Next Obligation. intros h off v Ho r. cbn. by replace (0xFEE00000 + off - 0xFEE00000) with off by lia. Qed.
Next Obligation. intros h off Ho. cbn. done. Qed.
Next Obligation. done. Qed.

(** The keyboard interrupt of an Enter, in service on the master. *)
Definition demo_board : DemoBoard :=
  mkBoard (mkPics (mkChip None 32 4 1 0xFC [1]) (mkChip None 40 2 1 0xFF [])) [0x1C] (fun _ => 0).
Definition demo_kbd : Kbd DemoBoard := mkKbd demo_board (mkRing (replicate 256 0) 0 0) false (Writer_new 640 480).

Example keyboard_handler_spec_witness :
  let '(sc, h1) := port_in8 0x60 (kd_hw demo_kbd) in
  exists s', handler demo_kbd = Ret (tt, s') /\
    kd_ring s' = push sc (kd_ring demo_kbd) /\
    READY_SHOWN s' = READY_SHOWN demo_kbd || (sc =? 0x1C) /\
    (sc <> 0x1C \/ READY_SHOWN demo_kbd = true -> kd_wr s' = kd_wr demo_kbd) /\
    screen_ok (kd_wr s') /\
    ch_service (pic1 (kd_hw s')) = tail (ch_service (pic1 h1)) /\ pic2 (kd_hw s') = pic2 h1.
Proof.
  apply (keyboard_handler_spec demo_kbd).
  constructor; cbn; unfold TERM_Y, LEFT_MARGIN; try lia. intros i. rewrite lookup_empty. by intros [? ?].
Defined.

Definition demo_tick : Tick DemoBoard unit :=
  mkTick (mkIrq demo_board 41 0xFEE00000 true) (mkSched [] None) Gdt.Tss_new.

Example timer_interrupt_spec_witness :
  let '(res, sched, tss) := pick_next 0x7000 0x1000 (tk_sched demo_tick) (tk_tss demo_tick) in
  exists r s', task_timer_handler 0x7000 0x1000 demo_tick = Ret (r, s') /\
    r mod 2 ^ 64 = res_rsp res /\ r / 2 ^ 64 = res_cr3 res /\
    tk_sched s' = sched /\ tk_tss s' = tss /\
    TICKS (tk_irq s') = (TICKS (tk_irq demo_tick) + 1) mod 2 ^ 64 /\
    (if LAPIC_ENABLED (tk_irq demo_tick) then lapic_reg (irq_hw (tk_irq s')) REG_EOI = 0
     else ch_service (pic1 (irq_hw (tk_irq s'))) = tail (ch_service (pic1 (irq_hw (tk_irq demo_tick))))).
Proof. apply (timer_interrupt_spec demo_tick 0x7000 0x1000); [reflexivity|cbn; unfold fits; lia]. Defined.
