(* ===== verification/Smp.v ===== *)
(** * Starting the other processors ([ross-kernel/src/smp.rs])

    The trampoline page at 0x8000 with its data block at 0x8F00, what an
    application processor does with it on its way to long mode, and the
    INIT-SIPI-SIPI sequence.  The assembled trampoline and the addresses of
    [ap_main] and the kernel's GDT are parameters; the trampoline's
    instructions are the stages [real_mode], [protected_mode], [long_mode]. *)

From S2P Require Import Prelude Bytes Gdt Io Irq.

(** @src ross-kernel/src/smp.rs 30-30 AP_STACK_SIZE *)
Definition AP_STACK_SIZE : Z := 16 * 1024.
(** @src ross-kernel/src/smp.rs 31-31 MAX_APS *)
Definition MAX_APS : Z := 8.

(** What the linker decides: the bytes between [ap_trampoline_start] and
    [ap_trampoline_end], and addresses. *)
Record Layout := mkLayout {
  tr_code : list Z;
  ap_main : Z;
  kgdt : Z;
  ap_stacks : Z
}.

(** ** The data block *)

(** @src ross-kernel/src/smp.rs 153-155 db_write_u32 *)
Definition db_write_u32 (offset val : Z) (m : mem) : mem := st32 (0x8F00 + offset) val m.
(** @src ross-kernel/src/smp.rs 156-158 db_write_u64 *)
Definition db_write_u64 (offset val : Z) (m : mem) : mem := st64 (0x8F00 + offset) val m.
(** @src ross-kernel/src/smp.rs 159-161 db_write_u16 *)
Definition db_write_u16 (offset val : Z) (m : mem) : mem := st 2 (0x8F00 + offset) val m.

(** The size of the kernel's GDT: eight descriptors. *)
Definition GDT_SIZE : Z := 8 * 8.

(** @src ross-kernel/src/smp.rs 163-195 install_trampoline *)
Definition install_trampoline (L : Layout) (stack_top cr3 : Z) (m : mem) : mem :=
  let m := st_bytes (tr_code L) 0x8000 m in
  let m := db_write_u64 0x00 cr3 m in
  let m := db_write_u64 0x08 stack_top m in
  let m := db_write_u64 0x10 (ap_main L) m in
  let m := db_write_u16 0x20 0x1F m in
  let m := db_write_u32 0x22 0x8F40 m in
  let kgdt_limit := wrap 16 (GDT_SIZE - 1) in
  let m := db_write_u16 0x28 kgdt_limit m in
  let m := db_write_u64 0x2A (kgdt L) m in
  let m := db_write_u64 0x40 0x0000000000000000 m in
  let m := db_write_u64 0x48 0x00CF9A000000FFFF m in
  let m := db_write_u64 0x50 0x00CF92000000FFFF m in
  db_write_u64 0x58 0x00209A0000000000 m.

(** ** The way up of an application processor *)

(** The registers the trampoline touches; selectors keep the descriptor they
    were loaded with. *)
Record Ap := mkAp {
  gdtr : Z * Z;
  cr0 : Z;
  cr3 : Z;
  cr4 : Z;
  efer : Z;
  cs : Z * Z;
  ds : Z * Z;
  rsp : Z
}.

(** The descriptor selector [sel] names in the table of [g]. *)
Definition descriptor (m : mem) (g : Z * Z) (sel : Z) : option Z :=
  let o := sel / 8 * 8 in
  if o + 7 <=? g.1 then Some (ld64 m (g.2 + o)) else None.

(** [lgdt] with a limit of two bytes and a base of [n]. *)
Definition lgdt (n : nat) (m : mem) (a : Z) : Z * Z := (ld 2 m a, ld n m (a + 2)).

(** 16 bits: the small GDT, protection on, a far jump into code32.
    @src ross-kernel/src/smp.rs 46-69 ap_trampoline_start *)
Definition real_mode (m : mem) (c : Ap) : option Ap :=
  let g := lgdt 4 m 0x8F20 in
  d ← descriptor m g 0x08;
  Some (mkAp g (Z.lor (cr0 c) 1) (cr3 c) (cr4 c) (efer c) (0x08, d) (ds c) (rsp c)).

(** 32 bits: PAE, CR3 from the data block, long mode and paging on, a far jump
    into code64.
    @src ross-kernel/src/smp.rs 71-107 ap_trampoline_pm32 *)
Definition protected_mode (m : mem) (c : Ap) : option Ap :=
  d ← descriptor m (gdtr c) 0x10;
  let cr4' := Z.lor (cr4 c) 0x20 in
  let cr3' := ld32 m 0x8F00 in
  let efer' := Z.lor (efer c) 0x100 in
  let cr0' := Z.lor (cr0 c) 0x80000001 in
  d64 ← descriptor m (gdtr c) 0x18;
  Some (mkAp (gdtr c) cr0' cr3' cr4' efer' (0x18, d64) (0x10, d) 0x8FF0).

(** 64 bits: the kernel's GDT and code selector, the stack, and the call; the
    second component is the address called.
    @src ross-kernel/src/smp.rs 109-142 ap_trampoline_lm64 *)
Definition long_mode (m : mem) (c : Ap) : option (Ap * Z) :=
  let g := lgdt 8 m 0x8F28 in
  d ← descriptor m g 0x08;
  Some (mkAp g (cr0 c) (cr3 c) (cr4 c) (efer c) (0x08, d) (0, 0) (ld64 m 0x8F08 - 8), ld64 m 0x8F10).

Definition trampoline (m : mem) (c : Ap) : option (Ap * Z) :=
  c ← real_mode m c; c ← protected_mode m c; long_mode m c.

(** ** Waking them *)

(** [AP_ONLINE] counts the processors that reported; it changes behind the
    back of the boot processor. *)
Class Processors (H : Type) := { ap_online : H -> Z * H }.

Record Smp (H : Type) := mkSmp { sm_irq : Irq H; sm_mem : mem }.
Arguments mkSmp {H} _ _.
Arguments sm_irq {H} _.
Arguments sm_mem {H} _.

Section smp.
Context {H : Type} {HW : Hardware H} {PR : Processors H}.
Notation S_ := (M (Smp H)).

Definition sm_on {X} : M (Irq H) X -> S_ X := zoom sm_irq (fun i s => mkSmp i (sm_mem s)).

(** The delay counts no operations; an overflow of the count panics.
    @src ross-kernel/src/smp.rs 226-230 spin_us *)
Definition spin_us (us : Z) : S_ unit := _ ← lift (cmul 64 us 1000); mret tt.

(** One processor: [ap_num] is its number.
    @src ross-kernel/src/smp.rs 247-267 init *)
Definition wake (fuel : nat) (L : Layout) (cr3 ap_num apic_id : Z) : S_ unit :=
  let base := ap_stacks L + ap_num * AP_STACK_SIZE in
  stack_top ← lift (cadd 64 base AP_STACK_SIZE);
  (fun s => Ret (tt, mkSmp (sm_irq s) (install_trampoline L stack_top cr3 (sm_mem s))));;
  sm_on (send_init fuel apic_id);;
  spin_us 10000;;
  sm_on (send_sipi fuel apic_id 0x08);;
  spin_us 200;;
  sm_on (send_sipi fuel apic_id 0x08);;
  spin_us 200.

(** The loop over the processors of the MADT; the answer is [ap_num].
    @src ross-kernel/src/smp.rs 240-268 init *)
Fixpoint wake_all (fuel : nat) (L : Layout) (cr3 bsp_id : Z) (ap_ids : list Z) (ap_num : Z) : S_ Z :=
  match ap_ids with
  | [] => mret ap_num
  | apic_id :: ap_ids =>
      if apic_id =? bsp_id then wake_all fuel L cr3 bsp_id ap_ids ap_num
      else if MAX_APS <=? ap_num then mret ap_num
      else wake fuel L cr3 ap_num apic_id;; wake_all fuel L cr3 bsp_id ap_ids (ap_num + 1)
  end.

(** The answer is what the last line logs: how many of the processors woken
    came up in time.
    @src ross-kernel/src/smp.rs 232-281 init *)
Definition smp_init (fuel : nat) (L : Layout) (cr3 bsp_id : Z) (ap_ids : list Z) : S_ (Z * Z) :=
  expected ← wake_all fuel L cr3 bsp_id ap_ids 0;
  let online := sm_on (on_dev (fun h => Ret (ap_online h))) in
  poll 10000000 (n ← online; mret (if n <? expected then None else Some tt));;
  n ← online;
  mret (n, expected).

(** What the processor does before it idles.
    @src ross-kernel/src/smp.rs 197-224 ap_main *)
Definition ap_main_init : M (Irq H) Z :=
  s ← get;
  let base := LAPIC_BASE s in
  lapic_init_ap base;;
  my_id.
End smp.

(** ** The trampoline page *)

Lemma ld_st_eq n a v m b : b = a -> fits (8 * Z.of_nat n) v -> ld n (st n a v m) b = v.
Proof. intros ->. apply ld_st_same. Qed.

Ltac block :=
  unfold install_trampoline, db_write_u16, db_write_u32, db_write_u64;
  repeat first [ rewrite ld_st_eq by (assumption || unfold fits in *; lia) | rewrite ld_st_ne by lia | rewrite ld_st_bytes_ne by lia ].

(** The low half of a stored 64-bit value. *)
Lemma ld32_st64 a v m : fits 32 v -> ld32 (st64 a v m) a = v.
Proof.
  intros Hv. unfold ld, st. pose proof (ld_bytes_st_bytes_same (le_bytes 8 v) a m) as E.
  rewrite length_le_bytes in E. change 8%nat with (4 + 4)%nat in E at 2. rewrite ld_bytes_app in E.
  assert (le_bytes 8 v = le_bytes 4 v ++ le_bytes 4 (v / 256 / 256 / 256 / 256)) as E8 by done.
  pose proof (eq_trans E E8) as E'. apply app_inj_1 in E' as [E' _]; [|by rewrite length_ld_bytes, length_le_bytes].
  rewrite E'. by apply (le_roundtrip 4).
Qed.

(** Only the page is written, however many processors are started. *)
Lemma installs_out (L : Layout) (root : Z) tops : forall m,
  Z.of_nat (length (tr_code L)) <= 0xF00 -> Forall is_byte (tr_code L) ->
  let m' := foldl (fun m top => install_trampoline L top root m) m tops in
  (forall a, ~ 0x8000 <= a < 0x9000 -> m' a = m a) /\ (mem_ok m -> mem_ok m').
Proof.
  intros m Hl Hb. revert m. induction tops as [|top tops IH]; intros m; cbn [foldl]; [done|].
  destruct (IH (install_trampoline L top root m)) as [Ha Hm]. split.
  - intros a Hr. rewrite Ha by done. unfold install_trampoline, db_write_u16, db_write_u32, db_write_u64, st.
    by rewrite !st_bytes_out by (rewrite ?length_le_bytes; lia).
  - intros Hok. apply Hm. unfold install_trampoline, db_write_u16, db_write_u32, db_write_u64. repeat apply st_ok. by apply st_bytes_ok.
Qed.


Definition demo_layout : Layout := mkLayout (replicate 200 0x90) 0xFFFFFFFF80210000 0xFFFFFFFF80300000 0xFFFFFFFF80400000.


(** ** The start-up messages *)

(** Interprocessor interrupts sent: the destination and the command of each
    write of the low half of the ICR; delivery is pending for at most
    [icr_wait] looks. *)
Class Ipi (H : Type) {HW : Hardware H} {LA : Lapic H} := {
  ipis : H -> list (Z * Z);
  icr_busy : H -> nat;
  icr_wait : nat;
  icr_bound h : (icr_busy h <= icr_wait)%nat;
  ipi_store h off v :
    0 <= off < 0x400 ->
    ipis (mmio_store (lapic_at + off) v h) =
      if decide (off = REG_ICR_LOW) then ipis h ++ [(lapic_reg h REG_ICR_HIGH / 2 ^ 24, v)] else ipis h;
  ipi_look h :
    let '(v, h') := mmio_load (lapic_at + REG_ICR_LOW) h in
    ipis h' = ipis h /\
    match icr_busy h with
    | O => Z.land v (Z.shiftl 1 12) = 0
    | S k => Z.land v (Z.shiftl 1 12) <> 0 /\ (icr_busy h' < S k)%nat
    end
}.

Section wake.
Context {H : Type} {HW : Hardware H} {LA : Lapic H} {IP : Ipi H} {PR : Processors H}.

Definition smp_ipis (s : Smp H) : list (Z * Z) := ipis (irq_hw (sm_irq s)).

Lemma wait_icr_run fuel (s : Irq H) :
  LAPIC_BASE s = lapic_at -> (icr_wait < fuel)%nat ->
  exists s', wait_icr_idle fuel s = Ret (tt, s') /\ LAPIC_BASE s' = lapic_at /\ ipis (irq_hw s') = ipis (irq_hw s).
Proof.
  intros Hb Hf.
  destruct (spin_ok (fun k t => LAPIC_BASE t = lapic_at /\ ipis (irq_hw t) = ipis (irq_hw s) /\ icr_busy (irq_hw t) = k)
    (fun t => LAPIC_BASE t = lapic_at /\ ipis (irq_hw t) = ipis (irq_hw s))
    (v ← lapic_read REG_ICR_LOW; mret (Z.land v (Z.shiftl 1 12) =? 0))) with (fuel := fuel) (k := icr_busy (irq_hw s)) (s := s)
    as (s' & R & Hq); [|done|pose proof (icr_bound (irq_hw s)); lia|by exists s'].
  intros k t (Hbt & Hi & Hk). pose proof (ipi_look (irq_hw t)) as Hl. pose proof lapic_at_range.
  unfold lapic_read. destruct (mmio_load (lapic_at + REG_ICR_LOW) (irq_hw t)) as [v h] eqn:El.
  eexists _, (set_irq_hw h t). split.
  { erewrite run_bind; [done|]. erewrite run_bind by done. rewrite Hbt. unfold cadd.
    rewrite (proj2 (Z.ltb_lt _ _)) by (unfold REG_ICR_LOW; lia). erewrite run_bind by done.
    unfold on_dev, zoom, read_volatile. by rewrite El. }
  destruct Hl as [Hi' Hl]. rewrite Hk in Hl. destruct k as [|k].
  - rewrite Hl. cbn. by rewrite Hi'.
  - destruct Hl as [Hne Hbz]. rewrite (proj2 (Z.eqb_neq _ 0)) by done. exists (icr_busy h). split; [done|]. cbn. by rewrite Hi'.
Qed.

(** Both halves of the ICR, then the wait. *)
Lemma send_run fuel dest v (s : Irq H) :
  LAPIC_BASE s = lapic_at -> (icr_wait < fuel)%nat ->
  exists s', (lapic_write REG_ICR_HIGH (Z.shiftl dest 24);; lapic_write REG_ICR_LOW v;; wait_icr_idle fuel) s = Ret (tt, s') /\
    LAPIC_BASE s' = lapic_at /\ ipis (irq_hw s') = ipis (irq_hw s) ++ [(dest, v)].
Proof.
  intros Hb Hf. pose proof lapic_at_range as Hr.
  assert (forall off v (t : Irq H), LAPIC_BASE t = lapic_at -> 0 <= off < 0x400 ->
    lapic_write off v t = Ret (tt, set_irq_hw (mmio_store (lapic_at + off) v (irq_hw t)) t)) as Hw.
  { intros off u t Ht Ho. unfold lapic_write. erewrite run_bind by done. rewrite Ht. unfold cadd.
    rewrite (proj2 (Z.ltb_lt _ _)) by lia. by erewrite run_bind. }
  rewrite (run_bind _ _ _ _ _ (Hw REG_ICR_HIGH _ s Hb ltac:(by vm_compute))).
  erewrite run_bind by (apply Hw; [done|by vm_compute]).
  set (h1 := mmio_store _ _ (irq_hw s)). cbn [irq_hw set_irq_hw].
  set (s2 := set_irq_hw _ _). destruct (wait_icr_run fuel s2) as (s' & R & Hb' & Ei); [done|done|].
  exists s'. split; [done|]. split; [done|]. rewrite Ei. cbn [irq_hw s2 set_irq_hw].
  rewrite ipi_store, decide_True by (done || by vm_compute). unfold h1.
  rewrite ipi_store, decide_False by (by vm_compute). rewrite lapic_store, decide_True by (done || by vm_compute).
  rewrite Z.shiftl_mul_pow2, Z.div_mul by lia. done.
Qed.

(** What one processor is sent: INIT, then two start-up messages for the page
    at 0x8000. *)
Definition startup (apic_id : Z) : list (Z * Z) := [(apic_id, 0x4500); (apic_id, 0x4608); (apic_id, 0x4608)].

Definition stack_of (L : Layout) (ap_num : Z) : Z := ap_stacks L + ap_num * AP_STACK_SIZE + AP_STACK_SIZE.

Lemma wake_run fuel L root n apic_id (s : Smp H) :
  LAPIC_BASE (sm_irq s) = lapic_at -> (icr_wait < fuel)%nat -> 0 <= n < 8 -> 0 <= ap_stacks L -> ap_stacks L + 8 * AP_STACK_SIZE < 2 ^ 64 ->
  exists s', wake fuel L root n apic_id s = Ret (tt, s') /\ LAPIC_BASE (sm_irq s') = lapic_at /\
    sm_mem s' = install_trampoline L (stack_of L n) root (sm_mem s) /\
    smp_ipis s' = smp_ipis s ++ startup apic_id.
Proof.
  intros Hb Hf Hn H0 H1. unfold wake, AP_STACK_SIZE in *. unfold cadd. rewrite (proj2 (Z.ltb_lt _ _)) by lia.
  erewrite run_bind by done. erewrite run_bind by done. unfold sm_on, send_init, send_sipi.
  set (m' := install_trampoline _ _ _ _).
  destruct (send_run fuel apic_id 0x4500 (sm_irq s) Hb Hf) as (i1 & R1 & B1 & E1).
  erewrite run_bind by (apply run_zoom; exact R1). erewrite run_bind by done.
  destruct (send_run fuel apic_id (Z.lor 0x4600 0x08) i1 B1 Hf) as (i2 & R2 & B2 & E2).
  erewrite run_bind by (apply run_zoom; exact R2). erewrite run_bind by done.
  destruct (send_run fuel apic_id (Z.lor 0x4600 0x08) i2 B2 Hf) as (i3 & R3 & B3 & E3).
  erewrite run_bind by (apply run_zoom; exact R3).
  eexists. split; [done|]. cbn. split; [done|]. split; [done|].
  unfold smp_ipis, startup. cbn. by rewrite E3, E2, E1, <- !app_assoc.
Qed.

(** The processors that are started: not the boot processor, and no more than
    there are stacks. *)
Definition started_ids (bsp_id : Z) (ap_ids : list Z) : list Z :=
  take (Z.to_nat MAX_APS) (List.filter (fun i => negb (i =? bsp_id)) ap_ids).

Lemma wake_all_run fuel L root bsp ids : forall n (s : Smp H),
  LAPIC_BASE (sm_irq s) = lapic_at -> (icr_wait < fuel)%nat -> 0 <= n <= 8 -> 0 <= ap_stacks L -> ap_stacks L + 8 * AP_STACK_SIZE < 2 ^ 64 ->
  let woken := take (Z.to_nat (8 - n)) (List.filter (fun i => negb (i =? bsp)) ids) in
  exists s', wake_all fuel L root bsp ids n s = Ret (n + Z.of_nat (length woken), s') /\
    LAPIC_BASE (sm_irq s') = lapic_at /\
    smp_ipis s' = smp_ipis s ++ (woken ≫= startup) /\
    sm_mem s' = foldl (fun m k => install_trampoline L (stack_of L k) root m) (sm_mem s) (seqZ n (Z.of_nat (length woken))).
Proof.
  induction ids as [|i ids IH]; intros n s Hb Hf Hn H0 H1; cbn [wake_all List.filter].
  { rewrite take_nil. exists s. cbn. by rewrite Z.add_0_r, app_nil_r. }
  destruct (Z.eqb_spec i bsp); cbn [negb]; [by apply IH|]. unfold MAX_APS.
  destruct (Z.leb_spec 8 n).
  { replace (Z.to_nat (8 - n)) with 0%nat by lia. exists s. cbn. by rewrite Z.add_0_r, app_nil_r. }
  destruct (wake_run fuel L root n i s Hb Hf ltac:(lia) H0 H1) as (s1 & R1 & B1 & M1 & I1).
  rewrite (run_bind _ _ _ _ _ R1). destruct (IH (n + 1) s1 B1 Hf ltac:(lia) H0 H1) as (s2 & R2 & B2 & I2 & M2).
  replace (Z.to_nat (8 - n)) with (S (Z.to_nat (8 - (n + 1)))) by lia. cbn [firstn length mbind list_bind].
  exists s2. split; [rewrite R2; do 2 f_equal; lia|]. split; [done|]. split.
  - by rewrite I2, I1, <- app_assoc.
  - rewrite M2, M1, (seqZ_cons n) by lia. cbn [foldl].
    by replace (Z.pred _) with (Z.of_nat (length (take (Z.to_nat (8 - (n + 1))) (List.filter (fun i => negb (i =? bsp)) ids)))) by lia.
Qed.

(** Start-up sends every other processor of the MADT INIT and two start-up
    messages for the page at 0x8000, in the table's order and skipping the boot
    processor, up to the eight there are stacks for; each gets a stack of its
    own from the pool, the answer counts the processors started, and the wait
    for them ends whether they report or not. *)
Theorem smp_init_spec fuel (L : Layout) root bsp_id ap_ids (s : Smp H)
  (Hbase : LAPIC_BASE (sm_irq s) = lapic_at) (Hfuel : (icr_wait < fuel)%nat)
  (Hlo : 0 <= ap_stacks L) (Hhi : ap_stacks L + 8 * AP_STACK_SIZE < 2 ^ 64)
  (Hquiet : forall h : H, ipis (ap_online h).2 = ipis h) :
  let woken := started_ids bsp_id ap_ids in
  let tops := map (stack_of L) (seqZ 0 (Z.of_nat (length woken))) in
  exists online s', smp_init fuel L root bsp_id ap_ids s = Ret ((online, Z.of_nat (length woken)), s') /\
    smp_ipis s' = smp_ipis s ++ (woken ≫= startup) /\
    bsp_id ∉ woken /\ (length woken <= 8)%nat /\
    sm_mem s' = foldl (fun m top => install_trampoline L top root m) (sm_mem s) tops /\
    NoDup tops /\ (forall top, top ∈ tops -> ap_stacks L + AP_STACK_SIZE <= top <= ap_stacks L + 8 * AP_STACK_SIZE).
Proof.
  cbv zeta. destruct (wake_all_run fuel L root bsp_id ap_ids 0 s Hbase Hfuel) as (s1 & R1 & B1 & I1 & M1); [lia|done|done|].
  change (take (Z.to_nat (8 - 0)) _) with (started_ids bsp_id ap_ids) in *. rewrite Z.add_0_l in R1.
  set (woken := started_ids bsp_id ap_ids) in *.
  assert (length woken <= 8)%nat as Hlen by (unfold woken, started_ids; rewrite length_take; unfold MAX_APS; lia).
  set (P := fun t : Smp H => smp_ipis t = smp_ipis s1 /\ sm_mem t = sm_mem s1).
  assert (forall t, P t -> exists n t', sm_on (on_dev (fun h => Ret (ap_online h))) t = Ret (n, t') /\ P t') as Hlook.
  { intros t [E1 E2]. unfold sm_on, on_dev, zoom. destruct (ap_online (irq_hw (sm_irq t))) as [n h] eqn:Eo.
    eexists n, _. split; [done|]. split; [|done]. unfold smp_ipis in *. cbn. rewrite <- E1.
    by rewrite <- (Hquiet (irq_hw (sm_irq t))), Eo. }
  unfold smp_init. rewrite (run_bind _ _ _ _ _ R1).
  set (test := n ← sm_on (on_dev (fun h => Ret (ap_online h))); mret (if n <? Z.of_nat (length woken) then None else Some tt)).
  assert (forall t, P t -> exists r t', test t = Ret (r, t') /\ P t') as Htest.
  { intros t Pt. destruct (Hlook t Pt) as (n & t' & Rl & Pt'). eexists _, t'. split; [|done].
    unfold test. by rewrite (run_bind _ _ _ _ _ Rl). }
  destruct (poll_keeps P test 10000000 Htest s1) as (r & s2 & R2 & P2); [by split|]. rewrite (run_bind _ _ _ _ _ R2).
  destruct (Hlook s2 P2) as (n & s3 & R3 & [I3 M3]). rewrite (run_bind _ _ _ _ _ R3). exists n, s3.
  split; [done|]. split; [by rewrite I3|]. split; [|split; [done|split; [|split]]].
  - unfold woken, started_ids. intros Hin. apply elem_of_take in Hin as (k & Hk & _).
    apply list_elem_of_lookup_2, list_elem_of_In, filter_In in Hk as [_ Hk]. by rewrite Z.eqb_refl in Hk.
  - rewrite M3, M1. generalize (sm_mem s) (seqZ 0 (Z.of_nat (length woken))). clear.
    intros m l. revert m. induction l as [|k l IH]; intros m; [done|apply IH].
  - apply NoDup_fmap_2_strong, NoDup_seqZ. intros x y _ _. unfold stack_of, AP_STACK_SIZE. lia.
  - intros top (k & -> & Hk)%list_elem_of_fmap. apply elem_of_seqZ in Hk. unfold stack_of, AP_STACK_SIZE. lia.
Qed.
End wake.

(** ** Four processors for the witness *)

(** An APIC whose messages are delivered at once, with a log of them; one more
    processor has reported at every look. *)
Record DemoIpi := mkIpi { di_reg : Z -> Z; di_log : list (Z * Z); di_online : Z }.

#[global] Instance demo_ipi_hw : Hardware DemoIpi := {
  port_out8 p v h := h;
  port_in8 p h := (0, h);
  port_out32 p v h := h;
  port_in32 p h := (0, h);
  mmio_store a v h :=
    mkIpi (fun r => if decide (r = a - 0xFEE00000) then v else di_reg h r)
      (if decide (a = 0xFEE00000 + REG_ICR_LOW) then di_log h ++ [(di_reg h REG_ICR_HIGH / 2 ^ 24, v)] else di_log h) (di_online h);
  mmio_load a h := (0, h);
  timer_irqs h := (0, h)
}.

#[global] Program Instance demo_ipi_lapic : Lapic DemoIpi := { lapic_at := 0xFEE00000; lapic_reg := di_reg }.
Next Obligation. lia. Qed.
Next Obligation. intros h off v Ho r. cbn. by replace (0xFEE00000 + off - 0xFEE00000) with off by lia. Qed.
Next Obligation. intros h off Ho. cbn. by unfold fits. Qed.
Next Obligation. done. Qed.

#[global] Program Instance demo_ipi : Ipi DemoIpi := { ipis := di_log; icr_busy h := 0%nat; icr_wait := 0 }.
Next Obligation. done. Qed.
Next Obligation.
  intros h off v Ho. cbn. destruct (decide (off = REG_ICR_LOW)); destruct (decide (_ = 0xFEE00000 + _)); try done; lia.
Qed.
Next Obligation. done. Qed.

#[global] Instance demo_processors : Processors DemoIpi := {
  ap_online h := (di_online h, mkIpi (di_reg h) (di_log h) (di_online h + 1))
}.

Definition demo_smp : Smp DemoIpi := mkSmp (mkIrq (mkIpi (fun _ => 0) [] 0) 0 0xFEE00000 true) (fun _ => 0).

Example smp_init_spec_witness :
  let woken := started_ids 0 [0; 1; 2; 5] in
  let tops := map (stack_of demo_layout) (seqZ 0 (Z.of_nat (length woken))) in
  exists online s', smp_init 1 demo_layout 0x101000 0 [0; 1; 2; 5] demo_smp = Ret ((online, Z.of_nat (length woken)), s') /\
    smp_ipis s' = smp_ipis demo_smp ++ (woken ≫= startup) /\
    0 ∉ woken /\ (length woken <= 8)%nat /\
    sm_mem s' = foldl (fun m top => install_trampoline demo_layout top 0x101000 m) (sm_mem demo_smp) tops /\
    NoDup tops /\
    (forall top, top ∈ tops -> ap_stacks demo_layout + AP_STACK_SIZE <= top <= ap_stacks demo_layout + 8 * AP_STACK_SIZE).
Proof. apply (smp_init_spec 1 demo_layout); [done|cbn; lia|done|done|done]. Defined.
