(* ===== verification/Bringup.v ===== *)
(** * Tasks, interrupts and processors, brought up ([main.rs] 126-138, 184-213)

    What [kernel_main] does between mounting the file systems and the splash
    screen: the PIT and the PICs are programmed, scancodes left over from the
    firmware are thrown away, and when ACPI names a local APIC the timer moves
    there, the PICs are masked and the other processors are started.  The
    pieces are those of [Irq], [Acpi] and [Smp]; here they run in sequence on
    one machine, so the section [board] says which accesses leave which
    controller alone.  Before that, the scheduler is given its first two tasks. *)

From S2P Require Import Prelude Bytes Io Irq Pmm Smp.
From S2P Require Acpi Gdt Task.

(** ** The first tasks *)

Section tasks.
Context {N : Type}.
Notation Scheduler := (@Task.Scheduler N).

(** [heartbeat] is the address of [stable_heartbeat], [stack_ptr] the heap
    allocator's answer for its stack, [next_id] the counter [NEXT_ID], [m]
    kernel memory.
    @src ross-kernel/src/main.rs 127-138 kernel_main *)
Definition tasks_up (heartbeat cr3 stack_ptr next_id : Z) (m : mem) (sched : Scheduler) : Scheduler * Z * mem :=
  let '(main, next_id) := Task.main_task cr3 next_id in
  let sched := Task.set_main main sched in
  let '(t, next_id, m) := Task.Task_new heartbeat 0 cr3 false stack_ptr next_id m in
  (Task.add_task t sched, next_id, m).

(** After the set-up the kernel's own flow and the heartbeat take turns: the
    first tick, at stack pointer [r1], enters the heartbeat with clear
    registers, kernel selectors, interrupts on and the top of its own stack; the
    second, at [r2], goes back to where the first found the kernel, and the
    third to where the second found the heartbeat.  The TSS is not touched and
    all run under the one page table. *)
Theorem tasks_up_spec (heartbeat cr3 stack_ptr : Z) (m : mem) (r1 r2 r3 c1 c2 c3 : Z) (tss : Gdt.Gdt.Tss)
  (He : fits 64 heartbeat) (Hp : 0 <= stack_ptr) (Hp2 : stack_ptr + Task.STACK_SIZE < 2 ^ 64) :
  let '(s, next_id, m') := tasks_up heartbeat cr3 stack_ptr 0 m Task.Scheduler_new in
  let top := stack_ptr + Task.STACK_SIZE in
  Task.sched_ok s /\ Task.ids (Task.all_tasks s) = [0; 1] /\ next_id = 2 /\
  (forall x, x < stack_ptr \/ top <= x -> m' x = m x) /\
  Task.restore_context (top - 160) m' =
    (Task.mkRegs 0 0 0 0 0 0 0 0 0 0 0 0 0 0 0, None,
     Task.mkFrame heartbeat Gdt.Gdt.KERNEL_CODE_SELECTOR 0x202 top Gdt.Gdt.KERNEL_DATA_SELECTOR) /\
  exists s1 s2 s3, Task.pick_next r1 c1 s tss = (Task.mkSwitch (top - 160) cr3, s1, tss) /\
    Task.pick_next r2 c2 s1 tss = (Task.mkSwitch r1 cr3, s2, tss) /\
    Task.pick_next r3 c3 s2 tss = (Task.mkSwitch r2 cr3, s3, tss).
Proof.
  pose proof (@Task.Task_new_ok N heartbeat 0 cr3 false stack_ptr 1 m He ltac:(unfold fits; lia) Hp Hp2) as Hn.
  pose proof (@Task.Task_new_fields N heartbeat 0 cr3 false stack_ptr 1 m) as Hf.
  unfold tasks_up, Task.main_task. change (wrap 64 (0 + 1)) with 1.
  destruct (Task.Task_new heartbeat 0 cr3 false stack_ptr 1 m) as [[t n] m'].
  destruct Hn as (Htop & Hst & _ & Hrsp & Hout & Hctx), Hf as (Hid & Hcr & Hu & Hfd & ->).
  destruct t as [i st ks rs cr state us fd he]. cbn in *. subst.
  split. { constructor; cbn; [by apply Forall_cons_2|intros ? [= <-]; by left]. }
  split; [done|]. split; [done|]. split; [done|]. split; [done|].
  do 3 eexists. split; [done|]. split; done.
Qed.
End tasks.

Section bringup.
Context {H : Type} {HW : Hardware H} {PR : Processors H}.

(** [fuel] bounds the number of scancodes thrown away.
    @src ross-kernel/src/main.rs 189-192 kernel_main *)
Definition drop_scancodes (fuel : nat) : M H unit :=
  spin fuel (
    status ← inb 0x64;
    if Z.land status 0x01 =? 0 then mret true else _ ← inb 0x60; mret false).

(** The final [sti] changes no device; the interrupts it lets in are the
    [timer_irqs] of the hardware.
    @src ross-kernel/src/main.rs 185-195 kernel_main *)
Definition legacy_up (fuel : nat) : M H unit := pit_init;; pic_init;; drop_scancodes fuel.

(** [None]: single-core.  The two log lines are left out.
    @src ross-kernel/src/main.rs 198-213 kernel_main *)
Definition processors_up (fuel : nat) (L : Layout) (root : Z) (map : option (list MemoryRegion)) : M (Smp H) (option (Z * Z)) :=
  s ← get;
  acpi ← lift (Acpi.init (sm_mem s) map);
  match acpi with
  | Some acpi =>
      sm_on (lapic_init fuel (Acpi.lapic_base acpi));;
      sm_on (on_dev pic_disable);;
      online ← smp_init fuel L root (Acpi.bsp_id acpi) (Acpi.ap_ids acpi);
      mret (Some online)
  | None => mret None
  end.

(** @src ross-kernel/src/main.rs 184-213 kernel_main *)
Definition interrupts_up (fuel : nat) (L : Layout) (root : Z) (map : option (list MemoryRegion)) : M (Smp H) (option (Z * Z)) :=
  sm_on (on_dev (legacy_up fuel));; processors_up fuel L root map.
End bringup.

(** ** Computations that keep a property *)

Section keeps.
Context {S : Type}.

(** Whenever [m] returns, [P] holds afterwards as before. *)
Definition keeps (P : S -> Prop) {A} (m : M S A) : Prop := forall s a s', P s -> m s = Ret (a, s') -> P s'.

Lemma keeps_run P {A} (m : M S A) s a s' : keeps P m -> P s -> m s = Ret (a, s') -> P s'.
Proof. intros Hk Hp. by apply Hk. Qed.

Lemma keeps_ret (P : S -> Prop) {A} (a : A) : keeps P (mret a).
Proof. by intros s ? ? Hp [= <- <-]. Qed.

Lemma keeps_lift (P : S -> Prop) {A} (o : outcome A) : keeps P (lift o).
Proof. intros s a s' Hp. unfold lift. destruct o; [by intros [= <- <-]|done..]. Qed.

Lemma keeps_get (P : S -> Prop) : keeps P get.
Proof. by intros s ? ? Hp [= <- <-]. Qed.

Lemma keeps_bind (P : S -> Prop) {A B} (m : M S A) (f : A -> M S B) : keeps P m -> (forall a, keeps P (f a)) -> keeps P (m ≫= f).
Proof.
  intros Hm Hf s b s' Hp. unfold mbind, M_bind. destruct (m s) as [[a s1]| |] eqn:E; [|done..].
  intros Hr. exact (Hf a s1 b s' (Hm s a s1 Hp E) Hr).
Qed.

(** Reading the state is known to give one with [P]. *)
Lemma keeps_get_bind (P : S -> Prop) {B} (f : S -> M S B) : (forall s, P s -> keeps P (f s)) -> keeps P (get ≫= f).
Proof. intros Hf s b s' Hp Hr. exact (Hf s Hp s b s' Hp Hr). Qed.

Lemma keeps_spin (P : S -> Prop) fuel (test : M S bool) : keeps P test -> keeps P (spin fuel test).
Proof.
  intros Ht. induction fuel as [|fuel IH]; [by intros s a s' _|]. cbn [spin]. apply keeps_bind; [done|].
  intros []; [apply keeps_ret|exact IH].
Qed.

Lemma keeps_for_in (P : S -> Prop) lo hi (f : Z -> M S unit) : (forall i, keeps P (f i)) -> keeps P (for_in lo hi f).
Proof.
  intros Hf. unfold for_in. generalize (Z.to_nat (hi - lo)). intros n. revert lo.
  induction n as [|n IH]; intros lo; cbn [for_range]; [apply keeps_ret|]. apply keeps_bind; [apply Hf|]. intros _. apply IH.
Qed.

Lemma keeps_poll (P : S -> Prop) n {A} (test : M S (option A)) : keeps P test -> keeps P (poll n test).
Proof.
  intros Ht. induction n as [n IH|n IH|]; cbn [poll]; [| |exact Ht].
  - apply keeps_bind; [done|]. intros []; [apply keeps_ret|]. apply keeps_bind; [done|]. intros []; [apply keeps_ret|exact IH].
  - apply keeps_bind; [done|]. intros []; [apply keeps_ret|exact IH].
Qed.

End keeps.

Lemma keeps_zoom {S T} (part : S -> T) set_part (Q : T -> Prop) (P : S -> Prop) {A} (m : M T A) :
  (forall s, P s -> Q (part s)) -> (forall t s, P s -> Q t -> P (set_part t s)) -> keeps Q m -> keeps P (zoom part set_part m).
Proof.
  intros Hin Hout Hm s a s' Hp. unfold zoom. destruct (m (part s)) as [[b t]| |] eqn:E; [|done..].
  intros [= <- <-]. apply Hout; [done|]. exact (Hm _ _ _ (Hin s Hp) E).
Qed.

(** Through the sequence; the accesses are left. *)
Ltac keep := repeat lazymatch goal with
  | |- forall _, _ => intro
  | |- keeps _ (_ ≫= _) => apply keeps_bind
  | |- keeps _ (spin _ _) => apply keeps_spin
  | |- keeps _ (poll _ _) => apply keeps_poll
  | |- keeps _ (for_in _ _ _) => apply keeps_for_in
  | |- keeps _ (mret _) => apply keeps_ret
  | |- keeps _ (lift _) => apply keeps_lift
  | |- keeps _ get => apply keeps_get
  | |- keeps _ (match _ with _ => _ end) => case_match
  | |- keeps _ _ => solve [eauto]
  end.

(** ** One machine *)

(** What the PICs are programmed to: all but the interrupts in service. *)
Definition settings (c : Chip) : option Z * Z * Z * Z * Z := (ch_expect c, ch_vector c, ch_cascade c, ch_mode c, ch_mask c).

Definition pic_settings {H} {HW : Hardware H} {P : Pics H} (h : H) := (settings (pic1 h), settings (pic2 h)).

(** The PICs are reached by ports only and the local APIC by memory only;
    looking at a device, taking the interrupts that are due and waiting for the
    other processors programs neither of them. *)
Class Board (H : Type) {HW : Hardware H} {P : Pics H} {LA : Lapic H} {IP : Ipi H} {PR : Processors H} := {
  pics_quiet h :
    (forall a v, pic_settings (mmio_store a v h) = pic_settings h) /\ (forall a, pic_settings (mmio_load a h).2 = pic_settings h) /\
    (forall p, pic_settings (port_in8 p h).2 = pic_settings h) /\
    pic_settings (timer_irqs h).2 = pic_settings h /\ pic_settings (ap_online h).2 = pic_settings h;
  apic_quiet h :
    (forall p v r, lapic_reg (port_out8 p v h) r = lapic_reg h r) /\ (forall r, lapic_reg (ap_online h).2 r = lapic_reg h r);
  ipi_quiet h :
    (forall p v, ipis (port_out8 p v h) = ipis h) /\ (forall p, ipis (port_in8 p h).2 = ipis h) /\
    (forall a, ipis (mmio_load a h).2 = ipis h) /\ ipis (timer_irqs h).2 = ipis h /\ ipis (ap_online h).2 = ipis h
}.

(** The keyboard controller: bit 0 of the status says that a scancode waits at
    port 0x60.  Of these there are at most [ps2_room] until the loop has caught
    up with the keyboard. *)
Class Ps2 (H : Type) {HW : Hardware H} := {
  ps2_left : H -> nat;
  ps2_room : nat;
  ps2_bound h : (ps2_left h <= ps2_room)%nat;
  ps2_status h : let '(v, h') := port_in8 0x64 h in Z.odd v = negb (bool_decide (ps2_left h = 0%nat)) /\ ps2_left h' = ps2_left h;
  ps2_data h : ps2_left h <> 0%nat -> (ps2_left (port_in8 0x60 h).2 < ps2_left h)%nat
}.

Section board.
Context {H : Type} {HW : Hardware H} {P : Pics H} {LA : Lapic H} {CK : Clock H} {IP : Ipi H} {PR : Processors H}.
Context {BO : Board H} {PS : Ps2 H}.

Lemma settings_eq (h h' : H) irq :
  pic_settings h' = pic_settings h ->
  vector_of (pic1 h') (pic2 h') irq = vector_of (pic1 h) (pic2 h) irq /\ masked (pic1 h') (pic2 h') irq = masked (pic1 h) (pic2 h) irq.
Proof.
  unfold pic_settings, settings, vector_of, masked. intros E. injection E as _ -> _ _ -> _ -> _ _ ->. done.
Qed.

(** *** The legacy devices *)

Lemma keeps_outb (Q : H -> Prop) p v : (forall h, Q h -> Q (port_out8 p v h)) -> keeps Q (outb p v).
Proof. by intros Hq h a h' Hh [= <- <-]; apply Hq. Qed.

Lemma keeps_inb (Q : H -> Prop) p : (forall h, Q h -> Q (port_in8 p h).2) -> keeps Q (inb p).
Proof.
  intros Hq h a h' Hh. unfold inb. specialize (Hq h Hh). destruct (port_in8 p h) as [v h1]. by intros [= <- <-].
Qed.

Lemma legacy_ipis fuel l : keeps (fun h => ipis h = l) (legacy_up fuel).
Proof.
  assert (forall p v, keeps (fun h => ipis h = l) (outb p v)) as Ho.
  { intros p v. apply keeps_outb. intros h <-. apply (ipi_quiet h). }
  assert (forall p, keeps (fun h => ipis h = l) (inb p)) as Hi.
  { intros p. apply keeps_inb. intros h <-. apply (ipi_quiet h). }
  unfold legacy_up, pit_init, pic_init, io_wait, drop_scancodes. keep.
Qed.

Lemma drop_run fuel (h : H) :
  (ps2_room < fuel)%nat ->
  exists h', drop_scancodes fuel h = Ret (tt, h') /\ ps2_left h' = 0%nat /\ pic_settings h' = pic_settings h.
Proof.
  intros Hf. apply (spin_ok (fun k t => ps2_left t = k /\ pic_settings t = pic_settings h)
    (fun t => ps2_left t = 0%nat /\ pic_settings t = pic_settings h)) with (k := ps2_left h);
    [|done|pose proof (ps2_bound h); lia].
  intros k t [Hk Hs]. pose proof (ps2_status t) as Hst. pose proof (pics_quiet t) as (_ & _ & Hq & _).
  specialize (Hq 0x64). destruct (port_in8 0x64 t) as [v h1] eqn:Ein. destruct Hst as [Ho El]. cbn [snd] in Hq.
  erewrite run_bind by (unfold inb; by rewrite Ein).
  rewrite (land_mask v 1 1), Zmod_odd, Ho by done. case_bool_decide as E; cbn [negb].
  - exists true, h1. split; [done|]. split; [lia|congruence].
  - pose proof (ps2_data h1) as Hd. pose proof (pics_quiet h1) as (_ & _ & Hq1 & _). specialize (Hq1 0x60).
    destruct (port_in8 0x60 h1) as [w h2] eqn:Ein2. exists false, h2. split; [cbn; erewrite run_bind; [done|unfold inb; by rewrite Ein2]|].
    cbn [snd] in *. exists (ps2_left h2). split; [lia|]. split; [done|congruence].
Qed.

Lemma legacy_run fuel (h : H) :
  (ps2_room < fuel)%nat ->
  exists h', legacy_up fuel h = Ret (tt, h') /\ ps2_left h' = 0%nat /\
    ch_expect (pic1 h') = None /\ ch_expect (pic2 h') = None /\
    forall irq, 0 <= irq < 16 ->
      vector_of (pic1 h') (pic2 h') irq = 32 + irq /\ masked (pic1 h') (pic2 h') irq = negb ((irq =? 0) || (irq =? 1)).
Proof.
  intros Hf. assert (exists h1, pit_init h = Ret (tt, h1)) as [h1 R1] by (by eexists).
  destruct (pic_protocol h1) as ((h2 & R2 & E1 & E2 & _ & _ & _ & _ & Hv) & _).
  destruct (drop_run fuel h2 Hf) as (h3 & R3 & Hl & Hs).
  exists h3. unfold legacy_up. rewrite (run_bind _ _ _ _ _ R1), (run_bind _ _ _ _ _ R2). split; [done|]. split; [done|].
  pose proof Hs as Hs'. unfold pic_settings, settings in Hs'. injection Hs' as -> _ _ _ _ -> _ _ _ _.
  split; [done|]. split; [done|]. intros irq Hirq. destruct (settings_eq h2 h3 irq Hs) as [-> ->]. by apply Hv.
Qed.
(** *** The local APIC *)

Definition at_apic (Q : H -> bool -> Prop) (s : Irq H) : Prop := LAPIC_BASE s = lapic_at /\ Q (irq_hw s) (LAPIC_ENABLED s).

Lemma keeps_dev (Q : H -> bool -> Prop) {X} (m : M H X) : (forall e, keeps (fun h => Q h e) m) -> keeps (at_apic Q) (on_dev m).
Proof.
  intros Hm s a s' [Hb Hq]. unfold on_dev, zoom. destruct (m (irq_hw s)) as [[b h]| |] eqn:E; [|done..].
  intros [= <- <-]. split; [done|]. exact (Hm _ _ _ _ Hq E).
Qed.

Lemma keeps_write (Q : H -> bool -> Prop) off v :
  0 <= off < 0x400 -> (forall h e, Q h e -> Q (mmio_store (lapic_at + off) v h) e) -> keeps (at_apic Q) (lapic_write off v).
Proof.
  intros Ho Hq s a s' [Hb Hs]. pose proof lapic_at_range. unfold lapic_write. erewrite run_bind by done. rewrite Hb. unfold cadd.
  rewrite (proj2 (Z.ltb_lt _ _)) by lia. erewrite run_bind by done. intros [= <- <-]. split; [done|]. by apply Hq.
Qed.

Lemma keeps_read (Q : H -> bool -> Prop) off :
  0 <= off < 0x400 -> (forall h e, Q h e -> Q (mmio_load (lapic_at + off) h).2 e) -> keeps (at_apic Q) (lapic_read off).
Proof.
  intros Ho Hq s a s' [Hb Hs]. pose proof lapic_at_range. unfold lapic_read. erewrite run_bind by done. rewrite Hb. unfold cadd.
  rewrite (proj2 (Z.ltb_lt _ _)) by lia. erewrite run_bind by done. unfold on_dev, zoom, read_volatile.
  specialize (Hq _ _ Hs). destruct (mmio_load (lapic_at + off) (irq_hw s)) as [w h]. intros [= <- <-]. by split.
Qed.

Lemma keeps_ticks (Q : H -> bool -> Prop) : (forall h e, Q h e -> Q (timer_irqs h).2 e) -> keeps (at_apic Q) ticks.
Proof.
  intros Hq s a s' [Hb Hs]. unfold ticks. specialize (Hq _ _ Hs). destruct (timer_irqs (irq_hw s)) as [k h].
  intros [= <- <-]. by split.
Qed.

(** What setting the local APIC up does to the hardware. *)
Lemma keeps_lapic_init (Q : H -> bool -> Prop) fuel (s s' : Irq H) :
  (forall off v, 0 <= off < 0x400 -> off <> REG_ICR_LOW -> keeps (at_apic Q) (lapic_write off v)) ->
  keeps (at_apic Q) ticks -> keeps (at_apic Q) (lapic_read REG_TIMER_CURR) -> keeps (at_apic Q) set_lapic_enabled ->
  Q (irq_hw s) (LAPIC_ENABLED s) -> lapic_init fuel lapic_at s = Ret (tt, s') -> at_apic Q s'.
Proof.
  intros Hw Ht Hr He Hq R. unfold lapic_init in R. unfold set_lapic_base in R. erewrite run_bind in R by done.
  refine (keeps_run (at_apic Q) _ _ _ _ _ _ R); [|by split].
  keep; apply Hw; by vm_compute.
Qed.

(** Calibrating the timer programs no PIC and sends no message. *)
Lemma lapic_init_quiet fuel c l (s s' : Irq H) :
  pic_settings (irq_hw s) = c -> ipis (irq_hw s) = l -> lapic_init fuel lapic_at s = Ret (tt, s') ->
  pic_settings (irq_hw s') = c /\ ipis (irq_hw s') = l.
Proof.
  intros Hc Hl R. eapply (keeps_lapic_init (fun h _ => pic_settings h = c /\ ipis h = l) fuel s); [| | | |done|done].
  - intros off v Ho Hne. apply keeps_write; [done|]. intros h e [<- <-]. split; [apply (pics_quiet h)|].
    rewrite ipi_store by done. by apply decide_False.
  - apply keeps_ticks. intros h e [<- <-]. split; [apply (pics_quiet h)|apply (ipi_quiet h)].
  - apply keeps_read; [by vm_compute|]. intros h e [<- <-]. split; [apply (pics_quiet h)|apply (ipi_quiet h)].
  - by intros t a t' Hq [= <- <-].
Qed.
(** Masking leaves the local APIC and its messages alone. *)
Lemma disable_run (h : H) :
  ch_expect (pic1 h) = None -> ch_expect (pic2 h) = None ->
  exists h', pic_disable h = Ret (tt, h') /\ (forall irq, 0 <= irq < 16 -> masked (pic1 h') (pic2 h') irq = true) /\
    (forall r, lapic_reg h' r = lapic_reg h r) /\ ipis h' = ipis h.
Proof.
  intros E1 E2. destruct (pic_protocol h) as (_ & _ & Hd). destruct (Hd E1 E2) as (h' & R & Hm). exists h'.
  split; [done|]. split; [done|].
  refine (keeps_run (fun t => (forall r, lapic_reg t r = lapic_reg h r) /\ ipis t = ipis h) _ h tt h' _ _ R); [|done].
  assert (forall p v, keeps (fun t => (forall r, lapic_reg t r = lapic_reg h r) /\ ipis t = ipis h) (outb p v)) as Ho.
  { intros p v. apply keeps_outb. intros t [Hr Hi]. split; [intros r; rewrite <- Hr; apply (apic_quiet t)|].
    rewrite <- Hi. apply (ipi_quiet t). }
  unfold pic_disable. keep.
Qed.

(** What starting the processors does to the hardware: writes of the message
    registers of the local APIC, reads of the lower one, looks at the counter. *)
Lemma keeps_smp_init (Q : H -> bool -> Prop) fuel L root bsp aps :
  (forall off v, off = REG_ICR_LOW \/ off = REG_ICR_HIGH -> keeps (at_apic Q) (lapic_write off v)) ->
  keeps (at_apic Q) (lapic_read REG_ICR_LOW) -> (forall e, keeps (fun h => Q h e) (fun h => Ret (ap_online h))) ->
  keeps (fun t : Smp H => at_apic Q (sm_irq t)) (smp_init fuel L root bsp aps).
Proof.
  intros Hw Hread Hlook. set (B := fun t : Smp H => at_apic Q (sm_irq t)).
  assert (forall X (m : M (Irq H) X), keeps (at_apic Q) m -> keeps B (sm_on m)) as Hon by (intros X m Hm; by apply keeps_zoom with (Q := at_apic Q)).
  assert (forall v, keeps (at_apic Q) (lapic_write REG_ICR_LOW v)) as Hlow by (intros v; apply Hw; by left).
  assert (forall v, keeps (at_apic Q) (lapic_write REG_ICR_HIGH v)) as Hhigh by (intros v; apply Hw; by right).
  assert (keeps B (sm_on (on_dev (fun h => Ret (ap_online h))))) as Hon_line by (apply Hon, keeps_dev; exact Hlook).
  assert (keeps (at_apic Q) (wait_icr_idle fuel)) as Hwait by (unfold wait_icr_idle; keep).
  assert (forall us, keeps B (spin_us us)) as Hspin by (intros us; unfold spin_us; keep).
  assert (forall f, keeps B (fun t => Ret (tt, mkSmp (sm_irq t) (f t)))) as Hmem by (intros f t a t' Ht [= <- <-]; exact Ht).
  assert (forall n a, keeps B (wake fuel L root n a)) as Hwake.
  { intros n a. unfold wake. apply keeps_bind; [keep|]. intros top. apply keeps_bind; [apply Hmem|]. intros _.
    repeat (apply keeps_bind; [first [apply Hspin|apply Hon; unfold send_init, send_sipi; keep]|intros _]). apply Hspin. }
  assert (forall l n, keeps B (wake_all fuel L root bsp l n)) as Hall.
  { intros l. induction l as [|i l IH]; intros n; cbn [wake_all]; keep. }
  unfold smp_init. keep.
Qed.

(** Starting the processors writes the message register of the local APIC and
    no other, and programs no PIC. *)
Lemma smp_init_quiet fuel L root bsp aps (s : Smp H) r s' :
  LAPIC_BASE (sm_irq s) = lapic_at -> smp_init fuel L root bsp aps s = Ret (r, s') ->
  pic_settings (irq_hw (sm_irq s')) = pic_settings (irq_hw (sm_irq s)) /\
  LAPIC_ENABLED (sm_irq s') = LAPIC_ENABLED (sm_irq s) /\
  forall r, r <> REG_ICR_LOW -> r <> REG_ICR_HIGH -> lapic_reg (irq_hw (sm_irq s')) r = lapic_reg (irq_hw (sm_irq s)) r.
Proof.
  intros Hb R. set (h0 := irq_hw (sm_irq s)).
  set (Q := fun (h : H) (e : bool) => pic_settings h = pic_settings h0 /\ e = LAPIC_ENABLED (sm_irq s) /\
    forall r, r <> REG_ICR_LOW -> r <> REG_ICR_HIGH -> lapic_reg h r = lapic_reg h0 r).
  refine (proj2 (keeps_run (fun t : Smp H => at_apic Q (sm_irq t)) _ s r s' _ _ R)); [|by split].
  apply keeps_smp_init.
  - intros off v Hne. apply keeps_write; [destruct Hne as [-> | ->]; by vm_compute|]. intros h e (Hs & He & Hr). split; [|split; [done|]].
    + rewrite <- Hs. apply (pics_quiet h).
    + intros i H1 H2. rewrite lapic_store by (destruct Hne as [-> | ->]; by vm_compute).
      rewrite decide_False by naive_solver. by apply Hr.
  - apply keeps_read; [by vm_compute|]. intros h e (Hs & He & Hr). split; [rewrite <- Hs; apply (pics_quiet h)|split; [done|]].
    intros i H1 H2. rewrite <- Hr by done. pose proof (lapic_load h REG_ICR_LOW ltac:(by vm_compute)) as Hl.
    destruct (mmio_load _ h) as [v h']. apply Hl.
  - intros e h n h' (Hs & He & Hr). pose proof (pics_quiet h) as (_ & _ & _ & _ & Hp).
    pose proof (apic_quiet h) as [_ Ha]. destruct (ap_online h) as [v h1]. cbn [snd] in *. intros [= <- <-].
    split; [congruence|]. split; [done|]. intros i H1 H2. rewrite Ha. by apply Hr.
Qed.

(** A property of the hardware that the accesses to ports, to the local APIC
    and to the counter of processors keep survives the whole bring-up. *)
Section bystander.
Context (G : H -> Prop).
Context (Hout : forall p v h, G h -> G (port_out8 p v h)) (Hin : forall p h, G h -> G (port_in8 p h).2).
Context (Hstore : forall off v h, 0 <= off < 0x400 -> G h -> G (mmio_store (lapic_at + off) v h)).
Context (Hload : forall off h, 0 <= off < 0x400 -> G h -> G (mmio_load (lapic_at + off) h).2).
Context (Htime : forall h, G h -> G (timer_irqs h).2) (Honline : forall h, G h -> G (ap_online h).2).

Lemma keeps_interrupts fuel L root map (s s' : Smp H) r :
  (forall i, Acpi.init (sm_mem s) map = Ret (Some i) -> Acpi.lapic_base i = lapic_at) ->
  G (irq_hw (sm_irq s)) -> interrupts_up fuel L root map s = Ret (r, s') -> G (irq_hw (sm_irq s')).
Proof.
  assert (forall p v, keeps G (outb p v)) as Ho by (intros p v; by apply keeps_outb, Hout).
  assert (forall p, keeps G (inb p)) as Hi by (intros p; by apply keeps_inb, Hin).
  assert (keeps G (legacy_up fuel)) as Hlegacy by (unfold legacy_up, pit_init, pic_init, io_wait, drop_scancodes; keep).
  assert (keeps G pic_disable) as Hdisable by (unfold pic_disable; keep).
  set (Q := fun (h : H) (_ : bool) => G h).
  assert (forall off v, 0 <= off < 0x400 -> keeps (at_apic Q) (lapic_write off v)) as Hw.
  { intros off v Hoff. apply keeps_write; [done|]. intros h e. by apply Hstore. }
  assert (forall off, 0 <= off < 0x400 -> keeps (at_apic Q) (lapic_read off)) as Hr.
  { intros off Hoff. apply keeps_read; [done|]. intros h e. by apply Hload. }
  intros Hacpi Hg R. unfold interrupts_up in R. apply run_bind_inv in R as (u1 & s1 & R1 & R).
  assert (G (irq_hw (sm_irq s1)) /\ sm_mem s1 = sm_mem s) as [Hg1 Em].
  { unfold sm_on, on_dev, zoom in R1. destruct (legacy_up fuel _) as [[b h]| |] eqn:E; try done. injection R1 as <- <-.
    split; [exact (Hlegacy _ _ _ Hg E)|done]. }
  unfold processors_up in R. apply run_bind_inv in R as (s1' & ? & [= <- <-] & R). apply run_bind_inv in R as (acpi & s2 & R2 & R).
  unfold lift in R2. rewrite Em in R2. destruct (Acpi.init (sm_mem s) map) as [a| |] eqn:Ea; try done. injection R2 as <- <-.
  destruct a as [i|]; [|by injection R as _ <-]. rewrite (Hacpi i eq_refl) in R.
  apply run_bind_inv in R as (u3 & s3 & R3 & R). apply run_bind_inv in R as (u4 & s4 & R4 & R).
  assert (at_apic Q (sm_irq s3)) as Hs3.
  { unfold sm_on, zoom in R3. destruct (lapic_init fuel lapic_at (sm_irq s1)) as [[[] i3]| |] eqn:E; try done. injection R3 as <- <-.
    apply (keeps_lapic_init Q fuel (sm_irq s1)); try done; [by intros off v Ho' _; apply Hw|by apply keeps_ticks; intros h e; apply Htime|
      by apply Hr; vm_compute|by intros t b t' Hq [= <- <-]]. }
  assert (at_apic Q (sm_irq s4)) as Hs4.
  { refine (keeps_zoom sm_irq _ (at_apic Q) (fun t => at_apic Q (sm_irq t)) (on_dev pic_disable) _ _ _ s3 u4 s4 Hs3 R4);
      [done|done|by apply keeps_dev; intros e]. }
  apply run_bind_inv in R as (online & s5 & R5 & [= _ <-]).
  refine (proj2 (keeps_run (fun t : Smp H => at_apic Q (sm_irq t)) _ s4 online s5 _ Hs4 R5)).
  apply keeps_smp_init; [|by apply Hr; vm_compute|].
  - intros off v Hoff. apply Hw. destruct Hoff as [-> | ->]; by vm_compute.
  - intros e h n h' Hh [= E]. by rewrite <- (f_equal snd E : _ = h'); apply Honline.
Qed.
End bystander.

(** The machine as [kernel_main] leaves it for the interactive phase.
    Without ACPI the PICs deliver IRQ n on vector 32 + n and of these the timer
    and the keyboard only, and nothing else changed.  With ACPI every line of
    the PICs is masked, the keyboard's too; the local APIC is enabled and its
    timer interrupts periodically on vector 32, at the rate counted against the
    PIT; and every other processor of the MADT, up to eight, was sent INIT and
    two start-up messages for the page at 0x8000, with a stack of its own.  In
    both cases no scancode of the time before is left in the controller, and
    all loops end. *)
Theorem bring_up_spec (fuel : nat) (L : Layout) (root : Z) (map : option (list MemoryRegion)) (acpi : option Acpi.AcpiInfo) (s : Smp H)
  (Hacpi : Acpi.init (sm_mem s) map = Ret acpi) (Hat : forall i, acpi = Some i -> Acpi.lapic_base i = lapic_at)
  (Ht : 0 <= TICKS (sm_irq s) < 2 ^ 61)
  (Hfuel : (ps2_room < fuel)%nat /\ (tick_wait < fuel)%nat /\ (icr_wait < fuel)%nat)
  (Hlo : 0 <= ap_stacks L) (Hhi : ap_stacks L + 8 * AP_STACK_SIZE < 2 ^ 64) :
  exists h1, legacy_up fuel (irq_hw (sm_irq s)) = Ret (tt, h1) /\ ps2_left h1 = 0%nat /\
  exists online s', interrupts_up fuel L root map s = Ret (online, s') /\
    let hw := irq_hw (sm_irq s') in
    match acpi with
    | None => online = None /\ sm_mem s' = sm_mem s /\ smp_ipis s' = smp_ipis s /\ LAPIC_ENABLED (sm_irq s') = LAPIC_ENABLED (sm_irq s) /\
        forall irq, 0 <= irq < 16 ->
          vector_of (pic1 hw) (pic2 hw) irq = 32 + irq /\ masked (pic1 hw) (pic2 hw) irq = negb ((irq =? 0) || (irq =? 1))
    | Some i =>
        let woken := started_ids (Acpi.bsp_id i) (Acpi.ap_ids i) in
        let tops := List.map (stack_of L) (seqZ 0 (Z.of_nat (length woken))) in
        (exists up, online = Some (up, Z.of_nat (length woken))) /\
        (forall irq, 0 <= irq < 16 -> masked (pic1 hw) (pic2 hw) irq = true) /\
        LAPIC_ENABLED (sm_irq s') = true /\ lapic_reg hw REG_SPURIOUS = 0x1FF /\
        lapic_reg hw REG_LVT_TIMER = Z.lor (Z.shiftl 1 17) 32 /\
        (exists curr elapsed, fits 32 curr /\ 1 <= elapsed < 2 ^ 32 /\ lapic_reg hw REG_TIMER_INIT = (2 ^ 32 - 1 - curr) / elapsed) /\
        smp_ipis s' = smp_ipis s ++ (woken ≫= startup) /\
        Acpi.bsp_id i ∉ woken /\ (length woken <= 8)%nat /\
        sm_mem s' = foldl (fun m top => install_trampoline L top root m) (sm_mem s) tops /\
        NoDup tops /\ (forall top, top ∈ tops -> ap_stacks L + AP_STACK_SIZE <= top <= ap_stacks L + 8 * AP_STACK_SIZE)
    end.
Proof.
  destruct Hfuel as (Hf1 & Hf2 & Hf3). destruct s as [i m]. cbn [sm_irq sm_mem] in *.
  destruct (legacy_run fuel (irq_hw i) Hf1) as (h1 & R1 & Hl & E1 & E2 & Hv). exists h1. split; [done|]. split; [done|].
  pose proof (legacy_ipis fuel (ipis (irq_hw i)) (irq_hw i) tt h1 eq_refl R1) as Hi1. set (i1 := set_irq_hw h1 i).
  assert (interrupts_up fuel L root map (mkSmp i m) = processors_up fuel L root map (mkSmp i1 m)) as ->.
  { unfold interrupts_up. erewrite run_bind by (apply run_zoom, run_zoom; exact R1). done. }
  unfold processors_up. erewrite run_bind by done. cbn [sm_mem]. erewrite run_bind by (unfold lift; by rewrite Hacpi).
  destruct acpi as [info|]; [|by exists None, (mkSmp i1 m)].
  rewrite (Hat info eq_refl).
  destruct (lapic_init_spec fuel i1 Ht Hf2) as (i2 & curr & elapsed & R2 & He2 & Hb2 & Hc & Hel & Hsp & Hlvt & _ & Hinit).
  destruct (lapic_init_quiet fuel _ _ _ _ eq_refl eq_refl R2) as [Hs2 Hi2].
  erewrite run_bind by (apply run_zoom; exact R2). cbn [sm_mem].
  unfold i1 in Hs2, Hi2. cbn [irq_hw set_irq_hw] in Hs2, Hi2.
  assert (ch_expect (pic1 (irq_hw i2)) = None /\ ch_expect (pic2 (irq_hw i2)) = None) as [E1' E2'].
  { pose proof Hs2 as Hs'. unfold pic_settings, settings in Hs'. injection Hs' as -> _ _ _ _ -> _ _ _ _. done. }
  destruct (disable_run (irq_hw i2) E1' E2') as (h3 & R3 & Hm3 & Hr3 & Hi3).
  erewrite run_bind by (apply run_zoom, run_zoom; exact R3).
  set (s3 := mkSmp _ _). assert (LAPIC_BASE (sm_irq s3) = lapic_at) as Hb3 by exact Hb2.
  destruct (smp_init_spec fuel L root (Acpi.bsp_id info) (Acpi.ap_ids info) s3 Hb3 Hf3 Hlo Hhi) as (up & s4 & R4 & Hi4 & Hrest).
  { intros h. apply (ipi_quiet h). }
  destruct (smp_init_quiet _ _ _ _ _ _ _ _ Hb3 R4) as (Hs4 & He4 & Hr4).
  rewrite (run_bind _ _ _ _ _ R4). exists (Some (up, Z.of_nat (length (started_ids (Acpi.bsp_id info) (Acpi.ap_ids info))))), s4.
  split; [done|]. cbv zeta. split; [by eexists|]. split.
  { intros irq Hirq. destruct (settings_eq _ _ irq Hs4) as [_ ->]. by apply Hm3. }
  split; [by rewrite He4|]. rewrite !Hr4 by done. cbn [s3 sm_irq irq_hw set_irq_hw]. rewrite !Hr3.
  split; [done|]. split; [done|]. split; [by exists curr, elapsed|]. split.
  { rewrite Hi4. f_equal. unfold smp_ipis. cbn. by rewrite Hi3, Hi2, Hi1. }
  exact Hrest.
Qed.
End board.

(** ** A machine with two processors, for the witness *)

(** PICs as the firmware left them, an APIC at the usual address whose timer
    reads 0xFFFF0000, an interrupt at every third look, two scancodes waiting,
    a processor more at every look. *)
Record DemoBoard := mkBoard {
  db_1 : Chip; db_2 : Chip;
  db_reg : Z -> Z; db_log : list (Z * Z); db_wait : nat;
  db_keys : list Z; db_online : Z
}.

Definition db_chips (c1 c2 : Chip) (h : DemoBoard) : DemoBoard := mkBoard c1 c2 (db_reg h) (db_log h) (db_wait h) (db_keys h) (db_online h).
Definition db_apic (reg : Z -> Z) (log : list (Z * Z)) (h : DemoBoard) : DemoBoard :=
  mkBoard (db_1 h) (db_2 h) reg log (db_wait h) (db_keys h) (db_online h).
Definition db_env (wait : nat) (keys : list Z) (online : Z) (h : DemoBoard) : DemoBoard :=
  mkBoard (db_1 h) (db_2 h) (db_reg h) (db_log h) wait keys online.

#[global] Instance demo_board_hw : Hardware DemoBoard := {
  port_out8 p v h :=
    db_chips (if p =? 0x20 then chip_command v (db_1 h) else if p =? 0x21 then chip_data v (db_1 h) else db_1 h)
             (if p =? 0xA0 then chip_command v (db_2 h) else if p =? 0xA1 then chip_data v (db_2 h) else db_2 h) h;
  port_in8 p h :=
    if p =? 0x64 then (match db_keys h with [] => 0x14 | _ => 0x15 end, h)
    else if p =? 0x60 then (hd 0 (db_keys h), db_env (db_wait h) (tail (take 16 (db_keys h))) (db_online h) h)
    else (0, h);
  port_out32 p v h := h;
  port_in32 p h := (0, h);
  mmio_store a v h :=
    db_apic (fun r => if decide (r = a - 0xFEE00000) then v else db_reg h r)
      (if decide (a = 0xFEE00000 + REG_ICR_LOW) then db_log h ++ [(db_reg h REG_ICR_HIGH / 2 ^ 24, v)] else db_log h) h;
  mmio_load a h := (if a =? 0xFEE00000 + REG_TIMER_CURR then 0xFFFF0000 else 0, h);
  timer_irqs h :=
    match (db_wait h `min` 2)%nat with
    | O => (1, db_env 2 (db_keys h) (db_online h) h)
    | S k => (0, db_env k (db_keys h) (db_online h) h)
    end
}.

#[global] Program Instance demo_board_pics : Pics DemoBoard := { pic1 := db_1; pic2 := db_2 }.
Next Obligation. done. Qed.

#[global] Program Instance demo_board_lapic : Lapic DemoBoard := { lapic_at := 0xFEE00000; lapic_reg := db_reg }.
Next Obligation. lia. Qed.
Next Obligation. intros h off v Ho r. cbn. by replace (0xFEE00000 + off - 0xFEE00000) with off by lia. Qed.
Next Obligation. intros h off Ho. cbn. split; [|done]. unfold fits. case_match; lia. Qed.
Next Obligation. intros h r. cbn -[Nat.min]. by destruct (db_wait h `min` 2)%nat. Qed.

#[global] Program Instance demo_board_clock : Clock DemoBoard := { tick_wait := 2; patience h := (db_wait h `min` 2)%nat }.
Next Obligation. intros h. cbn -[Nat.min]. lia. Qed.
Next Obligation. intros h. cbn -[Nat.min]. destruct (db_wait h `min` 2)%nat as [|k] eqn:E; cbn -[Nat.min]; lia. Qed.

#[global] Program Instance demo_board_ipi : Ipi DemoBoard := { ipis := db_log; icr_busy h := 0%nat; icr_wait := 0 }.
Next Obligation. done. Qed.
Next Obligation.
  intros h off v Ho. cbn. destruct (decide (off = REG_ICR_LOW)); destruct (decide (_ = 0xFEE00000 + _)); try done; lia.
Qed.
Next Obligation. done. Qed.

#[global] Instance demo_board_aps : Processors DemoBoard := {
  ap_online h := (db_online h, db_env (db_wait h) (db_keys h) (db_online h + 1) h)
}.

#[global] Program Instance demo_board : Board DemoBoard.
Next Obligation.
  intros h. split_and!; try done; cbn -[Nat.min]; intros; repeat case_match; done.
Qed.
Next Obligation. done. Qed.
Next Obligation.
  intros h. split_and!; try done; cbn -[Nat.min]; intros; repeat case_match; done.
Qed.

(** A keyboard with a buffer of sixteen. *)
#[global] Program Instance demo_board_ps2 : Ps2 DemoBoard := { ps2_left h := (length (db_keys h) `min` 16)%nat; ps2_room := 16 }.
Next Obligation. intros h. cbn -[Nat.min]. lia. Qed.
Next Obligation. intros h. cbn -[Nat.min]. destruct (db_keys h); done. Qed.
Next Obligation.
  intros h Hne. cbn -[Nat.min firstn] in *. destruct (db_keys h) as [|k l]; [done|]. cbn -[Nat.min] in *.
  rewrite length_take. lia.
Qed.

Definition demo_mem : mem := Acpi.demo_acpi.

Definition reset_board : DemoBoard := mkBoard (mkChip None 8 0 0 0 [0]) (mkChip None 0x70 0 0 0 []) (fun _ => 0) [] 0 [0x1C; 0x9C] 0.
Definition demo_machine : Smp DemoBoard := mkSmp (mkIrq reset_board 0 0 false) demo_mem.
Definition demo_info : Acpi.AcpiInfo := Acpi.mkAcpi 0xFEE00000 [0; 3] 0.

Example bring_up_spec_witness :
  Acpi.init demo_mem None = Ret (Some demo_info) /\
  exists online s', interrupts_up 20 demo_layout 0x101000 None demo_machine = Ret (online, s') /\
    (exists up, online = Some (up, 1)) /\
    (forall irq, 0 <= irq < 16 -> masked (pic1 (irq_hw (sm_irq s'))) (pic2 (irq_hw (sm_irq s'))) irq = true) /\
    smp_ipis s' = startup 3.
Proof.
  assert (Acpi.init demo_mem None = Ret (Some demo_info)) as Ha by (vm_compute; reflexivity). split; [exact Ha|].
  destruct (bring_up_spec 20 demo_layout 0x101000 None (Some demo_info) demo_machine Ha) as (h1 & _ & _ & online & s' & R & Hup & Hm & _ & _ & _ & _ & Hi & _).
  - intros i [= <-]. reflexivity.
  - cbn. lia.
  - cbn. lia.
  - cbn. lia.
  - cbn. unfold AP_STACK_SIZE. lia.
  - exists online, s'. split; [exact R|]. split; [exact Hup|]. split; [exact Hm|exact Hi].
Defined.

