(* ===== verification/Entry.v ===== *)
(** * The way into the kernel and back ([ross-kernel/src/syscall.rs]: [msr],
      [init], [syscall_handler_stub]; the [syscall] functions of [ross-user])

    The model-specific registers [init] sets up, what the [syscall] and
    [sysretq] instructions do with them, and the assembly stub, interpreted
    instruction by instruction: its pushes and pops go through the user's own
    stack, which the stub keeps using.  The frames the compiled
    [syscall_dispatch] puts below the return address are not modelled; the
    values it leaves in the registers its calling convention lets it change are
    the parameter [clob]. *)

From Stdlib Require Import String.
From S2P Require Import Prelude Bytes Frames Pmm Paging Spaces Str Vfs Elf Io Syscall Process.
From S2P Require Kbuf Ipc Fd Gdt Task.

(** ** Model-specific registers *)

(** @src ross-kernel/src/syscall.rs 4-4 EFER_MSR *)
Definition EFER_MSR : Z := 0xC0000080.
(** @src ross-kernel/src/syscall.rs 5-5 STAR_MSR *)
Definition STAR_MSR : Z := 0xC0000081.
(** @src ross-kernel/src/syscall.rs 6-6 LSTAR_MSR *)
Definition LSTAR_MSR : Z := 0xC0000082.
(** @src ross-kernel/src/syscall.rs 7-7 SFMASK_MSR *)
Definition SFMASK_MSR : Z := 0xC0000084.

Definition Msrs : Type := Z -> Z.

(** [wrmsr] and [rdmsr], which work on the halves EDX:EAX. *)
Definition wrmsr (ecx eax edx : Z) (ms : Msrs) : Msrs :=
  fun n => if n =? ecx then Z.lor (Z.shiftl edx 32) eax else ms n.
Definition rdmsr (ecx : Z) (ms : Msrs) : Z * Z := (ms ecx mod 2 ^ 32, ms ecx / 2 ^ 32).

(** @src ross-kernel/src/syscall.rs 10-14 msr::write_msr *)
Definition write_msr (msr value : Z) (ms : Msrs) : Msrs :=
  let low := Z.land value 0xFFFFFFFF in
  let high := wrap 32 (Z.shiftr value 32) in
  wrmsr msr low high ms.

(** @src ross-kernel/src/syscall.rs 17-22 msr::read_msr *)
Definition read_msr (msr : Z) (ms : Msrs) : Z :=
  let '(low, high) := rdmsr msr ms in Z.lor (Z.shiftl high 32) low.

(** [stub] is the address of [syscall_handler_stub].
    @src ross-kernel/src/syscall.rs 25-34 init *)
Definition init (stub : Z) (ms : Msrs) : Msrs :=
  let efer := read_msr EFER_MSR ms in
  let ms := write_msr EFER_MSR (Z.lor efer 1) ms in
  let ms := write_msr LSTAR_MSR stub ms in
  let star := Z.lor (Z.shiftl 0x08 32) (Z.shiftl 0x10 48) in
  let ms := write_msr STAR_MSR star ms in
  write_msr SFMASK_MSR 0x200 ms.

(** ** The processor *)

Inductive Reg :=
  | RAX | RBX | RCX | RDX | RSI | RDI | RBP | RSP
  | R8 | R9 | R10 | R11 | R12 | R13 | R14 | R15.

#[global] Instance reg_eq_dec : EqDecision Reg.
Proof. solve_decision. Defined.

Definition all_regs : list Reg := [RAX; RBX; RCX; RDX; RSI; RDI; RBP; RSP; R8; R9; R10; R11; R12; R13; R14; R15].

(** A fact about every register, by looking at each. *)
Lemma by_regs (P Q : Reg -> Prop) `{forall r, Decision (P r)} `{forall r, Decision (Q r)} :
  forallb (fun r => implb (bool_decide (P r)) (bool_decide (Q r))) all_regs = true -> forall r, P r -> Q r.
Proof.
  intros Ha r Hp. rewrite forallb_forall in Ha. specialize (Ha r). rewrite (bool_decide_eq_true_2 (P r)) in Ha by done.
  apply (bool_decide_eq_true_1 (Q r)), Ha. destruct r; cbn; tauto.
Qed.

Definition Regs : Type := Reg -> Z.
Definition set_reg (r : Reg) (v : Z) (f : Regs) : Regs := fun x => if decide (x = r) then v else f x.

Section entry.
Context {W N St : Type} {VN : VfsNode W N} {FA : FrameAllocator St}.
Notation Kernel := (Kernel W N St).

Record Mach := mkMach {
  m_regs : Regs;
  m_rip : Z;
  m_flags : Z;
  m_cs : Z;
  m_ss : Z;
  m_kn : Kernel
}.

Definition set_regs (f : Regs) (m : Mach) : Mach := mkMach f (m_rip m) (m_flags m) (m_cs m) (m_ss m) (m_kn m).
Definition set_kn (k : Kernel) (m : Mach) : Mach := mkMach (m_regs m) (m_rip m) (m_flags m) (m_cs m) (m_ss m) k.

Definition reg (r : Reg) : M Mach Z := fun m => Ret (m_regs m r, m).
Definition setr (r : Reg) (v : Z) : M Mach unit := fun m => Ret (tt, set_regs (set_reg r v (m_regs m)) m).
Definition on_k {A} (c : M Kernel A) : M Mach A := zoom m_kn set_kn c.

(** The instructions the stub is made of. *)
Inductive Instr :=
  | Push (r : Reg)
  | Pop (r : Reg)
  | Mov (d s : Reg)
  | MovAl (imm : Z)
  | MovDx (imm : Z)
  | OutDxAl
  | CallDispatch.

(** The registers a function may change without saving them. *)
Definition caller_saved (r : Reg) : bool :=
  match r with RAX | RCX | RDX | RSI | RDI | R8 | R9 | R10 | R11 => true | _ => false end.

Context (clob : Regs) (ret_addr : Z).

(** Of the ports, only COM1 is told apart. A return address that has been
    overwritten leads nowhere the model knows. *)
Definition exec (i : Instr) : M Mach unit :=
  match i with
  | Push r =>
      v ← reg r; sp ← reg RSP;
      on_k (user_store (sp - 8) (le_bytes 8 v));;
      setr RSP (sp - 8)
  | Pop r =>
      sp ← reg RSP;
      bs ← on_k (user_slice sp 8);
      setr RSP (sp + 8);;
      setr r (le_val bs)
  | Mov d s => v ← reg s; setr d v
  | MovAl imm => v ← reg RAX; setr RAX (v - v mod 2 ^ 8 + imm)
  | MovDx imm => v ← reg RDX; setr RDX (v - v mod 2 ^ 16 + imm)
  | OutDxAl =>
      a ← reg RAX; d ← reg RDX;
      if d mod 2 ^ 16 =? 0x3F8 then on_k (write_byte (a mod 2 ^ 8)) else mret tt
  | CallDispatch =>
      sp ← reg RSP;
      on_k (user_store (sp - 8) (le_bytes 8 ret_addr));;
      id ← reg RDI; arg1 ← reg RSI; arg2 ← reg RDX; arg3 ← reg RCX;
      v ← on_k (syscall_dispatch id arg1 arg2 arg3);
      (fun m => Ret (tt, set_regs (set_reg RAX v (fun r => if caller_saved r then clob r else m_regs m r)) m));;
      bs ← on_k (user_slice (sp - 8) 8);
      if le_val bs =? ret_addr then mret tt else panic
  end.

Fixpoint exec_all (code : list Instr) : M Mach unit :=
  match code with
  | [] => mret tt
  | i :: code => exec i;; exec_all code
  end.

(** @src ross-kernel/src/syscall.rs 315-340 syscall_handler_stub *)
Definition syscall_handler_stub : list Instr :=
  [Push RAX; Push RDX; MovAl 0x53; MovDx 0x3F8; OutDxAl; Pop RDX; Pop RAX;
   Push R11; Push RCX;
   Push RBP; Push RBX; Push R12; Push R13; Push R14; Push R15;
   Mov RCX RDX; Mov RDX RSI; Mov RSI RDI; Mov RDI RAX;
   CallDispatch;
   Pop R15; Pop R14; Pop R13; Pop R12; Pop RBX; Pop RBP;
   Pop RCX; Pop R11].

(** The [syscall] instruction before the address [next]: an invalid opcode
    unless EFER.SCE is set. *)
Definition syscall_instr (ms : Msrs) (next : Z) : M Mach unit := fun m =>
  if Z.testbit (ms EFER_MSR) 0 then
    let sel := Z.land (Z.shiftr (ms STAR_MSR) 32 mod 2 ^ 16) 0xFFFC in
    Ret (tt, mkMach (set_reg R11 (m_flags m) (set_reg RCX next (m_regs m))) (ms LSTAR_MSR)
                    (Z.land (m_flags m) (notw 64 (ms SFMASK_MSR))) sel (sel + 8) (m_kn m))
  else Panic.

(** [sysretq] to 64-bit code. *)
Definition sysretq (ms : Msrs) : M Mach unit := fun m =>
  let base := Z.shiftr (ms STAR_MSR) 48 in
  Ret (tt, mkMach (m_regs m) (m_regs m RCX) (Z.lor (Z.land (m_regs m R11) 0x3C7FD7) 2)
                  (Z.lor (base + 16) 3) (Z.lor (base + 8) 3) (m_kn m)).

(** What the processor runs from the [syscall] of a user program to the return
    to it, with [stub] the address the stub was linked at. *)
Definition system_call (stub : Z) (ms : Msrs) (next : Z) : M Mach unit :=
  syscall_instr ms next;;
  (fun m => if m_rip m =? stub then exec_all syscall_handler_stub m else Panic);;
  sysretq ms.

(** The library function of the user programs: the inline assembly loads the
    registers, and takes RAX for the result.
    @src ross-user/hello/src/main.rs 10-25 syscall *)
Definition user_syscall (stub : Z) (ms : Msrs) (next id a1 a2 a3 : Z) : M Mach Z :=
  setr RAX id;; setr RDI a1;; setr RSI a2;; setr RDX a3;;
  system_call stub ms next;;
  reg RAX.
End entry.
Arguments Mach : clear implicits.

(** ** The registers [init] leaves *)

Lemma split_msr v : fits 64 v -> Z.lor (Z.shiftl (wrap 32 (Z.shiftr v 32)) 32) (Z.land v 0xFFFFFFFF) = v.
Proof.
  intros Hv. unfold fits in Hv. unfold wrap. change 0xFFFFFFFF with (Z.ones 32). rewrite Z.land_ones by lia.
  rewrite Z.shiftr_div_pow2, (Z.mod_small (v / 2 ^ 32)) by (lia || dm_lia).
  apply Z.bits_inj'. intros i Hi. rewrite Z.lor_spec. destruct (Z.ltb_spec i 32).
  - by rewrite Z.shiftl_spec_low, Z.mod_pow2_bits_low by lia.
  - rewrite Z.shiftl_spec_high, Z.mod_pow2_bits_high, Z.div_pow2_bits, orb_false_r by lia. f_equal. lia.
Qed.

Lemma write_msr_spec msr v ms n : fits 64 v -> write_msr msr v ms n = if decide (n = msr) then v else ms n.
Proof.
  intros Hv. unfold write_msr, wrmsr. destruct (Z.eqb_spec n msr); [rewrite decide_True by done|by rewrite decide_False by done].
  by apply split_msr.
Qed.

Lemma read_msr_spec msr ms : fits 64 (ms msr) -> read_msr msr ms = ms msr.
Proof.
  intros Hv. unfold read_msr, rdmsr. rewrite <- (split_msr (ms msr) Hv) at 3. unfold wrap. f_equal.
  - f_equal. rewrite Z.shiftr_div_pow2 by lia. symmetry. apply Z.mod_small. unfold fits in Hv. dm_lia.
  - change 0xFFFFFFFF with (Z.ones 32). by rewrite Z.land_ones by lia.
Qed.

Lemma init_msrs stub ms : fits 64 stub -> fits 64 (ms EFER_MSR) ->
  init stub ms LSTAR_MSR = stub /\ init stub ms STAR_MSR = 0x0010000800000000 /\ init stub ms SFMASK_MSR = 0x200 /\
  init stub ms EFER_MSR = Z.lor (ms EFER_MSR) 1.
Proof.
  intros Hs He. unfold init. rewrite read_msr_spec by done.
  assert (fits 64 (Z.lor (ms EFER_MSR) 1)) as Ho. (by (apply fits_lor; [lia|done|by vm_compute])).
  set (star := Z.lor _ _). assert (fits 64 star) as Ht by (by vm_compute). assert (fits 64 0x200) as Hf by (by vm_compute).
  repeat split; rewrite !write_msr_spec by done; repeat (rewrite decide_False by (by vm_compute)); by rewrite decide_True by done.
Qed.

(** ** Pushes and pops on the user's stack *)

Section stack.
Context {W N St : Type} {VN : VfsNode W N} {FA : FrameAllocator St}.
Notation Kernel := (Kernel W N St).
Notation Mach := (Mach W N St).
Context (clob : Regs) (ret_addr : Z).
Notation exec_all := (exec_all clob ret_addr).

Definition words (vs : list Z) : list Z := mjoin (le_bytes 8 <$> vs).

Lemma words_cons v vs : words (v :: vs) = le_bytes 8 v ++ words vs.
Proof. done. Qed.

Lemma length_words vs : length (words vs) = (8 * length vs)%nat.
Proof.
  induction vs as [|v vs IH]; [done|]. rewrite words_cons, length_app, length_le_bytes, IH. cbn [length]. lia.
Qed.

Lemma words_app vs us : words (vs ++ us) = words vs ++ words us.
Proof. unfold words. rewrite fmap_app. apply join_app. Qed.

(** The registers but for the stack pointer, and the control state. *)
Definition same_ctl (m m' : Mach) : Prop :=
  m_rip m' = m_rip m /\ m_flags m' = m_flags m /\ m_cs m' = m_cs m /\ m_ss m' = m_ss m.

Lemma exec_app code1 code2 m m' : exec_all code1 m = Ret (tt, m') -> exec_all (code1 ++ code2) m = exec_all code2 m'.
Proof.
  revert m. induction code1 as [|i code1 IH]; intros m; cbn [app Entry.exec_all]; [by intros [= ->]|].
  unfold mbind, M_bind. destruct (exec clob ret_addr i m) as [[[] m1]| |]; [apply IH|done..].
Qed.

Lemma stored_mapped T (k k' : Kernel) task task' p bs a len :
  running T k task -> running T k' task' -> kn_cr3 k' = kn_cr3 k ->
  stored k k' p bs -> user_buffer k a len -> user_buffer k' a len.
Proof.
  intros _ _ Hc Hs (H1 & H2 & Hm). split; [done|]. split; [done|]. intros x Hx.
  destruct (decide (0 <= x < 2 ^ 47)) as [Hr|Hr]; [|lia]. specialize (Hs x Hr). unfold ubyte in Hs. rewrite Hs.
  case_decide; [by eexists|]. apply (Hm x Hx).
Qed.

Lemma buffer_sub (k : Kernel) a len b n : user_buffer k a len -> a <= b -> 0 <= n -> b + n <= a + len -> user_buffer k b n.
Proof. intros (H1 & H2 & Hm) Hb Hn Hl. split; [lia|]. split; [lia|]. intros x Hx. apply Hm. lia. Qed.

Lemma stored_trans (k1 k2 k3 : Kernel) p bs cs :
  stored k1 k2 (p + Z.of_nat (length bs)) cs -> stored k2 k3 p bs -> stored k1 k3 p (bs ++ cs).
Proof.
  intros H12 H23 x Hx. rewrite H23, H12, length_app by done. repeat case_decide; try lia; try done.
  - f_equal. rewrite lookup_total_app_l by lia. done.
  - f_equal. rewrite lookup_total_app_r by lia. f_equal. lia.
Qed.

Lemma exec_pushes T task rs : forall m,
  RSP ∉ rs -> running T (m_kn m) task ->
  user_buffer (m_kn m) (m_regs m RSP - 8 * Z.of_nat (length rs)) (8 * Z.of_nat (length rs)) ->
  exists m' v', exec_all (Push <$> rs) m = Ret (tt, m') /\ m_kn m' = set_vm v' (m_kn m) /\ same_ctl m m' /\
    running T (m_kn m') task /\
    m_regs m' RSP = m_regs m RSP - 8 * Z.of_nat (length rs) /\ (forall r, r <> RSP -> m_regs m' r = m_regs m r) /\
    stored (m_kn m) (m_kn m') (m_regs m RSP - 8 * Z.of_nat (length rs)) (words (reverse (m_regs m <$> rs))).
Proof.
  induction rs as [|r rs IH]; intros m Hsp Hr Hbuf.
  { exists m, (kn_vm (m_kn m)). split; [done|]. split; [by destruct (m_kn m)|]. split; [done|]. split; [done|].
    split; [cbn; lia|]. split; [done|]. intros x Hx. rewrite decide_False by (cbn; lia). done. }
  apply not_elem_of_cons in Hsp as [Hne Hsp]. cbn [length] in Hbuf. rewrite Nat2Z.inj_succ in Hbuf.
  destruct (user_store_ok T (m_kn m) task (m_regs m RSP - 8) (le_bytes 8 (m_regs m r)) Hr) as (v1 & R1 & _ & Hr1 & Hs1 & _).
  { apply le_bytes_byte. } { rewrite length_le_bytes. eapply buffer_sub; [exact Hbuf|lia..]. }
  set (m1 := set_regs (set_reg RSP (m_regs m RSP - 8) (m_regs m)) (set_kn (set_vm v1 (m_kn m)) m)).
  assert (exec clob ret_addr (Push r) m = Ret (tt, m1)) as E1.
  { cbn [exec]. erewrite run_bind by done. erewrite run_bind by done. erewrite run_bind by (by apply run_zoom). done. }
  destruct (IH m1) as (m' & v' & R & Ek & Hc & Hr' & Esp & Ereg & Hs); [done|done| |].
  { cbn. unfold set_reg. rewrite decide_True by done. eapply (stored_mapped T (m_kn m)); try done. eapply buffer_sub; [exact Hbuf|lia..]. }
  cbn [m1 m_regs set_regs] in Esp, Ereg, Hs. unfold set_reg in Esp, Hs. rewrite decide_True in Esp, Hs by done.
  assert ((fun x => if decide (x = RSP) then m_regs m RSP - 8 else m_regs m x) <$> rs = m_regs m <$> rs) as Em.
  { apply list_fmap_ext. intros i x Hx. rewrite decide_False; [done|]. intros ->. apply Hsp. by apply (list_elem_of_lookup_2 _ i). }
  rewrite Em in Hs. exists m', v'. split; [cbn [fmap list_fmap Entry.exec_all]; by rewrite (run_bind _ _ _ _ _ E1)|].
  split; [by rewrite Ek|]. split; [done|]. split; [done|]. cbn [length fmap list_fmap]. rewrite Nat2Z.inj_succ.
  split; [lia|]. split; [intros x Hx; rewrite Ereg by done; unfold set_reg; by rewrite decide_False|].
  rewrite reverse_cons, words_app. replace (m_regs m RSP - 8 * Z.succ (Z.of_nat (length rs))) with (m_regs m RSP - 8 - 8 * Z.of_nat (length rs)) by lia.
  apply (stored_trans _ (m_kn m1)); [|exact Hs].
  rewrite length_words, length_reverse, length_fmap. cbn [m1 m_kn set_regs set_kn].
  replace (_ - _ - _ + Z.of_nat _) with (m_regs m RSP - 8) by lia. rewrite words_cons, app_nil_r. exact Hs1.
Qed.

Lemma has_bytes_app (k : Kernel) p bs cs : ubytes k p (bs ++ cs) <-> ubytes k p bs /\ ubytes k (p + Z.of_nat (length bs)) cs.
Proof.
  revert p. induction bs as [|b bs IH]; intros p; unfold ubytes in *; cbn [app length].
  - rewrite Z.add_0_r. split; [intros H; split; [|done]; intros i Hi; simpl in Hi; lia|by intros []].
  - rewrite !has_bytes_cons, IH. replace (p + 1 + Z.of_nat (length bs)) with (p + Z.of_nat (S (length bs))) by lia. tauto.
Qed.

Lemma exec_pops T task rs : forall m vs,
  RSP ∉ rs -> NoDup rs -> length vs = length rs -> Forall (fits 64) vs -> running T (m_kn m) task ->
  ubytes (m_kn m) (m_regs m RSP) (words vs) ->
  exists m', exec_all (Pop <$> rs) m = Ret (tt, m') /\ m_kn m' = m_kn m /\ same_ctl m m' /\
    m_regs m' RSP = m_regs m RSP + 8 * Z.of_nat (length rs) /\
    (forall i r, rs !! i = Some r -> m_regs m' r = vs !!! i) /\
    (forall r, r ∉ rs -> r <> RSP -> m_regs m' r = m_regs m r).
Proof.
  induction rs as [|r rs IH]; intros m vs Hsp Hnd Hl Hf Hr Hb.
  { exists m. split; [done|]. split; [done|]. split; [done|]. split; [cbn; lia|]. split; [by intros [|]|done]. }
  destruct vs as [|v vs]; [done|]. apply not_elem_of_cons in Hsp as [Hne Hsp]. apply NoDup_cons in Hnd as [Hnr Hnd].
  apply Forall_cons in Hf as [Hfv Hf]. change (words (v :: vs)) with (le_bytes 8 v ++ words vs) in Hb.
  apply has_bytes_app in Hb as [Hv Hb]. rewrite length_le_bytes in Hb.
  set (m1 := set_regs (set_reg r v (set_reg RSP (m_regs m RSP + 8) (m_regs m))) m).
  assert (exec clob ret_addr (Pop r) m = Ret (tt, m1)) as E1.
  { cbn [exec]. erewrite run_bind by done. pose proof (user_slice_ok T _ task _ _ Hr Hv) as Hsl. rewrite length_le_bytes in Hsl.
    erewrite run_bind by (apply run_zoom; exact Hsl). erewrite run_bind by done.
    rewrite (le_roundtrip 8) by done. unfold setr, m1, set_regs, set_kn. cbn. by destruct m. }
  assert (m_regs m1 RSP = m_regs m RSP + 8) as Es1.
  { cbn. unfold set_reg. by rewrite decide_False, decide_True by done. }
  destruct (IH m1 vs) as (m' & R & Ek & Hc & Esp & Hin & Hout); [done|done|by simpl in Hl; lia|done|done|by rewrite Es1|].
  exists m'. split; [cbn [fmap list_fmap Entry.exec_all]; by rewrite (run_bind _ _ _ _ _ E1)|]. split; [done|]. split; [done|].
  split; [rewrite Esp, Es1; cbn [length]; lia|]. split.
  - intros [|i] x Hx; cbn in Hx; simplify_eq; [|by apply Hin].
    rewrite Hout by done. cbn. unfold set_reg. by rewrite decide_True.
  - intros x Hx Hxs. apply not_elem_of_cons in Hx as [Hx1 Hx2]. rewrite Hout by done. cbn. unfold set_reg.
    by rewrite !decide_False by done.
Qed.

(** ** The stub *)

(** Memory outside the [n] bytes below [sp] is as it was. *)
Definition below (k k' : Kernel) (sp n : Z) : Prop :=
  forall a, 0 <= a < 2 ^ 47 -> a < sp - n \/ sp <= a -> ubyte k' a = ubyte k a.

Lemma stored_below (k k' : Kernel) p bs sp n :
  stored k k' p bs -> sp - n <= p -> p + Z.of_nat (length bs) <= sp -> below k k' sp n.
Proof. intros Hs Hp Hl a Ha Ho. rewrite Hs by done. apply decide_False. lia. Qed.

Lemma below_trans (k1 k2 k3 : Kernel) sp n : below k1 k2 sp n -> below k2 k3 sp n -> below k1 k3 sp n.
Proof. intros H12 H23 a Ha Ho. rewrite H23 by done. by apply H12. Qed.

Definition keeps_buffers (k k' : Kernel) : Prop := forall a len, user_buffer k a len -> user_buffer k' a len.

Definition saved : list Reg := [R11; RCX; RBP; RBX; R12; R13; R14; R15].

(** The debug letter: every register is back, the letter is on the wire. *)
Lemma stub_letter T task (m : Mach) :
  running T (m_kn m) task -> user_buffer (m_kn m) (m_regs m RSP - 16) 16 -> fits 64 (m_regs m RAX) -> fits 64 (m_regs m RDX) ->
  exists m' v', exec_all [Push RAX; Push RDX; MovAl 0x53; MovDx 0x3F8; OutDxAl; Pop RDX; Pop RAX] m = Ret (tt, m') /\
    m_kn m' = set_serial (kn_serial (m_kn m) ++ [0x53]) (set_vm v' (m_kn m)) /\ same_ctl m m' /\
    running T (m_kn m') task /\ (forall r, m_regs m' r = m_regs m r) /\ below (m_kn m) (m_kn m') (m_regs m RSP) 16 /\
    keeps_buffers (m_kn m) (m_kn m').
Proof.
  intros Hr Hbuf Hax Hdx.
  destruct (exec_pushes T task [RAX; RDX] m) as (m1 & v1 & R1 & K1 & C1 & Hr1 & S1 & E1 & St1); [by apply (bool_decide_unpack _)|done|exact Hbuf|].
  change [Push RAX; Push RDX; MovAl 0x53; MovDx 0x3F8; OutDxAl; Pop RDX; Pop RAX]
    with ((Push <$> [RAX; RDX]) ++ [MovAl 0x53; MovDx 0x3F8; OutDxAl] ++ (Pop <$> [RDX; RAX])).
  rewrite (exec_app _ _ _ _ R1).
  set (a := m_regs m1 RAX - m_regs m1 RAX mod 2 ^ 8 + 0x53). set (d := m_regs m1 RDX - m_regs m1 RDX mod 2 ^ 16 + 0x3F8).
  set (m2 := set_kn (set_serial (kn_serial (m_kn m1) ++ [0x53]) (m_kn m1)) (set_regs (set_reg RDX d (set_reg RAX a (m_regs m1))) m1)).
  assert (exec_all [MovAl 0x53; MovDx 0x3F8; OutDxAl] m1 = Ret (tt, m2)) as R2.
  { cbn [Entry.exec_all exec]. erewrite run_bind by (erewrite run_bind by done; done). fold a.
    erewrite run_bind by (erewrite run_bind by done; done). cbn [m_regs set_regs].
    assert (d mod 2 ^ 16 = 0x3F8) as Ed by (unfold d; dm_lia). assert (a mod 2 ^ 8 = 0x53) as Ea by (unfold a; dm_lia).
    erewrite run_bind; [done|]. erewrite run_bind by done. erewrite run_bind by done. cbn [m_regs set_regs].
    change (set_reg RDX (set_reg RAX a (m_regs m1) RDX - set_reg RAX a (m_regs m1) RDX mod 2 ^ 16 + 1016)
      (set_reg RAX a (m_regs m1)) RDX) with d. change (set_reg RDX _ (set_reg RAX a (m_regs m1)) RAX) with a.
    rewrite Ed, Ea. done. }
  rewrite (exec_app _ _ _ _ R2).
  assert (m_regs m2 RSP = m_regs m RSP - 16) as Es2 by (cbn; unfold set_reg; rewrite !decide_False by done; exact S1).
  assert (running T (m_kn m2) task) as Hr2 by (by destruct Hr1; constructor).
  destruct (exec_pops T task [RDX; RAX] m2 [m_regs m RDX; m_regs m RAX]) as (m3 & R3 & K3 & C3 & S3 & I3 & O3);
    [by apply (bool_decide_unpack _)|by apply (bool_decide_unpack _)|done|by apply Forall_cons_2; [|apply Forall_cons_2]|done| |].
  { rewrite Es2. apply (stored_bytes (m_kn m)); [destruct Hbuf; lia| |exact St1].
    rewrite length_words. destruct Hbuf as (? & ? & ?). cbn. lia. }
  exists m3, v1. split; [done|]. rewrite K3. split; [cbn; by rewrite K1|]. split.
  { destruct C1 as (?&?&?&?), C3 as (?&?&?&?). unfold same_ctl. cbn in *. repeat split; congruence. }
  split; [done|]. split.
  - intros r. destruct (decide (r = RSP)) as [->|Hsp]; [rewrite S3, Es2; cbn; lia|].
    destruct (decide (r = RDX)) as [->|Hd]; [by apply (I3 0%nat)|].
    destruct (decide (r = RAX)) as [->|Ha]; [by apply (I3 1%nat)|].
    rewrite O3 by (done || set_solver). cbn. unfold set_reg. rewrite !decide_False by done. by apply E1.
  - split; [eapply (stored_below (m_kn m) (m_kn m1)); [exact St1|cbn; lia|cbn; lia]|].
    intros x len Hx. apply (stored_mapped T (m_kn m) (m_kn m1) task task _ _ x len) in St1; try done. by rewrite K1.
Qed.

Definition kept_regs : list Reg := [RBX; RBP; R12; R13; R14; R15].

Definition movs : list Instr := [Mov RCX RDX; Mov RDX RSI; Mov RSI RDI; Mov RDI RAX].

(** The registers are saved and the arguments in place. *)
Lemma stub_arguments T task (m : Mach) :
  running T (m_kn m) task -> user_buffer (m_kn m) (m_regs m RSP - 64) 64 ->
  exists m' v', exec_all ((Push <$> saved) ++ movs) m = Ret (tt, m') /\ m_kn m' = set_vm v' (m_kn m) /\ same_ctl m m' /\
    running T (m_kn m') task /\ m_regs m' RSP = m_regs m RSP - 64 /\
    m_regs m' RDI = m_regs m RAX /\ m_regs m' RSI = m_regs m RDI /\ m_regs m' RDX = m_regs m RSI /\ m_regs m' RCX = m_regs m RDX /\
    (forall r, r ∈ kept_regs -> m_regs m' r = m_regs m r) /\
    ubytes (m_kn m') (m_regs m RSP - 64) (words (reverse (m_regs m <$> saved))) /\ below (m_kn m) (m_kn m') (m_regs m RSP) 64 /\
    keeps_buffers (m_kn m) (m_kn m').
Proof.
  intros Hr Hbuf.
  destruct (exec_pushes T task saved m) as (m1 & v1 & R1 & K1 & C1 & Hr1 & S1 & E1 & St1); [by apply (bool_decide_unpack _)|done|exact Hbuf|].
  rewrite (exec_app _ _ _ _ R1).
  set (f := set_reg RDI (m_regs m1 RAX) (set_reg RSI (m_regs m1 RDI) (set_reg RDX (m_regs m1 RSI) (set_reg RCX (m_regs m1 RDX) (m_regs m1))))).
  exists (set_regs f m1), v1. split; [by destruct m1|]. split; [exact K1|]. split; [exact C1|]. split; [exact Hr1|].
  cbn [m_regs set_regs]. unfold f, set_reg. split; [exact S1|].
  do 4 (split; [by apply E1|]). split.
  - intros r Hin. pose proof (by_regs (fun r => r ∈ kept_regs)
      (fun r => r <> RDI /\ r <> RSI /\ r <> RDX /\ r <> RCX /\ r <> RSP) eq_refl r Hin) as (H1 & H2 & H3 & H4 & H5).
    rewrite !decide_False by done. by apply E1.
  - split; [|split; [eapply (stored_below (m_kn m)); [exact St1|cbn; lia|cbn; lia]|]].
    2: { intros x len Hx. apply (stored_mapped T (m_kn m) (m_kn m1) task task _ _ x len) in St1; try done. by rewrite K1. }
    apply (stored_bytes (m_kn m)); [by destruct Hbuf| |exact St1]. rewrite length_words. destruct Hbuf as (? & ? & ?). cbn. lia.
Qed.

(** The call returns to the stub when [syscall_dispatch] left the stub's words
    alone. *)
Lemma stub_call T task (m : Mach) :
  running T (m_kn m) task -> user_buffer (m_kn m) (m_regs m RSP - 8) 8 -> fits 64 ret_addr ->
  exists v', let k1 := set_vm v' (m_kn m) in running T k1 task /\ below (m_kn m) k1 (m_regs m RSP) 8 /\ keeps_buffers (m_kn m) k1 /\
    forall v k2 T2 task2,
      syscall_dispatch (m_regs m RDI) (m_regs m RSI) (m_regs m RDX) (m_regs m RCX) k1 = Ret (v, k2) ->
      running T2 k2 task2 -> (forall a, m_regs m RSP - 8 <= a < m_regs m RSP -> ubyte k2 a = ubyte k1 a) ->
      exists m', exec_all [CallDispatch] m = Ret (tt, m') /\ m_kn m' = k2 /\ same_ctl m m' /\
        m_regs m' RAX = v /\ m_regs m' RSP = m_regs m RSP /\ (forall r, r ∈ kept_regs -> m_regs m' r = m_regs m r).
Proof.
  intros Hr Hbuf Hra.
  destruct (user_store_ok T (m_kn m) task (m_regs m RSP - 8) (le_bytes 8 ret_addr) Hr (le_bytes_byte _ _)) as (v1 & R1 & _ & Hr1 & Hs1 & _).
  { by rewrite length_le_bytes. }
  exists v1. split; [done|]. split; [eapply stored_below; [exact Hs1|lia|rewrite length_le_bytes; lia]|].
  split. { intros x len Hx. by apply (stored_mapped T (m_kn m) _ task task _ _ x len Hr Hr1 eq_refl Hs1). }
  intros v k2 T2 task2 Rd Hr2 Hkeep.
  set (f := set_reg RAX v (fun r => if caller_saved r then clob r else m_regs m r)).
  exists (set_regs f (set_kn k2 m)). assert (ubytes k2 (m_regs m RSP - 8) (le_bytes 8 ret_addr)) as Hw.
  { intros i Hi. rewrite length_le_bytes in Hi. change (ubyte k2 (m_regs m RSP - 8 + Z.of_nat i) = Some (le_bytes 8 ret_addr !!! i)).
    rewrite Hkeep by lia. destruct Hbuf as (H1 & H2 & _). rewrite Hs1, decide_True by (rewrite ?length_le_bytes; lia). do 2 f_equal. lia. }
  pose proof (user_slice_ok T2 k2 task2 _ _ Hr2 Hw) as Hsl. rewrite length_le_bytes in Hsl.
  split; [|split; [done|split; [done|split; [done|split; [done|]]]]].
  - cbn [Entry.exec_all exec]. erewrite run_bind; [done|]. erewrite run_bind by done.
    erewrite run_bind by (apply run_zoom; exact R1). do 4 (erewrite run_bind by done).
    erewrite run_bind by (apply run_zoom; exact Rd). erewrite run_bind by done.
    erewrite run_bind by (apply run_zoom; exact Hsl). rewrite (le_roundtrip 8), Z.eqb_refl by done. done.
  - intros r Hin. cbn. unfold f, set_reg. repeat (apply elem_of_cons in Hin as [->|Hin]; [done|]). by apply elem_of_nil in Hin.
Qed.

Definition stub_code : list Instr :=
  [Push RAX; Push RDX; MovAl 0x53; MovDx 0x3F8; OutDxAl; Pop RDX; Pop RAX] ++ ((Push <$> saved) ++ movs) ++
  [CallDispatch] ++ (Pop <$> reverse saved).

Lemma stub_parts : syscall_handler_stub = stub_code.
Proof. done. Qed.

(** The stub, up to [sysretq]. *)
Lemma stub_run T task (m : Mach) :
  running T (m_kn m) task -> user_buffer (m_kn m) (m_regs m RSP - 72) 72 ->
  (forall r, r ∈ RAX :: RDX :: saved -> fits 64 (m_regs m r)) -> fits 64 ret_addr ->
  exists v', let k1 := set_serial (kn_serial (m_kn m) ++ [0x53]) (set_vm v' (m_kn m)) in
    running T k1 task /\ below (m_kn m) k1 (m_regs m RSP) 72 /\ keeps_buffers (m_kn m) k1 /\
    forall v k2 T2 task2,
      syscall_dispatch (m_regs m RAX) (m_regs m RDI) (m_regs m RSI) (m_regs m RDX) k1 = Ret (v, k2) ->
      running T2 k2 task2 -> (forall a, m_regs m RSP - 72 <= a < m_regs m RSP -> ubyte k2 a = ubyte k1 a) ->
      exists m', exec_all syscall_handler_stub m = Ret (tt, m') /\ m_kn m' = k2 /\ same_ctl m m' /\
        m_regs m' RAX = v /\ m_regs m' RSP = m_regs m RSP /\
        (forall r, r ∈ saved -> m_regs m' r = m_regs m r).
Proof.
  intros Hr Hbuf Hfit Hra. rewrite stub_parts. unfold stub_code.
  destruct (stub_letter T task m Hr) as (ma & va & Ra & Ka & Ca & Hra1 & Ea & Ba & Ma);
    [eapply buffer_sub; [exact Hbuf|lia..]|by apply Hfit; set_solver..|].
  destruct (stub_arguments T task ma Hra1) as (mb & vb & Rb & Kb & Cb & Hrb & Sb & Edi & Esi & Edx & Ecx & Eb & Wb & Bb & Mb).
  { rewrite Ea. apply Ma. eapply buffer_sub; [exact Hbuf|lia..]. }
  rewrite Ea in Sb, Wb, Bb. rewrite !Ea in Edi, Esi, Edx, Ecx.
  destruct (stub_call T task mb Hrb) as (vc & Hrc & Bc & Mc & Hcall); [|done|].
  { rewrite Sb. apply Mb, Ma. eapply buffer_sub; [exact Hbuf|lia..]. }
  rewrite Sb in Bc, Hcall. rewrite Edi, Esi, Edx, Ecx in Hcall.
  assert (set_vm vc (m_kn mb) = set_serial (kn_serial (m_kn m) ++ [0x53]) (set_vm vc (m_kn m))) as Ek by (by rewrite Kb, Ka).
  rewrite Ek in Hrc, Bc, Mc, Hcall. exists vc. cbv zeta. split; [done|]. split.
  { intros a Ha Ho. rewrite Bc by lia. rewrite Bb by lia. apply Ba; lia. }
  split. { intros a len Hx. by apply Mc, Mb, Ma. }
  intros v k2 T2 task2 Rd Hr2 Hkeep.
  destruct (Hcall v k2 T2 task2 Rd Hr2) as (mc & Rc & Kc & Cc & Vc & Sc & Ec). { intros a Ha. apply Hkeep. lia. }
  destruct (exec_pops T2 task2 (reverse saved) mc (reverse (m_regs m <$> saved))) as (md & Rd' & Kd & Cd & Sd & Id & Od).
  { by apply (bool_decide_unpack _). } { by apply (bool_decide_unpack _). } { done. }
  { apply Forall_reverse, Forall_fmap, Forall_forall. intros r Hin. apply Hfit. set_solver. }
  { by rewrite Kc. }
  { rewrite Kc, Sc. intros i Hi. assert (i < 64)%nat as Hi64 by exact Hi.
    change (ubyte k2 (m_regs m RSP - 64 + Z.of_nat i) = Some (words (reverse (m_regs m <$> saved)) !!! i)).
    rewrite Hkeep, Bc by (destruct Hbuf; lia).
    assert ((m_regs ma <$> saved) = (m_regs m <$> saved)) as Es by (by apply list_fmap_ext). rewrite Es in Wb. by apply (Wb i). }
  exists md. split.
  { rewrite (exec_app _ _ _ _ Ra), (exec_app _ _ _ _ Rb), (exec_app _ _ _ _ Rc). exact Rd'. }
  split; [by rewrite Kd|]. split.
  { destruct Ca as (?&?&?&?), Cb as (?&?&?&?), Cc as (?&?&?&?), Cd as (?&?&?&?). unfold same_ctl. repeat split; congruence. }
  split; [rewrite Od by (by apply (bool_decide_unpack _)); done|]. split; [rewrite Sd, Sc; cbn; lia|].
  intros r Hin. apply list_elem_of_lookup in Hin as [i Hi].
  assert (reverse saved !! (7 - i)%nat = Some r) as Hri.
  { repeat (destruct i as [|i]; [exact Hi|]). done. }
  rewrite (Id _ _ Hri). repeat (destruct i as [|i]; [by injection Hi as <-|]). done.
Qed.
(** From the [syscall] to behind it. *)
Lemma system_call_run T task stub next ms (m : Mach) :
  running T (m_kn m) task -> user_buffer (m_kn m) (m_regs m RSP - 72) 72 ->
  (forall r, r ∈ RAX :: RDX :: kept_regs -> fits 64 (m_regs m r)) -> fits 64 ret_addr -> fits 64 next ->
  fits 64 (m_flags m) -> Z.lor (Z.land (m_flags m) 0x3C7FD7) 2 = m_flags m -> fits 64 stub -> fits 64 (ms EFER_MSR) ->
  exists v', let k1 := set_serial (kn_serial (m_kn m) ++ [0x53]) (set_vm v' (m_kn m)) in
    running T k1 task /\ below (m_kn m) k1 (m_regs m RSP) 72 /\ keeps_buffers (m_kn m) k1 /\
    forall v k2 T2 task2,
      syscall_dispatch (m_regs m RAX) (m_regs m RDI) (m_regs m RSI) (m_regs m RDX) k1 = Ret (v, k2) ->
      running T2 k2 task2 -> (forall a, m_regs m RSP - 72 <= a < m_regs m RSP -> ubyte k2 a = ubyte k1 a) ->
      exists m', system_call clob ret_addr stub (init stub ms) next m = Ret (tt, m') /\ m_kn m' = k2 /\
        m_rip m' = next /\ m_flags m' = m_flags m /\
        m_cs m' = Z.lor Gdt.Gdt.USER_CODE_SELECTOR 3 /\ m_ss m' = Z.lor Gdt.Gdt.USER_DATA_SELECTOR 3 /\
        m_regs m' RAX = v /\ m_regs m' RSP = m_regs m RSP /\
        (forall r, r ∈ kept_regs -> m_regs m' r = m_regs m r).
Proof.
  intros Hr Hbuf Hfit Hra Hnext Hflags Huser Hstub Hefer.
  destruct (init_msrs stub ms Hstub Hefer) as (El & Es & Ef & Ee).
  set (m0 := mkMach (set_reg R11 (m_flags m) (set_reg RCX next (m_regs m))) stub
    (Z.land (m_flags m) (notw 64 0x200)) 0x08 0x10 (m_kn m)).
  assert (syscall_instr (init stub ms) next m = Ret (tt, m0)) as R0.
  { unfold syscall_instr. rewrite Ee, El, Es, Ef. rewrite Z.lor_spec. by rewrite orb_true_r. }
  destruct (stub_run T task m0) as (v' & Hr1 & Hb1 & Hk1 & Hret); [done|done| |done|].
  { intros r Hin. cbn. unfold set_reg. do 2 (case_decide; [done|]). apply Hfit.
    pose proof (by_regs (fun r => r ∈ RAX :: RDX :: saved) (fun r => r = R11 \/ r = RCX \/ r ∈ RAX :: RDX :: kept_regs) eq_refl r Hin). naive_solver. }
  exists v'. split; [exact Hr1|]. split; [exact Hb1|]. split; [exact Hk1|]. intros v k2 T2 task2 Rd Hr2 Hkeep.
  destruct (Hret v k2 T2 task2 Rd Hr2 Hkeep) as (m1 & R1 & K1 & C1 & V1 & S1 & I1).
  unfold system_call. rewrite (run_bind _ _ _ _ _ R0). cbn [m_rip m0].
  erewrite run_bind by (rewrite Z.eqb_refl; exact R1). unfold sysretq. rewrite Es. eexists. split; [done|]. cbn [m_kn m_rip m_flags m_cs m_ss m_regs].
  split; [done|]. split; [by rewrite (I1 RCX) by (by apply (bool_decide_unpack _))|].
  split. { rewrite (I1 R11) by (by apply (bool_decide_unpack _)). exact Huser. }
  split; [done|]. split; [done|]. split; [done|]. split; [done|].
  intros r Hin. pose proof (by_regs (fun r => r ∈ kept_regs) (fun r => r ∈ saved) eq_refl r Hin) as Hs.
  rewrite I1 by done. cbn. unfold set_reg. unfold kept_regs in Hin.
  repeat (apply elem_of_cons in Hin as [->|Hin]; [done|]). by apply elem_of_nil in Hin.
Qed.
End stack.

(** C39: a system call reaches the kernel and comes back.  With the registers
    [init] sets, the [syscall] instruction enters the stub with the kernel's
    code and stack selectors and interrupts off; the stub calls
    [syscall_dispatch] with the number from RAX and the arguments from RDI, RSI
    and RDX, having changed nothing of the process but 72 bytes below its stack
    pointer; and when the call returns and left these bytes alone, the process
    goes on behind its [syscall] with the user selectors, the answer in RAX, its
    flags, its stack pointer and the registers RBX, RBP and R12 to R15. *)
Theorem system_call_spec {W N St : Type} `{VfsNode W N} `{FrameAllocator St}
    (clob : Regs) (ret_addr stub next : Z) (ms : Msrs) (T : Typing) (task : @Task.Task N) (m : Mach W N St)
    (Hr : running T (m_kn m) task) (Hbuf : user_buffer (m_kn m) (m_regs m RSP - 72) 72)
    (Hfit : forall r, fits 64 (m_regs m r)) (Hra : fits 64 ret_addr) (Hnext : fits 64 next)
    (Hflags : fits 64 (m_flags m)) (Huser : Z.lor (Z.land (m_flags m) 0x3C7FD7) 2 = m_flags m)
    (Hstub : fits 64 stub) (Hefer : fits 64 (ms EFER_MSR)) :
  (exists m0, syscall_instr (init stub ms) next m = Ret (tt, m0) /\ m_rip m0 = stub /\
     m_cs m0 = Gdt.Gdt.KERNEL_CODE_SELECTOR /\ m_ss m0 = Gdt.Gdt.KERNEL_DATA_SELECTOR /\ Z.testbit (m_flags m0) 9 = false) /\
  exists v', let k1 := set_serial (kn_serial (m_kn m) ++ [0x53]) (set_vm v' (m_kn m)) in
    running T k1 task /\ below (m_kn m) k1 (m_regs m RSP) 72 /\
    forall v k2 T2 task2,
      syscall_dispatch (m_regs m RAX) (m_regs m RDI) (m_regs m RSI) (m_regs m RDX) k1 = Ret (v, k2) ->
      running T2 k2 task2 -> (forall a, m_regs m RSP - 72 <= a < m_regs m RSP -> ubyte k2 a = ubyte k1 a) ->
      exists m', system_call clob ret_addr stub (init stub ms) next m = Ret (tt, m') /\ m_kn m' = k2 /\
        m_rip m' = next /\ m_flags m' = m_flags m /\
        m_cs m' = Z.lor Gdt.Gdt.USER_CODE_SELECTOR 3 /\ m_ss m' = Z.lor Gdt.Gdt.USER_DATA_SELECTOR 3 /\
        m_regs m' RAX = v /\ m_regs m' RSP = m_regs m RSP /\
        (forall r, r ∈ kept_regs -> m_regs m' r = m_regs m r).
Proof.
  destruct (init_msrs stub ms Hstub Hefer) as (El & Es & Ef & Ee). split.
  - eexists. unfold syscall_instr. rewrite Ee, El, Es, Ef, Z.lor_spec, orb_true_r. split; [done|]. split; [done|]. split; [done|]. split; [done|].
    change (Z.testbit (Z.land (m_flags m) (notw 64 0x200)) 9 = false). by rewrite Z.land_spec, andb_false_r.
  - destruct (system_call_run clob ret_addr T task stub next ms m) as (v' & Hr1 & Hb1 & _ & Hret); try done.
    by exists v'.
Qed.

(** The process of [Process] with its stack at the end of its page asks for the
    ticks. *)
#[local] Existing Instance plain_node.

Definition demo_regs : Regs := fun r => match r with RAX => 2 | RSP => 0x401000 | RBX => 7 | _ => 0 end.

Example system_call_spec_witness :
  exists T (k : Kernel unit (list Z) PmmState) m', running T k demo_task /\
    system_call (fun _ => 0xDEAD) 0xFFFFFFFF80212345 0xFFFFFFFF80212000 (init 0xFFFFFFFF80212000 (fun _ => 0)) 0x400123
      (mkMach demo_regs 0x400121 0x202 0x23 0x1B k) = Ret (tt, m') /\
    m_rip m' = 0x400123 /\ m_regs m' RAX = kn_ticks k /\ m_regs m' RBX = 7 /\ m_regs m' RSP = 0x401000.
Proof.
  destruct (demo_page [] (Forall_nil_2 _)) as (T & v & Hr & _ & Hbuf); [simpl; lia|].
  set (k := demo_kernel v 0x1000) in *.
  destruct (system_call_spec (fun _ => 0xDEAD) 0xFFFFFFFF80212345 0xFFFFFFFF80212000 0x400123 (fun _ => 0) T demo_task
    (mkMach demo_regs 0x400121 0x202 0x23 0x1B k)) as (_ & v' & Hr1 & _ & Hret).
  - exact Hr.
  - apply Hbuf; cbn; lia.
  - intros r. unfold fits. destruct r; cbn; lia.
  - unfold fits. lia.
  - unfold fits. lia.
  - unfold fits. cbn. lia.
  - reflexivity.
  - unfold fits. lia.
  - unfold fits. lia.
  - destruct (Hret (kn_ticks k) (set_serial (kn_serial k ++ [0x53]) (set_vm v' k)) T demo_task) as (m' & R & _ & Hrip & _ & _ & _ & Ha & Hs & Hk).
    + reflexivity.
    + exact Hr1.
    + reflexivity.
    + exists T, k, m'. split; [exact Hr|]. split; [exact R|]. split; [exact Hrip|]. split; [exact Ha|]. split; [|exact Hs].
      apply (Hk RBX). apply (bool_decide_unpack _). vm_compute. exact I.
Defined.
