(* ===== verification/User.v ===== *)
(** * The user programs ([ross-user/hello], [ross-user/init])

    The two programs the repository ships, as the system calls they make, run
    from the first instruction of [_start] through the [syscall] instruction,
    the kernel's stub and [syscall_dispatch], and back.  What the compiler puts
    between the calls is left out: it moves no state the calls read but the
    argument registers, which [syscall] sets. *)

From Stdlib Require Import String.
From S2P Require Import Prelude Bytes Frames Pmm Paging Spaces Mmap Str Vfs Ramfs Elf Syscall Process Io Entry.
From S2P Require Fd Gdt Task.

Section programs.
Context {W N St : Type} {VN : VfsNode W N} {FA : FrameAllocator St}.
Notation Mach := (Mach W N St).
Context (clob : Regs) (ret_addr stub : Z) (ms : Msrs).

(** [syscall] with the registers the kernel's [init] left. *)
Definition sys (next id a1 a2 a3 : Z) : M Mach Z := user_syscall clob ret_addr stub (init stub ms) next id a1 a2 a3.

(** ** hello *)

(** @src ross-user/hello/src/main.rs 7-7 SYS_WRITE *)
Definition SYS_WRITE : Z := 4.
(** @src ross-user/hello/src/main.rs 8-8 SYS_EXIT *)
Definition SYS_EXIT : Z := 6.

(** @src ross-user/hello/src/main.rs 29-29 _start *)
Definition hello_msg : list Z := lit "Hello from Phase 8!" ++ [10].

(** Up to the final [loop {}]; [next1] and [next2] are the addresses behind the
    two [syscall] instructions, [msg] that of the string.
    @src ross-user/hello/src/main.rs 27-33 _start *)
Definition hello_start (next1 next2 msg : Z) : M Mach Z :=
  _ ← sys next1 SYS_WRITE 1 msg (Z.of_nat (length hello_msg));
  sys next2 SYS_EXIT 0 0 0.

(** ** init *)

(** @src ross-user/init/src/main.rs 17-32 syscall *)
Definition init_syscall (next id arg1 arg2 arg3 : Z) : M Mach Z := sys next id arg1 arg2 arg3.

(** @src ross-user/init/src/main.rs 8-8 _start *)
Definition init_msg : list Z := lit "Hello from Userland ELF!" ++ [10].

(** Up to the final loop.
    @src ross-user/init/src/main.rs 6-15 _start *)
Definition init_start (next msg : Z) : M Mach Z := init_syscall next 1 msg (Z.of_nat (length init_msg)) 0.

(** ** A process that makes calls *)

(** The state a program calls from: its task is running, there is room below
    its stack pointer for what the stub pushes, and its registers and flags are
    those of user code. *)
Record calling (T : Typing) (task : @Task.Task N) (m : Mach) : Prop := {
  ca_running : running T (m_kn m) task;
  ca_stack : user_buffer (m_kn m) (m_regs m RSP - 72) 72;
  ca_regs r : r ∈ kept_regs -> fits 64 (m_regs m r);
  ca_flags : fits 64 (m_flags m);
  ca_user : Z.lor (Z.land (m_flags m) 0x3C7FD7) 2 = m_flags m
}.

Context (Hra : fits 64 ret_addr) (Hstub : fits 64 stub) (Hefer : fits 64 (ms EFER_MSR)).

(** A call that leaves the process's memory alone goes through, and the process
    can call again. *)
Lemma sys_run T task next id a1 a2 a3 (m : Mach) :
  calling T task m -> fits 64 next -> fits 64 id -> fits 64 a3 ->
  exists v', let k1 := set_serial (kn_serial (m_kn m) ++ [0x53]) (set_vm v' (m_kn m)) in
    running T k1 task /\ below (m_kn m) k1 (m_regs m RSP) 72 /\ keeps_buffers (m_kn m) k1 /\
    forall v k2 T2 task2,
      syscall_dispatch id a1 a2 a3 k1 = Ret (v, k2) -> running T2 k2 task2 ->
      (forall a, ubyte k2 a = ubyte k1 a) ->
      exists m', sys next id a1 a2 a3 m = Ret (v, m') /\ m_kn m' = k2 /\ m_rip m' = next /\
        m_regs m' RSP = m_regs m RSP /\ calling T2 task2 m'.
Proof.
  intros [Hr Hb Hk Hf Hu] Hn Hid Ha3.
  set (m0 := set_regs (set_reg RDX a3 (set_reg RSI a2 (set_reg RDI a1 (set_reg RAX id (m_regs m))))) m).
  assert (m_regs m0 RSP = m_regs m RSP) as Esp by done.
  destruct (system_call_run clob ret_addr T task stub next ms m0) as (v' & Hr1 & Hb1 & Hk1 & Hret); try done.
  { intros r Hin. apply elem_of_cons in Hin as [->|Hin]; [exact Hid|]. apply elem_of_cons in Hin as [->|Hin]; [exact Ha3|].
    pose proof (by_regs (fun r => r ∈ kept_regs) (fun r => r <> RAX /\ r <> RDI /\ r <> RSI /\ r <> RDX) eq_refl r Hin) as (H1 & H2 & H3 & H4).
    cbn. unfold set_reg. rewrite !decide_False by done. by apply Hk. }
  exists v'. split; [exact Hr1|]. split; [exact Hb1|]. split; [exact Hk1|]. intros v k2 T2 task2 Rd Hr2 Hsame.
  destruct (Hret v k2 T2 task2 Rd Hr2) as (m' & R & Ek & Erip & Efl & _ & _ & Eax & Es & Ekept); [intros a _; apply Hsame|].
  exists m'. split.
  { unfold sys, user_syscall. do 4 (erewrite run_bind by done). erewrite run_bind by exact R. unfold reg. by rewrite Eax. }
  split; [done|]. split; [done|]. split; [by rewrite Es|]. constructor.
  - by rewrite Ek.
  - rewrite Ek, Es. destruct (Hk1 _ _ Hb) as (H1 & H2 & Hm). split; [done|]. split; [done|]. intros x Hx.
    specialize (Hm x Hx). fold (ubyte k2 x). rewrite Hsame. exact Hm.
  - intros r Hin. rewrite Ekept by done.
    pose proof (by_regs (fun r => r ∈ kept_regs) (fun r => r <> RAX /\ r <> RDI /\ r <> RSI /\ r <> RDX) eq_refl r Hin) as (H1 & H2 & H3 & H4).
    cbn. unfold set_reg. rewrite !decide_False by done. by apply Hk.
  - by rewrite Efl.
  - by rewrite Efl.
Qed.

(** A string outside the bytes the stub uses. *)
Definition clear_of (m : Mach) (a len : Z) : Prop := 0 <= a /\ a + len <= 2 ^ 47 /\ (a + len <= m_regs m RSP - 72 \/ m_regs m RSP <= a).

Lemma below_bytes (k k' : Kernel W N St) (m : Mach) a bs :
  below k k' (m_regs m RSP) 72 -> clear_of m a (Z.of_nat (length bs)) -> ubytes k a bs -> ubytes k' a bs.
Proof.
  intros Hb (H0 & H1 & Ho) Hk i Hi. change (ubyte k' (a + Z.of_nat i) = Some (bs !!! i)). rewrite Hb by lia. by apply Hk.
Qed.

Lemma write_stdout T (k : Kernel W N St) task a bs :
  running T k task -> ubytes k a bs -> bs <> [] ->
  syscall_dispatch 4 1 a (Z.of_nat (length bs)) k = Ret (Z.of_nat (length bs), set_screen (kn_screen k ++ printable bs) k).
Proof.
  intros Hr Hb Hne. cbn [syscall_dispatch]. unfold sys_write.
  rewrite (proj2 (Z.eqb_neq _ 0)) by (destruct bs; cbn; [done|lia]). cbn [Z.eqb Pos.eqb].
  by rewrite (run_bind _ _ _ _ _ (user_slice_ok T k task a bs Hr Hb)).
Qed.

Definition exit_log (code : Z) : list Z := lit "[SYSCALL] sys_exit(" ++ dec code ++ lit ")" ++ [10].

Lemma exit_run (k : Kernel W N St) task code :
  Task.current_task (kn_sched k) = Some task ->
  syscall_dispatch 6 code 0 0 k = Ret (0,
    set_sched (Task.mkSched (Task.tasks (kn_sched k)) (Some (Task.set_state Task.Dead task))) (set_serial (kn_serial k ++ exit_log code) k)).
Proof.
  intros Hc. cbn [syscall_dispatch]. unfold sys_exit. rewrite (run_bind _ _ _ _ _ (serial_print_run _ k)).
  unfold update_task, modify. unfold_m. cbn. by rewrite Hc.
Qed.


(** [init] logs its greeting and spins. *)
Theorem init_program_spec (T : Typing) (task : @Task.Task N) (m : Mach) (next msg : Z)
  (Hm : calling T task m) (Hn : fits 64 next)
  (Hmsg : ubytes (m_kn m) msg init_msg) (Hclear : clear_of m msg (Z.of_nat (length init_msg))) :
  exists m', init_start next msg m = Ret (0, m') /\ m_rip m' = next /\ calling T task m' /\
    kn_serial (m_kn m') = kn_serial (m_kn m) ++ [0x53] ++ lit "[SYSCALL LOG] " ++ init_msg ++ [10].
Proof.
  destruct (sys_run T task next 1 msg (Z.of_nat (length init_msg)) 0 m Hm Hn) as (v & Hr & Hb & Hk & Hret); [done|done|].
  set (k1 := set_serial _ _) in *.
  destruct (Hret 0 (set_serial (((kn_serial k1 ++ lit "[SYSCALL LOG] ") ++ init_msg) ++ [10]) k1) T task) as (m1 & R & E & Erip & Es & Hm1).
  { cbn [syscall_dispatch]. unfold sys_log.
    rewrite (run_bind _ _ _ _ _ (user_slice_ok T k1 task msg init_msg Hr ltac:(by eapply below_bytes))).
    rewrite (run_bind _ _ _ _ _ (serial_print_run _ k1)). set (k2 := set_serial _ k1).
    rewrite (run_bind _ _ _ _ _ (serial_print_run _ k2)). set (k3 := set_serial _ k2).
    by rewrite (run_bind _ _ _ _ _ (serial_print_run _ k3)). }
  { by destruct Hr; constructor. }
  { done. }
  exists m1. split; [exact R|]. split; [done|]. split; [done|]. rewrite E. unfold k1. cbn. by rewrite <- !app_assoc.
Qed.
End programs.

(** ** The programs in a page of their own

    The task of [Process] with the string at the start of its page and the
    stack at its end, and the heartbeat waiting. *)
#[local] Existing Instance plain_node.

Definition waiting_task : @Task.Task (list Z) :=
  Task.mkTask 2 (Task.mkVec 0x9000 0x2000) 0xB000 0xAF60 0x1000 Task.Ready false Fd.with_stdio 0.

Definition user_regs : Regs := fun r => match r with RSP => 0x401000 | RBX => 7 | _ => 0 end.

Definition user_kernel (v : Vm PmmState) : Kernel unit (list Z) PmmState :=
  set_sched (Task.mkSched [waiting_task] (Some demo_task)) (demo_kernel v 0x1000).

Definition user_mach (v : Vm PmmState) : Mach unit (list Z) PmmState := mkMach user_regs 0x400100 0x202 0x23 0x1B (user_kernel v).

Lemma user_calling T v :
  running T (demo_kernel v 0x1000) demo_task ->
  (forall ptr len, 0x400000 <= ptr -> ptr + len <= 0x401000 -> user_buffer (demo_kernel v 0x1000) ptr len) ->
  calling T demo_task (user_mach v).
Proof.
  intros Hr Hbuf. constructor.
  - by destruct Hr; constructor.
  - destruct (Hbuf (0x401000 - 72) 72 ltac:(lia) ltac:(lia)) as (H1 & H2 & Hm). by split.
  - intros r _. unfold fits. destruct r; cbn; lia.
  - unfold fits. cbn. lia.
  - reflexivity.
Defined.


Example init_program_spec_witness :
  exists T v m', calling T demo_task (user_mach v) /\
    init_start (fun _ => 0xDEAD) 0xFFFFFFFF80212345 0xFFFFFFFF80212000 (fun _ => 0) 0x400110 0x400000 (user_mach v) = Ret (0, m') /\
    kn_serial (m_kn m') = lit "S[SYSCALL LOG] Hello from Userland ELF!" ++ [10; 10].
Proof.
  assert (Forall is_byte init_msg) as Hb by (apply (bool_decide_unpack _); vm_compute; exact I).
  destruct (demo_page init_msg Hb ltac:(vm_compute; discriminate)) as (T & v & Hr & Hu & Hbuf).
  pose proof (user_calling T v Hr Hbuf) as Hc.
  destruct (init_program_spec (fun _ => 0xDEAD) 0xFFFFFFFF80212345 0xFFFFFFFF80212000 (fun _ => 0)
    ltac:(unfold fits; lia) ltac:(unfold fits; lia) ltac:(unfold fits; lia)
    T demo_task (user_mach v) 0x400110 0x400000 Hc) as (m' & R & _ & _ & Hs).
  - unfold fits. lia.
  - exact Hu.
  - unfold clear_of. cbn. lia.
  - exists T, v, m'. split; [exact Hc|]. split; [exact R|]. exact Hs.
Defined.
