(* ===== verification/Shell.v ===== *)
(** * The shell ([ross-kernel/src/shell.rs])

    The line editor and the commands, over the kernel's state, the terminal,
    the PCI device list, the disk and the hardware.  What the user types is a
    sequence of bytes; [type_keys] runs [handle_byte] on each.  The two groups
    of theorems: the editor refines editing a list ([line_editor_spec]), and
    no input makes the shell panic or draw outside the screen as long as what
    it calls returns ([shell_invariant]). *)

From Stdlib Require Import String.
From S2P Require Import Prelude Bytes Frames Pmm Paging Spaces Str Vfs Elf Block Io Pci Font Writer.
From S2P Require Kbuf Ipc Fd Gdt Task.
From S2P Require Import Syscall.

(** @src ross-kernel/src/shell.rs 14-14 MAX_LINE *)
Definition MAX_LINE : Z := 128.
(** @src ross-kernel/src/shell.rs 15-15 MAX_CWD *)
Definition MAX_CWD : Z := 64.
(** @src ross-kernel/src/shell.rs 16-16 SCALE *)
Definition SCALE : Z := 1.

(** @src ross-kernel/src/shell.rs 48-53 State *)
Inductive State :=
  | Splash
  | Active.

(** Whether [ahci::init] found a drive, for the state the disk is part of. *)
Class DiskStatus (W : Type) := { disk_ready : W -> bool }.

(** The statics of the shell, and what its commands reach: the terminal, the
    kernel's state (whose [kn_world] holds the disk), the PCI devices, the
    hardware.
    @src ross-kernel/src/shell.rs 21-31 LINE_BUF *)
Record Shell (W N H : Type) := mkShell {
  sh_state : State;
  LINE_BUF : list Z;
  LINE_LEN : Z;
  CWD_BUF : list Z;
  CWD_LEN : Z;
  sh_wr : Writer;
  sh_kn : Kernel W N PmmState;
  DEVICES : list PciDevice;
  sh_hw : H
}.
Arguments mkShell {W N H}.
Arguments sh_state {W N H}.
Arguments LINE_BUF {W N H}.
Arguments LINE_LEN {W N H}.
Arguments CWD_BUF {W N H}.
Arguments CWD_LEN {W N H}.
Arguments sh_wr {W N H}.
Arguments sh_kn {W N H}.
Arguments DEVICES {W N H}.
Arguments sh_hw {W N H}.

(** The statics at boot.
    @src ross-kernel/src/shell.rs 21-31 CWD_BUF *)
Definition CWD_INIT : list Z := lit "/mnt/disk" ++ replicate 55 0.

(** @src ross-kernel/src/shell.rs 34-44 resolve *)
Definition resolve_in (cwd path : str) : str :=
  if starts_with (lit "/") path then path
  else
    let s := if decide (last cwd = Some slash) then cwd else cwd ++ lit "/" in
    s ++ path.

Section shell.
Context {W N H : Type} {VN : VfsNode W N} {BD : BlockDevice W} {DS : DiskStatus W} {HW : Hardware H}.
Notation Sh := (M (Shell W N H)).

Definition set_state (st : State) : Sh unit := fun s =>
  Ret (tt, mkShell st (LINE_BUF s) (LINE_LEN s) (CWD_BUF s) (CWD_LEN s) (sh_wr s) (sh_kn s) (DEVICES s) (sh_hw s)).
Definition set_line (buf : list Z) (len : Z) : Sh unit := fun s =>
  Ret (tt, mkShell (sh_state s) buf len (CWD_BUF s) (CWD_LEN s) (sh_wr s) (sh_kn s) (DEVICES s) (sh_hw s)).
Definition set_cwd (buf : list Z) (len : Z) : Sh unit := fun s =>
  Ret (tt, mkShell (sh_state s) (LINE_BUF s) (LINE_LEN s) buf len (sh_wr s) (sh_kn s) (DEVICES s) (sh_hw s)).

(** Computations on the terminal, on the kernel's state, on the hardware. *)
Definition set_wr (wr : Writer) (s : Shell W N H) : Shell W N H :=
  mkShell (sh_state s) (LINE_BUF s) (LINE_LEN s) (CWD_BUF s) (CWD_LEN s) wr (sh_kn s) (DEVICES s) (sh_hw s).
Definition draw {X} : Wr X -> Sh X := zoom sh_wr set_wr.
Definition on_kn {X} : M (Kernel W N PmmState) X -> Sh X := zoom sh_kn (fun kn s =>
  mkShell (sh_state s) (LINE_BUF s) (LINE_LEN s) (CWD_BUF s) (CWD_LEN s) (sh_wr s) kn (DEVICES s) (sh_hw s)).
Definition on_hw {X} : M H X -> Sh X := zoom sh_hw (fun h s =>
  mkShell (sh_state s) (LINE_BUF s) (LINE_LEN s) (CWD_BUF s) (CWD_LEN s) (sh_wr s) (sh_kn s) (DEVICES s) h).

(** [&buf[..len]]. *)
Definition slice_to (buf : list Z) (len : Z) : outcome (list Z) :=
  if len <=? Z.of_nat (length buf) then Ret (take (Z.to_nat len) buf) else Panic.

(** [from_utf8_unchecked(&CWD_BUF[..CWD_LEN])]. *)
Definition cwd : Sh str := s ← get; lift (slice_to (CWD_BUF s) (CWD_LEN s)).

(** [vfs::open] from the shell. *)
Definition sh_open (path : str) : Sh (res N) := on_kn (fun k => on_world (open (kn_vfs k) path) k).
Definition on_node {X} (m : M W X) : Sh X := on_kn (on_world m).
Definition trace (s : str) : Sh unit := on_kn (serial_print s).

Definition resolve (path : str) : Sh str := c ← cwd; mret (resolve_in c path).

(** ** Printing *)

(** Digits from the lowest; [buf] has room for twenty.
    @src ross-kernel/src/shell.rs 448-448 print_num *)
Fixpoint digits (fuel : nat) (n : Z) (buf : list Z) : outcome (list Z) :=
  match fuel with
  | O => Diverge
  | S fuel =>
      if n =? 0 then Ret buf
      else if 20 <=? Z.of_nat (length buf) then Panic
      else digits fuel (n / 10) (buf ++ [48 + n mod 10])
  end.

(** @src ross-kernel/src/shell.rs 444-450 print_num *)
Definition print_num (n : Z) : Wr unit :=
  if n =? 0 then put_char 48 FG SCALE
  else buf ← lift (digits 21 n []); put_str (reverse buf) FG SCALE.

(** ** Commands *)

(** @src ross-kernel/src/shell.rs 127-131 prompt *)
Definition prompt : Wr unit :=
  put_str (lit "ross") ACCENT SCALE;;
  put_str (lit "> ") DIM SCALE;;
  mark_input_start.

(** The terminal area, empty under the banner.
    @src ross-kernel/src/shell.rs 391-398 cmd_clear *)
Definition cmd_clear : Wr unit :=
  wr ← get;
  rest ← lift (csub (h wr) TERM_Y);
  fill_rect 0 TERM_Y (w wr) rest BG;;
  set_pos LEFT_MARGIN (TERM_Y + 6);;
  put_str (lit "ROSS Shell v0.4  |  Type 'help' for commands") DIM 1;;
  set_pos LEFT_MARGIN (TERM_Y + 20).

(** @src ross-kernel/src/shell.rs 102-125 activate *)
Definition activate : Wr unit :=
  wr ← get;
  let ready_y := 44 in
  fill_rect 20 ready_y 200 10 BG;;
  set_pos 20 ready_y;;
  put_str (lit "R.O.S.S. Ready.") ACCENT SCALE;;
  fill_rect 0 (TERM_Y - 2) (w wr) 2 0x00333333;;
  rest ← lift (csub (h wr) TERM_Y);
  fill_rect 0 TERM_Y (w wr) rest BG;;
  set_pos LEFT_MARGIN (TERM_Y + 6);;
  put_str (lit "ROSS Shell v0.4  |  Type 'help' for commands") DIM 1;;
  set_pos LEFT_MARGIN (TERM_Y + 20);;
  prompt.

(** @src ross-kernel/src/shell.rs 192-197 cmd_pwd *)
Definition cmd_pwd : Sh unit :=
  c ← cwd;
  draw (put_str (lit "  ") FG SCALE;; put_str c ACCENT SCALE;; put_char 10 FG SCALE).

Definition say (s : str) (color : Z) : Sh unit := draw (put_str s color SCALE).
Definition nl (s : str) : str := s ++ [10].

(** @src ross-kernel/src/shell.rs 199-213 cmd_cd *)
Definition cmd_cd (raw : str) : Sh unit :=
  path ← resolve raw;
  r ← sh_open path;
  match r with
  | Ok node =>
      st ← on_node (attribute node);
      match st_type st with
      | Directory =>
          let len := Z.min (Z.of_nat (length path)) MAX_CWD in
          s ← get;
          set_cwd (take (Z.to_nat len) path ++ drop (Z.to_nat len) (CWD_BUF s)) len
      | File => say (nl (lit "  Error: not a directory")) RED
      end
  | Err _ => say (nl (lit "  Error: no such path")) RED
  end.

(** The names [readdir] answers, one on a line.
    @src ross-kernel/src/shell.rs 229-233 cmd_ls *)
Fixpoint list_files (files : list str) : Wr unit :=
  match files with
  | [] => mret tt
  | file :: files =>
      put_str (lit "    ") FG SCALE;; put_str file FG SCALE;; put_char 10 FG SCALE;;
      list_files files
  end.

(** @src ross-kernel/src/shell.rs 215-239 cmd_ls *)
Definition cmd_ls (path : str) : Sh unit :=
  let target := if non_empty path then path else lit "/" in
  r ← sh_open target;
  match r with
  | Err _ => say (nl (lit "  Error: no such path")) RED
  | Ok node =>
      r ← on_node (readdir node);
      match r with
      | Ok files =>
          say (lit "  Files in ") ACCENT;; say target ACCENT;; say (nl (lit ":")) ACCENT;;
          draw (list_files files)
      | Err _ => say (nl (lit "  Error: not a directory")) RED
      end
  end.

(** The characters of a file that are shown.
    @src ross-kernel/src/shell.rs 251-256 cmd_cat *)
Fixpoint show_bytes (bs : list Z) : Wr unit :=
  match bs with
  | [] => mret tt
  | b :: bs =>
      (if b =? 10 then put_char 10 FG SCALE
       else if is_ascii_graphic b || (b =? 32) then put_char b FG SCALE
       else mret tt);;
      show_bytes bs
  end.

(** @src ross-kernel/src/shell.rs 241-261 cmd_cat *)
Definition cmd_cat (path : str) : Sh unit :=
  r ← sh_open path;
  match r with
  | Err _ => say (nl (lit "  Error: file not found")) RED
  | Ok node =>
      st ← on_node (attribute node);
      let size := st_size st in
      if size =? 0 then say (nl (lit "  (empty)")) DIM
      else
        let len := Z.min size 4096 in
        r ← on_node (read node 0 len);
        match r with
        | Ok bs =>
            if Z.of_nat (length bs) <=? len then draw (show_bytes bs;; put_char 10 FG SCALE) else panic
        | Err _ => say (nl (lit "  Error: read failed")) RED
        end
  end.

Definition sh_create (path : str) : Sh (res N) := on_kn (fun k => on_world (create (kn_vfs k) path) k).

(** The node written to: the file of that name, or a new one.
    @src ross-kernel/src/shell.rs 268-284 cmd_write *)
Definition node_for (path : str) : Sh (res N) :=
  r ← sh_open path;
  match r with
  | Ok n => trace (nl (lit "[WRITE] file exists, overwriting"));; mret (Ok n)
  | Err _ =>
      r ← sh_create path;
      match r with
      | Ok n => trace (nl (lit "[WRITE] created new file"));; mret (Ok n)
      | Err _ =>
          trace (nl (lit "[WRITE] create failed"));;
          say (nl (lit "  Error: cannot create file")) RED;;
          mret (Err tt)
      end
  end.

(** @src ross-kernel/src/shell.rs 263-295 cmd_write *)
Definition cmd_write (path : str) (data : list Z) : Sh unit :=
  trace (lit "[WRITE] path=");; trace path;; trace [10];;
  r ← node_for path;
  match r with
  | Err _ => mret tt
  | Ok node =>
      r ← on_node (write node 0 data);
      match r with
      | Ok n =>
          draw (write_str (lit "  Wrote ");; write_str (dec n);; write_str (lit " bytes to ");; write_str path;;
                write_str [10])
      | Err _ =>
          trace (nl (lit "[WRITE] write() failed"));;
          say (nl (lit "  Error: write failed (read-only?)")) RED
      end
  end.

(** One line of [lspci].
    @src ross-kernel/src/shell.rs 306-312 cmd_lspci *)
Definition device_line (d : PciDevice) : str :=
  lit "    " ++ hex_pad 2 (bus d) ++ lit ":" ++ hex_pad 2 (device d) ++ lit "." ++ dec (function d) ++ lit "  " ++
  hex_pad 4 (vendor_id d) ++ lit ":" ++ hex_pad 4 (device_id d) ++ lit "  " ++ lit (class_name (class d) (subclass d)) ++ [10].

(** @src ross-kernel/src/shell.rs 305-313 cmd_lspci *)
Fixpoint device_lines (ds : list PciDevice) : Wr unit :=
  match ds with
  | [] => mret tt
  | d :: ds => write_str (device_line d);; device_lines ds
  end.

(** @src ross-kernel/src/shell.rs 297-314 cmd_lspci *)
Definition cmd_lspci : Sh unit :=
  s ← get;
  match DEVICES s with
  | [] => say (nl (lit "  No PCI devices enumerated")) DIM
  | ds => say (nl (lit "  PCI Devices:")) ACCENT;; draw (device_lines ds)
  end.

(** @src ross-kernel/src/shell.rs 333-335 cmd_disk *)
Fixpoint hex_bytes (bs : list Z) : Wr unit :=
  match bs with
  | [] => mret tt
  | b :: bs => write_str (hex_pad 2 b);; write_str (lit " ");; hex_bytes bs
  end.

(** What is said about sector 0.
    @src ross-kernel/src/shell.rs 322-343 cmd_disk *)
Definition report_disk (r : result (list Z) string) : Sh unit :=
  match r with
  | Ok buf =>
      b0 ← lift (index buf 510); b1 ← lift (index buf 511);
      let sig := le_val [b0; b1] in
      draw (write_str (lit "  Sector 0 read OK  sig=0x");; write_str (hex_pad 4 sig);; write_str (lit " ");;
            write_str (if sig =? 0xAA55 then lit "(valid MBR)" else lit "(empty/not MBR)");; write_str [10]);;
      say (lit "  First 16 bytes: ") DIM;;
      draw (hex_bytes (take 16 buf);; put_char 10 FG SCALE)
  | Err e => say (lit "  AHCI error: ") RED;; say (lit e) RED;; draw (put_char 10 FG SCALE)
  end.

(** @src ross-kernel/src/shell.rs 316-344 cmd_disk *)
Definition cmd_disk : Sh unit :=
  s ← get;
  if negb (disk_ready (kn_world (sh_kn s))) then say (nl (lit "  AHCI: no SATA drive attached")) RED
  else r ← on_node (read_sectors 0 1 (replicate 512 0)); report_disk r.

(** After the command the processor halts for good: [Err tt].
    @src ross-kernel/src/shell.rs 346-354 cmd_reboot *)
Definition cmd_reboot : Sh (res unit) := on_hw (outb 0x64 0xFE);; mret (Err tt).

(** @src ross-kernel/src/shell.rs 363-378 cmd_help *)
Definition cmds : list (string * string) := [
  ("help", "Show this help message");
  ("clear", "Clear the terminal area");
  ("pwd", "Show current directory");
  ("cd", "Change directory: cd <path>");
  ("ls", "List directory (default: cwd)");
  ("lspci", "List enumerated PCI devices");
  ("disk", "Read sector 0 and show MBR signature");
  ("cat", "Print a file (relative paths use cwd)");
  ("write", "Write to a file: write <path> <content>");
  ("exec", "Execute an ELF binary");
  ("memory", "Show physical memory statistics");
  ("uptime", "Show system uptime");
  ("version", "Show ROSS version info");
  ("reboot", "Restart the system")
]%string.

(** @src ross-kernel/src/shell.rs 380-388 cmd_help *)
Fixpoint help_lines (l : list (string * string)) : Wr unit :=
  match l with
  | [] => mret tt
  | (name, desc) :: l =>
      put_str (lit "    ") FG SCALE;; put_str (lit name) FG SCALE;;
      put_str (replicate (10 - String.length name) 32) FG SCALE;;
      put_str (lit "- ") DIM SCALE;; put_str (lit desc) DIM SCALE;; put_char 10 FG SCALE;;
      help_lines l
  end.

(** @src ross-kernel/src/shell.rs 358-389 cmd_help *)
Definition cmd_help : Sh unit :=
  c ← cwd;
  draw (put_str (lit "  cwd: ") DIM SCALE;; put_str c ACCENT SCALE;; put_char 10 FG SCALE;;
        put_str (nl (lit "  Available commands:")) ACCENT SCALE;; help_lines cmds).

(** @src ross-kernel/src/shell.rs 400-418 cmd_memory *)
Definition cmd_memory : Sh unit :=
  s ← get;
  let free := free_mib (falloc (kn_vm (sh_kn s))) in
  let total := total_mib (falloc (kn_vm (sh_kn s))) in
  let used := sat_sub total free in
  draw (put_str (nl (lit "  Physical Memory")) ACCENT SCALE;;
        put_str (lit "    Total  : ") FG SCALE;; print_num total;; put_str (nl (lit " MiB")) FG SCALE;;
        put_str (lit "    Used   : ") FG SCALE;; print_num used;; put_str (nl (lit " MiB")) FG SCALE;;
        put_str (lit "    Free   : ") ACCENT SCALE;; print_num free;; put_str (nl (lit " MiB")) ACCENT SCALE).

(** @src ross-kernel/src/shell.rs 420-434 cmd_uptime *)
Definition cmd_uptime : Sh unit :=
  s ← get;
  let ticks := kn_ticks (sh_kn s) in
  let seconds := ticks / 100 in
  draw (put_str (lit "  Uptime: ") FG SCALE;; print_num (seconds / 60);; put_str (lit "m ") FG SCALE;;
        print_num (seconds mod 60);; put_str (lit "s  (") DIM SCALE;; print_num ticks;;
        put_str (nl (lit " ticks @ 100 Hz)")) DIM SCALE).

(** @src ross-kernel/src/shell.rs 436-439 cmd_version *)
Definition cmd_version : Wr unit :=
  put_str (nl (lit "  R.O.S.S.  Rapid Operating System Shell")) ACCENT SCALE;;
  put_str (nl (lit "  Phase 6  |  x86_64  |  Bare Metal")) DIM SCALE.

Context (st : Statics) (stack_ptr : Z).

(** @src ross-kernel/src/shell.rs 173-181 execute *)
Definition cmd_exec (raw : str) : Sh unit :=
  path ← resolve raw;
  r ← on_kn (spawn_process st stack_ptr path);
  match r with
  | Ok _ => mret tt
  | Err _ => say (nl (lit "  Error: failed to spawn process")) RED
  end.

(** [m], and the shell goes on. *)
Definition goes_on (m : Sh unit) : Sh (res unit) := m;; mret (Ok tt).

(** The dispatch; [Err tt] when the machine is being reset.  The kernel stack
    [exec] gives the new task is the allocator's, [stack_ptr].
    @src ross-kernel/src/shell.rs 135-190 execute *)
Definition execute (input : str) : Sh (res unit) :=
  trace (lit "[SHELL] Executing: ");; trace input;; trace [10];;
  let parts := words input in
  let cmd := default [] (head parts) in
  let args := tail parts in
  if decide (cmd = lit "help") then goes_on cmd_help
  else if decide (cmd = lit "clear") then goes_on (draw cmd_clear)
  else if decide (cmd = lit "memory") then goes_on cmd_memory
  else if decide (cmd = lit "uptime") then goes_on cmd_uptime
  else if decide (cmd = lit "version") then goes_on (draw cmd_version)
  else if decide (cmd = lit "pwd") then goes_on cmd_pwd
  else if decide (cmd = lit "cd") then goes_on (cmd_cd (default (lit "/mnt/disk") (head args)))
  else if decide (cmd = lit "ls") then
    let raw := default [] (head args) in
    goes_on (path ← (if non_empty raw then resolve raw else cwd); cmd_ls path)
  else if decide (cmd = lit "lspci") then goes_on cmd_lspci
  else if decide (cmd = lit "disk") then goes_on cmd_disk
  else if decide (cmd = lit "cat") then
    goes_on (match args with
             | raw :: _ => path ← resolve raw; cmd_cat path
             | [] => say (nl (lit "  Usage: cat <path>")) DIM
             end)
  else if decide (cmd = lit "write") then
    goes_on (match args with
             | p :: rest =>
                 let data := join 32 rest in
                 if non_empty data then path ← resolve p; cmd_write path data
                 else say (nl (lit "  Usage: write <path> <content>")) DIM
             | [] => say (nl (lit "  Usage: write <path> <content>")) DIM
             end)
  else if decide (cmd = lit "reboot") then cmd_reboot
  else if decide (cmd = lit "exec") then
    goes_on (match args with raw :: _ => cmd_exec raw | [] => say (nl (lit "  Usage: exec <path>")) DIM end)
  else if decide (cmd = []) then goes_on (mret tt)
  else goes_on (say (lit "  Error: unknown command '") RED;; say cmd RED;; say (nl (lit "'")) RED).

(** ** The line editor *)

(** The line typed so far, as the command it is.
    @src ross-kernel/src/shell.rs 71-73 handle_byte *)
Definition current_line : Sh str :=
  s ← get;
  raw ← lift (slice_to (LINE_BUF s) (LINE_LEN s));
  mret (trim (if utf8_valid raw then raw else [])).

(** [Err tt]: the machine is being reset.
    @src ross-kernel/src/shell.rs 56-98 handle_byte *)
Definition handle_byte (ch : Z) : Sh (res unit) :=
  s ← get;
  match sh_state s with
  | Splash => if ch =? 10 then set_state Active;; draw activate;; mret (Ok tt) else mret (Ok tt)
  | Active =>
      if ch =? 10 then
        draw (put_char 10 FG SCALE);;
        cmd ← current_line;
        _ ←? execute cmd;
        (fun s => set_line (LINE_BUF s) 0 s);;
        draw prompt;;
        mret (Ok tt)
      else if ch =? 0x08 then
        (if 0 <? LINE_LEN s then set_line (LINE_BUF s) (LINE_LEN s - 1);; draw (backspace SCALE) else mret tt);;
        mret (Ok tt)
      else if (32 <=? ch) && (ch <=? 126) then
        let len := LINE_LEN s in
        (if len <? MAX_LINE then
           (if len <? Z.of_nat (length (LINE_BUF s)) then set_line (<[Z.to_nat len := ch]> (LINE_BUF s)) (len + 1)
            else panic);;
           draw (put_char ch FG SCALE)
         else mret tt);;
        mret (Ok tt)
      else mret (Ok tt)
  end.

(** The main loop over the bytes of the ring buffer, until a reset. *)
Fixpoint type_keys (keys : list Z) : Sh (res unit) :=
  match keys with
  | [] => mret (Ok tt)
  | ch :: keys => _ ←? handle_byte ch; type_keys keys
  end.
End shell.

(** ** Decimal numbers *)

Lemma dec_from_acc fuel : forall n acc, dec_from fuel n acc = dec_from fuel n [] ++ acc.
Proof.
  induction fuel as [|fuel IH]; intros n acc; cbn [dec_from]; [done|]. case_match; [done|].
  rewrite (IH _ (_ :: acc)), (IH _ [_]), <- app_assoc. done.
Qed.

Lemma digits_dec fuel : forall n buf,
  0 < n < 10 ^ Z.of_nat fuel -> (length buf + fuel <= 20)%nat ->
  digits (S fuel) n buf = Ret (buf ++ reverse (dec_from fuel n [])).
Proof.
  induction fuel as [|fuel IH]; intros n buf Hn Hl; [simpl in Hn; lia|].
  rewrite Nat2Z.inj_succ, Z.pow_succ_r in Hn by lia. cbn [digits dec_from].
  rewrite (proj2 (Z.eqb_neq n 0)), (proj2 (Z.leb_gt 20 _)) by lia.
  destruct (Z.ltb_spec n 10).
  - replace (n / 10) with 0 by dm_lia. destruct fuel; cbn [digits]; done.
  - change (digits (S fuel) (n / 10) (buf ++ [48 + n mod 10]) = Ret (buf ++ reverse (dec_from fuel (n / 10) [48 + n mod 10]))).
    rewrite IH by (rewrite ?length_app; simpl; dm_lia).
    rewrite (dec_from_acc _ _ [_]), reverse_app, <- app_assoc. done.
Qed.

(** [print_num] prints what [{}] would. *)
Lemma print_num_dec n wr : fits 64 n -> print_num n wr = put_str (dec n) FG SCALE wr.
Proof.
  intros Hn. unfold print_num. destruct (Z.eqb_spec n 0) as [->|Hnz].
  { cbn [dec dec_from put_str]. change (48 + 0 mod 10) with 48. unfold dec, dec_from. cbn -[put_char].
    unfold mbind, M_bind. by destruct (put_char 48 FG SCALE wr) as [[[] ?]| |]. }
  unfold fits in Hn. rewrite (digits_dec 20) by (cbn; lia). erewrite run_bind by done. rewrite app_nil_l, reverse_involutive. done.
Qed.

(** ** Drawing *)

Lemma draws_char ch color : draws (put_char ch color SCALE).
Proof.
  intros wr Hok. destruct (put_char_ok wr ch color SCALE Hok) as (w1 & R & K & _); [unfold SCALE; lia|]. by exists w1.
Qed.

Lemma draws_put s color : draws (put_str s color SCALE).
Proof. apply draws_str. unfold SCALE. lia. Qed.

Lemma draws_ret : draws (mret tt).
Proof. intros wr Hok. by exists wr. Qed.

Lemma draws_num n : fits 64 n -> draws (print_num n).
Proof. intros Hn wr Hok. rewrite print_num_dec by done. by apply draws_put. Qed.

Lemma draws_get f : (forall wr, screen_ok wr -> draws (f wr)) -> draws (get ≫= f).
Proof. intros Hf wr Hok. erewrite run_bind by done. by apply Hf. Qed.

Lemma draws_mark : draws mark_input_start.
Proof. apply (draws_op MarkInput). done. Qed.

Ltac drawing :=
  repeat first
    [ apply draws_write | apply draws_put | apply draws_char | apply draws_mark | apply draws_str; lia
    | apply draws_num; assumption | apply draws_fill; unfold TERM_Y; lia
    | apply draws_pos; unfold LEFT_MARGIN, TERM_Y; lia | assumption | apply draws_seq ].

Lemma draws_prompt : draws prompt.
Proof. unfold prompt. drawing. Qed.

Lemma draws_below wr f : screen_ok wr -> draws (f (h wr - TERM_Y)) -> draws (rest ← lift (csub (h wr) TERM_Y); f rest).
Proof.
  intros [] Hf. unfold csub. rewrite (proj2 (Z.leb_le _ _)) by (unfold TERM_Y in *; lia). intros wr' Hok'.
  erewrite run_bind by done. by apply Hf.
Qed.

Lemma draws_clear : draws cmd_clear.
Proof.
  apply draws_get. intros wr Hok. pose proof Hok as []. apply (draws_below wr); [done|]. unfold TERM_Y in *. drawing.
Qed.

Lemma draws_activate : draws activate.
Proof.
  apply draws_get. intros wr Hok. pose proof Hok as [Hw Hh _ _ _ _]. unfold TERM_Y in Hh. cbv zeta.
  do 4 (apply draws_seq; [drawing|]).
  apply (draws_below wr (fun rest => fill_rect 0 TERM_Y (w wr) rest BG;; _)); [done|].
  do 4 (apply draws_seq; [drawing|]). apply draws_prompt.
Qed.

Lemma draws_files files : draws (list_files files).
Proof. induction files; cbn [list_files]; [apply draws_ret|drawing]. Qed.

Lemma draws_bytes bs : draws (show_bytes bs).
Proof.
  induction bs as [|b bs IH]; cbn [show_bytes]; [apply draws_ret|]. apply draws_seq; [|done].
  repeat case_match; drawing. apply draws_ret.
Qed.

Lemma draws_devices ds : draws (device_lines ds).
Proof. induction ds; cbn [device_lines]; [apply draws_ret|drawing]. Qed.

Lemma draws_hex bs : draws (hex_bytes bs).
Proof. induction bs; cbn [hex_bytes]; [apply draws_ret|drawing]. Qed.

Lemma draws_help l : draws (help_lines l).
Proof. induction l as [|[name desc] l IH]; cbn [help_lines]; [apply draws_ret|drawing]. Qed.

(** ** What the commands rely on *)

(** A call on the world behind the file system: it returns, the kernel's state
    is sound afterwards and the answer as promised. *)
Definition returns {W N X} (ok : Kernel W N PmmState -> Prop) (m : M W X) (k : Kernel W N PmmState) (Q : X -> Prop) : Prop :=
  exists r w, m (kn_world k) = Ret (r, w) /\ ok (set_world w k) /\ Q r.

Definition on_ok {X E} (P : X -> Prop) (r : result X E) : Prop := match r with Ok x => P x | Err _ => True end.

(** What is called returns, and keeps the kernel's state sound: [env_ok] says
    what that is, [node_ok] which nodes are meant. *)
Class ShellEnv {W N : Type} {VN : VfsNode W N} {BD : BlockDevice W} {DS : DiskStatus W} (st : Statics) (stack_ptr : Z) := {
  env_ok : Kernel W N PmmState -> Prop;
  node_ok : N -> Prop;
  env_open k path : env_ok k -> returns env_ok (open (kn_vfs k) path) k (on_ok node_ok);
  env_create k path : env_ok k -> returns env_ok (create (kn_vfs k) path) k (on_ok node_ok);
  env_attribute k n : env_ok k -> node_ok n -> returns env_ok (attribute n) k (fun st => 0 <= st_size st);
  env_read k n len : env_ok k -> node_ok n -> 0 <= len ->
    returns env_ok (read n 0 len) k (on_ok (fun bs => Z.of_nat (length bs) <= len));
  env_readdir k n : env_ok k -> node_ok n -> returns env_ok (readdir n) k (fun _ => True);
  env_write k n data : env_ok k -> node_ok n -> returns env_ok (write n 0 data) k (fun _ => True);
  env_disk k : env_ok k -> disk_ready (kn_world k) = true ->
    returns env_ok (read_sectors 0 1 (replicate 512 0)) k (on_ok (fun buf => length buf = 512%nat));
  env_spawn k path : env_ok k -> exists r k', spawn_process st stack_ptr path k = Ret (r, k') /\ env_ok k';
  env_serial k l : env_ok k -> env_ok (set_serial l k);
  env_pages k : env_ok k -> fits 64 (free_mib (falloc (kn_vm k))) /\ fits 64 (total_mib (falloc (kn_vm k)));
  env_ticks k : env_ok k -> fits 64 (kn_ticks k)
}.

(** ** Commands that leave the shell sound *)

Definition printable_byte (b : Z) : Prop := 32 <= b <= 126.

Section sound.
Context {W N H : Type} {VN : VfsNode W N} {BD : BlockDevice W} {DS : DiskStatus W} {HW : Hardware H}.
Context (st : Statics) (stack_ptr : Z) {EN : ShellEnv st stack_ptr}.
Notation Sh := (M (Shell W N H)).

(** The line typed so far. *)
Definition line (s : Shell W N H) : list Z := take (Z.to_nat (LINE_LEN s)) (LINE_BUF s).

Record shell_ok (s : Shell W N H) : Prop := {
  sk_buf : length (LINE_BUF s) = 128%nat;
  sk_len : 0 <= LINE_LEN s <= 128;
  sk_line : Forall printable_byte (line s);
  sk_cwd_buf : length (CWD_BUF s) = 64%nat;
  sk_cwd_len : 0 <= CWD_LEN s <= 64;
  sk_cwd : Forall ascii_byte (take (Z.to_nat (CWD_LEN s)) (CWD_BUF s));
  sk_wr : screen_ok (sh_wr s);
  sk_kn : env_ok (sh_kn s)
}.

(** [m] returns an answer as in [Q] and leaves the shell sound. *)
Definition good {A} (m : Sh A) (Q : A -> Prop) : Prop :=
  forall s, shell_ok s -> exists a s', m s = Ret (a, s') /\ shell_ok s' /\ Q a.

Lemma good_ret {A} (a : A) (Q : A -> Prop) : Q a -> good (mret a) Q.
Proof. intros HQ s Hs. by exists a, s. Qed.

Lemma good_bind {A B} (m : Sh A) (f : A -> Sh B) Q R :
  good m Q -> (forall a, Q a -> good (f a) R) -> good (m ≫= f) R.
Proof.
  intros Hm Hf s Hs. destruct (Hm s Hs) as (a & s1 & R1 & Hs1 & HQ).
  destruct (Hf a HQ s1 Hs1) as (b & s2 & R2 & Hs2 & HR). exists b, s2. by rewrite (run_bind _ _ _ _ _ R1).
Qed.

Lemma good_weaken {A} (m : Sh A) (Q R : A -> Prop) : good m Q -> (forall a, Q a -> R a) -> good m R.
Proof. intros Hm HQR s Hs. destruct (Hm s Hs) as (a & s1 & R1 & Hs1 & HQ). exists a, s1. eauto. Qed.

Lemma good_get {B} (f : Shell W N H -> Sh B) R : (forall s, shell_ok s -> good (f s) R) -> good (get ≫= f) R.
Proof. intros Hf s Hs. erewrite run_bind by done. by apply Hf. Qed.

Lemma good_draw m : draws m -> good (draw m) (fun _ => True).
Proof.
  intros Hm s Hs. destruct (Hm (sh_wr s)) as (wr & R & K); [apply Hs|]. eexists tt, _.
  split; [by apply run_zoom|]. split; [|done]. destruct Hs. constructor; try done. apply K.
Qed.

Lemma good_kn {X} (m : M (Kernel W N PmmState) X) (Q : X -> Prop) :
  (forall k, env_ok k -> exists r k', m k = Ret (r, k') /\ env_ok k' /\ Q r) -> good (on_kn m) Q.
Proof.
  intros Hm s Hs. destruct (Hm (sh_kn s)) as (r & k & R & K & HQ); [apply Hs|]. eexists r, _.
  split; [by apply run_zoom|]. split; [|done]. by destruct Hs.
Qed.

Lemma good_world {X} (m : Kernel W N PmmState -> M W X) Q :
  (forall k, env_ok k -> returns env_ok (m k) k Q) -> good (on_kn (fun k => on_world (m k) k)) Q.
Proof.
  intros Hm. apply good_kn. intros k Hk. destruct (Hm k Hk) as (r & w & R & Hw & HQ). exists r, (set_world w k).
  split; [|done]. unfold on_world. by rewrite R.
Qed.

Lemma good_open path : good (sh_open path) (on_ok node_ok).
Proof. apply good_world. intros k. apply env_open. Qed.

Lemma good_create path : good (sh_create path) (on_ok node_ok).
Proof. apply good_world. intros k. apply env_create. Qed.

Lemma good_trace s : good (trace s) (fun _ => True).
Proof. apply good_kn. intros k Hk. eexists tt, _. split; [apply serial_print_run|]. split; [by apply env_serial|done]. Qed.

Lemma good_say s color : good (say s color) (fun _ => True).
Proof. apply good_draw, draws_put. Qed.

Lemma good_cwd : good cwd (Forall ascii_byte).
Proof.
  intros s Hs. exists (take (Z.to_nat (CWD_LEN s)) (CWD_BUF s)), s. split; [|split; [done|apply Hs]].
  unfold cwd. erewrite run_bind by done. unfold slice_to. destruct Hs. by rewrite (proj2 (Z.leb_le _ _)) by lia.
Qed.

Lemma good_resolve path : Forall ascii_byte path -> good (resolve path) (Forall ascii_byte).
Proof.
  intros Hp. eapply good_bind; [apply good_cwd|]. intros c Hc. apply good_ret. unfold resolve_in.
  destruct (starts_with _ _); [done|]. apply Forall_app. split; [|done].
  destruct (decide _); [done|]. apply Forall_app. split; [done|]. by repeat constructor.
Qed.

Ltac good_step :=
  first
    [ apply good_say | apply good_trace | apply good_draw; (drawing || idtac)
    | apply good_ret; done
    | eapply good_bind; [first [apply good_say | apply good_trace | apply good_open | apply good_create | apply good_cwd | apply good_draw; drawing]
                        | intros ? ?] ].

Lemma good_pwd : good cmd_pwd (fun _ => True).
Proof. unfold cmd_pwd. repeat good_step. Qed.

Lemma good_node {X} (m : M W X) Q : (forall k, env_ok k -> returns env_ok m k Q) -> good (on_node m) Q.
Proof. apply (good_world (fun _ => m)). Qed.

Lemma good_cd raw : Forall ascii_byte raw -> good (cmd_cd raw) (fun _ => True).
Proof.
  intros Hraw. eapply good_bind; [by apply good_resolve|]. intros path Hp. good_step.
  destruct a as [node|]; [|good_step]. eapply good_bind; [apply good_node; intros k Hk; by apply env_attribute|].
  intros stt _. cbn beta. destruct (st_type stt); [good_step|]. apply good_get. intros s0 Hs0.
  assert (length (CWD_BUF s0) = 64%nat) as Hl by apply Hs0. intros s Hs. eexists tt, _. split; [done|]. split; [|done].
  unfold MAX_CWD. destruct Hs. constructor; cbn [CWD_BUF CWD_LEN sh_state LINE_BUF LINE_LEN sh_wr sh_kn]; try done; try lia.
  - rewrite length_app, length_take, length_drop. lia.
  - rewrite take_app_le by (rewrite length_take; lia). apply Forall_take. by apply Forall_take.
Qed.

Lemma good_ls path : good (cmd_ls path) (fun _ => True).
Proof.
  unfold cmd_ls. good_step. destruct a as [node|]; [|good_step].
  eapply good_bind; [apply good_node; intros k Hk; by apply env_readdir|]. intros [files|] _; [|good_step].
  repeat good_step. apply draws_files.
Qed.

Lemma good_cat path : good (cmd_cat path) (fun _ => True).
Proof.
  unfold cmd_cat. good_step. destruct a as [node|]; [|good_step].
  eapply good_bind; [apply good_node; intros k Hk; by apply env_attribute|]. intros stt Hst. cbn beta in *.
  destruct (Z.eqb_spec (st_size stt) 0); [good_step|].
  eapply good_bind; [apply good_node; intros k Hk; apply (env_read k node (Z.min (st_size stt) 4096)); [done|done|lia]|].
  intros [bs|] Hbs; [|good_step]. cbn in Hbs. rewrite (proj2 (Z.leb_le _ _)) by done.
  apply good_draw, draws_seq; [apply draws_bytes|drawing].
Qed.

Lemma good_node_for path : good (node_for path) (on_ok node_ok).
Proof.
  unfold node_for. good_step. destruct a as [node|].
  { good_step. by apply good_ret. }
  good_step. destruct a as [node|]; repeat good_step.
Qed.

Lemma good_write path data : good (cmd_write path data) (fun _ => True).
Proof.
  unfold cmd_write. do 3 good_step. eapply good_bind; [apply good_node_for|]. intros [node|] Hn; [|by apply good_ret].
  eapply good_bind; [apply good_node; intros k Hk; by apply env_write|]. intros [n|] _; repeat good_step.
Qed.

Lemma good_lspci : good cmd_lspci (fun _ => True).
Proof.
  apply good_get. intros s Hs. destruct (DEVICES s); repeat good_step. apply draws_devices.
Qed.

Lemma good_index (buf : list Z) i : 0 <= i < Z.of_nat (length buf) -> good (lift (index buf i)) (fun _ => True).
Proof.
  intros Hi s Hs. destruct (lookup_lt_is_Some_2 buf (Z.to_nat i)) as [b E]; [lia|]. exists b, s.
  unfold index. rewrite (proj2 (Z.ltb_ge _ _)), E by lia. done.
Qed.

Lemma good_report r : on_ok (fun buf => length buf = 512%nat) r -> good (report_disk r) (fun _ => True).
Proof.
  destruct r as [buf|e]; intros Hr; cbn [report_disk]; [|repeat good_step]. cbn in Hr.
  eapply good_bind; [apply good_index; lia|]. intros b0 _. eapply good_bind; [apply good_index; lia|]. intros b1 _. cbv zeta.
  eapply good_bind; [apply good_draw; drawing; case_match; drawing|]. intros _ _. good_step.
  apply good_draw. apply draws_seq; [apply draws_hex|drawing].
Qed.

Lemma good_disk : good cmd_disk (fun _ => True).
Proof.
  intros s Hs. unfold cmd_disk. erewrite run_bind by done.
  destruct (disk_ready _) eqn:Hd; cbn [negb]; [|by apply good_say].
  destruct (env_disk (sh_kn s)) as (r & w & R & Hw & HQ); [apply Hs|done|].
  erewrite run_bind by (apply run_zoom; unfold on_world; by rewrite R).
  apply good_report; [done|]. by destruct Hs.
Qed.

Lemma good_exec raw : Forall ascii_byte raw -> good (cmd_exec st stack_ptr raw) (fun _ => True).
Proof.
  intros Hr. eapply good_bind; [by apply good_resolve|]. intros path _.
  eapply (good_bind _ _ (fun _ => True)); [|intros [|] _; good_step].
  apply good_kn. intros k Hk. destruct (env_spawn k path Hk) as (r & k' & R & Hk'). by exists r, k'.
Qed.

Lemma good_memory : good cmd_memory (fun _ => True).
Proof.
  apply good_get. intros s Hs. destruct (env_pages (sh_kn s)) as [Hf Ht]; [apply Hs|]. cbv zeta.
  assert (fits 64 (sat_sub (total_mib (falloc (kn_vm (sh_kn s)))) (free_mib (falloc (kn_vm (sh_kn s)))))) as Hu.
  { unfold sat_sub, fits in *. lia. }
  apply good_draw. drawing.
Qed.

Lemma good_uptime : good cmd_uptime (fun _ => True).
Proof.
  apply good_get. intros s Hs. assert (fits 64 (kn_ticks (sh_kn s))) as Ht by (apply env_ticks, Hs). cbv zeta.
  assert (fits 64 (kn_ticks (sh_kn s) / 100 / 60) /\ fits 64 (kn_ticks (sh_kn s) / 100 mod 60)) as [Hm Hsec].
  { unfold fits in *. split; dm_lia. }
  apply good_draw. drawing.
Qed.

Lemma good_goes_on m : good m (fun _ => True) -> good (goes_on m) (fun _ => True).
Proof. intros Hm. eapply good_bind; [done|]. intros [] _. by apply good_ret. Qed.

(** The words of an ASCII line are ASCII. *)
Lemma words_ascii l : Forall ascii_byte l -> Forall (Forall ascii_byte) (words l).
Proof.
  induction 1 as [|b l Hb Hl IH]; [constructor|]. cbn [words]. destruct (is_space b); [done|].
  destruct l as [|c l]; [by rewrite !Forall_singleton|].
  destruct (is_space c); [apply Forall_cons; split; [by rewrite Forall_singleton|done]|].
  destruct (words (c :: l)) as [|w ws]; [by rewrite !Forall_singleton|].
  apply Forall_cons in IH as [Hw Hws]. apply Forall_cons. split; [|done]. by apply Forall_cons.
Qed.

(** Every command, whatever its arguments. *)
Lemma good_execute input : Forall ascii_byte input -> good (execute st stack_ptr input) (fun _ => True).
Proof.
  intros Hin. unfold execute. do 3 good_step. cbv zeta. pose proof (words_ascii input Hin) as Hw.
  assert (Forall (Forall ascii_byte) (tail (words input))) as Hargs by (by destruct Hw).
  generalize dependent (tail (words input)). generalize (default [] (head (words input))). intros cmd args Hargs.
  assert (Forall ascii_byte (default (lit "/mnt/disk") (head args)) /\ Forall ascii_byte (default [] (head args))) as [Hd1 Hd2].
  { destruct Hargs; [|done]. split; by repeat constructor. }
  repeat case_decide; try apply good_goes_on.
  - unfold cmd_help. good_step. apply good_draw. do 4 (apply draws_seq; [drawing|]). apply draws_help.
  - apply good_draw, draws_clear.
  - apply good_memory.
  - apply good_uptime.
  - apply good_draw. unfold cmd_version. drawing.
  - apply good_pwd.
  - by apply good_cd.
  - eapply good_bind; [|intros path Hp; apply good_ls]. destruct (non_empty _); [by apply good_resolve|apply good_cwd].
  - apply good_lspci.
  - apply good_disk.
  - destruct Hargs; [good_step|]. eapply good_bind; [by apply good_resolve|]. intros path _. apply good_cat.
  - destruct Hargs; [good_step|]. case_match; [|good_step].
    eapply good_bind; [by apply good_resolve|]. intros path _. apply good_write.
  - intros s Hs. eexists _, _. split; [done|]. split; [|done]. by destruct Hs.
  - destruct Hargs; [good_step|]. by apply good_exec.
  - by apply good_ret.
  - repeat good_step.
Qed.

(** ** The line editor *)

(** What a key does to a line: the abstract editor. *)
Definition edit (l : list Z) (ch : Z) : list Z :=
  if ch =? 0x08 then removelast l
  else if (32 <=? ch) && (ch <=? 126) && (Z.of_nat (length l) <? MAX_LINE) then l ++ [ch]
  else l.

(** Only the line and the screen changed. *)
Definition untouched (s s' : Shell W N H) : Prop :=
  sh_state s' = sh_state s /\ CWD_BUF s' = CWD_BUF s /\ CWD_LEN s' = CWD_LEN s /\ sh_kn s' = sh_kn s /\
  DEVICES s' = DEVICES s /\ sh_hw s' = sh_hw s.

Lemma untouched_trans a b c : untouched a b -> untouched b c -> untouched a c.
Proof. intros (? & ? & ? & ? & ? & ?) (? & ? & ? & ? & ? & ?). unfold untouched. repeat split; congruence. Qed.

Lemma length_line s : shell_ok s -> Z.of_nat (length (line s)) = LINE_LEN s.
Proof. intros []. unfold line. rewrite length_take. lia. Qed.

Lemma draw_run m s : draws m -> shell_ok s ->
  exists wr, draw m s = Ret (tt, set_wr wr s) /\ shell_ok (set_wr wr s).
Proof.
  intros Hm Hs. destruct (Hm (sh_wr s)) as (wr & R & K); [apply Hs|]. exists wr. split; [by apply run_zoom|].
  destruct Hs. constructor; try done. apply K.
Qed.

(** A shorter line, and a longer one. *)
Lemma shell_ok_take s n : shell_ok s -> 0 <= n <= LINE_LEN s ->
  let s' := mkShell (sh_state s) (LINE_BUF s) n (CWD_BUF s) (CWD_LEN s) (sh_wr s) (sh_kn s) (DEVICES s) (sh_hw s) in
  shell_ok s' /\ line s' = take (Z.to_nat n) (line s).
Proof.
  intros Hs Hn s'. assert (line s' = take (Z.to_nat n) (line s)) as E.
  { unfold line, s'. cbn [LINE_BUF LINE_LEN]. by rewrite take_take, Nat.min_l by lia. }
  split; [|done]. destruct Hs. constructor; try done; [cbn; lia|]. rewrite E. by apply Forall_take.
Qed.

Lemma shell_ok_snoc s ch : shell_ok s -> printable_byte ch -> LINE_LEN s < 128 ->
  let s' := mkShell (sh_state s) (<[Z.to_nat (LINE_LEN s) := ch]> (LINE_BUF s)) (LINE_LEN s + 1) (CWD_BUF s) (CWD_LEN s)
              (sh_wr s) (sh_kn s) (DEVICES s) (sh_hw s) in
  shell_ok s' /\ line s' = line s ++ [ch].
Proof.
  intros Hs Hc Hl s'. assert (line s' = line s ++ [ch]) as E.
  { unfold line, s'. cbn [LINE_BUF LINE_LEN]. destruct Hs. replace (Z.to_nat (LINE_LEN s + 1)) with (S (Z.to_nat (LINE_LEN s))) by lia.
    rewrite (take_S_r _ _ ch) by (apply list_lookup_insert_eq; lia). by rewrite take_insert_ge by lia. }
  split; [|done]. destruct Hs. constructor; try done; cbn [LINE_BUF LINE_LEN s']; [by rewrite length_insert|lia|].
  rewrite E. apply Forall_app. split; [done|by repeat constructor; apply Hc].
Qed.

(** One key other than Enter. *)
Lemma key_step s ch : shell_ok s -> sh_state s = Active -> ch <> 10 ->
  exists s', handle_byte st stack_ptr ch s = Ret (Ok tt, s') /\ shell_ok s' /\ untouched s s' /\ line s' = edit (line s) ch.
Proof.
  intros Hs Ha Hc. unfold handle_byte, edit. erewrite run_bind by done. rewrite Ha, (length_line s Hs).
  rewrite (proj2 (Z.eqb_neq ch 10)) by done. pose proof (sk_len s Hs).
  destruct (Z.eqb_spec ch 8) as [->|H8].
  - destruct (Z.ltb_spec 0 (LINE_LEN s)).
    + destruct (shell_ok_take s (LINE_LEN s - 1) Hs) as [Hs1 E1]; [lia|]. set (s1 := mkShell _ _ _ _ _ _ _ _ _) in *.
      destruct (draw_run (backspace SCALE) s1) as (wr & R & Hok); [apply (draws_op (Backspace SCALE)); cbn; unfold SCALE; lia|done|].
      exists (set_wr wr s1). split; [|split; [done|split; [done|]]].
      * erewrite run_bind; [done|]. erewrite run_bind by done. exact R.
      * change (line (set_wr wr s1)) with (line s1). rewrite E1, removelast_firstn_len.
        pose proof (length_line s Hs). f_equal. lia.
    + exists s. split; [by erewrite run_bind by done|]. split; [done|]. split; [done|].
      pose proof (length_line s Hs). destruct (line s); [done|simpl in *; lia].
  - destruct ((32 <=? ch) && (ch <=? 126)) eqn:Hp; [|by exists s]. cbn [andb]. unfold MAX_LINE.
    destruct (Z.ltb_spec (LINE_LEN s) 128).
    + rewrite (proj2 (Z.ltb_lt _ _)) by (rewrite (sk_buf s Hs); lia).
      destruct (shell_ok_snoc s ch Hs) as [Hs1 E1]; [unfold printable_byte; lia|done|]. set (s1 := mkShell _ _ _ _ _ _ _ _ _) in *.
      destruct (draw_run (put_char ch FG SCALE) s1) as (wr & R & Hok); [apply draws_char|done|].
      exists (set_wr wr s1). split; [|done]. erewrite run_bind; [done|]. erewrite run_bind by done. exact R.
    + exists s. by erewrite run_bind by done.
Qed.

Lemma type_line keys : forall s, shell_ok s -> sh_state s = Active -> Forall (fun ch => ch <> 10) keys ->
  exists s', type_keys st stack_ptr keys s = Ret (Ok tt, s') /\ shell_ok s' /\ untouched s s' /\ line s' = foldl edit (line s) keys.
Proof.
  induction keys as [|ch keys IH]; intros s Hs Ha Hk; cbn [type_keys]; [by exists s|].
  apply Forall_cons in Hk as [Hc Hk]. destruct (key_step s ch Hs Ha Hc) as (s1 & R1 & Hs1 & U1 & E1).
  destruct (IH s1) as (s2 & R2 & Hs2 & U2 & E2); [done| |done|].
  { destruct U1 as [-> _]. done. }
  exists s2. rewrite (run_try _ _ _ _ _ R1). split; [done|]. split; [done|]. split; [by eapply untouched_trans|].
  by rewrite E2, E1.
Qed.

Lemma type_keys_app keys keys' s s1 :
  type_keys st stack_ptr keys s = Ret (Ok tt, s1) -> type_keys st stack_ptr (keys ++ keys') s = type_keys st stack_ptr keys' s1.
Proof.
  revert s. induction keys as [|ch keys IH]; intros s; cbn [type_keys app].
  { unfold_m. by intros [= ->]. }
  unfold_m. destruct (handle_byte st stack_ptr ch s) as [[[[]|e] s2]| |]; [apply IH|done..].
Qed.

Lemma printable_ascii l : Forall printable_byte l -> Forall ascii_byte l.
Proof. intros Hl. eapply Forall_impl; [exact Hl|]. unfold printable_byte, ascii_byte. lia. Qed.

Lemma drop_while_ws_drop head fuel l : exists k, drop_while_ws head fuel l = drop k l.
Proof.
  revert l. induction fuel as [|fuel IH]; intros l; cbn [drop_while_ws]; [by exists O|].
  destruct (head l) as [|n]; [by exists O|]. destruct (IH (drop (S n) l)) as [k ->]. exists (S n + k)%nat. by rewrite drop_drop.
Qed.

Lemma trim_forall (P : Z -> Prop) l : Forall P l -> Forall P (trim l).
Proof.
  intros Hl. unfold trim. destruct (drop_while_ws_drop ws_head (length l) l) as [k ->].
  destruct (drop_while_ws_drop ws_last (length (drop k l)) (reverse (drop k l))) as [k' ->].
  apply Forall_reverse, Forall_drop, Forall_reverse, Forall_drop, Hl.
Qed.

Lemma current_line_run s : shell_ok s -> current_line s = Ret (trim (line s), s).
Proof.
  intros Hs. pose proof Hs as []. unfold current_line. erewrite run_bind by done. unfold slice_to.
  rewrite (proj2 (Z.leb_le _ _)) by lia. erewrite run_bind by done. fold (line s).
  by rewrite utf8_ascii by (by apply printable_ascii).
Qed.

(** Enter. *)
Lemma enter_step s : shell_ok s -> sh_state s = Active ->
  exists wr r s2 s3, execute st stack_ptr (trim (line s)) (set_wr wr s) = Ret (r, s2) /\
    handle_byte st stack_ptr 10 s = Ret (r, s3) /\ shell_ok s3 /\
    (r = Ok tt -> line s3 = [] /\ untouched s2 s3).
Proof.
  intros Hs Ha. destruct (draw_run (put_char 10 FG SCALE) s) as (wr & R & Hok); [apply draws_char|done|].
  destruct (good_execute (trim (line s))) with (s := set_wr wr s) as (r & s2 & R2 & Hs2 & _); [|done|].
  { apply trim_forall, printable_ascii, Hs. }
  exists wr, r, s2. unfold handle_byte. erewrite run_bind by done. rewrite Ha. cbn [Z.eqb Pos.eqb].
  rewrite (run_bind _ _ _ _ _ R), (run_bind _ _ _ _ _ (current_line_run _ Hok)).
  change (line (set_wr wr s)) with (line s).
  destruct r as [[]|[]].
  - rewrite (run_try _ _ _ _ _ R2). erewrite run_bind by done.
    destruct (shell_ok_take s2 0 Hs2) as [Hs3 E3]; [apply sk_len in Hs2; lia|]. set (s3 := mkShell _ _ _ _ _ _ _ _ _) in *.
    destruct (draw_run prompt s3 draws_prompt Hs3) as (wr' & R' & Hok'). exists (set_wr wr' s3).
    split; [done|]. split; [by rewrite (run_bind _ _ _ _ _ R')|]. done.
  - exists s2. rewrite (run_try_err _ _ _ _ _ R2). done.
Qed.

Lemma good_byte ch : good (handle_byte st stack_ptr ch) (fun _ => True).
Proof.
  intros s Hs. destruct (sh_state s) eqn:Es.
  - unfold handle_byte. erewrite run_bind by done. rewrite Es. destruct (ch =? 10); [|by eexists _, s].
    erewrite run_bind by done. set (s1 := mkShell _ _ _ _ _ _ _ _ _). assert (shell_ok s1) as Hs1 by (by destruct Hs).
    destruct (draw_run activate s1 draws_activate Hs1) as (wr & R & Hok). eexists _, _. by rewrite (run_bind _ _ _ _ _ R).
  - destruct (Z.eq_dec ch 10) as [->|Hc].
    + destruct (enter_step s Hs Es) as (wr & r & s2 & s3 & _ & R & Hs3 & _). by exists r, s3.
    + destruct (key_step s ch Hs Es Hc) as (s1 & R & Hs1 & _). by eexists _, s1.
Qed.

Lemma good_keys keys : good (type_keys st stack_ptr keys) (fun _ => True).
Proof.
  induction keys as [|ch keys IH]; cbn [type_keys]; [by apply good_ret|].
  eapply good_bind; [apply good_byte|]. intros [[]|[]] _; [exact IH|by apply good_ret].
Qed.

(** ** Properties *)

(** C37: the line editor edits a line.  Whatever keys are typed at the prompt,
    the buffer holds the result of appending the printable ones (up to 128)
    and of removing one character, if there is one, at each backspace; nothing
    else of the system changes.  Enter then executes exactly this line without
    the blanks around it, and leaves an empty line behind - or the machine has
    been reset. *)
Theorem line_editor_spec (s : Shell W N H) (keys : list Z)
    (Hs : shell_ok s) (Ha : sh_state s = Active) (Hk : Forall (fun ch => ch <> 10) keys) :
  let typed := foldl edit (line s) keys in
  Forall printable_byte typed /\ (length typed <= 128)%nat /\
  exists s1 wr r s2 s3,
    type_keys st stack_ptr keys s = Ret (Ok tt, s1) /\ untouched s s1 /\ line s1 = typed /\
    execute st stack_ptr (trim typed) (set_wr wr s1) = Ret (r, s2) /\
    type_keys st stack_ptr (keys ++ [10]) s = Ret (r, s3) /\
    (r = Ok tt -> line s3 = [] /\ untouched s2 s3).
Proof.
  cbv zeta. destruct (type_line keys s Hs Ha Hk) as (s1 & R1 & Hs1 & U1 & E1).
  destruct (enter_step s1 Hs1) as (wr & r & s2 & s3 & Rx & R & Hs3 & Hr).
  { destruct U1 as [-> _]. done. }
  rewrite <- E1. pose proof (length_line s1 Hs1). pose proof (sk_len s1 Hs1). split; [apply Hs1|]. split; [lia|].
  exists s1, wr, r, s2, s3. split; [done|]. split; [done|]. split; [done|]. split; [done|]. split; [|done].
  rewrite (type_keys_app _ _ _ _ R1). cbn [type_keys]. unfold try_bind. rewrite (run_bind _ _ _ _ _ R).
  by destruct r as [[]|[]].
Qed.

(** C38: nothing the user types breaks the shell: on every sequence of bytes it
    returns - no panic, no overflow, no write outside the screen - with its
    buffers within their bounds and all of its text ASCII, provided what it
    calls returns. *)
Theorem shell_invariant (s : Shell W N H) (keys : list Z) (Hs : shell_ok s) :
  exists r s', type_keys st stack_ptr keys s = Ret (r, s') /\ shell_ok s'.
Proof. destruct (good_keys keys s Hs) as (r & s' & R & Hs' & _). by exists r, s'. Qed.
End sound.

(** ** A small machine for the witnesses *)

(** A file system of one directory and one text, on a disk that reads zeros. *)
Inductive DemoNode := DemoDir | DemoText.

Definition demo_text : str := lit "Welcome to ROSS. Type help at the prompt to see what there is here.".

#[local] Instance demo_nodes : VfsNode unit DemoNode := {
  attribute n := mret (match n with DemoDir => mkStat 0 Directory | DemoText => mkStat (Z.of_nat (length demo_text)) File end);
  read n off len := mret (match n with DemoDir => Err tt | DemoText => Ok (take (Z.to_nat len) (drop (Z.to_nat off) demo_text)) end);
  readdir n := mret (match n with DemoDir => Ok [lit "motd"] | DemoText => Err tt end);
  finddir n name := mret (match n with DemoDir => Ok DemoText | DemoText => Err tt end);
  write := default_write;
  create_in := default_create
}.

#[local] Instance demo_disk : BlockDevice unit := {
  read_sectors lba count buf := mret (Ok buf);
  write_sectors lba count buf := mret (Err "read-only"%string)
}.

#[local] Instance demo_status : DiskStatus unit := { disk_ready _ := true }.

Definition demo_env_ok (k : Kernel unit DemoNode PmmState) : Prop :=
  kn_vfs k = mkVfs (Some DemoDir) (Some DemoDir) /\
  (fits 64 (free_mib (falloc (kn_vm k))) /\ fits 64 (total_mib (falloc (kn_vm k)))) /\ fits 64 (kn_ticks k).

Lemma demo_walk cs : forall n w, exists r, walk (W := unit) (N := DemoNode) n cs w = Ret (r, w).
Proof.
  induction cs as [|c cs IH]; intros n w; cbn [walk]; [by eexists|]. destruct n; [|by eexists]. erewrite run_try by done. apply IH.
Qed.

Lemma demo_open vfs path w : exists r, open (W := unit) (N := DemoNode) vfs path w = Ret (r, w).
Proof.
  unfold open. case_match; unfold ok_or; case_match; try (by eexists); erewrite run_try by done; apply demo_walk.
Qed.

Lemma demo_create vfs path w : exists r, create (W := unit) (N := DemoNode) vfs path w = Ret (r, w).
Proof.
  unfold create. case_match.
  assert (exists r, (if non_empty s then open vfs s else open vfs (lit "/")) w = Ret (r, w)) as [r E].
  { destruct (non_empty s); apply demo_open. }
  destruct r; [rewrite (run_try _ _ _ _ _ E)|rewrite (run_try_err _ _ _ _ _ E)]; by eexists.
Qed.

(** The same world afterwards, and an answer. *)
Lemma demo_returns {X} (m : M unit X) k (Q : X -> Prop) r :
  demo_env_ok k -> m tt = Ret (r, tt) -> Q r -> returns demo_env_ok m k Q.
Proof. intros Hk Hm HQ. exists r, tt. destruct k as [[]]. done. Qed.

Lemma demo_returns_any {X} (m : M unit (res X)) k :
  demo_env_ok k -> (exists r, m tt = Ret (r, tt)) -> returns demo_env_ok m k (on_ok (fun _ => True)).
Proof. intros Hk [r Hr]. apply (demo_returns m k _ r); [done|done|by destruct r]. Qed.

(** The text is no program. *)
Lemma demo_not_elf v : load_elf demo_statics demo_text v = Ret (Err tt, v).
Proof.
  unfold load_elf. assert ((64 <=? Z.of_nat (length demo_text)) = true) as -> by (vm_compute; reflexivity).
  assert (is_valid (elf_header demo_text) = false) as -> by (vm_compute; reflexivity). done.
Qed.

Lemma demo_on_world {X} (m : M unit X) (k : Kernel unit DemoNode PmmState) a : m tt = Ret (a, tt) -> on_world m k = Ret (a, k).
Proof. intros Hm. destruct k as [[]]. unfold on_world. cbn [kn_world]. by rewrite Hm. Qed.

Lemma demo_spawn k path : demo_env_ok k ->
  exists r k', spawn_process demo_statics 0xFFFFFFFF80300000 path k = Ret (r, k') /\ demo_env_ok k'.
Proof.
  intros Hk. unfold spawn_process. do 3 rewrite (run_bind _ _ _ _ _ (serial_print_run _ _)).
  set (k1 := set_serial _ _). assert (demo_env_ok k1) as Hk1 by done. generalize dependent k1. clear k Hk. intros k Hk.
  erewrite run_bind by done. destruct (demo_open (kn_vfs k) path tt) as [r E]. apply demo_on_world with (k := k) in E.
  destruct r as [n|[]]; [|by rewrite (run_try_err _ _ _ _ _ E); eexists _, _]. rewrite (run_try _ _ _ _ _ E).
  erewrite run_bind by (apply demo_on_world; reflexivity). destruct n.
  - erewrite run_try_err by (apply demo_on_world; reflexivity). by eexists _, _.
  - erewrite run_try by (apply demo_on_world; reflexivity). cbv zeta.
    set (data := _ ++ _). assert (data = demo_text) as -> by (vm_compute; reflexivity).
    destruct (logs_image demo_statics demo_text k) as [log R]. rewrite demo_not_elf in R.
    rewrite (run_try_err _ _ _ _ _ R). by eexists _, _.
Qed.

#[local] Program Instance demo_env : @ShellEnv unit DemoNode _ _ _ demo_statics 0xFFFFFFFF80300000 := {
  env_ok := demo_env_ok;
  node_ok _ := True
}.
Next Obligation. intros. apply demo_returns_any; [done|apply demo_open]. Qed.
Next Obligation. intros. apply demo_returns_any; [done|apply demo_create]. Qed.
Next Obligation. intros k n Hk _. eapply demo_returns; [done|done|]. by destruct n. Qed.
Next Obligation.
  intros k n len Hk _ Hlen. eapply demo_returns; [done|done|]. destruct n; cbn -[demo_text]; [done|]. rewrite length_take. lia.
Qed.
Next Obligation. intros k n Hk _. by eapply demo_returns. Qed.
Next Obligation. intros k n data Hk _. by eapply demo_returns. Qed.
Next Obligation. intros k Hk _. by eapply demo_returns. Qed.
Next Obligation. intros. by apply demo_spawn. Qed.
Next Obligation. done. Qed.
Next Obligation. intros k Hk. apply Hk. Qed.
Next Obligation. intros k Hk. apply Hk. Qed.

Definition demo_shell : Shell unit DemoNode Trace :=
  mkShell Active (replicate 128 0) 0 CWD_INIT 9 (Writer_new 640 480)
    (mkKernel tt (mkVm demo_boot big_pmm) 0x100000 Task.Scheduler_new 1 Ipc.PipeTable_new Kbuf.Ring_init
       (mkVfs (Some DemoDir) (Some DemoDir)) [] [] 4200) [] [].

#[local] Instance demo_trace_hw : Hardware Trace := trace_hw.

Lemma demo_shell_ok : shell_ok demo_statics 0xFFFFFFFF80300000 demo_shell.
Proof.
  constructor.
  - reflexivity.
  - cbn. lia.
  - cbn. constructor.
  - reflexivity.
  - cbn. lia.
  - change (Forall ascii_byte [47; 109; 110; 116; 47; 100; 105; 115; 107]). rewrite !Forall_cons. unfold ascii_byte. repeat split; try lia. constructor.
  - constructor; cbn; unfold TERM_Y, LEFT_MARGIN; try lia. intros i. rewrite lookup_empty. by intros [? ?].
  - split; [reflexivity|]. split; [split|]; vm_compute; split; congruence.
Qed.

(** Typing [lx], a backspace and [s]. *)
Example line_editor_spec_witness :
  let typed := foldl edit (line demo_shell) [108; 120; 8; 115] in
  typed = lit "ls" /\ Forall printable_byte typed /\ (length typed <= 128)%nat /\
  exists s1 wr r s2 s3,
    type_keys demo_statics 0xFFFFFFFF80300000 [108; 120; 8; 115] demo_shell = Ret (Ok tt, s1) /\
    untouched demo_shell s1 /\ line s1 = typed /\
    execute demo_statics 0xFFFFFFFF80300000 (trim typed) (set_wr wr s1) = Ret (r, s2) /\
    type_keys demo_statics 0xFFFFFFFF80300000 ([108; 120; 8; 115] ++ [10]) demo_shell = Ret (r, s3) /\
    (r = Ok tt -> line s3 = [] /\ untouched s2 s3).
Proof.
  split; [reflexivity|].
  apply (line_editor_spec demo_statics 0xFFFFFFFF80300000 demo_shell [108; 120; 8; 115] demo_shell_ok); [reflexivity|].
  repeat constructor; lia.
Defined.

Example shell_invariant_witness :
  exists r s', type_keys demo_statics 0xFFFFFFFF80300000 (lit "exec motd" ++ 10 :: lit "cd x" ++ [10; 7; 200]) demo_shell = Ret (r, s') /\
    shell_ok demo_statics 0xFFFFFFFF80300000 s'.
Proof. apply (shell_invariant demo_statics 0xFFFFFFFF80300000 demo_shell _ demo_shell_ok). Defined.
