(* ===== verification/Loader.v ===== *)
(** * The boot loader ([rb-loader/src/main.rs], [rb-loader/src/handoff.rs])

    What runs under UEFI before the kernel: the memory map is captured, the
    screen painted, [kernel.elf] and [initrd.tar] are read into pages, the
    higher half is mapped and the kernel entered.  The firmware - files, page
    allocation, the memory map - is a parameter of class [Firmware]; memory is
    the physical one, identity mapped.  [loader_spec] is what the kernel finds. *)

From Stdlib Require Import String.
From S2P Require Import Prelude Bytes Frames Pmm Paging Spaces Str Font Io.

(** ** The memory map *)

(** Memory types of UEFI; the loader tells these apart. *)
Inductive MemoryType :=
  | CONVENTIONAL
  | LOADER_CODE
  | LOADER_DATA
  | OTHER_TYPE (n : Z).

Record MemoryDescriptor := mkDesc {
  ty : MemoryType;
  phys_start : Z;
  page_count : Z
}.

(** @src rb-loader/src/main.rs 18-18 MAX_REGIONS *)
Definition MAX_REGIONS : Z := 128.

(** @src rb-loader/src/main.rs 60-64 main *)
Definition kind_of (t : MemoryType) : MemoryKind :=
  match t with
  | CONVENTIONAL => Usable
  | LOADER_CODE | LOADER_DATA => Used
  | OTHER_TYPE _ => Reserved
  end.

(** @src rb-loader/src/main.rs 57-75 main *)
Fixpoint capture (entries : list MemoryDescriptor) (count : Z) : outcome (list MemoryRegion) :=
  match entries with
  | [] => Ret []
  | desc :: entries =>
      if MAX_REGIONS <=? count then Ret []
      else
        size ← cmul 64 (page_count desc) 4096;
        regions ← capture entries (count + 1);
        Ret (mkRegion (phys_start desc) size (kind_of (ty desc)) :: regions)
  end.

(** ** The screen *)

Definition modify_bytes (f : mem -> mem) : M mem unit := fun m => Ret (tt, f m).

(** The white pixels of one row of a glyph.
    @src rb-loader/src/main.rs 34-43 draw_string *)
Definition draw_row (ptr width x y gy row : Z) : M mem unit :=
  for_in 0 8 (fun gx =>
    if Z.land (Z.shiftr row (7 - gx)) 1 =? 1 then
      line ← lift (cmul 64 (y + gy) width);
      pixel ← lift (cadd 64 line (x + gx));
      offset ← lift (cmul 64 pixel 4);
      modify_bytes (st_bytes [255; 255; 255] (ptr + offset))
    else mret tt).

(** @src rb-loader/src/main.rs 27-48 draw_string *)
Fixpoint draw_string (ptr width x y : Z) (text : str) : M mem unit :=
  match text with
  | [] => mret tt
  | ascii :: text =>
      if ascii <? 128 then
        let glyph := FONT_BASIC !!! Z.to_nat ascii in
        for_in 0 8 (fun gy => draw_row ptr width x y gy (glyph !!! Z.to_nat gy));;
        draw_string ptr width (x + 10) y text
      else draw_string ptr width x y text
  end.

(** @src rb-loader/src/main.rs 88-91 main *)
Definition paint (ptr width height : Z) : M mem unit :=
  n ← lift (cmul 64 width height);
  for_in 0 n (fun i => modify_bytes (st32 (ptr + 4 * i) 0x00800000)).

(** ** The higher half *)

(** The loader's three page tables. *)
Record Tables := mkTables { t_pml4 : Z; t_pdpt : Z; t_pd : Z }.

(** [table.0[i] = v]. *)
Definition tbl_write (f i v : Z) (m : mem) : mem := st64 (f + 8 * i) v m.

(** @src rb-loader/src/handoff.rs 113-116 map_higher_half *)
Definition fill_pd (pd : Z) (m : mem) : mem :=
  foldl (fun m i => tbl_write pd i (Z.lor (Z.lor (i * 0x200000) 0x3) 0x80) m) m (seqZ 0 512).

(** The new CR3.
    @src rb-loader/src/handoff.rs 100-120 map_higher_half *)
Definition map_higher_half (t : Tables) (cr3 : Z) (m : mem) : Z * mem :=
  let old_pml4 := Z.land cr3 (notw 64 0xFFF) in
  let m := tbl_write (t_pml4 t) 0 (ld64 m old_pml4) m in
  let m := tbl_write (t_pml4 t) 511 (Z.lor (t_pdpt t) 0x3) m in
  let m := tbl_write (t_pdpt t) 510 (Z.lor (t_pd t) 0x3) m in
  let m := fill_pd (t_pd t) m in
  (t_pml4 t, m).

(** ** Files and the handoff *)

(** What the loader asks of UEFI: a file of the boot volume ([None] when there
    is none of that name, [Some None] when it is a directory), pages at an
    address or anywhere, the memory map. *)
Class Firmware (F : Type) := {
  fw_file : F -> str -> option (option (list Z));
  allocate_pages : option Z -> MemoryType -> Z -> F -> option Z * F;
  memory_map : F -> list MemoryDescriptor
}.

(** @src ross-common/src/lib.rs 23-33 BootInfo *)
Record BootInfo := mkInfo {
  framebuffer_ptr : Z;
  framebuffer_size : Z;
  screen_width : Z;
  screen_height : Z;
  bi_memory_map : list MemoryRegion;
  ramdisk_addr : Z;
  ramdisk_size : Z
}.

Record Ld (F : Type) := mkLd { ld_fw : F; ld_mem : mem; ld_cr3 : Z }.
Arguments mkLd {F}.
Arguments ld_fw {F}.
Arguments ld_mem {F}.
Arguments ld_cr3 {F}.

Section loader.
Context {F : Type} {FW : Firmware F}.
Notation L := (M (Ld F)).

Definition in_mem {A} (m : M mem A) : L A := zoom ld_mem (fun m s => mkLd (ld_fw s) m (ld_cr3 s)) m.
Definition alloc (at_ : option Z) (t : MemoryType) (pages : Z) : L (option Z) := fun s =>
  let '(a, fw) := allocate_pages at_ t pages (ld_fw s) in Ret (a, mkLd fw (ld_mem s) (ld_cr3 s)).

(** [file.read(buffer)] on a buffer of the file's size. *)
Definition read_into (addr : Z) (data : list Z) : L unit := in_mem (modify_bytes (st_bytes data addr)).

Definition pages_for (data : list Z) : L Z :=
  size ← lift (cadd 64 (Z.of_nat (length data)) 4095); mret (size / 4096).

(** @src rb-loader/src/handoff.rs 5-45 load_kernel_file *)
Definition load_kernel_file : L Z :=
  s ← get;
  match fw_file (ld_fw s) (lit "kernel.elf") with
  | None | Some None => panic
  | Some (Some data) =>
      pages ← pages_for data;
      a ← alloc (Some 0x200000) LOADER_CODE pages;
      a ← (match a with Some _ => mret a | None => alloc None LOADER_CODE pages end);
      match a with
      | None => panic
      | Some addr => read_into addr data;; mret addr
      end
  end.

(** The null pointer and 0 when there is no ramdisk.
    @src rb-loader/src/handoff.rs 47-90 load_ramdisk_file *)
Definition load_ramdisk_file : L (Z * Z) :=
  s ← get;
  match fw_file (ld_fw s) (lit "initrd.tar") with
  | None | Some None => mret (0, 0)
  | Some (Some data) =>
      pages ← pages_for data;
      a ← alloc None LOADER_DATA pages;
      match a with
      | None => mret (0, 0)
      | Some addr => read_into addr data;; mret (addr, Z.of_nat (length data))
      end
  end.

(** [map_higher_half] on the machine. *)
Definition switch_tables (t : Tables) : L unit := fun s =>
  let '(cr3, m) := map_higher_half t (ld_cr3 s) (ld_mem s) in Ret (tt, mkLd (ld_fw s) m cr3).

(** [ptr], [width] and [height] are the framebuffer's. The address jumped to and
    what the kernel is given.
    @src rb-loader/src/main.rs 51-121 main *)
Definition main (t : Tables) (ptr width height : Z) : L (Z * BootInfo) :=
  s ← get;
  regions ← lift (capture (memory_map (ld_fw s)) 0);
  in_mem (paint ptr width height);;
  in_mem (draw_string ptr width 50 50 (lit "ROSS Loader Active"));;
  _ ← load_kernel_file;
  rd ← load_ramdisk_file;
  in_mem (draw_string ptr width 50 100 (lit "Jumping to Kernel..."));;
  size ← lift (cmul 64 width height);
  bytes ← lift (cmul 64 size 4);
  let info := mkInfo ptr bytes width height regions rd.1 rd.2 in
  switch_tables t;;
  mret (0xFFFFFFFF80200000, info).
End loader.

(** ** Memory outside a range *)

(** Only the [n] bytes from [a] changed. *)
Definition only (a n : Z) (m m' : mem) : Prop := forall x, x < a \/ a + n <= x -> m' x = m x.

Lemma only_refl a n m : only a n m m.
Proof. done. Qed.

Lemma only_trans a n m1 m2 m3 : only a n m1 m2 -> only a n m2 m3 -> only a n m1 m3.
Proof. intros H12 H23 x Hx. rewrite H23 by done. by apply H12. Qed.

Lemma only_st_bytes a n l p m : a <= p -> p + Z.of_nat (length l) <= a + n -> only a n m (st_bytes l p m).
Proof. intros Hp Hl x Hx. apply st_bytes_out. lia. Qed.

(** [m] writes inside the range only. *)
Definition draws_in (a n : Z) (f : M mem unit) : Prop := forall m, exists m', f m = Ret (tt, m') /\ only a n m m'.

Lemma draws_in_seq a n f g : draws_in a n f -> draws_in a n g -> draws_in a n (f;; g).
Proof.
  intros Hf Hg m. destruct (Hf m) as (m1 & R1 & O1). destruct (Hg m1) as (m2 & R2 & O2). exists m2.
  rewrite (run_bind _ _ _ _ _ R1). split; [done|by eapply only_trans].
Qed.

Lemma draws_in_for a n lo hi (f : Z -> M mem unit) :
  lo <= hi -> (forall i, lo <= i < hi -> draws_in a n (f i)) -> draws_in a n (for_in lo hi f).
Proof.
  intros Hle Hf m. destruct (for_in_inv (fun _ => only a n m) f lo hi m Hle) as (m' & R & O); [|done|by exists m'].
  intros i s Hi HO. destruct (Hf i Hi s) as (s' & R & O). exists s'. split; [done|by eapply only_trans].
Qed.

(** ** The screen *)

Section screen.
Context (ptr width height : Z) (Hw : 0 <= width < 2 ^ 24) (Hh : 0 <= height < 2 ^ 24).

Lemma paint_ok : draws_in ptr (width * height * 4) (paint ptr width height).
Proof.
  assert (0 <= width * height < 2 ^ 48) as Hn by nia. intros m. unfold paint, cmul.
  rewrite (proj2 (Z.ltb_lt _ _)) by lia. erewrite run_bind by done. revert m.
  apply draws_in_for; [lia|]. intros i Hi m. eexists. split; [done|]. apply only_st_bytes; [lia|]. rewrite length_le_bytes. lia.
Qed.

Lemma draw_row_ok x y gy row : 0 <= x -> x + 8 <= width -> 0 <= y + gy < height ->
  draws_in ptr (width * height * 4) (draw_row ptr width x y gy row).
Proof.
  intros Hx Hxw Hy. apply draws_in_for; [lia|]. intros gx Hg. case_match; [|by intros m; exists m].
  assert (0 <= (y + gy) * width <= (height - 1) * width) as Hl by nia. assert (height * width < 2 ^ 48) as Hb by nia.
  intros m. unfold cmul, cadd. rewrite (proj2 (Z.ltb_lt _ (2 ^ 64))) by lia. erewrite run_bind by done.
  rewrite (proj2 (Z.ltb_lt _ (2 ^ 64))) by lia. erewrite run_bind by done.
  rewrite (proj2 (Z.ltb_lt _ (2 ^ 64))) by lia. erewrite run_bind by done.
  eexists. split; [done|]. apply only_st_bytes; simpl; lia.
Qed.

Lemma draw_string_ok y text : forall x, 0 <= x -> x + 10 * Z.of_nat (length text) <= width -> 0 <= y -> y + 8 <= height ->
  draws_in ptr (width * height * 4) (draw_string ptr width x y text).
Proof.
  induction text as [|c text IH]; intros x Hx Hl Hy Hyh; cbn [draw_string]; [by intros m; exists m|].
  cbn [length] in Hl. rewrite Nat2Z.inj_succ in Hl. destruct (c <? 128); [|apply IH; lia].
  apply draws_in_seq; [|apply IH; lia]. apply draws_in_for; [lia|]. intros gy Hg. apply draw_row_ok; lia.
Qed.
End screen.

(** ** The memory map *)

Lemma capture_run entries : forall count,
  Forall (fun d => 0 <= page_count d < 2 ^ 52) entries -> 0 <= count <= MAX_REGIONS ->
  capture entries count = Ret (map (fun d => mkRegion (phys_start d) (page_count d * 4096) (kind_of (ty d)))
                                   (take (Z.to_nat (MAX_REGIONS - count)) entries)).
Proof.
  induction entries as [|d entries IH]; intros count Hp Hc; cbn [capture]; [by rewrite take_nil|].
  apply Forall_cons in Hp as [Hd Hp]. destruct (Z.leb_spec MAX_REGIONS count).
  { by replace (Z.to_nat (MAX_REGIONS - count)) with 0%nat by lia. }
  unfold cmul. rewrite (proj2 (Z.ltb_lt _ _)) by lia. cbn [mbind outcome_bind]. rewrite IH by (done || lia).
  cbn [mbind outcome_bind].
  by replace (Z.to_nat (MAX_REGIONS - count)) with (S (Z.to_nat (MAX_REGIONS - (count + 1)))) by lia.
Qed.

(** ** The higher half *)

Record tables_ok (t : Tables) : Prop := {
  to_al : t_pml4 t mod 4096 = 0 /\ t_pdpt t mod 4096 = 0 /\ t_pd t mod 4096 = 0;
  to_lo : 0 <= t_pml4 t < 2 ^ 31 /\ 0 <= t_pdpt t < 2 ^ 31 /\ 0 <= t_pd t < 2 ^ 31;
  to_ne : t_pml4 t <> t_pdpt t /\ t_pml4 t <> t_pd t /\ t_pdpt t <> t_pd t
}.

Lemma tbl_write_pt f i v m : tbl_write f i v m = pt_write (f + KERNEL_VMA_BASE) i v m.
Proof. by rewrite pt_write_phys. Qed.

Definition big_page (i : Z) : option Z := Some (Z.lor (Z.lor (i * 0x200000) 0x3) 0x80).

Lemma fill_pd_entries pd m : fill_pd pd m = fill_entries (pd + KERNEL_VMA_BASE) big_page m.
Proof.
  unfold fill_pd, fill_entries. generalize (seqZ 0 512). intros l. revert m.
  induction l as [|i l IH]; intros m; cbn [foldl]; [done|]. by rewrite tbl_write_pt, IH.
Qed.

Section higher.
Context (t : Tables) (Ht : tables_ok t) (cr3 : Z) (m : mem).
Context (Hold : fits 64 (ld64 m (Z.land cr3 (notw 64 0xFFF)))).
Notation m' := (map_higher_half t cr3 m).2.

Lemma big_fits i : 0 <= i < 512 -> fits 64 (Z.lor (Z.lor (i * 0x200000) 0x3) 0x80).
Proof. intros Hi. do 2 (apply fits_lor; [lia| |by vm_compute]). unfold fits. lia. Qed.

Lemma higher_entries j : 0 <= j < 512 ->
  entry m' (t_pml4 t) 0 = ld64 m (Z.land cr3 (notw 64 0xFFF)) /\
  entry m' (t_pml4 t) 511 = Z.lor (t_pdpt t) 3 /\ entry m' (t_pdpt t) 510 = Z.lor (t_pd t) 3 /\
  entry m' (t_pd t) j = Z.lor (Z.lor (j * 0x200000) 0x3) 0x80.
Proof.
  intros Hj. destruct Ht as [(A1 & A2 & A3) (L1 & L2 & L3) (N1 & N2 & N3)].
  unfold map_higher_half. cbn [snd]. rewrite fill_pd_entries.
  destruct (fill_entries_spec (t_pd t) big_page (tbl_write (t_pdpt t) 510 (Z.lor (t_pd t) 3) (tbl_write (t_pml4 t) 511 (Z.lor (t_pdpt t) 3)
    (tbl_write (t_pml4 t) 0 (ld64 m (Z.land cr3 (notw 64 0xFFF))) m)))) as (_ & _ & E); [exact A3|by intros i v Hi [= <-]; apply big_fits|].
  assert (fits 64 (Z.lor (t_pdpt t) 3) /\ fits 64 (Z.lor (t_pd t) 3)) as [??].
  { split; (apply fits_lor; [lia|by apply frame_fits64|by vm_compute]). }
  rewrite !E by (done || lia). rewrite !tbl_write_pt. rewrite !(decide_False (P := _ = t_pd t)) by done. rewrite (decide_True (P := t_pd t = t_pd t)) by done.
  rewrite !entry_write by (done || lia). unfold big_page. cbn [default].
  repeat split; repeat case_decide; done || congruence || lia.
Qed.

Lemma higher_data x : page x <> t_pml4 t -> page x <> t_pdpt t -> page x <> t_pd t -> m' x = m x.
Proof.
  intros H1 H2 H3. destruct Ht as [(A1 & A2 & A3) _ _]. unfold map_higher_half. cbn [snd]. rewrite fill_pd_entries.
  destruct (fill_entries_spec (t_pd t) big_page (tbl_write (t_pdpt t) 510 (Z.lor (t_pd t) 3) (tbl_write (t_pml4 t) 511 (Z.lor (t_pdpt t) 3)
    (tbl_write (t_pml4 t) 0 (ld64 m (Z.land cr3 (notw 64 0xFFF))) m)))) as (_ & E & _); [exact A3|by intros i v Hi [= <-]; apply big_fits|].
  rewrite E by done. rewrite !tbl_write_pt. by rewrite !write_data by (done || lia).
Qed.

(** The first gigabyte at -2 GB. *)
Lemma higher_translate p : 0 <= p < 2 ^ 30 -> translate 4 m' (t_pml4 t) (KERNEL_VMA_BASE + p) = Some (p, false).
Proof.
  intros Hp. destruct Ht as [(A1 & A2 & A3) (L1 & L2 & L3) _].
  assert (lidx 4 (KERNEL_VMA_BASE + p) = 511) as I4 by (unfold KERNEL_VMA_BASE, lidx; cbn -[Z.div Z.modulo] in *; dm_lia).
  assert (lidx 3 (KERNEL_VMA_BASE + p) = 510) as I3 by (unfold KERNEL_VMA_BASE, lidx; cbn -[Z.div Z.modulo] in *; dm_lia).
  destruct (higher_entries (lidx 2 (KERNEL_VMA_BASE + p)) (lidx_range 2 _)) as (_ & E4 & E3 & E2).
  assert (forall c, c mod 4096 = 0 -> 0 <= c < 2 ^ 31 ->
    Z.testbit (Z.lor c 3) 0 = true /\ huge (Z.lor c 3) = false /\ frame_of (Z.lor c 3) = c) as H3.
  { intros c Hc Hr. split; [rewrite Z.lor_spec; apply orb_true_r|]. split; [by rewrite huge_flags|].
    apply frame_of_flags; [by apply frame_fits64|done|by vm_compute]. }
  destruct (H3 (t_pdpt t) A2 L2) as (B1 & B2 & B3). destruct (H3 (t_pd t) A3 L3) as (C1 & C2 & C3).
  rewrite translate_4. cbv zeta. rewrite I4, E4, B1, B3. cbn [negb].
  rewrite translate_3. cbv zeta. rewrite I3, E3, C1, C2, C3. cbn [negb].
  rewrite translate_2. cbv zeta. rewrite E2. set (j := lidx 2 _).
  assert (Z.lor (Z.lor (j * 0x200000) 3) 0x80 = big_entry j) as ->.
  { unfold big_entry. rewrite <- !Z.lor_assoc. done. }
  destruct (big_entry_facts j) as (_ & F1 & F2 & F3 & F4); [apply lidx_range|]. rewrite F1, F2, F3, F4. cbn [negb mbind option_bind].
  rewrite !andb_false_r. do 2 f_equal. unfold j, lidx, KERNEL_VMA_BASE. cbn -[Z.div Z.modulo] in *. dm_lia.
Qed.
End higher.

(** ** What the kernel finds *)

Definition apart (r1 r2 : Z * Z) : Prop := r1.1 + r1.2 <= r2.1 \/ r2.1 + r2.2 <= r1.1.
#[global] Instance apart_dec r1 r2 : Decision (apart r1 r2).
Proof. unfold apart. apply _. Defined.

Lemma ld_bytes_only m m' a n b k : only b k m m' -> apart (a, Z.of_nat n) (b, k) -> ld_bytes m' a n = ld_bytes m a n.
Proof. intros Ho Ha. apply ld_bytes_ext. intros x Hx. apply Ho. unfold apart in Ha. cbn in Ha. lia. Qed.

Lemma page_apart x f a n : f mod 4096 = 0 -> apart (a, n) (f, 4096) -> a <= x < a + n -> page x <> f.
Proof. unfold apart, page. cbn. intros. dm_lia. Qed.

Section handoff.
Context {F : Type} {FW : Firmware F}.
Context (t : Tables) (ptr width height : Z) (s : Ld F) (data rd : list Z) (rd_at : Z).

Definition pages_of (l : list Z) : Z := (Z.of_nat (length l) + 4095) / 4096.
Definition old_root : Z := Z.land (ld_cr3 s) (notw 64 0xFFF).

(** The firmware has both files and grants the kernel its address; the
    kernel, the ramdisk, the framebuffer and the loader's tables do not overlap,
    and the screen has room for the two messages. *)
Record Loading : Prop := {
  lo_tables : tables_ok t;
  lo_screen : 250 <= width < 2 ^ 24 /\ 108 <= height < 2 ^ 24;
  lo_map : Forall (fun d => 0 <= page_count d < 2 ^ 52) (memory_map (ld_fw s));
  lo_kernel : fw_file (ld_fw s) (lit "kernel.elf") = Some (Some data);
  lo_grant : exists fw1 fw2, allocate_pages (Some 0x200000) LOADER_CODE (pages_of data) (ld_fw s) = (Some 0x200000, fw1) /\
    fw_file fw1 (lit "initrd.tar") = Some (Some rd) /\
    allocate_pages None LOADER_DATA (pages_of rd) fw1 = (Some rd_at, fw2);
  lo_size : Z.of_nat (length data) < 2 ^ 30 - 0x200000 /\ Z.of_nat (length rd) < 2 ^ 63;
  lo_apart : let K := (0x200000, Z.of_nat (length data)) in let R := (rd_at, Z.of_nat (length rd)) in
    let FB := (ptr, width * height * 4) in let O := (old_root, 8) in
    (forall f, f ∈ [t_pml4 t; t_pdpt t; t_pd t] -> apart K (f, 4096) /\ apart R (f, 4096)) /\
    apart K R /\ apart K FB /\ apart R FB /\ apart O K /\ apart O R /\ apart O FB;
  lo_old : fits 64 (ld64 (ld_mem s) old_root)
}.

Lemma in_mem_run (f : M mem unit) a n (s0 : Ld F) : draws_in a n f ->
  exists m', in_mem f s0 = Ret (tt, mkLd (ld_fw s0) m' (ld_cr3 s0)) /\ only a n (ld_mem s0) m'.
Proof. intros Hf. destruct (Hf (ld_mem s0)) as (m' & R & O). exists m'. split; [|done]. unfold in_mem, zoom. by rewrite R. Qed.

Lemma pages_run (l : list Z) (s0 : Ld F) : Z.of_nat (length l) < 2 ^ 63 -> pages_for l s0 = Ret (pages_of l, s0).
Proof. intros Hl. unfold pages_for, cadd. rewrite (proj2 (Z.ltb_lt _ _)) by lia. done. Qed.

Lemma alloc_run at_ ty_ n (s0 : Ld F) a fw : allocate_pages at_ ty_ n (ld_fw s0) = (a, fw) ->
  alloc at_ ty_ n s0 = Ret (a, mkLd fw (ld_mem s0) (ld_cr3 s0)).
Proof. intros E. unfold alloc. by rewrite E. Qed.

(** The loader, up to the switch of tables. *)
Lemma loading_run : Loading ->
  exists fw2 m5,
    main t ptr width height s = Ret ((0xFFFFFFFF80200000,
        mkInfo ptr (width * height * 4) width height
          (map (fun d => mkRegion (phys_start d) (page_count d * 4096) (kind_of (ty d))) (take 128 (memory_map (ld_fw s))))
          rd_at (Z.of_nat (length rd))),
      mkLd fw2 (map_higher_half t (ld_cr3 s) m5).2 (t_pml4 t)) /\
    ld_bytes m5 0x200000 (length data) = data /\ ld_bytes m5 rd_at (length rd) = rd /\
    ld64 m5 old_root = ld64 (ld_mem s) old_root.
Proof.
  intros []. destruct lo_screen0 as [Hw Hh], lo_grant0 as (fw1 & fw2 & G1 & G2 & G3), lo_size0 as [S1 S2],
    lo_apart0 as (_ & KR & KF & RF & OK & OR & OF).
  unfold main. erewrite run_bind by done. rewrite capture_run by done. erewrite run_bind by done.
  destruct (in_mem_run _ _ _ s (paint_ok ptr width height ltac:(lia) ltac:(lia))) as (m1 & R1 & O1).
  rewrite (run_bind _ _ _ _ _ R1). set (s1 := mkLd (ld_fw s) m1 (ld_cr3 s)) in *.
  destruct (in_mem_run _ _ _ s1 (draw_string_ok ptr width height ltac:(lia) ltac:(lia) 50 (lit "ROSS Loader Active") 50
    ltac:(lia) ltac:(cbn; lia) ltac:(lia) ltac:(lia))) as (m2 & R2 & O2).
  rewrite (run_bind _ _ _ _ _ R2). cbn [s1 ld_fw ld_mem ld_cr3] in *. set (s2 := mkLd (ld_fw s) m2 (ld_cr3 s)) in *.
  set (m3 := st_bytes data 0x200000 m2). set (s3 := mkLd fw1 m3 (ld_cr3 s)).
  assert (load_kernel_file s2 = Ret (0x200000, s3)) as R3.
  { unfold load_kernel_file. erewrite run_bind by done. cbn [s2 ld_fw]. rewrite lo_kernel0.
    rewrite (run_bind _ _ _ _ _ (pages_run data s2 ltac:(lia))), (run_bind _ _ _ _ _ (alloc_run _ _ _ s2 _ _ G1)).
    erewrite run_bind by done. cbv iota. erewrite run_bind by done. done. }
  rewrite (run_bind _ _ _ _ _ R3). set (m4 := st_bytes rd rd_at m3). set (s4 := mkLd fw2 m4 (ld_cr3 s)).
  assert (load_ramdisk_file s3 = Ret ((rd_at, Z.of_nat (length rd)), s4)) as R4.
  { unfold load_ramdisk_file. erewrite run_bind by done. cbn [s3 ld_fw]. rewrite G2.
    rewrite (run_bind _ _ _ _ _ (pages_run rd s3 ltac:(lia))), (run_bind _ _ _ _ _ (alloc_run _ _ _ s3 _ _ G3)).
    erewrite run_bind by done. done. }
  rewrite (run_bind _ _ _ _ _ R4).
  destruct (in_mem_run _ _ _ s4 (draw_string_ok ptr width height ltac:(lia) ltac:(lia) 100 (lit "Jumping to Kernel...") 50
    ltac:(lia) ltac:(cbn; lia) ltac:(lia) ltac:(lia))) as (m5 & R5 & O5).
  rewrite (run_bind _ _ _ _ _ R5). cbn [s4 ld_mem ld_fw ld_cr3] in *.
  assert (0 <= width * height < 2 ^ 48) as Hn by nia. unfold cmul. rewrite (proj2 (Z.ltb_lt (width * height) _)) by lia.
  erewrite run_bind by done. rewrite (proj2 (Z.ltb_lt (width * height * 4) _)) by lia. erewrite run_bind by done.
  exists fw2, m5. split; [done|].
  assert (only rd_at (Z.of_nat (length rd)) m3 m4) as O4 by (apply only_st_bytes; lia).
  assert (only 0x200000 (Z.of_nat (length data)) m2 m3) as O3 by (apply only_st_bytes; lia).
  split; [|split].
  - rewrite (ld_bytes_only _ _ _ _ _ _ O5 KF), (ld_bytes_only _ _ _ _ _ _ O4 KR). apply ld_bytes_st_bytes_same.
  - rewrite (ld_bytes_only _ _ _ _ _ _ O5 RF). apply ld_bytes_st_bytes_same.
  - unfold ld. f_equal. change 8 with (Z.of_nat 8) in OK, OR, OF.
    by rewrite (ld_bytes_only _ _ _ _ _ _ O5 OF), (ld_bytes_only _ _ _ _ _ _ O4 OR), (ld_bytes_only _ _ _ _ _ _ O3 OK),
      (ld_bytes_only _ _ _ _ _ _ O2 OF), (ld_bytes_only _ _ _ _ _ _ O1 OF).
Qed.
End handoff.

Lemma init_keeps (s : PmmState) (regions : list MemoryRegion) (r : MemoryRegion) p :
  pmm_ok s -> Forall (fun r => 0 <= rg_base r) regions -> r ∈ regions -> p ∈ region_pages r ->
  p ∈ free_set (Pmm.init (Some regions) s).
Proof.
  intros Hs Hb Hr Hp. destruct regions as [|r0 rs]; [by apply elem_of_nil in Hr|].
  destruct (init_regions_ok (r0 :: rs) s Hs Hb) as (_ & Hf & _).
  change (Pmm.init (Some (r0 :: rs)) s) with (foldl init_region s (r0 :: rs)). rewrite Hf.
  apply elem_of_union_l, elem_of_union_list. exists (region_pages r). split; [by apply list_elem_of_fmap_2|done].
Qed.

(** C40: the handoff.  When the firmware has both files and grants the kernel
    its address, the loader enters the kernel at 0xFFFFFFFF80200000 on tables
    that map the kernel's image there (and the low half as the firmware did),
    with the image and the ramdisk in memory as they are on disk, and with the
    framebuffer, the ramdisk and the first 128 entries of the memory map as
    its boot information.  That map was captured before the files were placed:
    every page it called conventional is free memory to the kernel's allocator,
    the pages of the kernel and the ramdisk themselves included. *)
Theorem loader_spec {F : Type} {FW : Firmware F} (t : Tables) (ptr width height : Z) (s : Ld F) (data rd : list Z) (rd_at : Z)
    (Hl : Loading t ptr width height s data rd rd_at) (Hpos : Forall (fun d => 0 <= phys_start d) (memory_map (ld_fw s))) :
  exists info s', main t ptr width height s = Ret ((0xFFFFFFFF80200000, info), s') /\
    (forall i, 0 <= i < Z.of_nat (length data) ->
       translate 4 (ld_mem s') (ld_cr3 s') (0xFFFFFFFF80200000 + i) = Some (0x200000 + i, false)) /\
    entry (ld_mem s') (ld_cr3 s') 0 = ld64 (ld_mem s) (old_root s) /\
    ld_bytes (ld_mem s') 0x200000 (length data) = data /\
    ramdisk_size info = Z.of_nat (length rd) /\ ld_bytes (ld_mem s') (ramdisk_addr info) (length rd) = rd /\
    framebuffer_ptr info = ptr /\ screen_width info = width /\ screen_height info = height /\
    bi_memory_map info = map (fun d => mkRegion (phys_start d) (page_count d * 4096) (kind_of (ty d)))
                             (take 128 (memory_map (ld_fw s))) /\
    (forall d p, d ∈ take 128 (memory_map (ld_fw s)) -> ty d = CONVENTIONAL -> phys_start d mod 4096 = 0 ->
       phys_start d <= p * 4096 -> p * 4096 < phys_start d + page_count d * 4096 -> p < MAX_PAGES ->
       p ∈ free_set (Pmm.init (Some (bi_memory_map info)) PmmState_new)).
Proof.
  pose proof Hl as []. destruct (loading_run t ptr width height s data rd rd_at Hl) as (fw2 & m5 & R & HK & HR & HO).
  destruct lo_apart0 as (HT & _). destruct lo_tables0 as [(A1 & A2 & A3) L N] eqn:Et.
  assert (tables_ok t) as Ht by done. clear Et. assert (fits 64 (ld64 m5 (old_root s))) as Hold by (by rewrite HO).
  assert (forall a n, (forall f, f ∈ [t_pml4 t; t_pdpt t; t_pd t] -> apart (a, Z.of_nat n) (f, 4096)) ->
    ld_bytes (map_higher_half t (ld_cr3 s) m5).2 a n = ld_bytes m5 a n) as Hkeep.
  { intros a n Ha. apply ld_bytes_ext. intros x Hx. apply higher_data; [done|..];
      (eapply page_apart; [done|apply Ha; set_solver|exact Hx]). }
  eexists _, _. split; [exact R|]. cbn [ld_mem ld_cr3 framebuffer_ptr screen_width screen_height bi_memory_map ramdisk_addr ramdisk_size].
  split.
  { intros i Hi. change 0xFFFFFFFF80200000 with (KERNEL_VMA_BASE + 0x200000). rewrite <- Z.add_assoc.
    apply higher_translate; [done|done|]. lia. }
  split; [by rewrite (proj1 (higher_entries t Ht (ld_cr3 s) m5 Hold 0 ltac:(lia)))|].
  split; [rewrite Hkeep; [done|intros f Hf; by apply HT]|]. split; [done|].
  split; [rewrite Hkeep; [done|intros f Hf; by apply HT]|]. do 4 (split; [done|]).
  intros d p Hd Hc Hal H1 H2 H3. eapply (init_keeps _ _ (mkRegion (phys_start d) (page_count d * 4096) (kind_of (ty d)))).
  - apply PmmState_new_ok.
  - apply (Forall_fmap (fun d => mkRegion (phys_start d) (page_count d * 4096) (kind_of (ty d)))). apply Forall_take.
    eapply Forall_impl; [exact Hpos|done].
  - by apply (list_elem_of_fmap_2 (fun d => mkRegion (phys_start d) (page_count d * 4096) (kind_of (ty d)))).
  - unfold region_pages. cbn [rg_kind rg_base rg_size]. rewrite Hc. cbn [kind_of]. rewrite decide_True by done.
    apply elem_of_list_to_set, elem_of_seqZ. unfold PAGE_SIZE. dm_lia.
Qed.

(** ** Firmware for the witness *)

(** A firmware that grants what is asked, and puts the ramdisk at 16 MB. *)
Record DemoFw := mkDemoFw { df_files : list (str * list Z) }.

#[local] Instance demo_firmware : Firmware DemoFw := {
  fw_file f name := match List.find (fun e => bool_decide (e.1 = name)) (df_files f) with Some (_, d) => Some (Some d) | None => None end;
  allocate_pages at_ t n f := (Some (default 0x1000000 at_), f);
  memory_map _ := [mkDesc CONVENTIONAL 0x100000 0x7F00; mkDesc (OTHER_TYPE 11) 0xFEE00000 1]
}.

Definition demo_ld : Ld DemoFw :=
  mkLd (mkDemoFw [(lit "kernel.elf", [0xFA; 0xEB; 0xFE]); (lit "initrd.tar", [1; 2])]) (fun _ => 0) 0x9000.
Definition demo_tables : Tables := mkTables 0xA000 0xB000 0xC000.

Lemma demo_loading : Loading demo_tables 0x80000000 640 480 demo_ld [0xFA; 0xEB; 0xFE] [1; 2] 0x1000000.
Proof.
  constructor.
  - constructor; repeat split; by vm_compute.
  - lia.
  - cbn. repeat constructor; cbn; lia.
  - reflexivity.
  - exists (ld_fw demo_ld), (ld_fw demo_ld). repeat split.
  - cbn. lia.
  - cbv zeta. split; [|by apply (bool_decide_unpack _)].
    intros f Hf. repeat (apply elem_of_cons in Hf as [->|Hf]; [by apply (bool_decide_unpack _)|]). by apply elem_of_nil in Hf.
  - vm_compute. split; congruence.
Qed.

Example loader_spec_witness :
  exists info s', main demo_tables 0x80000000 640 480 demo_ld = Ret ((0xFFFFFFFF80200000, info), s') /\
    translate 4 (ld_mem s') (ld_cr3 s') 0xFFFFFFFF80200001 = Some (0x200001, false) /\
    ld_bytes (ld_mem s') 0x200000 3 = [0xFA; 0xEB; 0xFE] /\
    0x200 ∈ free_set (Pmm.init (Some (bi_memory_map info)) PmmState_new).
Proof.
  destruct (loader_spec demo_tables 0x80000000 640 480 demo_ld [0xFA; 0xEB; 0xFE] [1; 2] 0x1000000 demo_loading)
    as (info & s' & R & HT & _ & HK & _ & _ & _ & _ & _ & _ & HF).
  - cbn. repeat constructor; cbn; lia.
  - exists info, s'. split; [exact R|]. split; [exact (HT 1 ltac:(cbn; lia))|]. split; [exact HK|].
    apply (HF (mkDesc CONVENTIONAL 0x100000 0x7F00) 0x200); [left| | | | |]; reflexivity || (cbn; lia) || (unfold MAX_PAGES, BITMAP_BYTES; lia).
Defined.
