(* ===== verification/Bootmem.v ===== *)
(** * Memory at boot ([ross-kernel/src/main.rs], first half of [kernel_main])

    The first steps of [kernel_main] put together: the BSS is zeroed, the page
    allocator is given the loader's memory map, the static page tables are
    filled and loaded.  [boot_memory_spec] shows that this establishes what
    [exec] relies on, from arbitrary contents of memory: any program image
    that fits the free memory can be loaded afterwards. *)

From S2P Require Import Prelude Bytes Frames Pmm Paging Spaces Mmap Elf.

(** ** Clearing the BSS *)

(** [while curr < end { *curr = 0; curr += 1 }].
    @src ross-kernel/src/main.rs 79-84 kernel_main *)
Fixpoint clear_from (fuel : nat) (curr stop : Z) (m : mem) : outcome mem :=
  match fuel with
  | O => Diverge
  | S fuel => if curr <? stop then clear_from fuel (curr + 1) stop (fun a => if a =? curr then 0 else m a) else Ret m
  end.

(** One turn per byte.
    @src ross-kernel/src/main.rs 79-84 kernel_main *)
Definition clear_bss (bss_start bss_end : Z) (m : mem) : outcome mem :=
  clear_from (S (Z.to_nat (bss_end - bss_start))) bss_start bss_end m.

(** Exactly the bytes between the two symbols are zero afterwards. *)
Lemma clear_from_ok fuel : forall curr stop m, 0 < Z.of_nat fuel -> stop - curr < Z.of_nat fuel ->
  exists m', clear_from fuel curr stop m = Ret m' /\
    forall a, m' a = if decide (curr <= a < stop) then 0 else m a.
Proof.
  induction fuel as [|fuel IH]; intros curr stop m Hp Hf; cbn [clear_from]; [lia|].
  destruct (Z.ltb_spec curr stop) as [Hlt|Hge].
  - destruct (IH (curr + 1) stop (fun a => if a =? curr then 0 else m a)) as (m' & R & E); [lia..|]. exists m'. split; [done|].
    intros a. rewrite E. destruct (Z.eqb_spec a curr); repeat case_decide; try done; lia.
  - exists m. split; [done|]. intros a. by rewrite decide_False by lia.
Qed.

Lemma clear_bss_ok bss_start bss_end m :
  exists m', clear_bss bss_start bss_end m = Ret m' /\
    forall a, m' a = if decide (bss_start <= a < bss_end) then 0 else m a.
Proof. apply clear_from_ok; lia. Qed.

(** ** The first steps *)

(** The linker's symbols and the tables are higher-half addresses; under the
    loader's tables [KERNEL_VMA_BASE + p] is physical [p].  The result is the
    memory with its allocator, and CR3.
    @src ross-kernel/src/main.rs 79-101 kernel_main *)
Definition boot_memory (st : Statics) (bss_start bss_end : Z) (memory_map : option (list MemoryRegion)) (m : mem) :
  outcome (Vm PmmState * Z) :=
  m ← clear_bss (bss_start - KERNEL_VMA_BASE) (bss_end - KERNEL_VMA_BASE) m;
  let pmm := Pmm.init memory_map PmmState_new in
  '(m, cr3) ← Spaces.init st m;
  mret (mkVm m pmm, cr3).

(** ** What they establish *)

(** The tables lie in the BSS: their entries are zero after [clear_bss]. *)
Lemma zeroed_entry m f j : (forall x, f <= x < f + 4096 -> m x = 0) -> 0 <= j < 512 -> entry m f j = 0.
Proof.
  intros Hz Hj. rewrite <- (zero_entry f j). unfold entry. apply ld_ext. intros x Hx. apply Hz. lia.
Qed.

Lemma init_pd_ok st kp lp hp dp i m : statics_ok st kp lp hp dp -> i ∈ seqZ 0 4 -> mem_ok m -> mem_ok (init_pd st i m).
Proof.
  intros Hst Hi Hm. pose proof (static_frame st kp lp hp dp Hst _ (in_pd _ _ _ _ _ Hst i Hi)) as [Hd _].
  unfold init_pd. rewrite (st_pd _ _ _ _ _ Hst). apply fill_entries_spec; [done| |done].
  intros e v He Hv. eapply (open_entry_fits i Hi e); [done|]. rewrite <- Hv. unfold open_entry. do 5 f_equal. lia.
Qed.

Lemma init_mem_ok st kp lp hp dp m : statics_ok st kp lp hp dp -> mem_ok m -> mem_ok (init_mem3 st kp lp hp dp m).
Proof.
  intros Hst Hm. unfold init_mem3. do 4 (eapply init_pd_ok; [done|by apply elem_of_seqZ|]).
  unfold init_mem2, init_mem1, link_gb. repeat apply st_ok. exact Hm.
Qed.

(** As many free frames as the memory map makes pages free. *)
Lemma has_free_size (s : PmmState) (n : nat) : (n <= size (free_set s))%nat -> has_free n s.
Proof.
  intros Hn. exists ((fun p => p * PAGE_SIZE) <$> take n (elements (free_set s))). split; [|split].
  - apply NoDup_fmap_2; [intros a b; unfold PAGE_SIZE; lia|].
    apply (NoDup_app _ (drop n (elements (free_set s)))). rewrite take_drop. apply NoDup_elements.
  - rewrite length_fmap, length_take. unfold size, set_size in Hn. simpl in Hn. lia.
  - apply Forall_fmap, Forall_take, Forall_forall. intros p Hp%elem_of_elements. simpl.
    split; [by apply Z.mod_mul|]. by rewrite Z.div_mul by (unfold PAGE_SIZE; lia).
Qed.

Lemma size_list_to_set_le (l : list Z) : (size (list_to_set l : gset Z) <= length l)%nat.
Proof.
  induction l as [|x l IH]; [done|]. cbn [list_to_set length]. rewrite size_union_alt, size_singleton.
  assert (size ((list_to_set l : gset Z) ∖ {[x]}) <= size (list_to_set l : gset Z))%nat by (apply subseteq_size; set_solver). lia.
Qed.

(** What [l] has left of them. *)
Lemma has_free_took (l : list Z) (s s' : PmmState) (n : nat) :
  took l s s' -> (n + length l <= size (free_set s))%nat -> has_free n s'.
Proof.
  intros (_ & _ & _ & Hiff) Hn. apply has_free_size. set (b := (list_to_set ((fun q => q / PAGE_SIZE) <$> l) : gset Z)).
  assert (free_set s ∖ b ⊆ free_set s') as Hsub%subseteq_size.
  { intros x [Hx Hxb]%elem_of_difference. specialize (Hiff (x * PAGE_SIZE)). unfold fa_free in Hiff. cbn in Hiff. unfold frame_free in Hiff.
    rewrite !Z.div_mul, Z.mod_mul in Hiff by done. apply Hiff. split; [done|]. intros Hin. apply Hxb, elem_of_list_to_set, list_elem_of_fmap.
    exists (x * PAGE_SIZE). by rewrite Z.div_mul. }
  assert (size b <= length l)%nat as Hs by (etrans; [apply size_list_to_set_le|by rewrite length_fmap]).
  assert (size (free_set s) <= size (free_set s ∖ b) + size b)%nat; [|lia].
  rewrite <- size_union by set_solver. apply subseteq_size. intros x Hx. apply elem_of_union. destruct (decide (x ∈ b)); set_solver.
Qed.

Section boot.
Context (st : Statics) (kp lp hp : Z) (dp : Z -> Z) (bss_start bss_end : Z) (regions : list MemoryRegion) (m : mem).

Notation tables := [kp; lp; hp; dp 0; dp 1; dp 2; dp 3].

(** The kernel as it was linked and the memory map it was given: the static
    tables lie in the BSS, and no page of them is offered as free memory. *)
Record bootable : Prop := {
  bt_statics : statics_ok st kp lp hp dp;
  bt_mem : mem_ok m;
  bt_bss f : f ∈ tables -> bss_start - KERNEL_VMA_BASE <= f /\ f + 4096 <= bss_end - KERNEL_VMA_BASE;
  bt_base : Forall (fun r => 0 <= rg_base r) regions;
  bt_taken f : f ∈ tables -> f / PAGE_SIZE ∉ ⋃ (region_pages <$> regions)
}.

Lemma boot_pmm : Forall (fun r => 0 <= rg_base r) regions ->
  pmm_ok (Pmm.init (Some regions) PmmState_new) /\
  free_set (Pmm.init (Some regions) PmmState_new) = ⋃ (region_pages <$> regions).
Proof.
  destruct PmmState_new_ok as [Hnew E]. intros Hb. destruct regions as [|r rs] eqn:Er; [by split|].
  destruct (init_regions_ok (r :: rs) PmmState_new Hnew Hb) as (Hok & Hf & _). split; [exact Hok|].
  change (Pmm.init (Some (r :: rs)) PmmState_new) with (foldl init_region PmmState_new (r :: rs)). rewrite Hf, E. apply union_empty_r_L.
Qed.

Lemma bss_run : bootable -> exists m', clear_bss (bss_start - KERNEL_VMA_BASE) (bss_end - KERNEL_VMA_BASE) m = Ret m' /\
  mem_ok m' /\ (forall f j, f ∈ tables -> 0 <= j < 512 -> entry m' f j = 0) /\
  (forall x, x < bss_start - KERNEL_VMA_BASE \/ bss_end - KERNEL_VMA_BASE <= x -> m' x = m x).
Proof.
  intros Hb. destruct (clear_bss_ok (bss_start - KERNEL_VMA_BASE) (bss_end - KERNEL_VMA_BASE) m) as (m' & R & E).
  exists m'. split; [done|]. split; [|split].
  - intros a. rewrite E. case_decide; [done|apply Hb].
  - intros f j Hf Hj. destruct (bt_bss Hb f Hf) as [Hlo Hhi]. apply zeroed_entry; [|done].
    intros x Hx. rewrite E. by rewrite decide_True by lia.
  - intros x Hx. rewrite E. by rewrite decide_False by lia.
Qed.

Lemma boot_run : bootable -> exists m', boot_memory st bss_start bss_end (Some regions) m =
    Ret (mkVm (init_mem3 st kp lp hp dp m') (Pmm.init (Some regions) PmmState_new), kp) /\
  mem_ok m' /\ (forall f j, f ∈ tables -> 0 <= j < 512 -> entry m' f j = 0) /\
  (forall x, x < bss_start - KERNEL_VMA_BASE \/ bss_end - KERNEL_VMA_BASE <= x -> m' x = m x).
Proof.
  intros Hb. destruct (bss_run Hb) as (m' & R & Hm). exists m'. unfold boot_memory. rewrite R. cbn [mbind outcome_bind].
  by rewrite (init_run st kp lp hp dp m' (bt_statics Hb)).
Qed.

Lemma boot_vm m' : bootable -> mem_ok m' -> (forall f j, f ∈ tables -> 0 <= j < 512 -> entry m' f j = 0) ->
  let v := mkVm (init_mem3 st kp lp hp dp m') (Pmm.init (Some regions) PmmState_new) in
  vm_ok v /\ kernel_half (kernel_typing hp dp) kp v.
Proof.
  intros Hb Hm Hz. destruct (boot_pmm (bt_base Hb)) as [Hok Hf]. cbv zeta. split.
  - split; [exact Hok|]. by apply init_mem_ok; [apply Hb|].
  - apply init_kernel_half; [apply Hb| |].
    + intros f j Hin Hj. apply Hz; [|done]. apply list_elem_of_singleton in Hin as ->. set_solver.
    + intros f Hin [_ Hp]. apply (bt_taken Hb f); [set_solver|]. by rewrite <- Hf.
Qed.

(** ** The property *)

(** C4: booting establishes what running a program relies on.  From any
    contents of memory, when the static tables lie in the BSS and the memory map
    does not offer their pages, [kernel_main] ends its first steps with the
    page tables loaded, the kernel's alias in place, no byte outside the BSS
    changed, and exactly the pages of the usable regions free; and then every
    ELF program the loader accepts whose pages fit the free memory is loaded:
    its process has its bytes at its addresses and the stack, and nothing
    else. *)
Theorem boot_memory_spec (Hb : bootable) (data : list Z) (phs : list ProgramHeader)
    (Hdata : Forall is_byte data) (Hlen : 64 <= Z.of_nat (length data))
    (Hvalid : is_valid (elf_header data) = true) (Hphs : program_headers (elf_header data) data = Ret phs)
    (Hsegs : Forall (fun ph => p_type ph = PT_LOAD -> segment_ok data ph) phs)
    (Hfit : (6 + seg_frames phs + 32 <= size (⋃ (region_pages <$> regions) : gset Z))%nat) :
  exists v, boot_memory st bss_start bss_end (Some regions) m = Ret (v, kp) /\
    free_set (falloc v) = ⋃ (region_pages <$> regions) /\
    (forall p, 0 <= p < 2 ^ 31 -> translate 4 (vmem v) kp (KERNEL_VMA_BASE + p) = Some (p, true)) /\
    (forall x, x < bss_start - KERNEL_VMA_BASE \/ bss_end - KERNEL_VMA_BASE <= x -> vmem v x = m x) /\
    exists T root v', load_elf st data v =
        Ret (Ok (mkImage (e_entry (elf_header data)) 0x508000 root (image_end 0 phs)), v') /\
      user_ok T root v' /\
      forall a, 0 <= a < 2 ^ 47 ->
        if decide (0x500000 <= a < 0x508000) then is_Some (user_byte root (vmem v') a)
        else user_byte root (vmem v') a = image_byte data phs None a.
Proof.
  destruct (boot_run Hb) as (m' & R & Hm & Hz & Hx). destruct (boot_vm m' Hb Hm Hz) as [Hvm Hkh].
  destruct (boot_pmm (bt_base Hb)) as [_ Hf]. eexists. split; [exact R|]. split; [exact Hf|].
  split; [intros p Hp; by apply (kernel_alias st kp lp hp dp m' (bt_statics Hb))|]. split.
  - intros x Hxo. cbn [vmem]. rewrite (init_data st kp lp hp dp m' (bt_statics Hb)); [by apply Hx|].
    intros Hin. destruct (bt_bss Hb _ Hin) as [Hlo Hhi]. destruct (static_frame st kp lp hp dp (bt_statics Hb) _ Hin) as [Ha _].
    unfold page in *. dm_lia.
  - destruct (load_elf_ok 0 st kp (kernel_typing hp dp) _ data phs Hvm (st_pml4 _ _ _ _ _ (bt_statics Hb)) Hkh)
      as (T & root & v' & Rl & Hu & _ & Hbytes); [|done..|by exists T, root, v'].
    apply has_free_size. cbn [falloc]. rewrite Hf. lia.
Qed.

End boot.

(** ** Witness *)

(** A kernel whose seven tables fill its BSS, with 64 pages of memory at 2 MB
    besides the pages of its image, and memory full of 0xAA. *)
Definition demo_regions : list MemoryRegion :=
  [mkRegion 0 0x100000 Reserved; mkRegion 0x100000 0x10000 Used; mkRegion 0x200000 0x40000 Usable].

Lemma demo_bootable :
  bootable demo_statics 0x100000 0x101000 0x102000 demo_pd (KERNEL_VMA_BASE + 0x100000) (KERNEL_VMA_BASE + 0x107000)
    demo_regions (fun _ => 0xAA).
Proof.
  constructor.
  - exact demo_statics_ok.
  - intros a. vm_compute. split; congruence.
  - intros f Hf. unfold demo_pd in Hf. repeat (apply elem_of_cons in Hf as [->|Hf]; [unfold KERNEL_VMA_BASE; lia|]).
    by apply elem_of_nil in Hf.
  - repeat constructor; simpl; lia.
  - intros f Hf. unfold demo_pd in Hf. repeat (apply elem_of_cons in Hf as [->|Hf]; [apply (bool_decide_unpack (_ ∉ _)); vm_compute; reflexivity|]).
    by apply elem_of_nil in Hf.
Qed.

Example boot_memory_spec_witness :
  exists v root v', boot_memory demo_statics (KERNEL_VMA_BASE + 0x100000) (KERNEL_VMA_BASE + 0x107000)
      (Some demo_regions) (fun _ => 0xAA) = Ret (v, 0x100000) /\
    load_elf demo_statics demo_elf v = Ret (Ok (mkImage 0x400000 0x508000 root 0x401000), v') /\
    user_byte root (vmem v') 0x400002 = Some 0xEB.
Proof.
  destruct (boot_memory_spec demo_statics 0x100000 0x101000 0x102000 demo_pd (KERNEL_VMA_BASE + 0x100000)
    (KERNEL_VMA_BASE + 0x107000) demo_regions (fun _ => 0xAA) demo_bootable demo_elf [demo_ph])
    as (v & R & _ & _ & _ & T & root & v' & Rl & _ & Hbytes).
  - apply (bool_decide_unpack (Forall is_byte demo_elf)). vm_compute. exact I.
  - vm_compute. discriminate.
  - vm_compute. reflexivity.
  - vm_compute. reflexivity.
  - repeat constructor; vm_compute; discriminate.
  - vm_compute. lia.
  - exists v, root, v'. split; [exact R|]. split; [exact Rl|].
    specialize (Hbytes 0x400002 ltac:(lia)). rewrite decide_False in Hbytes by lia. exact Hbytes.
Defined.
