(* ===== verification/Boot.v ===== *)
(** * The main task of the kernel ([ross-kernel/src/main.rs])

    What [kernel_main] does once the hardware is up: the file systems are
    mounted, the splash screen and the kernel log are drawn, and the event loop
    runs for ever - it redraws the clock and hands the keys in the ring buffer
    to the shell while interrupts keep filling the buffer.  [mounts_spec] is
    about the file systems, [event_loop_spec] about the loop: it refines
    handing the shell the keys of a FIFO queue. *)

From Stdlib Require Import String.
From S2P Require Import Prelude Bytes Frames Pmm Paging Spaces Str Vfs Ramfs Elf Block Fat32 Io Pci Font Writer.
From S2P Require Kbuf Ipc Fd Gdt Task.
From S2P Require Import Syscall Shell.

(** ** The last words *)

(** The red screen of a panic; [info] is the rendered message.
    @src ross-kernel/src/main.rs 321-333 panic *)
Definition panic_screen (info : str) : Wr unit :=
  fill_rect 0 0 3000 3000 RED;;
  set_pos 50 50;;
  write_str (lit "KERNEL PANIC");; write_str [10];;
  write_str info;; write_str [10].

(** The blue screen of the allocator.
    @src ross-kernel/src/main.rs 311-318 alloc_error *)
Definition alloc_error_screen : Wr unit :=
  fill_rect 0 0 3000 3000 0x000000CC;;
  set_pos 80 100;;
  put_str (lit "OUT OF MEMORY") 0x00FFFFFF 3.

(** @src ross-kernel/src/main.rs 304-308 text_width *)
Definition text_width (s : str) (scale : Z) : outcome Z :=
  let n := Z.of_nat (length s) in
  if n =? 0 then Ret 0
  else
    a ← cmul 64 8 scale;
    b ← cadd 64 a scale;
    c ← cmul 64 n b;
    csub c scale.

(** ** The screens *)

(** @src ross-kernel/src/main.rs 216-239 kernel_main *)
Definition splash (w h : Z) : Wr unit :=
  fill_rect 0 0 w h BG;;
  let title_x := 20 in
  let title_y := 20 in
  set_pos title_x title_y;;
  put_str (lit "R.O.S.S.") FG 1;;
  let sub_y := title_y + 12 in
  set_pos title_x sub_y;;
  put_str (lit "Rapid Operating System Shell") DIM 1;;
  let msg_y := sub_y + 12 in
  set_pos title_x msg_y;;
  put_str (lit "Starting...") FG 1.

(** The text of the message of the day.
    @src ross-kernel/src/main.rs 245-249 kernel_main *)
Definition motd_text (bs : list Z) : str :=
  trim (trim_matches 0 (trim_matches 10 (if utf8_valid bs then bs else []))).

(** [kprintln!] writes through [write_str].
    @src ross-kernel/src/main.rs 256-259 kernel_main *)
Definition kernel_log (h free regions : Z) : Wr unit :=
  set_pos 50 (sat_sub h 90);;
  write_str (lit "Memory: ");; write_str (dec free);; write_str (lit " MiB free  (");;
  write_str (dec regions);; write_str (lit " regions)");; write_str [10];;
  write_str (lit "Paging: CR3 switched to -2GB native tables");; write_str [10];;
  write_str (lit "Press ENTER to continue...");; write_str [10].

(** The uptime clock, in the top right corner; the answer is the new
    [last_ticks].
    @src ross-kernel/src/main.rs 273-287 kernel_main *)
Definition clock (w current_ticks last_ticks : Z) : Wr Z :=
  if current_ticks =? last_ticks then mret last_ticks
  else
    let seconds := current_ticks / 100 in
    wr ← get;
    left ← lift (csub w 180);
    fill_rect left 20 180 20 BG;;
    set_pos left 20;;
    write_str (lit "UPTIME: ");; write_str (dec seconds);; write_str (lit "s");;
    set_pos (x wr) (y wr);;
    mret current_ticks.

(** ** The event loop *)

(** What happens around one pass of the loop: the timer's count when the pass
    begins, and the scan codes the keyboard interrupt has pushed before each
    look at the ring buffer. *)
Record Pass := mkPass { at_ticks : Z; at_keys : list (list Z) }.

(** The buffer after the interrupts. *)
Definition push_all (keys : list Z) (r : Kbuf.Ring) : Kbuf.Ring := foldl (fun r sc => Kbuf.push sc r) r keys.

Section loop.
Context {W N H : Type} {VN : VfsNode W N} {BD : BlockDevice W} {DS : DiskStatus W} {HW : Hardware H}.
Context (st : Statics) (stack_ptr : Z).
Notation Sh := (M (Shell W N H)).

Definition set_kn (kn : Kernel W N PmmState) (s : Shell W N H) : Shell W N H :=
  mkShell (sh_state s) (LINE_BUF s) (LINE_LEN s) (CWD_BUF s) (CWD_LEN s) (sh_wr s) kn (DEVICES s) (sh_hw s).
Definition ring (s : Shell W N H) : Kbuf.Ring := kn_kbuf (sh_kn s).
Definition set_ring (r : Kbuf.Ring) (s : Shell W N H) : Shell W N H := set_kn (set_kbuf r (sh_kn s)) s.
Definition set_ticks (t : Z) (s : Shell W N H) : Shell W N H :=
  let k := sh_kn s in
  set_kn (mkKernel (kn_world k) (kn_vm k) (kn_cr3 k) (kn_sched k) (kn_next_id k) (kn_pipes k) (kn_kbuf k) (kn_vfs k)
            (kn_serial k) (kn_screen k) t) s.

(** [while let Some(sc) = kbuf::pop() { .. }], over the interrupts; without
    new keys it takes one turn per key that waits.
    @src ross-kernel/src/main.rs 289-297 kernel_main *)
Fixpoint drain (fuel : nat) (irqs : list (list Z)) : Sh (res unit) :=
  match fuel with
  | O => fun _ => Diverge
  | S fuel => fun s =>
      let '(popped, r) := Kbuf.pop (push_all (default [] (head irqs)) (ring s)) in
      (match popped with
       | None => mret (Ok tt)
       | Some sc =>
           match Kbuf.scancode_to_ascii sc with
           | Some ascii => _ ←? handle_byte st stack_ptr ascii; drain fuel (tail irqs)
           | None => drain fuel (tail irqs)
           end
       end) (set_ring r s)
  end.

(** The loop, for as long as [passes] goes on.
    @src ross-kernel/src/main.rs 270-301 kernel_main *)
Fixpoint event_loop (w : Z) (passes : list Pass) (last_ticks : Z) : Sh (res unit) :=
  match passes with
  | [] => mret (Ok tt)
  | p :: passes =>
      (fun s => Ret (tt, set_ticks (at_ticks p) s));;
      s ← get;
      last ← draw (clock w (kn_ticks (sh_kn s)) last_ticks);
      _ ←? drain (256 + length (at_keys p)) (at_keys p);
      event_loop w passes last
  end.

(** The message of the day, from the file system.
    @src ross-kernel/src/main.rs 242-253 kernel_main *)
Definition show_motd : Sh unit :=
  r ← sh_open (lit "motd.txt");
  match r with
  | Err _ => mret tt
  | Ok file =>
      r ← on_node (read file 0 128);
      match r with
      | Err _ => mret tt
      | Ok bs => draw (set_pos 20 (44 + 16);; put_str (motd_text bs) ACCENT 1)
      end
  end.

(** From the splash screen on: [w] by [h] is the screen, [regions] the length
    of the memory map.
    @src ross-kernel/src/main.rs 216-301 kernel_main *)
Definition interact (w h regions : Z) (passes : list Pass) : Sh (res unit) :=
  draw (splash w h);;
  show_motd;;
  s ← get;
  draw (kernel_log h (free_mib (falloc (kn_vm (sh_kn s)))) regions);;
  event_loop w passes 0.
End loop.

(** ** The keys that wait *)

(** The ring buffer as a queue of at most 255 scan codes; a key that finds it
    full is lost. *)
Definition enqueue (q : list Z) (sc : Z) : list Z :=
  if decide (Z.of_nat (length q) = Kbuf.BUF_SIZE - 1) then q else q ++ [sc].

(** The scan codes served until the queue is found empty. *)
Fixpoint served (q : list Z) (irqs : list (list Z)) : list Z :=
  match irqs with
  | [] => q
  | keys :: irqs =>
      match foldl enqueue q keys with
      | [] => []
      | sc :: q => sc :: served q irqs
      end
  end.

Lemma push_all_ok keys : forall r, Kbuf.ring_ok r ->
  Kbuf.ring_ok (push_all keys r) /\ Kbuf.contents (push_all keys r) = foldl enqueue (Kbuf.contents r) keys.
Proof.
  induction keys as [|sc keys IH]; intros r Hr; [done|].
  destruct (Kbuf.push_pop_refine r sc Hr) as (Hp & _ & Hc & _). destruct (IH _ Hp) as [Ho E].
  split; [exact Ho|]. unfold push_all in *. cbn [foldl]. rewrite E, Hc. done.
Qed.

Lemma contents_short r : (length (Kbuf.contents r) <= 255)%nat.
Proof. pose proof (Kbuf.length_contents r). pose proof (Kbuf.count_range r). unfold Kbuf.BUF_SIZE in *. lia. Qed.

Lemma enqueue_short keys : forall q, (length q <= 255)%nat -> (length (foldl enqueue q keys) <= 255)%nat.
Proof.
  induction keys as [|sc keys IH]; intros q Hq; [done|]. apply IH. unfold enqueue. case_decide; [done|].
  rewrite length_app. unfold Kbuf.BUF_SIZE in *. simpl. lia.
Qed.

Lemma served_length irqs : forall q, (length q <= 255)%nat -> (length (served q irqs) <= 255 + length irqs)%nat.
Proof.
  induction irqs as [|keys irqs IH]; intros q Hq; cbn [served]; [simpl; lia|].
  pose proof (enqueue_short keys q Hq) as Hs. destruct (foldl enqueue q keys) as [|sc q1]; simpl in *; [lia|].
  pose proof (IH q1). lia.
Qed.

(** ** The shell does not look at the ring buffer *)

(** [m] neither reads nor changes the part of the state [set] sets. *)
Section frames.
Context {R S : Type} (set : R -> S -> S).

Definition carry {A} (r : R) (o : outcome (A * S)) : outcome (A * S) :=
  match o with Ret (a, s) => Ret (a, set r s) | Panic => Panic | Diverge => Diverge end.

Definition frames {A} (m : M S A) : Prop := forall r s, m (set r s) = carry r (m s).

Lemma frames_ret {A} (a : A) : frames (mret a).
Proof. done. Qed.

Lemma frames_panic {A} : frames (@panic S A).
Proof. done. Qed.

Lemma frames_lift {A} (o : outcome A) : frames (lift o).
Proof. intros r s. unfold lift. by destruct o. Qed.

Lemma frames_bind {A B} (m : M S A) (f : A -> M S B) : frames m -> (forall a, frames (f a)) -> frames (m ≫= f).
Proof. intros Hm Hf r s. unfold mbind, M_bind. rewrite Hm. destruct (m s) as [[a s1]| |]; [apply Hf|done..]. Qed.

Lemma frames_try {A B E} (m : M S (result A E)) (f : A -> M S (result B E)) :
  frames m -> (forall a, frames (f a)) -> frames (try_bind m f).
Proof. intros Hm Hf. apply frames_bind; [done|]. intros [a|e]; [apply Hf|apply frames_ret]. Qed.

Lemma frames_get {B} (f : S -> M S B) : (forall r s, f (set r s) = f s) -> (forall s, frames (f s)) -> frames (get ≫= f).
Proof. intros He Hf r s. erewrite run_bind by done. rewrite He, Hf. by erewrite run_bind by done. Qed.
End frames.

Section shell_frames.
Context {W N H : Type} {VN : VfsNode W N} {BD : BlockDevice W} {DS : DiskStatus W} {HW : Hardware H}.
Context (st : Statics) (stack_ptr : Z).
Notation Sh := (M (Shell W N H)).
Notation aside := (frames (S := Kernel W N PmmState) set_kbuf).
Notation apart := (frames (S := Shell W N H) set_ring).

Lemma aside_world {X} (m : M W X) : aside (on_world m).
Proof. intros r k. unfold on_world. cbn. by destruct (m (kn_world k)) as [[? ?]| |]. Qed.

Lemma aside_vm {X} (m : M (Vm PmmState) X) : aside (on_vm m).
Proof. intros r k. unfold on_vm. cbn. by destruct (m (kn_vm k)) as [[? ?]| |]. Qed.

Lemma aside_serial s : aside (serial_print s).
Proof. intros r k. by rewrite !serial_print_run. Qed.

Lemma aside_segments cr3 data phs : forall heap_end i, aside (spawn_segments cr3 data heap_end i phs).
Proof.
  induction phs as [|ph phs IH]; intros heap_end i; cbn [spawn_segments]; [apply frames_ret|].
  apply frames_try; [apply aside_vm|]. intros h. apply frames_bind; [|intros _; apply IH].
  destruct (_ =? _); [|apply frames_ret]. apply frames_bind; [apply frames_lift|]. intros stop. apply aside_serial.
Qed.

Lemma aside_image data : aside (spawn_image st data).
Proof.
  unfold spawn_image. destruct (negb _); [apply frames_panic|]. cbv zeta.
  destruct (negb _); [apply frames_bind; [apply aside_serial|intros _; apply frames_ret]|].
  apply frames_bind; [apply aside_vm|]. intros cr3. apply frames_bind; [apply aside_serial|]. intros _.
  apply frames_bind; [apply frames_lift|]. intros phs. apply frames_try; [apply aside_segments|]. intros heap_end.
  apply frames_try; [apply aside_vm|]. intros _. apply frames_ret.
Qed.

Lemma aside_spawn path : aside (spawn_process st stack_ptr path).
Proof.
  unfold spawn_process. repeat (apply frames_bind; [apply aside_serial|intros _]).
  apply frames_get; [done|]. intros k. apply frames_try; [apply aside_world|]. intros file.
  apply frames_bind; [apply aside_world|]. intros stat. apply frames_try; [apply aside_world|]. intros bs. cbv zeta.
  apply frames_try; [apply aside_image|]. intros image. apply frames_get; [done|]. intros k'.
  destruct (Task.Task_new _ _ _ _ _ _ _) as [[task id] m]. do 3 (apply frames_bind; [done|intros _]).
  apply frames_bind; [apply aside_serial|]. intros _. apply frames_ret.
Qed.

Lemma apart_kn {X} (m : M (Kernel W N PmmState) X) : aside m -> apart (on_kn m).
Proof.
  intros Hm r s. unfold on_kn, zoom. cbn. rewrite Hm. by destruct (m (sh_kn s)) as [[? ?]| |].
Qed.

Lemma apart_kn_of {X} (m : Kernel W N PmmState -> M W X) :
  (forall r k, m (set_kbuf r k) = m k) -> apart (on_kn (fun k => on_world (m k) k)).
Proof. intros Hm. apply apart_kn. intros r k. rewrite Hm. apply (aside_world (m k)). Qed.

Lemma apart_draw {X} (m : Wr X) : apart (draw m).
Proof. intros r s. unfold draw, zoom. cbn. by destruct (m (sh_wr s)) as [[? ?]| |]. Qed.

Lemma apart_hw {X} (m : M H X) : apart (on_hw m).
Proof. intros r s. unfold on_hw, zoom. cbn. by destruct (m (sh_hw s)) as [[? ?]| |]. Qed.

Lemma apart_node {X} (m : M W X) : apart (on_node m).
Proof. apply apart_kn, aside_world. Qed.

Lemma apart_trace s : apart (trace s).
Proof. apply apart_kn, aside_serial. Qed.

Lemma apart_open path : apart (sh_open path).
Proof. by apply apart_kn_of. Qed.

Lemma apart_create path : apart (sh_create path).
Proof. by apply apart_kn_of. Qed.

Lemma apart_cwd : apart cwd.
Proof. apply frames_get; [done|]. intros s. apply frames_lift. Qed.

Lemma apart_resolve path : apart (resolve path).
Proof. apply frames_bind; [apply apart_cwd|]. intros c. apply frames_ret. Qed.

(** Through a command, by its outermost construct. *)
Ltac frame_step :=
  lazymatch goal with
  | |- frames _ (mret _) => apply frames_ret
  | |- frames _ panic => apply frames_panic
  | |- frames _ (lift _) => apply frames_lift
  | |- frames _ (draw _) => apply apart_draw
  | |- frames _ (trace _) => apply apart_trace
  | |- frames _ (sh_open _) => apply apart_open
  | |- frames _ (sh_create _) => apply apart_create
  | |- frames _ (on_node _) => apply apart_node
  | |- frames _ (on_hw _) => apply apart_hw
  | |- frames _ (resolve _) => apply apart_resolve
  | |- frames _ cwd => apply apart_cwd
  | |- frames _ (on_kn (spawn_process _ _ _)) => apply apart_kn, aside_spawn
  | |- frames _ (get ≫= _) => apply frames_get; [intros; reflexivity|intros ?]
  | |- frames _ (_ ≫= _) => apply frames_bind; [|intros ?]
  | |- frames _ (try_bind _ _) => apply frames_try; [|intros ?]
  | |- frames _ (match ?x with _ => _ end) => destruct x
  | |- frames _ (set_cwd _ _) => intros ? ?; reflexivity
  | |- frames _ (set_line _ _) => intros ? ?; reflexivity
  | |- frames _ (set_state _) => intros ? ?; reflexivity
  | |- frames _ (fun s => _) => intros ? ?; reflexivity
  end.
Ltac framed := repeat (cbv beta zeta; frame_step).

Lemma apart_commands :
  apart cmd_help /\ apart cmd_memory /\ apart cmd_uptime /\ apart cmd_pwd /\ (forall raw, apart (cmd_cd raw)) /\
  (forall path, apart (cmd_ls path)) /\ apart cmd_lspci /\ apart cmd_disk /\ (forall path, apart (cmd_cat path)) /\
  (forall path data, apart (cmd_write path data)) /\ apart cmd_reboot /\ (forall raw, apart (cmd_exec st stack_ptr raw)).
Proof.
  repeat split; intros;
    unfold cmd_help, cmd_memory, cmd_uptime, cmd_pwd, cmd_cd, cmd_ls, cmd_lspci, cmd_disk, cmd_cat, cmd_write, cmd_reboot,
      cmd_exec, node_for, report_disk, say, nl; framed.
Qed.

Lemma apart_goes_on m : apart m -> apart (goes_on m).
Proof. intros Hm. apply frames_bind; [done|]. intros _. apply frames_ret. Qed.

Lemma apart_execute input : apart (execute st stack_ptr input).
Proof.
  destruct apart_commands as (Hhelp & Hmem & Hup & Hpwd & Hcd & Hls & Hpci & Hdisk & Hcat & Hwr & Hre & Hex).
  unfold execute. repeat (apply frames_bind; [apply apart_trace|intros _]). cbv zeta.
  repeat (case_decide; [first [done | apply apart_goes_on; unfold say; framed; done]|]).
  apply apart_goes_on. unfold say. framed.
Qed.

Lemma apart_byte ch : apart (handle_byte st stack_ptr ch).
Proof.
  unfold handle_byte. apply frames_get; [done|]. intros s. destruct (sh_state s).
  - framed.
  - destruct (ch =? 10); [|framed].
    apply frames_bind; [apply apart_draw|]. intros _. apply frames_bind; [unfold current_line; framed|]. intros cmd.
    apply frames_try; [apply apart_execute|]. intros _. framed.
Qed.
End shell_frames.

(** ** The loop as a queue *)

Lemma pop_ok r : Kbuf.ring_ok r ->
  match Kbuf.contents r with
  | [] => Kbuf.pop r = (None, r)
  | sc :: q => exists r', Kbuf.pop r = (Some sc, r') /\ Kbuf.ring_ok r' /\ Kbuf.contents r' = q
  end.
Proof.
  intros Hr. destruct (Kbuf.push_pop_refine r 0 Hr) as (_ & Hp & _ & Hc). destruct (Kbuf.contents r); [done|].
  destruct (Kbuf.pop r) as [o r'] eqn:E. simpl in *. destruct Hc as [-> Hc]. by exists r'.
Qed.

(** One look at the queue, after the interrupts. *)
Lemma served_step q irqs :
  served q irqs = match foldl enqueue q (default [] (head irqs)) with
                  | [] => []
                  | sc :: q => sc :: served q (tail irqs)
                  end.
Proof. destruct irqs; [by destruct q|done]. Qed.

Section queue.
Context {W N H : Type} {VN : VfsNode W N} {BD : BlockDevice W} {DS : DiskStatus W} {HW : Hardware H}.
Context (st : Statics) (stack_ptr : Z).
Notation Sh := (M (Shell W N H)).
Notation apart := (frames (S := Shell W N H) set_ring).

(** The characters of the scan codes. *)
Definition typed (scs : list Z) : list Z := omap Kbuf.scancode_to_ascii scs.

(** The loop over a queue of scan codes: at each pass the shell is handed all
    that wait. *)
Fixpoint queue_loop (w : Z) (passes : list Pass) (q : list Z) (last_ticks : Z) : Sh (res unit) :=
  match passes with
  | [] => mret (Ok tt)
  | p :: passes =>
      (fun s => Ret (tt, set_ticks (at_ticks p) s));;
      s ← get;
      last ← draw (clock w (kn_ticks (sh_kn s)) last_ticks);
      _ ←? type_keys st stack_ptr (typed (served q (at_keys p)));
      queue_loop w passes [] last
  end.

Lemma apart_keys keys : apart (type_keys st stack_ptr keys).
Proof.
  induction keys as [|ch keys IH]; cbn [type_keys]; [apply frames_ret|].
  apply frames_try; [apply apart_byte|]. intros _. exact IH.
Qed.

Lemma apart_queue w passes : forall q last, apart (queue_loop w passes q last).
Proof.
  induction passes as [|p passes IH]; intros q last; cbn [queue_loop]; [apply frames_ret|].
  apply frames_bind; [by intros r s|]. intros _. apply frames_get; [done|]. intros s.
  apply frames_bind; [apply apart_draw|]. intros l. apply frames_try; [apply apart_keys|]. intros _. apply IH.
Qed.

Lemma carry_carry {A} r r' (o : outcome (A * Shell W N H)) : carry set_ring r (carry set_ring r' o) = carry set_ring r o.
Proof. by destruct o as [[]| |]. Qed.

(** Draining the buffer hands the shell the keys of the queue, in order, and
    leaves the buffer empty. *)
Lemma drain_typed fuel : forall irqs s, Kbuf.ring_ok (ring s) ->
  (length (served (Kbuf.contents (ring s)) irqs) < fuel)%nat ->
  let o := type_keys st stack_ptr (typed (served (Kbuf.contents (ring s)) irqs)) s in
  exists r, Kbuf.ring_ok r /\ drain st stack_ptr fuel irqs s = carry set_ring r o /\
    (forall s', o = Ret (Ok tt, s') -> Kbuf.contents r = []).
Proof.
  induction fuel as [|fuel IH]; intros irqs s Hr Hf; [lia|]. cbn [drain].
  rewrite served_step in Hf |- *. destruct (push_all_ok (default [] (head irqs)) (ring s) Hr) as [Hr1 E1].
  rewrite <- E1 in Hf |- *. set (r1 := push_all _ _) in *. pose proof (pop_ok r1 Hr1) as Hp.
  destruct (Kbuf.contents r1) as [|sc q] eqn:Eq.
  { rewrite Hp. by exists r1. }
  destruct Hp as (r2 & -> & Hr2 & <-). cbn [length] in Hf.
  unfold typed in *. cbn [omap list_omap]. destruct (Kbuf.scancode_to_ascii sc) as [ch|].
  2: { destruct (IH (tail irqs) (set_ring r2 s)) as (r & Hok & -> & He); [done|cbn; lia|]. change (ring (set_ring r2 s)) with r2 in *.
       exists r. rewrite apart_keys, carry_carry. split; [done|]. split; [done|]. intros s' Hs. eapply He.
       by rewrite apart_keys, Hs. }
  cbn [type_keys]. unfold try_bind at 1 2 3, mbind, M_bind. rewrite (apart_byte st stack_ptr ch r2 s).
  destruct (handle_byte st stack_ptr ch s) as [[[[]|e] s1]| |]; cbn [carry]; try by exists r2.
  destruct (IH (tail irqs) (set_ring r2 s1)) as (r & Hok & -> & He); [done|cbn; lia|]. change (ring (set_ring r2 s1)) with r2 in *.
  exists r. rewrite apart_keys, carry_carry. split; [done|]. split; [done|]. intros s' Hs. eapply He.
  by rewrite apart_keys, Hs.
Qed.

Lemma draw_ring {X} (m : Wr X) (s : Shell W N H) a s' : draw m s = Ret (a, s') -> ring s' = ring s.
Proof. unfold draw, zoom. destruct (m (sh_wr s)) as [[? ?]| |]; [|done..]. by intros [= _ <-]. Qed.

(** The loop refines the loop over a queue. *)
Lemma loop_queue w passes : forall last (s : Shell W N H), Kbuf.ring_ok (ring s) ->
  let o := queue_loop w passes (Kbuf.contents (ring s)) last s in
  exists r, Kbuf.ring_ok r /\ event_loop st stack_ptr w passes last s = carry set_ring r o /\
    (passes <> [] \/ Kbuf.contents (ring s) = [] -> forall s', o = Ret (Ok tt, s') -> Kbuf.contents r = []).
Proof.
  induction passes as [|p passes IH]; intros last s Hr; cbn [queue_loop event_loop].
  { exists (ring s). split; [done|]. split; [by destruct s as [? ? ? ? ? ? []]|]. by intros [?|?]. }
  cbv zeta. rewrite !(run_bind (fun s => Ret (tt, set_ticks (at_ticks p) s)) _ s tt _ eq_refl).
  set (s1 := set_ticks _ s). change (ring s) with (ring s1) in *. clearbody s1. clear s. rename s1 into s.
  rewrite !(run_bind get _ s s s eq_refl). unfold mbind, M_bind. destruct (draw _ s) as [[l s1]| |] eqn:Ed; [|by exists (ring s)..].
  apply draw_ring in Ed. rewrite <- Ed in Hr |- *. unfold try_bind, mbind, M_bind.
  destruct (drain_typed (256 + length (at_keys p)) (at_keys p) s1) as (r & Hok & -> & He); [done| |].
  { pose proof (served_length (at_keys p) _ (contents_short (ring s1))). lia. }
  destruct (type_keys _ _ _ s1) as [[[[]|e] s2]| |]; cbn [carry]; try by exists r.
  destruct (IH l (set_ring r s2)) as (r' & Hok' & -> & He'); [done|]. change (ring (set_ring r s2)) with r in *.
  rewrite (He s2) in He' |- * by done. exists r'. rewrite apart_queue, carry_carry. split; [done|]. split; [done|].
  intros _ s' Hs. eapply He'; [by right|]. by rewrite apart_queue, Hs.
Qed.
End queue.

(** ** Drawing *)

Lemma draws_splash w h : 0 <= w < 2 ^ 31 -> 0 <= h < 2 ^ 31 -> draws (splash w h).
Proof. intros. unfold splash. cbv zeta. draw. Qed.

Lemma draws_log h free regions : 0 <= h < 2 ^ 31 -> draws (kernel_log h free regions).
Proof. intros. unfold kernel_log, sat_sub. draw. Qed.

Lemma draws_panic info : draws (panic_screen info) /\ draws alloc_error_screen.
Proof. unfold panic_screen, alloc_error_screen. split; draw. Qed.

(** Drawn somewhere else, the cursor put back. *)
Definition cursor_kept (a b : Writer) : Prop := x b = x a /\ y b = y a /\ input_x b = input_x a.

Lemma clock_ok w t last wr : screen_ok wr -> 180 <= w < 2 ^ 31 ->
  exists wr', clock w t last wr = Ret (t, wr') /\ kept wr wr' /\ cursor_kept wr wr' /\ (t = last -> wr' = wr).
Proof.
  intros Hok Hw. unfold clock. destruct (Z.eqb_spec t last) as [->|Hne]; [by exists wr|]. cbv zeta.
  rewrite (run_bind get _ wr wr wr eq_refl). unfold csub. rewrite (proj2 (Z.leb_le _ _)) by lia. erewrite run_bind by done.
  destruct (fill_rect_ok wr (w - 180) 20 180 20 BG) as (w1 & R1 & Hok1 & E1); [done|lia..|]. rewrite (run_bind _ _ _ _ _ R1).
  destruct (set_pos_ok w1 (w - 180) 20) as (w2 & R2 & K2 & _ & _ & I2); [done|lia..|]. rewrite (run_bind _ _ _ _ _ R2).
  assert (forall s wr, screen_ok wr -> exists wr', write_str s wr = Ret (tt, wr') /\ kept wr wr' /\ input_x wr' = input_x wr) as Hs.
  { intros s wr0 Hok0. apply put_str_ok; [done|lia]. }
  destruct (Hs (lit "UPTIME: ") w2) as (w3 & R3 & K3 & I3); [apply K2|]. rewrite (run_bind _ _ _ _ _ R3).
  destruct (Hs (dec (t / 100)) w3) as (w4 & R4 & K4 & I4); [apply K3|]. rewrite (run_bind _ _ _ _ _ R4).
  destruct (Hs (lit "s") w4) as (w5 & R5 & K5 & I5); [apply K4|]. rewrite (run_bind _ _ _ _ _ R5).
  pose proof Hok as [_ _ Hx Hy _ _].
  destruct (set_pos_ok w5 (x wr) (y wr)) as (w6 & R6 & K6 & X6 & Y6 & I6); [apply K5|done|done|]. rewrite (run_bind _ _ _ _ _ R6).
  exists w6. split; [done|]. destruct E1 as (? & ? & ? & ? & ?).
  split; [|split; [unfold cursor_kept; repeat split; congruence|done]].
  unfold kept in *. split; [apply K6|]. intuition congruence.
Qed.

(** ** What interrupts may change *)

(** The kernel's state stays sound when the timer counts and when keys
    arrive. *)
Class InterruptEnv {W N : Type} {VN : VfsNode W N} {BD : BlockDevice W} {DS : DiskStatus W} (st : Statics) (stack_ptr : Z)
    {EN : ShellEnv st stack_ptr} := {
  env_timer k t : env_ok k -> fits 64 t ->
    env_ok (mkKernel (kn_world k) (kn_vm k) (kn_cr3 k) (kn_sched k) (kn_next_id k) (kn_pipes k) (kn_kbuf k) (kn_vfs k)
              (kn_serial k) (kn_screen k) t);
  env_keys k r : env_ok k -> env_ok (set_kbuf r k)
}.

Section main.
Context {W N H : Type} {VN : VfsNode W N} {BD : BlockDevice W} {DS : DiskStatus W} {HW : Hardware H}.
Context (st : Statics) (stack_ptr : Z) {EN : ShellEnv st stack_ptr} {IN : InterruptEnv st stack_ptr}.
Notation shell_ok := (shell_ok st stack_ptr (N := N) (W := W) (H := H)).
Notation good := (good st stack_ptr (N := N) (W := W) (H := H)).

Lemma good_clock w t last : 180 <= w < 2 ^ 31 -> good (draw (clock w t last)) (fun l => l = t).
Proof.
  intros Hw s Hs. destruct (clock_ok w t last (sh_wr s)) as (wr & R & K & _); [apply Hs|done|]. eexists t, _.
  split; [by apply run_zoom|]. split; [|done]. destruct Hs. constructor; try done. apply K.
Qed.

Lemma good_queue w passes : 180 <= w < 2 ^ 31 -> Forall (fun p => fits 64 (at_ticks p)) passes ->
  forall q last, good (queue_loop st stack_ptr w passes q last) (fun _ => True).
Proof.
  intros Hw Hp. induction Hp as [|p passes Ht Hp IH]; intros q last; cbn [queue_loop]; [by apply good_ret|].
  apply (good_bind _ _ _ _ (fun _ => True)).
  { intros s Hs. eexists tt, _. split; [done|]. split; [|done]. destruct Hs. constructor; try done. by apply env_timer. }
  intros _ _. apply good_get. intros s _. apply (good_bind _ _ _ _ _ _ (good_clock w _ last Hw)). intros l _.
  apply (good_bind _ _ _ _ _ _ (good_keys st stack_ptr _)). intros [[]|[]] _; [apply IH|by apply good_ret].
Qed.

Lemma set_ring_ok r s : shell_ok s -> shell_ok (set_ring r s).
Proof. intros []. constructor; try done. by apply env_keys. Qed.

Lemma good_loop w passes last s : 180 <= w < 2 ^ 31 -> Forall (fun p => fits 64 (at_ticks p)) passes ->
  shell_ok s -> Kbuf.ring_ok (ring s) ->
  exists r s1 rg, queue_loop st stack_ptr w passes (Kbuf.contents (ring s)) last s = Ret (r, s1) /\ Kbuf.ring_ok rg /\
    event_loop st stack_ptr w passes last s = Ret (r, set_ring rg s1) /\ shell_ok (set_ring rg s1) /\
    (passes <> [] -> r = Ok tt -> Kbuf.contents rg = []).
Proof.
  intros Hw Hp Hs Hr. destruct (loop_queue st stack_ptr w passes last s Hr) as (rg & Hrg & E & He).
  destruct (good_queue w passes Hw Hp (Kbuf.contents (ring s)) last s Hs) as (r & s1 & R & Hs1 & _).
  exists r, s1, rg. rewrite E, R. split; [done|]. split; [done|]. split; [done|]. split; [by apply set_ring_ok|].
  intros Hne ->. apply (He (or_introl Hne) s1 R).
Qed.

Lemma good_motd : good show_motd (fun _ => True).
Proof.
  eapply good_bind; [apply good_open|]. intros [n|[]] Hn; [|by apply good_ret].
  eapply good_bind; [apply good_node; intros k Hk; by apply env_read|].
  intros [bs|[]] _; [|by apply good_ret]. apply good_draw. draw.
Qed.

Lemma frames_ring {X} (m : M (Shell W N H) X) s a s' :
  frames set_ring m -> m s = Ret (a, s') -> ring s' = ring s.
Proof.
  intros Hm E. specialize (Hm (ring s) s). rewrite E in Hm.
  replace (set_ring (ring s) s) with s in Hm by (by destruct s as [? ? ? ? ? ? []]). rewrite E in Hm. cbn in Hm.
  injection Hm as ->. done.
Qed.

Lemma frames_motd : frames (S := Shell W N H) set_ring show_motd.
Proof.
  apply frames_bind; [apply apart_open|]. intros [n|]; [|apply frames_ret].
  apply frames_bind; [apply apart_node|]. intros [bs|]; [apply apart_draw|apply frames_ret].
Qed.

Lemma good_interact w h regions passes s : 180 <= w < 2 ^ 31 -> 0 <= h < 2 ^ 31 ->
  Forall (fun p => fits 64 (at_ticks p)) passes -> shell_ok s -> Kbuf.ring_ok (ring s) ->
  exists r s', interact st stack_ptr w h regions passes s = Ret (r, s') /\ shell_ok s'.
Proof.
  intros Hw Hh Hp Hs Hr. unfold interact.
  destruct (good_draw st stack_ptr (splash w h) (draws_splash w h ltac:(lia) Hh) s Hs) as ([] & s1 & R1 & Hs1 & _).
  rewrite (run_bind _ _ _ _ _ R1). apply frames_ring in R1; [|apply apart_draw].
  destruct (good_motd s1 Hs1) as ([] & s2 & R2 & Hs2 & _). rewrite (run_bind _ _ _ _ _ R2).
  apply frames_ring in R2; [|apply frames_motd]. rewrite (run_bind get _ s2 s2 s2 eq_refl).
  match goal with |- exists _ _, (draw ?m ≫= _) _ = _ /\ _ =>
    destruct (good_draw st stack_ptr m (draws_log h _ regions Hh) s2 Hs2) as ([] & s3 & R3 & Hs3 & _) end.
  rewrite (run_bind _ _ _ _ _ R3). apply frames_ring in R3; [|apply apart_draw].
  destruct (good_loop w passes 0 s3) as (r & s4 & rg & _ & _ & R & Hs4 & _); [done|done|done|by rewrite R3, R2, R1|].
  by exists r, (set_ring rg s4).
Qed.

(** ** The property *)

(** C35: the event loop serves the keyboard as a queue.  Whatever keys the
    interrupt handler pushes before each look at the ring buffer and whatever
    the timer says at each pass, the loop behaves as the loop that hands the
    shell, at each pass, the characters of all the scan codes that wait in a
    FIFO queue of 255; each pass ends with the buffer empty (or with a reset of
    the machine).  From the splash screen on nothing panics and the shell stays
    sound, on a screen at least 180 pixels wide; on a narrower one the first
    tick of the clock panics.  The clock puts the cursor back where the shell
    left it. *)
Theorem event_loop_spec (w h regions last : Z) (passes : list Pass) (s : Shell W N H)
    (Hw : 180 <= w < 2 ^ 31) (Hh : 0 <= h < 2 ^ 31) (Hp : Forall (fun p => fits 64 (at_ticks p)) passes)
    (Hs : shell_ok s) (Hr : Kbuf.ring_ok (ring s)) :
  (exists r s1 rg, queue_loop st stack_ptr w passes (Kbuf.contents (ring s)) last s = Ret (r, s1) /\ Kbuf.ring_ok rg /\
     event_loop st stack_ptr w passes last s = Ret (r, set_ring rg s1) /\ shell_ok (set_ring rg s1) /\
     (passes <> [] -> r = Ok tt -> Kbuf.contents rg = [])) /\
  (exists r s', interact st stack_ptr w h regions passes s = Ret (r, s') /\ shell_ok s') /\
  (forall t, exists wr, clock w t last (sh_wr s) = Ret (t, wr) /\ kept (sh_wr s) wr /\ cursor_kept (sh_wr s) wr) /\
  (forall t narrow, narrow < 180 -> t <> last -> clock narrow t last (sh_wr s) = Panic).
Proof.
  split; [by apply good_loop|]. split; [by apply good_interact|]. split.
  - intros t. destruct (clock_ok w t last (sh_wr s)) as (wr & R & K & C & _); [apply Hs|done|]. by exists wr.
  - intros t n Hn Hne. unfold clock. rewrite (proj2 (Z.eqb_neq _ _)) by done. cbv zeta.
    rewrite (run_bind get _ (sh_wr s) (sh_wr s) (sh_wr s) eq_refl). unfold csub. by rewrite (proj2 (Z.leb_gt _ _)) by lia.
Qed.
End main.

(** ** The file systems *)

(** [Arc<dyn VfsNode>]: a node of the RAM disk or of the FAT32 disk. *)
Inductive DynNode :=
  | RamNode (n : ram_node)
  | DiskNode (h : nat).

Definition map_ok {A B E} (f : A -> B) (r : result A E) : result B E :=
  match r with Ok a => Ok (f a) | Err e => Err e end.

Section mounts.
Context {D : Type} {BD : BlockDevice D} {DS : DiskStatus D}.
Context (fuel : nat).
Notation W := (FatWorld D).

#[local] Instance disk_nodes : VfsNode W nat := fat_node fuel.

(** The call goes to the file system the node is of. *)
#[export] Instance dyn_nodes : VfsNode W DynNode := {
  attribute n := match n with RamNode n => attribute n | DiskNode h => attribute h end;
  read n off len := match n with RamNode n => read n off len | DiskNode h => read h off len end;
  readdir n := match n with RamNode n => readdir n | DiskNode h => readdir h end;
  finddir n name := match n with
    | RamNode n => r ← finddir n name; mret (map_ok RamNode r)
    | DiskNode h => r ← finddir h name; mret (map_ok DiskNode r)
    end;
  write n off bs := match n with RamNode n => write n off bs | DiskNode h => write h off bs end;
  create_in n name := match n with
    | RamNode n => r ← create_in n name; mret (map_ok RamNode r)
    | DiskNode h => r ← create_in h name; mret (map_ok DiskNode r)
    end
}.

(** The disk commands of the shell reach the device behind the file system. *)
#[export] Instance world_disk : BlockDevice W := {
  read_sectors lba count buf := zoom fw_dev (fun d w => mkFat d (fw_nodes w)) (read_sectors lba count buf);
  write_sectors lba count buf := zoom fw_dev (fun d w => mkFat d (fw_nodes w)) (write_sectors lba count buf)
}.
#[export] Instance world_status : DiskStatus W := { disk_ready w := disk_ready (fw_dev w) }.

Notation K := (M (Kernel W DynNode PmmState)).

Definition modify_vfs (f : VfsRoot DynNode -> VfsRoot DynNode) : K unit := fun k =>
  Ret (tt, mkKernel (kn_world k) (kn_vm k) (kn_cr3 k) (kn_sched k) (kn_next_id k) (kn_pipes k) (kn_kbuf k)
             (f (kn_vfs k)) (kn_serial k) (kn_screen k) (kn_ticks k)).

(** [Fat32Fs::mount], the text of an error kept. *)
Definition mount_fs : M W (result Fat32Fs string) := zoom fw_dev (fun d w => mkFat d (fw_nodes w)) mount.

(** @src ross-kernel/src/main.rs 153-163 kernel_main *)
Definition motd_test : K unit :=
  k ← get;
  r ← on_world (open (kn_vfs k) (lit "motd.txt"));
  match r with
  | Ok file =>
      r ← on_world (read file 0 64);
      match r with
      | Ok bs =>
          serial_print (lit "VFS Test: read 'motd.txt' -> ");;
          serial_print (if utf8_valid bs then bs else lit "error");;
          serial_print [10]
      | Err _ => mret tt
      end
  | Err _ => serial_print (lit "VFS Test: failed to open 'motd.txt'" ++ [10])
  end.

(** [ramdisk] is the archive the loader passed, if any.
    @src ross-kernel/src/main.rs 145-166 kernel_main *)
Definition mount_ramdisk (ramdisk : option (list Z)) : K unit :=
  match ramdisk with
  | Some data =>
      if 0 <? Z.of_nat (length data) then
        files ← lift (TarFileSystem_new data);
        modify_vfs (Vfs.init (RamNode (RDir files)));;
        serial_print (lit "VFS: Mounted dynamic Initrd" ++ [10]);;
        motd_test
      else serial_print (lit "VFS: No Initrd passed from bootloader" ++ [10])
  | None => serial_print (lit "VFS: No Initrd passed from bootloader" ++ [10])
  end.

(** @src ross-kernel/src/main.rs 169-181 kernel_main *)
Definition mount_fat : K unit :=
  k ← get;
  if disk_ready (fw_dev (kn_world k)) then
    r ← on_world mount_fs;
    match r with
    | Ok fs =>
        root ← on_world (root fs);
        modify_vfs (mount_disk (DiskNode root));;
        serial_print (lit "VFS: Mounted FAT32 at /mnt/disk" ++ [10])
    | Err msg =>
        serial_print (lit "VFS: FAT32 mount failed: ");;
        serial_print (lit msg);;
        serial_print [10]
    end
  else mret tt.

(** @src ross-kernel/src/main.rs 144-182 kernel_main *)
Definition mount_all (ramdisk : option (list Z)) : K unit := mount_ramdisk ramdisk;; mount_fat.

(** ** What is mounted *)

(** A path without a slash. *)
Lemma open_ram files d name w : name_ok name ->
  open (mkVfs (Some (RamNode (RDir files))) d) name w = Ret (map_ok RamNode (find_file files name), w).
Proof.
  intros Hn. pose proof (name_join [name] ltac:(by constructor)) as Hj. cbn [join] in Hj.
  rewrite (open_trimmed _ _ [name]); [|done|by constructor]. cbn. unfold ok_or. unfold_m. unfold ram_finddir, mret, M_ret.
  by destruct (find_file files name).
Qed.

Lemma motd_name : name_ok (lit "motd.txt").
Proof. split; [done|not_in_lit]. Qed.

(** The tasks are left alone. *)
Definition same_tasks (k k' : Kernel W DynNode PmmState) : Prop := kn_sched k' = kn_sched k /\ kn_next_id k' = kn_next_id k.

Lemma same_tasks_trans k1 k2 k3 : same_tasks k1 k2 -> same_tasks k2 k3 -> same_tasks k1 k3.
Proof. unfold same_tasks. intuition congruence. Qed.

Lemma set_vfs_run f (k : Kernel W DynNode PmmState) : exists k', modify_vfs f k = Ret (tt, k') /\ kn_vfs k' = f (kn_vfs k) /\
  kn_world k' = kn_world k /\ same_tasks k k'.
Proof. eexists. done. Qed.

(** Only the log grew. *)
Definition same_vfs (k k' : Kernel W DynNode PmmState) : Prop :=
  kn_vfs k' = kn_vfs k /\ kn_world k' = kn_world k /\ same_tasks k k'.

Lemma print_run s (k : Kernel W DynNode PmmState) : exists k', serial_print s k = Ret (tt, k') /\ same_vfs k k'.
Proof. rewrite serial_print_run. by eexists. Qed.

Lemma on_world_run {X} (m : M W X) (k : Kernel W DynNode PmmState) a :
  m (kn_world k) = Ret (a, kn_world k) -> on_world m k = Ret (a, k).
Proof. intros Hm. unfold on_world. rewrite Hm. by destruct k. Qed.

(** The test at boot only writes to the log. *)
Lemma motd_test_run (k : Kernel W DynNode PmmState) files d : kn_vfs k = mkVfs (Some (RamNode (RDir files))) d ->
  exists k', motd_test k = Ret (tt, k') /\ same_vfs k k'.
Proof.
  intros Hv. unfold motd_test. rewrite (run_bind get _ k k k eq_refl), Hv.
  rewrite (run_bind _ _ k _ k (on_world_run _ _ _ (open_ram files d _ _ motd_name))).
  pose proof (find_file_first files (lit "motd.txt")) as Hf.
  destruct (find_file files (lit "motd.txt")) as [n|]; cbn [map_ok]; [|apply print_run].
  destruct Hf as (f & _ & _ & -> & _).
  assert (exists bs, read (RamNode (RFile f)) 0 64 (kn_world k) = Ret (Ok bs, kn_world k)) as [bs E].
  { cbn. unfold ram_read. case_match; by eexists. }
  rewrite (run_bind _ _ k _ k (on_world_run _ _ _ E)).
  destruct (print_run (lit "VFS Test: read 'motd.txt' -> ") k) as (k1 & R1 & V1 & W1 & T1). rewrite (run_bind _ _ k _ _ R1).
  destruct (print_run (if utf8_valid bs then bs else lit "error") k1) as (k2 & R2 & V2 & W2 & T2). rewrite (run_bind _ _ k1 _ _ R2).
  destruct (print_run [10] k2) as (k3 & R3 & V3 & W3 & T3). exists k3. split; [exact R3|]. unfold same_vfs.
  split; [congruence|]. split; [congruence|]. by eapply same_tasks_trans, same_tasks_trans.
Qed.

(** Sector 0 of a disk that works. *)
Definition boot_sector {BL : BlockLaws D} (w : W) : list Z := bd_sec (fw_dev w) 0.

(** What the BIOS parameter block of the disk says is what is mounted. *)
Definition fs_of (b : BiosParameterBlock) : Fat32Fs :=
  mkFs b (reserved_sectors b) (reserved_sectors b + num_fats b * fat_size_sectors b).

Lemma parse_bpb_range sec b : length sec = 512%nat -> Forall is_byte sec -> parse_bpb sec = Ok b ->
  fits 16 (reserved_sectors b) /\ fits 8 (num_fats b) /\ fits 32 (fat_size_sectors b).
Proof.
  intros Hl Hb. unfold parse_bpb. repeat case_match; try done. intros [= <-]. cbn.
  assert (forall o n, (o + n <= 512)%nat -> fits (8 * Z.of_nat n) (le_val (sub sec (Z.of_nat o) (Z.of_nat n)))) as Hf.
  { intros o n Ho. apply le_val_fits; unfold sub; [by apply Forall_take, Forall_drop|]. rewrite length_take, length_drop. lia. }
  split; [apply (Hf 14%nat 2%nat); lia|]. split; [|apply (Hf 36%nat 4%nat); lia].
  apply (Forall_lookup_1 _ sec 16); [done|]. apply list_lookup_lookup_total_lt. lia.
Qed.

(** The disk was only read. *)
Definition same_disk {BL : BlockLaws D} (d d' : D) : Prop :=
  (bd_ok d -> bd_ok d') /\ bd_cap d' = bd_cap d /\ forall x, bd_sec d' x = bd_sec d x.

Lemma mount_fs_run {BL : BlockLaws D} (w : W) : bd_ok (fw_dev w) -> 1 <= bd_cap (fw_dev w) ->
  exists w', mount_fs w = Ret (match parse_bpb (boot_sector w) with Ok b => Ok (fs_of b) | Err e => Err e end, w') /\
    fw_nodes w' = fw_nodes w /\ same_disk (fw_dev w) (fw_dev w').
Proof.
  intros Hok Hcap. destruct (bd_read (fw_dev w) 0 1 (replicate 512 0)) as (d' & R & Hok' & Hc & Hs); [done|lia|lia|lia|by rewrite length_replicate|].
  pose proof (bd_sec_ok (fw_dev w) Hok 0) as [Hl Hb].
  assert (gather (bd_sec (fw_dev w)) 0 (Z.to_nat 1) ++ drop (Z.to_nat (1 * 512)) (replicate 512 0) = boot_sector w) as E.
  { change (Z.to_nat 1) with 1%nat. cbn [gather]. by rewrite !app_nil_r. }
  rewrite E in R. exists (mkFat d' (fw_nodes w)). split; [|by split]. unfold mount_fs, zoom, mount. rewrite (run_try _ _ _ _ _ R).
  destruct (parse_bpb (boot_sector w)) as [b|e] eqn:Ep; [|done].
  destruct (parse_bpb_range _ b Hl Hb Ep) as (H1 & H2 & H3). unfold fits in *.
  unfold cmul, cadd. rewrite (proj2 (Z.ltb_lt _ _)) by nia. erewrite run_bind by done.
  rewrite (proj2 (Z.ltb_lt _ _)) by nia. done.
Qed.

(** The RAM disk: the archive's files in the root directory. *)
Lemma mount_ramdisk_run (k : Kernel W DynNode PmmState) data files :
  TarFileSystem_new data = Ret files -> data <> [] ->
  exists k', mount_ramdisk (Some data) k = Ret (tt, k') /\
    kn_vfs k' = mkVfs (Some (RamNode (RDir files))) (disk_root (kn_vfs k)) /\ kn_world k' = kn_world k /\ same_tasks k k'.
Proof.
  intros Ht Hne. unfold mount_ramdisk. rewrite (proj2 (Z.ltb_lt _ _)) by (destruct data; [done|simpl; lia]). rewrite Ht.
  erewrite run_bind by done. destruct (set_vfs_run (Vfs.init (RamNode (RDir files))) k) as (k1 & R1 & V1 & W1 & T1).
  rewrite (run_bind _ _ _ _ _ R1). destruct (print_run (lit "VFS: Mounted dynamic Initrd" ++ [10]) k1) as (k2 & R2 & V2 & W2 & T2).
  rewrite (run_bind _ _ _ _ _ R2). destruct (motd_test_run k2 files (disk_root (kn_vfs k))) as (k3 & R3 & V3 & W3 & T3).
  { by rewrite V2, V1. }
  exists k3. split; [done|]. split; [by rewrite V3, V2, V1|]. split; [congruence|]. by eapply same_tasks_trans, same_tasks_trans.
Qed.

(** The disk: its root directory, when there is a drive with a FAT32 on it. *)
Lemma mount_fat_run {BL : BlockLaws D} (k : Kernel W DynNode PmmState) :
  (disk_ready (fw_dev (kn_world k)) = true -> bd_ok (fw_dev (kn_world k)) /\ 1 <= bd_cap (fw_dev (kn_world k))) ->
  exists k', mount_fat k = Ret (tt, k') /\ root_node (kn_vfs k') = root_node (kn_vfs k) /\
    match (if disk_ready (fw_dev (kn_world k)) then parse_bpb (boot_sector (kn_world k)) else Err "no drive"%string) with
    | Ok b => disk_root (kn_vfs k') = Some (DiskNode (length (fw_nodes (kn_world k)))) /\
        fw_nodes (kn_world k') = fw_nodes (kn_world k) ++ [node_dir (fs_of b) (root_cluster b) 0 0]
    | Err _ => disk_root (kn_vfs k') = disk_root (kn_vfs k) /\ fw_nodes (kn_world k') = fw_nodes (kn_world k)
    end /\ same_disk (fw_dev (kn_world k)) (fw_dev (kn_world k')) /\ same_tasks k k'.
Proof.
  intros Hrdy. unfold mount_fat. rewrite (run_bind get _ k k k eq_refl). destruct (disk_ready _); [|by exists k].
  destruct (Hrdy eq_refl) as [Hok Hcap]. destruct (mount_fs_run (kn_world k) Hok Hcap) as (w & R & Hn & Hsame).
  assert (on_world mount_fs k = Ret (match parse_bpb (boot_sector (kn_world k)) with Ok b => Ok (fs_of b) | Err e => Err e end, set_world w k)) as R1.
  { unfold on_world. by rewrite R. }
  rewrite (run_bind _ _ _ _ _ R1). destruct (parse_bpb _) as [b|e].
  - assert (on_world (root (fs_of b)) (set_world w k) = Ret (length (fw_nodes w),
      set_world (mkFat (fw_dev w) (fw_nodes w ++ [node_dir (fs_of b) (root_cluster b) 0 0])) k)) as R2 by done.
    rewrite (run_bind _ _ _ _ _ R2). clear R2. set (k2 := set_world _ k).
    destruct (set_vfs_run (mount_disk (DiskNode (length (fw_nodes w)))) k2) as (k3 & R3 & V3 & W3 & T3). rewrite (run_bind _ _ k2 _ _ R3).
    destruct (print_run (lit "VFS: Mounted FAT32 at /mnt/disk" ++ [10]) k3) as (k4 & R4 & V4 & W4 & T4). exists k4. split; [exact R4|].
    rewrite V4, V3, W4, W3, <- Hn. split; [done|]. split; [done|]. split; [done|]. by eapply same_tasks_trans.
  - destruct (print_run (lit "VFS: FAT32 mount failed: ") (set_world w k)) as (k2 & R2 & V2 & W2 & T2). rewrite (run_bind _ _ _ _ _ R2).
    destruct (print_run (lit e) k2) as (k3 & R3 & V3 & W3 & T3). rewrite (run_bind _ _ k2 _ _ R3).
    destruct (print_run [10] k3) as (k4 & R4 & V4 & W4 & T4). exists k4. split; [exact R4|]. rewrite V4, V3, V2, W4, W3, W2.
    split; [done|]. split; [done|]. split; [done|]. by eapply same_tasks_trans, same_tasks_trans.
Qed.

Lemma find_file_at files l1 f l2 : files = l1 ++ f :: l2 -> Forall (fun g => tf_name g <> tf_name f) l1 ->
  find_file files (tf_name f) = Ok (RFile f).
Proof.
  intros -> Hl. induction Hl as [|g l1 Hg Hl IH]; simpl; [by rewrite bool_decide_eq_true_2|].
  by rewrite bool_decide_eq_false_2.
Qed.

(** ** The property *)

(** C36: booting mounts the archive and the disk.  From any well-formed archive
    the RAM disk is mounted at the root: every file of it that is the first of
    its name opens by that name and reads back as its contents.  If there is a
    drive and its first sector is a BIOS parameter block the kernel accepts,
    [/mnt/disk] is its root directory; otherwise the boot goes on without it.
    Without an archive only the log says so. *)
Theorem mounts_spec {BL : BlockLaws D} (k : Kernel W DynNode PmmState) (es : list tar_entry) (rest : list Z)
    (Hes : Forall entry_ok es) (Hr : end_ok rest) (Hl : Z.of_nat (length (archive es)) < 2 ^ 62)
    (Hne : archive es ++ rest <> [])
    (Hok : disk_ready (fw_dev (kn_world k)) = true -> bd_ok (fw_dev (kn_world k)) /\ 1 <= bd_cap (fw_dev (kn_world k))) :
  let files := omap entry_file es in
  (exists k', mount_all (Some (archive es ++ rest)) k = Ret (tt, k') /\
     root_node (kn_vfs k') = Some (RamNode (RDir files)) /\
     (forall l1 f l2 w, files = l1 ++ f :: l2 -> Forall (fun g => tf_name g <> tf_name f) l1 -> name_ok (tf_name f) ->
        open (kn_vfs k') (tf_name f) w = Ret (Ok (RamNode (RFile f)), w) /\
        (tf_data f <> [] -> read (RamNode (RFile f)) 0 (Z.of_nat (length (tf_data f))) w = Ret (Ok (tf_data f), w))) /\
     match (if disk_ready (fw_dev (kn_world k)) then parse_bpb (boot_sector (kn_world k)) else Err "no drive"%string) with
     | Ok b => exists h, fw_nodes (kn_world k') !! h = Some (node_dir (fs_of b) (root_cluster b) 0 0) /\
         forall w, open (kn_vfs k') (lit "/mnt/disk") w = Ret (Ok (DiskNode h), w)
     | Err _ => disk_root (kn_vfs k') = disk_root (kn_vfs k) /\ fw_nodes (kn_world k') = fw_nodes (kn_world k)
     end) /\
  (exists k', mount_ramdisk None k = Ret (tt, k') /\ same_vfs k k').
Proof.
  cbv zeta. split; [|apply print_run].
  assert (TarFileSystem_new (archive es ++ rest) = Ret (omap entry_file es)) as Ht.
  { unfold TarFileSystem_new. apply (parse_archive es [] rest); try done.
    pose proof (archive_blocks es Hes) as Hb. rewrite length_app. apply Nat.lt_succ_r, Nat.div_le_lower_bound; lia. }
  set (files := omap entry_file es) in *.
  destruct (mount_ramdisk_run k _ _ Ht Hne) as (k1 & R1 & V1 & W1 & _).
  destruct (mount_fat_run k1) as (k2 & R2 & V2 & Hm & _); rewrite ?W1; [done..|]. rewrite W1, V1 in *.
  exists k2. unfold mount_all. rewrite (run_bind _ _ _ _ _ R1). split; [done|]. split; [done|].
  split.
  - intros l1 f l2 w Hf Hl1 Hn. destruct (kn_vfs k2) as [rt d]. cbn [root_node] in V2. subst rt. cbn [root_node].
    rewrite open_ram, (find_file_at files l1 f l2) by done. split; [done|]. intros Hd. cbn. unfold ram_read.
    rewrite (proj2 (Z.leb_gt _ _)) by (destruct (tf_data f); [done|simpl; lia]).
    unfold sub. rewrite drop_0, take_ge by lia. done.
  - destruct (if disk_ready _ then _ else _) as [b|e]; [|done]. destruct Hm as [Hd Hn].
    exists (length (fw_nodes (kn_world k))). rewrite Hn. split; [by apply list_lookup_middle|].
    intros w. unfold open. change (strip_prefix mnt_disk (trim_start_matches slash (lit "/mnt/disk"))) with (Some (@nil Z)).
    cbv iota beta. by rewrite Hd.
Qed.

End mounts.

(** ** Witness *)

#[local] Existing Instances demo_nodes demo_disk demo_status demo_env demo_trace_hw.

#[local] Program Instance demo_interrupts : @InterruptEnv unit DemoNode _ _ _ demo_statics 0xFFFFFFFF80300000 demo_env.
Next Obligation. intros k t (Hv & Hf & _) Ht. by split. Qed.
Next Obligation. intros k r Hk. exact Hk. Qed.

(** [help], Enter pressed while it is typed, then a scan code that is none. *)
Definition demo_passes : list Pass :=
  [mkPass 100 [[0x23; 0xA3]; [0x12]; []; [0x26; 0x19; 0x1C]]; mkPass 101 [[0x7F]]].

Example event_loop_spec_witness :
  typed (served [] (at_keys (mkPass 100 [[0x23; 0xA3]; [0x12]; []; [0x26; 0x19; 0x1C]]))) = lit "help" ++ [10] /\
  (exists r s1 rg,
     queue_loop demo_statics 0xFFFFFFFF80300000 640 demo_passes (Kbuf.contents (ring demo_shell)) 0 demo_shell = Ret (r, s1) /\
     Kbuf.ring_ok rg /\
     event_loop demo_statics 0xFFFFFFFF80300000 640 demo_passes 0 demo_shell = Ret (r, set_ring rg s1) /\
     Shell.shell_ok demo_statics 0xFFFFFFFF80300000 (set_ring rg s1) /\
     (demo_passes <> [] -> r = Ok tt -> Kbuf.contents rg = [])).
Proof.
  split; [reflexivity|].
  apply (event_loop_spec demo_statics 0xFFFFFFFF80300000 640 480 7 0 demo_passes demo_shell).
  - lia.
  - lia.
  - repeat constructor; vm_compute; congruence.
  - exact demo_shell_ok.
  - apply Kbuf.Ring_init_ok.
Defined.

(** A disk with a BIOS parameter block of one FAT, one reserved sector, and
    root cluster 2. *)
Definition demo_bpb_sector : list Z :=
  list_inserts 11 [0; 2; 1; 1; 0; 1] (list_inserts 0x24 [1; 0; 0; 0; 0; 0; 0; 0; 2]
    (list_inserts 510 [0x55; 0xAA] zero_sector)).

Definition demo_fat_disk : RamDisk := mkDisk 128 {[ 0 := demo_bpb_sector ]}.

#[local] Instance demo_drive : DiskStatus RamDisk := { disk_ready _ := true }.

Definition demo_kernel : Kernel (FatWorld RamDisk) DynNode PmmState :=
  mkKernel (mkFat demo_fat_disk []) (mkVm demo_boot big_pmm) 0x100000 Task.Scheduler_new 1 Ipc.PipeTable_new Kbuf.Ring_init
    VFS [] [] 0.

Lemma demo_fat_ok : bd_ok demo_fat_disk.
Proof.
  intros x. unfold rd_sec, demo_fat_disk. cbn [rd_data]. destruct (decide (x = 0)) as [->|Hx].
  - rewrite lookup_singleton_eq. split; [reflexivity|]. apply (bool_decide_unpack (Forall _ _)). vm_compute. reflexivity.
  - rewrite lookup_singleton_ne by done. split; [reflexivity|]. apply (bool_decide_unpack (Forall _ _)). vm_compute. reflexivity.
Qed.

Example mounts_spec_witness :
  parse_bpb (boot_sector (kn_world demo_kernel)) = Ok (mkBpb 512 1 1 1 1 2) /\
  exists k', mount_all 5 (Some (archive demo_entries ++ replicate 1024 0)) demo_kernel = Ret (tt, k') /\
    root_node (kn_vfs k') = Some (RamNode (RDir [mkTar (lit "init") [1; 2; 3]; mkTar (lit "etc/motd") (lit "hi")])).
Proof.
  split; [vm_compute; reflexivity|].
  destruct (mounts_spec 5 demo_kernel demo_entries (replicate 1024 0) demo_entries_ok) as [(k' & R & E & _) _].
  - right. vm_compute. discriminate.
  - vm_compute. reflexivity.
  - discriminate.
  - intros _. split; [apply demo_fat_ok|discriminate].
  - exists k'. split; [exact R|exact E].
Defined.
