(* ===== verification/Session.v ===== *)
(** * A session at the prompt ([shell.rs], [vfs.rs], [fat32.rs] together)

    The commands [write] and [cat] on a file of the disk, from the line that was
    typed to the sectors: [Shell.execute] parses the line and resolves the path,
    [Vfs.open] and [Vfs.create] find the mount, [FatDir] creates, writes and
    finds the file.  [session_spec] also starts the kernel again on the disk the
    session left behind. *)

From Stdlib Require Import String.
From S2P Require Import Prelude Bytes Frames Pmm Paging Spaces Str Vfs Ramfs Elf Block Io Pci Font Writer.
From S2P Require Kbuf Ipc Fd Gdt Task.
From S2P Require Import Syscall Shell Fat32 FatSpec FatDir Boot.

(** ** The words of a line *)

(** Not empty, and without white space. *)
Definition is_word (w : str) : Prop := w <> [] /\ Forall (fun b => is_space b = false) w.
#[global] Instance is_word_dec w : Decision (is_word w).
Proof. unfold is_word. apply _. Defined.

Lemma words_step b c r : is_space b = false -> is_space c = false ->
  words (b :: c :: r) = match words (c :: r) with w :: ws => (b :: w) :: ws | [] => [[b]] end.
Proof. intros Hb Hc. change (words (b :: c :: r)) with (if is_space b then words (c :: r) else
  if is_space c then [b] :: words (c :: r) else match words (c :: r) with w :: ws => (b :: w) :: ws | [] => [[b]] end).
  by rewrite Hb, Hc. Qed.

Lemma words_last w : is_word w -> words w = [w].
Proof.
  intros [Hne Hw]. induction Hw as [|b w Hb Hw IH]; [done|]. destruct Hw as [|c w Hc Hw].
  - cbn [words]. by rewrite Hb.
  - by rewrite words_step, IH.
Qed.

Lemma words_head w s : is_word w -> words (w ++ 32 :: s) = w :: words s.
Proof.
  intros [Hne Hw]. induction Hw as [|b w Hb Hw IH]; [done|]. destruct Hw as [|c w Hc Hw].
  - cbn [app words]. by rewrite Hb.
  - change ((b :: c :: w) ++ 32 :: s) with (b :: c :: (w ++ 32 :: s)). rewrite words_step by done.
    change (c :: w ++ 32 :: s) with ((c :: w) ++ 32 :: s). by rewrite IH.
Qed.

(** Parsing a line gives back the words it was put together from. *)
Lemma words_join ws : Forall is_word ws -> words (join 32 ws) = ws.
Proof.
  induction 1 as [|w ws Hw Hws IH]; [done|]. destruct ws as [|w2 ws]; [by apply words_last|].
  change (join 32 (w :: w2 :: ws)) with (w ++ 32 :: join 32 (w2 :: ws)). by rewrite words_head, IH.
Qed.

(** ** The state a command leaves *)

Section session.
Context {D H : Type} {BD : BlockDevice D} {BL : BlockLaws D} {DS : DiskStatus D} {HW : Hardware H}.
Context (st : Statics) (stack_ptr : Z) (fuel : nat).
Notation W := (FatWorld D).
Notation Sh := (Shell W DynNode H).

#[local] Instance session_nodes : VfsNode W DynNode := dyn_nodes fuel.

(** Other files, other sectors, more log, other pixels. *)
Definition after (w : W) (log : list Z) (wr : Writer) (s : Sh) : Sh :=
  mkShell (sh_state s) (LINE_BUF s) (LINE_LEN s) (CWD_BUF s) (CWD_LEN s) wr
    (set_world w (set_serial (kn_serial (sh_kn s) ++ log) (sh_kn s))) (DEVICES s) (sh_hw s).

Lemma after_nothing s : after (kn_world (sh_kn s)) [] (sh_wr s) s = s.
Proof. destruct s as [? ? ? ? ? ? k ? ?]. unfold after. cbn. rewrite app_nil_r. by destruct k. Qed.

Lemma after_after w1 l1 wr1 w2 l2 wr2 s : after w2 l2 wr2 (after w1 l1 wr1 s) = after w2 (l1 ++ l2) wr2 s.
Proof. unfold after. cbn. by rewrite <- app_assoc. Qed.

Lemma trace_after t w log wr s : trace t (after w log wr s) = Ret (tt, after w (log ++ t) wr s).
Proof. unfold trace, on_kn, zoom. rewrite serial_print_run. unfold after. cbn. by rewrite app_assoc. Qed.

Lemma draw_after m w log wr wr' s : m wr = Ret (tt, wr') -> draw m (after w log wr s) = Ret (tt, after w log wr' s).
Proof. intros Hm. unfold draw, zoom. cbn. by rewrite Hm. Qed.

Lemma node_after {X} (m : M W X) a w w' log wr s : m w = Ret (a, w') -> on_node m (after w log wr s) = Ret (a, after w' log wr s).
Proof. intros Hm. unfold on_node, on_kn, zoom, on_world. cbn. by rewrite Hm. Qed.

Lemma open_after path r w w' log wr s : open (kn_vfs (sh_kn s)) path w = Ret (r, w') ->
  sh_open path (after w log wr s) = Ret (r, after w' log wr s).
Proof. intros Ho. unfold sh_open, on_kn, zoom, on_world. cbn. by rewrite Ho. Qed.

Lemma create_after path r w w' log wr s : create (kn_vfs (sh_kn s)) path w = Ret (r, w') ->
  sh_create path (after w log wr s) = Ret (r, after w' log wr s).
Proof. intros Ho. unfold sh_create, on_kn, zoom, on_world. cbn. by rewrite Ho. Qed.

Lemma cwd_after c w log wr s : cwd s = Ret (c, s) -> cwd (after w log wr s) = Ret (c, after w log wr s).
Proof.
  unfold cwd. rewrite !(run_bind get _ _ _ _ eq_refl). cbn. unfold lift. destruct (slice_to _ _); [|done..]. by intros [= ->].
Qed.

(** ** Paths of the disk *)

Definition disk_path (name : str) : str := lit "/mnt/disk/" ++ name.

Lemma disk_names name : name_ok name -> Forall name_ok [lit "mnt"; lit "disk"; name].
Proof. intros Hn. repeat (constructor; [first [exact Hn|split; [done|not_in_lit]]|]). constructor. Qed.

Lemma open_disk vfs h name w : disk_root vfs = Some (DiskNode h) -> name_ok name ->
  open vfs (disk_path name) w = (r ← (fat_node fuel).(finddir) h name; mret (map_ok DiskNode r)) w.
Proof.
  intros Hd Hn. rewrite (open_trimmed vfs (disk_path name) [lit "mnt"; lit "disk"; name]); [|done|by apply disk_names].
  unfold Vfs.resolve. cbn [route]. rewrite decide_True by done. change (strip_prefix (lit "disk") (lit "disk")) with (Some (@nil Z)).
  cbv iota beta. rewrite Hd. unfold ok_or. erewrite run_try by done. cbn [walk]. unfold try_bind, mbind, M_bind, mret, M_ret.
  cbn. unfold mbind, M_bind. by destruct (fat_finddir fuel h name w) as [[[n|e] w']| |].
Qed.

Lemma create_disk vfs h name w : disk_root vfs = Some (DiskNode h) -> name_ok name ->
  create vfs (disk_path name) w = (r ← (fat_node fuel).(create_in) h name; mret (map_ok DiskNode r)) w.
Proof.
  intros Hd Hn. change (disk_path name) with (slash :: join slash ([lit "mnt"; lit "disk"] ++ [name])).
  rewrite create_ok by (by apply disk_names).
  unfold Vfs.resolve. cbn [route]. rewrite decide_True by done. change (strip_prefix (lit "disk") (lit "disk")) with (Some (@nil Z)).
  unfold ok_or, try_bind, mbind, M_bind, mret, M_ret. cbn. by rewrite Hd.
Qed.

(** ** The two commands *)

Context (fs : Fat32Fs) (cap : Z) (Hfs : fs_ok fs cap).

(** What [write] reports. *)
Definition wrote_line (n : Z) (path : str) : Wr unit :=
  write_str (lit "  Wrote ");; write_str (dec n);; write_str (lit " bytes to ");; write_str path;; write_str [10].

(** What [cat] shows of a file. *)
Definition file_text (data : list Z) : Wr unit := show_bytes (take 4096 data);; put_char 10 FG SCALE.

Lemma draws_wrote n path : draws (wrote_line n path).
Proof. unfold wrote_line. repeat (apply draws_seq; [apply draws_write|]). apply draws_write. Qed.

Lemma draws_text data : draws (file_text data).
Proof. apply draws_seq; [apply draws_bytes|apply draws_char]. Qed.

(** Writing to a name the directory does not have yet. *)
Lemma write_new s w log wr h n sec l name name83 data :
  dir_state fs cap w h n sec l -> l <> [] -> (S (length l) < fuel)%nat -> disk_root (kn_vfs (sh_kn s)) = Some (DiskNode h) ->
  name_ok name -> plain_name name -> to_8_3 name = Some name83 -> List.find (named name) (listing fs sec l) = None ->
  data <> [] -> Forall is_byte data -> Z.of_nat (length data) < 2 ^ 32 ->
  has_clusters fs (S (clusters_for fs (Z.of_nat (length data)))) sec -> screen_ok wr ->
  exists w2 log2 wr2 sec2 l2, cmd_write (disk_path name) data (after w log wr s) = Ret (tt, after w2 log2 wr2 s) /\
    wrote_line (Z.of_nat (length data)) (disk_path name) wr = Ret (tt, wr2) /\ screen_ok wr2 /\
    dir_state fs cap w2 h n sec2 l2 /\ (length l2 < fuel)%nat /\ stored fs cap sec2 l2 name data /\ reserved_kept fs sec sec2.
Proof.
  intros Hs Hne Hk Hroot Hname Hplain H83 Hnew Hdne Hby Hlen Hroom Hwr.
  destruct (finddir_ok fs cap Hfs fuel w h n sec l name Hs ltac:(lia)) as (d1 & Hd1 & R1). rewrite Hnew in R1.
  set (w1 := mkFat d1 (fw_nodes w)) in *. assert (dir_state fs cap w1 h n sec l) as Hs1 by (destruct Hs; by constructor).
  destruct (create_stored fs cap Hfs fuel w1 h n sec l name name83 data Hs1 Hne Hk Hplain H83 Hnew Hdne Hby Hlen Hroom)
    as (w2 & w3 & sec2 & l2 & R2 & _ & R3 & _ & Hs3 & Hk3 & Hst & Hres).
  destruct (draws_wrote (Z.of_nat (length data)) (disk_path name) wr Hwr) as (wr2 & R4 & [Hwr2 _]).
  assert (open (kn_vfs (sh_kn s)) (disk_path name) w = Ret (Err tt, w1)) as Ro.
  { rewrite (open_disk _ h) by done. unfold mbind, M_bind. cbn. by rewrite R1. }
  assert (create (kn_vfs (sh_kn s)) (disk_path name) w1 = Ret (Ok (DiskNode (length (fw_nodes w1))), w2)) as Rc.
  { rewrite (create_disk _ h) by done. unfold mbind, M_bind. cbn. by rewrite R2. }
  assert (forall log, node_for (disk_path name) (after w log wr s) =
    Ret (Ok (DiskNode (length (fw_nodes w1))), after w2 (log ++ nl (lit "[WRITE] created new file")) wr s)) as Hnode.
  { intros lg. unfold node_for. rewrite (run_bind _ _ _ _ _ (open_after _ _ _ _ lg wr s Ro)). cbv beta iota.
    rewrite (run_bind _ _ _ _ _ (create_after _ _ _ _ lg wr s Rc)). cbv beta iota.
    by rewrite (run_bind _ _ _ _ _ (trace_after _ _ _ _ _)). }
  eexists w3, _, wr2, sec2, l2. split; [|done]. unfold cmd_write.
  do 3 rewrite (run_bind _ _ _ _ _ (trace_after _ _ _ _ _)). rewrite (run_bind _ _ _ _ _ (Hnode _)).
  cbv beta iota.
  assert (write (DiskNode (length (fw_nodes w1))) 0 data w2 = Ret (Ok (Z.of_nat (length data)), w3)) as Rw by exact R3.
  rewrite (run_bind _ _ _ _ _ (node_after _ _ _ _ _ _ _ Rw)).
  by apply draw_after.
Qed.

(** Showing a file that is there. *)
Lemma cat_stored s w log wr h n sec l name data :
  dir_state fs cap w h n sec l -> (length l < fuel)%nat -> disk_root (kn_vfs (sh_kn s)) = Some (DiskNode h) ->
  name_ok name -> stored fs cap sec l name data -> data <> [] -> screen_ok wr ->
  exists w2 wr2, cmd_cat (disk_path name) (after w log wr s) = Ret (tt, after w2 log wr2 s) /\
    file_text data wr = Ret (tt, wr2) /\ screen_ok wr2 /\ dir_state fs cap w2 h n sec l.
Proof.
  intros Hs Hk Hroot Hname (n1 & Hst) Hdne Hwr. destruct (Hst fuel w h n Hs Hk) as (d1 & Hd1 & R1 & Hfile).
  set (w1 := mkFat d1 (fw_nodes w ++ [n1])) in *.
  destruct (Hfile w1 (length (fw_nodes w))) as [Ra Hr]; [by apply list_lookup_middle|done|].
  destruct (Hr 0 (Z.min (Z.of_nat (length data)) 4096) ltac:(lia) ltac:(lia)) as (w2 & R2 & Hd2 & Hn2).
  destruct (draws_text data wr Hwr) as (wr2 & R3 & [Hwr2 _]).
  assert (0 < length data)%nat as Hpos by (destruct data; [done|cbn; lia]).
  assert (take (Z.to_nat (Z.min (Z.of_nat (length data)) 4096)) data = take 4096 data) as Et.
  { destruct (Z.le_gt_cases (Z.of_nat (length data)) 4096) as [Hle|Hgt].
    - rewrite Z.min_l, !take_ge by lia. done.
    - by rewrite Z.min_r by lia. }
  exists w2, wr2. split; [|split; [done|split; [done|]]].
  - unfold cmd_cat. assert (open (kn_vfs (sh_kn s)) (disk_path name) w = Ret (Ok (DiskNode (length (fw_nodes w))), w1)) as Ro.
    { rewrite (open_disk _ h) by done. unfold mbind, M_bind. cbn. by rewrite R1. }
    erewrite run_bind by (by apply open_after). cbv beta iota.
    assert (attribute (DiskNode (length (fw_nodes w))) w1 = Ret (mkStat (Z.of_nat (length data)) File, w1)) as Ra' by exact Ra.
    rewrite (run_bind _ _ _ _ _ (node_after _ _ _ _ _ _ _ Ra')).
    cbn [st_size]. rewrite (proj2 (Z.eqb_neq _ _)) by lia. cbv zeta.
    rewrite drop_0, Et in R2.
    assert (read (DiskNode (length (fw_nodes w))) 0 (Z.min (Z.of_nat (length data)) 4096) w1 = Ret (Ok (take 4096 data), w2)) as R2' by exact R2.
    rewrite (run_bind _ _ _ _ _ (node_after _ _ _ _ _ _ _ R2')). rewrite (proj2 (Z.leb_le _ _)) by (rewrite length_take; lia). by apply draw_after.
  - destruct Hs as [_ Hn Hf Hd Hc]. constructor; try done. rewrite Hn2. cbn. by apply lookup_app_l_Some.
Qed.

(** ** The command lines *)

(** The line's three parts of the log, then the command. *)
Lemma execute_write input p rest s : words input = lit "write" :: p :: rest -> join 32 rest <> [] ->
  execute st stack_ptr input s = (trace (lit "[SHELL] Executing: ");; trace input;; trace [10];;
    goes_on (path ← resolve p; cmd_write path (join 32 rest))) s.
Proof.
  intros Hw Hne. unfold execute. rewrite Hw. cbv zeta. cbn [head tail default].
  repeat rewrite (decide_False (P := lit "write" = _)) by (vm_compute; discriminate).
  rewrite decide_True by done. by destruct (join 32 rest).
Qed.

Lemma execute_cat input p s : words input = [lit "cat"; p] ->
  execute st stack_ptr input s = (trace (lit "[SHELL] Executing: ");; trace input;; trace [10];;
    goes_on (path ← resolve p; cmd_cat path)) s.
Proof.
  intros Hw. unfold execute. rewrite Hw. cbv zeta. cbn [head tail default].
  repeat rewrite (decide_False (P := lit "cat" = _)) by (vm_compute; discriminate).
  by rewrite decide_True by done.
Qed.

Lemma resolve_after c p name w log wr s :
  cwd s = Ret (c, s) -> resolve_in c p = disk_path name -> resolve p (after w log wr s) = Ret (disk_path name, after w log wr s).
Proof. intros Hc Hp. unfold resolve. rewrite (run_bind _ _ _ _ _ (cwd_after c w log wr s Hc)). by rewrite Hp. Qed.

Lemma join_words w ws : is_word w -> join 32 (w :: ws) <> [].
Proof. intros [Hw _]. by destruct w, ws. Qed.

(** ** Starting again *)

(** A directory of the disk, found by mounting. *)
Lemma mount_again (k : Kernel W DynNode PmmState) d sec l name data b :
  fs = fs_of b -> 0 < reserved_sectors b -> parse_bpb (sec 0) = Ok b -> disk_ready d = true ->
  holds cap d sec -> chain fs sec (root_cluster b) l -> (length l < fuel)%nat -> stored fs cap sec l name data -> name_ok name ->
  kn_world k = mkFat d [] ->
  exists k1 node w3 w4, mount_fat k = Ret (tt, k1) /\ open (kn_vfs k1) (disk_path name) (kn_world k1) = Ret (Ok node, w3) /\
    attribute node w3 = Ret (mkStat (Z.of_nat (length data)) File, w3) /\
    read node 0 (Z.of_nat (length data)) w3 = Ret (Ok data, w4).
Proof.
  intros Ef Hrb Hb Hrdy Hd Hc Hk (n1 & Hst) Hname Ek.
  destruct (mount_fat_run k) as (k1 & R1 & _ & Hm & (Hok & Ecap & Esec) & _); rewrite ?Ek in *; cbn [fw_dev fw_nodes] in *.
  { intros _. split; [apply Hd|]. rewrite (hd_cap _ _ _ Hd). destruct Hfs. unfold clusters in *. nia. }
  unfold boot_sector in Hm. cbn [fw_dev] in Hm. rewrite Hrdy, (hd_sec _ _ _ Hd), Hb in Hm. cbv iota in Hm. destruct Hm as [Hroot Hn].
  set (n := node_dir (fs_of b) (root_cluster b) 0 0) in *. cbn [length app] in *.
  assert (dir_state fs cap (kn_world k1) 0 n sec l) as Hs.
  { constructor; try done; [|by rewrite Hn]. constructor; [by apply Hok, Hd|by rewrite Ecap, (hd_cap _ _ _ Hd)|].
    intros x. by rewrite Esec, (hd_sec _ _ _ Hd). }
  destruct (Hst fuel (kn_world k1) 0%nat n Hs Hk) as (d1 & Hd1 & R2 & Hfile).
  set (w3 := mkFat d1 _) in *. set (h := length (fw_nodes (kn_world k1))) in *.
  destruct (Hfile w3 h) as [Ra Hr]; [by apply list_lookup_middle|done|].
  destruct (Hr 0 (Z.of_nat (length data)) ltac:(lia) ltac:(lia)) as (w4 & R4 & _). rewrite drop_0, Nat2Z.id, firstn_all in R4.
  exists k1, (DiskNode h), w3, w4. split; [done|]. split; [|split; [exact Ra|exact R4]].
  rewrite (open_disk _ 0%nat) by done. unfold mbind, M_bind. cbn. by rewrite R2.
Qed.

(** ** The property *)

(** C7: what is written at the prompt stays.  With the FAT32 disk mounted at
    [/mnt/disk] and a name in the form 8.3 that its root directory does not have
    yet, the line [write name some words] stores the words, says so, and touches
    nothing but the disk, the log and the screen; [cat name] then shows exactly
    these bytes.  And when the kernel is started again on the disk as the session
    left it - no node, no cache survives - mounting finds the same file system,
    and the path opens to a file of that size with these bytes. *)
Theorem session_spec (s : Sh) (h : nat) (n : Fat32Node) (sec : sectors) (l : list Z) (c p name : str) (name83 : list Z) (ws : list str)
  (Hs : dir_state fs cap (kn_world (sh_kn s)) h n sec l) (Hne : l <> []) (Hk : (S (length l) < fuel)%nat)
  (Hroot : disk_root (kn_vfs (sh_kn s)) = Some (DiskNode h)) (Hwr : screen_ok (sh_wr s))
  (Hcwd : cwd s = Ret (c, s)) (Hp : resolve_in c p = disk_path name) (Hname : name_ok name)
  (Hwords : Forall is_word (p :: ws)) (Hws : ws <> []) (Hby : Forall is_byte (join 32 ws)) (Hlen : Z.of_nat (length (join 32 ws)) < 2 ^ 32)
  (Hplain : plain_name name) (H83 : to_8_3 name = Some name83) (Hnew : List.find (named name) (listing fs sec l) = None)
  (Hroom : has_clusters fs (S (clusters_for fs (Z.of_nat (length (join 32 ws))))) sec) :
  let data := join 32 ws in
  exists w1 log1 wr1 w2 log2 wr2,
    execute st stack_ptr (join 32 (lit "write" :: p :: ws)) s = Ret (Ok tt, after w1 log1 wr1 s) /\
    wrote_line (Z.of_nat (length data)) (disk_path name) (sh_wr s) = Ret (tt, wr1) /\
    execute st stack_ptr (join 32 [lit "cat"; p]) (after w1 log1 wr1 s) = Ret (Ok tt, after w2 log2 wr2 s) /\
    file_text data wr1 = Ret (tt, wr2) /\
    forall (b : BiosParameterBlock) (k : Kernel W DynNode PmmState),
      parse_bpb (sec 0) = Ok b -> fs = fs_of b -> n = node_dir fs (root_cluster b) 0 0 -> 0 < reserved_sectors b ->
      kn_world k = mkFat (fw_dev w2) [] -> disk_ready (fw_dev w2) = true ->
      exists k1 node w3 w4, mount_fat k = Ret (tt, k1) /\ open (kn_vfs k1) (disk_path name) (kn_world k1) = Ret (Ok node, w3) /\
        attribute node w3 = Ret (mkStat (Z.of_nat (length data)) File, w3) /\
        read node 0 (Z.of_nat (length data)) w3 = Ret (Ok data, w4).
Proof.
  cbv zeta. pose proof Hwords as [Hpw Hww]%Forall_cons.
  assert (join 32 ws <> []) as Hdne by (destruct Hww; [done|by apply join_words]).
  set (data := join 32 ws) in *.
  assert (is_word (lit "write") /\ is_word (lit "cat")) as [Kw Kc] by (split; apply (bool_decide_unpack _); vm_compute; exact I).
  pose proof (execute_write (join 32 (lit "write" :: p :: ws)) p ws) as Hxw. rewrite words_join in Hxw by (by apply Forall_cons_2).
  pose proof (execute_cat (join 32 [lit "cat"; p]) p) as Hxc. rewrite words_join in Hxc by (repeat (apply Forall_cons_2; [done|]); constructor).
  destruct (write_new s (kn_world (sh_kn s)) (([] ++ lit "[SHELL] Executing: ") ++ join 32 (lit "write" :: p :: ws) ++ [10]) (sh_wr s)
    h n sec l name name83 data) as (w1 & log1 & wr1 & sec1 & l1 & R1 & T1 & Hwr1 & Hs1 & Hk1 & Hst & Hres); try done.
  destruct (cat_stored s w1 (((log1 ++ lit "[SHELL] Executing: ") ++ join 32 [lit "cat"; p]) ++ [10]) wr1 h n sec1 l1 name data)
    as (w2 & wr2 & R2 & T2 & _ & Hs2); try done.
  exists w1, log1, wr1, w2, (((log1 ++ lit "[SHELL] Executing: ") ++ join 32 [lit "cat"; p]) ++ [10]), wr2. split; [|split; [exact T1|split; [|split; [exact T2|]]]].
  - rewrite Hxw by done. rewrite <- (after_nothing s) at 1.
    do 3 rewrite (run_bind _ _ _ _ _ (trace_after _ _ _ _ _)). rewrite <- (app_assoc _ _ [10]).
    unfold goes_on. erewrite run_bind; [done|]. rewrite (run_bind _ _ _ _ _ (resolve_after c p name _ _ _ s Hcwd Hp)). exact R1.
  - rewrite Hxc by done. do 3 rewrite (run_bind _ _ _ _ _ (trace_after _ _ _ _ _)).
    unfold goes_on. erewrite run_bind; [done|]. rewrite (run_bind _ _ _ _ _ (resolve_after c p name _ _ _ s Hcwd Hp)). exact R2.
  - intros b k Hb Ef En Hrb Ek Hrdy. apply (mount_again k (fw_dev w2) sec1 l1 name data b); try done.
    + rewrite Hres; [done|]. by rewrite Ef.
    + apply Hs2.
    + pose proof (ds_chain _ _ _ _ _ _ _ Hs2) as Hc. by rewrite En in Hc.
Qed.
End session.

(** ** Witness: an empty disk *)

#[local] Instance session_status : DiskStatus RamDisk := { disk_ready _ := true }.
#[local] Instance session_hw : Hardware Trace := trace_hw.
#[local] Instance session_demo_nodes : VfsNode (FatWorld RamDisk) DynNode := dyn_nodes 5.

Definition session_disk : RamDisk := mkDisk 128 {[ 0 := demo_bpb_sector; 1 := demo_fat ]}.

Lemma session_disk_holds : holds 128 session_disk (rd_sec session_disk).
Proof.
  constructor; [|done|done]. intros x. unfold rd_sec. cbn [rd_data session_disk].
  destruct (decide (x = 0)) as [->|H0].
  { rewrite lookup_insert_eq. split; [by vm_compute|]. apply (bool_decide_unpack _). vm_compute. exact I. }
  rewrite lookup_insert_ne by done. destruct (decide (x = 1)) as [->|H1].
  - rewrite lookup_singleton_eq. split; [by vm_compute|]. apply (bool_decide_unpack _). vm_compute. exact I.
  - rewrite lookup_singleton_ne by done. split; [done|]. apply Forall_replicate. by vm_compute.
Qed.

Definition session_shell : Shell (FatWorld RamDisk) DynNode Trace :=
  mkShell Active (replicate 128 0) 0 CWD_INIT 9 (Writer_new 640 480)
    (mkKernel (mkFat session_disk [root_node]) (mkVm demo_boot big_pmm) 0x100000 Task.Scheduler_new 1 Ipc.PipeTable_new Kbuf.Ring_init
       (mkVfs None (Some (DiskNode 0))) [] [] 4200) [] [].

Lemma session_state : dir_state demo_fs 128 (kn_world (sh_kn session_shell)) 0 root_node (rd_sec session_disk) [2].
Proof.
  constructor; try done; [apply session_disk_holds|]. constructor; [split; by vm_compute|]. constructor. by vm_compute.
Qed.

(** [write b.txt hello world], [cat b.txt], and a restart. *)
Example session_spec_witness :
  exists w1 log1 wr1 w2 log2 wr2,
    execute demo_statics 0xFFFFFFFF80300000 (lit "write b.txt hello world") session_shell = Ret (Ok tt, after w1 log1 wr1 session_shell) /\
    execute demo_statics 0xFFFFFFFF80300000 (lit "cat b.txt") (after w1 log1 wr1 session_shell) = Ret (Ok tt, after w2 log2 wr2 session_shell) /\
    file_text (lit "hello world") wr1 = Ret (tt, wr2) /\
    exists k1 node w3 w4, mount_fat (mkKernel (mkFat (fw_dev w2) []) (mkVm demo_boot big_pmm) 0x100000 Task.Scheduler_new 1
        Ipc.PipeTable_new Kbuf.Ring_init VFS [] [] 0) = Ret (tt, k1) /\
      open (kn_vfs k1) (lit "/mnt/disk/b.txt") (kn_world k1) = Ret (Ok node, w3) /\
      read node 0 11 w3 = Ret (Ok (lit "hello world"), w4).
Proof.
  destruct (session_spec demo_statics 0xFFFFFFFF80300000 5 demo_fs 128 demo_fs_ok session_shell 0 root_node (rd_sec session_disk) [2]
    (lit "/mnt/disk") (lit "b.txt") (lit "b.txt") (field_83 (lit "b") (lit "txt")) [lit "hello"; lit "world"])
    as (w1 & log1 & wr1 & w2 & log2 & wr2 & R1 & _ & R2 & T2 & Hagain).
  - exact session_state.
  - discriminate.
  - cbn. lia.
  - reflexivity.
  - exact (sk_wr _ _ _ demo_shell_ok).
  - reflexivity.
  - reflexivity.
  - apply (bool_decide_unpack _). vm_compute. exact I.
  - apply (bool_decide_unpack _). vm_compute. exact I.
  - discriminate.
  - apply (bool_decide_unpack _). vm_compute. exact I.
  - vm_compute. reflexivity.
  - split; [apply (bool_decide_unpack _); vm_compute; exact I|]. vm_compute. repeat split; discriminate.
  - vm_compute. reflexivity.
  - vm_compute. reflexivity.
  - exists [3; 4]. split; [apply (bool_decide_unpack _); vm_compute; exact I|]. split; [vm_compute; reflexivity|].
    apply (bool_decide_unpack _). vm_compute. exact I.
  - exists w1, log1, wr1, w2, log2, wr2. split; [exact R1|]. split; [exact R2|]. split; [exact T2|].
    destruct (Hagain (mkBpb 512 1 1 1 1 2) (mkKernel (mkFat (fw_dev w2) []) (mkVm demo_boot big_pmm) 0x100000 Task.Scheduler_new 1
        Ipc.PipeTable_new Kbuf.Ring_init VFS [] [] 0)) as (k1 & node & w3 & w4 & Rm & Ro & _ & Rr); try reflexivity.
    exists k1, node, w3, w4. split; [exact Rm|]. split; [exact Ro|exact Rr].
Defined.
