(* ===== verification/Main.v ===== *)
(** * The boot processor's way to the event loop ([ross-kernel/src/main.rs])

    [kernel_main] from its first line: the stages of [Cpu], [Bootmem], [Pci],
    [Ahci], [Bringup], [Entry] and [Boot] run in the order of the source on one
    machine - devices, memory, processor registers and the statics of the
    modules - and hand it over to [Boot.interact].  A stage is a computation
    over the part of the machine it works on, brought in by a view. *)

From Stdlib Require Import String.
From S2P Require Import Prelude Bytes Frames Pmm Paging Spaces Elf Vfs Block Fat32 Io Writer Pci Ahci Str.
From S2P Require Acpi Gdt Task Kbuf Ipc Irq Smp Cpu Entry Bootmem Bringup Loader AhciSpec.
From S2P Require Import Syscall Shell Boot.

(** ** The machine *)

(** What the linker and the heap allocator decide: the statics, the functions
    whose addresses are stored, the stack of the heartbeat task. *)
Record Program := mkProgram {
  pg_tables : Statics;
  pg_bss : Z * Z;
  pg_gdt : Z; pg_tss : Z; pg_idt : Z; pg_df_stack : Z;
  pg_handlers : Gdt.Idt.Handlers;
  pg_heartbeat : Z; pg_stack : Z;
  pg_syscall : Z;
  pg_layout : Smp.Layout
}.

(** The devices with the memory they share ([Dma]), the processor, and the
    statics of the modules, [writer.rs]'s and [shell.rs]'s among them.
    [mc_serial] is the log.
    @src ross-kernel/src/main.rs 39-40 GDT, IDT *)
Record Machine (H : Type) := mkMachine {
  mc_hw : H;
  mc_cpu : Cpu.Cpu;
  mc_cr3 : Z;
  mc_msrs : Entry.Msrs;
  GDT : list Z;
  TSS : Gdt.Gdt.Tss;
  IDT : list Gdt.Idt.IdtEntry;
  PMM : PmmState;
  mc_devices : list PciDevice;
  mc_abar : Z;
  mc_port : option PortState;
  mc_irq : Z * Z * bool;
  SCHEDULER : @Task.Scheduler DynNode;
  NEXT_ID : Z;
  mc_vfs : VfsRoot DynNode;
  mc_nodes : list Fat32Node;
  WRITER_STORAGE : option Writer;
  SHELL_STATE : State;
  mc_serial : str
}.
Arguments mkMachine {H}.
Arguments mc_hw {H}.
Arguments mc_cpu {H}.
Arguments mc_cr3 {H}.
Arguments mc_msrs {H}.
Arguments GDT {H}.
Arguments TSS {H}.
Arguments IDT {H}.
Arguments PMM {H}.
Arguments mc_devices {H}.
Arguments mc_abar {H}.
Arguments mc_port {H}.
Arguments mc_irq {H}.
Arguments SCHEDULER {H}.
Arguments NEXT_ID {H}.
Arguments mc_vfs {H}.
Arguments mc_nodes {H}.
Arguments WRITER_STORAGE {H}.
Arguments SHELL_STATE {H}.
Arguments mc_serial {H}.

(** The driver's [is_ready]. *)
#[export] Instance ahci_status {H St} : DiskStatus (Ahci H St) := { disk_ready := is_ready }.

Section main.
Context {H : Type} {HW : Hardware H} {DM : Dma H} {PR : Smp.Processors H}.
Notation Disk := (Ahci H PmmState).
Notation Mc := (M (Machine H)).

(** ** Views *)

Definition log (s : str) : Mc unit := fun m =>
  Ret (tt, mkMachine (mc_hw m) (mc_cpu m) (mc_cr3 m) (mc_msrs m) (GDT m) (TSS m) (IDT m) (PMM m) (mc_devices m) (mc_abar m)
    (mc_port m) (mc_irq m) (SCHEDULER m) (NEXT_ID m) (mc_vfs m) (mc_nodes m) (WRITER_STORAGE m) (SHELL_STATE m) (mc_serial m ++ s)).

Definition memory (m : Machine H) : mem := ram (mc_hw m).
Definition set_memory (x : mem) (m : Machine H) : Machine H :=
  mkMachine (set_ram x (mc_hw m)) (mc_cpu m) (mc_cr3 m) (mc_msrs m) (GDT m) (TSS m) (IDT m) (PMM m) (mc_devices m) (mc_abar m)
    (mc_port m) (mc_irq m) (SCHEDULER m) (NEXT_ID m) (mc_vfs m) (mc_nodes m) (WRITER_STORAGE m) (SHELL_STATE m) (mc_serial m).

(** The processor with the descriptor tables. *)
Definition sys_of (m : Machine H) : Cpu.Sys := Cpu.mkSys (mc_cpu m) (GDT m) (TSS m) (IDT m) (memory m).
Definition set_sys (s : Cpu.Sys) (m : Machine H) : Machine H :=
  mkMachine (set_ram (Cpu.s_mem s) (mc_hw m)) (Cpu.s_cpu s) (mc_cr3 m) (mc_msrs m) (Cpu.s_gdt s) (Cpu.s_tss s) (Cpu.s_idt s)
    (PMM m) (mc_devices m) (mc_abar m) (mc_port m) (mc_irq m) (SCHEDULER m) (NEXT_ID m) (mc_vfs m) (mc_nodes m)
    (WRITER_STORAGE m) (SHELL_STATE m) (mc_serial m).
Definition on_sys {A} : M Cpu.Sys A -> Mc A := zoom sys_of set_sys.

(** The PCI bus, the disk driver and the allocator it takes its pages from. *)
Definition ahci_of (m : Machine H) : Disk := mkAhci (mkPci (mc_hw m) (mc_devices m)) (PMM m) (mc_abar m) (mc_port m).
Definition set_ahci (d : Disk) (m : Machine H) : Machine H :=
  mkMachine (ah_hw d) (mc_cpu m) (mc_cr3 m) (mc_msrs m) (GDT m) (TSS m) (IDT m) (ah_frames d) (Pci.DEVICES (ah_pci d))
    (ABAR_VIRT d) (PORT d) (mc_irq m) (SCHEDULER m) (NEXT_ID m) (mc_vfs m) (mc_nodes m) (WRITER_STORAGE m) (SHELL_STATE m) (mc_serial m).
Definition on_ahci {A} : M Disk A -> Mc A := zoom ahci_of set_ahci.
Definition on_pci {A} : M (Pci H) A -> Mc A := fun c =>
  on_ahci (zoom ah_pci (fun p d => mkAhci p (ah_frames d) (ABAR_VIRT d) (PORT d)) c).

(** The interrupt controllers, with memory for the start-up code. *)
Definition smp_of (m : Machine H) : Smp.Smp H :=
  let '(ticks, base, enabled) := mc_irq m in Smp.mkSmp (Irq.mkIrq (mc_hw m) ticks base enabled) (memory m).
Definition set_smp (s : Smp.Smp H) (m : Machine H) : Machine H :=
  let i := Smp.sm_irq s in
  mkMachine (set_ram (Smp.sm_mem s) (Irq.irq_hw i)) (mc_cpu m) (mc_cr3 m) (mc_msrs m) (GDT m) (TSS m) (IDT m) (PMM m)
    (mc_devices m) (mc_abar m) (mc_port m) (Irq.TICKS i, Irq.LAPIC_BASE i, Irq.LAPIC_ENABLED i) (SCHEDULER m) (NEXT_ID m)
    (mc_vfs m) (mc_nodes m) (WRITER_STORAGE m) (SHELL_STATE m) (mc_serial m).
Definition on_smp {A} : M (Smp.Smp H) A -> Mc A := zoom smp_of set_smp.

(** The kernel's state as the system calls and the shell know it.  Mounting
    reaches memory through the disk driver only. *)
Definition kernel_of (m : Machine H) : Kernel (FatWorld Disk) DynNode PmmState :=
  mkKernel (mkFat (ahci_of m) (mc_nodes m)) (mkVm (memory m) (PMM m)) (mc_cr3 m) (SCHEDULER m) (NEXT_ID m) Ipc.PipeTable_new
    Kbuf.Ring_init (mc_vfs m) (mc_serial m) [] (mc_irq m).1.1.
Definition set_kernel (k : Kernel (FatWorld Disk) DynNode PmmState) (m : Machine H) : Machine H :=
  let d := fw_dev (kn_world k) in
  mkMachine (ah_hw d) (mc_cpu m) (mc_cr3 m) (mc_msrs m) (GDT m) (TSS m) (IDT m) (ah_frames d) (Pci.DEVICES (ah_pci d))
    (ABAR_VIRT d) (PORT d) (mc_irq m) (kn_sched k) (kn_next_id k) (kn_vfs k) (fw_nodes (kn_world k)) (WRITER_STORAGE m)
    (SHELL_STATE m) (kn_serial k).
Definition on_kernel {A} : M (Kernel (FatWorld Disk) DynNode PmmState) A -> Mc A := zoom kernel_of set_kernel.

(** ** The stages *)

(** @src ross-kernel/src/writer.rs 120-122 init *)
Definition writer_init (info : Loader.BootInfo) : Mc unit := fun m =>
  Ret (tt, mkMachine (mc_hw m) (mc_cpu m) (mc_cr3 m) (mc_msrs m) (GDT m) (TSS m) (IDT m) (PMM m) (mc_devices m) (mc_abar m)
    (mc_port m) (mc_irq m) (SCHEDULER m) (NEXT_ID m) (mc_vfs m) (mc_nodes m)
    (Some (Writer_new (Loader.screen_width info) (Loader.screen_height info))) (SHELL_STATE m) (mc_serial m)).

(** @src ross-kernel/src/writer.rs 131-136 try_get_writer *)
Definition try_get_writer : Mc (option Writer) := fun m => Ret (WRITER_STORAGE m, m).

(** [expect("Writer not initialized")].
    @src ross-kernel/src/writer.rs 124-129 get_writer *)
Definition get_writer : Mc Writer := wr ← try_get_writer; match wr with Some wr => mret wr | None => panic end.

Section stages.
Context (p : Program).

(** @src ross-kernel/src/main.rs 78-85 kernel_main *)
Definition zero_bss : Mc unit := fun m =>
  match Bootmem.clear_bss ((pg_bss p).1 - KERNEL_VMA_BASE) ((pg_bss p).2 - KERNEL_VMA_BASE) (memory m) with
  | Ret x => Ret (tt, set_memory x m)
  | Panic => Panic
  | Diverge => Diverge
  end.

(** The first section: the descriptor tables on either side of the BSS.  What
    is loaded before lies outside of it: neither the GDT nor the TSS starts out
    as zeros, and the stack is placed in [.data].
    @src ross-kernel/src/main.rs 72-93 kernel_main *)
Definition cpu_up (info : Loader.BootInfo) : Mc unit :=
  log (lit "Entered kernel_main" ++ [10]);;
  on_sys (Cpu.gdt_load (pg_gdt p) (pg_tss p) (pg_df_stack p));;
  log (lit "GDT loaded" ++ [10]);;
  zero_bss;;
  log (lit "BSS Cleared" ++ [10]);;
  writer_init info;;
  on_sys (fun s => Ret (tt, Cpu.mkSys (Cpu.s_cpu s) (Cpu.s_gdt s) (Cpu.s_tss s) (Gdt.Idt.init_idt (pg_handlers p) (Cpu.s_idt s)) (Cpu.s_mem s)));;
  on_sys (Cpu.idt_load (pg_idt p));;
  log (lit "IDT loaded" ++ [10]).

(** The line between is the one [paging::init] begins with (line 49 of
    [paging.rs]).
    @src ross-kernel/src/main.rs 97-102 kernel_main *)
Definition memory_up (info : Loader.BootInfo) : Mc unit :=
  (fun m => Ret (tt, mkMachine (mc_hw m) (mc_cpu m) (mc_cr3 m) (mc_msrs m) (GDT m) (TSS m) (IDT m)
     (Pmm.init (Some (Loader.bi_memory_map info)) (PMM m)) (mc_devices m) (mc_abar m) (mc_port m) (mc_irq m) (SCHEDULER m)
     (NEXT_ID m) (mc_vfs m) (mc_nodes m) (WRITER_STORAGE m) (SHELL_STATE m) (mc_serial m)));;
  log (lit "PMM initialized" ++ [10]);;
  log (lit "paging: setting up tables" ++ [10]);;
  s ← get;
  '(x, cr3) ← lift (Spaces.init (pg_tables p) (memory s));
  (fun m => Ret (tt, mkMachine (set_ram x (mc_hw m)) (mc_cpu m) cr3 (mc_msrs m) (GDT m) (TSS m) (IDT m) (PMM m)
     (mc_devices m) (mc_abar m) (mc_port m) (mc_irq m) (SCHEDULER m) (NEXT_ID m) (mc_vfs m) (mc_nodes m) (WRITER_STORAGE m)
     (SHELL_STATE m) (mc_serial m)));;
  log (lit "Paging: Native tables active" ++ [10]).

(** The line in the middle is the one [pci::enumerate] ends with (lines 110 and
    111 of [pci.rs]).
    @src ross-kernel/src/main.rs 108-118 kernel_main *)
Definition disks_up : Mc unit :=
  on_pci enumerate;;
  s ← get;
  log (lit "[PCI] Enumerated " ++ dec (Z.of_nat (length (mc_devices s))) ++ lit " devices" ++ [10]);;
  r ← on_ahci Ahci.init;
  match r with
  | Ok _ => log (lit "[AHCI] Ready" ++ [10])
  | Err msg => log (lit "[AHCI] Disabled: ");; log (lit msg);; log [10]
  end.

(** @src ross-kernel/src/main.rs 121-124 kernel_main *)
Definition reset_shell : Mc unit := fun m =>
  Ret (tt, mkMachine (mc_hw m) (mc_cpu m) (mc_cr3 m) (mc_msrs m) (GDT m) (TSS m) (IDT m) (PMM m) (mc_devices m) (mc_abar m)
    (mc_port m) (mc_irq m) (SCHEDULER m) (NEXT_ID m) (mc_vfs m) (mc_nodes m) (WRITER_STORAGE m) Splash (mc_serial m)).

(** The first tasks and the system call entry.
    @src ross-kernel/src/main.rs 127-141 kernel_main *)
Definition calls_up : Mc unit := fun m =>
  let '(sched, next_id, x) := Bringup.tasks_up (pg_heartbeat p) (mc_cr3 m) (pg_stack p) (NEXT_ID m) (memory m) (SCHEDULER m) in
  Ret (tt, mkMachine (set_ram x (mc_hw m)) (mc_cpu m) (mc_cr3 m) (Entry.init (pg_syscall p) (mc_msrs m)) (GDT m) (TSS m) (IDT m)
    (PMM m) (mc_devices m) (mc_abar m) (mc_port m) (mc_irq m) sched next_id (mc_vfs m) (mc_nodes m) (WRITER_STORAGE m)
    (SHELL_STATE m) (mc_serial m)).

(** The archive, under the identity map.
    @src ross-kernel/src/main.rs 145-148 kernel_main *)
Definition ramdisk_of (info : Loader.BootInfo) (x : mem) : option (list Z) :=
  if negb (Loader.ramdisk_addr info =? 0) && (0 <? Loader.ramdisk_size info)
  then Some (ld_bytes x (Loader.ramdisk_addr info) (Z.to_nat (Loader.ramdisk_size info)))
  else None.

(** @src ross-kernel/src/main.rs 144-182 kernel_main *)
Definition files_up (fuel : nat) (info : Loader.BootInfo) : Mc unit :=
  s ← get;
  on_kernel (mount_all fuel (ramdisk_of info (memory s))).

(** Of the log, the line of [kernel_main]; those of [acpi.rs], [lapic.rs] and
    [smp.rs] are left out.
    @src ross-kernel/src/main.rs 184-213 kernel_main *)
Definition interrupts_up (fuel : nat) (info : Loader.BootInfo) : Mc (option (Z * Z)) :=
  s ← get;
  online ← on_smp (Bringup.interrupts_up fuel (pg_layout p) (mc_cr3 s) (Some (Loader.bi_memory_map info)));
  match online with
  | Some _ => log (lit "[SMP] LAPIC active, PIC disabled" ++ [10])
  | None => log (lit "[SMP] ACPI not found " ++ em_dash ++ lit " running single-core" ++ [10])
  end;;
  mret online.

(** Everything before the interrupts; [heap::init] hands a static array to the
    allocator.
    @src ross-kernel/src/main.rs 71-182 kernel_main *)
Definition devices_up (fuel : nat) (info : Loader.BootInfo) : Mc unit :=
  cpu_up info;; memory_up info;; disks_up;; reset_shell;; calls_up;; files_up fuel info.

(** @src ross-kernel/src/main.rs 71-218 kernel_main *)
Definition boot (fuel : nat) (info : Loader.BootInfo) : Mc Writer :=
  devices_up fuel info;;
  interrupts_up fuel info;;
  get_writer.

(** The shell's statics, as linked.
    @src ross-kernel/src/shell.rs 21-31 LINE_BUF *)
Definition shell_of (wr : Writer) (m : Machine H) : Shell (FatWorld Disk) DynNode H :=
  mkShell (SHELL_STATE m) (replicate 128 0) 0 CWD_INIT 9 wr (kernel_of m) (mc_devices m) (mc_hw m).

(** The whole of it, for as long as [passes] goes on; [stack_ptr] is the heap's
    answer for the stack of a task the shell starts.
    @src ross-kernel/src/main.rs 71-302 kernel_main *)
Definition kernel_main (fuel : nat) (stack_ptr : Z) (info : Loader.BootInfo) (passes : list Pass) (m : Machine H) :
  outcome (res unit * Shell (FatWorld Disk) DynNode H) :=
  '(wr, m) ← boot fuel info m;
  @interact _ _ _ (dyn_nodes fuel) _ _ _ (pg_tables p) stack_ptr (Loader.screen_width info) (Loader.screen_height info)
    (Z.of_nat (length (Loader.bi_memory_map info))) passes (shell_of wr m).
End stages.
End main.
