(* ===== verification/MainSpec.v ===== *)
(** * What booting establishes

    [kernel_main_spec] runs [Main.boot] from the machine the loader leaves to the
    event loop, by the contracts of its devices: the tables, the allocator, the
    drive, the file systems, the tasks and the interrupt controllers are what
    the parts promise, together and on one machine, and every program that fits
    can then be loaded. *)

From Stdlib Require Import String.
From S2P Require Import Prelude Bytes Frames Pmm Paging Spaces Mmap Elf Vfs Ramfs Block Fat32 Io Writer Pci Ahci AhciSpec Irq Smp Str.
From S2P Require Acpi Gdt Task Kbuf Ipc Cpu Entry Bootmem Bringup Loader.
From S2P Require Import Syscall Shell Boot Main.

(** The devices on one board: the disk controller takes no notice of ports, of
    the local APIC or of time, and the other devices none of what memory holds. *)
Class Motherboard (H : Type) {HW : Hardware H} {DM : Dma H} {HB : Hba H} {PC : PciConfig H} {P : Pics H} {LA : Lapic H}
    {IP : Ipi H} {PR : Processors H} := {
  mb_ports h : (forall q v, hba (port_out8 q v h) = hba h) /\ (forall q, hba (port_in8 q h).2 = hba h);
  mb_apic h off : 0 <= off < 0x400 ->
    (forall v, hba (mmio_store (lapic_at + off) v h) = hba h) /\ hba (mmio_load (lapic_at + off) h).2 = hba h;
  mb_time h : hba (timer_irqs h).2 = hba h /\ hba (ap_online h).2 = hba h;
  mb_ram x h : (forall a, cfg (set_ram x h) a = cfg h a) /\ pic1 (set_ram x h) = pic1 h /\ pic2 (set_ram x h) = pic2 h /\
    (forall r, lapic_reg (set_ram x h) r = lapic_reg h r) /\ ipis (set_ram x h) = ipis h
}.

Section start.
Context {H : Type} {HW : Hardware H} {DM : Dma H} {PC : PciConfig H} {HB : Hba H} {BUS : HbaBus H} {P : Pics H} {LA : Lapic H}
  {CK : Clock H} {IP : Ipi H} {PR : Processors H} {BO : Bringup.Board H} {PS : Bringup.Ps2 H} {MB : Motherboard H}.
Notation Disk := (Ahci H PmmState).

(** ** One stage after the other *)

(** Only memory changed. *)
Definition rewired (h h' : H) : Prop := hba h' = with_ram (ram h') (hba h) /\ forall a, cfg h' a = cfg h a.

Lemma ram_set x h : ram (set_ram x h) = x.
Proof. by rewrite hba_ram, hba_set_ram. Qed.

Lemma rewired_refl h : rewired h h.
Proof. split; [|done]. rewrite hba_ram. by destruct (hba h). Qed.

Lemma rewired_set x h h' : rewired h h' -> rewired h (set_ram x h').
Proof.
  intros [Eh Ec]. split; [by rewrite ram_set, hba_set_ram, Eh|]. intros a. rewrite <- Ec. apply (mb_ram x h').
Qed.

(** Through the fields of a machine that is spelled out, and one step of a run. *)
Ltac fields := cbn [mc_hw mc_cpu mc_cr3 mc_msrs GDT TSS IDT PMM mc_devices mc_abar mc_port mc_irq SCHEDULER NEXT_ID mc_vfs mc_nodes
  WRITER_STORAGE SHELL_STATE mc_serial].
Tactic Notation "fields" "in" "*" := cbn [mc_hw mc_cpu mc_cr3 mc_msrs GDT TSS IDT PMM mc_devices mc_abar mc_port mc_irq SCHEDULER NEXT_ID
  mc_vfs mc_nodes WRITER_STORAGE SHELL_STATE mc_serial] in *.
Tactic Notation "step" uconstr(R) := erewrite run_bind; [|eapply R].
Tactic Notation "step" uconstr(R) "by" tactic3(t) := erewrite run_bind; [|eapply R; t].

Section steps.
Context (hw : H) (cpu : Cpu.Cpu) (cr3 : Z) (ms : Entry.Msrs) (gdt : list Z) (tss : Gdt.Gdt.Tss) (idt : list Gdt.Idt.IdtEntry)
  (pmm : PmmState) (devs : list PciDevice) (abar : Z) (port : option PortState) (irq : Z * Z * bool)
  (sched : @Task.Scheduler DynNode) (id : Z) (vfs : VfsRoot DynNode) (nodes : list Fat32Node) (wr : option Writer) (sh : State) (ser : str).
Notation machine := (mkMachine hw cpu cr3 ms gdt tss idt pmm devs abar port irq sched id vfs nodes wr sh ser).

Lemma log_run s : log s machine = Ret (tt, mkMachine hw cpu cr3 ms gdt tss idt pmm devs abar port irq sched id vfs nodes wr sh (ser ++ s)).
Proof. reflexivity. Qed.

Lemma on_sys_run {A} (c : M Cpu.Sys A) (a : A) cpu' gdt' tss' idt' x :
  c (Cpu.mkSys cpu gdt tss idt (ram hw)) = Ret (a, Cpu.mkSys cpu' gdt' tss' idt' x) ->
  on_sys c machine = Ret (a, mkMachine (set_ram x hw) cpu' cr3 ms gdt' tss' idt' pmm devs abar port irq sched id vfs nodes wr sh ser).
Proof. intros R. unfold on_sys, zoom, sys_of, memory. fields. by rewrite R. Qed.

Lemma on_ahci_run {A} (c : M Disk A) (a : A) d : c (mkAhci (mkPci hw devs) pmm abar port) = Ret (a, d) ->
  on_ahci c machine = Ret (a, mkMachine (ah_hw d) cpu cr3 ms gdt tss idt (ah_frames d) (Pci.DEVICES (ah_pci d)) (ABAR_VIRT d) (PORT d)
    irq sched id vfs nodes wr sh ser).
Proof. intros R. unfold on_ahci, zoom, ahci_of. fields. by rewrite R. Qed.

Lemma on_pci_run {A} (c : M (Pci H) A) (a : A) b : c (mkPci hw devs) = Ret (a, b) ->
  on_pci c machine = Ret (a, mkMachine (pci_hw b) cpu cr3 ms gdt tss idt pmm (Pci.DEVICES b) abar port irq sched id vfs nodes wr sh ser).
Proof. intros R. unfold on_pci. erewrite on_ahci_run; [|apply run_zoom; exact R]. done. Qed.

Lemma writer_init_run info : writer_init info machine = Ret (tt, mkMachine hw cpu cr3 ms gdt tss idt pmm devs abar port irq sched id vfs
  nodes (Some (Writer_new (Loader.screen_width info) (Loader.screen_height info))) sh ser).
Proof. reflexivity. Qed.

Lemma memory_set x : memory (mkMachine (set_ram x hw) cpu cr3 ms gdt tss idt pmm devs abar port irq sched id vfs nodes wr sh ser) = x.
Proof. apply ram_set. Qed.

Lemma reset_shell_run : reset_shell machine = Ret (tt, mkMachine hw cpu cr3 ms gdt tss idt pmm devs abar port irq sched id vfs nodes wr
  Splash ser).
Proof. reflexivity. Qed.

Lemma zero_bss_run p x : Bootmem.clear_bss ((pg_bss p).1 - KERNEL_VMA_BASE) ((pg_bss p).2 - KERNEL_VMA_BASE) (ram hw) = Ret x ->
  zero_bss p machine = Ret (tt, mkMachine (set_ram x hw) cpu cr3 ms gdt tss idt pmm devs abar port irq sched id vfs nodes wr sh ser).
Proof. intros R. unfold zero_bss, memory. fields. by rewrite R. Qed.
End steps.

Section program.
Context (p : Program) (info : Loader.BootInfo) (kp lp hp : Z) (dp : Z -> Z).
Notation regions := (Loader.bi_memory_map info).
Notation loaded := (Cpu.loaded (pg_gdt p) (pg_tss p) (pg_idt p) (pg_df_stack p) (pg_handlers p)).
Notation screen := (Writer_new (Loader.screen_width info) (Loader.screen_height info)).

(** BAR 5 of the first SATA controller, if there is one, holds [base]. *)
Definition bar_ok (c : Z -> Z) (base : Z) : Prop := forall d,
  List.find (fun d => (class d =? 0x01) && (subclass d =? 0x06)) (pci_functions c) = Some d ->
  Z.land (c (2 ^ 31 + bus d * 2 ^ 16 + device d * 2 ^ 11 + function d * 2 ^ 8 + 0x10 + 4 * 5)) 0xFFFFFFF0 = base.

(** The heartbeat and its stack, in the kernel's half. *)
Definition power_on_tasks : Prop :=
  fits 64 (pg_heartbeat p) /\ 2 ^ 47 <= pg_stack p /\ pg_stack p + Task.STACK_SIZE < 2 ^ 64.

(** The machine the loader leaves: memory and its map as [Bootmem] wants them,
    the statics as linked, the controller idle. *)
Record power_on (m : Machine H) : Prop := {
  po_tss : fits 64 (pg_tss p);
  po_gdt : GDT m = Gdt.Gdt.Gdt_new;
  po_idt : IDT m = Gdt.Idt.Idt_new;
  po_cpl : Cpu.cpl (mc_cpu m) = 0;
  po_pmm : PMM m = PmmState_new;
  po_memory : Bootmem.bootable (pg_tables p) kp lp hp dp (pg_bss p).1 (pg_bss p).2 regions (memory m);
  po_map : Forall Acpi.region_ok regions;
  po_hba : quiet (hba (mc_hw m)) /\ 0 < hs_base (hba (mc_hw m)) /\ 1 <= hs_cap (hba (mc_hw m));
  po_bar : bar_ok (cfg (mc_hw m)) (hs_base (hba (mc_hw m)));
  po_port : mc_port m = None;
  po_tasks : SCHEDULER m = Task.Scheduler_new /\ NEXT_ID m = 0;
  po_vfs : mc_vfs m = VFS;
  po_ticks : 0 <= (mc_irq m).1.1 < 2 ^ 61;
  po_stack : power_on_tasks;
  po_ap_stacks : 0 <= ap_stacks (pg_layout p) /\ ap_stacks (pg_layout p) + 8 * AP_STACK_SIZE < 2 ^ 64;
  po_code : Z.of_nat (length (tr_code (pg_layout p))) <= 0xF00 /\ Forall is_byte (tr_code (pg_layout p));
  po_low : 8 ∉ (⋃ (region_pages <$> regions) : gset Z) /\ 0x8000 ∉ [kp; lp; hp; dp 0; dp 1; dp 2; dp 3]
}.

Lemma cpu_up_run m : power_on m ->
  exists h c t ser, cpu_up p info m = Ret (tt, mkMachine h c (mc_cr3 m) (mc_msrs m) (Cpu.gdt_after (pg_tss p)) t
      (Gdt.Idt.init_idt (pg_handlers p) Gdt.Idt.Idt_new) PmmState_new (mc_devices m) (mc_abar m) None (mc_irq m)
      Task.Scheduler_new 0 VFS (mc_nodes m) (Some screen) (SHELL_STATE m) ser) /\
    (forall x, loaded (Cpu.mkSys c (Cpu.gdt_after (pg_tss p)) t (Gdt.Idt.init_idt (pg_handlers p) Gdt.Idt.Idt_new) x)) /\
    rewired (mc_hw m) h /\ mem_ok (ram h) /\
    (forall f j, f ∈ [kp; lp; hp; dp 0; dp 1; dp 2; dp 3] -> 0 <= j < 512 -> entry (ram h) f j = 0) /\
    (forall x, x < (pg_bss p).1 - KERNEL_VMA_BASE \/ (pg_bss p).2 - KERNEL_VMA_BASE <= x -> ram h x = memory m x).
Proof.
  intros Hp. destruct (Bootmem.bss_run _ _ _ _ _ _ _ _ _ (po_memory _ Hp)) as (x & Rx & Hx & Hz & Ho).
  pose proof (po_tss _ Hp) as Ht. pose proof (po_gdt _ Hp) as Hg. pose proof (po_idt _ Hp) as Hi. pose proof (po_cpl _ Hp) as Hc. pose proof (po_pmm _ Hp) as Hpm. pose proof (po_port _ Hp) as Hpo.
  destruct (po_tasks _ Hp) as [Hs Hid]. pose proof (po_vfs _ Hp) as Hv.
  clear Hp. destruct m as [hw cpu cr3 ms gdt tss idt pmm devs abar port irq sched id vfs nodes wr sh ser].
  unfold memory in *. fields in *. subst gdt idt pmm port sched id vfs. unfold cpu_up.
  step log_run. step on_sys_run by exact (Cpu.gdt_load_run _ _ _ (Cpu.mkSys cpu Gdt.Gdt.Gdt_new tss _ _) Ht eq_refl Hc).
  step log_run. step zero_bss_run by (rewrite ram_set; exact Rx). step log_run. step writer_init_run.
  step on_sys_run by reflexivity. step on_sys_run by reflexivity.
  eexists _, _, _, _. split; [apply log_run|]. rewrite !ram_set.
  split; [intros y; by constructor|]. split; [repeat apply rewired_set; apply rewired_refl|]. done.
Qed.
(** *** The buses and the disk *)

Lemma enumerate_hba (s s' : Pci H) : enumerate s = Ret (tt, s') -> hba (pci_hw s') = hba (pci_hw s).
Proof.
  intros R. refine (Bringup.keeps_run (fun t : Pci H => hba (pci_hw t) = hba (pci_hw s)) _ s tt s' _ eq_refl R).
  assert (forall X (c : M H X), Bringup.keeps (fun h => hba h = hba (pci_hw s)) c ->
    Bringup.keeps (fun t : Pci H => hba (pci_hw t) = hba (pci_hw s)) (Pci.on_hw c)) as Hon.
  { intros X c Hc. apply Bringup.keeps_zoom with (Q := fun h => hba h = hba (pci_hw s)); [done..|exact Hc]. }
  assert (forall b d f k, Bringup.keeps (fun h => hba h = hba (pci_hw s)) (read_config_dword b d f k)) as Hd.
  { intros b d f k. unfold read_config_dword. apply Bringup.keeps_bind.
    - intros h a h' Hh [= <- <-]. by rewrite hba_pci_out.
    - intros _ h a h' Hh [= E]. pose proof (hba_pci_in h CONFIG_DATA) as Eh. rewrite E in Eh. cbn in Eh. congruence. }
  assert (forall b d f, Bringup.keeps (fun h => hba h = hba (pci_hw s)) (probe b d f)) as Hp.
  { intros b d f. unfold probe, read_config_word, read_config_byte. Bringup.keep. }
  assert (forall d, Bringup.keeps (fun t : Pci H => hba (pci_hw t) = hba (pci_hw s)) (push_device d)) as Hpush by (intros d t a t' Ht [= <- <-]; exact Ht).
  unfold enumerate, scan_device. apply Bringup.keeps_bind; [intros t a t' Ht [= <- <-]; exact Ht|]. Bringup.keep.
Qed.

(** The driver with the disk it found, or without. *)
Lemma ahci_up_run (c : Z -> Z) (s : Disk) :
  quiet (view s) -> 0 < hs_base (view s) -> fa_ok (ah_frames s) -> PORT s = None ->
  (forall a, cfg (ah_hw s) a = c a) -> Pci.DEVICES (ah_pci s) = pci_functions c -> bar_ok c (hs_base (view s)) ->
  exists r s' l, Ahci.init s = Ret (r, s') /\ within l s s' /\ (PORT s' = None \/ ready_on l s').
Proof.
  intros Hq Hbase Hfa Hport Hc Hdev Hbar. destruct (find_by_class 0x01 0x06 (ah_pci s)) as [d|] eqn:Ef.
  - pose proof Ef as Ef'. unfold find_by_class in Ef'. rewrite Hdev in Ef'.
    assert (function_ok (bus d) (device d) (function d)) as Hfn.
    { apply List.find_some in Ef' as [Hin _]. by apply list_elem_of_In, pci_functions_in in Hin as [Hfn _]. }
    destruct (ahci_init_ok s d) as (r & s' & l & R & Hw & Hok & Herr & _); [|done..|].
    { split; [done|]. split; [done|]. rewrite Hc. by apply Hbar. }
    exists r, s', l. split; [done|]. split; [done|]. destruct r as [[]|e]; [right; by apply Hok|left; by rewrite (Herr e)].
  - eexists _, s, []. unfold Ahci.init. rewrite (run_bind get _ s s s eq_refl), Ef. split; [done|].
    split; [apply within_refl; [apply Hq|done]|by left].
Qed.

Lemma disks_up_run hw cpu cr3 ms gdt tss idt pmm devs abar irq sched id vfs nodes wr sh ser :
  quiet (hba hw) -> 0 < hs_base (hba hw) -> fa_ok pmm -> bar_ok (cfg hw) (hs_base (hba hw)) ->
  exists d l ser', disks_up (mkMachine hw cpu cr3 ms gdt tss idt pmm devs abar None irq sched id vfs nodes wr sh ser) =
      Ret (tt, mkMachine (ah_hw d) cpu cr3 ms gdt tss idt (ah_frames d) (Pci.DEVICES (ah_pci d)) (ABAR_VIRT d) (PORT d) irq sched id
        vfs nodes wr sh ser') /\
    took l pmm (ah_frames d) /\ (length l <= 4)%nat /\ mem_ok (ram (ah_hw d)) /\ outside l (ram hw) (ram (ah_hw d)) /\
    hs_disk (view d) = hs_disk (hba hw) /\ hs_cap (view d) = hs_cap (hba hw) /\
    Pci.DEVICES (ah_pci d) = pci_functions (cfg hw) /\ (PORT d = None \/ ready_on l d).
Proof.
  intros Hq Hbase Hfa Hbar. unfold disks_up.
  destruct (enumerate_run (mkPci hw devs)) as (b & Rb & Db & Gb). pose proof (enumerate_hba _ _ Rb) as Eb. cbn [pci_hw] in *.
  assert (view (mkAhci b pmm abar None) = hba hw) as Ev by exact Eb. step on_pci_run by exact Rb.
  destruct (ahci_up_run (cfg hw) (mkAhci b pmm abar None)) as (r & d & l & Rd & [Wt Wl Wm Wr [Wd Wc] Wv] & Hr);
    rewrite ?Ev in *; try done.
  erewrite run_bind by reflexivity. fields. step log_run. step on_ahci_run by (destruct b; exact Rd).
  exists d, l. assert (Pci.DEVICES (ah_pci d) = pci_functions (cfg hw)) as Ed by (rewrite Wv; exact Db).
  rewrite !hba_ram. destruct r as [[]|e]; eexists; (split; [|by split_and!]); [apply log_run|].
  step log_run. step log_run. apply log_run.
Qed.
(** *** Tasks, calls and files *)

Lemma calls_up_run hw cpu cr3 ms gdt tss idt pmm devs abar port irq vfs nodes wr sh ser : power_on_tasks -> mem_ok (ram hw) ->
  exists x sched, calls_up p (mkMachine hw cpu cr3 ms gdt tss idt pmm devs abar port irq Task.Scheduler_new 0 vfs nodes wr sh ser) =
      Ret (tt, mkMachine (set_ram x hw) cpu cr3 (Entry.init (pg_syscall p) ms) gdt tss idt pmm devs abar port irq sched 2 vfs nodes
        wr sh ser) /\
    mem_ok x /\ (forall a, a < pg_stack p \/ pg_stack p + Task.STACK_SIZE <= a -> x a = ram hw a) /\
    Task.sched_ok sched /\ Task.ids (Task.all_tasks sched) = [0; 1].
Proof.
  intros (Hh & Hlo & Hhi) Hm. unfold calls_up, memory. fields.
  pose proof (Bringup.tasks_up_spec (N := DynNode) (pg_heartbeat p) cr3 (pg_stack p) (ram hw) 0 0 0 0 0 0 Gdt.Gdt.Tss_new Hh ltac:(lia) Hhi) as Ht.
  pose proof (Task.Task_new_bytes (N := DynNode) (pg_heartbeat p) 0 cr3 false (pg_stack p) 1 (ram hw) Hm) as Hb.
  assert (let '(_, _, x) := Bringup.tasks_up (pg_heartbeat p) cr3 (pg_stack p) 0 (ram hw) (@Task.Scheduler_new DynNode) in mem_ok x) as Hx.
  { unfold Bringup.tasks_up, Task.main_task. change (wrap 64 (0 + 1)) with 1. by destruct (Task.Task_new _ _ _ _ _ _ _) as [[t n] x]. }
  destruct (Bringup.tasks_up _ _ _ _ _ _) as [[sched n] x]. destruct Ht as (Hok & Hids & -> & Hout & _).
  exists x, sched. by split_and!.
Qed.

(** The files of the archive, and the directory of the disk. *)
Definition mounted (files : list TarFile) (d : Disk) (vfs : VfsRoot DynNode) (nodes : list Fat32Node) : Prop :=
  root_node vfs = Some (RamNode (RDir files)) /\
  match (if disk_ready d then parse_bpb (hs_disk (view d) 0) else Err "no drive"%string) with
  | Ok b => exists h, nodes !! h = Some (node_dir (fs_of b) (root_cluster b) 0 0) /\ disk_root vfs = Some (DiskNode h)
  | Err _ => disk_root vfs = None
  end.

Lemma mounted_ext files (d d' : Disk) vfs nodes : PORT d' = PORT d -> hs_disk (view d') 0 = hs_disk (view d) 0 ->
  mounted files d vfs nodes -> mounted files d' vfs nodes.
Proof. unfold mounted. cbn [disk_ready ahci_status]. unfold is_ready. by intros -> ->. Qed.

(** The drive is up on the pages [l], or there is none. *)
Definition drive (l : list Z) (d : Disk) : Prop := PORT d = None \/ ready_on l d.

Lemma ready_mem l (d : Disk) : ready_on l d -> mem_ok (hs_ram (view d)).
Proof. intros (_ & ps & fb & _ & [] & _). done. Qed.

Lemma mount_all_run fuel l (k : Kernel (FatWorld Disk) DynNode PmmState) data files :
  TarFileSystem_new data = Ret files -> data <> [] -> disk_root (kn_vfs k) = None ->
  let d := fw_dev (kn_world k) in
  drive l d -> 1 <= hs_cap (view d) ->
  exists k', mount_all fuel (Some data) k = Ret (tt, k') /\ same_tasks k k' /\
    let d' := fw_dev (kn_world k') in
    (exists h, d' = with_hw h d) /\ drive l d' /\ outside l (hs_ram (view d)) (hs_ram (view d')) /\
    (mem_ok (hs_ram (view d)) -> mem_ok (hs_ram (view d'))) /\ (forall y, hs_disk (view d') y = hs_disk (view d) y) /\ mounted files d' (kn_vfs k') (fw_nodes (kn_world k')).
Proof.
  intros Ht Hne Hv d Hd Hcap. unfold mount_all. destruct (mount_ramdisk_run fuel k data files Ht Hne) as (k1 & R1 & V1 & W1 & T1).
  rewrite (run_bind _ _ _ _ _ R1). rewrite Hv in V1. destruct (disk_ready d) eqn:Erdy.
  - destruct Hd as [Hd|Hd]; [by cbn in Erdy; unfold is_ready in Erdy; rewrite Hd in Erdy|].
    destruct (mount_fat_run (BL := watched_laws l d) k1) as (k2 & R2 & V2 & Hm & (Hok & _ & Hsec) & T2).
    { intros _. rewrite W1. split; [by apply moved_refl|exact Hcap]. }
    rewrite W1 in *. fold d in Hm, Hok, Hsec. rewrite Erdy in Hm. cbn [bd_ok bd_sec watched_laws] in *.
    destruct (Hok (moved_refl l d Hd)) as (h & Eh & Hr & Ho).
    exists k2. split; [exact R2|]. split; [by eapply same_tasks_trans|]. cbv zeta. rewrite Eh in *.
    split; [by exists h|]. split; [by right|]. split; [exact Ho|].
    split; [intros _; by apply ready_mem with l|]. split; [exact Hsec|].
    split; [by rewrite V2, V1|]. rewrite Hsec. change (disk_ready (with_hw h d)) with (disk_ready d). rewrite Erdy.
    unfold boot_sector in Hm. cbn [bd_sec] in Hm. fold d in Hm. destruct (parse_bpb _) as [b|e]; [|by rewrite (proj1 Hm), V1].
    destruct Hm as [-> Hn]. eexists. split; [|done]. rewrite Hn. by apply list_lookup_middle.
  - exists k1. unfold mount_fat. rewrite (run_bind get _ k1 k1 k1 eq_refl), W1. fold d. rewrite Erdy. split; [done|]. split; [done|].
    cbv zeta. split; [exists (ah_hw d); by rewrite with_hw_id|]. split; [done|]. split; [by intros a _|]. split; [done|]. split; [done|].
    unfold mounted. by rewrite V1, Erdy.
Qed.

Lemma files_up_run fuel l d cpu cr3 ms gdt tss idt irq sched id nodes wr sh ser data files :
  ramdisk_of info (ram (ah_hw d)) = Some data -> TarFileSystem_new data = Ret files -> data <> [] ->
  drive l d -> 1 <= hs_cap (view d) -> mem_ok (ram (ah_hw d)) ->
  exists h vfs nodes' ser', files_up fuel info (mkMachine (ah_hw d) cpu cr3 ms gdt tss idt (ah_frames d) (Pci.DEVICES (ah_pci d))
      (ABAR_VIRT d) (PORT d) irq sched id VFS nodes wr sh ser) =
    Ret (tt, mkMachine h cpu cr3 ms gdt tss idt (ah_frames d) (Pci.DEVICES (ah_pci d)) (ABAR_VIRT d) (PORT d) irq sched id vfs nodes'
      wr sh ser') /\
    drive l (with_hw h d) /\ outside l (ram (ah_hw d)) (ram h) /\ mem_ok (ram h) /\
    (forall y, hs_disk (hba h) y = hs_disk (view d) y) /\ mounted files (with_hw h d) vfs nodes'.
Proof.
  intros Hrd Ht Hne Hd Hcap Hm. set (m := mkMachine _ _ _ _ _ _ _ _ _ _ _ _ _ _ _ _ _ _ _).
  assert (ahci_of m = d) as Ed by (by destruct d as [[]]).
  destruct (mount_all_run fuel l (kernel_of m) data files Ht Hne) as (k & R & [T1 T2] & (h & Eh) & Hd' & Ho & Hok & Hs & Hmt);
    [done|by cbn [kernel_of kn_world fw_dev]; rewrite Ed..|].
  change (fw_dev (kn_world (kernel_of m))) with (ahci_of m) in *. rewrite Ed in *.
  exists h, (kn_vfs k), (fw_nodes (kn_world k)), (kn_serial k). split.
  - unfold files_up. rewrite (run_bind get _ m m m eq_refl). change (memory m) with (ram (ah_hw d)). rewrite Hrd.
    unfold on_kernel. rewrite (run_zoom _ _ _ _ _ _ R). unfold set_kernel. by rewrite Eh, T1, T2.
  - rewrite Eh in *. rewrite !hba_ram in *. split_and!; try done. by apply Hok.
Qed.
(** ** The machine before the interrupts *)

(** Below the kernel's half memory is the same but for the pages [l]. *)
Definition beyond (l : list Z) (x x' : mem) : Prop :=
  forall a, a < 2 ^ 47 -> (forall q, q ∈ l -> ~ q <= a < q + 4096) -> x' a = x a.

(** Outside the BSS and the pages [l], memory below the kernel's half is as it
    was. *)
Definition untouched (l : list Z) (x x' : mem) : Prop := forall a, a < 2 ^ 47 ->
  a < (pg_bss p).1 - KERNEL_VMA_BASE \/ (pg_bss p).2 - KERNEL_VMA_BASE <= a ->
  (forall q, q ∈ l -> ~ q <= a < q + 4096) -> x' a = x a.

(** None of the pages is one of the kernel's tables. *)
Definition no_table (Tk : Typing) (q : Z) : Prop := q mod 4096 = 0 /\ q <> kp /\ Tk q = None.

Lemma page_outside a f q : f mod 4096 = 0 -> q mod 4096 = 0 -> f <> q -> page a = f -> ~ q <= a < q + 4096.
Proof. unfold page. intros. dm_lia. Qed.

Lemma kept_vm Tk l (v v' : Vm PmmState) :
  kernel_half Tk kp v -> Forall (no_table Tk) l -> beyond l (vmem v) (vmem v') -> shrinks v v' ->
  kernel_half Tk kp v' /\ forall w, lidx 4 w = 511 -> translate 4 (vmem v') kp w = translate 4 (vmem v) kp w.
Proof.
  intros Hk Hl Hb Hs. rewrite Forall_forall in Hl.
  assert (forall f j, f mod 4096 = 0 -> 0 <= f < 2 ^ 31 -> 0 <= j < 512 -> (forall q, q ∈ l -> f <> q) ->
    entry (vmem v') f j = entry (vmem v) f j) as He.
  { intros f j Ha Hr Hj Hn. apply entry_unchanged; [done|done|]. intros x Hx. apply Hb; [unfold page in Hx; dm_lia|].
    intros q Hq. apply (page_outside x f q); [done|by apply Hl|by apply Hn|done]. }
  assert (forall f LP j, Tk f = Some LP -> 0 <= j < 512 -> entry (vmem v') f j = entry (vmem v) f j) as Hkept.
  { intros f [L P'] j HT Hj. destruct (kh_frame _ _ _ Hk f L P' HT) as (Ha & Hr & _). apply He; try done.
    intros q Hq ->. destruct (Hl q Hq) as (_ & _ & Hn). congruence. }
  destruct (kh_root _ _ _ Hk) as (Ha & Hr & _).
  assert (entry (vmem v') kp 511 = entry (vmem v) kp 511) as E.
  { apply He; try done. intros q Hq ->. by destruct (Hl q Hq) as (_ & [] & _). }
  split; [by apply (half_kept Tk kp v v')|]. intros w Hw. by apply (half_alias Tk kp v v').
Qed.

Lemma tables_apart q : statics_ok (pg_tables p) kp lp hp dp -> q mod 4096 = 0 -> q ∉ [kp; lp; hp; dp 0; dp 1; dp 2; dp 3] ->
  no_table (kernel_typing hp dp) q.
Proof.
  intros Hst Ha Hq. split; [done|]. split; [intros ->; apply Hq; set_solver|].
  destruct (kernel_typing hp dp q) as [[L P']|] eqn:E; [|done]. exfalso. apply Hq.
  destruct (kernel_typing_inv _ _ _ _ _ E) as [(-> & _)|(i & Hi & -> & _)]; [set_solver|].
  by eapply in_pd.
Qed.

(** The address space of the kernel over the memory [x], with its alias; [x0]
    is the memory at power-on. *)
Record space_up (l : list Z) (x0 x : mem) (fa : PmmState) : Prop := {
  su_vm : vm_ok (mkVm x fa);
  su_half : kernel_half (kernel_typing hp dp) kp (mkVm x fa);
  su_alias q : 0 <= q < 2 ^ 31 -> translate 4 x kp (KERNEL_VMA_BASE + q) = Some (q, true);
  su_memory : untouched l x0 x
}.

Lemma space_weaken l l' x0 x fa : (forall q, q ∈ l -> q ∈ l') -> space_up l x0 x fa -> space_up l' x0 x fa.
Proof. intros Hl []. constructor; [done..|]. intros a H1 H2 H3. apply su_memory0; [done..|]. intros q Hq. by apply H3, Hl. Qed.

Lemma space_kept l l' x0 x x' fa fa' : space_up l x0 x fa -> Forall (no_table (kernel_typing hp dp)) l' -> (forall q, q ∈ l' -> q ∈ l) ->
  beyond l' x x' -> vm_ok (mkVm x' fa') -> shrinks (mkVm x fa) (mkVm x' fa') -> space_up l x0 x' fa'.
Proof.
  intros [] Hl Hin Hb Hok Hs. destruct (kept_vm (kernel_typing hp dp) l' (mkVm x fa) (mkVm x' fa')) as [Hk Ht]; [done..|].
  constructor; [done|done| |].
  - intros q Hq. rewrite <- su_alias0 by done. apply Ht. unfold lidx, KERNEL_VMA_BASE. cbn -[Z.div Z.modulo]. dm_lia.
  - intros a H1 H2 H3. rewrite <- su_memory0 by done. apply Hb; [done|]. intros q Hq. by apply H3, Hin.
Qed.

(** The archive, out of the way of everything booting writes. *)
Record ramdisk_ok (m : Machine H) (files : list TarFile) : Prop := {
  rd_data : exists data, ramdisk_of info (memory m) = Some data /\ TarFileSystem_new data = Ret files;
  rd_range : Loader.ramdisk_addr info + Loader.ramdisk_size info <= 2 ^ 47;
  rd_bss : Loader.ramdisk_addr info + Loader.ramdisk_size info <= (pg_bss p).1 - KERNEL_VMA_BASE \/
    (pg_bss p).2 - KERNEL_VMA_BASE <= Loader.ramdisk_addr info;
  rd_free q : q ∈ (⋃ (region_pages <$> regions) : gset Z) ->
    Loader.ramdisk_addr info + Loader.ramdisk_size info <= q * PAGE_SIZE \/ (q + 1) * PAGE_SIZE <= Loader.ramdisk_addr info
}.

(** A machine [m'] that has come up from [m], its driver on the pages [l]. *)
Record running (l : list Z) (files : list TarFile) (m m' : Machine H) : Prop := {
  rn_tables : loaded (sys_of m');
  rn_calls : mc_msrs m' = Entry.init (pg_syscall p) (mc_msrs m);
  rn_cr3 : mc_cr3 m' = kp;
  rn_space : space_up (0x8000 :: l) (memory m) (memory m') (PMM m');
  rn_frames : took l (Pmm.init (Some regions) PmmState_new) (PMM m') /\ (length l <= 4)%nat;
  rn_devices : mc_devices m' = pci_functions (cfg (mc_hw m));
  rn_drive : drive l (ahci_of m');
  rn_disk y : hs_disk (view (ahci_of m')) y = hs_disk (hba (mc_hw m)) y;
  rn_files : mounted files (ahci_of m') (mc_vfs m') (mc_nodes m');
  rn_tasks : Task.sched_ok (SCHEDULER m') /\ Task.ids (Task.all_tasks (SCHEDULER m')) = [0; 1] /\ NEXT_ID m' = 2;
  rn_screen : WRITER_STORAGE m' = Some screen /\ SHELL_STATE m' = Splash
}.

Lemma ramdisk_kept l m files x' : ramdisk_ok m files -> (forall q, q ∈ l -> q mod 4096 = 0 /\ q / 4096 ∈ (⋃ (region_pages <$> regions) : gset Z)) ->
  untouched l (memory m) x' -> ramdisk_of info x' = ramdisk_of info (memory m).
Proof.
  intros Hrd Hl Hx. unfold ramdisk_of. destruct (_ && _) eqn:E; [|done]. f_equal. apply ld_bytes_ext. intros a Ha.
  pose proof (rd_range _ _ Hrd) as Hr. pose proof (rd_bss _ _ Hrd) as Hbss. apply Hx; [lia..|].
  intros q Hq Hin. destruct (Hl q Hq) as [Hm Hf]. destruct (rd_free _ _ Hrd _ Hf); unfold PAGE_SIZE in *; dm_lia.
Qed.

(** A page the allocator has is one of the memory map's. *)
Lemma free_page (l : list Z) : Forall (fun r => 0 <= rg_base r) regions -> Forall (fa_free (Pmm.init (Some regions) PmmState_new)) l ->
  forall q, q ∈ l -> q mod 4096 = 0 /\ q / 4096 ∈ (⋃ (region_pages <$> regions) : gset Z).
Proof.
  intros Hb Hl q Hq. destruct (Bootmem.boot_pmm regions Hb) as [_ <-]. rewrite Forall_forall in Hl. exact (Hl q Hq).
Qed.

(** [paging::init], and none of the allocator's pages among its tables. *)
Lemma space_init l x0 x : let v := mkVm (init_mem3 (pg_tables p) kp lp hp dp x) (Pmm.init (Some regions) PmmState_new) in
  Bootmem.bootable (pg_tables p) kp lp hp dp (pg_bss p).1 (pg_bss p).2 regions x0 -> mem_ok x ->
  (forall f j, f ∈ [kp; lp; hp; dp 0; dp 1; dp 2; dp 3] -> 0 <= j < 512 -> entry x f j = 0) ->
  (forall a, a < (pg_bss p).1 - KERNEL_VMA_BASE \/ (pg_bss p).2 - KERNEL_VMA_BASE <= a -> x a = x0 a) ->
  space_up l x0 (vmem v) (falloc v).
Proof.
  intros v Hb Hx Hz Ho. pose proof (Bootmem.bt_statics _ _ _ _ _ _ _ _ _ Hb) as Hst.
  destruct (Bootmem.boot_vm _ _ _ _ _ _ _ _ _ _ Hb Hx Hz) as [Hok Hk].
  constructor; [exact Hok|exact Hk|by apply (kernel_alias (pg_tables p) kp lp hp dp)|].
  intros a _ Ha _. rewrite <- Ho by done. apply (init_data (pg_tables p) kp lp hp dp); [done|].
  intros Hin. destruct (Bootmem.bt_bss _ _ _ _ _ _ _ _ _ Hb _ Hin). destruct (static_frame _ _ _ _ _ Hst _ Hin) as [Hm _].
  unfold page in *. dm_lia.
Qed.

Lemma free_tables l x0 : Bootmem.bootable (pg_tables p) kp lp hp dp (pg_bss p).1 (pg_bss p).2 regions x0 ->
  Forall (fa_free (Pmm.init (Some regions) PmmState_new)) l -> Forall (no_table (kernel_typing hp dp)) l.
Proof.
  intros Hb Hl. apply Forall_forall. intros q Hq. destruct (free_page l (Bootmem.bt_base _ _ _ _ _ _ _ _ _ Hb) Hl q Hq) as [Ha Hf].
  apply tables_apart; [apply Hb|done|]. intros Hin. by apply (Bootmem.bt_taken _ _ _ _ _ _ _ _ _ Hb q Hin).
Qed.

Lemma memory_up_run x0 hw cpu cr3 ms gdt tss idt devs abar port irq sched id vfs nodes wr sh ser :
  Bootmem.bootable (pg_tables p) kp lp hp dp (pg_bss p).1 (pg_bss p).2 regions x0 -> mem_ok (ram hw) ->
  (forall f j, f ∈ [kp; lp; hp; dp 0; dp 1; dp 2; dp 3] -> 0 <= j < 512 -> entry (ram hw) f j = 0) ->
  (forall a, a < (pg_bss p).1 - KERNEL_VMA_BASE \/ (pg_bss p).2 - KERNEL_VMA_BASE <= a -> ram hw a = x0 a) ->
  exists x ser', memory_up p info (mkMachine hw cpu cr3 ms gdt tss idt PmmState_new devs abar port irq sched id vfs nodes wr sh ser) =
      Ret (tt, mkMachine (set_ram x hw) cpu kp ms gdt tss idt (Pmm.init (Some regions) PmmState_new) devs abar port irq sched id
        vfs nodes wr sh ser') /\
    forall l, space_up l x0 x (Pmm.init (Some regions) PmmState_new).
Proof.
  intros Hb Hx Hz Ho. eexists _, _. split; [|intros l; exact (space_init l x0 (ram hw) Hb Hx Hz Ho)]. cbv zeta. cbn [vmem].
  unfold memory_up. erewrite run_bind by reflexivity. fields. step log_run. step log_run. erewrite run_bind by reflexivity.
  unfold memory. fields.
  erewrite run_bind; [|unfold lift; rewrite (init_run _ kp lp hp dp _ (Bootmem.bt_statics _ _ _ _ _ _ _ _ _ Hb)); reflexivity]. cbv beta iota.
  erewrite run_bind by reflexivity. fields. apply log_run.
Qed.

(** Up to the disk. *)
Lemma core_run m : power_on m ->
  exists l d c t ser, (forall X (k : M (Machine H) X), (cpu_up p info;; memory_up p info;; disks_up;; k) m =
      k (mkMachine (ah_hw d) c kp (mc_msrs m) (Cpu.gdt_after (pg_tss p)) t (Gdt.Idt.init_idt (pg_handlers p) Gdt.Idt.Idt_new)
        (ah_frames d) (Pci.DEVICES (ah_pci d)) (ABAR_VIRT d) (PORT d) (mc_irq m) Task.Scheduler_new 0 VFS (mc_nodes m)
        (Some screen) (SHELL_STATE m) ser)) /\
    (forall x, loaded (Cpu.mkSys c (Cpu.gdt_after (pg_tss p)) t (Gdt.Idt.init_idt (pg_handlers p) Gdt.Idt.Idt_new) x)) /\
    took l (Pmm.init (Some regions) PmmState_new) (ah_frames d) /\ (length l <= 4)%nat /\
    space_up l (memory m) (ram (ah_hw d)) (ah_frames d) /\ hs_disk (view d) = hs_disk (hba (mc_hw m)) /\ 1 <= hs_cap (view d) /\
    Pci.DEVICES (ah_pci d) = pci_functions (cfg (mc_hw m)) /\ drive l d.
Proof.
  intros Hp. pose proof (po_memory _ Hp) as Hb.
  destruct (cpu_up_run m Hp) as (h & c & t & ser & R1 & Hload & [Eh Ec] & Hm1 & Hz & Hbss).
  match type of R1 with _ = Ret (_, mkMachine _ ?cpu ?cr3 ?ms ?gdt ?tss ?idt _ ?devs ?abar ?port ?irq ?sched ?id ?vfs ?nodes ?wr ?sh ?ser) =>
    destruct (memory_up_run (memory m) h cpu cr3 ms gdt tss idt devs abar port irq sched id vfs nodes wr sh ser Hb Hm1 Hz Hbss)
      as (x & ser2 & R2 & Hs) end.
  pose proof (su_vm _ _ _ _ (Hs [])) as [Hok2 Hm2].
  destruct (po_hba _ Hp) as ([Q1 Q2 Q3 Q4 Q5] & Hbase & Hcap).
  assert (hba (set_ram x h) = with_ram x (hba (mc_hw m))) as E2 by (rewrite hba_set_ram, Eh; done).
  assert (forall a, cfg (set_ram x h) a = cfg (mc_hw m) a) as C2 by (intros a; rewrite <- Ec; apply (mb_ram x h)).
  match type of R2 with _ = Ret (_, mkMachine ?hw ?cpu ?cr3 ?ms ?gdt ?tss ?idt ?pmm ?devs ?abar _ ?irq ?sched ?id ?vfs ?nodes ?wr ?sh ?ser) =>
    destruct (disks_up_run hw cpu cr3 ms gdt tss idt pmm devs abar irq sched id vfs nodes wr sh ser)
      as (d & l & ser3 & R3 & Tk & Hlen & Hm3 & Ho3 & Hd3 & Hc3 & Dv & Hr3) end.
  { rewrite E2. by constructor. }
  { rewrite E2. exact Hbase. }
  { exact Hok2. }
  { intros e He. rewrite (pci_functions_ext (cfg (mc_hw m))) in He by done. rewrite C2, E2. exact (po_bar _ Hp e He). }
  exists l, d, c, t, ser3. split; [intros X k; by rewrite (run_bind _ _ _ _ _ R1), (run_bind _ _ _ _ _ R2), (run_bind _ _ _ _ _ R3)|].
  rewrite E2 in Hd3, Hc3. rewrite ram_set in Ho3. destruct Tk as (T1 & T2 & T3 & T4).
  split; [done|]. split; [done|]. split; [done|]. split.
  - refine (space_kept l l _ _ _ _ _ (Hs l) (free_tables l _ Hb T3) (fun q Hq => Hq) _ _ _).
    + intros a _. apply Ho3.
    + by split.
    + intros b Hfb. by apply T4 in Hfb as [? _].
  - split; [done|]. split; [by rewrite Hc3|]. split; [|done]. rewrite Dv. by apply pci_functions_ext.
Qed.

Lemma ramdisk_some x data : ramdisk_of info x = Some data -> data <> [].
Proof.
  unfold ramdisk_of. destruct (_ && _) eqn:E; [|done]. apply andb_prop in E as [_ Hs%Z.ltb_lt]. intros [= <-] E.
  apply (f_equal length) in E. rewrite length_ld_bytes in E. cbn in E. lia.
Qed.

Lemma drive_ram l d x : drive l d -> mem_ok x -> Forall (fun q => q < 2 ^ 31) l -> (forall a, a < 2 ^ 47 -> x a = ram (ah_hw d) a) ->
  drive l (with_hw (set_ram x (ah_hw d)) d).
Proof.
  intros [Hd|Hd] Hx Hl He; [by left|right]. apply (ready_ram l d _ x Hd); [apply hba_set_ram|done|].
  intros q a Hq Ha. rewrite Forall_forall in Hl. specialize (Hl q Hq). unfold view. rewrite <- hba_ram. apply He. lia.
Qed.

Lemma devices_run fuel m files : power_on m -> ramdisk_ok m files ->
  exists l m1, devices_up p fuel info m = Ret (tt, m1) /\ running l files m m1 /\ mc_irq m1 = mc_irq m /\
    Forall (fa_free (Pmm.init (Some regions) PmmState_new)) l.
Proof.
  intros Hp Hrd. pose proof (po_memory _ Hp) as Hb.
  destruct (core_run m Hp) as (l & d & c & t & ser & R & Hload & Tk & Hlen & Hsp & Hd & Hcap & Dv & Hdr).
  destruct (rd_data _ _ Hrd) as (data & Edata & Etar).
  pose proof Tk as (T1 & T2 & T3 & T4). pose proof (free_tables l _ Hb T3) as Hnt.
  unfold devices_up. rewrite R. clear R. step reset_shell_run.
  edestruct (calls_up_run (ah_hw d)) as (x4 & sched & R4 & Hm4 & Ho4 & Hsched & Hids); [apply Hp|apply Hsp|].
  rewrite (run_bind _ _ _ _ _ R4). clear R4.
  assert (forall a, a < 2 ^ 47 -> x4 a = ram (ah_hw d) a) as Hlow by (intros a Ha; apply Ho4; destruct (po_stack _ Hp) as (_ & ? & _); lia).
  set (d4 := with_hw (set_ram x4 (ah_hw d)) d).
  assert (ram (ah_hw d4) = x4) as E4 by apply ram_set. assert (view d4 = with_ram x4 (view d)) as E5 by apply hba_set_ram.
  assert (space_up l (memory m) x4 (ah_frames d)) as Hsp4.
  { refine (space_kept l [] _ _ _ _ _ Hsp (Forall_nil_2 _) _ _ _ _); [by intros q Hq%elem_of_nil|by intros a Ha _; apply Hlow|by split|by intros b]. }
  edestruct (files_up_run fuel l d4) as (h & vfs & nodes & ser5 & R5 & Hd5 & Ho5 & Hm5 & Hs5 & Hmt);
    [..|exists l; eexists; split; [exact R5|]; split; [|split; [reflexivity|exact T3]]].
  - rewrite E4, <- Edata. apply (ramdisk_kept l m files); [done|by apply free_page; [apply Hb|]|apply Hsp4].
  - exact Etar.
  - by eapply ramdisk_some.
  - apply drive_ram; [done|done| |done]. eapply Forall_impl; [exact T3|]. intros q Hq.
    destruct (Bootmem.boot_pmm regions (Bootmem.bt_base _ _ _ _ _ _ _ _ _ Hb)) as [Hok _].
    pose proof (fa_free_range _ _ Hok Hq). lia.
  - by rewrite E5.
  - by rewrite E4.
  - rewrite E5 in Hs5. rewrite E4 in Ho5. constructor; [exact (Hload _)|done|done| |by split|exact Dv|exact Hd5| |exact Hmt|done|done].
    + apply (space_weaken l); [intros q Hq; by right|].
      refine (space_kept l l _ _ _ _ _ Hsp4 Hnt (fun q Hq => Hq) _ _ _); [intros a _; apply Ho5|by split|by intros b].
    + intros y. rewrite <- Hd. exact (Hs5 y).
Qed.

(** ** The interrupts *)

(** Without ACPI the PICs deliver the timer and the keyboard; with it they are
    masked, the local APIC is enabled with its timer on vector 32, and every
    other processor was woken at the code installed at 0x8000. *)
Definition irqs_up (acpi : option Acpi.AcpiInfo) (m m' : Machine H) : Prop :=
  let hw := mc_hw m' in
  match acpi with
  | None => memory m' = memory m /\ ipis hw = ipis (mc_hw m) /\ forall irq, 0 <= irq < 16 ->
      vector_of (pic1 hw) (pic2 hw) irq = 32 + irq /\ masked (pic1 hw) (pic2 hw) irq = negb ((irq =? 0) || (irq =? 1))
  | Some i =>
      let woken := started_ids (Acpi.bsp_id i) (Acpi.ap_ids i) in
      let tops := List.map (stack_of (pg_layout p)) (seqZ 0 (Z.of_nat (length woken))) in
      (forall irq, 0 <= irq < 16 -> masked (pic1 hw) (pic2 hw) irq = true) /\
      (mc_irq m').2 = true /\ lapic_reg hw REG_SPURIOUS = 0x1FF /\ lapic_reg hw REG_LVT_TIMER = Z.lor (Z.shiftl 1 17) 32 /\
      ipis hw = ipis (mc_hw m) ++ (woken ≫= startup) /\
      memory m' = foldl (fun x top => install_trampoline (pg_layout p) top kp x) (memory m) tops
  end.

(** Whatever the bring-up did to the hardware, if it left the disk controller
    alone and wrote to the page at 0x8000 only. *)
Lemma running_on l files m m1 x h ser irq : power_on m -> running l files m m1 ->
  Forall (fa_free (Pmm.init (Some regions) PmmState_new)) l ->
  hba h = hba (mc_hw m1) -> (forall a, ~ 0x8000 <= a < 0x9000 -> x a = memory m1 a) -> (mem_ok (memory m1) -> mem_ok x) ->
  running l files m (mkMachine (set_ram x h) (mc_cpu m1) (mc_cr3 m1) (mc_msrs m1) (GDT m1) (TSS m1) (IDT m1) (PMM m1) (mc_devices m1)
    (mc_abar m1) (mc_port m1) irq (SCHEDULER m1) (NEXT_ID m1) (mc_vfs m1) (mc_nodes m1) (WRITER_STORAGE m1) (SHELL_STATE m1) ser).
Proof.
  intros Hp [] Hfree Eh Ex Hx. pose proof (po_memory _ Hp) as Hb. destruct (su_vm _ _ _ _ rn_space0) as [Hok Hm]. cbn [falloc vmem] in *.
  assert (view (with_hw (set_ram x h) (ahci_of m1)) = with_ram x (view (ahci_of m1))) as Ev
    by (etrans; [apply hba_set_ram|by rewrite Eh]).
  destruct (po_low _ Hp) as [Hlow Htab]. constructor; try done.
  - destruct rn_tables0. by constructor.
  - rewrite memory_set. fields.
    refine (space_kept _ [0x8000] _ _ _ _ _ rn_space0 _ _ _ _ _).
    + apply Forall_singleton. by apply tables_apart; [apply Hb| |].
    + intros q ->%list_elem_of_singleton. by left.
    + intros a _ Ha. apply Ex. by apply (Ha 0x8000), list_elem_of_singleton.
    + split; [done|by apply Hx].
    + by intros b.
  - destruct rn_drive0 as [Hd|Hd]; [by left|right]. apply (ready_ram l (ahci_of m1) (set_ram x h) x Hd Ev); [by apply Hx|].
    intros q a Hq Ha. rewrite Ex; [by unfold memory; rewrite hba_ram|].
    destruct (free_page l (Bootmem.bt_base _ _ _ _ _ _ _ _ _ Hb) Hfree q Hq) as [Hal Hin].
    intros Hr. apply Hlow. replace 8 with (q / 4096); [done|]. dm_lia.
  - intros y. rewrite <- rn_disk0. exact (f_equal (fun z => hs_disk z y) Ev).
  - apply (mounted_ext files (ahci_of m1)); [done|exact (f_equal (fun z => hs_disk z 0) Ev)|done].
Qed.

(** With the line on what was found. *)
Lemma interrupts_up_run fuel (m1 : Machine H) online s' :
  Bringup.interrupts_up fuel (pg_layout p) (mc_cr3 m1) (Some regions) (smp_of m1) = Ret (online, s') ->
  exists ser, interrupts_up p fuel info m1 = Ret (online, mkMachine (set_ram (sm_mem s') (irq_hw (sm_irq s'))) (mc_cpu m1) (mc_cr3 m1)
    (mc_msrs m1) (GDT m1) (TSS m1) (IDT m1) (PMM m1) (mc_devices m1) (mc_abar m1) (mc_port m1)
    (TICKS (sm_irq s'), LAPIC_BASE (sm_irq s'), LAPIC_ENABLED (sm_irq s')) (SCHEDULER m1) (NEXT_ID m1) (mc_vfs m1) (mc_nodes m1)
    (WRITER_STORAGE m1) (SHELL_STATE m1) ser).
Proof.
  intros R. unfold interrupts_up. rewrite (run_bind get _ m1 m1 m1 eq_refl). unfold on_smp. step run_zoom by exact R.
  destruct online; eexists; erewrite run_bind; [|apply log_run| |apply log_run]; done.
Qed.

Lemma interrupts_run fuel l files m m1 acpi : power_on m -> running l files m m1 -> mc_irq m1 = mc_irq m ->
  Forall (fa_free (Pmm.init (Some regions) PmmState_new)) l ->
  Acpi.init (memory m1) (Some regions) = Ret acpi -> (forall i, acpi = Some i -> Acpi.lapic_base i = lapic_at) ->
  (Bringup.ps2_room < fuel)%nat /\ (tick_wait < fuel)%nat /\ (icr_wait < fuel)%nat ->
  exists online m2, interrupts_up p fuel info m1 = Ret (online, m2) /\ running l files m m2 /\ irqs_up acpi m1 m2.
Proof.
  intros Hp Hrun Eirq Hfree Hacpi Hat Hfuel.
  assert (sm_mem (smp_of m1) = memory m1 /\ irq_hw (sm_irq (smp_of m1)) = mc_hw m1 /\ TICKS (sm_irq (smp_of m1)) = (mc_irq m).1.1) as (Em & Eh & Et).
  { unfold smp_of. rewrite Eirq. by destruct (mc_irq m) as [[ticks base] en]. }
  destruct (po_ap_stacks _ Hp) as [Hlo Hhi]. destruct (po_code _ Hp) as [Hlen Hcode].
  destruct (Bringup.bring_up_spec fuel (pg_layout p) (mc_cr3 m1) (Some regions) acpi (smp_of m1)) as (h1 & _ & _ & online & s' & R & Hs');
    [by rewrite Em|done|rewrite Et; apply Hp|done..|].
  assert (hba (irq_hw (sm_irq s')) = hba (mc_hw m1)) as Ehba.
  { refine (Bringup.keeps_interrupts (fun h => hba h = hba (mc_hw m1)) _ _ _ _ _ _ fuel (pg_layout p) _ _ _ s' online _ _ R).
    1,2: intros; destruct (mb_ports h) as [E1 E2]; by rewrite ?E1, ?E2.
    1,2: intros; destruct (mb_apic h off) as [E1 E2]; [done|]; by rewrite ?E1, ?E2.
    1,2: intros; destruct (mb_time h) as [E1 E2]; by rewrite ?E1, ?E2.
    - rewrite Em, Hacpi. by intros i [= ->]; apply Hat.
    - by rewrite Eh. }
  destruct (interrupts_up_run fuel m1 online s' R) as (ser & R'). exists online. eexists. split; [exact R'|]. split.
  - apply running_on; [done..|done| |].
    all: destruct acpi as [i|]; [|destruct Hs' as (_ & -> & _); by rewrite Em].
    all: destruct Hs' as (_ & _ & _ & _ & _ & _ & _ & _ & _ & -> & _); rewrite Em; by apply installs_out.
  - destruct (mb_ram (sm_mem s') (irq_hw (sm_irq s'))) as (_ & Ep1 & Ep2 & El & Ei).
    unfold irqs_up. rewrite memory_set. fields. rewrite Ep1, Ep2, Ei, ?El. unfold smp_ipis in Hs'. rewrite Em, Eh in Hs'.
    destruct acpi as [i|]; [|naive_solver].
    destruct Hs' as (_ & Hmask & Hen & Hsp & Hlvt & _ & Hipi & _ & _ & Htr & _). rewrite (rn_cr3 _ _ _ _ Hrun) in Htr. done.
Qed.

(** ** The property *)

(** Every ELF program whose pages fit [room] can be loaded. *)
Definition loads_programs (m : Machine H) (room : nat) : Prop := forall data phs,
  Forall is_byte data -> 64 <= Z.of_nat (length data) -> is_valid (elf_header data) = true ->
  program_headers (elf_header data) data = Ret phs -> Forall (fun ph => p_type ph = PT_LOAD -> segment_ok data ph) phs ->
  (6 + seg_frames phs + 32 <= room)%nat ->
  exists T root v, load_elf (pg_tables p) data (mkVm (memory m) (PMM m)) =
      Ret (Ok (mkImage (e_entry (elf_header data)) 0x508000 root (image_end 0 phs)), v) /\ user_ok T root v /\
    forall a, 0 <= a < 2 ^ 47 ->
      if decide (0x500000 <= a < 0x508000) then is_Some (user_byte root (vmem v) a)
      else user_byte root (vmem v) a = image_byte data phs None a.

End program.
End start.

(** ** A whole machine, for the witness *)

(** The board of [Bringup] and the disk of [AhciSpec] on one bus: the local APIC
    decodes its own window, the controller, whose BAR is fixed, the rest. *)
Record Whole := mkWhole { wh_board : Bringup.DemoBoard; wh_disk : AhciSpec.Machine }.

Definition fixed_base (x : HbaState) : HbaState := mkHba 0xFEBF1000 (hs_reg x) (hs_disk x) (hs_cap x) (hs_run x) (hs_ram x).
Definition fixed_disk (h : Whole) : AhciSpec.Machine := with_hba (fixed_base (mc_hba (wh_disk h))) (wh_disk h).
Definition in_apic (a : Z) : bool := (0xFEE00000 <=? a) && (a <? 0xFEE00400).

#[global] Instance whole_hw : Hardware Whole := {
  port_out8 p v h := mkWhole (port_out8 p v (wh_board h)) (wh_disk h);
  port_in8 p h := let '(v, b) := port_in8 p (wh_board h) in (v, mkWhole b (wh_disk h));
  port_out32 p v h := mkWhole (wh_board h) (port_out32 p v (wh_disk h));
  port_in32 p h := let '(v, d) := port_in32 p (wh_disk h) in (v, mkWhole (wh_board h) d);
  mmio_store a v h :=
    if in_apic a then mkWhole (mmio_store a v (wh_board h)) (wh_disk h) else mkWhole (wh_board h) (mmio_store a v (fixed_disk h));
  mmio_load a h :=
    if in_apic a then let '(v, b) := mmio_load a (wh_board h) in (v, mkWhole b (wh_disk h))
    else let '(v, d) := mmio_load a (fixed_disk h) in (v, mkWhole (wh_board h) d);
  timer_irqs h := let '(k, b) := timer_irqs (wh_board h) in (k, mkWhole b (wh_disk h))
}.
#[global] Instance whole_dma : Dma Whole := {
  ram h := ram (wh_disk h);
  set_ram m h := mkWhole (wh_board h) (set_ram m (wh_disk h))
}.
#[global] Instance whole_aps : Processors Whole := {
  ap_online h := let '(k, b) := ap_online (wh_board h) in (k, mkWhole b (wh_disk h))
}.
#[global] Instance whole_config : PciConfig Whole.
Proof.
  refine {| cfg h := cfg (wh_disk h) |}. intros h a Ha H31. destruct (cfg_read (wh_disk h) a Ha H31) as (d & E & Hd).
  exists (mkWhole (wh_board h) d). cbn [port_in32 port_out32 whole_hw wh_disk wh_board]. by rewrite E.
Defined.

Lemma fixed_twice x : fixed_base (fixed_base x) = fixed_base x.
Proof. done. Qed.

Lemma hba_window h p off : 0 <= p < 32 -> 0 <= off < 0x80 -> in_apic (port_addr (fixed_base (mc_hba (wh_disk h))) p off) = false.
Proof. intros Hp Ho. unfold in_apic, port_addr. cbn [hs_base fixed_base]. apply andb_false_iff. left. apply Z.leb_gt. lia. Qed.

#[global] Program Instance whole_hba : Hba Whole := { hba h := fixed_base (mc_hba (wh_disk h)) }.
Next Obligation. done. Qed.
Next Obligation. done. Qed.
Next Obligation.
  intros h p off Hp Ho Hr. cbn [mmio_load whole_hw]. rewrite hba_window by done.
  destruct (@hba_load _ _ _ sim_hba (fixed_disk h) p off Hp Ho Hr) as (v & d & E & Eh & Hi). change (hba (fixed_disk h)) with (fixed_base (mc_hba (wh_disk h))) in *.
  rewrite E. exists v, (mkWhole (wh_board h) d). cbn [wh_disk]. change (hba d) with (mc_hba d) in Eh. by rewrite Eh.
Qed.
Next Obligation.
  intros h p k Hp Hr. cbn [mmio_load whole_hw]. rewrite hba_window by (done || by vm_compute).
  destruct (@hba_load_is _ _ _ sim_hba (fixed_disk h) p k Hp Hr) as (v & d & E & Eh & Hi). change (hba (fixed_disk h)) with (fixed_base (mc_hba (wh_disk h))) in *.
  rewrite E. exists v, (mkWhole (wh_board h) d). cbn [wh_disk]. change (hba d) with (mc_hba d) in Eh. by rewrite Eh.
Qed.
Next Obligation.
  intros h p k c Hp Hr Hd Hc. cbn [mmio_load whole_hw]. rewrite hba_window by (done || by vm_compute).
  destruct (@hba_load_ci _ _ _ sim_hba (fixed_disk h) p k c Hp Hr Hd Hc) as (v & d & E & Hcase).
  change (hba (fixed_disk h)) with (fixed_base (mc_hba (wh_disk h))) in *. rewrite E. exists v, (mkWhole (wh_board h) d). split; [done|].
  cbn [wh_disk]. change (hba d) with (mc_hba d) in Hcase. destruct (_ =? 0).
  - destruct Hcase as (m & disk & -> & Hrest). by exists m, disk.
  - destruct Hcase as (k' & Hk & ->). by exists k'.
Qed.
Next Obligation.
  intros h p off v Hp Hv Hr. cbn [mmio_store whole_hw].
  destruct (@hba_store _ _ _ sim_hba (fixed_disk h) p off v Hp Hv Hr) as [Hconf Hclear].
  change (hba (fixed_disk h)) with (fixed_base (mc_hba (wh_disk h))) in *. split; intros Ho.
  - assert (0 <= off < 0x80).
    { unfold config_regs in Ho. repeat (apply elem_of_cons in Ho as [->|Ho]; [by vm_compute|]). by apply elem_of_nil in Ho. }
    rewrite hba_window by done. cbn [wh_disk]. specialize (Hconf Ho). cbn [hba sim_hba] in Hconf. by rewrite Hconf.
  - assert (0 <= off < 0x80) by (destruct Ho as [-> | ->]; by vm_compute).
    rewrite hba_window by done. cbn [wh_disk]. specialize (Hclear Ho). cbn [hba sim_hba] in Hclear. by rewrite Hclear.
Qed.
Next Obligation.
  intros h p c Hp Hr Hrun Hd Hc. destruct (@hba_issue _ _ _ sim_hba (fixed_disk h) p c Hp Hr Hrun Hd Hc) as (k & Hk & E).
  change (hba (fixed_disk h)) with (fixed_base (mc_hba (wh_disk h))) in *. exists k. split; [done|].
  cbn [mmio_store whole_hw]. rewrite hba_window by (done || by vm_compute). cbn [wh_disk]. cbn [hba sim_hba] in E. by rewrite E.
Qed.

Lemma global_window off : off = HBA_GHC \/ off = HBA_CAP \/ off = HBA_PI -> in_apic (0xFEBF1000 + off) = false.
Proof. by intros [->|[->| ->]]. Qed.

#[global] Program Instance whole_bus : HbaBus Whole := { hba_drive := hba_drive (H := AhciSpec.Machine) }.
Next Obligation.
  intros h off Ho. cbn [mmio_load whole_hw]. change (hs_base (hba h)) with 0xFEBF1000. rewrite global_window by done.
  destruct (@hba_global_load _ _ _ _ sim_bus (fixed_disk h) off Ho) as (v & d & E & Eh & Hrest).
  change (hba (fixed_disk h)) with (fixed_base (mc_hba (wh_disk h))) in *. change (hs_base (fixed_base _)) with 0xFEBF1000 in E. rewrite E.
  exists v, (mkWhole (wh_board h) d). split; [done|]. split; [|done]. cbn [hba whole_hba wh_disk]. cbn [hba sim_hba] in Eh. by rewrite Eh.
Qed.
Next Obligation.
  intros h v. cbn [mmio_store whole_hw]. change (hs_base (hba h)) with 0xFEBF1000. rewrite global_window by (by left).
  pose proof (@hba_global_store _ _ _ _ sim_bus (fixed_disk h) v) as E. change (hs_base (hba (fixed_disk h))) with 0xFEBF1000 in E.
  cbn [hba whole_hba sim_hba wh_disk] in *. by rewrite E.
Qed.
Next Obligation.
  intros h p Hp Hd. cbn [mmio_load whole_hw]. change (hba h) with (fixed_base (mc_hba (wh_disk h))).
  rewrite hba_window by (done || by vm_compute). pose proof (@hba_drive_sig _ _ _ _ sim_bus (fixed_disk h) p Hp Hd) as E.
  change (hba (fixed_disk h)) with (fixed_base (mc_hba (wh_disk h))) in E. by destruct (mmio_load _ (fixed_disk h)).
Qed.
Next Obligation.
  intros h p Hp Hd. cbn [mmio_load whole_hw]. change (hba h) with (fixed_base (mc_hba (wh_disk h))).
  rewrite hba_window by (done || by vm_compute). pose proof (@hba_drive_ssts _ _ _ _ sim_bus (fixed_disk h) p Hp Hd) as E.
  change (hba (fixed_disk h)) with (fixed_base (mc_hba (wh_disk h))) in E. by destruct (mmio_load _ (fixed_disk h)).
Qed.
Next Obligation. intros h a v. cbn. by case_match. Qed.
Next Obligation. done. Qed.

#[global] Program Instance whole_pics : Pics Whole := { pic1 h := pic1 (wh_board h); pic2 h := pic2 (wh_board h) }.
Next Obligation. intros p v h. exact (pic_out p v (wh_board h)). Qed.

Lemma apic_window off : 0 <= off < 0x400 -> in_apic (0xFEE00000 + off) = true.
Proof. intros Ho. unfold in_apic. apply andb_true_iff. split; [apply Z.leb_le|apply Z.ltb_lt]; lia. Qed.

#[global] Program Instance whole_lapic : Lapic Whole := { lapic_at := 0xFEE00000; lapic_reg h := lapic_reg (wh_board h) }.
Next Obligation. lia. Qed.
Next Obligation.
  intros h off v Ho r. cbn [mmio_store whole_hw]. rewrite apic_window by done. exact (lapic_store (wh_board h) off v Ho r).
Qed.
Next Obligation.
  intros h off Ho. cbn [mmio_load whole_hw]. rewrite apic_window by done. pose proof (lapic_load (wh_board h) off Ho) as E.
  change lapic_at with 0xFEE00000 in E. by destruct (mmio_load _ (wh_board h)).
Qed.
Next Obligation.
  intros h r. cbn [timer_irqs whole_hw]. pose proof (lapic_time (wh_board h) r) as E. by destruct (timer_irqs (wh_board h)).
Qed.

#[global] Program Instance whole_clock : Clock Whole := {
  tick_wait := tick_wait (H := Bringup.DemoBoard); patience h := patience (wh_board h)
}.
Next Obligation. intros h. exact (patience_bound (wh_board h)). Qed.
Next Obligation.
  intros h. cbn [timer_irqs whole_hw]. pose proof (clock_look (wh_board h)) as E. by destruct (timer_irqs (wh_board h)).
Qed.

#[global] Program Instance whole_ipi : Ipi Whole := {
  ipis h := ipis (wh_board h); icr_busy h := icr_busy (wh_board h); icr_wait := icr_wait (H := Bringup.DemoBoard)
}.
Next Obligation. intros h. exact (icr_bound (wh_board h)). Qed.
Next Obligation.
  intros h off v Ho. cbn [mmio_store whole_hw]. change lapic_at with 0xFEE00000. rewrite apic_window by done.
  exact (ipi_store (wh_board h) off v Ho).
Qed.
Next Obligation.
  intros h. cbn [mmio_load whole_hw]. change lapic_at with 0xFEE00000. rewrite apic_window by (by vm_compute).
  pose proof (ipi_look (wh_board h)) as E. change lapic_at with 0xFEE00000 in E. by destruct (mmio_load _ (wh_board h)).
Qed.

#[global] Program Instance whole_board : Bringup.Board Whole.
Next Obligation.
  intros h. destruct (Bringup.pics_quiet (wh_board h)) as (E1 & E2 & E3 & E4 & E5). split_and!.
  - intros a v. cbn [mmio_store whole_hw]. case_match; [exact (E1 a v)|done].
  - intros a. cbn [mmio_load whole_hw]. specialize (E2 a). case_match; [by destruct (mmio_load a (wh_board h))|by destruct (mmio_load a (fixed_disk h))].
  - intros p. cbn [port_in8 whole_hw]. specialize (E3 p). by destruct (port_in8 p (wh_board h)).
  - cbn [timer_irqs whole_hw]. by destruct (timer_irqs (wh_board h)).
  - done.
Qed.
Next Obligation.
  intros h. destruct (Bringup.apic_quiet (wh_board h)) as [E1 E2]. by split.
Qed.
Next Obligation.
  intros h. destruct (Bringup.ipi_quiet (wh_board h)) as (E1 & E2 & E3 & E4 & E5). split_and!.
  - exact E1.
  - intros p. cbn [port_in8 whole_hw]. specialize (E2 p). by destruct (port_in8 p (wh_board h)).
  - intros a. cbn [mmio_load whole_hw]. specialize (E3 a). case_match; [by destruct (mmio_load a (wh_board h))|by destruct (mmio_load a (fixed_disk h))].
  - cbn [timer_irqs whole_hw]. by destruct (timer_irqs (wh_board h)).
  - done.
Qed.

#[global] Program Instance whole_ps2 : Bringup.Ps2 Whole := {
  ps2_left h := Bringup.ps2_left (wh_board h); ps2_room := Bringup.ps2_room (H := Bringup.DemoBoard)
}.
Next Obligation. intros h. exact (Bringup.ps2_bound (wh_board h)). Qed.
Next Obligation.
  intros h. cbn [port_in8 whole_hw]. pose proof (Bringup.ps2_status (wh_board h)) as E. by destruct (port_in8 0x64 (wh_board h)).
Qed.
Next Obligation.
  intros h Hne. cbn [port_in8 whole_hw]. pose proof (Bringup.ps2_data (wh_board h) Hne) as E. by destruct (port_in8 0x60 (wh_board h)).
Qed.

#[global] Program Instance whole_motherboard : Motherboard Whole.
Next Obligation.
  intros h. split; [done|]. intros q. cbn [port_in8 whole_hw]. by destruct (port_in8 q (wh_board h)).
Qed.
Next Obligation.
  intros h off Ho. change lapic_at with 0xFEE00000. cbn [mmio_store mmio_load whole_hw]. rewrite apic_window by done.
  split; [done|]. by destruct (mmio_load _ (wh_board h)).
Qed.
Next Obligation.
  intros h. cbn [timer_irqs ap_online whole_hw whole_aps]. by destruct (timer_irqs (wh_board h)), (ap_online (wh_board h)).
Qed.
Next Obligation. done. Qed.

(** The kernel of [Spaces] with its BSS at 1 MB, an archive at 0x110000, the
    ACPI tables of [Acpi], a blank disk behind the only function on the bus. *)
Definition demo_archive : list Z := archive demo_entries ++ replicate 1024 0.
Definition demo_image : mem := st_bytes demo_archive 0x110000 Acpi.demo_acpi.
Definition demo_space (a : Z) : Z :=
  if a =? 0x8000F800 then 0x29228086 else if a =? 0x8000F808 then 0x01060100 else if a =? 0x8000F80C then 0
  else if a mod 256 =? 0x24 then 0xFEBF1000 else 0xFFFFFFFF.
Definition demo_hw : Whole :=
  mkWhole Bringup.reset_board (AhciSpec.mkMachine (mkHba 0xFEBF1000 (fun _ _ => 0) (fun _ => zero_sector) 1000 ∅ demo_image) 0 demo_space).
Definition demo_program : Program :=
  mkProgram demo_statics (KERNEL_VMA_BASE + 0x100000, KERNEL_VMA_BASE + 0x107000) 0xFFFFFFFF80310000 0xFFFFFFFF80311000
    0xFFFFFFFF80312000 0xFFFFFFFF80314000 Gdt.Idt.demo_handlers 0xFFFFFFFF80201000 0xFFFFFFFF80400000 0xFFFFFFFF80202000 demo_layout.
Definition demo_boot_info : Loader.BootInfo :=
  Loader.mkInfo 0xE0000000 0x300000 1024 768 Bootmem.demo_regions 0x110000 (Z.of_nat (length demo_archive)).
Definition demo_power_on : Machine Whole :=
  mkMachine demo_hw (Cpu.s_cpu Cpu.demo_sys) 0x1000 (fun _ => 0) Gdt.Gdt.Gdt_new Gdt.Gdt.Tss_new Gdt.Idt.Idt_new PmmState_new [] 0 None
    (0, 0, false) Task.Scheduler_new 0 VFS [] None Splash [].

Lemma demo_offered q : q ∈ (⋃ (region_pages <$> Bootmem.demo_regions) : gset Z) -> 512 <= q.
Proof.
  revert q. apply (bool_decide_unpack (set_Forall (fun q => 512 <= q) (⋃ (region_pages <$> Bootmem.demo_regions) : gset Z))).
  vm_compute. exact I.
Qed.

Lemma demo_image_ok : mem_ok demo_image.
Proof. apply st_bytes_ok; [apply (bool_decide_unpack _); vm_compute; exact I|exact Acpi.demo_acpi_ok]. Qed.

Lemma demo_powered : power_on demo_program demo_boot_info 0x100000 0x101000 0x102000 demo_pd demo_power_on.
Proof.
  destruct Bootmem.demo_bootable as [B1 B2 B3 B4 B5]. constructor.
  - vm_compute. split; congruence.
  - reflexivity.
  - reflexivity.
  - reflexivity.
  - reflexivity.
  - constructor; [exact B1|exact demo_image_ok|exact B3|exact B4|exact B5].
  - repeat constructor; vm_compute; congruence.
  - split; [|cbn; lia]. constructor; cbn; try done; [exact demo_image_ok|intros x; by split; [|apply (bool_decide_unpack _); vm_compute]].
  - intros d _. cbn [cfg whole_config sim_config mc_space wh_disk demo_hw mc_hw demo_power_on]. unfold demo_space.
    match goal with |- context [?x =? 0x8000F800] => set (a := x) end. assert (a mod 256 = 0x24) as Ha by (unfold a; clear; dm_lia). clearbody a.
    repeat match goal with |- context [a =? ?k] => destruct (Z.eqb_spec a k) as [->|_]; [by vm_compute in Ha|] end. by rewrite Ha.
  - reflexivity.
  - by split.
  - reflexivity.
  - cbn. lia.
  - split_and!; vm_compute; first [reflexivity|congruence|split; congruence].
  - split_and!; vm_compute; first [reflexivity|congruence].
  - split; [vm_compute; congruence|apply (bool_decide_unpack _); vm_compute; exact I].
  - split; [intros Hin%demo_offered; lia|]. apply (bool_decide_unpack (_ ∉ _)). vm_compute. exact I.
Qed.

Lemma demo_archive_ok : ramdisk_of demo_boot_info demo_image = Some demo_archive.
Proof. unfold ramdisk_of. cbn [Loader.ramdisk_addr Loader.ramdisk_size demo_boot_info]. rewrite Nat2Z.id. unfold demo_image.
  by rewrite ld_bytes_st_bytes_same. Qed.

Lemma demo_ramdisk : ramdisk_ok demo_program demo_boot_info demo_power_on (omap entry_file demo_entries).
Proof.
  assert (Z.of_nat (length demo_archive) = 3072) as El by (vm_compute; reflexivity).
  constructor; cbn [Loader.ramdisk_addr Loader.ramdisk_size demo_boot_info]; rewrite ?El.
  - exists demo_archive. split; [exact demo_archive_ok|]. vm_compute. reflexivity.
  - lia.
  - right. vm_compute. congruence.
  - intros q Hq%demo_offered. unfold PAGE_SIZE. lia.
Qed.


(** The tables are found in every memory that agrees with the image on them. *)
Section tables.
Context (x : mem) (Hx : forall a, 0 <= a < 0x8000 \/ 0xE0000 <= a < 0x100000 -> x a = demo_image a).

Lemma demo_bytes n a : 0 <= a /\ a + Z.of_nat n <= 0x8000 \/ 0xE0000 <= a /\ a + Z.of_nat n <= 0x100000 ->
  ld_bytes x a n = ld_bytes demo_image a n.
Proof. intros Ha. apply ld_bytes_ext. intros y Hy. apply Hx. lia. Qed.

Lemma demo_ld n a : 0 <= a /\ a + Z.of_nat n <= 0x8000 \/ 0xE0000 <= a /\ a + Z.of_nat n <= 0x100000 -> ld n x a = ld n demo_image a.
Proof. intros Ha. unfold ld. by rewrite demo_bytes. Qed.

Lemma demo_rsdp : List.find (Acpi.is_rsdp x) (Acpi.rsdp_candidates (Some Bootmem.demo_regions)) = Some 0xF0000.
Proof.
  unfold Acpi.rsdp_candidates. rewrite find_app, (find_ext _ (Acpi.is_rsdp demo_image)).
  - assert (List.find (Acpi.is_rsdp demo_image) (Acpi.probes 0xE0000 0x100000) = Some 0xF0000) as -> by (vm_compute; reflexivity). done.
  - apply Forall_forall. intros a Ha. unfold Acpi.is_rsdp. rewrite demo_bytes; [done|].
    assert (Forall (fun a => 0xE0000 <= a /\ a + 8 <= 0x100000) (Acpi.probes 0xE0000 0x100000)) as Hp
      by (apply (bool_decide_unpack _); vm_compute; exact I).
    rewrite Forall_forall in Hp. specialize (Hp a Ha). lia.
Qed.

Lemma demo_madt_at : Acpi.find_madt x 0xF0000 = Some 0x2000.
Proof.
  unfold Acpi.find_madt, Acpi.rsdp_at. cbn [Acpi.revision Acpi.xsdt_addr]. rewrite (Hx (0xF0000 + 15)), (demo_ld 8 (0xF0000 + 24)) by lia.
  replace (demo_image (0xF0000 + 15)) with 2 by (vm_compute; reflexivity).
  replace (ld 8 demo_image (0xF0000 + 24)) with 0x1000 by (vm_compute; reflexivity).
  cbn [Z.leb]. unfold Acpi.find_table_xsdt, Acpi.sdt_entries, Acpi.sdt_length. rewrite (demo_ld 4 (0x1000 + 4)) by lia.
  replace (sat_sub _ _ / _) with 2 by (vm_compute; reflexivity). change (seqZ 0 2) with [0; 1]. cbn [fmap list_fmap].
  rewrite !(demo_ld 8) by (unfold Acpi.SDT_HEADER; lia).
  replace (ld 8 demo_image (0x1000 + Acpi.SDT_HEADER + Z.of_nat 8 * 0)) with 0x3000 by (vm_compute; reflexivity).
  replace (ld 8 demo_image (0x1000 + Acpi.SDT_HEADER + Z.of_nat 8 * 1)) with 0x2000 by (vm_compute; reflexivity).
  cbn [List.find]. unfold Acpi.has_sig. rewrite !demo_bytes by lia. vm_compute. reflexivity.
Qed.

Lemma demo_tables : mem_ok x -> exists bsp, Acpi.init x (Some Bootmem.demo_regions) = Ret (Some (Acpi.mkAcpi 0xFEE00000 [0; 3] bsp)).
Proof.
  intros Hm. apply (Acpi.madt_roundtrip x (Some Bootmem.demo_regions) 0xF0000 0x2000 (replicate 28 0) 0xFEE00000 1 Acpi.demo_ics).
  - exact Hm.
  - repeat constructor; vm_compute; congruence.
  - exact demo_rsdp.
  - exact demo_madt_at.
  - unfold Acpi.holds_bytes. rewrite demo_bytes by (vm_compute; left; split; congruence). vm_compute. reflexivity.
  - reflexivity.
  - unfold fits. lia.
  - repeat constructor; cbn; unfold fits; lia || (left; lia).
  - vm_compute. reflexivity.
Qed.
End tables.

Lemma demo_untouched l files m1 : running demo_program demo_boot_info 0x100000 0x102000 demo_pd l files demo_power_on m1 ->
  forall a, 0 <= a < 0x8000 \/ 0xE0000 <= a < 0x100000 -> memory m1 a = demo_image a.
Proof.
  intros [] a Ha. destruct rn_frames0 as [(_ & _ & Hfree & _) _]. destruct rn_space0.
  apply su_memory0; [lia|cbn; lia|].
  intros q [->|Hq]%elem_of_cons; [lia|].
  destruct (free_page demo_boot_info l (Bootmem.bt_base _ _ _ _ _ _ _ _ _ Bootmem.demo_bootable) Hfree q Hq) as [Hm Hin%demo_offered]. dm_lia.
Qed.

